(* ===== verification/_CoqProject ===== *)
-Q . S2P
Prelude.v
CStr.v
Lexicon.v
Dll.v
XaTypes.v
XaMap.v
XaPhys.v
Guest.v
PageTable.v
XaCache.v
XaAccess.v
Symbols.v
HexDump.v
XaStore.v
ProcList.v
Linux.v
SymAccess.v
WindowsPe.v
Windows.v
XaApi.v
Config.v
Grammar.v
ConfigText.v
XaCore.v
XaVm.v
XaLax.v
XaWin.v
XaFind.v
XaDomain.v
Console.v
ProcessList.v
ModuleList.v
DumpMemory.v
MapTools.v
PyXa.v
Paravirtual.v
PeDump.v
BitCount.v
KernelPd.v
DiskDir.v
DiskHash.v
DiskExt2.v
DiskList.v
DiskCore.v
DiskDriver.v
DiskLife.v
DiskSim.v
DiskRuns.v
