(* ===== verification/Prelude.v ===== *)
(** * XenAccess: a verification development

    XenAccess (src/libxa) reads the memory of Xen guests from outside: it maps
    a guest's frames through libxc, or those of an image file through mmap,
    walks the guest's page tables, and finds symbols, processes and modules in
    it.  libxadisk (src/libxadisk) watches directories on a guest's disk by
    the blocks that are written.  This library models both, the programs and
    the Python extension that use them, and proves what they do.

    ** The program's parts and the files that model them

    The library keeps its state in an instance ([xa_instance], XaTypes.v) with
    two caches of heap nodes; every operation takes the instance and calls the
    ones below it:

    - Prelude.v, CStr.v: machine integers with their wrap-around, the state
      and error monad, [runs] (a postcondition that includes termination and
      the absence of undefined behaviour), C strings and little-endian loads.
    - Dll.v: the heap of nodes and the doubly linked lists in it.
    - XaTypes.v: [xa_instance_t], the caches' entries, the world: what libxc
      and mmap were asked for, what is mapped, and the copies of strings that
      are allocated.  Class [XenEnv] is libxc, mmap and the clock.
    - XaMap.v, XaPhys.v: xa_file.c, the mapping half of xa_util.c, frames and
      physical addresses of xa_memory.c; XaPhys.v has the physical memory of
      every kind of guest as a function, with the pfn-to-mfn table that a
      paravirtual domain needs for it.
    - PageTable.v: page table walks of xa_memory.c.  Guest.v: a concrete guest.
    - XaCache.v: xa_cache.c, the LRU cache of addresses and the pid cache.
    - XaAccess.v: access by virtual address (xa_memory.c, xa_util.c); class
      [PidToPgd] is what it asks of an operating system.
    - Symbols.v, ProcList.v, Linux.v, SymAccess.v: xa_symbols.c,
      linux_memory.c, linux_symbols.c.  Linux.v has the instance of
      [PidToPgd].
    - WindowsPe.v, Windows.v, PeDump.v: windows_peparse.c, windows_memory.c,
      windows_process.c.
    - XaApi.v: the functions that choose between the operating systems.
    - XaStore.v: xa_domain_info.c, linux_domain_info.c, with the xenstore as
      class [StoreEnv].
    - Lexicon.v, Grammar.v, Config.v, ConfigText.v: config/lexicon.l,
      config/grammar.y, the configuration file as text, and
      tools/linux-offset-finder/findoffsets.c, which prints one.
    - XaCore.v, XaVm.v, XaLax.v, XaWin.v, XaFind.v, XaDomain.v: xa_core.c,
      xa_error.c, linux_core.c, windows_core.c: opening an image, a Linux
      domain (fully virtualised or paravirtual), a Windows domain (by either
      method of windows_core.c) and a domain without a configuration, the
      errors on the way, and closing.  Class [Opens] is what a program relies
      on when it opens a domain of any of these kinds.
    - BitCount.v, KernelPd.v: the search of memory for the kernel's page
      directory (end of xa_memory.c).
    - HexDump.v: xa_pretty_print.c.  Console.v, ProcessList.v, ModuleList.v,
      DumpMemory.v, MapTools.v: the programs of examples/.
    - PyXa.v: tools/pyxa/pyxamodule.c, with the interpreter as class
      [PythonEnv].  Paravirtual.v: a paravirtual domain, on which the theorems
      about opening, dumping and reading are applied.
    - DiskDir.v, DiskList.v, DiskHash.v, DiskExt2.v, DiskCore.v:
      xadisk_parse.c, xadisk_hash.c, xadisk_linux_ext2.c and the sequential
      part of xadisk_core.c.  Classes [DiskEnv] and [ReadEnv] are the image.
    - DiskDriver.v: xen/block-logaio.c, xen/block-logsync.c, xen/tapdisk.h on
      top of any driver of the daemon (an argument), class [FifoEnv].
    - DiskLife.v, DiskSim.v, DiskRuns.v: the threads of xadisk_core.c and
      monitor.c, class [LifeEnv].

    A C function is a definition of its name; the body of a loop has a name of
    its own ([..._step]).  A pointer into mapped memory is the mapping with an
    offset, a malloc'ed object an entry of a heap, an output parameter a
    result.  A copy that strdup makes is a block of [string_heap]: the name of
    a cache entry is a pointer to one ([owned_string]), reading or freeing it
    after it was freed is [Fault]; of the copies that the instance keeps
    ([sysmap], [image_type]) the block stays allocated.  Reading outside what is mapped, through NULL or through freed
    memory is [Fault]; a loop that has not ended when its fuel is used up is
    [Diverge].  The theorems about a function say that it gives [Ret].

    ** What the theorems show

    - Page tables: the walks give what the processor's tables give, in both
      paging modes; where 32-bit arithmetic makes them differ is stated.
    - Caches: the pointer code refines a function on lists of entries; any
      sequence of operations is free of memory errors and leaks no node, and
      the names that it leaks are those that xa_destroy_cache does not free;
      and a cache that agrees with the guest's memory is transparent, so that a
      symbol, a kernel address or a user address gives the same page cached or
      not.
    - Operating systems: page directories, processes, symbols and exports are
      found where the guest's data structures, described in the guest's own
      terms, say they are; the search for the kernel image finds the first
      place where memory has the headers of one.
    - Configuration: the scanner is longest match and makes of every piece of
      a file the token it should; the parser is the grammar, and what is printed
      is parsed back.
    - Physical memory: the pfn-to-mfn table is fetched once, whatever is
      translated afterwards, and unmapped when the instance is closed; an
      access behind it is not noticed.
    - Opening: the instance that opening a domain leaves is determined by the
      domain; of an image the same holds of what the code sets, the rest keeps
      the caller's values; a domain that is not configured
      opens in the lax mode only; and at the errors that both modes end at
      nothing is left mapped.
    - Programs: what each prints or writes, from the command line to the exit,
      and which mappings it leaves.
    - Disks: directory blocks round trip; the table is a stack per block; the
      logging drivers are transparent, and their records are what the watcher
      parses; a program that calls the library in order is safe and sequential
      under every interleaving of its thread, the FIFO thread and the driver,
      so that monitor.c prints exactly what the guest's writes change whose
      record the FIFO took; a record that the FIFO cuts makes the thread crash,
      and programs that do not wait for the thread reach states in which freed
      memory is used.

    Behaviour that is not what the code means to do is stated as it is, by
    theorems of its own (a cached symbol on page zero, a Windows image opened
    with page zero as its directory, wild unmapping in the Python extension,
    the races of the disk watcher, and others).

    ** Bounds and fuel

    Integers have the widths of a 32-bit build.  Loops over a counter or a list
    are structural.  The loops that follow data of the guest or scan memory
    are [iter] with fuel [n], an argument of the operations that contain them:
    the theorems ask for [n] above the number of turns (the nodes of a list
    ring, the frames of the memory) and so prove that the loop ends; where it
    does not end for any [n], that is a theorem ([dump_memory_diverges],
    [listdirs_diverges], the search for a process and the scan of KernelPd.v
    when the size of the memory wraps).  The caches' loops
    have the size of the heap as fuel, the scanner and the parser the length of
    their input, a directory block [DIRMAX + 1], a path its length; that these
    are enough is part of the theorems.  The steps of the disk watcher are a
    relation without fuel; [weight] bounds the steps of every run.

    The tables of the disk watcher hold 256 entries and 256 changes, and of a
    request the first 4096 bytes are logged: the theorems about it ask that
    these are, for watched blocks, directory blocks of at most 256 distinct
    names, any two of one block differing in at most 256.

    ** Not modelled

    - Debug output (xa_dbprint, xa_errprint, print_debug, print_dominfo, the
      debugging code of the parser) and messages on standard error, except
      those the disk library prints: they change no state.
    - What is not C code of the program: libxc, the xenstore, the kernel, the
      interpreter, the tap disk daemon are parameters with documented
      behaviour as hypotheses; pyxafs.py, patches, build files and notes.
    - Registration of Python types and of the kernel module: data for their
      hosts.
    - The build without Xen support (the stubs at the end of
      xa_domain_info.c).
    - In the disk watcher: two FIFO threads at once, and errors of read other
      than on a closed descriptor; a write to the FIFO is one step for the
      reader, and so is xadisk_set_watch while the thread runs.

    The theorems do not speak of Windows in a paravirtual domain, of the errors
    of linux_core.c and windows_core.c in the lax mode except where a theorem
    names them (the definitions cover both), or of several watchers on one
    table. *)

From Stdlib Require Export ZArith Lia.
From stdpp Require Export base decidable option list gmap numbers.

#[global] Open Scope Z_scope.

(** ** Machine integers

    The library targets ILP32: [int], [long] and pointers are 32 bits wide
    (the code says so itself, e.g. [fpp] is 1024 longs per 4096-byte page and
    [helper_destroy] unmaps [nr_pfns * 4] bytes).  An unsigned value of width
    [w] is a [Z] in [0, 2^w); wrap-around is written out with [u8] ... [u64];
    [s16] and [s32] are the two's complement readings. *)

Definition u8 (z : Z) : Z := z mod 256.
Definition u16 (z : Z) : Z := z mod 65536.
Definition u32 (z : Z) : Z := z mod 4294967296.
Definition u64 (z : Z) : Z := z mod 18446744073709551616.
Definition s16 (z : Z) : Z := (z + 32768) mod 65536 - 32768.
Definition s32 (z : Z) : Z := (z + 2147483648) mod 4294967296 - 2147483648.

Abbreviation is_u8 z := (0 <= z < 256).
Abbreviation is_u16 z := (0 <= z < 65536).
Abbreviation is_u32 z := (0 <= z < 4294967296).
Abbreviation is_u64 z := (0 <= z < 18446744073709551616).

Create HintDb xa.

Lemma u8_range z : is_u8 (u8 z).
Proof. unfold u8. apply Z.mod_pos_bound. lia. Qed.
Lemma u16_range z : is_u16 (u16 z).
Proof. unfold u16. apply Z.mod_pos_bound. lia. Qed.
Lemma u32_range z : is_u32 (u32 z).
Proof. unfold u32. apply Z.mod_pos_bound. lia. Qed.
Lemma u64_range z : is_u64 (u64 z).
Proof. unfold u64. apply Z.mod_pos_bound. lia. Qed.

Lemma u32_small z : is_u32 z -> u32 z = z.
Proof. intros. unfold u32. by apply Z.mod_small. Qed.
Lemma u64_small z : is_u64 z -> u64 z = z.
Proof. intros. unfold u64. by apply Z.mod_small. Qed.
Lemma u32_idem z : u32 (u32 z) = u32 z.
Proof. apply u32_small, u32_range. Qed.

Lemma s32_range z : -2147483648 <= s32 z < 2147483648.
Proof.
  unfold s32. pose proof (Z.mod_pos_bound (z + 2147483648) 4294967296). lia.
Qed.
Lemma s32_small z : -2147483648 <= z < 2147483648 -> s32 z = z.
Proof. intros. unfold s32. rewrite Z.mod_small; lia. Qed.

#[export] Hint Resolve u8_range u16_range u32_range u64_range : xa.

(** ** Bit masks as arithmetic *)

Lemma land_low x k : 0 <= k -> Z.land x (Z.ones k) = x mod 2 ^ k.
Proof. intros. by apply Z.land_ones. Qed.

(** Clearing the low [k] bits of a [w]-bit value. *)
Lemma land_high w k x :
  0 <= k <= w -> 0 <= x < 2 ^ w ->
  Z.land x (Z.shiftl (Z.ones (w - k)) k) = x / 2 ^ k * 2 ^ k.
Proof.
  intros Hk Hx. rewrite <- Z.shiftl_mul_pow2, <- Z.shiftr_div_pow2 by lia.
  apply Z.bits_inj'. intros n Hn.
  rewrite Z.land_spec, !Z.shiftl_spec by lia.
  destruct (Z.ltb_spec n k).
  - rewrite (Z.testbit_neg_r (Z.ones _)), (Z.testbit_neg_r (Z.shiftr _ _)) by lia.
    by rewrite andb_false_r.
  - rewrite Z.shiftr_spec by lia. replace (n - k + k) with n by lia.
    destruct (Z.ltb_spec n w).
    + rewrite Z.ones_spec_low by lia. by rewrite andb_true_r.
    + rewrite Z.ones_spec_high by lia. rewrite andb_false_r.
      symmetry. rewrite <- (Z.mod_small x (2 ^ w)) by lia.
      apply Z.mod_pow2_bits_high. lia.
Qed.

(** Joining a frame address with an offset below it. *)
Lemma lor_add a b k :
  0 <= k -> a mod 2 ^ k = 0 -> 0 <= b < 2 ^ k -> Z.lor a b = a + b.
Proof.
  intros Hk Ha Hb. symmetry. rewrite <- Z.lxor_lor, Z.add_nocarry_lxor; [done| |].
  all: apply Z.bits_inj'; intros n Hn; rewrite Z.land_spec, Z.bits_0;
    destruct (Z.ltb_spec n k);
    [ replace (Z.testbit a n) with false; [done|]
    | replace (Z.testbit b n) with false; [apply andb_false_r|] ];
    symmetry.
  1,3: apply Z.mod_divide in Ha; [|lia]; destruct Ha as [q ->];
       apply Z.mul_pow2_bits_low; lia.
  all: rewrite <- (Z.mod_small b (2 ^ k)) by lia; apply Z.mod_pow2_bits_high; lia.
Qed.

Lemma div_mul_mod x k : 0 < k -> (x / k * k) mod k = 0.
Proof. intros. apply Z.mod_mul. lia. Qed.

Lemma div_mul_range x k b : 0 < k -> 0 <= x < b -> 0 <= x / k * k < b.
Proof.
  intros. pose proof (Z.div_mod x k). pose proof (Z.mod_pos_bound x k).
  assert (0 <= x / k) by (apply Z.div_pos; lia). nia.
Qed.

(** Testing one bit with a shifted mask, as [xa_get_bit] does. *)
Lemma land_bit x k : 0 <= k -> Z.land x (Z.shiftl 1 k) = if Z.testbit x k then 2 ^ k else 0.
Proof.
  intros Hk. rewrite Z.shiftl_1_l. apply Z.bits_inj'. intros n Hn.
  rewrite Z.land_spec, Z.pow2_bits_eqb by lia.
  destruct (Z.eqb_spec k n) as [->|Hne].
  - rewrite andb_true_r. destruct (Z.testbit x n) eqn:E.
    + by rewrite Z.pow2_bits_true.
    + by rewrite Z.bits_0.
  - rewrite andb_false_r. destruct (Z.testbit x k).
    + by rewrite Z.pow2_bits_false.
    + by rewrite Z.bits_0.
Qed.

(** ** Outcomes and the state monad

    A C function either returns, has undefined behaviour (dereferences NULL
    or a freed node, reads outside a mapped page or an array), or, when the
    model's fuel runs out, has not returned yet.  The three are kept apart so
    that "returns" is a theorem and never an assumption. *)

Inductive result (A : Type) : Type :=
| Ret (a : A)
| Fault
| Diverge.
Arguments Ret {A} a.
Arguments Fault {A}.
Arguments Diverge {A}.

Definition M (S A : Type) : Type := S -> result (A * S).

#[export] Instance M_ret S : MRet (M S) := fun A a s => Ret (a, s).
#[export] Instance M_bind S : MBind (M S) := fun A B k m s =>
  match m s with
  | Ret (a, s') => k a s'
  | Fault => Fault
  | Diverge => Diverge
  end.

(** Computations without a state. *)
#[export] Instance result_ret : MRet result := fun A a => Ret a.
#[export] Instance result_bind : MBind result := fun A B k r =>
  match r with Ret a => k a | Fault => Fault | Diverge => Diverge end.

Definition fault {S A} : M S A := fun _ => Fault.
Definition diverge {S A} : M S A := fun _ => Diverge.
Definition gets {S A} (f : S -> A) : M S A := fun s => Ret (f s, s).
Definition modify {S} (f : S -> S) : M S unit := fun s => Ret (tt, f s).

(** [assert_m b] continues when [b] holds and is undefined behaviour
    otherwise: the guard of every modelled memory access. *)
Definition assert_m {S} (b : bool) : M S unit := if b then mret tt else fault.

Definition of_option {S A} (o : option A) : M S A :=
  match o with Some a => mret a | None => fault end.

(** Runs a computation on one component of a larger state. *)
Definition zoom {S T A} (get : S -> T) (put : T -> S -> S) (m : M T A) : M S A :=
  fun s => match m (get s) with
           | Ret (a, t) => Ret (a, put t s)
           | Fault => Fault
           | Diverge => Diverge
           end.

(** [while]/[for] loops: the body answers [inl a] to go round again with the
    loop variables [a], or [inr b] to leave the loop with [b]. *)
Fixpoint iter {S A B} (fuel : nat) (body : A -> M S (A + B)) (a : A) : M S B :=
  match fuel with
  | O => diverge
  | S n => r ← body a;
           match r with
           | inl a' => iter n body a'
           | inr b => mret b
           end
  end.

(** ** Total correctness

    [runs m s Q]: started in [s], [m] returns, and [Q] holds of the value and
    the state it leaves. *)

Definition runs {S A} (m : M S A) (s : S) (Q : A -> S -> Prop) : Prop :=
  exists a s', m s = Ret (a, s') /\ Q a s'.

Section Runs.
Context {S A B : Type}.
Implicit Types (m : M S A) (k : A -> M S B) (s : S).

Lemma runs_ret (a : A) s (Q : A -> S -> Prop) : Q a s -> runs (mret a) s Q.
Proof. intros. by exists a, s. Qed.

Lemma runs_bind m k s (Q : B -> S -> Prop) :
  runs m s (fun a s' => runs (k a) s' Q) -> runs (m ≫= k) s Q.
Proof.
  intros (a & s' & Hm & b & s'' & Hk & HQ). exists b, s''.
  split; [|done]. unfold mbind, M_bind. by rewrite Hm.
Qed.

Lemma runs_mono m s (P Q : A -> S -> Prop) :
  runs m s P -> (forall a s', P a s' -> Q a s') -> runs m s Q.
Proof. intros (a & s' & Hm & HP) HPQ. exists a, s'. auto. Qed.

Lemma runs_gets (f : S -> A) s (Q : A -> S -> Prop) : Q (f s) s -> runs (gets f) s Q.
Proof. intros. by exists (f s), s. Qed.

Lemma runs_modify (f : S -> S) s (Q : unit -> S -> Prop) :
  Q tt (f s) -> runs (modify f) s Q.
Proof. intros. by exists tt, (f s). Qed.

Lemma runs_assert (b : bool) s (Q : unit -> S -> Prop) :
  b = true -> Q tt s -> runs (assert_m b) s Q.
Proof. intros -> ?. by exists tt, s. Qed.

Lemma runs_of_option (o : option A) (a : A) s (Q : A -> S -> Prop) :
  o = Some a -> Q a s -> runs (of_option o) s Q.
Proof. intros -> ?. by exists a, s. Qed.

(** A computation that returns a known value in a known state. *)
Lemma runs_eq m s a s' (Q : A -> S -> Prop) :
  m s = Ret (a, s') -> Q a s' -> runs m s Q.
Proof. intros. by exists a, s'. Qed.

Lemma runs_inv m s (Q : A -> S -> Prop) a s' :
  runs m s Q -> m s = Ret (a, s') -> Q a s'.
Proof. intros (a0 & s0 & E & HQ) E'. rewrite E in E'. by injection E' as <- <-. Qed.

Lemma bind_ret_l (a : A) k s : (mret a ≫= k) s = k a s.
Proof. done. Qed.

Lemma bind_eq m k s a s' : m s = Ret (a, s') -> (m ≫= k) s = k a s'.
Proof. intros E. unfold mbind, M_bind. by rewrite E. Qed.
End Runs.

Lemma runs_zoom {S T A} (get : S -> T) (put : T -> S -> S) (m : M T A) s
    (Q : A -> S -> Prop) :
  runs m (get s) (fun a t => Q a (put t s)) -> runs (zoom get put m) s Q.
Proof.
  intros (a & t & E & HQ). exists a, (put t s). unfold zoom. by rewrite E.
Qed.

(** The rule for loops: an invariant and a measure that decreases; fuel above
    the measure is enough. *)
Lemma runs_iter {S A B} (body : A -> M S (A + B)) (I : A -> S -> Prop)
    (mu : A -> S -> nat) (Q : B -> S -> Prop) fuel a s :
  (forall a s, I a s ->
     runs (body a) s (fun r s' =>
       match r with
       | inl a' => I a' s' /\ (mu a' s' < mu a s)%nat
       | inr b => Q b s'
       end)) ->
  I a s -> (mu a s < fuel)%nat -> runs (iter fuel body a) s Q.
Proof.
  intros Hbody. revert a s. induction fuel as [|fuel IH]; intros a s HI Hf; [lia|].
  cbn [iter]. apply runs_bind. eapply runs_mono; [by apply Hbody|].
  intros [a'|b] s' H.
  - destruct H as [HI' Hmu]. apply IH; [done|lia].
  - by apply runs_ret.
Qed.

(** One turn of a loop. *)
Lemma runs_iter_step {S A B} (body : A -> M S (A + B)) n a s (Q : B -> S -> Prop) :
  runs (body a) s (fun r s' =>
    match r with inl a' => runs (iter n body a') s' Q | inr b => Q b s' end) ->
  runs (iter (Datatypes.S n) body a) s Q.
Proof.
  intros H. cbn [iter]. apply runs_bind. eapply runs_mono; [exact H|].
  intros [a'|b] s' HQ; [done|by apply runs_ret].
Qed.

Lemma iter_S {S A B} (body : A -> M S (A + B)) n a s :
  iter (Datatypes.S n) body a s =
  (r ← body a; match r with inl a' => iter n body a' | inr b => mret b end) s.
Proof. done. Qed.

(** More fuel never changes an answer. *)
Lemma iter_fuel_mono {S A B} (body : A -> M S (A + B)) n n' a s r :
  (n <= n')%nat -> iter n body a s = Ret r -> iter n' body a s = Ret r.
Proof.
  revert n' a s. induction n as [|n IH]; intros n' a s Hle; [done|].
  destruct n' as [|n']; [lia|]. cbn [iter]. unfold mbind, M_bind.
  destruct (body a s) as [[[a'|b] s']| |]; try done. apply IH. lia.
Qed.

#[global] Arguments iter : simpl never.
#[export] Hint Resolve runs_ret : xa.

(** ** Searching lists *)

Section Split.
Context {A : Type}.
Implicit Types (f : A -> bool) (l : list A).

(** The list cut at the first element that passes the test. *)
Fixpoint split_first f l : option (list A * A * list A) :=
  match l with
  | [] => None
  | a :: l' =>
      if f a then Some ([], a, l')
      else match split_first f l' with
           | Some (pre, x, post) => Some (a :: pre, x, post)
           | None => None
           end
  end.

Lemma split_first_app f pre a post :
  f a = true -> Forall (fun x => f x = false) pre ->
  split_first f (pre ++ a :: post) = Some (pre, a, post).
Proof.
  intros Ha. induction 1 as [|x pre Hx Hpre IH]; simpl; [by rewrite Ha|].
  by rewrite Hx, IH.
Qed.

Lemma split_first_None f l : Forall (fun x => f x = false) l -> split_first f l = None.
Proof. induction 1 as [|x l Hx Hl IH]; simpl; [done|]. by rewrite Hx, IH. Qed.

Lemma split_first_Some f l pre a post :
  split_first f l = Some (pre, a, post) ->
  l = pre ++ a :: post /\ f a = true /\ Forall (fun x => f x = false) pre.
Proof.
  revert pre. induction l as [|x l IH]; intros pre; simpl; [done|].
  destruct (f x) eqn:E; [intros [= <- <- <-]; done|].
  destruct (split_first f l) as [[[pre' a'] post']|]; [|done].
  intros [= <- <- <-]. destruct (IH pre') as (-> & Hf & Hp); [done|].
  split_and!; [done|done|by constructor].
Qed.

Lemma split_first_is_None f l : split_first f l = None -> Forall (fun x => f x = false) l.
Proof.
  induction l as [|x l IH]; simpl; [constructor|]. destruct (f x) eqn:E; [done|].
  destruct (split_first f l) as [[[? ?] ?]|]; [done|]. constructor; auto.
Qed.

(** The list cut at its first minimum. *)
Fixpoint split_min (key : A -> Z) l : option (list A * A * list A) :=
  match l with
  | [] => None
  | a :: l' =>
      match split_min key l' with
      | Some (pre, x, post) =>
          if key x <? key a then Some (a :: pre, x, post) else Some ([], a, l')
      | None => Some ([], a, l')
      end
  end.

Definition is_first_min (key : A -> Z) pre a post : Prop :=
  Forall (fun x => key a < key x) pre /\ Forall (fun x => key a <= key x) post.

Lemma split_min_Some key l pre a post :
  split_min key l = Some (pre, a, post) -> l = pre ++ a :: post /\ is_first_min key pre a post.
Proof.
  revert pre a post. induction l as [|x l IH]; intros pre a post; simpl; [done|].
  destruct (split_min key l) as [[[pre' a'] post']|] eqn:E.
  - destruct (IH _ _ _ eq_refl) as (-> & H1 & H2).
    destruct (Z.ltb_spec (key a') (key x)); intros [= <- <- <-]; (split; [done|]);
      (split; [|]); try by repeat constructor.
    apply Forall_app. split; [|constructor; [done|]].
    + eapply Forall_impl; [|exact H1]. simpl. intros. lia.
    + eapply Forall_impl; [|exact H2]. simpl. intros. lia.
  - intros [= <- <- <-]. split; [done|]. split; [constructor|].
    destruct l as [|y l]; [constructor|]. simpl in E.
    destruct (split_min key l) as [[[? ?] ?]|]; [destruct (_ <? _)|]; done.
Qed.

(** The first minimum is unique, so any split at one is [split_min]. *)
Lemma split_min_app key pre a post :
  is_first_min key pre a post -> split_min key (pre ++ a :: post) = Some (pre, a, post).
Proof.
  intros [H1 H2]. induction pre as [|x pre IH]; simpl.
  - destruct (split_min key post) as [[[pre' a'] post']|] eqn:E; [|done].
    apply split_min_Some in E as [-> _].
    apply Forall_app in H2 as [_ [Ha' _]%list.Forall_cons].
    destruct (Z.ltb_spec (key a') (key a)); [lia|done].
  - apply list.Forall_cons in H1 as [Hx H1]. rewrite IH by done.
    by rewrite (proj2 (Z.ltb_lt _ _)).
Qed.
End Split.

(** ** Tactics *)

(** Splits every boolean test and every [match] of the goal. *)
Ltac case_all := repeat case_match; simplify_eq/=.

(** Turns boolean comparisons in hypotheses into propositions. *)
Ltac zbool :=
  repeat match goal with
  | H : (_ =? _) = true |- _ => apply Z.eqb_eq in H
  | H : (_ =? _) = false |- _ => apply Z.eqb_neq in H
  | H : (_ <? _) = true |- _ => apply Z.ltb_lt in H
  | H : (_ <? _) = false |- _ => apply Z.ltb_ge in H
  | H : (_ <=? _) = true |- _ => apply Z.leb_le in H
  | H : (_ <=? _) = false |- _ => apply Z.leb_gt in H
  | H : negb _ = true |- _ => apply negb_true_iff in H
  | H : negb _ = false |- _ => apply negb_false_iff in H
  | H : (_ && _)%bool = true |- _ => apply andb_true_iff in H; destruct H
  | H : (_ || _)%bool = false |- _ => apply orb_false_iff in H; destruct H
  end.
