(* ===== verification/CStr.v ===== *)
(** * C strings and bytes

    NUL-terminated strings are the lists of their bytes, without the
    terminator.  This file has the libc functions the program calls on them
    and the little-endian loads it makes from mapped memory. *)

From Stdlib Require Import Ascii String.
From S2P Require Import Prelude.

Definition cstr : Type := list Z.

(** A literal of the source as its bytes. *)
Definition str (s : string) : cstr :=
  (fun c => Z.of_N (N_of_ascii c)) <$> list_ascii_of_string s.

(** [strcmp]: only the sign of the result is specified; -1, 0 and 1 here. *)
Fixpoint strcmp (a b : cstr) : Z :=
  match a, b with
  | [], [] => 0
  | [], _ :: _ => -1
  | _ :: _, [] => 1
  | x :: a', y :: b' => if x <? y then -1 else if y <? x then 1 else strcmp a' b'
  end.

Definition strncmp (a b : cstr) (n : nat) : Z := strcmp (take n a) (take n b).

Definition strndup (a : cstr) (n : nat) : cstr := take n a.

(** [isspace] in the C locale. *)
Definition isspace (c : Z) : bool := (c =? 32) || ((9 <=? c) && (c <=? 13)).

(** [isprint] in the C locale. *)
Definition isprint (c : Z) : bool := (32 <=? c) && (c <=? 126).

Lemma strcmp_refl a : strcmp a a = 0.
Proof. induction a as [|x a IH]; simpl; [done|]. by rewrite Z.ltb_irrefl. Qed.

Lemma strcmp_eq a b : strcmp a b = 0 <-> a = b.
Proof.
  split; [|intros ->; apply strcmp_refl].
  revert b. induction a as [|x a IH]; intros [|y b]; simpl; try done.
  destruct (Z.ltb_spec x y); [done|]. destruct (Z.ltb_spec y x); [done|].
  intros E. f_equal; [lia|by apply IH].
Qed.

Lemma strcmp_antisym a b : strcmp b a = - strcmp a b.
Proof.
  revert b. induction a as [|x a IH]; intros [|y b]; simpl; try done.
  destruct (Z.ltb_spec x y), (Z.ltb_spec y x); try done; lia.
Qed.

Lemma strcmp_trans a b c : strcmp a b < 0 -> strcmp b c < 0 -> strcmp a c < 0.
Proof.
  revert b c. induction a as [|x a IH]; intros [|y b] [|z c]; simpl; try done; try lia.
  destruct (Z.ltb_spec x y), (Z.ltb_spec y z), (Z.ltb_spec x z), (Z.ltb_spec y x),
    (Z.ltb_spec z y), (Z.ltb_spec z x); try lia. apply IH.
Qed.

Lemma strncmp_eq a b n : strncmp a b n = 0 <-> take n a = take n b.
Proof. apply strcmp_eq. Qed.

Lemma strncmp_long a b n :
  (length a <= n)%nat -> (length b <= n)%nat -> strncmp a b n = 0 <-> a = b.
Proof. intros. rewrite strncmp_eq. by rewrite !take_ge by lia. Qed.

(** Lexicographic order, as a relation with its decision procedure. *)
Definition str_le (a b : cstr) : Prop := strcmp a b <= 0.
Definition str_lt (a b : cstr) : Prop := strcmp a b < 0.

#[export] Instance str_le_dec : RelDecision str_le.
Proof. intros a b. unfold str_le. apply _. Defined.
#[export] Instance str_lt_dec : RelDecision str_lt.
Proof. intros a b. unfold str_lt. apply _. Defined.

Lemma str_le_lteq a b : str_le a b <-> str_lt a b \/ a = b.
Proof.
  unfold str_le, str_lt. rewrite <- strcmp_eq. lia.
Qed.

#[export] Instance str_lt_trans : Transitive str_lt.
Proof. intros a b c. apply strcmp_trans. Qed.

#[export] Instance str_lt_irrefl : Irreflexive str_lt.
Proof. intros a. unfold str_lt, complement. rewrite strcmp_refl. lia. Qed.

#[export] Instance str_le_preorder : PreOrder str_le.
Proof.
  split.
  - intros a. apply str_le_lteq. by right.
  - intros a b c [Hab| ->]%str_le_lteq Hbc; [|done].
    apply str_le_lteq. left. apply str_le_lteq in Hbc as [Hbc| <-]; [|done].
    by etrans.
Qed.

#[export] Instance str_le_antisymm : AntiSymm (=) str_le.
Proof.
  intros a b Ha Hb. apply strcmp_eq. unfold str_le in *. rewrite strcmp_antisym in Hb. lia.
Qed.

#[export] Instance str_le_total : Total str_le.
Proof. intros a b. unfold str_le. rewrite (strcmp_antisym a b). lia. Qed.

Lemma str_nle_lt a b : ~ str_le a b <-> str_lt b a.
Proof. unfold str_le, str_lt. rewrite (strcmp_antisym a b). lia. Qed.

(** ** Little-endian integers *)

Fixpoint le_combine (bs : list Z) : Z :=
  match bs with
  | [] => 0
  | b :: bs' => b + 256 * le_combine bs'
  end.

Fixpoint le_split (n : nat) (z : Z) : list Z :=
  match n with
  | O => []
  | S n' => z mod 256 :: le_split n' (z / 256)
  end.

Lemma length_le_split n z : length (le_split n z) = n.
Proof. revert z. induction n; intros; simpl; auto. Qed.

Lemma le_combine_split n z : le_combine (le_split n z) = z mod 256 ^ Z.of_nat n.
Proof.
  revert z. induction n as [|n IH]; intros z; simpl le_split; simpl le_combine.
  - by rewrite Z.mod_1_r.
  - rewrite IH, Nat2Z.inj_succ, Z.pow_succ_r, Z.rem_mul_r by lia. done.
Qed.

Lemma le_split_combine bs :
  Forall (fun b => is_u8 b) bs -> le_split (length bs) (le_combine bs) = bs.
Proof.
  induction 1 as [|b bs Hb Hbs IH]; simpl; [done|].
  rewrite (Z.mul_comm 256), Z.mod_add, Z.div_add, Z.div_small, Z.mod_small by lia.
  by rewrite Z.add_0_l, IH.
Qed.

Lemma le_combine_range bs :
  Forall (fun b => is_u8 b) bs -> 0 <= le_combine bs < 256 ^ Z.of_nat (length bs).
Proof.
  induction 1 as [|b bs Hb Hbs IH]; simpl length; simpl le_combine; [lia|].
  rewrite Nat2Z.inj_succ, Z.pow_succ_r by lia. lia.
Qed.

Lemma le_split_bytes n z : Forall (fun b => is_u8 b) (le_split n z).
Proof.
  revert z. induction n; intros; simpl; constructor; auto.
  apply Z.mod_pos_bound. lia.
Qed.
