(* ===== verification/Lexicon.v ===== *)
(** * The scanner of the configuration file

    Models config/lexicon.l: the rules are a table of regular expressions and
    actions, and flex's choice among them, the longest match and of equally
    long ones the first rule, is computed with derivatives.  The scanner is
    proved equal to that choice stated on the languages of the expressions, and
    to give for every piece of a file the token that it stands for, which is
    said without the rules. *)

From Stdlib Require Import String ZifyBool.
From S2P Require Import Prelude CStr.

(** ** Regular expressions over bytes *)

Inductive re :=
| Empty
| Eps
| Cls (p : Z -> bool)
| Seq (a b : re)
| Alt (a b : re)
| Star (a : re).

Inductive matches : re -> list Z -> Prop :=
| m_eps : matches Eps []
| m_cls p c : p c = true -> matches (Cls p) [c]
| m_seq a b s t : matches a s -> matches b t -> matches (Seq a b) (s ++ t)
| m_alt_l a b s : matches a s -> matches (Alt a b) s
| m_alt_r a b s : matches b s -> matches (Alt a b) s
| m_star_nil a : matches (Star a) []
| m_star_app a s t : matches a s -> matches (Star a) t -> matches (Star a) (s ++ t).

Definition Plus (a : re) : re := Seq a (Star a).

(** A literal *)
Fixpoint lit (s : cstr) : re :=
  match s with [] => Eps | c :: s' => Seq (Cls (Z.eqb c)) (lit s') end.

Fixpoint nullable (r : re) : bool :=
  match r with
  | Empty | Cls _ => false
  | Eps | Star _ => true
  | Seq a b => nullable a && nullable b
  | Alt a b => nullable a || nullable b
  end.

(** Constructors that keep derivatives small. *)
Definition seq_ (a b : re) : re :=
  match a with Empty => Empty | Eps => b | _ => Seq a b end.

Definition alt_ (a b : re) : re :=
  match a, b with Empty, _ => b | _, Empty => a | _, _ => Alt a b end.

Fixpoint deriv (c : Z) (r : re) : re :=
  match r with
  | Empty | Eps => Empty
  | Cls p => if p c then Eps else Empty
  | Seq a b => alt_ (seq_ (deriv c a) b) (if nullable a then deriv c b else Empty)
  | Alt a b => alt_ (deriv c a) (deriv c b)
  | Star a => seq_ (deriv c a) (Star a)
  end.

(** The length of the longest prefix in the language. *)
Fixpoint longest (r : re) (s : list Z) : option nat :=
  match r with
  | Empty => None
  | _ =>
      let here := if nullable r then Some 0%nat else None in
      match s with
      | [] => here
      | c :: s' => match longest (deriv c r) s' with Some n => Some (S n) | None => here end
      end
  end.

(** ** The rules *)

(** The tokens of grammar.y. *)
Inductive token :=
| NUM (s : cstr)
| LINUX_TASKS | LINUX_MM | LINUX_PID | LINUX_NAME | LINUX_PGD | LINUX_ADDR
| WIN_NTOSKRNL | WIN_TASKS | WIN_PDBASE | WIN_PID | WIN_PEB | WIN_IBA | WIN_PH
| SYSMAPTOK | OSTYPETOK
| WORD (s : cstr)
| FILENAME (s : cstr)
| QUOTE | OBRACE | EBRACE | SEMICOLON | EQUALS.

Definition is_digit (c : Z) : bool := (48 <=? c) && (c <=? 57).
Definition is_alpha (c : Z) : bool :=
  ((97 <=? c) && (c <=? 122)) || ((65 <=? c) && (c <=? 90)).
Definition is_hex (c : Z) : bool :=
  is_digit c || ((97 <=? c) && (c <=? 102)) || ((65 <=? c) && (c <=? 70)).
(** [[a-zA-Z0-9.-]] *)
Definition word_char (c : Z) : bool := is_alpha c || is_digit c || (c =? 46) || (c =? 45).
(** [[a-zA-Z0-9\/.-]] *)
Definition file_char (c : Z) : bool := word_char c || (c =? 47).

(** What a rule does with [yytext]: return a token or go on. *)
Abbreviation lex_action := (cstr -> option token).

Definition keyword (s : string) (t : token) : re * lex_action := (lit (str s), fun _ => Some t).

Definition lexicon : list (re * lex_action) := [
  keyword "linux_tasks" LINUX_TASKS;
  keyword "linux_mm" LINUX_MM;
  keyword "linux_pid" LINUX_PID;
  keyword "linux_pgd" LINUX_PGD;
  keyword "linux_addr" LINUX_ADDR;
  keyword "ntoskrnl" WIN_NTOSKRNL;
  keyword "win_tasks" WIN_TASKS;
  keyword "win_pdbase" WIN_PDBASE;
  keyword "win_pid" WIN_PID;
  keyword "win_peb" WIN_PEB;
  keyword "win_iba" WIN_IBA;
  keyword "win_ph" WIN_PH;
  keyword "sysmap" SYSMAPTOK;
  keyword "ostype" OSTYPETOK;
  (Alt (Seq (lit (str "0x")) (Plus (Cls is_hex))) (Plus (Cls is_digit)), fun s => Some (NUM s));
  (Seq (Cls is_alpha) (Plus (Cls word_char)), fun s => Some (WORD s));
  (Plus (Cls file_char), fun s => Some (FILENAME s));
  (Cls (Z.eqb 34), fun _ => Some QUOTE);
  (Cls (Z.eqb 123), fun _ => Some OBRACE);
  (Cls (Z.eqb 125), fun _ => Some EBRACE);
  (Cls (Z.eqb 59), fun _ => Some SEMICOLON);
  (Cls (Z.eqb 61), fun _ => Some EQUALS);
  (Cls (Z.eqb 10), fun _ => None); (* ignore EOL *)
  (Plus (Cls (fun c => (c =? 32) || (c =? 9))), fun _ => None); (* ignore whitespace *)
  (Seq (Cls (Z.eqb 35)) (Seq (Star (Cls (fun c => negb (c =? 10)))) (Cls (Z.eqb 10))),
   fun _ => None) (* ignore comment lines *)
].

(** The rule with the longest match, the first of equally long ones. *)
Fixpoint best (rules : list (re * lex_action)) (s : list Z) : option (nat * lex_action) :=
  match rules with
  | [] => None
  | (r, a) :: rules' =>
      match longest r s, best rules' s with
      | Some n, Some (m, b) => if (m <=? n)%nat then Some (n, a) else Some (m, b)
      | Some n, None => Some (n, a)
      | None, x => x
      end
  end.

(** All the tokens [yylex] returns for a text; a byte that no rule matches is
    copied to the output by flex's default rule. *)
Fixpoint scan (fuel : nat) (s : list Z) : list token :=
  match fuel, s with
  | S f, _ :: s' =>
      match best lexicon s with
      | Some (S k, a) =>
          let rest := scan f (drop (S k) s) in
          match a (take (S k) s) with Some t => t :: rest | None => rest end
      | _ => scan f s'
      end
  | _, _ => []
  end.

Definition yylex (s : list Z) : list token := scan (length s) s.

(** ** Derivatives compute the language *)

#[local] Hint Constructors matches : core.

Lemma nullable_matches r : nullable r = true <-> matches r [].
Proof.
  assert (H : forall r s, matches r s -> s = [] -> nullable r = true).
  { induction 1 as [|p c|a b s t Ha IHa Hb IHb|a b s Ha IHa|a b s Hb IHb|a|a s t Ha IHa Hs IHs];
      intros E; try discriminate; cbn [nullable]; try done.
    - apply app_eq_nil in E as [-> ->]. by rewrite IHa, IHb.
    - by rewrite IHa.
    - by rewrite IHb, orb_true_r. }
  split; [|intros Hm; by eapply H].
  induction r as [| |p|a IHa b IHb|a IHa b IHb|a IHa]; cbn [nullable]; try done; auto.
  - intros [Ha Hb]%andb_true_iff. apply (m_seq a b [] []); auto.
  - intros [Ha|Hb]%orb_true_iff; auto.
Qed.

Lemma matches_seq_ a b s : matches (seq_ a b) s <-> matches (Seq a b) s.
Proof.
  destruct a; cbn [seq_]; try done.
  - split; intros H; inversion H; subst. by match goal with H : matches Empty _ |- _ => inversion H end.
  - split; intros H; [by apply (m_seq Eps b [] s)|]. inversion H; subst.
    by match goal with H : matches Eps _ |- _ => inversion H; subst end.
Qed.

Lemma matches_alt_ a b s : matches (alt_ a b) s <-> matches (Alt a b) s.
Proof.
  assert (Hl : matches a s -> matches (Alt a b) s) by auto.
  assert (Hr : matches b s -> matches (Alt a b) s) by auto.
  destruct a; destruct b; cbn [alt_]; try done; (split; [by auto|]); intros H; inversion H; subst; auto;
    by match goal with H : matches Empty _ |- _ => inversion H end.
Qed.

Lemma star_cons a c s : matches (Star a) (c :: s) <->
  exists s1 s2, s = s1 ++ s2 /\ matches a (c :: s1) /\ matches (Star a) s2.
Proof.
  split; [|intros (s1 & s2 & -> & H1 & H2); by apply (m_star_app a (c :: s1) s2)].
  intros H. remember (Star a) as r eqn:Er. remember (c :: s) as t eqn:Et. revert s Et Er.
  induction H as [| | | | | |a' s1 s2 H1 IH1 H2 IH2]; intros u Et Er; try discriminate.
  injection Er as ->. destruct s1 as [|c' s1]; [by apply IH2|]. injection Et as -> <-. by exists s1, s2.
Qed.

Lemma deriv_matches r c s : matches (deriv c r) s <-> matches r (c :: s).
Proof.
  revert s. induction r as [| |p|a IHa b IHb|a IHa b IHb|a IHa]; intros s; cbn [deriv].
  - split; intros H; inversion H.
  - split; intros H; inversion H.
  - destruct (p c) eqn:E; split; intros H; inversion H; subst; auto; congruence.
  - rewrite matches_alt_. split.
    + intros H. inversion H as [| | |? ? ? H'|? ? ? H'| |]; subst.
      * apply matches_seq_ in H'. inversion H' as [| |? ? s1 s2 H1 H2| | | |]; subst.
        apply IHa in H1. by apply (m_seq a b (c :: s1) s2).
      * destruct (nullable a) eqn:En; [|inversion H'].
        apply IHb in H'. apply nullable_matches in En. by apply (m_seq a b [] (c :: s)).
    + intros H. inversion H as [| |? ? s1 s2 H1 H2 E1 E2| | | |]; subst.
      destruct s1 as [|c' s1].
      * cbn [app] in E2. subst s2. apply m_alt_r. apply nullable_matches in H1. rewrite H1. by apply IHb.
      * injection E2 as -> <-. apply m_alt_l, matches_seq_, m_seq; [by apply IHa|done].
  - rewrite matches_alt_. split; intros H; inversion H; subst.
    + apply m_alt_l. by apply IHa.
    + apply m_alt_r. by apply IHb.
    + apply m_alt_l. by apply IHa.
    + apply m_alt_r. by apply IHb.
  - rewrite matches_seq_, star_cons. split.
    + intros H. inversion H as [| |? ? s1 s2 H1 H2| | | |]; subst.
      exists s1, s2. split; [done|]. split; [by apply IHa|done].
    + intros (s1 & s2 & -> & H1 & H2). apply m_seq; [by apply IHa|done].
Qed.

Lemma no_match_empty s : ~ matches Empty s.
Proof. intros H. inversion H. Qed.

(** [longest] gives the longest matching prefix. *)
Lemma longest_unfold r s :
  longest r s =
  match s with
  | [] => if nullable r then Some 0%nat else None
  | c :: s' => match longest (deriv c r) s' with
               | Some n => Some (S n)
               | None => if nullable r then Some 0%nat else None
               end
  end.
Proof. destruct r; try (destruct s; reflexivity). destruct s as [|c s]; [done|]. by destruct s. Qed.

Lemma longest_spec r s :
  match longest r s with
  | Some n => (n <= length s)%nat /\ matches r (take n s) /\
      forall m, (m <= length s)%nat -> matches r (take m s) -> (m <= n)%nat
  | None => forall m, ~ matches r (take m s)
  end.
Proof.
  revert r. induction s as [|c s IH]; intros r; rewrite longest_unfold.
  - destruct (nullable r) eqn:En.
    + split; [done|]. split; [by apply nullable_matches|]. intros m Hm _. done.
    + intros m Hm. rewrite take_nil in Hm. apply nullable_matches in Hm. congruence.
  - specialize (IH (deriv c r)). destruct (longest (deriv c r) s) as [n|].
    + destruct IH as (Hn & Hm & Hmax). split; [simpl; lia|]. split; [by apply deriv_matches|].
      intros [|m] Hle Hmm; [lia|]. apply le_n_S, Hmax; [simpl in Hle; lia|]. by apply deriv_matches.
    + assert (Hno : forall m, matches r (take m (c :: s)) -> m = 0%nat).
      { intros [|m] Hm; [done|]. destruct (IH m). by apply deriv_matches. }
      destruct (nullable r) eqn:En.
      * split; [simpl; lia|]. split; [by apply nullable_matches|]. intros m _ Hm. rewrite (Hno m Hm). lia.
      * intros m Hm. rewrite (Hno m Hm) in Hm. apply nullable_matches in Hm. congruence.
Qed.

(** ** Flex's choice, on the languages of the rules *)

Abbreviation rules := (list (re * lex_action)).

(** [n] bytes of [s] are matched with action [a]: no rule matches more, and no
    earlier rule matches as much. *)
Definition chosen (rs : rules) (s : list Z) (n : nat) (a : lex_action) : Prop :=
  exists i r, rs !! i = Some (r, a) /\ (n <= length s)%nat /\ matches r (take n s) /\
    forall j r' a' m, rs !! j = Some (r', a') -> (m <= length s)%nat -> matches r' (take m s) ->
      (m < n)%nat \/ m = n /\ (i <= j)%nat.

Definition unmatched (rs : rules) (s : list Z) : Prop :=
  forall r a m, (r, a) ∈ rs -> ~ matches r (take m s).

Lemma chosen_fun rs s n a n' a' : chosen rs s n a -> chosen rs s n' a' -> n = n' /\ a = a'.
Proof.
  intros (i & r & Hi & Hn & Hm & Hmax) (i' & r' & Hi' & Hn' & Hm' & Hmax').
  destruct (Hmax _ _ _ _ Hi' Hn' Hm') as [Hlt|[-> Hle]];
    destruct (Hmax' _ _ _ _ Hi Hn Hm) as [Hlt'|[? Hle']]; try lia.
  assert (i = i') as <- by lia. rewrite Hi in Hi'. by injection Hi' as _ ->.
Qed.

Lemma best_spec rs s :
  match best rs s with Some (n, a) => chosen rs s n a | None => unmatched rs s end.
Proof.
  induction rs as [|[r a] rs IH]; cbn [best]; [by intros r a m ?%not_elem_of_nil|].
  pose proof (longest_spec r s) as Hl. destruct (longest r s) as [n|].
  - destruct Hl as (Hn & Hm & Hmax). destruct (best rs s) as [[k b]|].
    + destruct IH as (i & r' & Hi & Hk & Hr' & Hb). destruct (Nat.leb_spec k n) as [Hle|Hlt].
      * exists 0%nat, r. split; [done|]. split; [done|]. split; [done|].
        intros [|j] r2 a2 m Hj Hml Hr2; [injection Hj as <- <-; specialize (Hmax m Hml Hr2); lia|].
        destruct (Hb j r2 a2 m Hj Hml Hr2); lia.
      * exists (S i), r'. split; [done|]. split; [done|]. split; [done|].
        intros [|j] r2 a2 m Hj Hml Hr2; [injection Hj as <- <-; specialize (Hmax m Hml Hr2); lia|].
        destruct (Hb j r2 a2 m Hj Hml Hr2); lia.
    + exists 0%nat, r. split; [done|]. split; [done|]. split; [done|].
      intros [|j] r2 a2 m Hj Hml Hr2; [injection Hj as <- <-; specialize (Hmax m Hml Hr2); lia|].
      destruct (IH r2 a2 m); [|done]. exact (list_elem_of_lookup_2 rs j _ Hj).
  - destruct (best rs s) as [[k b]|].
    + destruct IH as (i & r' & Hi & Hk & Hr' & Hb). exists (S i), r'.
      split; [done|]. split; [done|]. split; [done|].
      intros [|j] r2 a2 m Hj Hml Hr2; [injection Hj as <- <-; by destruct (Hl m)|].
      destruct (Hb j r2 a2 m Hj Hml Hr2); lia.
    + intros r2 a2 m [E|Hin]%elem_of_cons; [injection E as -> ->; apply Hl|by apply (IH r2 a2)].
Qed.

Inductive tokenises : list Z -> list token -> Prop :=
| tok_nil : tokenises [] []
| tok_rule s n a ts :
    chosen lexicon s n a -> tokenises (drop n s) ts ->
    tokenises s (match a (take n s) with Some t => t :: ts | None => ts end)
| tok_echo c s ts : unmatched lexicon (c :: s) -> tokenises s ts -> tokenises (c :: s) ts.

(** No rule matches nothing. *)
Lemma lexicon_consumes r a : (r, a) ∈ lexicon -> ~ matches r [].
Proof.
  intros Hin Hm%nullable_matches.
  assert (H : forallb (fun p => negb (nullable p.1)) lexicon = true) by (vm_compute; reflexivity).
  rewrite forallb_forall in H. apply list_elem_of_In, H in Hin. simpl in Hin. by rewrite Hm in Hin.
Qed.

Lemma chosen_pos s n a : chosen lexicon s n a -> (0 < n <= length s)%nat.
Proof.
  intros (i & r & Hi & Hn & Hm & _). split; [|done]. destruct n as [|n]; [|lia].
  apply list_elem_of_lookup_2 in Hi. by destruct (lexicon_consumes r a Hi).
Qed.

Lemma scan_tokenises f : forall s, (length s <= f)%nat -> tokenises s (scan f s).
Proof.
  induction f as [|f IH]; intros s Hf; [destruct s; [constructor|simpl in Hf; lia]|].
  destruct s as [|c s]; [constructor|]. cbn [scan].
  pose proof (best_spec lexicon (c :: s)) as Hb. destruct (best lexicon (c :: s)) as [[[|k] a]|].
  - apply chosen_pos in Hb. lia.
  - apply (tok_rule (c :: s) (S k) a); [done|]. apply IH. rewrite length_drop. simpl in *. lia.
  - apply tok_echo; [done|]. apply IH. simpl in Hf. lia.
Qed.

Lemma tokenises_fun s ts : tokenises s ts -> forall ts', tokenises s ts' -> ts = ts'.
Proof.
  induction 1 as [|s n a ts Hc Ht IH|c s ts Hu Ht IH]; intros ts' H'.
  - inversion H' as [|? n' a' ? Hc'|]; subst; [done|]. apply chosen_pos in Hc'. simpl in Hc'. lia.
  - inversion H' as [|? n' a' us Hc' Ht'|c' s' us Hu']; subst.
    + apply chosen_pos in Hc. simpl in Hc. lia.
    + destruct (chosen_fun _ _ _ _ _ _ Hc Hc') as [<- <-]. by rewrite (IH us Ht').
    + destruct Hc as (i & r & Hi & _ & Hm & _). destruct (Hu' r a n); [|done].
      by apply list_elem_of_lookup_2 in Hi.
  - inversion H' as [|? n' a' us Hc' Ht'|? ? us Hu' Ht']; subst.
    + destruct Hc' as (i & r & Hi & _ & Hm & _). destruct (Hu r a' n'); [|done].
      by apply list_elem_of_lookup_2 in Hi.
    + by apply IH.
Qed.

Lemma yylex_iff s ts : yylex s = ts <-> tokenises s ts.
Proof.
  pose proof (scan_tokenises (length s) s (le_n _)) as Hs.
  split; [by intros <-|]. intros Ht. by apply (tokenises_fun s).
Qed.

Lemma yylex_chosen s n a : chosen lexicon s n a ->
  yylex s = match a (take n s) with Some t => t :: yylex (drop n s) | None => yylex (drop n s) end.
Proof.
  intros Hc. apply yylex_iff.
  pose proof (tok_rule s n a (yylex (drop n s)) Hc (proj1 (yylex_iff _ _) eq_refl)) as H.
  by destruct (a (take n s)).
Qed.

(** ** Scanning one lexeme *)

Lemma no_match_not_empty r s : matches r s -> r <> Empty.
Proof. intros H ->. by apply no_match_empty in H. Qed.

Lemma matches_lit s w : matches (lit s) w <-> w = s.
Proof.
  revert w. induction s as [|c s IH]; intros w; cbn [lit].
  - split; [intros H; by inversion H|intros ->; constructor].
  - split.
    + intros H. inversion H as [| |? ? u v Hu Hv| | | |]; subst. inversion Hu as [|? d Hd| | | | |]; subst.
      apply Z.eqb_eq in Hd as <-. apply IH in Hv as ->. done.
    + intros ->. apply (m_seq _ _ [c] s); [constructor; apply Z.eqb_refl|by apply IH].
Qed.

Lemma matches_star_cls p s : matches (Star (Cls p)) s <-> Forall (fun c => p c = true) s.
Proof.
  split.
  - intros H. remember (Star (Cls p)) as r eqn:E. induction H as [| | | | | |a s t Ha IHa Ht IHt];
      try discriminate; [constructor|]. injection E as ->. inversion Ha; subst.
    constructor; [done|by apply IHt].
  - induction 1 as [|c s Hc Hs IH]; [constructor|]. by apply (m_star_app _ [c]); [constructor|].
Qed.

Lemma matches_seq_cls p b s :
  matches (Seq (Cls p) b) s <-> exists c s', s = c :: s' /\ p c = true /\ matches b s'.
Proof.
  split.
  - intros H. inversion H as [| |? ? u v Hu Hv| | | |]; subst. inversion Hu; subst. by exists c, v.
  - intros (c & s' & -> & Hc & Hs). apply (m_seq _ _ [c]); [by constructor|done].
Qed.

Lemma matches_plus_cls p s :
  matches (Plus (Cls p)) s <-> s <> [] /\ Forall (fun c => p c = true) s.
Proof.
  unfold Plus. rewrite matches_seq_cls. split.
  - intros (c & s' & -> & Hc & Hs%matches_star_cls). split; [done|by constructor].
  - intros [Hne Hf]. destruct Hf as [|c s Hc Hs]; [done|]. exists c, s.
    split; [done|]. split; [done|by apply matches_star_cls].
Qed.

(** The bytes of the lexemes that are not punctuation. *)
Definition lexeme_char (c : Z) : bool := file_char c || (c =? 95).

Definition stops (p : Z -> bool) (s : list Z) : Prop :=
  match s with [] => True | c :: _ => p c = false end.

(** A rule whose matches are made of such bytes, or one that matches nothing
    that starts with such a byte. *)
Fixpoint within (q : Z -> bool) (r : re) : Prop :=
  match r with
  | Empty | Eps => True
  | Cls p => forall c, p c = true -> q c = true
  | Seq a b | Alt a b => within q a /\ within q b
  | Star a => within q a
  end.

Lemma within_matches q r s : within q r -> matches r s -> Forall (fun c => q c = true) s.
Proof.
  intros Hw Hm. induction Hm as [|p c Hc|a b s t Ha IHa Hb IHb|a b s Ha IHa|a b s Hb IHb|a|a s t Ha IHa Hs IHs];
    cbn [within] in Hw.
  - constructor.
  - constructor; [by apply Hw|constructor].
  - apply Forall_app. split; [apply IHa, Hw|apply IHb, Hw].
  - apply IHa, Hw.
  - apply IHb, Hw.
  - constructor.
  - apply Forall_app. split; [apply IHa, Hw|apply IHs, Hw].
Qed.

Lemma within_lit q s : forallb q s = true -> within q (lit s).
Proof.
  induction s as [|c s IH]; cbn [lit forallb within]; [done|]. intros [Hc Hs]%andb_true_iff.
  split; [by intros d <-%Z.eqb_eq|by apply IH].
Qed.

Ltac by_bits := intros; cbn beta in *; unfold lexeme_char, file_char, word_char, is_hex, is_alpha, is_digit in *; lia.

(** The bytes that the other rules start with: punctuation, blanks, the end of
    a line and the [#] of a comment. *)
Definition mark (c : Z) : bool :=
  (c =? 34) || (c =? 123) || (c =? 125) || (c =? 59) || (c =? 61) || (c =? 10) || (c =? 32) || (c =? 9) || (c =? 35).

Lemma mark_no_lexeme c : mark c = true -> lexeme_char c = false.
Proof. unfold mark. by_bits. Qed.

Definition outside (r : re) : Prop :=
  forall s, matches r s -> exists c s', s = c :: s' /\ mark c = true.

Lemma outside_cls p : (forall c, p c = true -> mark c = true) -> outside (Cls p).
Proof. intros Hp s Hm. inversion Hm as [|? c Hc| | | | |]; subst. exists c, []. auto. Qed.

Lemma outside_seq p b : (forall c, p c = true -> mark c = true) -> outside (Seq (Cls p) b).
Proof.
  intros Hp s Hm. apply matches_seq_cls in Hm as (c & s' & -> & Hc & _). exists c, s'. auto.
Qed.

Lemma lexicon_rules : Forall (fun p => within lexeme_char p.1 \/ outside p.1) lexicon.
Proof.
  unfold lexicon, keyword.
  do 14 (apply list.Forall_cons_2; [left; apply within_lit; vm_compute; reflexivity|]).
  do 3 (apply list.Forall_cons_2; [left; change (str "0x") with [48; 120]; cbn [within fst Plus lit]; repeat split; by_bits|]).
  do 6 (apply list.Forall_cons_2; [right; apply outside_cls; unfold mark; by_bits|]).
  do 2 (apply list.Forall_cons_2; [right; apply outside_seq; unfold mark; by_bits|]).
  constructor.
Qed.

(** The lexemes: nothing longer is matched when the byte after [w] cannot go
    on, so only the earlier rules matter. *)
Lemma chosen_lexeme i r a w rest :
  lexicon !! i = Some (r, a) -> matches r w -> Forall (fun c => lexeme_char c = true) w ->
  stops lexeme_char rest ->
  (forall j r' a', (j < i)%nat -> lexicon !! j = Some (r', a') -> ~ matches r' w) ->
  chosen lexicon (w ++ rest) (length w) a.
Proof.
  intros Hi Hm Hw Hs Hbefore. exists i, r. split; [done|]. rewrite length_app.
  split; [lia|]. rewrite take_app_length. split; [done|].
  intros j r' a' m Hj Hml Hm'.
  assert (Hne : w <> []).
  { intros ->. apply list_elem_of_lookup_2 in Hi. by apply (lexicon_consumes r a). }
  assert (Hle : (m <= length w)%nat).
  { destruct (decide (m <= length w)%nat) as [|Hgt]; [done|].
    assert (Hnm : exists d rest', rest = d :: rest' /\ d ∈ take m (w ++ rest) /\ lexeme_char d = false).
    { destruct rest as [|d rest]; [simpl in Hml; lia|]. exists d, rest. split; [done|]. split; [|done].
      apply list_elem_of_lookup_2 with (length w). rewrite lookup_take, decide_True by lia. by apply list_lookup_middle. }
    destruct Hnm as (d & rest' & -> & Hd & Hdc).
    pose proof lexicon_rules as Hr. rewrite list.Forall_forall in Hr.
    destruct (Hr _ (list_elem_of_lookup_2 _ _ _ Hj)) as [Hin|Hout]; cbn [fst] in *.
    - pose proof (within_matches _ _ _ Hin Hm') as Hf. rewrite list.Forall_forall in Hf.
      specialize (Hf d Hd). congruence.
    - apply Hout in Hm' as (c & s' & E & Hc%mark_no_lexeme). destruct w as [|c' w]; [done|].
      destruct m as [|m]; [simpl in *; lia|]. injection E as -> _.
      apply list.Forall_cons in Hw as [Hw _]. congruence. }
  destruct (decide (m = length w)) as [->|]; [|left; lia].
  right. split; [done|]. destruct (decide (i <= j)%nat) as [|Hlt]; [done|].
  rewrite take_app_length in Hm'. destruct (Hbefore j r' a'); [lia|done|done].
Qed.

Lemma yylex_lexeme i r a t w rest :
  lexicon !! i = Some (r, a) -> matches r w -> Forall (fun c => lexeme_char c = true) w ->
  stops lexeme_char rest ->
  (forall j r' a', (j < i)%nat -> lexicon !! j = Some (r', a') -> ~ matches r' w) ->
  a w = Some t -> yylex (w ++ rest) = t :: yylex rest.
Proof.
  intros Hi Hm Hw Hs Hb Ha. pose proof (chosen_lexeme i r a w rest Hi Hm Hw Hs Hb) as Hc.
  rewrite (yylex_chosen _ _ _ Hc), take_app_length, drop_app_length. by rewrite Ha.
Qed.
(** *** Punctuation and what is skipped *)

Definition is_empty (r : re) : bool := match r with Empty => true | _ => false end.

(** Only rule [i] can match what starts with [c]. *)
Definition only_rule (c : Z) (i : nat) : bool :=
  forallb (fun p => is_empty (deriv c p.1)) (delete i lexicon).

Lemma only_rule_eq c i j r a s :
  only_rule c i = true -> lexicon !! j = Some (r, a) -> matches r (c :: s) -> j = i.
Proof.
  intros Ho Hj Hm. destruct (decide (j = i)) as [|Hne]; [done|].
  unfold only_rule in Ho. rewrite forallb_forall in Ho.
  assert (Hin : (r, a) ∈ delete i lexicon).
  { apply list_elem_of_lookup. destruct (decide (j < i)%nat) as [Hlt|Hge].
    - exists j. by rewrite list_lookup_delete_lt.
    - exists (pred j). rewrite list_lookup_delete_ge by lia. replace (S (pred j)) with j by lia. done. }
  apply list_elem_of_In, Ho in Hin. cbn [fst] in Hin.
  apply deriv_matches in Hm. destruct (deriv c r); try done. by apply no_match_empty in Hm.
Qed.

Lemma chosen_only c i r a s n :
  only_rule c i = true -> lexicon !! i = Some (r, a) -> (n <= length s)%nat ->
  matches (deriv c r) (take n s) ->
  (forall m, (m <= length s)%nat -> matches (deriv c r) (take m s) -> (m <= n)%nat) ->
  chosen lexicon (c :: s) (S n) a.
Proof.
  intros Ho Hi Hn Hm Hmax. exists i, r. split; [done|]. split; [simpl; lia|].
  split; [by apply deriv_matches|]. intros j r' a' [|m] Hj Hml Hm'; [lia|].
  cbn [take] in Hm'. pose proof (only_rule_eq _ _ _ _ _ _ Ho Hj Hm') as ->.
  rewrite Hi in Hj. injection Hj as <- <-. simpl in Hml. apply deriv_matches in Hm'.
  specialize (Hmax m ltac:(lia) Hm'). lia.
Qed.

Lemma yylex_char c i r a rest :
  only_rule c i = true -> lexicon !! i = Some (r, a) -> deriv c r = Eps ->
  yylex (c :: rest) = match a [c] with Some t => t :: yylex rest | None => yylex rest end.
Proof.
  intros Ho Hi Hd. assert (Hc : chosen lexicon (c :: rest) 1 a).
  { apply (chosen_only c i r a rest 0); [done|done|lia|rewrite Hd; constructor|].
    intros m Hml Hm. rewrite Hd in Hm. inversion Hm as [E0 E| | | | | |].
    apply (f_equal length) in E. rewrite length_take in E. simpl in E. lia. }
  by rewrite (yylex_chosen _ _ _ Hc).
Qed.

Lemma yylex_quote s : yylex (34 :: s) = QUOTE :: yylex s.
Proof. by apply (yylex_char 34 17 (Cls (Z.eqb 34)) (fun _ => Some QUOTE)). Qed.
Lemma yylex_obrace s : yylex (123 :: s) = OBRACE :: yylex s.
Proof. by apply (yylex_char 123 18 (Cls (Z.eqb 123)) (fun _ => Some OBRACE)). Qed.
Lemma yylex_ebrace s : yylex (125 :: s) = EBRACE :: yylex s.
Proof. by apply (yylex_char 125 19 (Cls (Z.eqb 125)) (fun _ => Some EBRACE)). Qed.
Lemma yylex_semicolon s : yylex (59 :: s) = SEMICOLON :: yylex s.
Proof. by apply (yylex_char 59 20 (Cls (Z.eqb 59)) (fun _ => Some SEMICOLON)). Qed.
Lemma yylex_equals s : yylex (61 :: s) = EQUALS :: yylex s.
Proof. by apply (yylex_char 61 21 (Cls (Z.eqb 61)) (fun _ => Some EQUALS)). Qed.
Lemma yylex_eol s : yylex (10 :: s) = yylex s.
Proof. by apply (yylex_char 10 22 (Cls (Z.eqb 10)) (fun _ => None)). Qed.

Definition blank (c : Z) : bool := (c =? 32) || (c =? 9).

Fixpoint skip_blanks (s : list Z) : list Z :=
  match s with [] => [] | c :: s' => if blank c then skip_blanks s' else s end.

Lemma skip_blanks_app s : exists sp, s = sp ++ skip_blanks s /\
  Forall (fun c => blank c = true) sp /\ stops blank (skip_blanks s).
Proof.
  induction s as [|c s (sp & E & Hsp & Hst)]; [by exists []|]. cbn [skip_blanks].
  destruct (blank c) eqn:Hc; [|exists []; by repeat split].
  exists (c :: sp). split; [by rewrite E at 1|]. split; [by constructor|done].
Qed.

(** A run of blanks is skipped at once. *)
Lemma yylex_blanks c s : blank c = true -> yylex (c :: s) = yylex (skip_blanks s).
Proof.
  intros Hc. destruct (skip_blanks_app s) as (sp & E & Hsp & Hst). set (rest := skip_blanks s) in *.
  assert (Hd : only_rule c 23 = true /\
    deriv c (Plus (Cls (fun c => (c =? 32) || (c =? 9)))) = Star (Cls blank)).
  { assert (c = 32 \/ c = 9) as [-> | ->] by (unfold blank in Hc; lia); by vm_compute. }
  destruct Hd as [Ho Hd].
  assert (Hch : chosen lexicon (c :: s) (S (length sp)) (fun _ => None)).
  { apply (chosen_only c 23 (Plus (Cls (fun c => (c =? 32) || (c =? 9))))); [done|done|..]; rewrite ?Hd, E.
    - rewrite length_app. lia.
    - rewrite take_app_length. by apply matches_star_cls.
    - intros m Hml Hm%matches_star_cls. destruct (decide (m <= length sp)%nat) as [|Hgt]; [done|].
      destruct rest as [|d rest']; [rewrite app_nil_r in Hml; lia|].
      rewrite list.Forall_forall in Hm. cbn [stops] in Hst. rewrite Hm in Hst; [done|].
      apply list_elem_of_lookup_2 with (length sp). rewrite lookup_take, decide_True by lia.
      by apply list_lookup_middle. }
  rewrite (yylex_chosen _ _ _ Hch). cbn [drop]. rewrite E at 1. by rewrite drop_app_length.
Qed.

Lemma yylex_blank c s : blank c = true -> yylex (c :: s) = yylex s.
Proof.
  intros Hc. rewrite (yylex_blanks c s Hc). destruct s as [|d s]; [done|]. cbn [skip_blanks].
  destruct (blank d) eqn:Hd; [|done]. by rewrite (yylex_blanks d s Hd).
Qed.

Lemma yylex_comment s rest :
  Forall (fun c => c <> 10) s -> yylex (35 :: s ++ 10 :: rest) = yylex rest.
Proof.
  intros Hs. set (r := Seq (Cls (Z.eqb 35)) (Seq (Star (Cls (fun c => negb (c =? 10)))) (Cls (Z.eqb 10)))).
  assert (Hlen : length (s ++ [10]) = S (length s)) by (rewrite length_app; simpl; lia).
  assert (Hsplit : s ++ 10 :: rest = (s ++ [10]) ++ rest) by by rewrite <- app_assoc.
  assert (Hd : deriv 35 r = Seq (Star (Cls (fun c => negb (c =? 10)))) (Cls (Z.eqb 10))) by done.
  assert (Hch : chosen lexicon (35 :: s ++ 10 :: rest) (S (S (length s))) (fun _ => None)).
  { apply (chosen_only 35 24 r); [done|done|..]; rewrite ?Hd.
    - rewrite length_app. simpl. lia.
    - rewrite Hsplit, <- Hlen, take_app_length. apply m_seq; [|by constructor].
      apply matches_star_cls. eapply list.Forall_impl; [exact Hs|]. cbn beta. intros c Hc. lia.
    - intros m Hml Hm. destruct (decide (m <= S (length s))%nat) as [|Hgt]; [done|].
      inversion Hm as [| |? ? u v Hu Hv E1 E2| | | |]; subst. inversion Hv as [|? c Hc| | | | |]; subst.
      apply Z.eqb_eq in Hc as <-. apply matches_star_cls in Hu. rewrite list.Forall_forall in Hu.
      assert (Hin : (u ++ [10]) !! length s = Some 10).
      { rewrite E2, lookup_take, decide_True by lia. by apply list_lookup_middle. }
      apply (f_equal length) in E2. rewrite length_app, length_take in E2. cbn [length] in E2.
      rewrite lookup_app_l in Hin by lia. apply list_elem_of_lookup_2, Hu in Hin. lia. }
  rewrite (yylex_chosen _ _ _ Hch). cbn [drop]. by rewrite Hsplit, <- Hlen, drop_app_length.
Qed.

(** *** Keywords, words, file names and numbers *)

Definition derivs (w : list Z) (r : re) : re := fold_left (fun r c => deriv c r) w r.

Lemma derivs_matches w r : nullable (derivs w r) = true <-> matches r w.
Proof.
  revert r. induction w as [|c w IH]; intros r; cbn [derivs fold_left]; [apply nullable_matches|].
  rewrite <- deriv_matches. apply IH.
Qed.

(** No rule before [i] matches [w]. *)
Definition earlier_fail (i : nat) (w : list Z) : bool :=
  forallb (fun p => negb (nullable (derivs w p.1))) (take i lexicon).

Lemma earlier_fail_spec i w : earlier_fail i w = true ->
  forall j r a, (j < i)%nat -> lexicon !! j = Some (r, a) -> ~ matches r w.
Proof.
  intros He j r a Hj Hr Hm%derivs_matches. unfold earlier_fail in He. rewrite forallb_forall in He.
  assert (Hin : (r, a) ∈ take i lexicon).
  { apply list_elem_of_lookup_2 with j. by rewrite lookup_take, decide_True. }
  apply list_elem_of_In, He in Hin. cbn [fst] in Hin. by rewrite Hm in Hin.
Qed.

(** No rule before [i] matches what starts with [c]. *)
Lemma earlier_head i c w :
  forallb (fun p => is_empty (deriv c p.1)) (take i lexicon) = true ->
  forall j r a, (j < i)%nat -> lexicon !! j = Some (r, a) -> ~ matches r (c :: w).
Proof.
  intros He j r a Hj Hr Hm%deriv_matches. rewrite forallb_forall in He.
  assert (Hin : (r, a) ∈ take i lexicon).
  { apply list_elem_of_lookup_2 with j. by rewrite lookup_take, decide_True. }
  apply list_elem_of_In, He in Hin. cbn [fst] in Hin.
  destruct (deriv c r); try done. by apply no_match_empty in Hm.
Qed.

Lemma yylex_keyword i kw t rest :
  lexicon !! i = Some (keyword kw t) -> earlier_fail i (str kw) = true ->
  forallb lexeme_char (str kw) = true -> stops lexeme_char rest ->
  yylex (str kw ++ rest) = t :: yylex rest.
Proof.
  intros Hi He Hc Hs. apply (yylex_lexeme i (lit (str kw)) (fun _ => Some t)); try done.
  - by apply matches_lit.
  - apply list.Forall_forall. intros c Hin. rewrite forallb_forall in Hc. by apply Hc, list_elem_of_In.
  - by apply earlier_fail_spec.
Qed.

Definition word_ok (w : cstr) : Prop :=
  (exists c s, w = c :: s /\ is_alpha c = true /\ s <> [] /\ Forall (fun c => word_char c = true) s) /\
  w ∉ [str "ntoskrnl"; str "sysmap"; str "ostype"].

Lemma word_ok_chars w : word_ok w -> Forall (fun c => word_char c = true) w.
Proof.
  intros [(c & s & -> & Hc & _ & Hs) _]. constructor; [|done]. unfold word_char. by rewrite Hc.
Qed.

(** The first fourteen rules are literals that are no words but for three. *)
Lemma lexicon_keywords j r a : (j < 14)%nat -> lexicon !! j = Some (r, a) ->
  exists k, r = lit k /\
    existsb (Z.eqb 95) k || bool_decide (k ∈ [str "ntoskrnl"; str "sysmap"; str "ostype"]) = true.
Proof.
  intros Hj Hr. assert (H : forall p, take 14 lexicon !! j = Some p -> exists k, p.1 = lit k /\
    existsb (Z.eqb 95) k || bool_decide (k ∈ [str "ntoskrnl"; str "sysmap"; str "ostype"]) = true).
  { apply Forall_lookup. unfold lexicon, keyword. cbn [take].
    repeat (apply list.Forall_cons_2; [eexists; split; [reflexivity|vm_compute; reflexivity]|]). constructor. }
  apply (H (r, a)). by rewrite lookup_take, decide_True.
Qed.

Lemma yylex_word w rest :
  word_ok w -> stops lexeme_char rest -> yylex (w ++ rest) = WORD w :: yylex rest.
Proof.
  intros Hw Hs. pose proof (word_ok_chars w Hw) as Hch. destruct Hw as [(c & s & E & Hc & Hne & Hf) Hk].
  apply (yylex_lexeme 15 (Seq (Cls is_alpha) (Plus (Cls word_char))) (fun s => Some (WORD s))); try done.
  - rewrite E. apply matches_seq_cls. exists c, s. split; [done|]. split; [done|]. by apply matches_plus_cls.
  - eapply list.Forall_impl; [exact Hch|]. by_bits.
  - intros j r' a' Hj Hr'. destruct (decide (j < 14)%nat) as [Hlt|Hge].
    + destruct (lexicon_keywords j r' a' Hlt Hr') as (k & -> & Hu). rewrite matches_lit. intros E'.
      rewrite E' in Hch, Hk. apply orb_true_iff in Hu as [Hu|Hu%bool_decide_eq_true]; [|done].
      apply existsb_exists in Hu as (d & Hin & <-%Z.eqb_eq).
      rewrite list.Forall_forall in Hch. by apply list_elem_of_In, Hch in Hin.
    + assert (j = 14)%nat as -> by lia.
      assert (Er : r' = Alt (Seq (lit [48; 120]) (Plus (Cls is_hex))) (Plus (Cls is_digit)))
        by by injection Hr'.
      rewrite E, Er. intros Hm%deriv_matches. revert Hm. cbn [lit deriv nullable Plus].
      assert ((48 =? c) = false /\ is_digit c = false) as [-> ->] by (revert Hc; by_bits).
      apply no_match_empty.
Qed.

(** A byte that no rule starts with is passed over. *)
Lemma yylex_echo c s : lexeme_char c = false -> mark c = false -> yylex (c :: s) = yylex s.
Proof.
  intros Hl Hk. apply yylex_iff. apply tok_echo; [|by apply yylex_iff].
  intros r a [|m] Hin Hm; [by apply (lexicon_consumes r a)|]. cbn [take] in Hm.
  pose proof lexicon_rules as Hr. rewrite list.Forall_forall in Hr.
  destruct (Hr _ Hin) as [Hw|Ho]; cbn [fst] in *.
  - apply (within_matches _ _ _ Hw), list.Forall_cons in Hm as [Hm _]. congruence.
  - apply Ho in Hm as (d & s' & [= <- _] & Hd). congruence.
Qed.

Definition num_ok (w : cstr) : Prop :=
  (exists h, w = 48 :: 120 :: h /\ h <> [] /\ Forall (fun c => is_hex c = true) h) \/
  (w <> [] /\ Forall (fun c => is_digit c = true) w).

Lemma yylex_num w rest : num_ok w -> stops lexeme_char rest -> yylex (w ++ rest) = NUM w :: yylex rest.
Proof.
  intros Hw Hs.
  apply (yylex_lexeme 14 (Alt (Seq (lit (str "0x")) (Plus (Cls is_hex))) (Plus (Cls is_digit)))
           (fun s => Some (NUM s))); try done.
  - destruct Hw as [(h & -> & Hne & Hh)|[Hne Hd]].
    + apply m_alt_l. apply (m_seq _ _ [48; 120] h); [by apply matches_lit|]. by apply matches_plus_cls.
    + apply m_alt_r. by apply matches_plus_cls.
  - destruct Hw as [(h & -> & Hne & Hh)|[Hne Hd]].
    + do 2 (constructor; [done|]). eapply list.Forall_impl; [exact Hh|]. by_bits.
    + eapply list.Forall_impl; [exact Hd|]. by_bits.
  - assert (exists c s, w = c :: s /\ is_digit c = true) as (c & s & -> & Hc).
    { destruct Hw as [(h & -> & _)|[Hne Hd]]; [by exists 48, (120 :: h)|].
      destruct Hd as [|c s Hc Hd]; [done|]. by exists c, s. }
    apply earlier_head. unfold is_digit in Hc.
    assert (c = 48 \/ c = 49 \/ c = 50 \/ c = 51 \/ c = 52 \/ c = 53 \/ c = 54 \/ c = 55 \/ c = 56 \/ c = 57)
      as Hcases by lia.
    by repeat destruct Hcases as [-> | Hcases]; subst.
Qed.

(** ** What a text says, without the rules

    A text is cut into runs of letters, digits and [/.-], the names with an
    underscore, punctuation, and what is skipped. *)

(** The names of the fields in a configuration file. *)
Definition names_of_fields : list (cstr * token) := [
  (str "ostype", OSTYPETOK); (str "sysmap", SYSMAPTOK);
  (str "linux_tasks", LINUX_TASKS); (str "linux_mm", LINUX_MM); (str "linux_pid", LINUX_PID);
  (str "linux_pgd", LINUX_PGD); (str "linux_addr", LINUX_ADDR);
  (str "ntoskrnl", WIN_NTOSKRNL); (str "win_tasks", WIN_TASKS); (str "win_pdbase", WIN_PDBASE);
  (str "win_pid", WIN_PID); (str "win_peb", WIN_PEB); (str "win_iba", WIN_IBA); (str "win_ph", WIN_PH)].

Definition field_named (w : cstr) : option token :=
  snd <$> List.find (fun p => bool_decide (p.1 = w)) names_of_fields.

Definition is_number (w : cstr) : bool :=
  match w with
  | 48 :: 120 :: h => negb (bool_decide (h = [])) && forallb is_hex h
  | _ => negb (bool_decide (w = [])) && forallb is_digit w
  end.

Definition is_word (w : cstr) : bool :=
  match w with
  | c :: s => is_alpha c && negb (bool_decide (s = [])) && forallb word_char s
  | [] => false
  end.

Definition meaning (w : cstr) : token :=
  match field_named w with
  | Some t => t
  | None => if is_number w then NUM w else if is_word w then WORD w else FILENAME w
  end.

Inductive piece :=
| Run (w : cstr)
| Punctuation (t : token)
| Remark (s : cstr)
| Skipped (c : Z).

Definition punctuation (t : token) : option Z :=
  match t with
  | QUOTE => Some 34
  | OBRACE => Some 123
  | EBRACE => Some 125
  | SEMICOLON => Some 59
  | EQUALS => Some 61
  | _ => None
  end.

Definition piece_text (p : piece) : cstr :=
  match p with
  | Run w => w
  | Punctuation t => option_list (punctuation t)
  | Remark s => [35] ++ s ++ [10]
  | Skipped c => [c]
  end.

Definition piece_tokens (p : piece) : list token :=
  match p with Run w => [meaning w] | Punctuation t => [t] | _ => [] end.

Definition text_of (ps : list piece) : cstr := concat (piece_text <$> ps).

(** Runs are as long as they can be; what is skipped is blanks, ends of lines
    and all bytes that have no meaning. *)
Fixpoint pieces_ok (ps : list piece) : Prop :=
  match ps with
  | [] => True
  | p :: ps' =>
      match p with
      | Run w => w <> [] /\ (forallb file_char w || bool_decide (is_Some (field_named w)) = true) /\
                 stops lexeme_char (text_of ps')
      | Punctuation t => is_Some (punctuation t)
      | Remark s => Forall (fun c => c <> 10) s
      | Skipped c => c ∈ [32; 9; 10] \/ lexeme_char c = false /\ mark c = false
      end /\ pieces_ok ps'
  end.

Lemma yylex_filename s rest :
  Forall (fun c => file_char c = true) s -> stops lexeme_char rest ->
  yylex (47 :: s ++ rest) = FILENAME (47 :: s) :: yylex rest.
Proof.
  intros Hf Hs. change (47 :: s ++ rest) with ((47 :: s) ++ rest).
  apply (yylex_lexeme 16 (Plus (Cls file_char)) (fun s => Some (FILENAME s))); try done.
  - apply matches_plus_cls. split; [done|]. by constructor.
  - constructor; [done|]. eapply list.Forall_impl; [exact Hf|]. by_bits.
  - apply earlier_head. vm_compute. reflexivity.
Qed.

Lemma forallb_Forall_true (q : Z -> bool) s : forallb q s = true <-> Forall (fun c => q c = true) s.
Proof. rewrite forallb_forall, list.Forall_forall. by setoid_rewrite list_elem_of_In. Qed.

Lemma plus_matches q s : matches (Plus (Cls q)) s <-> negb (bool_decide (s = [])) && forallb q s = true.
Proof.
  rewrite matches_plus_cls, andb_true_iff, forallb_Forall_true, negb_true_iff, bool_decide_eq_false. done.
Qed.

Lemma matches_number w :
  matches (Alt (Seq (lit (str "0x")) (Plus (Cls is_hex))) (Plus (Cls is_digit))) w <-> is_number w = true.
Proof.
  assert (H : matches (Alt (Seq (lit (str "0x")) (Plus (Cls is_hex))) (Plus (Cls is_digit))) w <->
    (exists h, w = 48 :: 120 :: h /\ matches (Plus (Cls is_hex)) h) \/ matches (Plus (Cls is_digit)) w).
  { split.
    - intros H. inversion H as [| | |? ? ? Hm|? ? ? Hm| |]; subst; [left|by right].
      inversion Hm as [| |? ? u v Hu Hv| | | |]; subst.
      apply (matches_lit [48; 120]) in Hu as ->. by exists v.
    - intros [(h & -> & Hh)|Hd]; [|by apply m_alt_r]. apply m_alt_l.
      by apply (m_seq _ _ [48; 120] h); [apply matches_lit|]. }
  rewrite H, plus_matches. setoid_rewrite plus_matches. unfold is_number. split.
  - intros [(h & -> & Hh)|Hd]; [done|]. by repeat case_match.
  - intros Hn. repeat case_match; try by right. left. by eexists.
Qed.

Lemma matches_word w : matches (Seq (Cls is_alpha) (Plus (Cls word_char))) w <-> is_word w = true.
Proof.
  rewrite matches_seq_cls. setoid_rewrite plus_matches. split.
  - intros (c & s & -> & Hc & Hs). cbn [is_word]. by rewrite Hc.
  - destruct w as [|c s]; cbn [is_word]; [done|]. rewrite <- andb_assoc, andb_true_iff. intros [Hc Hs]. by exists c, s.
Qed.

(** The names of the fields and the literal rules are the same. *)
Definition rule_of (p : cstr * token) : Prop :=
  exists i kw, p.1 = str kw /\ lexicon !! i = Some (keyword kw p.2) /\ earlier_fail i (str kw) = true /\
    forallb lexeme_char (str kw) = true.

Ltac is_rule i kw := apply list.Forall_cons_2;
  [exists i, kw; split; [reflexivity|]; split; [reflexivity|]; split; vm_compute; reflexivity|].

Lemma names_are_rules : Forall rule_of names_of_fields.
Proof.
  unfold names_of_fields. is_rule 13%nat "ostype"%string. is_rule 12%nat "sysmap"%string.
  is_rule 0%nat "linux_tasks"%string. is_rule 1%nat "linux_mm"%string. is_rule 2%nat "linux_pid"%string.
  is_rule 3%nat "linux_pgd"%string. is_rule 4%nat "linux_addr"%string. is_rule 5%nat "ntoskrnl"%string.
  is_rule 6%nat "win_tasks"%string. is_rule 7%nat "win_pdbase"%string. is_rule 8%nat "win_pid"%string.
  is_rule 9%nat "win_peb"%string. is_rule 10%nat "win_iba"%string. is_rule 11%nat "win_ph"%string. constructor.
Qed.

Lemma literal_rules j r a w : (j < 14)%nat -> lexicon !! j = Some (r, a) -> field_named w = None -> ~ matches r w.
Proof.
  intros Hj Hr Hw. assert (H : forall p, take 14 lexicon !! j = Some p -> exists k, p.1 = lit k /\
    bool_decide (is_Some (field_named k)) = true).
  { apply Forall_lookup. unfold lexicon, keyword. cbn [take].
    repeat (apply list.Forall_cons_2; [eexists; split; [reflexivity|vm_compute; reflexivity]|]). constructor. }
  destruct (H (r, a)) as (k & E & Hk%bool_decide_eq_true); [by rewrite lookup_take, decide_True|].
  cbn [fst] in E. rewrite E, matches_lit. intros ->. rewrite Hw in Hk. by destruct Hk.
Qed.

Lemma yylex_run w rest :
  w <> [] -> forallb file_char w || bool_decide (is_Some (field_named w)) = true ->
  stops lexeme_char rest -> yylex (w ++ rest) = meaning w :: yylex rest.
Proof.
  intros Hne Hw Hs. unfold meaning. destruct (field_named w) as [t|] eqn:Ek.
  - unfold field_named in Ek. destruct (List.find _ names_of_fields) as [p|] eqn:Ef; [|done]. injection Ek as <-.
    apply find_some in Ef as [Hin%list_elem_of_In <-%bool_decide_eq_true].
    pose proof names_are_rules as Hr. rewrite list.Forall_forall in Hr.
    destruct (Hr p Hin) as (i & kw & -> & Hi & He & Hc). by apply (yylex_keyword i).
  - rewrite bool_decide_false, orb_false_r in Hw by by intros [].
    assert (Hch : Forall (fun c => lexeme_char c = true) w).
    { apply forallb_Forall_true in Hw. eapply list.Forall_impl; [exact Hw|]. by_bits. }
    destruct (is_number w) eqn:En; [|destruct (is_word w) eqn:Ew].
    + apply (yylex_lexeme 14 _ (fun s => Some (NUM s)) (NUM w) w rest eq_refl); [by apply matches_number|done..| |done].
      intros j r a Hj Hr. by apply (literal_rules j r a).
    + apply (yylex_lexeme 15 _ (fun s => Some (WORD s)) (WORD w) w rest eq_refl); [by apply matches_word|done..| |done].
      intros j r a Hj Hr. destruct (decide (j < 14)%nat); [by apply (literal_rules j r a)|].
      assert (j = 14)%nat as -> by lia. injection Hr as <- <-. rewrite matches_number. by rewrite En.
    + apply (yylex_lexeme 16 _ (fun s => Some (FILENAME s)) (FILENAME w) w rest eq_refl);
        [apply matches_plus_cls; split; [done|by apply forallb_Forall_true]|done..| |done].
      intros j r a Hj Hr. destruct (decide (j < 14)%nat); [by apply (literal_rules j r a)|].
      assert (j = 14 \/ j = 15)%nat as [-> | ->] by lia; injection Hr as <- <-;
        rewrite ?matches_number, ?matches_word; by rewrite ?En, ?Ew.
Qed.

Lemma yylex_punctuation t c s : punctuation t = Some c -> yylex (c :: s) = t :: yylex s.
Proof.
  destruct t; try done; intros [= <-];
    [apply yylex_quote|apply yylex_obrace|apply yylex_ebrace|apply yylex_semicolon|apply yylex_equals].
Qed.

Lemma yylex_skipped c s : c ∈ [32; 9; 10] \/ lexeme_char c = false /\ mark c = false -> yylex (c :: s) = yylex s.
Proof.
  intros [Hc|[Hl Hk]]; [|by apply yylex_echo]. rewrite !elem_of_cons in Hc.
  destruct Hc as [-> |[-> |[-> |?%not_elem_of_nil]]]; [by apply yylex_blank..|apply yylex_eol|done].
Qed.

(** ** Properties *)

(** The scanner splits every text as the rules of lexicon.l ask: from left
    to right, each time by the longest match of any rule, and by the first
    rule among equally long ones; what no rule matches is passed over byte by
    byte. *)
Theorem yylex_correct (s : list Z) (ts : list token) : yylex s = ts <-> tokenises s ts.
Proof. apply yylex_iff. Qed.

(** C23: what the scanner makes of a configuration file, said without the rules
    of lexicon.l: the name of a field stands for its token, a run of decimal
    digits or [0x] and hex digits is a number, another run of at least two
    letters, digits, dots and hyphens that starts with a letter is a word, any
    other run of these and slashes is a file name; braces, quotes, semicolons
    and equals signs stand for themselves; blanks, ends of lines, comments and
    all other bytes are passed over. *)
Theorem yylex_pieces (ps : list piece) :
  pieces_ok ps -> yylex (text_of ps) = concat (piece_tokens <$> ps).
Proof.
  unfold text_of. induction ps as [|p ps IH]; [done|]. cbn [pieces_ok fmap list_fmap concat].
  intros [Hp Hps]. specialize (IH Hps). destruct p as [w|t|s|c]; cbn [piece_text piece_tokens app].
  - destruct Hp as (Hne & Hw & Hs). by rewrite yylex_run, IH.
  - destruct Hp as [c Hc]. rewrite Hc. cbn [option_list option_rect app]. by rewrite (yylex_punctuation t), IH.
  - rewrite <- !app_assoc. cbn [app]. by rewrite yylex_comment.
  - by rewrite yylex_skipped.
Qed.

(** *** Witness *)

(** [fc5 { linux_mm = 0x1F; # ids] over two lines, with a stray [*]. *)
Definition sample_pieces : list piece :=
  [Run (str "fc5"); Skipped 32; Punctuation OBRACE; Skipped 42; Run (str "linux_mm"); Skipped 32;
   Punctuation EQUALS; Run (str "0x1F"); Punctuation SEMICOLON; Remark (str " ids"); Run (str "a"); Skipped 9;
   Run (str "0x"); Punctuation EBRACE].

Lemma yylex_pieces_witness :
  yylex (str "fc5 {*linux_mm =0x1F;# ids" ++ [10] ++ str "a" ++ [9] ++ str "0x}") =
  [WORD (str "fc5"); OBRACE; LINUX_MM; EQUALS; NUM (str "0x1F"); SEMICOLON; FILENAME (str "a"); FILENAME (str "0x");
   EBRACE].
Proof.
  refine (yylex_pieces sample_pieces _). cbn [pieces_ok sample_pieces].
  repeat split; try done; try (vm_compute; reflexivity); try (by left; apply elem_of_cons; left);
    try (left; apply (bool_decide_eq_true_1 _); reflexivity); try (by right); try by eexists.
  by repeat constructor.
Defined.
