(* ===== verification/Dll.v ===== *)
(** * Doubly linked lists in a heap

    The address cache and the pid cache of xa_cache.c are both doubly linked
    lists of malloc'ed nodes, reached from a head and a tail pointer kept in
    the instance together with a size counter.  This file has the node heap,
    the pointer operations the two caches are written with, and the
    representation predicate that says which list of payloads a heap holds. *)

From S2P Require Import Prelude.

(** Node addresses.  [None] is the NULL pointer. *)
Definition loc := nat.

Record node (A : Type) := Node { payload : A; next : option loc; prev : option loc }.
Arguments Node {A} _ _ _.
Arguments payload {A} _.
Arguments next {A} _.
Arguments prev {A} _.

(** The list header ([cache_head], [cache_tail], [current_cache_size]), the
    live nodes, and the allocator's next address.  Addresses are not reused,
    so a use after [free] is a lookup that fails. *)
Record dll (A : Type) := Dll {
  nodes : gmap loc (node A);
  head : option loc;
  tail : option loc;
  count : Z;
  brk : loc }.
Arguments Dll {A} _ _ _ _ _.
Arguments nodes {A} _.
Arguments head {A} _.
Arguments tail {A} _.
Arguments count {A} _.
Arguments brk {A} _.

Section Ops.
Context {A : Type}.
Implicit Types (l : loc) (p : option loc) (d : dll A) (n : node A) (a : A).

Definition set_payload (f : A -> A) n : node A := Node (f (payload n)) (next n) (prev n).
Definition set_next p n : node A := Node (payload n) p (prev n).
Definition set_prev p n : node A := Node (payload n) (next n) p.

Definition with_nodes m d : dll A := Dll m (head d) (tail d) (count d) (brk d).
Definition with_head p d : dll A := Dll (nodes d) p (tail d) (count d) (brk d).
Definition with_tail p d : dll A := Dll (nodes d) (head d) p (count d) (brk d).
Definition with_count z d : dll A := Dll (nodes d) (head d) (tail d) z (brk d).

(** [*p], undefined for NULL and for a freed node. *)
Definition deref p : M (dll A) (node A) := fun d =>
  match p with
  | None => Fault
  | Some l => match nodes d !! l with
              | Some n => Ret (n, d)
              | None => Fault
              end
  end.

(** [p->field = v], as an update of the node. *)
Definition store p (f : node A -> node A) : M (dll A) unit := fun d =>
  match p with
  | None => Fault
  | Some l => match nodes d !! l with
              | Some n => Ret (tt, with_nodes (<[l := f n]> (nodes d)) d)
              | None => Fault
              end
  end.

Definition free p : M (dll A) unit := fun d =>
  match p with
  | None => Ret (tt, d)
  | Some l => match nodes d !! l with
              | Some _ => Ret (tt, with_nodes (delete l (nodes d)) d)
              | None => Fault
              end
  end.

(** Enough fuel for one pass over the list: a walk that visits more nodes
    than there are is going round a cycle. *)
Definition fuel d : nat := S (size (nodes d)).

(** [while (current != NULL){ if (test) goto exit; current = current->next; }] *)
Definition find_from (test : A -> bool) (n : nat) p : M (dll A) (option loc) :=
  iter n (fun cur =>
    match cur with
    | None => mret (inr None)
    | Some l => n ← deref cur;
                if test (payload n) then mret (inr (Some l))
                else mret (inl (next n))
    end) p.

(** The scan for the least recently used entry:
    [oldest = current = head; while (current != NULL){
       if (current < oldest) oldest = current; current = current->next; }] *)
Definition oldest_from (older : A -> A -> bool) (n : nat) p : M (dll A) (option loc) :=
  iter n (fun '(cur, old) =>
    match cur with
    | None => mret (inr old)
    | Some l => nc ← deref cur;
                no ← deref old;
                mret (inl (next nc, if older (payload nc) (payload no) then cur else old))
    end) (p, p).

(** Taking a node out of the list, case by case as the code does. *)
Definition unlink p : M (dll A) unit :=
  n ← deref p;
  match next n, prev n with
  | None, None => (* only entry *)
      _ ← modify (with_head None);
      modify (with_tail None)
  | None, Some _ => (* last entry *)
      _ ← modify (with_tail (prev n));
      store (prev n) (set_next None)
  | Some _, None => (* first entry *)
      _ ← modify (with_head (next n));
      store (next n) (set_prev None)
  | Some _, Some _ => (* somewhere in the middle *)
      _ ← store (prev n) (set_next (next n));
      store (next n) (set_prev (prev n))
  end.

(** Releasing a node that was taken out. *)
Definition release p : M (dll A) unit :=
  _ ← store p (set_next None);
  _ ← store p (set_prev None);
  _ ← free p;
  modify (fun d => with_count (s32 (count d - 1)) d).

(** Removing a node from the list and releasing it. *)
Definition evict p : M (dll A) unit := _ ← unlink p; release p.

(** Allocates a node with undefined links; they are set by [append]. *)
Definition malloc a : M (dll A) loc := fun d =>
  Ret (brk d, Dll (<[brk d := Node a None None]> (nodes d)) (head d) (tail d)
                  (count d) (S (brk d))).

(** Adding a freshly allocated node to the end of the list. *)
Definition append l : M (dll A) unit :=
  t ← gets tail;
  _ ← (match t with
       | Some _ => store t (set_next (Some l))
       | None => mret tt
       end);
  t ← gets tail;
  _ ← store (Some l) (set_prev t);
  _ ← modify (with_tail (Some l));
  h ← gets head;
  _ ← (match h with
       | None => modify (with_head (Some l))
       | Some _ => mret tt
       end);
  _ ← store (Some l) (set_next None);
  modify (fun d => with_count (s32 (count d + 1)) d).

Definition push a : M (dll A) unit := l ← malloc a; append l.

(** [while (current != NULL){ tmp = current->next; free(current); current = tmp; }] *)
Definition free_from (n : nat) p : M (dll A) unit :=
  iter n (fun cur =>
    match cur with
    | None => mret (inr tt)
    | Some l => n ← deref cur;
                _ ← free cur;
                mret (inl (next n))
    end) p.

Definition empty_dll (b : loc) : dll A := Dll ∅ None None 0 b.
End Ops.

(** ** Representation

    [seg pv xs nx] is the heap of a list segment: the nodes of [xs] linked in
    order, the first one's [prev] being [pv] and the last one's [next] [nx]. *)

Section Rep.
Context {A : Type}.
Implicit Types (l : loc) (p pv nx : option loc) (d : dll A) (a : A) (xs ys : list (loc * A)).

Definition hd_loc xs nx : option loc :=
  match xs with [] => nx | (l, _) :: _ => Some l end.

Fixpoint last_loc pv xs : option loc :=
  match xs with [] => pv | (l, _) :: xs' => last_loc (Some l) xs' end.

Fixpoint seg pv xs nx : gmap loc (node A) :=
  match xs with
  | [] => ∅
  | (l, a) :: xs' => <[l := Node a (hd_loc xs' nx) pv]> (seg (Some l) xs' nx)
  end.

(** The pointers of [d] form the list [xs], and nothing else is allocated. *)
Record links d xs : Prop := {
  links_nodes : nodes d = seg None xs None;
  links_head : head d = hd_loc xs None;
  links_tail : tail d = last_loc None xs;
  links_nodup : NoDup xs.*1;
  links_brk : Forall (fun l => (l < brk d)%nat) xs.*1 }.

(** ... and the size counter is right. *)
Definition rep d xs : Prop := links d xs /\ count d = Z.of_nat (length xs).

Lemma hd_loc_app xs ys nx : hd_loc (xs ++ ys) nx = hd_loc xs (hd_loc ys nx).
Proof. by destruct xs as [|[l a] xs]. Qed.

Lemma last_loc_app pv xs ys : last_loc pv (xs ++ ys) = last_loc (last_loc pv xs) ys.
Proof. revert pv. induction xs as [|[l a] xs IH]; intros pv; simpl; auto. Qed.

Lemma seg_fresh pv xs nx l : l ∉ xs.*1 -> seg pv xs nx !! l = None.
Proof.
  revert pv. induction xs as [|[l' a] xs IH]; intros pv Hl; simpl; [done|].
  apply not_elem_of_cons in Hl as [? ?]. rewrite lookup_insert_ne by done. by apply IH.
Qed.

Lemma seg_lookup pv xs l a ys nx :
  NoDup (xs ++ (l, a) :: ys).*1 ->
  seg pv (xs ++ (l, a) :: ys) nx !! l = Some (Node a (hd_loc ys nx) (last_loc pv xs)).
Proof.
  revert pv. induction xs as [|[l' a'] xs IH]; intros pv Hnd; simpl.
  - by rewrite lookup_insert_eq.
  - simpl in Hnd. apply list.NoDup_cons in Hnd as [Hl' Hnd].
    rewrite lookup_insert_ne; [by apply IH|].
    rewrite fmap_app in Hl'. set_solver.
Qed.

Lemma size_seg pv xs nx : NoDup xs.*1 -> size (seg pv xs nx) = length xs.
Proof.
  revert pv. induction xs as [|[l a] xs IH]; intros pv Hnd; simpl; [apply map_size_empty|].
  simpl in Hnd. apply list.NoDup_cons in Hnd as [Hl Hnd].
  rewrite map_size_insert_None by by apply seg_fresh. by rewrite IH.
Qed.

(** A heap represents one list only. *)
Lemma seg_inj pv xs ys :
  NoDup xs.*1 -> NoDup ys.*1 -> hd_loc xs None = hd_loc ys None ->
  seg pv xs None = seg pv ys None -> xs = ys.
Proof.
  revert pv ys. induction xs as [|[l a] xs IH]; intros pv [|[l' b] ys] H1 H2 Hh Hs; try done.
  simpl in *. injection Hh as <-. apply list.NoDup_cons in H1 as [Hl1 H1], H2 as [Hl2 H2].
  assert (Hl := f_equal (lookup l) Hs). rewrite !lookup_insert_eq in Hl. injection Hl as -> Hh.
  f_equal. eapply (IH (Some l)); [done..|].
  apply (f_equal (delete l)) in Hs. by rewrite !delete_insert_id in Hs by by apply seg_fresh.
Qed.

(** Writing a payload. *)
Lemma seg_set_payload pv xs l a a' ys nx :
  NoDup (xs ++ (l, a) :: ys).*1 ->
  <[l := Node a' (hd_loc ys nx) (last_loc pv xs)]> (seg pv (xs ++ (l, a) :: ys) nx) =
  seg pv (xs ++ (l, a') :: ys) nx.
Proof.
  revert pv. induction xs as [|[l' b] xs IH]; intros pv Hnd; simpl.
  - by rewrite insert_insert_eq.
  - simpl in Hnd. apply list.NoDup_cons in Hnd as [Hl' Hnd].
    rewrite fmap_app in Hl'.
    rewrite insert_insert_ne by set_solver. rewrite IH by done.
    by rewrite !hd_loc_app.
Qed.

(** Redirecting the last [next] of a segment. *)
Lemma seg_set_next pv xs l a nx nx' :
  NoDup (xs ++ [(l, a)]).*1 ->
  <[l := Node a nx' (last_loc pv xs)]> (seg pv (xs ++ [(l, a)]) nx) =
  seg pv (xs ++ [(l, a)]) nx'.
Proof.
  revert pv. induction xs as [|[l' b] xs IH]; intros pv Hnd; simpl.
  - by rewrite insert_insert_eq.
  - simpl in Hnd. apply list.NoDup_cons in Hnd as [Hl' Hnd].
    rewrite fmap_app in Hl'.
    rewrite insert_insert_ne by set_solver. rewrite IH by done.
    by rewrite !hd_loc_app.
Qed.

(** Redirecting the first [prev] of a segment. *)
Lemma seg_set_prev pv pv' l a ys nx :
  <[l := Node a (hd_loc ys nx) pv']> (seg pv ((l, a) :: ys) nx) =
  seg pv' ((l, a) :: ys) nx.
Proof. simpl. by rewrite insert_insert_eq. Qed.

(** Segments can be cut and glued anywhere. *)
Lemma seg_app pv xs ys nx :
  NoDup (xs ++ ys).*1 ->
  seg pv (xs ++ ys) nx = seg pv xs (hd_loc ys nx) ∪ seg (last_loc pv xs) ys nx.
Proof.
  revert pv. induction xs as [|[l a] xs IH]; intros pv Hnd; simpl.
  - by rewrite (left_id_L ∅ (∪)).
  - simpl in Hnd. apply list.NoDup_cons in Hnd as [Hl Hnd].
    rewrite IH by done. rewrite <- insert_union_l. by rewrite hd_loc_app.
Qed.

(** A node at the end of the heap can be added or dropped. *)
Lemma seg_snoc pv xs l a nx :
  NoDup (xs ++ [(l, a)]).*1 ->
  seg pv (xs ++ [(l, a)]) nx = <[l := Node a nx (last_loc pv xs)]> (seg pv xs (Some l)).
Proof.
  intros Hnd. rewrite seg_app by done. simpl. rewrite insert_empty.
  rewrite fmap_app in Hnd. apply list.NoDup_app in Hnd as (_ & Hx & _).
  rewrite insert_union_singleton_l, map_union_comm; [done|].
  apply map_disjoint_singleton_r_2, seg_fresh. intros Hin. by apply (Hx l Hin), list_elem_of_here.
Qed.

Lemma links_fuel d xs : links d xs -> fuel d = S (length xs).
Proof. intros L. unfold fuel. by rewrite (links_nodes _ _ L), size_seg by apply L. Qed.
End Rep.

(** ** What the operations do to a represented list *)

Section Spec.
Context {A : Type}.
Implicit Types (l : loc) (d : dll A) (a : A) (xs ys : list (loc * A)).

Lemma deref_spec d xs l a ys :
  links d (xs ++ (l, a) :: ys) ->
  deref (Some l) d = Ret (Node a (hd_loc ys None) (last_loc None xs), d).
Proof.
  intros L. unfold deref. by rewrite (links_nodes _ _ L), seg_lookup by apply L.
Qed.

Lemma store_spec d xs l a ys f :
  links d (xs ++ (l, a) :: ys) ->
  store (Some l) f d =
  Ret (tt, with_nodes (<[l := f (Node a (hd_loc ys None) (last_loc None xs))]> (nodes d)) d).
Proof.
  intros L. unfold store. by rewrite (links_nodes _ _ L), seg_lookup by apply L.
Qed.

(** Changing a payload in place changes that element of the list only. *)
Lemma store_payload_spec d xs l a ys f :
  links d (xs ++ (l, a) :: ys) ->
  runs (store (Some l) (set_payload f)) d (fun _ d' =>
    links d' (xs ++ (l, f a) :: ys) /\ count d' = count d).
Proof.
  intros L. eexists _, _. split; [by apply store_spec|]. split; [|done].
  assert (E : (xs ++ (l, f a) :: ys).*1 = (xs ++ (l, a) :: ys).*1)
    by by rewrite !fmap_app.
  split; simpl.
  - rewrite (links_nodes _ _ L). apply seg_set_payload, L.
  - rewrite (links_head _ _ L). by rewrite !hd_loc_app.
  - rewrite (links_tail _ _ L). by rewrite !last_loc_app.
  - rewrite E. apply L.
  - rewrite E. apply L.
Qed.

Lemma find_from_gen test d xs ys n :
  links d (xs ++ ys) -> (length ys < n)%nat ->
  Forall (fun x => test x.2 = false) xs ->
  runs (find_from test n (hd_loc ys None)) d (fun r d' => d' = d /\
    match r with
    | Some l => exists pre a post, xs ++ ys = pre ++ (l, a) :: post /\
                  test a = true /\ Forall (fun x => test x.2 = false) pre
    | None => Forall (fun x => test x.2 = false) (xs ++ ys)
    end).
Proof.
  revert xs n. induction ys as [|[l a] ys IH]; intros xs n L Hn Hxs;
    (destruct n as [|n]; [simpl in Hn; lia|]); apply runs_iter_step; cbn [hd_loc].
  - apply runs_ret. by rewrite app_nil_r.
  - apply runs_bind. eapply runs_eq; [by apply deref_spec|]. simpl.
    destruct (test a) eqn:E.
    + apply runs_ret. split; [done|]. by exists xs, a, ys.
    + apply runs_ret. change (xs ++ (l, a) :: ys) with (xs ++ [(l, a)] ++ ys) in *.
      rewrite app_assoc in *. apply (IH (xs ++ [(l, a)])); [done|simpl in Hn; lia|].
      apply Forall_app. by repeat constructor.
Qed.

(** The walk returns the first node that passes the test, or NULL. *)
Lemma find_spec test d xs :
  links d xs ->
  runs (find_from test (fuel d) (head d)) d (fun r d' => d' = d /\
    match r with
    | Some l => exists pre a post, xs = pre ++ (l, a) :: post /\
                  test a = true /\ Forall (fun x => test x.2 = false) pre
    | None => Forall (fun x => test x.2 = false) xs
    end).
Proof.
  intros L. rewrite (links_fuel _ _ L), (links_head _ _ L).
  apply (find_from_gen test d [] xs); [done|lia|constructor].
Qed.

(** [pre ++ (l, a) :: post] splits the list at its first minimum of [key]. *)
Definition first_min (key : A -> Z) (pre : list (loc * A)) a (post : list (loc * A)) : Prop :=
  Forall (fun x => key a < key x.2) pre /\ Forall (fun x => key a <= key x.2) post.

Lemma oldest_from_gen (key : A -> Z) d pre l a mid ys n :
  links d (pre ++ (l, a) :: mid ++ ys) -> (length ys < n)%nat ->
  first_min key pre a mid ->
  runs (iter n (fun '(cur, old) =>
          match cur with
          | None => mret (inr old)
          | Some l => nc ← deref cur; no ← deref old;
              mret (inl (next nc, if key (payload nc) <? key (payload no) then cur else old))
          end) (hd_loc ys None, Some l)) d
    (fun r d' => d' = d /\ exists pre' l' a' post',
      pre ++ (l, a) :: mid ++ ys = pre' ++ (l', a') :: post' /\ r = Some l' /\
      first_min key pre' a' post').
Proof.
  revert pre l a mid n.
  induction ys as [|[l2 a2] ys IH]; intros pre l a mid n L Hn [Hpre Hmid];
    (destruct n as [|n]; [simpl in Hn; lia|]); apply runs_iter_step; cbn [hd_loc].
  - apply runs_ret. split; [done|].
    exists pre, l, a, mid. by rewrite app_nil_r.
  - assert (L2 : links d ((pre ++ (l, a) :: mid) ++ (l2, a2) :: ys))
      by (by rewrite <- app_assoc).
    apply runs_bind. eapply runs_eq; [by apply deref_spec|].
    apply runs_bind. eapply runs_eq; [by apply deref_spec|]. simpl.
    apply runs_ret. destruct (Z.ltb_spec (key a2) (key a)) as [Hlt|Hge].
    + specialize (IH (pre ++ (l, a) :: mid) l2 a2 [] n).
      rewrite <- app_assoc in IH. apply IH; [done|simpl in Hn; lia|].
      split; [|constructor]. apply Forall_app. split.
      * eapply Forall_impl; [|exact Hpre]. simpl. intros. lia.
      * constructor; [done|]. eapply Forall_impl; [|exact Hmid]. simpl. intros. lia.
    + specialize (IH pre l a (mid ++ [(l2, a2)]) n).
      rewrite <- app_assoc in IH. apply IH; [done|simpl in Hn; lia|].
      split; [done|]. apply Forall_app. by repeat constructor.
Qed.

(** The scan picks the first entry whose key is minimal. *)
Lemma oldest_spec (key : A -> Z) d xs :
  links d xs -> xs <> [] ->
  runs (oldest_from (fun x y => key x <? key y) (fuel d) (head d)) d (fun r d' => d' = d /\
    exists pre l a post, xs = pre ++ (l, a) :: post /\ r = Some l /\ first_min key pre a post).
Proof.
  intros L Hne. rewrite (links_fuel _ _ L), (links_head _ _ L).
  destruct xs as [|[l a] ys]; [done|]. apply runs_iter_step. cbn [hd_loc].
  apply runs_bind. eapply runs_eq; [by apply (deref_spec d [])|].
  apply runs_bind. eapply runs_eq; [by apply (deref_spec d [])|].
  simpl. apply runs_ret. rewrite Z.ltb_irrefl.
  apply (oldest_from_gen key d [] l a [] ys); [done|lia|split; constructor].
Qed.
End Spec.

(** ** Removing, adding and destroying *)

Section Shape.
Context {A : Type}.
Implicit Types (l : loc) (d : dll A) (a : A) (xs ys : list (loc * A)).

Lemma store_at d l n f :
  nodes d !! l = Some n ->
  store (Some l) f d = Ret (tt, with_nodes (<[l := f n]> (nodes d)) d).
Proof. intros E. unfold store. by rewrite E. Qed.

(** The heap after the four pointer writes and the [free]. *)
Definition relink xs ys (m : gmap loc (node A)) : gmap loc (node A) :=
  let m1 := match reverse xs with
            | [] => m
            | (lp, ap) :: xs' =>
                <[lp := Node ap (hd_loc ys None) (last_loc None (reverse xs'))]> m
            end in
  match ys with
  | [] => m1
  | (ln, an) :: ys' => <[ln := Node an (hd_loc ys' None) (last_loc None xs)]> m1
  end.

Lemma relink_seg xs l a ys :
  NoDup (xs ++ (l, a) :: ys).*1 ->
  delete l (relink xs ys (seg None (xs ++ (l, a) :: ys) None)) = seg None (xs ++ ys) None.
Proof.
  intros Hnd. pose proof Hnd as Hnd'.
  rewrite fmap_app, fmap_cons in Hnd'.
  apply list.NoDup_app in Hnd' as (Hx & Hxy & Hly).
  apply list.NoDup_cons in Hly as [Hl Hy].
  assert (Hlx : l ∉ xs.*1) by (intros H; by apply (Hxy l H), list_elem_of_here).
  assert (Hyx : forall i, i ∈ ys.*1 -> i ∉ xs.*1).
  { intros i Hi Hx'. by apply (Hxy i Hx'), list_elem_of_further. }
  assert (E1 : forall R, match reverse xs with
            | [] => seg None xs (Some l) ∪ R
            | (lp, ap) :: xs' =>
                <[lp := Node ap (hd_loc ys None) (last_loc None (reverse xs'))]>
                  (seg None xs (Some l) ∪ R)
            end = seg None xs (hd_loc ys None) ∪ R).
  { intros R. destruct (reverse xs) as [|[lp ap] xs'] eqn:Er.
    - apply (f_equal reverse) in Er. rewrite reverse_involutive in Er. by subst xs.
    - apply (f_equal reverse) in Er. rewrite reverse_involutive, reverse_cons in Er.
      subst xs. by rewrite insert_union_l, seg_set_next. }
  rewrite seg_app by done. unfold relink. simpl. rewrite E1. clear E1.
  rewrite seg_app.
  2:{ rewrite fmap_app. apply list.NoDup_app. split_and!; [done| |done].
      intros i Hi Hi'. by apply (Hyx i). }
  destruct ys as [|[ln an] ys]; simpl.
  - rewrite insert_empty, delete_union, delete_singleton_eq.
    rewrite delete_id; [done|]. by apply seg_fresh.
  - assert (ln <> l) by (intros ->; apply Hl, list_elem_of_here).
    rewrite insert_union_r by (apply seg_fresh, Hyx, list_elem_of_here).
    rewrite insert_insert_ne, insert_insert_eq by done.
    rewrite delete_union, delete_insert_eq, delete_id by by apply seg_fresh.
    f_equal. rewrite delete_id; [done|].
    rewrite lookup_insert_ne by done. apply seg_fresh.
    apply not_elem_of_cons in Hl as [_ Hl]. done.
Qed.
End Shape.

Section Evict.
Context {A : Type}.
Implicit Types (l : loc) (d : dll A) (a : A) (xs ys : list (loc * A)).

Lemma links_app_nodup d xs l a ys :
  links d (xs ++ (l, a) :: ys) -> (l ∉ xs.*1) /\ (l ∉ ys.*1).
Proof.
  intros L. pose proof (links_nodup _ _ L) as Hnd.
  rewrite fmap_app, fmap_cons in Hnd.
  apply list.NoDup_app in Hnd as (_ & Hx & Hl%list.NoDup_cons). split; [|by apply Hl].
  intros H. by apply (Hx l H), list_elem_of_here.
Qed.

(** [unlink] performs exactly the writes of [relink] and moves head and tail. *)
Lemma unlink_spec d xs l a ys :
  links d (xs ++ (l, a) :: ys) ->
  unlink (Some l) d =
  Ret (tt, Dll (relink xs ys (nodes d)) (hd_loc (xs ++ ys) None) (last_loc None (xs ++ ys))
               (count d) (brk d)).
Proof.
  intros L. unfold unlink. erewrite bind_eq by by apply deref_spec.
  pose proof (links_head _ _ L) as Hh. pose proof (links_tail _ _ L) as Ht.
  pose proof (links_nodes _ _ L) as Hn. pose proof (links_nodup _ _ L) as Hnd.
  rewrite hd_loc_app in Hh |- *. rewrite last_loc_app in Ht |- *. simpl in Hh, Ht.
  cbn [next prev]. unfold relink.
  induction xs as [|[lp ap] xs _] using rev_ind; destruct ys as [|[ln an] ys].
  - simpl. unfold mbind, M_bind, modify. by destruct d.
  - simpl. unfold mbind, M_bind, modify.
    erewrite store_at; [|simpl; rewrite Hn; apply (seg_lookup None [(l, a)]); done].
    simpl in Ht. unfold with_nodes, with_head. simpl. by rewrite Ht.
  - rewrite reverse_app. simpl. rewrite !last_loc_app. simpl.
    unfold mbind, M_bind, modify.
    erewrite store_at; [|simpl; rewrite Hn, <- app_assoc; apply seg_lookup;
                          rewrite <- app_assoc in Hnd; exact Hnd].
    rewrite reverse_involutive. unfold with_nodes, set_next. simpl.
    rewrite Hh, !hd_loc_app. by destruct xs as [|[]].
  - rewrite reverse_app. simpl. rewrite !last_loc_app. simpl. rewrite reverse_involutive.
    assert (Hne : lp <> ln).
    { rewrite !fmap_app in Hnd. simpl in Hnd. rewrite <- app_assoc in Hnd.
      apply list.NoDup_app in Hnd as (_ & _ & Hnd). simpl in Hnd.
      apply list.NoDup_cons in Hnd as [Hnd _]. intros ->.
      apply Hnd. apply list_elem_of_further, list_elem_of_here. }
    erewrite bind_eq.
    2:{ apply store_at. rewrite Hn, <- app_assoc. apply seg_lookup.
        rewrite <- app_assoc in Hnd. exact Hnd. }
    erewrite store_at.
    2:{ simpl. rewrite lookup_insert_ne by done. rewrite Hn.
        change ((l, a) :: (ln, an) :: ys) with ([(l, a)] ++ (ln, an) :: ys) in *.
        rewrite app_assoc in *. by apply seg_lookup. }
    unfold with_nodes, set_next, set_prev. simpl. simpl in Ht.
    rewrite Hh, Ht, !hd_loc_app. by destruct xs as [|[]].
Qed.

Lemma relink_lookup xs l ys (m : gmap loc (node A)) :
  l ∉ xs.*1 -> l ∉ ys.*1 -> relink xs ys m !! l = m !! l.
Proof.
  intros Hx Hy. unfold relink.
  assert (E : forall m' : gmap loc (node A),
    (match reverse xs with
     | [] => m'
     | (lp, ap) :: xs' =>
         <[lp := Node ap (hd_loc ys None) (last_loc None (reverse xs'))]> m'
     end) !! l = m' !! l).
  { intros m'. destruct (reverse xs) as [|[lp ap] xs'] eqn:Er; [done|].
    apply lookup_insert_ne. intros ->. apply Hx.
    apply (f_equal reverse) in Er. rewrite reverse_involutive in Er. subst xs.
    rewrite reverse_cons, fmap_app. apply elem_of_app. right. apply list_elem_of_here. }
  destruct ys as [|[ln an] ys]; [by apply E|].
  rewrite lookup_insert_ne; [by apply E|]. intros ->. apply Hy, list_elem_of_here.
Qed.

(** Evicting a node removes that element, keeps the order of the others and
    releases exactly its memory. *)
Lemma evict_spec d xs l a ys :
  links d (xs ++ (l, a) :: ys) ->
  runs (evict (Some l)) d (fun _ d' =>
    links d' (xs ++ ys) /\ count d' = s32 (count d - 1)).
Proof.
  intros L. destruct (links_app_nodup _ _ _ _ _ L) as [Hx Hy].
  assert (Hl : (relink xs ys (nodes d)) !! l = Some (Node a (hd_loc ys None) (last_loc None xs))).
  { rewrite relink_lookup by done. rewrite (links_nodes _ _ L). apply seg_lookup, L. }
  unfold evict. apply runs_bind. eapply runs_eq; [by eapply unlink_spec|].
  unfold release. apply runs_bind. eapply runs_eq; [by apply store_at|].
  apply runs_bind. eapply runs_eq; [by apply store_at; simpl; rewrite lookup_insert_eq|].
  apply runs_bind. eapply runs_eq.
  { unfold free. simpl. by rewrite lookup_insert_eq. }
  apply runs_modify. simpl. split; [|done].
  assert (Hsub : (xs ++ ys).*1 `sublist_of` (xs ++ (l, a) :: ys).*1).
  { rewrite !fmap_app, fmap_cons. apply sublist_app; [done|]. by apply sublist_cons. }
  split; simpl; try done.
  - rewrite insert_insert_eq, delete_insert_eq, (links_nodes _ _ L). apply relink_seg, L.
  - eapply sublist_NoDup; [apply L|done].
  - apply list.Forall_forall. intros i Hi.
    apply (proj1 (list.Forall_forall _ _) (links_brk _ _ L)).
    by eapply sublist_subseteq.
Qed.
End Evict.

Section Push.
Context {A : Type}.
Implicit Types (l : loc) (d : dll A) (a : A) (xs ys : list (loc * A)).

Lemma brk_fresh d xs : links d xs -> brk d ∉ xs.*1.
Proof.
  intros L Hin. pose proof (proj1 (list.Forall_forall _ _) (links_brk _ _ L) _ Hin). simpl in *.
  lia.
Qed.

(** What the header and the heap look like after adding a node. *)
Lemma append_links d xs a m c :
  links d xs ->
  m = <[brk d := Node a None (last_loc None xs)]> (seg None xs (Some (brk d))) ->
  links (Dll m (hd_loc xs (Some (brk d))) (Some (brk d)) c (S (brk d))) (xs ++ [(brk d, a)]).
Proof.
  intros L ->. pose proof (brk_fresh _ _ L) as Hf.
  assert (Hnd : NoDup (xs ++ [(brk d, a)]).*1).
  { rewrite fmap_app. apply list.NoDup_app. split_and!; [apply L| |].
    - intros i Hi ->%list_elem_of_singleton. done.
    - apply NoDup_singleton. }
  split; simpl; [| | |done|].
  - by rewrite seg_snoc.
  - by rewrite hd_loc_app.
  - by rewrite last_loc_app.
  - rewrite fmap_app. apply Forall_app. split.
    + eapply Forall_impl; [|apply L]. simpl. intros. lia.
    + repeat constructor.
Qed.

(** Adding an entry puts it at the end of the list. *)
Lemma push_spec d xs a :
  links d xs ->
  runs (push a) d (fun _ d' => exists l,
    links d' (xs ++ [(l, a)]) /\ count d' = s32 (count d + 1)).
Proof.
  intros L. unfold push, malloc. apply runs_bind. eapply runs_eq; [done|].
  pose proof (links_nodes _ _ L) as Hn. pose proof (links_head _ _ L) as Hh.
  pose proof (links_tail _ _ L) as Ht. pose proof (brk_fresh _ _ L) as Hf.
  unfold append. apply runs_bind, runs_gets. simpl. rewrite Ht.
  induction xs as [|[lt a2] xs _] using rev_ind.
  - simpl. apply runs_bind, runs_ret, runs_bind, runs_gets. simpl. apply runs_bind.
    eapply runs_eq; [apply store_at; simpl; by rewrite lookup_insert_eq|].
    apply runs_bind, runs_modify, runs_bind, runs_gets. simpl. rewrite Hh. simpl.
    apply runs_bind, runs_modify, runs_bind. simpl.
    eapply runs_eq; [apply store_at; simpl; by rewrite lookup_insert_eq|].
    apply runs_modify. simpl. exists (brk d). split; [|done].
    apply (append_links d []); [done|].
    by rewrite !insert_insert_eq, Hn.
  - rewrite last_loc_app. simpl. rewrite fmap_app in Hf. simpl in Hf.
    apply not_elem_of_app in Hf as [Hf1 Hf2]. apply not_elem_of_cons in Hf2 as [Hne _].
    apply runs_bind. eapply runs_eq.
    { apply store_at. simpl. rewrite lookup_insert_ne by done. rewrite Hn.
      apply (seg_lookup None xs lt a2 []), L. }
    apply runs_bind, runs_gets. simpl. apply runs_bind.
    eapply runs_eq.
    { apply store_at. simpl. rewrite lookup_insert_ne by done. by rewrite lookup_insert_eq. }
    apply runs_bind, runs_modify, runs_bind, runs_gets. simpl.
    rewrite Hh, hd_loc_app. simpl.
    assert (Hsome : exists lh, hd_loc xs (Some lt) = Some lh)
      by (destruct xs as [|[lh ?] ?]; eexists; done).
    destruct Hsome as [lh Hlh]. rewrite Hlh.
    apply runs_bind, runs_ret, runs_bind.
    eapply runs_eq; [apply store_at; simpl; by rewrite lookup_insert_eq|].
    apply runs_modify. simpl. exists (brk d). split; [|done].
    assert (E : Some lh = hd_loc (xs ++ [(lt, a2)]) (Some (brk d))).
    { rewrite <- Hlh, hd_loc_app. by destruct xs as [|[]]. }
    unfold with_count, with_nodes, with_tail, set_next, set_prev. simpl.
    rewrite E. apply append_links; [done|].
    rewrite insert_insert_eq, (insert_insert_ne _ lt) by done. rewrite insert_insert_eq, Hn.
    rewrite last_loc_app. simpl. f_equal. apply seg_set_next, L.
Qed.

Lemma free_from_gen ys : forall n pv d,
  nodes d = seg pv ys None -> NoDup ys.*1 -> (length ys < n)%nat ->
  runs (free_from n (hd_loc ys None)) d (fun _ d' => d' = with_nodes ∅ d).
Proof.
  induction ys as [|[l a] ys IH]; intros n pv d Hn Hnd Hlen;
    (destruct n as [|n]; [simpl in Hlen; lia|]); apply runs_iter_step; cbn [hd_loc].
  - apply runs_ret. simpl in Hn. unfold with_nodes. rewrite <- Hn. by destruct d.
  - apply list.NoDup_cons in Hnd as [Hl Hnd].
    apply runs_bind. eapply runs_eq.
    { unfold deref. rewrite Hn. simpl. by rewrite lookup_insert_eq. }
    apply runs_bind. eapply runs_eq.
    { unfold free. rewrite Hn. simpl. by rewrite lookup_insert_eq. }
    apply runs_ret. simpl.
    eapply runs_mono; [apply (IH n (Some l)); [|done|simpl in Hlen; lia]|].
    + simpl. rewrite delete_insert_eq, delete_id; [done|]. by apply seg_fresh.
    + simpl. by intros _ d' ->.
Qed.

(** Destroying the list frees every node: nothing stays allocated. *)
Lemma free_all_spec d xs :
  links d xs ->
  runs (free_from (fuel d) (head d)) d (fun _ d' => d' = with_nodes ∅ d).
Proof.
  intros L. rewrite (links_fuel _ _ L), (links_head _ _ L).
  apply (free_from_gen _ _ None); [apply L|apply L|lia].
Qed.
End Push.

(** ** The list a header stands for

    The clients of this file speak of the payloads only: [holds d l] says the
    heap represents [l] (with the counter right), [at_loc d p pre a post]
    that [p] is the node of [a] in [pre ++ a :: post]. *)

Definition holds {A} (d : dll A) (l : list A) : Prop :=
  exists xs, rep d xs /\ xs.*2 = l.

Definition at_loc {A} (d : dll A) (p : loc) (pre : list A) (a : A) (post : list A) : Prop :=
  exists xs ys, rep d (xs ++ (p, a) :: ys) /\ xs.*2 = pre /\ ys.*2 = post.

Section Holds.
Context {A : Type}.
Implicit Types (d : dll A) (l pre post : list A) (p : loc).

Lemma holds_empty b : holds (@empty_dll A b) [].
Proof. exists []. split; [split; [split|]|]; done || constructor. Qed.

Lemma at_loc_holds d p pre a post : at_loc d p pre a post -> holds d (pre ++ a :: post).
Proof.
  intros (xs & ys & R & <- & <-). eexists. split; [exact R|]. by rewrite fmap_app.
Qed.

Lemma holds_count d l : holds d l -> count d = Z.of_nat (length l).
Proof. intros (xs & [_ ->] & <-). by rewrite length_fmap. Qed.

Lemma find_holds (f : A -> bool) d l :
  holds d l ->
  runs (find_from f (fuel d) (head d)) d (fun r d' => d' = d /\
    match split_first f l with
    | Some (pre, a, post) => exists p, r = Some p /\ at_loc d p pre a post
    | None => r = None
    end).
Proof.
  intros (xs & [L Hc] & <-). eapply runs_mono; [by apply find_spec|].
  intros r d' [-> H]. split; [done|]. destruct r as [p|].
  - destruct H as (pre & a & post & -> & Ha & Hpre).
    rewrite fmap_app, fmap_cons, split_first_app; [|done|by apply Forall_fmap].
    exists p. split; [done|]. by exists pre, post.
  - by rewrite split_first_None by by apply Forall_fmap.
Qed.

Lemma oldest_holds (key : A -> Z) d l :
  holds d l -> l <> [] ->
  runs (oldest_from (fun x y => key x <? key y) (fuel d) (head d)) d (fun r d' => d' = d /\
    exists p pre a post, split_min key l = Some (pre, a, post) /\
      r = Some p /\ at_loc d p pre a post).
Proof.
  intros (xs & [L Hc] & <-) Hne.
  eapply runs_mono; [apply (oldest_spec key); [done|]|].
  { intros ->. done. }
  intros r d' [-> (pre & p & a & post & -> & -> & H1 & H2)]. split; [done|].
  exists p, pre.*2, a, post.*2. split_and!; [|done|by exists pre, post].
  rewrite fmap_app, fmap_cons. apply split_min_app.
  split; by apply Forall_fmap.
Qed.

Lemma store_at_loc d p pre a post f :
  at_loc d p pre a post ->
  runs (store (Some p) (set_payload f)) d (fun _ d' => at_loc d' p pre (f a) post).
Proof.
  intros (xs & ys & [L Hc] & <- & <-). eapply runs_mono; [by apply store_payload_spec|].
  intros _ d' [L' Hc']. exists xs, ys. split_and!; [|done|done]. split; [done|].
  by rewrite Hc', Hc, !length_app.
Qed.

Lemma deref_at_loc d p pre a post :
  at_loc d p pre a post ->
  runs (deref (Some p)) d (fun n d' => d' = d /\ payload n = a).
Proof.
  intros (xs & ys & [L Hc] & <- & <-). eapply runs_eq; [by apply deref_spec|]. done.
Qed.

(** The size counters are [int]s: lists shorter than 2^31. *)
Abbreviation fits l := (Z.of_nat (length l) < 2147483647).

Lemma evict_at_loc d p pre a post :
  at_loc d p pre a post -> fits (pre ++ a :: post) ->
  runs (evict (Some p)) d (fun _ d' => holds d' (pre ++ post)).
Proof.
  intros (xs & ys & [L Hc] & <- & <-) Hf. eapply runs_mono; [by eapply evict_spec|].
  intros _ d' [L' Hc']. exists (xs ++ ys). split; [|by rewrite fmap_app]. split; [done|].
  rewrite length_app in Hf. simpl in Hf. rewrite !length_fmap in Hf.
  rewrite Hc', Hc, !length_app. simpl. rewrite s32_small; lia.
Qed.

(** The payload of the node can still be read when it was taken out. *)
Lemma evict_in_steps d p pre a post :
  at_loc d p pre a post -> fits (pre ++ a :: post) ->
  runs (unlink (Some p)) d (fun _ d1 => runs (deref (Some p)) d1 (fun n d2 =>
    payload n = a /\ runs (release (Some p)) d2 (fun _ d' => holds d' (pre ++ post)))).
Proof.
  intros Hat Hf. pose proof (evict_at_loc d p pre a post Hat Hf) as (u & d' & E & Hh).
  destruct Hat as (xs & ys & [L _] & _ & _). destruct (links_app_nodup _ _ _ _ _ L) as [Hx Hy].
  assert (Hl : relink xs ys (nodes d) !! p = Some (Node a (hd_loc ys None) (last_loc None xs))).
  { rewrite relink_lookup by done. rewrite (links_nodes _ _ L). apply seg_lookup, L. }
  eapply runs_eq; [by eapply unlink_spec|]. eapply runs_eq; [unfold deref; cbn [nodes]; by rewrite Hl|].
  split; [done|]. exists u, d'. split; [|done]. unfold evict in E.
  erewrite bind_eq in E by by eapply unlink_spec. exact E.
Qed.

Lemma push_holds d l a :
  holds d l -> fits l -> runs (push a) d (fun _ d' => holds d' (l ++ [a])).
Proof.
  intros (xs & [L Hc] & <-) Hf. rewrite length_fmap in Hf.
  eapply runs_mono; [by apply push_spec|]. intros _ d' (p & L' & Hc').
  exists (xs ++ [(p, a)]). split; [|by rewrite fmap_app]. split; [done|].
  rewrite Hc', Hc, length_app. simpl. rewrite s32_small; lia.
Qed.

Lemma destroy_holds d l :
  holds d l ->
  runs (free_from (fuel d) (head d)) d (fun _ d' => d' = with_nodes ∅ d).
Proof. intros (xs & [L _] & _). by eapply free_all_spec. Qed.

Lemma holds_inj d l l' : holds d l -> holds d l' -> l = l'.
Proof.
  intros (xs & [L1 _] & <-) (ys & [L2 _] & <-). f_equal.
  apply (seg_inj None); [apply L1|apply L2|..].
  - by rewrite <- (links_head _ _ L1), <- (links_head _ _ L2).
  - by rewrite <- (links_nodes _ _ L1), <- (links_nodes _ _ L2).
Qed.

Lemma seg_payload pv xs nx (a : A) :
  NoDup xs.*1 -> (exists p n, seg pv xs nx !! p = Some n /\ payload n = a) <-> a ∈ xs.*2.
Proof.
  revert pv. induction xs as [|[q b] xs IH]; intros pv Hnd; cbn [seg].
  - split; [by intros (p & n & ? & _)|by intros ?%not_elem_of_nil].
  - cbn [fmap list_fmap fst snd] in *. apply list.NoDup_cons in Hnd as [Hq Hnd]. split.
    + intros (p & n & [[<- <-]|[Hne Hl]]%lookup_insert_Some & <-); [apply list_elem_of_here|].
      apply list_elem_of_further, (IH (Some q) Hnd). eauto.
    + intros [-> |(p & n & Hl & <-)%(IH (Some q) Hnd)]%elem_of_cons.
      * exists q. eexists. by rewrite lookup_insert_eq.
      * exists p, n. split; [|done]. rewrite lookup_insert_ne; [done|]. intros <-. by rewrite seg_fresh in Hl.
Qed.

(** The payloads of the nodes are the elements of the list. *)
Lemma holds_payload d l (a : A) :
  holds d l -> (exists p n, nodes d !! p = Some n /\ payload n = a) <-> a ∈ l.
Proof. intros (xs & [L _] & <-). rewrite (links_nodes _ _ L). apply seg_payload, L. Qed.

(** No node is lost: what is allocated is what is on the list. *)
Lemma holds_size d l : holds d l -> size (nodes d) = length l.
Proof.
  intros (xs & [L _] & <-). pose proof (links_fuel _ _ L) as Hf. unfold fuel in Hf.
  rewrite length_fmap. lia.
Qed.
End Holds.
