(* ===== verification/XaTypes.v ===== *)
(** * The instance, the outside world and the program state

    Models the data of xenaccess.h: [xa_instance_t] with its cache entries,
    and the code XenAccess calls but does not contain (libxc, the kernel's
    [mmap], the clock) as the fields of the class [XenEnv]. *)

From S2P Require Import Prelude CStr Dll.

(** ** Constants of xenaccess.h and xa_private.h *)

Definition XA_MODE_XEN : Z := 0.
Definition XA_MODE_FILE : Z := 1.
Definition XA_SUCCESS : Z := 0.
Definition XA_FAILURE : Z := -1.
Definition XA_FAILHARD : Z := 0.
Definition XA_FAILSOFT : Z := 1.
Definition XA_OS_UNKNOWN : Z := 0.
Definition XA_OS_LINUX : Z := 1.
Definition XA_OS_WINDOWS : Z := 2.
Definition XA_XENVER_3_1_0 : Z := 2.
Definition XA_ECRITICAL : Z := 1.
Definition XA_EMINOR : Z := 2.
Definition XA_CACHE_SIZE : Z := 25.
Definition XA_PID_CACHE_SIZE : Z := 5.
Definition MAX_SYM_LEN : nat := 512.
Definition PROT_READ : Z := 1.
(** libxc's page size; what one [xc_map_foreign_range] call maps. *)
Definition XC_PAGE_SIZE : Z := 4096.
(** number of [xen_pfn_t] that fit on one frame *)
Definition fpp : Z := 1024.

(** ** Strings of the library

    A string that [strndup] or [strdup] made: the block it is in, and its bytes,
    which nothing writes to afterwards.  Whether the block is still allocated is
    in the program state. *)

Record owned_string := OwnedString { s_block : loc; s_text : cstr }.

#[export] Instance owned_string_eq_dec : EqDecision owned_string.
Proof. solve_decision. Defined.

(** The blocks that are allocated, and the allocator's next one; blocks are not
    reused, so a use after [free] and a double [free] do not go unnoticed. *)
Record string_heap := StringHeap { live_strings : gset loc; next_string : loc }.

(** ** Cache entries *)

Record xa_cache_entry := CacheEntry {
  last_used : Z;
  symbol_name : owned_string;
  virt_address : Z;
  mach_address : Z;
  pid : Z }.

Record xa_pid_cache_entry := PidCacheEntry {
  p_last_used : Z;
  p_pid : Z;
  pgd : Z }.

#[export] Instance xa_cache_entry_eq_dec : EqDecision xa_cache_entry.
Proof. solve_decision. Defined.
#[export] Instance xa_pid_cache_entry_eq_dec : EqDecision xa_pid_cache_entry.
Proof. solve_decision. Defined.

(** ** Mapped memory

    A pointer to mapped memory is the mapping it points to; [None] is NULL.
    Only the first [m_len] bytes may be read. *)

Record mapping := Mapping { m_len : Z; m_byte : Z -> Z }.

Definition bytes (m : mapping) (off : Z) (n : nat) : list Z :=
  (fun i => u8 (m_byte m (off + i))) <$> seqZ 0 (Z.of_nat n).

(** ** The instance

    [os] and [m] are C unions.  The code selects the member of [os] by
    [os_type] and the member of [m] by [mode]; both members are kept here as
    separate records.  Only [xa_destroy] uses [m.xen] in either mode; after an
    image was open, what it closes and unmaps is here whatever [m_xen] held,
    in the program the bytes of [m.file] in the same place ([xc_handle] is in
    the place of the FILE pointer), and clearing [domain_id], which is in the
    place of [file.size] where pointers have 32 bits, changes nothing that is
    read again before the next [xa_init_file]. *)

Record linux_instance := LinuxInstance {
  l_tasks_offset : Z;
  l_mm_offset : Z;
  l_pid_offset : Z;
  l_pgd_offset : Z;
  l_addr_offset : Z }.

Record windows_instance := WindowsInstance {
  ntoskrnl : Z;
  w_tasks_offset : Z;
  w_pdbase_offset : Z;
  w_pid_offset : Z;
  w_peb_offset : Z;
  w_iba_offset : Z;
  w_ph_offset : Z }.

Record xen_source := XenSource {
  xc_handle : Z;
  domain_id : Z;
  xen_version : Z;
  shared_info_frame : Z;
  xen_size : Z;
  live_pfn_to_mfn_table : option mapping;
  nr_pfns : Z }.

Record file_source := FileSource { file_size : Z }.

Record xa_instance := XaInstance {
  mode : Z;
  error_mode : Z;
  sysmap : option cstr;
  image_type : option cstr;
  page_offset : Z;
  page_shift : Z;
  page_size : Z;
  kpgd : Z;
  init_task : Z;
  os_type : Z;
  hvm : Z;
  pae : Z;
  pse : Z;
  cr3 : Z;
  os_linux : linux_instance;
  os_windows : windows_instance;
  m_xen : xen_source;
  m_file : file_source }.

(** Assignments to the members of the instance. *)
Definition set_mode (v : Z) (i : xa_instance) : xa_instance :=
  XaInstance v (error_mode i) (sysmap i) (image_type i) (page_offset i) (page_shift i)
    (page_size i) (kpgd i) (init_task i) (os_type i) (hvm i) (pae i) (pse i) (cr3 i)
    (os_linux i) (os_windows i) (m_xen i) (m_file i).
Definition set_error_mode (v : Z) (i : xa_instance) : xa_instance :=
  XaInstance (mode i) v (sysmap i) (image_type i) (page_offset i) (page_shift i) (page_size i)
    (kpgd i) (init_task i) (os_type i) (hvm i) (pae i) (pse i) (cr3 i) (os_linux i)
    (os_windows i) (m_xen i) (m_file i).
Definition set_sysmap (v : option cstr) (i : xa_instance) : xa_instance :=
  XaInstance (mode i) (error_mode i) v (image_type i) (page_offset i) (page_shift i)
    (page_size i) (kpgd i) (init_task i) (os_type i) (hvm i) (pae i) (pse i) (cr3 i)
    (os_linux i) (os_windows i) (m_xen i) (m_file i).
Definition set_image_type (v : option cstr) (i : xa_instance) : xa_instance :=
  XaInstance (mode i) (error_mode i) (sysmap i) v (page_offset i) (page_shift i) (page_size i)
    (kpgd i) (init_task i) (os_type i) (hvm i) (pae i) (pse i) (cr3 i) (os_linux i)
    (os_windows i) (m_xen i) (m_file i).
Definition set_page_offset (v : Z) (i : xa_instance) : xa_instance :=
  XaInstance (mode i) (error_mode i) (sysmap i) (image_type i) v (page_shift i) (page_size i)
    (kpgd i) (init_task i) (os_type i) (hvm i) (pae i) (pse i) (cr3 i) (os_linux i)
    (os_windows i) (m_xen i) (m_file i).
Definition set_page_shift (v : Z) (i : xa_instance) : xa_instance :=
  XaInstance (mode i) (error_mode i) (sysmap i) (image_type i) (page_offset i) v (page_size i)
    (kpgd i) (init_task i) (os_type i) (hvm i) (pae i) (pse i) (cr3 i) (os_linux i)
    (os_windows i) (m_xen i) (m_file i).
Definition set_page_size (v : Z) (i : xa_instance) : xa_instance :=
  XaInstance (mode i) (error_mode i) (sysmap i) (image_type i) (page_offset i) (page_shift i) v
    (kpgd i) (init_task i) (os_type i) (hvm i) (pae i) (pse i) (cr3 i) (os_linux i)
    (os_windows i) (m_xen i) (m_file i).
Definition set_kpgd (v : Z) (i : xa_instance) : xa_instance :=
  XaInstance (mode i) (error_mode i) (sysmap i) (image_type i) (page_offset i) (page_shift i)
    (page_size i) v (init_task i) (os_type i) (hvm i) (pae i) (pse i) (cr3 i) (os_linux i)
    (os_windows i) (m_xen i) (m_file i).
Definition set_init_task (v : Z) (i : xa_instance) : xa_instance :=
  XaInstance (mode i) (error_mode i) (sysmap i) (image_type i) (page_offset i) (page_shift i)
    (page_size i) (kpgd i) v (os_type i) (hvm i) (pae i) (pse i) (cr3 i) (os_linux i)
    (os_windows i) (m_xen i) (m_file i).
Definition set_os_type (v : Z) (i : xa_instance) : xa_instance :=
  XaInstance (mode i) (error_mode i) (sysmap i) (image_type i) (page_offset i) (page_shift i)
    (page_size i) (kpgd i) (init_task i) v (hvm i) (pae i) (pse i) (cr3 i) (os_linux i)
    (os_windows i) (m_xen i) (m_file i).
Definition set_hvm (v : Z) (i : xa_instance) : xa_instance :=
  XaInstance (mode i) (error_mode i) (sysmap i) (image_type i) (page_offset i) (page_shift i)
    (page_size i) (kpgd i) (init_task i) (os_type i) v (pae i) (pse i) (cr3 i) (os_linux i)
    (os_windows i) (m_xen i) (m_file i).
Definition set_pae (v : Z) (i : xa_instance) : xa_instance :=
  XaInstance (mode i) (error_mode i) (sysmap i) (image_type i) (page_offset i) (page_shift i)
    (page_size i) (kpgd i) (init_task i) (os_type i) (hvm i) v (pse i) (cr3 i) (os_linux i)
    (os_windows i) (m_xen i) (m_file i).
Definition set_pse (v : Z) (i : xa_instance) : xa_instance :=
  XaInstance (mode i) (error_mode i) (sysmap i) (image_type i) (page_offset i) (page_shift i)
    (page_size i) (kpgd i) (init_task i) (os_type i) (hvm i) (pae i) v (cr3 i) (os_linux i)
    (os_windows i) (m_xen i) (m_file i).
Definition set_cr3 (v : Z) (i : xa_instance) : xa_instance :=
  XaInstance (mode i) (error_mode i) (sysmap i) (image_type i) (page_offset i) (page_shift i)
    (page_size i) (kpgd i) (init_task i) (os_type i) (hvm i) (pae i) (pse i) v (os_linux i)
    (os_windows i) (m_xen i) (m_file i).
Definition set_os_linux (v : linux_instance) (i : xa_instance) : xa_instance :=
  XaInstance (mode i) (error_mode i) (sysmap i) (image_type i) (page_offset i) (page_shift i)
    (page_size i) (kpgd i) (init_task i) (os_type i) (hvm i) (pae i) (pse i) (cr3 i) v
    (os_windows i) (m_xen i) (m_file i).
Definition set_os_windows (v : windows_instance) (i : xa_instance) : xa_instance :=
  XaInstance (mode i) (error_mode i) (sysmap i) (image_type i) (page_offset i) (page_shift i)
    (page_size i) (kpgd i) (init_task i) (os_type i) (hvm i) (pae i) (pse i) (cr3 i)
    (os_linux i) v (m_xen i) (m_file i).
Definition set_m_xen (v : xen_source) (i : xa_instance) : xa_instance :=
  XaInstance (mode i) (error_mode i) (sysmap i) (image_type i) (page_offset i) (page_shift i)
    (page_size i) (kpgd i) (init_task i) (os_type i) (hvm i) (pae i) (pse i) (cr3 i)
    (os_linux i) (os_windows i) v (m_file i).
Definition set_m_file (v : file_source) (i : xa_instance) : xa_instance :=
  XaInstance (mode i) (error_mode i) (sysmap i) (image_type i) (page_offset i) (page_shift i)
    (page_size i) (kpgd i) (init_task i) (os_type i) (hvm i) (pae i) (pse i) (cr3 i)
    (os_linux i) (os_windows i) (m_xen i) v.

(** ** Code outside the repository

    - [xc_map_foreign_range dom prot mfn]: one page of the domain, or NULL;
    - [xc_map_foreign_batch dom prot mfns]: the pages [mfns], contiguously;
    - [xc_batch_result dom prot mfns]: the array [mfns] as that call leaves it
      (libxc marks the entries it could not map);
    - [xc_vcpu_getcontext dom]: the control registers of vcpu 0, or an error;
    - [xc_maximum_gpfn dom]: the XENMEM_maximum_gpfn memory operation;
    - [shinfo_max_pfn], [shinfo_frame_list_list]: the two fields of Xen's
      [shared_info_t] that are read, as functions of the mapped frame;
    - [file_mmap len prot off]: [mmap] of the memory image, or MAP_FAILED;
    - [clock n]: what the [n]-th call of [time(NULL)] returns;
    - [indet]: the contents of an uninitialised local variable. *)

Class XenEnv := {
  xc_map_foreign_range : Z -> Z -> Z -> option mapping;
  xc_map_foreign_batch : Z -> Z -> list Z -> option mapping;
  xc_batch_result : Z -> Z -> list Z -> list Z;
  xc_vcpu_getcontext : Z -> option (Z -> Z);
  xc_maximum_gpfn : Z -> Z;
  shinfo_max_pfn : mapping -> Z;
  shinfo_frame_list_list : mapping -> Z;
  file_mmap : Z -> Z -> Z -> option mapping;
  clock : nat -> Z;
  indet : Z }.

(** ** Program state

    The instance, its two caches ([cache_head], [cache_tail],
    [current_cache_size] and the pid ones), the number of [time] calls so
    far, the number of mappings that are live, and the strings the library
    made copies of. *)

Record world := World {
  inst : xa_instance;
  cache : dll xa_cache_entry;
  pid_cache : dll xa_pid_cache_entry;
  ticks : nat;
  live_maps : Z;
  strings : string_heap }.

Definition with_inst i w := World i (cache w) (pid_cache w) (ticks w) (live_maps w) (strings w).
Definition with_cache c w := World (inst w) c (pid_cache w) (ticks w) (live_maps w) (strings w).
Definition with_pid_cache c w := World (inst w) (cache w) c (ticks w) (live_maps w) (strings w).
Definition with_ticks n w := World (inst w) (cache w) (pid_cache w) n (live_maps w) (strings w).
Definition with_live_maps n w := World (inst w) (cache w) (pid_cache w) (ticks w) n (strings w).
Definition with_strings h w := World (inst w) (cache w) (pid_cache w) (ticks w) (live_maps w) h.

Definition on_cache {A} : M (dll xa_cache_entry) A -> M world A := zoom cache with_cache.
Definition on_pid_cache {A} : M (dll xa_pid_cache_entry) A -> M world A :=
  zoom pid_cache with_pid_cache.

Section Primitives.
Context {E : XenEnv}.

(** [time(NULL)] *)
Definition time_now : M world Z := fun w =>
  Ret (clock (ticks w), with_ticks (S (ticks w)) w).

(** A mapping call; a successful one adds a live mapping. *)
Definition do_map (r : option mapping) : M world (option mapping) := fun w =>
  Ret (r, match r with
          | Some _ => with_live_maps (live_maps w + 1) w
          | None => w
          end).

Definition munmap : M world unit := modify (fun w => with_live_maps (live_maps w - 1) w).

(** [strdup(t)] *)
Definition one_more (h : string_heap) : string_heap :=
  StringHeap ({[next_string h]} ∪ live_strings h) (S (next_string h)).
Definition new_string (t : cstr) : M world owned_string := fun w =>
  Ret (OwnedString (next_string (strings w)) t, with_strings (one_more (strings w)) w).

(** A copy that the instance keeps a pointer to; what is kept of it here is the
    text. *)
Definition keep_string w : world := with_strings (one_more (strings w)) w.
Definition kept_copy (t : cstr) : M world cstr := s ← new_string t; mret (s_text s).

(** Reading a string, and [free] of it. *)
Definition use_string (s : owned_string) : M world unit := fun w =>
  if decide (s_block s ∈ live_strings (strings w)) then Ret (tt, w) else Fault.
Definition free_string (s : owned_string) : M world unit := fun w =>
  if decide (s_block s ∈ live_strings (strings w))
  then Ret (tt, with_strings (StringHeap (live_strings (strings w) ∖ {[s_block s]}) (next_string (strings w))) w)
  else Fault.

(** [*((uintN_t* )(memory + off))] and [memcpy(&x, memory + off, n)]. *)
Definition load (n : nat) (m : mapping) (off : Z) : M world Z :=
  _ ← assert_m ((0 <=? off) && (off + Z.of_nat n <=? m_len m));
  mret (le_combine (bytes m off n)).

Definition load32 : mapping -> Z -> M world Z := load 4.
Definition load64 : mapping -> Z -> M world Z := load 8.
End Primitives.

Lemma length_bytes m off n : length (bytes m off n) = n.
Proof. unfold bytes. rewrite length_fmap, length_seqZ. lia. Qed.

Lemma bytes_u8 m off n : Forall (fun b => is_u8 b) (bytes m off n).
Proof. apply Forall_fmap, Forall_true. intros. apply u8_range. Qed.

Lemma load_runs n m off w (Q : Z -> world -> Prop) :
  0 <= off -> off + Z.of_nat n <= m_len m -> Q (le_combine (bytes m off n)) w ->
  runs (load n m off) w Q.
Proof.
  intros H1 H2 HQ. apply runs_bind, runs_assert; [|by apply runs_ret].
  apply andb_true_iff. split; by apply Z.leb_le.
Qed.
