(* ===== verification/XaMap.v ===== *)
(** * Mapping guest pages and reading words

    Models xa_file.c, the mapping and word-reading half of xa_util.c, and
    from xa_memory.c the functions that address memory by frame or by
    physical or machine address. *)

From S2P Require Import Prelude CStr Dll XaTypes.

Section Map.
Context {E : XenEnv}.

(** [xa_get_bit]: [unsigned long mask = 1 << bit; reg & mask]. *)
Definition xa_get_bit (reg bit : Z) : Z :=
  let mask := u32 (Z.shiftl 1 bit) in
  if Z.land (u32 reg) mask =? 0 then 0 else 1.

(** [long address = pfn << page_shift]; the comparison with the unsigned
    file size is unsigned, the offset handed to [mmap] is signed. *)
Definition xa_map_file_range (prot pfn : Z) : M world (option mapping) :=
  i ← gets inst;
  let address := u32 (Z.shiftl pfn (page_shift i)) in
  if file_size (m_file i) <=? address then mret None
  else do_map (file_mmap (page_size i) prot (s32 address)).

Definition xa_map_page (prot frame_num : Z) : M world (option mapping) :=
  i ← gets inst;
  if mode i =? XA_MODE_XEN then
    do_map (xc_map_foreign_range (domain_id (m_xen i)) prot frame_num)
  else if mode i =? XA_MODE_FILE then xa_map_file_range prot frame_num
  else mret None.

Definition xa_mmap_mfn (prot mfn : Z) : M world (option mapping) := xa_map_page prot mfn.

(** The first [n] longs of a mapped array. *)
Fixpoint read_longs (m : mapping) (off : Z) (n : nat) : M world (list Z) :=
  match n with
  | O => mret []
  | S n' => x ← load32 m off; xs ← read_longs m (off + 4) n'; mret (x :: xs)
  end.

(** The live pfn-to-mfn table: shared info frame, frame list list, frame
    list, table.  [NULL_ULONG] is [unsigned long ret = -1]. *)
Definition NULL_ULONG : Z := 4294967295.

Definition set_p2m_table (t : mapping) (n : Z) (i : xa_instance) : xa_instance :=
  let x := m_xen i in
  XaInstance (mode i) (error_mode i) (sysmap i) (image_type i) (page_offset i)
    (page_shift i) (page_size i) (kpgd i) (init_task i) (os_type i) (hvm i) (pae i)
    (pse i) (cr3 i) (os_linux i) (os_windows i)
    (XenSource (xc_handle x) (domain_id x) (xen_version x) (shared_info_frame x)
       (xen_size x) (Some t) n) (m_file i).

(** from the mapped frame list to the table *)
Definition p2m_from_list (i : xa_instance) (n : Z) (list : mapping) : M world bool :=
  l ← read_longs list 0 (Z.to_nat (u32 (n + fpp - 1) / fpp));
  table ← do_map (xc_map_foreign_batch (domain_id (m_xen i)) PROT_READ l);
  match table with
  | None => mret false
  | Some t =>
      _ ← modify (fun w => with_inst (set_p2m_table t n (inst w)) w);
      mret true
  end.

(** from the mapped frame list list to the table *)
Definition p2m_from_list_list (i : xa_instance) (n : Z) (list_list : mapping) : M world bool :=
  ll ← read_longs list_list 0 (Z.to_nat (u32 (n + fpp * fpp - 1) / (fpp * fpp)));
  live_list ← do_map (xc_map_foreign_batch (domain_id (m_xen i)) PROT_READ ll);
  match live_list with
  | None => mret false
  | Some list =>
      ok ← p2m_from_list i n list;
      _ ← munmap;
      mret ok
  end.

Definition p2m_size (i : xa_instance) (shinfo : mapping) : Z :=
  let x := m_xen i in
  if xen_version x =? XA_XENVER_3_1_0 then u32 (xc_maximum_gpfn (domain_id x) + 1)
  else shinfo_max_pfn shinfo.

Definition init_p2m_table (i : xa_instance) : M world bool :=
  live_shinfo ← xa_mmap_mfn PROT_READ (shared_info_frame (m_xen i));
  match live_shinfo with
  | None => mret false
  | Some shinfo =>
      let n := p2m_size i shinfo in
      live_list_list ← xa_mmap_mfn PROT_READ (shinfo_frame_list_list shinfo);
      ok ← (match live_list_list with
            | None => mret false
            | Some list_list =>
                ok ← p2m_from_list_list i n list_list;
                _ ← munmap;
                mret ok
            end : M world bool);
      _ ← munmap;
      mret ok
  end.

Definition helper_pfn_to_mfn (pfn : Z) : M world Z :=
  i ← gets inst;
  if negb (hvm i =? 0) then mret pfn
  else
    ok ← (match live_pfn_to_mfn_table (m_xen i) with
          | Some _ => mret true
          | None => init_p2m_table i
          end : M world bool);
    if (ok : bool) then
      i' ← gets inst;
      t ← of_option (live_pfn_to_mfn_table (m_xen i'));
      load32 t (4 * pfn)
    else mret NULL_ULONG.

Definition xa_mmap_pfn (prot pfn : Z) : M world (option mapping) :=
  i ← gets inst;
  mfn ← (if mode i =? XA_MODE_XEN then helper_pfn_to_mfn pfn
         else if mode i =? XA_MODE_FILE then mret pfn
         else mret NULL_ULONG : M world Z);
  if mfn =? NULL_ULONG then mret None else xa_map_page prot mfn.

(** [xa_access_pa] and [xa_access_ma] return the page and set [*offset]. *)
Definition xa_access_pa (phys_address prot : Z) : M world (option mapping * Z) :=
  i ← gets inst;
  let pfn := Z.shiftr phys_address (page_shift i) in
  let offset := Z.land (u32 (page_size i - 1)) phys_address in
  m ← xa_mmap_pfn prot pfn;
  mret (m, offset).

Definition xa_access_ma (mach_address prot : Z) : M world (option mapping * Z) :=
  i ← gets inst;
  let mfn := Z.shiftr mach_address (page_shift i) in
  let offset := Z.land (u32 (page_size i - 1)) mach_address in
  m ← xa_mmap_mfn prot mfn;
  mret (m, offset).

(** The body the [xa_read_long_*] functions share: read [n] bytes through a
    mapping just made, unmap it; [None] is XA_FAILURE with [*value] not
    written. *)
Definition read_through (n : nat) (r : option mapping * Z) : M world (option Z) :=
  match r with
  | (Some memory, offset) =>
      v ← load n memory offset;
      _ ← munmap;
      mret (Some v)
  | (None, _) => mret None
  end.

Definition xa_read_long_mach (maddr : Z) : M world (option Z) :=
  r ← xa_access_ma maddr PROT_READ; read_through 4 r.

Definition xa_read_long_long_mach (maddr : Z) : M world (option Z) :=
  r ← xa_access_ma maddr PROT_READ; read_through 8 r.

Definition xa_read_long_phys (paddr : Z) : M world (option Z) :=
  r ← xa_access_pa paddr PROT_READ; read_through 4 r.

Definition xa_read_long_long_phys (paddr : Z) : M world (option Z) :=
  r ← xa_access_pa paddr PROT_READ; read_through 8 r.
End Map.

(** ** The guest's memory as a function

    With the environment fixed (a paused domain, or an image file), mapping a
    frame and reading through the mapping is a pure function of the address. *)

Section Pure.
Context {E : XenEnv}.
Implicit Types (i : xa_instance) (w : world).

(** The frame a mapping call yields. *)
Definition frame_of i (prot f : Z) : option mapping :=
  if mode i =? XA_MODE_XEN then xc_map_foreign_range (domain_id (m_xen i)) prot f
  else if mode i =? XA_MODE_FILE then
    let address := u32 (Z.shiftl f (page_shift i)) in
    if file_size (m_file i) <=? address then None
    else file_mmap (page_size i) prot (s32 address)
  else None.

(** The [n]-byte little-endian value at machine address [a]. *)
Definition mem_read i (n : nat) (a : Z) : option Z :=
  m ← frame_of i PROT_READ (a / 4096); Some (le_combine (bytes m (a mod 4096) n)).

Definition opened (m : option mapping) w : world :=
  match m with Some _ => with_live_maps (live_maps w + 1) w | None => w end.

(** 4 KB pages, as [init_page_offset] sets them. *)
Definition geometry i : Prop := page_shift i = 12 /\ page_size i = 4096.

Lemma xa_map_page_eq prot f w :
  xa_map_page prot f w = Ret (frame_of (inst w) prot f, opened (frame_of (inst w) prot f) w).
Proof.
  unfold xa_map_page, frame_of. erewrite bind_eq by done.
  destruct (mode (inst w) =? XA_MODE_XEN); [done|].
  destruct (mode (inst w) =? XA_MODE_FILE); [|done].
  unfold xa_map_file_range. erewrite bind_eq by done.
  by destruct (_ <=? _).
Qed.

Lemma live_maps_undo w :
  with_live_maps (live_maps w + 1 - 1) (with_live_maps (live_maps w + 1) w) = w.
Proof. destruct w. unfold with_live_maps. simpl. f_equal. lia. Qed.

Lemma opened_live m w :
  opened m w = with_live_maps (live_maps w + match m with Some _ => 1 | None => 0 end) w.
Proof. destruct m; cbn; [done|]. rewrite Z.add_0_r. by destruct w. Qed.

Lemma page_split i a :
  geometry i -> is_u32 a ->
  Z.shiftr a (page_shift i) = a / 4096 /\ Z.land (u32 (page_size i - 1)) a = a mod 4096.
Proof.
  intros [-> ->] Ha. split; [by rewrite Z.shiftr_div_pow2|].
  rewrite Z.land_comm. apply (Z.land_ones a 12). lia.
Qed.

Lemma xa_access_ma_eq a prot w :
  geometry (inst w) -> is_u32 a ->
  xa_access_ma a prot w =
  Ret ((frame_of (inst w) prot (a / 4096), a mod 4096),
       opened (frame_of (inst w) prot (a / 4096)) w).
Proof.
  intros Hg Ha. destruct (page_split _ _ Hg Ha) as [E1 E2].
  unfold xa_access_ma. erewrite bind_eq by done. rewrite E1, E2.
  unfold xa_mmap_mfn. by erewrite bind_eq by apply xa_map_page_eq.
Qed.

Lemma xa_mmap_pfn_eq prot f w :
  hvm (inst w) <> 0 \/ mode (inst w) = XA_MODE_FILE ->
  f <> NULL_ULONG ->
  xa_mmap_pfn prot f w = Ret (frame_of (inst w) prot f, opened (frame_of (inst w) prot f) w).
Proof.
  intros Hh Hf. unfold xa_mmap_pfn. erewrite bind_eq by done.
  apply Z.eqb_neq in Hf.
  destruct (mode (inst w) =? XA_MODE_XEN) eqn:Em.
  - destruct Hh as [Hh|Hh]; [|rewrite Hh in Em; done].
    apply Z.eqb_neq in Hh.
    erewrite bind_eq.
    2:{ unfold helper_pfn_to_mfn. erewrite bind_eq by done. by rewrite Hh. }
    rewrite Hf. apply xa_map_page_eq.
  - destruct (mode (inst w) =? XA_MODE_FILE) eqn:Ef.
    + rewrite bind_ret_l, Hf. apply xa_map_page_eq.
    + rewrite bind_ret_l. simpl. unfold frame_of. by rewrite Em, Ef.
Qed.

Lemma xa_access_pa_eq a prot w :
  geometry (inst w) -> is_u32 a -> hvm (inst w) <> 0 \/ mode (inst w) = XA_MODE_FILE ->
  xa_access_pa a prot w =
  Ret ((frame_of (inst w) prot (a / 4096), a mod 4096),
       opened (frame_of (inst w) prot (a / 4096)) w).
Proof.
  intros Hg Ha Hh. destruct (page_split _ _ Hg Ha) as [E1 E2].
  unfold xa_access_pa. erewrite bind_eq by done. rewrite E1, E2.
  erewrite bind_eq; [done|]. apply xa_mmap_pfn_eq; [done|].
  assert (a / 4096 < 1048576) by (apply Z.div_lt_upper_bound; lia). unfold NULL_ULONG. lia.
Qed.
End Pure.

(** What the code relies on from libxc and the kernel: a mapping that was
    granted is a whole page, or as many whole pages as were asked for. *)
Class WholePages {E : XenEnv} : Prop := {
  range_whole : forall dom prot mfn m,
    xc_map_foreign_range dom prot mfn = Some m -> m_len m = XC_PAGE_SIZE;
  batch_whole : forall dom prot mfns m,
    xc_map_foreign_batch dom prot mfns = Some m -> m_len m = XC_PAGE_SIZE * Z.of_nat (length mfns);
  mmap_whole : forall len prot off m, file_mmap len prot off = Some m -> m_len m = len }.

Section Reads.
Context {E : XenEnv} {W : WholePages}.
Implicit Types (w : world).

Lemma frame_whole i prot f m :
  geometry i -> frame_of i prot f = Some m -> m_len m = 4096.
Proof.
  intros [_ Hs]. unfold frame_of. intros H. case_all.
  - by eapply range_whole.
  - rewrite <- Hs. by eapply mmap_whole.
Qed.

(** Reading inside one page: the value of the memory, and the state is left
    exactly as it was (the page is unmapped again). *)
Lemma read_through_eq n a w :
  geometry (inst w) -> a mod 4096 + Z.of_nat n <= 4096 ->
  read_through n (frame_of (inst w) PROT_READ (a / 4096), a mod 4096)
    (opened (frame_of (inst w) PROT_READ (a / 4096)) w) =
  Ret (mem_read (inst w) n a, w).
Proof.
  intros Hg Hn. unfold read_through, mem_read.
  destruct (frame_of (inst w) PROT_READ (a / 4096)) as [m|] eqn:Em; [|done]. simpl.
  pose proof (frame_whole _ _ _ _ Hg Em) as Hl.
  pose proof (Z.mod_pos_bound a 4096 ltac:(lia)).
  unfold load. rewrite (proj2 (Z.leb_le 0 (a mod 4096))) by lia.
  rewrite (proj2 (Z.leb_le _ (m_len m))) by lia. simpl.
  unfold mbind, M_bind, mret, M_ret, munmap, modify. simpl.
  by rewrite live_maps_undo.
Qed.

Lemma xa_read_mach_eq n a w :
  geometry (inst w) -> is_u32 a -> a mod 4096 + Z.of_nat n <= 4096 ->
  (r ← xa_access_ma a PROT_READ; read_through n r) w = Ret (mem_read (inst w) n a, w).
Proof.
  intros Hg Ha Hn. erewrite bind_eq by by apply xa_access_ma_eq.
  by apply read_through_eq.
Qed.

Lemma xa_read_phys_eq n a w :
  geometry (inst w) -> is_u32 a -> a mod 4096 + Z.of_nat n <= 4096 ->
  hvm (inst w) <> 0 \/ mode (inst w) = XA_MODE_FILE ->
  (r ← xa_access_pa a PROT_READ; read_through n r) w = Ret (mem_read (inst w) n a, w).
Proof.
  intros Hg Ha Hn Hh. erewrite bind_eq by by apply xa_access_pa_eq.
  by apply read_through_eq.
Qed.

(** A value that straddles the end of the page is read past the mapping. *)
Lemma xa_read_mach_straddle n a w m :
  geometry (inst w) -> is_u32 a -> 4096 < a mod 4096 + Z.of_nat n ->
  frame_of (inst w) PROT_READ (a / 4096) = Some m ->
  (r ← xa_access_ma a PROT_READ; read_through n r) w = Fault.
Proof.
  intros Hg Ha Hn Hm. erewrite bind_eq by by apply xa_access_ma_eq. rewrite Hm.
  pose proof (frame_whole _ _ _ _ Hg Hm) as Hl. simpl. unfold load.
  rewrite (proj2 (Z.leb_gt _ (m_len m))) by lia. by rewrite andb_false_r.
Qed.

Lemma mem_read_range i n a v :
  mem_read i n a = Some v -> 0 <= v < 256 ^ Z.of_nat n.
Proof.
  unfold mem_read. intros (m & _ & [= <-])%bind_Some.
  pose proof (le_combine_range _ (bytes_u8 m (a mod 4096) n)) as H.
  by rewrite length_bytes in H.
Qed.
End Reads.

Lemma xa_get_bit_spec reg bit :
  0 <= bit < 32 -> xa_get_bit reg bit = Z.b2z (Z.testbit reg bit).
Proof.
  intros Hb. unfold xa_get_bit.
  assert (Hm : u32 (Z.shiftl 1 bit) = Z.shiftl 1 bit).
  { apply u32_small. rewrite Z.shiftl_1_l. split; [apply Z.pow_nonneg; lia|].
    change 4294967296 with (2 ^ 32). apply Z.pow_lt_mono_r; lia. }
  rewrite Hm, land_bit by lia.
  assert (Z.testbit (u32 reg) bit = Z.testbit reg bit) as ->.
  { unfold u32. change 4294967296 with (2 ^ 32). apply Z.mod_pow2_bits_low. lia. }
  destruct (Z.testbit reg bit); [|done].
  pose proof (Z.pow_pos_nonneg 2 bit). destruct (Z.eqb_spec (2 ^ bit) 0); [lia|done].
Qed.

(** ** The pfn-to-mfn table of a paravirtual guest *)

Section P2m.
Context {E : XenEnv} {W : WholePages}.
Implicit Types (w : world) (i : xa_instance).

Definition longs (m : mapping) (n : nat) : list Z :=
  (fun k => le_combine (bytes m (4 * k) 4)) <$> seqZ 0 (Z.of_nat n).

(** The table, with its levels of indirection resolved. *)
Definition table_from_list i n (list : mapping) : option (mapping * Z) :=
  t ← xc_map_foreign_batch (domain_id (m_xen i)) PROT_READ
        (longs list (Z.to_nat ((n + fpp - 1) / fpp)));
  Some (t, n).

Definition table_from_list_list i n (list_list : mapping) : option (mapping * Z) :=
  xc_map_foreign_batch (domain_id (m_xen i)) PROT_READ
    (longs list_list (Z.to_nat ((n + fpp * fpp - 1) / (fpp * fpp)))) ≫= table_from_list i n.

Definition p2m_table i : option (mapping * Z) :=
  shinfo ← frame_of i PROT_READ (shared_info_frame (m_xen i));
  frame_of i PROT_READ (shinfo_frame_list_list shinfo) ≫=
    table_from_list_list i (p2m_size i shinfo).

Lemma length_longs m n : length (longs m n) = n.
Proof. unfold longs. rewrite length_fmap, length_seqZ. lia. Qed.

Lemma read_longs_eq m n j w :
  0 <= j -> 4 * (j + Z.of_nat n) <= m_len m ->
  read_longs m (4 * j) n w =
  Ret ((fun k => le_combine (bytes m (4 * k) 4)) <$> seqZ j (Z.of_nat n), w).
Proof.
  revert j. induction n as [|n IH]; intros j Hj Hl; [done|].
  cbn [read_longs]. rewrite seqZ_cons by lia. cbn [fmap list_fmap].
  replace (4 * j + 4) with (4 * (j + 1)) by lia.
  erewrite bind_eq.
  2:{ unfold load32, load. rewrite (proj2 (Z.leb_le 0 _)) by lia.
      by rewrite (proj2 (Z.leb_le _ (m_len m))) by lia. }
  erewrite bind_eq by (apply IH; lia).
  replace (Z.pred (Z.of_nat (S n))) with (Z.of_nat n) by lia.
  by replace (Z.succ j) with (j + 1) by lia.
Qed.

Lemma read_longs_0 m n w :
  4 * Z.of_nat n <= m_len m -> read_longs m 0 n w = Ret (longs m n, w).
Proof. intros. apply (read_longs_eq m n 0); lia. Qed.

Lemma do_map_eq r w : do_map r w = Ret (r, opened r w).
Proof. done. Qed.

(** Number of pages in 32 bits, without the wrap. *)
Lemma pages_u32 n k : 0 < k <= 1048576 -> 0 <= n < 1073741824 -> u32 (n + k - 1) = n + k - 1.
Proof. intros. apply u32_small. lia. Qed.

(** The outcome: the table is kept in the instance and stays mapped. *)
Definition p2m_outcome (o : option (mapping * Z)) w : result (bool * world) :=
  match o with
  | Some (t, n) => Ret (true, with_inst (set_p2m_table t n (inst w)) (opened (Some t) w))
  | None => Ret (false, w)
  end.

(** A temporary mapping around a step leaves the step's outcome. *)
Lemma p2m_bracket (k : M world bool) o (m : mapping) w s :
  k s = p2m_outcome o (opened (Some m) w) ->
  (ok ← k; _ ← munmap; mret ok) s = p2m_outcome o w.
Proof.
  intros Hk. unfold mbind, M_bind. rewrite Hk. destruct o as [[t n]|]; simpl.
  - unfold munmap, modify, with_inst, with_live_maps, opened. simpl.
    by replace (live_maps w + 1 + 1 - 1) with (live_maps w + 1) by lia.
  - unfold munmap, modify. simpl. unfold mret, M_ret. f_equal. f_equal. apply live_maps_undo.
Qed.

Lemma p2m_from_list_eq i n list w :
  0 <= n < 1073741824 -> 4 * ((n + 1023) / 1024) <= m_len list ->
  p2m_from_list i n list w = p2m_outcome (table_from_list i n list) w.
Proof.
  intros Hn Hl. unfold p2m_from_list, table_from_list, fpp. rewrite pages_u32 by lia.
  assert (0 <= (n + 1024 - 1) / 1024) by (apply Z.div_pos; lia).
  erewrite bind_eq; [|apply read_longs_0].
  2:{ rewrite Z2Nat.id by done. by replace (n + 1024 - 1) with (n + 1023) by lia. }
  erewrite bind_eq by apply do_map_eq.
  by destruct (xc_map_foreign_batch _ _ _).
Qed.

Lemma p2m_from_list_list_eq i n list_list w :
  0 <= n < 1073741824 -> m_len list_list = 4096 ->
  p2m_from_list_list i n list_list w = p2m_outcome (table_from_list_list i n list_list) w.
Proof.
  intros Hn Hl. unfold p2m_from_list_list, table_from_list_list, fpp.
  rewrite pages_u32 by lia. change (1024 * 1024) with 1048576.
  assert (Hr : 0 <= (n + 1048576 - 1) / 1048576 <= 1024) by
    (split; [apply Z.div_pos; lia|apply Z.lt_succ_r, Z.div_lt_upper_bound; lia]).
  erewrite bind_eq; [|apply read_longs_0; lia].
  erewrite bind_eq by apply do_map_eq.
  destruct (xc_map_foreign_batch _ _ _) as [list|] eqn:Eb; [|done]. cbn [mbind option_bind].
  apply (p2m_bracket _ _ list), p2m_from_list_eq; [done|].
  apply batch_whole in Eb. rewrite Eb, length_longs, Z2Nat.id by lia. unfold XC_PAGE_SIZE.
  Z.to_euclidean_division_equations. lia.
Qed.

(** Every temporary mapping is closed again, on every path. *)
Lemma init_p2m_table_eq w (i := inst w) :
  geometry i ->
  (forall shinfo, frame_of i PROT_READ (shared_info_frame (m_xen i)) = Some shinfo ->
     0 <= p2m_size i shinfo < 1073741824) ->
  init_p2m_table i w = p2m_outcome (p2m_table i) w.
Proof.
  intros Hg Hn. unfold init_p2m_table, p2m_table, xa_mmap_mfn.
  erewrite bind_eq by apply xa_map_page_eq. fold i.
  destruct (frame_of i PROT_READ (shared_info_frame (m_xen i))) as [shinfo|] eqn:Es; [|done].
  specialize (Hn _ eq_refl). cbn [mbind option_bind]. cbv zeta.
  erewrite bind_eq by apply xa_map_page_eq. change (inst (opened (Some shinfo) w)) with i.
  destruct (frame_of i PROT_READ (shinfo_frame_list_list shinfo)) as [ll|] eqn:Ell.
  - apply (p2m_bracket _ _ shinfo), (p2m_bracket _ _ ll), p2m_from_list_list_eq;
      [done|by eapply frame_whole].
  - by apply (p2m_bracket (mret false) None shinfo).
Qed.

(** The table is as long as the guest has frames. *)
Lemma p2m_table_whole i t n :
  (forall shinfo, frame_of i PROT_READ (shared_info_frame (m_xen i)) = Some shinfo ->
     0 <= p2m_size i shinfo < 1073741824) ->
  p2m_table i = Some (t, n) -> 4 * n <= m_len t.
Proof.
  intros Hn (shinfo & Hs & (ll & Hll & (list & Hl & (t' & Ht & [= -> <-])%bind_Some)%bind_Some)
    %bind_Some)%bind_Some.
  specialize (Hn _ Hs). apply batch_whole in Ht. rewrite Ht, length_longs. unfold XC_PAGE_SIZE, fpp.
  rewrite Z2Nat.id by (apply Z.div_pos; lia). Z.to_euclidean_division_equations. lia.
Qed.

(** The first translation: the table is found, kept and used. *)
Lemma pfn_to_mfn_unkept pfn w (i := inst w) :
  geometry i -> hvm i = 0 -> live_pfn_to_mfn_table (m_xen i) = None ->
  (forall shinfo, frame_of i PROT_READ (shared_info_frame (m_xen i)) = Some shinfo ->
     0 <= p2m_size i shinfo < 1073741824) ->
  0 <= pfn -> (forall t n, p2m_table i = Some (t, n) -> pfn < n) ->
  helper_pfn_to_mfn pfn w =
  match p2m_table i with
  | Some (t, n) =>
      Ret (le_combine (bytes t (4 * pfn) 4), with_inst (set_p2m_table t n i) (opened (Some t) w))
  | None => Ret (NULL_ULONG, w)
  end.
Proof.
  intros Hg Hh Ht Hn Hp Hlt. unfold helper_pfn_to_mfn. erewrite bind_eq by done. fold i.
  rewrite Hh, Ht. change (negb (0 =? 0)) with false. cbv iota.
  pose proof (init_p2m_table_eq w Hg Hn) as Ei. fold i in Ei. unfold p2m_outcome in Ei.
  destruct (p2m_table i) as [[t n]|] eqn:Et; erewrite bind_eq by exact Ei; [|done]. fold i.
  specialize (Hlt _ _ eq_refl). pose proof (p2m_table_whole i t n Hn Et).
  cbv beta iota. erewrite bind_eq by done. cbn [inst with_inst m_xen set_p2m_table live_pfn_to_mfn_table of_option].
  rewrite bind_ret_l. unfold load32, load.
  rewrite (proj2 (Z.leb_le 0 _)), (proj2 (Z.leb_le _ (m_len t))) by lia. done.
Qed.
End P2m.

(** ** Properties *)

Section Properties.
Context {E : XenEnv} {W : WholePages}.
Implicit Types (w : world).

(** The first translation of a frame number of a paravirtual guest maps
    the guest's table through its levels of frame lists, returns the entry
    for the frame, and leaves exactly one more mapping open, the table kept
    in the instance; when a level cannot be mapped it returns NULL_ULONG and
    leaves none. *)
Theorem pfn_to_mfn_first pfn w (i := inst w) :
  geometry i -> hvm i = 0 -> live_pfn_to_mfn_table (m_xen i) = None ->
  (forall shinfo, frame_of i PROT_READ (shared_info_frame (m_xen i)) = Some shinfo ->
     0 <= p2m_size i shinfo < 1073741824) ->
  0 <= pfn -> (forall t n, p2m_table i = Some (t, n) -> pfn < n) ->
  helper_pfn_to_mfn pfn w =
  match p2m_table i with
  | Some (t, n) =>
      Ret (le_combine (bytes t (4 * pfn) 4), with_inst (set_p2m_table t n i) (opened (Some t) w))
  | None => Ret (NULL_ULONG, w)
  end.
Proof. apply pfn_to_mfn_unkept. Qed.

(** [xa_read_long_mach] returns the word of the guest's memory when the
    word lies inside one page, and unmaps the page again; when the word
    straddles the end of a page that can be mapped, it reads past the
    mapping. *)
Theorem read_long_mach_exact a w :
  geometry (inst w) -> is_u32 a ->
  (a mod 4096 <= 4092 -> xa_read_long_mach a w = Ret (mem_read (inst w) 4 a, w)) /\
  (4092 < a mod 4096 -> frame_of (inst w) PROT_READ (a / 4096) <> None ->
   xa_read_long_mach a w = Fault).
Proof.
  intros Hg Ha. split.
  - intros H. apply xa_read_mach_eq; [done|done|lia].
  - intros H Hf. destruct (frame_of (inst w) PROT_READ (a / 4096)) as [m|] eqn:Em; [|done].
    eapply xa_read_mach_straddle; [done|done|lia|exact Em].
Qed.
End Properties.
