(* ===== verification/XaPhys.v ===== *)
(** * Physical addresses

    The functions of xa_memory.c that take a physical address or frame number,
    for every kind of guest: a file image and a fully virtualised domain, whose
    physical frames are the frames that are mapped, and a paravirtual domain,
    whose physical frames are translated by the pfn-to-mfn table the instance
    keeps.  With the table in place, reading physical memory is a pure function
    of the address; without it the first access fetches it. *)

From S2P Require Import Prelude CStr Dll XaTypes XaMap.

(** ** The guest's physical memory as a function *)

Section Phys.
Context {E : XenEnv}.
Implicit Types (i : xa_instance) (w : world).

(** The entry of the table for frame [f]. *)
Definition p2m_entry (t : mapping) (f : Z) : Z := le_combine (bytes t (4 * f) 4).

(** The machine frame of physical frame [f]. *)
Definition mfn_of i (f : Z) : Z :=
  if (mode i =? XA_MODE_XEN) && (hvm i =? 0) then
    match live_pfn_to_mfn_table (m_xen i) with
    | Some t => p2m_entry t f
    | None => NULL_ULONG
    end
  else f.

Definition phys_frame i (prot f : Z) : option mapping :=
  if mfn_of i f =? NULL_ULONG then None else frame_of i prot (mfn_of i f).

(** The [n]-byte little-endian value at physical address [a]. *)
Definition phys_read i (n : nat) (a : Z) : option Z :=
  m ← phys_frame i PROT_READ (a / 4096); Some (le_combine (bytes m (a mod 4096) n)).

(** Frame [f] can be translated without leaving the table. *)
Definition in_table i (f : Z) : Prop :=
  mode i = XA_MODE_XEN -> hvm i = 0 ->
  exists t, live_pfn_to_mfn_table (m_xen i) = Some t /\ 4 * f + 4 <= m_len t.

(** Whether the instance keeps a table mapped. *)
Definition tables i : Z :=
  match live_pfn_to_mfn_table (m_xen i) with Some _ => 1 | None => 0 end.

Lemma mfn_flat i f : hvm i <> 0 \/ mode i = XA_MODE_FILE -> mfn_of i f = f.
Proof.
  unfold mfn_of. intros [Hh%Z.eqb_neq | ->]; [by rewrite Hh, andb_false_r|done].
Qed.

Lemma phys_flat i prot f :
  hvm i <> 0 \/ mode i = XA_MODE_FILE -> f <> NULL_ULONG -> phys_frame i prot f = frame_of i prot f.
Proof. intros Hh Hf%Z.eqb_neq. unfold phys_frame. by rewrite mfn_flat, Hf. Qed.

Lemma in_table_flat i f : hvm i <> 0 \/ mode i = XA_MODE_FILE -> in_table i f.
Proof. intros [Hh|Hf] Hm H0; [done|]. rewrite Hm in Hf. done. Qed.

Lemma load32_eq (m : mapping) off w :
  0 <= off -> off + 4 <= m_len m -> load32 m off w = Ret (le_combine (bytes m off 4), w).
Proof.
  intros H0 Hl. unfold load32, load. by rewrite (proj2 (Z.leb_le 0 _)), (proj2 (Z.leb_le _ (m_len m))) by lia.
Qed.

Lemma helper_kept f t w :
  hvm (inst w) = 0 -> live_pfn_to_mfn_table (m_xen (inst w)) = Some t -> 0 <= f -> 4 * f + 4 <= m_len t ->
  helper_pfn_to_mfn f w = Ret (p2m_entry t f, w).
Proof.
  intros Hh Ht H0 Hl. unfold helper_pfn_to_mfn. erewrite bind_eq by done. rewrite Hh, Ht.
  change (negb (0 =? 0)) with false. cbv iota. rewrite bind_ret_l. cbv iota.
  erewrite bind_eq by done. rewrite Ht. cbn [of_option]. rewrite bind_ret_l.
  by apply load32_eq; [lia|].
Qed.

(** Nothing checks the frame number against the table. *)
Lemma helper_past_table f t w :
  hvm (inst w) = 0 -> live_pfn_to_mfn_table (m_xen (inst w)) = Some t -> m_len t < 4 * f + 4 ->
  helper_pfn_to_mfn f w = Fault.
Proof.
  intros Hh Ht Hl. unfold helper_pfn_to_mfn. erewrite bind_eq by done. rewrite Hh, Ht.
  change (negb (0 =? 0)) with false. cbv iota. rewrite bind_ret_l. cbv iota.
  erewrite bind_eq by done. rewrite Ht. cbn [of_option]. rewrite bind_ret_l.
  unfold load32, load. rewrite (proj2 (Z.leb_gt _ (m_len t))) by lia. by rewrite andb_false_r.
Qed.

Lemma xa_mmap_pfn_phys prot f w :
  in_table (inst w) f -> 0 <= f < NULL_ULONG ->
  xa_mmap_pfn prot f w = Ret (phys_frame (inst w) prot f, opened (phys_frame (inst w) prot f) w).
Proof.
  intros Hin Hf. destruct (decide (mode (inst w) = XA_MODE_XEN /\ hvm (inst w) = 0)) as [[Hm Hh]|Hn].
  - destruct (Hin Hm Hh) as (t & Ht & Hl). unfold xa_mmap_pfn. erewrite bind_eq by done.
    rewrite Hm. change (XA_MODE_XEN =? XA_MODE_XEN) with true. cbv iota.
    erewrite bind_eq by (eapply helper_kept; [done|exact Ht|lia|lia]).
    unfold phys_frame, mfn_of. rewrite Hm, Hh, Ht. cbn [Z.eqb XA_MODE_XEN andb].
    destruct (p2m_entry t f =? NULL_ULONG); [done|]. apply xa_map_page_eq.
  - unfold xa_mmap_pfn. erewrite bind_eq by done. unfold phys_frame, mfn_of.
    destruct (mode (inst w) =? XA_MODE_XEN) eqn:Em.
    + destruct (hvm (inst w) =? 0) eqn:Eh; [apply Z.eqb_eq in Em, Eh; by destruct Hn|].
      cbn [andb]. erewrite bind_eq.
      2:{ unfold helper_pfn_to_mfn. erewrite bind_eq by done. by rewrite Eh. }
      rewrite (proj2 (Z.eqb_neq f NULL_ULONG)) by lia. apply xa_map_page_eq.
    + cbn [andb]. rewrite (proj2 (Z.eqb_neq f NULL_ULONG)) by lia.
      destruct (mode (inst w) =? XA_MODE_FILE) eqn:Ef.
      * rewrite bind_ret_l, (proj2 (Z.eqb_neq f NULL_ULONG)) by lia. apply xa_map_page_eq.
      * rewrite bind_ret_l. simpl. unfold frame_of. by rewrite Em, Ef.
Qed.

Lemma page_number a : is_u32 a -> 0 <= a / 4096 < 1048576.
Proof. intros Ha. split; [apply Z.div_pos; lia|apply Z.div_lt_upper_bound; lia]. Qed.

Lemma xa_access_pa_phys a prot w :
  geometry (inst w) -> is_u32 a -> in_table (inst w) (a / 4096) ->
  xa_access_pa a prot w =
  Ret ((phys_frame (inst w) prot (a / 4096), a mod 4096),
       opened (phys_frame (inst w) prot (a / 4096)) w).
Proof.
  intros Hg Ha Hin. destruct (page_split _ _ Hg Ha) as [E1 E2]. pose proof (page_number a Ha).
  unfold xa_access_pa. erewrite bind_eq by done. rewrite E1, E2.
  erewrite bind_eq; [done|]. apply xa_mmap_pfn_phys; [done|]. unfold NULL_ULONG. lia.
Qed.
End Phys.

Section PhysReads.
Context {E : XenEnv} {W : WholePages}.
Implicit Types (i : xa_instance) (w : world).

Lemma phys_whole i prot f m : geometry i -> phys_frame i prot f = Some m -> m_len m = 4096.
Proof. intros Hg. unfold phys_frame. destruct (_ =? _); [done|]. by apply frame_whole. Qed.

Lemma phys_read_flat i n a :
  is_u32 a -> hvm i <> 0 \/ mode i = XA_MODE_FILE -> phys_read i n a = mem_read i n a.
Proof.
  intros Ha Hh. unfold phys_read, mem_read. pose proof (page_number a Ha).
  rewrite phys_flat; [done|done|]. unfold NULL_ULONG. lia.
Qed.

Lemma phys_read_range i n a v : phys_read i n a = Some v -> 0 <= v < 256 ^ Z.of_nat n.
Proof.
  unfold phys_read. intros (m & _ & [= <-])%bind_Some.
  pose proof (le_combine_range _ (bytes_u8 m (a mod 4096) n)) as H.
  by rewrite length_bytes in H.
Qed.

(** A page just mapped is read and unmapped again. *)
Lemma read_mapped n (o : option mapping) off w :
  (forall m, o = Some m -> m_len m = 4096) -> 0 <= off -> off + Z.of_nat n <= 4096 ->
  read_through n (o, off) (opened o w) = Ret (m ← o; Some (le_combine (bytes m off n)), w).
Proof.
  intros Hl H0 Hn. unfold read_through. destruct o as [m|]; [|done]. specialize (Hl m eq_refl). simpl.
  unfold load. rewrite (proj2 (Z.leb_le 0 off)), (proj2 (Z.leb_le _ (m_len m))) by lia.
  unfold mbind, M_bind, mret, M_ret, munmap, modify. simpl.
  by rewrite live_maps_undo.
Qed.

Lemma xa_read_phys_any n a w :
  geometry (inst w) -> is_u32 a -> in_table (inst w) (a / 4096) -> a mod 4096 + Z.of_nat n <= 4096 ->
  (r ← xa_access_pa a PROT_READ; read_through n r) w = Ret (phys_read (inst w) n a, w).
Proof.
  intros Hg Ha Hin Hn. erewrite bind_eq by by apply xa_access_pa_phys.
  apply read_mapped; [by intros m; apply phys_whole|by apply Z.mod_pos_bound|done].
Qed.
End PhysReads.

(** ** Fetching the table *)

Section Table.
Context {E : XenEnv} {W : WholePages}.
Implicit Types (i : xa_instance) (w : world).

(** The instance once a translation was asked for. *)
Definition with_p2m i : xa_instance :=
  match p2m_table i with Some (t, n) => set_p2m_table t n i | None => i end.

(** A paravirtual domain whose table has not been fetched yet; the number of
    frames the hypervisor or the guest tells is one that 32 bits of bytes can
    count. *)
Record paravirtual i : Prop := {
  pv_geometry : geometry i;
  pv_mode : mode i = XA_MODE_XEN;
  pv_hvm : hvm i = 0;
  pv_unkept : live_pfn_to_mfn_table (m_xen i) = None;
  pv_size : forall shinfo, frame_of i PROT_READ (shared_info_frame (m_xen i)) = Some shinfo ->
    0 <= p2m_size i shinfo < 1073741824 }.

(** Frame [f] is one the guest has. *)
Definition pv_frame i (f : Z) : Prop := 0 <= f /\ forall t n, p2m_table i = Some (t, n) -> f < n.

(** The state after the first translation. *)
Definition table_loaded w : world :=
  with_inst (with_p2m (inst w)) (opened (fst <$> p2m_table (inst w)) w).

Lemma with_p2m_same i :
  geometry (with_p2m i) = geometry i /\ mode (with_p2m i) = mode i /\ hvm (with_p2m i) = hvm i /\
  page_offset (with_p2m i) = page_offset i /\ page_shift (with_p2m i) = page_shift i.
Proof. unfold with_p2m. by destruct (p2m_table i) as [[t n]|]. Qed.

Lemma with_p2m_frame i prot f : frame_of (with_p2m i) prot f = frame_of i prot f.
Proof. unfold with_p2m. by destruct (p2m_table i) as [[t n]|]. Qed.

Lemma with_p2m_kept i :
  live_pfn_to_mfn_table (m_xen i) = None ->
  live_pfn_to_mfn_table (m_xen (with_p2m i)) = fst <$> p2m_table i.
Proof. unfold with_p2m. by destruct (p2m_table i) as [[t n]|]. Qed.

Lemma with_p2m_in i f t n :
  paravirtual i -> pv_frame i f -> p2m_table i = Some (t, n) -> 4 * f + 4 <= m_len t.
Proof. intros Hp [_ Hf] Ht. pose proof (p2m_table_whole i t n (pv_size i Hp) Ht). specialize (Hf t n Ht). lia. Qed.

Lemma in_with_p2m i f :
  paravirtual i -> pv_frame i f -> is_Some (p2m_table i) -> in_table (with_p2m i) f.
Proof.
  intros Hp Hf [[t n] Ht] _ _. rewrite (with_p2m_kept _ (pv_unkept i Hp)), Ht.
  exists t. split; [done|by eapply with_p2m_in].
Qed.

Lemma mfn_with_p2m i f :
  paravirtual i ->
  mfn_of (with_p2m i) f = match p2m_table i with Some (t, _) => p2m_entry t f | None => NULL_ULONG end.
Proof.
  intros [_ Hm Hh Hu _]. destruct (with_p2m_same i) as (_ & Em & Eh & _).
  unfold mfn_of. rewrite Em, Eh, Hm, Hh, (with_p2m_kept _ Hu). by destruct (p2m_table i) as [[t n]|].
Qed.

Lemma helper_first f w :
  paravirtual (inst w) -> pv_frame (inst w) f ->
  helper_pfn_to_mfn f w = Ret (mfn_of (with_p2m (inst w)) f, table_loaded w).
Proof.
  intros Hp [H0 Hf]. rewrite mfn_with_p2m by done. destruct Hp as [Hg _ Hh Hu Hs].
  rewrite (pfn_to_mfn_unkept f w) by done. unfold table_loaded, with_p2m.
  destruct (p2m_table (inst w)) as [[t n]|]; [done|]. by destruct w.
Qed.

Lemma table_loaded_none w : p2m_table (inst w) = None -> table_loaded w = w.
Proof. intros Hn. unfold table_loaded, with_p2m. rewrite Hn. by destruct w. Qed.

(** With the table in place. *)
Lemma helper_again f w :
  paravirtual (inst w) -> pv_frame (inst w) f ->
  helper_pfn_to_mfn f (table_loaded w) = Ret (mfn_of (with_p2m (inst w)) f, table_loaded w).
Proof.
  intros Hp Hf. destruct (p2m_table (inst w)) as [[t n]|] eqn:Et.
  - rewrite mfn_with_p2m, Et by done. destruct (with_p2m_same (inst w)) as (_ & _ & Eh & _).
    eapply helper_kept; [|by cbn; rewrite (with_p2m_kept _ (pv_unkept _ Hp)), Et|apply Hf|].
    + cbn. rewrite Eh. apply Hp.
    + by eapply with_p2m_in.
  - rewrite table_loaded_none by done. rewrite helper_first by done. by rewrite table_loaded_none.
Qed.

(** The first access to physical memory. *)
Lemma xa_access_pa_first a prot w (i' := with_p2m (inst w)) :
  paravirtual (inst w) -> is_u32 a -> pv_frame (inst w) (a / 4096) ->
  xa_access_pa a prot w =
  Ret ((phys_frame i' prot (a / 4096), a mod 4096),
       opened (phys_frame i' prot (a / 4096)) (table_loaded w)).
Proof.
  intros Hp Ha Hf. destruct (page_split _ _ (pv_geometry _ Hp) Ha) as [E1 E2].
  unfold xa_access_pa. erewrite bind_eq by done. rewrite E1, E2.
  erewrite bind_eq; [done|]. unfold xa_mmap_pfn. erewrite bind_eq by done.
  rewrite (pv_mode _ Hp). change (XA_MODE_XEN =? XA_MODE_XEN) with true. cbv iota.
  erewrite bind_eq by by apply helper_first. unfold phys_frame. fold i'.
  destruct (mfn_of i' (a / 4096) =? NULL_ULONG); [done|]. apply xa_map_page_eq.
Qed.

Lemma xa_read_phys_first n a w (i' := with_p2m (inst w)) :
  paravirtual (inst w) -> is_u32 a -> pv_frame (inst w) (a / 4096) -> a mod 4096 + Z.of_nat n <= 4096 ->
  (r ← xa_access_pa a PROT_READ; read_through n r) w = Ret (phys_read i' n a, table_loaded w).
Proof.
  intros Hp Ha Hf Hn. erewrite bind_eq by by apply xa_access_pa_first.
  apply read_mapped; [|by apply Z.mod_pos_bound|done].
  intros m. apply phys_whole. unfold i'. destruct (with_p2m_same (inst w)) as (-> & _). apply Hp.
Qed.

(** Translating one frame after the other. *)
Fixpoint translate_frames (fs : list Z) : M world (list Z) :=
  match fs with
  | [] => mret []
  | f :: fs' => mfn ← helper_pfn_to_mfn f; mfns ← translate_frames fs'; mret (mfn :: mfns)
  end.

Lemma translate_again fs w :
  paravirtual (inst w) -> Forall (pv_frame (inst w)) fs ->
  translate_frames fs (table_loaded w) = Ret (mfn_of (with_p2m (inst w)) <$> fs, table_loaded w).
Proof.
  intros Hp. induction 1 as [|f fs Hf _ IH]; [done|]. cbn [translate_frames].
  erewrite bind_eq by by apply helper_again. by erewrite bind_eq by exact IH.
Qed.

(** C20: The table that was fetched first serves every later translation: whatever
    frames are asked for, in any order and number, each gets its entry and
    the table is the one mapping that is kept. *)
Theorem translations_keep_table fs w (i := inst w) :
  paravirtual i -> Forall (pv_frame i) fs -> fs <> [] ->
  translate_frames fs w =
  Ret ((fun f => match p2m_table i with Some (t, _) => p2m_entry t f | None => NULL_ULONG end) <$> fs,
       table_loaded w) /\
  live_maps (table_loaded w) = live_maps w + match p2m_table i with Some _ => 1 | None => 0 end.
Proof.
  intros Hp Hf Hn. split.
  - destruct Hf as [|f fs Hf Hfs]; [done|]. cbn [translate_frames].
    erewrite bind_eq by by apply helper_first. erewrite bind_eq by by apply translate_again.
    unfold mret, M_ret. cbn [fmap list_fmap]. do 2 f_equal. f_equal; [by apply mfn_with_p2m|].
    apply list_fmap_ext. intros k g _. by apply mfn_with_p2m.
  - unfold table_loaded. cbn [live_maps with_inst]. fold i. rewrite opened_live. cbn [live_maps with_live_maps].
    by destruct (p2m_table i) as [[t n]|].
Qed.

(** Nothing compares a frame number with the size of the table: an access
    behind it reads past the mapping. *)
Theorem access_past_table a prot w t :
  geometry (inst w) -> mode (inst w) = XA_MODE_XEN -> hvm (inst w) = 0 ->
  live_pfn_to_mfn_table (m_xen (inst w)) = Some t -> is_u32 a -> m_len t < 4 * (a / 4096) + 4 ->
  xa_access_pa a prot w = Fault.
Proof.
  intros Hg Hm Hh Ht Ha Hl. destruct (page_split _ _ Hg Ha) as [E1 E2].
  unfold xa_access_pa. erewrite bind_eq by done. rewrite E1, E2.
  assert (Hmap : xa_mmap_pfn prot (a / 4096) w = Fault).
  { unfold xa_mmap_pfn. erewrite bind_eq by done. rewrite Hm.
    change (XA_MODE_XEN =? XA_MODE_XEN) with true. cbv iota.
    unfold mbind, M_bind. by rewrite (helper_past_table _ t). }
  unfold mbind, M_bind. by rewrite Hmap.
Qed.
End Table.
