(* ===== verification/Guest.v ===== *)
(** * A concrete guest

    A memory image given by its non-zero words, opened in file mode: the
    environment at which the theorems about the library are instantiated.
    The image has a non-PAE and a PAE page directory and a process list in
    the shape [linux_get_taskstruct] walks. *)

From Stdlib Require Import String.
From S2P Require Import Prelude CStr Dll XaTypes XaMap.

Definition image : Type := list (Z * Z).

Fixpoint word_at (img : image) (a : Z) : Z :=
  match img with
  | [] => 0
  | (b, v) :: img' => if b =? a then v else word_at img' a
  end.

Definition byte_at (img : image) (a : Z) : Z :=
  Z.shiftr (word_at img (a / 4 * 4)) (8 * (a mod 4)).

(** The file holds one megabyte; the clock ticks once per reading; nothing is
    known about Xen. *)
Definition guest_env (img : image) : XenEnv := {|
  xc_map_foreign_range _ _ _ := None;
  xc_map_foreign_batch _ _ _ := None;
  xc_batch_result _ _ mfns := mfns;
  xc_vcpu_getcontext _ := None;
  xc_maximum_gpfn _ := 0;
  shinfo_max_pfn _ := 0;
  shinfo_frame_list_list _ := 0;
  file_mmap len _ off := Some (Mapping len (fun k => byte_at img (off + k)));
  clock n := Z.of_nat n;
  indet := 0 |}.

Lemma guest_whole img : @WholePages (guest_env img).
Proof. split; [done..|]. by intros len prot off m [= <-]. Defined.

Definition guest_linux : linux_instance := LinuxInstance 16 20 24 12 0x80.
Definition guest_windows : windows_instance := WindowsInstance 0x8000 0x88 0x18 0x84 0x1b0 0x8 0x18.

Definition guest_inst (os use_pae : Z) : xa_instance :=
  XaInstance XA_MODE_FILE XA_FAILSOFT None None 0xC0000000 12 4096 0xC0001000 0xC0005010
    os 1 use_pae 0 0x1000 guest_linux guest_windows
    (XenSource 0 0 0 0 0 None 0) (FileSource 0x100000).

Definition guest_world (i : xa_instance) : world :=
  World i (empty_dll 0%nat) (empty_dll 0%nat) 0 0 (StringHeap ∅ 0%nat).

Lemma guest_geometry os p : geometry (guest_inst os p).
Proof. done. Defined.

(** Page directory at 0x1000: 0xC0000000 is mapped to 0 by a 4 MB page, and
    0x400000 to 0x3000 through the page table at 0x2000. *)
Definition flat_image : image :=
  [(0x1C00, 0x83); (0x1004, 0x2003); (0x2000, 0x3003); (0x3010, 0xCAFE)].

(** Page directory pointers at 0x1000: 0xC0000000 is mapped to 0 by a 2 MB
    page, and 0xC0200000 to 0x3000 through the page table at 0x5000. *)
Definition pae_image : image :=
  [(0x1018, 0x4001); (0x4000, 0x83); (0x4008, 0x5001); (0x5000, 0x3001); (0x3010, 0xCAFE)].

(** A Linux process list at 0xC0005010: pid 1, pid 2, then the idle task whose
    link leads back.  Process 1 has its page directory at 0x9000. *)
Definition linux_image : image :=
  [(0x1C00, 0x83);
   (0x5000, 0x11); (0x5010, 0xC0006010); (0x5014, 0xC0007000); (0x5018, 1);
   (0x6010, 0xC0008010); (0x6014, 0xC000A000); (0x6018, 2);
   (0x8010, 0xC0005010);
   (0x700C, 0xC0009000); (0x7080, 0x08048000); (0xA00C, 0xC000B000);
   (0x9004, 0x2003); (0x2000, 0x3003); (0x3010, 0xCAFE)].

(** The frame of an address of the image file. *)
Definition guest_frame (img : image) (a : Z) : mapping :=
  Mapping 4096 (fun k => byte_at img (a / 4096 * 4096 + k)).

Lemma guest_frame_of img os p prot a :
  0 <= a < 0x100000 ->
  @frame_of (guest_env img) (guest_inst os p) prot (a / 4096) = Some (guest_frame img a).
Proof.
  intros Ha. unfold frame_of. cbn [mode guest_inst m_file file_size page_shift page_size].
  change (XA_MODE_FILE =? XA_MODE_XEN) with false. change (XA_MODE_FILE =? XA_MODE_FILE) with true.
  cbv iota. rewrite Z.shiftl_mul_pow2 by done. change (2 ^ 12) with 4096.
  assert (0 <= a / 4096 * 4096 < 0x100000) by (by apply div_mul_range).
  rewrite u32_small, s32_small by lia. by rewrite (proj2 (Z.leb_gt _ _)) by lia.
Qed.

(** A word of the image file is read as it stands. *)
Lemma guest_read32 img os p a :
  0 <= a < 0x100000 -> a mod 4 = 0 ->
  @mem_read (guest_env img) (guest_inst os p) 4 a = Some (u32 (word_at img a)).
Proof.
  intros Ha Hm. unfold mem_read. rewrite guest_frame_of by done. cbn [mbind option_bind]. f_equal.
  unfold bytes, guest_frame, m_byte. change (seqZ 0 (Z.of_nat 4)) with [0; 1; 2; 3].
  cbn [fmap list_fmap le_combine].
  assert (Hb : forall k, 0 <= k < 4 ->
    u8 (byte_at img (a / 4096 * 4096 + (a mod 4096 + k))) = word_at img a / 2 ^ (8 * k) mod 256).
  { intros k Hk. unfold byte_at, u8.
    replace (a / 4096 * 4096 + (a mod 4096 + k)) with (a + k) by (pose proof (Z.div_mod a 4096); lia).
    assert ((a + k) / 4 * 4 = a /\ (a + k) mod 4 = k) as [-> ->] by
      (Z.to_euclidean_division_equations; lia).
    by rewrite Z.shiftr_div_pow2 by lia. }
  rewrite (Hb 0), (Hb 1), (Hb 2), (Hb 3) by lia. unfold u32.
  set (x := word_at img a). change (2 ^ (8 * 0)) with 1. change (2 ^ (8 * 1)) with 256.
  change (2 ^ (8 * 2)) with (256 * 256). change (2 ^ (8 * 3)) with (256 * 256 * 256).
  rewrite Z.div_1_r, <- !Z.div_div by done. change 4294967296 with (256 * (256 * (256 * 256))).
  rewrite !Z.rem_mul_r by done. lia.
Qed.

(** A string, packed into words. *)
Fixpoint put_str (a : Z) (s : cstr) : image :=
  match s with
  | b0 :: b1 :: b2 :: b3 :: s' => (a, le_combine [b0; b1; b2; b3]) :: put_str (a + 4) s'
  | [] => []
  | s => [(a, le_combine s)]
  end.

(** A Windows kernel at 0x8000 with two exports, the name of the first a
    prefix of the second's, and a process list at 0xC0005088. *)
Definition windows_image : image :=
  [(0x1C00, 0x83);
   (0x8000, 0x5A4D); (0x803C, 0x80); (0x8080, 0x4550); (0x80F8, 0x200);
   (0x820C, 0x440); (0x8218, 2); (0x821C, 0x300); (0x8220, 0x310); (0x8224, 0x320);
   (0x8300, 0x1111); (0x8304, 0x2222); (0x8310, 0x400); (0x8314, 0x410); (0x8320, 0x10000);
   (0x5088, 0xC0006088); (0x5018, 0xE000); (0x5084, 8);
   (0x6088, 0xC0007088); (0x6018, 0xF000); (0x6084, 12);
   (0x7088, 0xC0005088)] ++
  put_str 0x8400 (str "PsInit") ++ put_str 0x8410 (str "PsInitialSystemProcess") ++
  put_str 0x8440 (str "ntoskrnl.exe").

(** ** A paravirtual guest

    Frames come from libxc: the shared info frame 0x10 leads to the frame list
    list 0x11, the frame list 0x12 and the table 0x13. *)

Definition pv_image : image := [(0x11000, 0x12); (0x12000, 0x13); (0x13000, 0x40); (0x13004, 0x41)].

Definition pv_env (img : image) : XenEnv := {|
  xc_map_foreign_range _ _ mfn := Some (Mapping 4096 (fun k => byte_at img (4096 * mfn + k)));
  xc_map_foreign_batch _ _ mfns :=
    Some (Mapping (4096 * Z.of_nat (length mfns))
            (fun k => byte_at img (4096 * nth (Z.to_nat (k / 4096)) mfns 0 + k mod 4096)));
  xc_batch_result _ _ mfns := mfns;
  xc_vcpu_getcontext _ := None;
  xc_maximum_gpfn _ := 0;
  shinfo_max_pfn _ := 2;
  shinfo_frame_list_list _ := 0x11;
  file_mmap _ _ _ := None;
  clock n := Z.of_nat n;
  indet := 0 |}.

Lemma pv_whole img : @WholePages (pv_env img).
Proof. split; [by intros ???? [= <-]|by intros ???? [= <-]|done]. Defined.

Definition pv_inst : xa_instance :=
  XaInstance XA_MODE_XEN XA_FAILSOFT None None 0xC0000000 12 4096 0xC0001000 0xC0005010
    1 0 0 0 0x1000 guest_linux guest_windows (XenSource 3 7 3 0x10 0x100000 None 0) (FileSource 0).

Lemma pv_table :
  exists t, @p2m_table (pv_env pv_image) pv_inst = Some (t, 2) /\
            le_combine (bytes t (4 * 1) 4) = 0x41.
Proof. eexists. split; [reflexivity|vm_compute; reflexivity]. Qed.

Lemma pfn_to_mfn_first_witness :
  exists w', @helper_pfn_to_mfn (pv_env pv_image) 1 (guest_world pv_inst) = Ret (0x41, w') /\
    live_maps w' = 1.
Proof.
  destruct pv_table as (t & Et & Ev).
  pose proof (@pfn_to_mfn_first (pv_env pv_image) (pv_whole _) 1 (guest_world pv_inst)) as H.
  cbv zeta in H. change (inst (guest_world pv_inst)) with pv_inst in H. rewrite Et, Ev in H.
  eexists. split; [apply H|reflexivity].
  - done.
  - reflexivity.
  - reflexivity.
  - intros shinfo _. vm_compute. split; [discriminate|reflexivity].
  - lia.
  - intros t' n [= _ <-]. lia.
Defined.

Lemma read_long_mach_exact_witness :
  @xa_read_long_mach (guest_env flat_image) 0x3010 (guest_world (guest_inst 1 0)) =
    Ret (Some 0xCAFE, guest_world (guest_inst 1 0)) /\
  @xa_read_long_mach (guest_env flat_image) 0x3FFE (guest_world (guest_inst 1 0)) = Fault.
Proof.
  split.
  - refine (eq_trans (proj1 (@read_long_mach_exact (guest_env flat_image) (guest_whole _) 0x3010
      (guest_world (guest_inst 1 0)) (guest_geometry 1 0) _) _) _); [lia| |];
      vm_compute; [discriminate|reflexivity].
  - apply (proj2 (@read_long_mach_exact (guest_env flat_image) (guest_whole _) 0x3FFE
      (guest_world (guest_inst 1 0)) (guest_geometry 1 0) ltac:(lia))).
    + vm_compute. reflexivity.
    + vm_compute. discriminate.
Defined.
