(* ===== verification/PageTable.v ===== *)
(** * Page table walks

    Models the translation half of xa_memory.c: the index, base and address
    functions of the two x86 paging modes, [v2p_nopae], [v2p_pae],
    [xa_pagetable_lookup], [xa_current_cr3] and [xa_translate_kv2p], and
    proves the walks against the tables the processor manual defines. *)

From S2P Require Import Prelude CStr Dll XaTypes XaMap Guest.

Section Model.
Context {E : XenEnv}.
Implicit Types (vaddr : Z).

(** bit flag testing *)
Definition entry_present (entry : Z) : bool := negb (xa_get_bit entry 0 =? 0).
Definition page_size_flag (entry : Z) : bool := negb (xa_get_bit entry 7 =? 0).

(** A value read into an uninitialised variable: the read when it succeeds,
    whatever the variable held when it fails (the result is not checked). *)
Definition or_indet (wrap : Z -> Z) (r : option Z) : Z :=
  match r with Some v => v | None => wrap indet end.

(** page directory pointer table *)
Definition get_pdptb (pdpr : Z) : Z := Z.land pdpr 0xFFFFFFE0.
Definition pdpi_index (pdpi : Z) : Z := u32 (Z.shiftr pdpi 30 * 8).

Definition get_pdpi vaddr cr3 : M world Z :=
  let pdpi_entry := u32 (get_pdptb cr3 + pdpi_index vaddr) in
  r ← xa_read_long_long_mach pdpi_entry;
  mret (or_indet u64 r).

(** page directory *)
Definition pgd_index (i : xa_instance) (address : Z) : Z :=
  if pae i =? 0 then u32 (Z.land (Z.shiftr address 22) 0x3FF * 4)
  else u32 (Z.land (Z.shiftr address 21) 0x1FF * 8).

Definition pdba_base_nopae (pdpe : Z) : Z := Z.land pdpe 0xFFFFF000.
Definition pdba_base_pae (pdpe : Z) : Z := Z.land pdpe 0xFFFFFF000.

Definition get_pgd_nopae vaddr pdpe : M world Z :=
  i ← gets inst;
  let pgd_entry := u32 (pdba_base_nopae pdpe + pgd_index i vaddr) in
  r ← xa_read_long_mach pgd_entry;
  mret (or_indet u32 r).

Definition get_pgd_pae vaddr pdpe : M world Z :=
  i ← gets inst;
  let pgd_entry := u32 (pdba_base_pae pdpe + pgd_index i vaddr) in
  r ← xa_read_long_long_mach pgd_entry;
  mret (or_indet u64 r).

(** page table *)
Definition pte_index (i : xa_instance) (address : Z) : Z :=
  if pae i =? 0 then u32 (Z.land (Z.shiftr address 12) 0x3FF * 4)
  else u32 (Z.land (Z.shiftr address 12) 0x1FF * 8).

Definition ptba_base_nopae (pde : Z) : Z := Z.land pde 0xFFFFF000.
Definition ptba_base_pae (pde : Z) : Z := Z.land pde 0xFFFFFF000.

Definition get_pte_nopae vaddr pgd : M world Z :=
  i ← gets inst;
  let pte_entry := u32 (ptba_base_nopae pgd + pte_index i vaddr) in
  r ← xa_read_long_mach pte_entry;
  mret (or_indet u32 r).

Definition get_pte_pae vaddr pgd : M world Z :=
  i ← gets inst;
  let pte_entry := u32 (ptba_base_pae pgd + pte_index i vaddr) in
  r ← xa_read_long_long_mach pte_entry;
  mret (or_indet u64 r).

(** page *)
Definition pte_pfn_nopae (pte : Z) : Z := Z.land pte 0xFFFFF000.
Definition pte_pfn_pae (pte : Z) : Z := Z.land pte 0xFFFFFF000.
Definition get_paddr_nopae vaddr pte : Z := Z.lor (pte_pfn_nopae pte) (Z.land vaddr 0xFFF).
Definition get_paddr_pae vaddr pte : Z := Z.lor (pte_pfn_pae pte) (Z.land vaddr 0xFFF).

(** the entry parameter is [uint32_t]: a 64-bit entry is truncated *)
Definition get_large_paddr (i : xa_instance) vaddr (pgd_entry : Z) : Z :=
  if pae i =? 0 then Z.lor (Z.land (u32 pgd_entry) 0xFFC00000) (Z.land vaddr 0x3FFFFF)
  else Z.lor (Z.land (u32 pgd_entry) 0xFFE00000) (Z.land vaddr 0x1FFFFF).

(** "buffalo" routines: the classification of an entry that is not present;
    the message that is printed, if any *)
Inductive buffalo_message :=
| PageFile (pfnum pfframe : Z)
| DemandZero
| InTransition
| PrototypeEntry
| EntryIsZero
| UnknownEntry.

Definition get_transition_bit (entry : Z) : bool := negb (xa_get_bit entry 11 =? 0).
Definition get_prototype_bit (entry : Z) : bool := negb (xa_get_bit entry 10 =? 0).

Definition buffalo_nopae (i : xa_instance) (entry pde : Z) : option buffalo_message :=
  (* if (!instance->os_type == XA_OS_WINDOWS) return; *)
  if (if os_type i =? 0 then 1 else 0) =? XA_OS_WINDOWS then None
  else if negb (get_transition_bit entry) && negb (get_prototype_bit entry) then
    let pfnum := Z.land (Z.shiftr entry 1) 0xF in
    let pfframe := Z.land entry 0xFFFFF000 in
    if negb (pfnum =? 0) && negb (pfframe =? 0) then Some (PageFile pfnum pfframe)
    else if (pfnum =? 0) && (pfframe =? 0) then Some DemandZero
    else None
  else if get_transition_bit entry && negb (get_prototype_bit entry) then Some InTransition
  else if (pde =? 0) && get_prototype_bit entry then Some PrototypeEntry
  else if entry =? 0 then Some EntryIsZero
  else Some UnknownEntry.

(** translation; the second component is what [buffalo_nopae] reports *)
Definition v2p_nopae_dbg (cr3 vaddr : Z) : M world (Z * option buffalo_message) :=
  i ← gets inst;
  pgd ← get_pgd_nopae vaddr cr3;
  if entry_present pgd then
    if page_size_flag pgd then mret (get_large_paddr i vaddr pgd, None)
    else
      pte ← get_pte_nopae vaddr pgd;
      if entry_present pte then mret (get_paddr_nopae vaddr pte, None)
      else mret (0, buffalo_nopae i pte 1)
  else mret (0, buffalo_nopae i pgd 0).

Definition v2p_nopae (cr3 vaddr : Z) : M world Z :=
  r ← v2p_nopae_dbg cr3 vaddr; mret r.1.

(** [paddr] is [uint32_t]: the 36-bit result is truncated *)
Definition v2p_pae (cr3 vaddr : Z) : M world Z :=
  i ← gets inst;
  pdpe ← get_pdpi vaddr cr3;
  if negb (entry_present pdpe) then mret 0
  else
    pgd ← get_pgd_pae vaddr pdpe;
    if entry_present pgd then
      if page_size_flag pgd then mret (get_large_paddr i vaddr pgd)
      else
        pte ← get_pte_pae vaddr pgd;
        if entry_present pte then mret (u32 (get_paddr_pae vaddr pte)) else mret 0
    else mret 0.

Definition xa_pagetable_lookup (cr3 vaddr : Z) : M world Z :=
  i ← gets inst;
  if negb (pae i =? 0) then v2p_pae cr3 vaddr else v2p_nopae cr3 vaddr.

(** [None] leaves the caller's variable as it was (XA_FAILURE, or a mode
    that is neither Xen nor file). *)
Definition xa_current_cr3 : M world (option Z) :=
  i ← gets inst;
  if mode i =? XA_MODE_XEN then
    match xc_vcpu_getcontext (domain_id (m_xen i)) with
    | None => mret None
    | Some ctrlreg => mret (Some (Z.land (u32 (ctrlreg 3)) 0xFFFFF000))
    end
  else if mode i =? XA_MODE_FILE then mret (Some (u32 (kpgd i - page_offset i)))
  else mret None.

(** [uint32_t cr3 = 0; xa_current_cr3(instance, &cr3);] *)
Definition cr3_or_zero : M world Z := r ← xa_current_cr3; mret (default 0 r).

Definition xa_translate_kv2p (virt_address : Z) : M world Z :=
  cr3 ← cr3_or_zero; xa_pagetable_lookup cr3 virt_address.
End Model.

(** ** The paging structures of the processor manual

    [rd n a] is the [n]-byte value at physical address [a], [None] when the
    frame cannot be read.  Fields are cut out with division and remainder. *)

Inductive walk := Unreadable | NotPresent | Phys (p : Z).

#[export] Instance walk_eq_dec : EqDecision walk.
Proof. solve_decision. Defined.

Section Arch.
Variable rd : nat -> Z -> option Z.

Definition follow (r : option Z) (k : Z -> walk) : walk :=
  match r with
  | None => Unreadable
  | Some e => if Z.testbit e 0 then k e else NotPresent
  end.

(** Two levels of 1024 entries, 4 KB and 4 MB pages. *)
Definition ia32_walk (cr3 v : Z) : walk :=
  follow (rd 4 (cr3 / 2 ^ 12 * 2 ^ 12 + 4 * (v / 2 ^ 22))) (fun pde =>
    if Z.testbit pde 7 then Phys (pde / 2 ^ 22 * 2 ^ 22 + v mod 2 ^ 22)
    else
      follow (rd 4 (pde / 2 ^ 12 * 2 ^ 12 + 4 * (v / 2 ^ 12 mod 2 ^ 10))) (fun pte =>
        Phys (pte / 2 ^ 12 * 2 ^ 12 + v mod 2 ^ 12))).

(** Four page directory pointers, then two levels of 512 eight-byte
    entries, 4 KB and 2 MB pages, 36-bit physical addresses.  [cut] is the
    width to which physical addresses are cut: the identity for the
    processor. *)
Definition frame36 (e : Z) : Z := e / 2 ^ 12 mod 2 ^ 24 * 2 ^ 12.

Definition pae_walk (cut : Z -> Z) (cr3 v : Z) : walk :=
  follow (rd 8 (cr3 / 2 ^ 5 * 2 ^ 5 + 8 * (v / 2 ^ 30))) (fun pdpe =>
    follow (rd 8 (cut (frame36 pdpe) + 8 * (v / 2 ^ 21 mod 2 ^ 9))) (fun pde =>
      if Z.testbit pde 7 then Phys (cut (frame36 pde) / 2 ^ 21 * 2 ^ 21 + v mod 2 ^ 21)
      else
        follow (rd 8 (cut (frame36 pde) + 8 * (v / 2 ^ 12 mod 2 ^ 9))) (fun pte =>
          Phys (cut (frame36 pte) + v mod 2 ^ 12)))).

(** The present entries that the processor reads on this walk, in order. *)
Definition walked (r : option Z) (k : Z -> list Z) : list Z :=
  match r with
  | Some e => if Z.testbit e 0 then e :: k e else []
  | None => []
  end.

Definition pae_path (cr3 v : Z) : list Z :=
  walked (rd 8 (cr3 / 2 ^ 5 * 2 ^ 5 + 8 * (v / 2 ^ 30))) (fun pdpe =>
    walked (rd 8 (frame36 pdpe + 8 * (v / 2 ^ 21 mod 2 ^ 9))) (fun pde =>
      if Z.testbit pde 7 then []
      else walked (rd 8 (frame36 pde + 8 * (v / 2 ^ 12 mod 2 ^ 9))) (fun _ => []))).

(** What the library returns for a walk: zero when there is no page. *)
Definition walk_paddr (r : walk) : Z := match r with Phys p => p | _ => 0 end.
End Arch.

Section Masks.
Lemma mask_page x : is_u32 x -> Z.land x 0xFFFFF000 = x / 2 ^ 12 * 2 ^ 12.
Proof. intros. by apply (land_high 32 12). Qed.
Lemma mask_4m x : is_u32 x -> Z.land x 0xFFC00000 = x / 2 ^ 22 * 2 ^ 22.
Proof. intros. by apply (land_high 32 22). Qed.
Lemma mask_2m x : is_u32 x -> Z.land x 0xFFE00000 = x / 2 ^ 21 * 2 ^ 21.
Proof. intros. by apply (land_high 32 21). Qed.
Lemma mask_pdpt x : is_u32 x -> Z.land x 0xFFFFFFE0 = x / 2 ^ 5 * 2 ^ 5.
Proof. intros. by apply (land_high 32 5). Qed.

Lemma mask_frame36 x : Z.land x 0xFFFFFF000 = frame36 x.
Proof.
  unfold frame36. rewrite <- Z.land_ones, <- Z.shiftr_div_pow2, <- Z.shiftl_mul_pow2 by lia.
  rewrite Z.shiftl_land. change (Z.shiftl (Z.ones 24) 12) with 0xFFFFFF000.
  apply Z.bits_inj'. intros n Hn. rewrite !Z.land_spec.
  destruct (Z.ltb_spec n 12).
  - assert (Z.testbit 0xFFFFFF000 n = false) as ->.
    { change 0xFFFFFF000 with (Z.shiftl (Z.ones 24) 12). rewrite Z.shiftl_spec by lia.
      apply Z.testbit_neg_r. lia. }
    by rewrite !andb_false_r.
  - rewrite Z.shiftl_spec, Z.shiftr_spec by lia. by replace (n - 12 + 12) with n by lia.
Qed.

Lemma low_bits x k n : 0 <= k -> n = Z.ones k -> Z.land x n = x mod 2 ^ k.
Proof. intros ? ->. by apply Z.land_ones. Qed.

Lemma present_testbit e : entry_present e = Z.testbit e 0.
Proof. unfold entry_present. rewrite xa_get_bit_spec by lia. by destruct (Z.testbit e 0). Qed.

Lemma large_testbit e : page_size_flag e = Z.testbit e 7.
Proof. unfold page_size_flag. rewrite xa_get_bit_spec by lia. by destruct (Z.testbit e 7). Qed.

Lemma div_range x k b : 0 < k -> 0 <= x < k * b -> 0 <= x / k < b.
Proof.
  intros. split; [apply Z.div_pos; lia|]. apply Z.div_lt_upper_bound; lia.
Qed.

(** A table entry: base aligned, offset inside the page, so the address does
    not wrap. *)
Lemma aligned_add b o : is_u32 b -> b mod 4096 = 0 -> 0 <= o < 4096 -> is_u32 (b + o).
Proof. intros Hb Hm Ho. apply Z.mod_divide in Hm as [q ->]; lia. Qed.

Lemma entry_in_page b s i :
  b mod 4096 = 0 -> 0 <= s * i -> s * i + s <= 4096 -> 0 < s ->
  (b + s * i) mod 4096 + s <= 4096.
Proof.
  intros Hb H1 H2 Hs. rewrite <- Z.add_mod_idemp_l, Hb, Z.add_0_l by lia.
  rewrite Z.mod_small; lia.
Qed.
End Masks.

(** ** The code walks the tables the manual defines *)

Section Walk.
Context {E : XenEnv} {W : WholePages}.
Implicit Types (w : world) (i : xa_instance).

(** Memory as the code sees it: a frame that cannot be mapped reads as the
    indeterminate value. *)
Definition rd_indet i (n : nat) (a : Z) : option Z :=
  Some (or_indet (fun z => z mod 256 ^ Z.of_nat n) (mem_read i n a)).

Lemma rd_indet_range i n a e : rd_indet i n a = Some e -> 0 <= e < 256 ^ Z.of_nat n.
Proof.
  unfold rd_indet, or_indet. intros [= <-].
  destruct (mem_read i n a) eqn:Em; [by eapply mem_read_range|].
  apply Z.mod_pos_bound. lia.
Qed.

Lemma read_mach_entry n a w :
  geometry (inst w) -> is_u32 a -> a mod 4096 + Z.of_nat n <= 4096 ->
  ((r ← (r ← xa_access_ma a PROT_READ; read_through n r);
    mret (or_indet (fun z => z mod 256 ^ Z.of_nat n) r)) w : result (Z * world)) =
  Ret (or_indet (fun z => z mod 256 ^ Z.of_nat n) (mem_read (inst w) n a), w).
Proof. intros. by erewrite bind_eq by by apply xa_read_mach_eq. Qed.

Lemma page_base_aligned x : x / 2 ^ 12 * 2 ^ 12 mod 4096 = 0.
Proof. apply (div_mul_mod x 4096). lia. Qed.

(** One lookup in a page-aligned table of [s]-byte entries. *)
Lemma table_lookup n b idx w (s := Z.of_nat n) :
  geometry (inst w) -> (0 < n)%nat ->
  is_u32 b -> b mod 4096 = 0 -> 0 <= s * idx -> s * idx + s <= 4096 ->
  ((r ← (r ← xa_access_ma (u32 (b + s * idx)) PROT_READ; read_through n r);
    mret (or_indet (fun z => z mod 256 ^ Z.of_nat n) r)) w : result (Z * world)) =
  Ret (or_indet (fun z => z mod 256 ^ Z.of_nat n) (mem_read (inst w) n (b + s * idx)), w).
Proof.
  intros Hg Hn Hb Ha H1 H2. assert (is_u32 (b + s * idx)) by (apply aligned_add; lia).
  rewrite u32_small by done. apply read_mach_entry; [done|done|].
  apply entry_in_page; lia.
Qed.

Lemma get_pgd_nopae_eq v e w :
  geometry (inst w) -> pae (inst w) = 0 -> is_u32 v -> is_u32 e ->
  get_pgd_nopae v e w =
  Ret (or_indet u32 (mem_read (inst w) 4 (e / 2 ^ 12 * 2 ^ 12 + 4 * (v / 2 ^ 22))), w).
Proof.
  intros Hg Hp Hv He. unfold get_pgd_nopae. erewrite bind_eq by done.
  unfold pdba_base_nopae, pgd_index. rewrite Hp, mask_page by done. simpl (0 =? 0).
  assert (Hi : 0 <= v / 2 ^ 22 < 1024) by (apply div_range; lia).
  rewrite (low_bits _ 10), Z.shiftr_div_pow2, (Z.mod_small (v / 2 ^ 22)) by (done || lia).
  rewrite (u32_small (_ * 4)), (Z.mul_comm _ 4) by lia.
  apply (table_lookup 4); try lia; [done|by apply div_mul_range|apply page_base_aligned].
Qed.

Lemma get_pte_nopae_eq v e w :
  geometry (inst w) -> pae (inst w) = 0 -> is_u32 v -> is_u32 e ->
  get_pte_nopae v e w =
  Ret (or_indet u32 (mem_read (inst w) 4 (e / 2 ^ 12 * 2 ^ 12 + 4 * (v / 2 ^ 12 mod 2 ^ 10))), w).
Proof.
  intros Hg Hp Hv He. unfold get_pte_nopae. erewrite bind_eq by done.
  unfold ptba_base_nopae, pte_index. rewrite Hp, mask_page by done. simpl (0 =? 0).
  rewrite (low_bits _ 10), Z.shiftr_div_pow2 by (done || lia).
  pose proof (Z.mod_pos_bound (v / 2 ^ 12) (2 ^ 10)).
  rewrite (u32_small (_ * 4)), (Z.mul_comm _ 4) by lia.
  apply (table_lookup 4); try lia; [done|by apply div_mul_range|apply page_base_aligned].
Qed.

Lemma large_paddr_nopae i v e :
  pae i = 0 -> is_u32 v -> is_u32 e ->
  get_large_paddr i v e = e / 2 ^ 22 * 2 ^ 22 + v mod 2 ^ 22.
Proof.
  intros Hp Hv He. unfold get_large_paddr. rewrite Hp, u32_small by done. simpl (0 =? 0).
  rewrite mask_4m, (low_bits v 22) by done. apply (lor_add _ _ 22); [done|..].
  - by apply div_mul_mod.
  - by apply Z.mod_pos_bound.
Qed.

Lemma paddr_nopae v e :
  is_u32 v -> is_u32 e -> get_paddr_nopae v e = e / 2 ^ 12 * 2 ^ 12 + v mod 2 ^ 12.
Proof.
  intros Hv He. unfold get_paddr_nopae, pte_pfn_nopae.
  rewrite mask_page, (low_bits v 12) by done. apply (lor_add _ _ 12); [done|..].
  - by apply div_mul_mod.
  - by apply Z.mod_pos_bound.
Qed.

Lemma rd_indet_4 i a : rd_indet i 4 a = Some (or_indet u32 (mem_read i 4 a)).
Proof. done. Qed.
Lemma rd_indet_8 i a : rd_indet i 8 a = Some (or_indet u64 (mem_read i 8 a)).
Proof. done. Qed.

Lemma v2p_nopae_dbg_eq c v w :
  geometry (inst w) -> pae (inst w) = 0 -> is_u32 c -> is_u32 v ->
  exists msg, v2p_nopae_dbg c v w =
    Ret ((walk_paddr (ia32_walk (rd_indet (inst w)) c v), msg), w).
Proof.
  intros Hg Hp Hc Hv. unfold v2p_nopae_dbg, ia32_walk, follow. rewrite rd_indet_4.
  erewrite bind_eq by done. erewrite bind_eq by by apply get_pgd_nopae_eq.
  set (pde := or_indet u32 _).
  assert (Hpde : is_u32 pde) by by eapply (rd_indet_range (inst w) 4).
  rewrite present_testbit, large_testbit.
  destruct (Z.testbit pde 0); [|by eexists].
  destruct (Z.testbit pde 7); [by rewrite large_paddr_nopae by done; eexists|].
  rewrite rd_indet_4. erewrite bind_eq by by apply get_pte_nopae_eq.
  set (pte := or_indet u32 _).
  assert (Hpte : is_u32 pte) by by eapply (rd_indet_range (inst w) 4).
  rewrite present_testbit. destruct (Z.testbit pte 0); [|by eexists].
  rewrite paddr_nopae by done. by eexists.
Qed.

(** The two-level walk, whatever can and cannot be mapped. *)
Lemma v2p_nopae_eq c v w :
  geometry (inst w) -> pae (inst w) = 0 -> is_u32 c -> is_u32 v ->
  v2p_nopae c v w = Ret (walk_paddr (ia32_walk (rd_indet (inst w)) c v), w).
Proof.
  intros Hg Hp Hc Hv. destruct (v2p_nopae_dbg_eq c v w) as [msg Em]; try done.
  unfold v2p_nopae. by erewrite bind_eq by exact Em.
Qed.

(** When every table on the way can be mapped, the indeterminate value
    plays no part. *)
Lemma follow_indet i n a k k' :
  follow (mem_read i n a) k <> Unreadable ->
  (forall e, mem_read i n a = Some e -> Z.testbit e 0 = true -> k e <> Unreadable -> k' e = k e) ->
  follow (rd_indet i n a) k' = follow (mem_read i n a) k.
Proof.
  unfold follow, rd_indet. destruct (mem_read i n a) as [e|]; [|done].
  cbn [or_indet]. destruct (Z.testbit e 0) eqn:Hb; [|done]. intros Hk H. by apply H.
Qed.

Lemma ia32_walk_indet i c v :
  ia32_walk (mem_read i) c v <> Unreadable ->
  ia32_walk (rd_indet i) c v = ia32_walk (mem_read i) c v.
Proof.
  intros H. apply follow_indet; [done|]. intros pde _ _ Hk.
  destruct (Z.testbit pde 7); [done|]. by apply follow_indet.
Qed.

Lemma pae_walk_indet cut i c v :
  pae_walk (mem_read i) cut c v <> Unreadable ->
  pae_walk (rd_indet i) cut c v = pae_walk (mem_read i) cut c v.
Proof.
  intros H. apply follow_indet; [done|]. intros pdpe _ _ Hk.
  apply follow_indet; [done|]. intros pde _ _ Hk'.
  destruct (Z.testbit pde 7); [done|]. by apply follow_indet.
Qed.
End Walk.

Section PaeWalk.
Context {E : XenEnv} {W : WholePages}.
Implicit Types (w : world) (i : xa_instance).

Ltac euclid := Z.to_euclidean_division_equations; lia.

Lemma frame36_u32 e : u32 (frame36 e) = u32 e / 2 ^ 12 * 2 ^ 12.
Proof.
  unfold u32, frame36.
  assert (e mod 4294967296 / 2 ^ 12 = e / 2 ^ 12 mod 2 ^ 20) as -> by euclid.
  change 4294967296 with (2 ^ 20 * 2 ^ 12). rewrite Z.mul_mod_distr_r by done. f_equal.
  change (2 ^ 24) with (2 ^ 20 * 2 ^ 4). rewrite Z.rem_mul_r by done.
  rewrite (Z.mul_comm (2 ^ 20)), Z.mod_add by done. by apply Z.mod_mod.
Qed.

Lemma frame36_aligned e : u32 (frame36 e) mod 4096 = 0.
Proof. rewrite frame36_u32. apply page_base_aligned. Qed.

Lemma u32_add_l a b : u32 (a + b) = u32 (u32 a + b).
Proof. unfold u32. by rewrite Z.add_mod_idemp_l. Qed.

Lemma get_pdpi_eq c v w :
  geometry (inst w) -> is_u32 v -> is_u32 c ->
  get_pdpi v c w =
  Ret (or_indet u64 (mem_read (inst w) 8 (c / 2 ^ 5 * 2 ^ 5 + 8 * (v / 2 ^ 30))), w).
Proof.
  intros Hg Hv Hc. unfold get_pdpi, get_pdptb, pdpi_index.
  rewrite mask_pdpt, Z.shiftr_div_pow2 by (done || lia).
  assert (Hi : 0 <= v / 2 ^ 30 < 4) by (apply div_range; lia).
  rewrite (u32_small (_ * 8)), (Z.mul_comm (v / 2 ^ 30) 8) by lia.
  assert (Hb : is_u32 (c / 2 ^ 5 * 2 ^ 5)) by by apply div_mul_range.
  assert (c / 2 ^ 5 * 2 ^ 5 mod 2 ^ 5 = 0) by by apply div_mul_mod.
  assert (is_u32 (c / 2 ^ 5 * 2 ^ 5 + 8 * (v / 2 ^ 30))) by euclid.
  rewrite u32_small by done. apply (read_mach_entry 8); [done|done|].
  set (b := c / 2 ^ 5 * 2 ^ 5) in *. set (o := 8 * (v / 2 ^ 30)) in *. euclid.
Qed.

(** One lookup in a table of eight-byte entries below a 36-bit base. *)
Lemma pae_table_lookup e idx w :
  geometry (inst w) -> 0 <= idx < 512 ->
  ((r ← xa_read_long_long_mach (u32 (frame36 e + 8 * idx)); mret (or_indet u64 r)) w
     : result (Z * world)) =
  Ret (or_indet u64 (mem_read (inst w) 8 (u32 (frame36 e) + 8 * idx)), w).
Proof.
  intros Hg Hi. rewrite u32_add_l.
  apply (table_lookup 8); try lia; [done|apply u32_range|apply frame36_aligned].
Qed.

Lemma pae_index v k :
  0 <= k -> u32 (Z.land (Z.shiftr v k) 0x1FF * 8) = 8 * (v / 2 ^ k mod 2 ^ 9) /\
  0 <= v / 2 ^ k mod 2 ^ 9 < 512.
Proof.
  intros Hk. rewrite (low_bits _ 9), Z.shiftr_div_pow2 by (done || lia).
  pose proof (Z.mod_pos_bound (v / 2 ^ k) (2 ^ 9)).
  rewrite u32_small by lia. lia.
Qed.

Lemma get_pgd_pae_eq v e w :
  geometry (inst w) -> pae (inst w) <> 0 ->
  get_pgd_pae v e w =
  Ret (or_indet u64 (mem_read (inst w) 8 (u32 (frame36 e) + 8 * (v / 2 ^ 21 mod 2 ^ 9))), w).
Proof.
  intros Hg Hp%Z.eqb_neq. unfold get_pgd_pae. erewrite bind_eq by done.
  unfold pdba_base_pae, pgd_index. rewrite Hp, mask_frame36.
  destruct (pae_index v 21) as [-> Hi]; [done|]. by apply pae_table_lookup.
Qed.

Lemma get_pte_pae_eq v e w :
  geometry (inst w) -> pae (inst w) <> 0 ->
  get_pte_pae v e w =
  Ret (or_indet u64 (mem_read (inst w) 8 (u32 (frame36 e) + 8 * (v / 2 ^ 12 mod 2 ^ 9))), w).
Proof.
  intros Hg Hp%Z.eqb_neq. unfold get_pte_pae. erewrite bind_eq by done.
  unfold ptba_base_pae, pte_index. rewrite Hp, mask_frame36.
  destruct (pae_index v 12) as [-> Hi]; [done|]. by apply pae_table_lookup.
Qed.

Lemma large_paddr_pae i v e :
  pae i <> 0 ->
  get_large_paddr i v e = u32 (frame36 e) / 2 ^ 21 * 2 ^ 21 + v mod 2 ^ 21.
Proof.
  intros Hp%Z.eqb_neq. unfold get_large_paddr. rewrite Hp.
  rewrite mask_2m, (low_bits v 21) by (done || apply u32_range).
  rewrite (lor_add _ _ 21); [|done|by apply div_mul_mod|by apply Z.mod_pos_bound].
  rewrite frame36_u32. f_equal. f_equal.
  change (2 ^ 21) with (2 ^ 12 * 2 ^ 9). rewrite <- !Z.div_div by done.
  by rewrite Z.div_mul.
Qed.

Lemma paddr_pae v e : u32 (get_paddr_pae v e) = u32 (frame36 e) + v mod 2 ^ 12.
Proof.
  unfold get_paddr_pae, pte_pfn_pae. rewrite mask_frame36, (low_bits v 12) by done.
  rewrite (lor_add _ _ 12); [|done|by apply Z.mod_mul|by apply Z.mod_pos_bound].
  rewrite u32_add_l. apply u32_small, aligned_add;
    [apply u32_range|apply frame36_aligned|by apply Z.mod_pos_bound].
Qed.

(** The three-level walk, with physical addresses cut to 32 bits. *)
Lemma v2p_pae_eq c v w :
  geometry (inst w) -> pae (inst w) <> 0 -> is_u32 c -> is_u32 v ->
  v2p_pae c v w = Ret (walk_paddr (pae_walk (rd_indet (inst w)) u32 c v), w).
Proof.
  intros Hg Hp Hc Hv. unfold v2p_pae, pae_walk, follow. rewrite rd_indet_8.
  erewrite bind_eq by done. erewrite bind_eq by by apply get_pdpi_eq.
  set (pdpe := or_indet u64 _). rewrite present_testbit.
  destruct (Z.testbit pdpe 0); [|done]. cbn [negb].
  rewrite rd_indet_8. erewrite bind_eq by by apply get_pgd_pae_eq.
  set (pde := or_indet u64 _). rewrite present_testbit, large_testbit.
  destruct (Z.testbit pde 0); [|done].
  destruct (Z.testbit pde 7); [by rewrite large_paddr_pae by done|].
  rewrite rd_indet_8. erewrite bind_eq by by apply get_pte_pae_eq.
  set (pte := or_indet u64 _). rewrite present_testbit.
  destruct (Z.testbit pte 0); [|done]. by rewrite paddr_pae.
Qed.

(** The entries that the walk for [v] meets point below 4 GB. *)
Definition low_frames (rd : nat -> Z -> option Z) (c v : Z) : Prop :=
  Forall (fun e => frame36 e < 2 ^ 32) (pae_path rd c v).

Lemma frame36_low e : frame36 e < 2 ^ 32 -> u32 (frame36 e) = frame36 e.
Proof.
  intros H. apply u32_small. split; [|done]. unfold frame36.
  pose proof (Z.mod_pos_bound (e / 2 ^ 12) (2 ^ 24)). lia.
Qed.

Lemma follow_walked P r k k' path :
  Forall P (walked r path) -> (forall e, P e -> Forall P (path e) -> k e = k' e) -> follow r k = follow r k'.
Proof.
  intros HP H. unfold follow, walked in *. destruct r as [e|]; [|done]. destruct (Z.testbit e 0); [|done].
  apply list.Forall_cons in HP as [? ?]. by apply H.
Qed.

Lemma pae_walk_cut rd c v :
  low_frames rd c v -> pae_walk rd u32 c v = pae_walk rd id c v.
Proof.
  intros Hl. unfold pae_walk. eapply follow_walked; [exact Hl|]. intros pdpe Ed%frame36_low Hpdpe.
  rewrite Ed. eapply follow_walked; [exact Hpdpe|]. intros pde Et%frame36_low Hpde. cbn beta in Hpde.
  rewrite Et. destruct (Z.testbit pde 7); [done|].
  eapply follow_walked; [exact Hpde|]. intros pte Ep%frame36_low _. by rewrite Ep.
Qed.
End PaeWalk.

(** ** Translation as a function of the guest's memory *)

Section Translate.
Context {E : XenEnv} {W : WholePages}.
Implicit Types (w : world) (i : xa_instance).

Definition pt_lookup i (c v : Z) : Z :=
  walk_paddr (if pae i =? 0 then ia32_walk (rd_indet i) c v
              else pae_walk (rd_indet i) u32 c v).

Definition current_cr3 i : option Z :=
  if mode i =? XA_MODE_XEN then
    ctrlreg ← xc_vcpu_getcontext (domain_id (m_xen i));
    Some (Z.land (u32 (ctrlreg 3)) 0xFFFFF000)
  else if mode i =? XA_MODE_FILE then Some (u32 (kpgd i - page_offset i))
  else None.

(** The physical address of a kernel virtual address, zero if none. *)
Definition kv2p i (v : Z) : Z := pt_lookup i (default 0 (current_cr3 i)) v.

Lemma xa_pagetable_lookup_eq c v w :
  geometry (inst w) -> is_u32 c -> is_u32 v ->
  xa_pagetable_lookup c v w = Ret (pt_lookup (inst w) c v, w).
Proof.
  intros Hg Hc Hv. unfold xa_pagetable_lookup, pt_lookup. erewrite bind_eq by done.
  destruct (Z.eqb_spec (pae (inst w)) 0); simpl.
  - by apply v2p_nopae_eq.
  - by apply v2p_pae_eq.
Qed.

Lemma cr3_or_zero_eq w : cr3_or_zero w = Ret (default 0 (current_cr3 (inst w)), w).
Proof.
  unfold cr3_or_zero, xa_current_cr3, current_cr3, mbind, M_bind, gets. simpl.
  destruct (mode (inst w) =? XA_MODE_XEN).
  - by destruct (xc_vcpu_getcontext _).
  - by destruct (mode (inst w) =? XA_MODE_FILE).
Qed.

Lemma current_cr3_u32 i : is_u32 (default 0 (current_cr3 i)).
Proof.
  unfold current_cr3. destruct (mode i =? XA_MODE_XEN).
  - destruct (xc_vcpu_getcontext _) as [r|]; simpl; [|lia].
    rewrite mask_page by apply u32_range. apply div_mul_range; [done|apply u32_range].
  - destruct (mode i =? XA_MODE_FILE); simpl; [apply u32_range|lia].
Qed.

Lemma xa_translate_kv2p_eq v w :
  geometry (inst w) -> is_u32 v ->
  xa_translate_kv2p v w = Ret (kv2p (inst w) v, w).
Proof.
  intros Hg Hv. unfold xa_translate_kv2p. erewrite bind_eq by apply cr3_or_zero_eq.
  apply xa_pagetable_lookup_eq; [done|apply current_cr3_u32|done].
Qed.

(** Translation keeps the offset in the page and yields 32-bit addresses. *)
Lemma split_add b k v :
  12 <= k -> k <= 32 -> is_u32 b ->
  is_u32 (b / 2 ^ k * 2 ^ k + v mod 2 ^ k) /\
  (b / 2 ^ k * 2 ^ k + v mod 2 ^ k) mod 4096 = v mod 4096.
Proof.
  intros Hk Hk' Hb. assert (Hp : 2 ^ k = 2 ^ 12 * 2 ^ (k - 12)).
  { rewrite <- Z.pow_add_r by lia. f_equal. lia. }
  assert (Hw : 4294967296 = 2 ^ k * 2 ^ (32 - k)).
  { rewrite <- Z.pow_add_r by lia. by replace (k + (32 - k)) with 32 by lia. }
  assert (0 < 2 ^ k) by (apply Z.pow_pos_nonneg; lia).
  pose proof (Z.mod_pos_bound v (2 ^ k)). split.
  - assert (0 <= b / 2 ^ k < 2 ^ (32 - k)) by (apply div_range; lia). nia.
  - rewrite Hp. rewrite Z.rem_mul_r by lia. change (2 ^ 12) with 4096.
    set (q := b / _). replace (q * (4096 * 2 ^ (k - 12)) + _)
      with (v mod 4096 + (q * 2 ^ (k - 12) + v / 4096 mod 2 ^ (k - 12)) * 4096) by lia.
    rewrite Z.mod_add, Z.mod_mod by lia. done.
Qed.

Lemma follow_Phys r k p :
  follow r k = Phys p -> exists e, r = Some e /\ Z.testbit e 0 = true /\ k e = Phys p.
Proof.
  unfold follow. destruct r as [e|]; [|done]. destruct (Z.testbit e 0) eqn:Hb; [|done]. eauto.
Qed.

Lemma walk_Phys_ia32 rd c v p :
  (forall a e, rd 4%nat a = Some e -> is_u32 e) ->
  ia32_walk rd c v = Phys p -> is_u32 p /\ p mod 4096 = v mod 4096.
Proof.
  intros Hrd (pde & E1 & _ & Hk)%follow_Phys. destruct (Z.testbit pde 7).
  - injection Hk as <-. apply split_add; [done|done|by eapply Hrd].
  - apply follow_Phys in Hk as (pte & E2 & _ & [= <-]).
    apply split_add; [done|done|by eapply Hrd].
Qed.

Lemma walk_Phys_pae rd c v p :
  pae_walk rd u32 c v = Phys p -> is_u32 p /\ p mod 4096 = v mod 4096.
Proof.
  intros (pdpe & _ & _ & (pde & _ & _ & Hk)%follow_Phys)%follow_Phys.
  destruct (Z.testbit pde 7).
  - injection Hk as <-. apply split_add; [done|done|apply u32_range].
  - apply follow_Phys in Hk as (pte & _ & _ & [= <-]).
    rewrite frame36_u32. apply split_add; [done|done|apply u32_range].
Qed.

Lemma pt_lookup_spec i c v :
  is_u32 (pt_lookup i c v) /\ (pt_lookup i c v <> 0 -> pt_lookup i c v mod 4096 = v mod 4096).
Proof.
  unfold pt_lookup. destruct (pae i =? 0).
  - destruct (ia32_walk _ c v) as [| |p] eqn:Ew; simpl; [lia|lia|].
    apply walk_Phys_ia32 in Ew as [? ?]; [by split|].
    intros a e He. exact (rd_indet_range i 4 a e He).
  - destruct (pae_walk _ _ c v) as [| |p] eqn:Ew; simpl; [lia|lia|].
    apply walk_Phys_pae in Ew as [? ?]. by split.
Qed.
End Translate.

(** ** Walks map whole pages *)

Section Pages.
Context {E : XenEnv} {W : WholePages}.

Definition walk_shift (r : walk) (o : Z) : walk :=
  match r with Phys p => Phys (p + o) | _ => r end.

Lemma follow_shift r k k' o :
  (forall e, k e = walk_shift (k' e) o) -> follow r k = walk_shift (follow r k') o.
Proof.
  intros H. unfold follow. destruct r as [e|]; [|done]. by destruct (Z.testbit e 0).
Qed.

Lemma page_arith b o k :
  b mod 2 ^ 12 = 0 -> 0 <= o < 2 ^ 12 -> 12 <= k ->
  (b + o) / 2 ^ k = b / 2 ^ k /\ (b + o) mod 2 ^ k = b mod 2 ^ k + o.
Proof.
  intros Hb Ho Hk. assert (Hp : 2 ^ k = 2 ^ 12 * 2 ^ (k - 12)).
  { rewrite <- Z.pow_add_r by lia. f_equal. lia. }
  assert (0 < 2 ^ (k - 12)) by (apply Z.pow_pos_nonneg; lia).
  apply Z.mod_divide in Hb as [q ->]; [|done].
  assert ((q * 2 ^ 12 + o) / 2 ^ k = q * 2 ^ 12 / 2 ^ k) as Hd.
  { rewrite Hp, <- !Z.div_div by lia. rewrite Z.div_add_l, Z.div_mul by lia.
    by rewrite (Z.div_small o), Z.add_0_r by lia. }
  split; [done|]. rewrite !Z.mod_eq, Hd by lia. lia.
Qed.

Lemma ia32_walk_page rd c b o :
  b mod 2 ^ 12 = 0 -> 0 <= o < 2 ^ 12 ->
  ia32_walk rd c (b + o) = walk_shift (ia32_walk rd c b) o.
Proof.
  intros Hb Ho. unfold ia32_walk.
  destruct (page_arith b o 22 Hb Ho) as [-> ->]; [done|].
  destruct (page_arith b o 12 Hb Ho) as [-> ->]; [done|].
  apply follow_shift. intros pde. destruct (Z.testbit pde 7).
  - simpl. by rewrite Z.add_assoc.
  - apply follow_shift. intros pte. simpl. by rewrite Z.add_assoc.
Qed.

Lemma pae_walk_page rd cut c b o :
  b mod 2 ^ 12 = 0 -> 0 <= o < 2 ^ 12 ->
  pae_walk rd cut c (b + o) = walk_shift (pae_walk rd cut c b) o.
Proof.
  intros Hb Ho. unfold pae_walk.
  destruct (page_arith b o 30 Hb Ho) as [-> _]; [done|].
  destruct (page_arith b o 21 Hb Ho) as [-> ->]; [done|].
  destruct (page_arith b o 12 Hb Ho) as [-> ->]; [done|].
  apply follow_shift. intros pdpe. apply follow_shift. intros pde. destruct (Z.testbit pde 7).
  - simpl. by rewrite Z.add_assoc.
  - apply follow_shift. intros pte. simpl. by rewrite Z.add_assoc.
Qed.

(** A page that translates at one offset translates at every offset. *)
Lemma pt_lookup_page i c b o a :
  b mod 4096 = 0 -> 0 <= o < 4096 -> pt_lookup i c (b + o) = a -> a <> 0 ->
  is_u32 (a - o) /\ (a - o) mod 4096 = 0 /\
  forall o', 0 <= o' < 4096 -> pt_lookup i c (b + o') = (a - o) + o'.
Proof.
  intros Hb Ho Ha Ha0.
  assert (Hs : forall o', 0 <= o' < 4096 -> pt_lookup i c (b + o') =
    walk_paddr (walk_shift (if pae i =? 0 then ia32_walk (rd_indet i) c b
                            else pae_walk (rd_indet i) u32 c b) o')).
  { intros o' Ho'. unfold pt_lookup. destruct (pae i =? 0).
    - by rewrite ia32_walk_page.
    - by rewrite pae_walk_page. }
  assert (exists p, is_u32 p /\ p mod 4096 = 0 /\
    forall o', 0 <= o' < 4096 -> pt_lookup i c (b + o') = p + o') as (p & Hp & Hpm & Hall).
  { destruct (if pae i =? 0 then _ else _) as [| |p] eqn:Ew.
    1,2: rewrite Hs in Ha by done; simpl in Ha; congruence.
    exists p. split; [|split].
    - destruct (pt_lookup_spec i c (b + 0)) as [Hr _]. rewrite Hs in Hr by done.
      simpl in Hr. by rewrite Z.add_0_r in Hr.
    - destruct (decide (p = 0)) as [->|]; [done|].
      destruct (pt_lookup_spec i c (b + 0)) as [_ Hr]. rewrite Hs in Hr by done.
      simpl in Hr. rewrite !Z.add_0_r in Hr. rewrite <- Hb. by apply Hr.
    - intros o' Ho'. by rewrite Hs. }
  rewrite Hall in Ha by done. replace (a - o) with p by lia. done.
Qed.
End Pages.

(** ** Properties *)

Section Properties.
Context {E : XenEnv} {W : WholePages}.
Implicit Types (w : world).

(** C1: without PAE, [xa_pagetable_lookup] returns exactly the physical
    address the processor's two-level walk gives, or zero when the walk
    meets an entry that is not present; it terminates, and it leaves the
    state, the live mappings included, as it was. *)
Theorem lookup_is_ia32_walk c v w :
  geometry (inst w) -> pae (inst w) = 0 -> is_u32 c -> is_u32 v ->
  ia32_walk (mem_read (inst w)) c v <> Unreadable ->
  xa_pagetable_lookup c v w = Ret (walk_paddr (ia32_walk (mem_read (inst w)) c v), w).
Proof.
  intros Hg Hp Hc Hv Hw. rewrite xa_pagetable_lookup_eq by done.
  unfold pt_lookup. rewrite Hp. by rewrite ia32_walk_indet.
Qed.

(** C8: with PAE, when the entries that the walk for this address meets point
    below 4 GB ([low_frames]; [v2p_pae_truncates] says what happens otherwise),
    [xa_pagetable_lookup] returns exactly what the processor's three-level
    walk gives, or zero, and leaves the state as it was. *)
Theorem lookup_is_pae_walk c v w :
  geometry (inst w) -> pae (inst w) <> 0 -> is_u32 c -> is_u32 v ->
  low_frames (mem_read (inst w)) c v ->
  pae_walk (mem_read (inst w)) id c v <> Unreadable ->
  xa_pagetable_lookup c v w = Ret (walk_paddr (pae_walk (mem_read (inst w)) id c v), w).
Proof.
  intros Hg Hp%Z.eqb_neq Hc Hv Hl Hw. rewrite xa_pagetable_lookup_eq by done.
  unfold pt_lookup. rewrite Hp, pae_walk_indet, pae_walk_cut; [done|done|].
  by rewrite pae_walk_cut.
Qed.

(** C29: [xa_translate_kv2p] terminates on every guest memory and every page
    table, readable or not; the address it returns fits in 32 bits, keeps
    the offset of the virtual address in its page (unless it is zero, "no
    page"), and no mapping stays open. *)
Theorem translate_kv2p_total v w :
  geometry (inst w) -> is_u32 v ->
  exists a, xa_translate_kv2p v w = Ret (a, w) /\ is_u32 a /\
            (a <> 0 -> a mod 4096 = v mod 4096).
Proof.
  intros Hg Hv. exists (kv2p (inst w) v). rewrite xa_translate_kv2p_eq by done.
  split; [done|]. apply pt_lookup_spec.
Qed.
End Properties.

(** The guard of [buffalo_nopae] never fires: an entry is reported in the
    same way whatever the guest's operating system is, although the function
    means to report for Windows guests only. *)
Theorem buffalo_ignores_os i i' entry pde :
  buffalo_nopae i entry pde = buffalo_nopae i' entry pde.
Proof.
  unfold buffalo_nopae. destruct (os_type i =? 0), (os_type i' =? 0); reflexivity.
Qed.

(** The flag [v2p_nopae] passes to [buffalo_nopae] is inverted: no page
    table entry is ever reported as a prototype entry, and an absent page
    directory entry with the prototype bit (and without the transition bit)
    always is. *)
Theorem buffalo_flag_inverted i entry :
  buffalo_nopae i entry 1 <> Some PrototypeEntry /\
  (Z.testbit entry 10 = true -> Z.testbit entry 11 = false ->
   buffalo_nopae i entry 0 = Some PrototypeEntry).
Proof.
  unfold buffalo_nopae.
  assert (((if os_type i =? 0 then 1 else 0) =? XA_OS_WINDOWS) = false) as ->
    by by destruct (os_type i =? 0).
  split; [case_all; done|]. intros H10 H11.
  unfold get_transition_bit, get_prototype_bit. rewrite !xa_get_bit_spec by lia.
  by rewrite H10, H11.
Qed.

(** PAE addresses above 4 GB are cut to 32 bits: there is a guest whose
    processor maps a page at 2^32 + 0x3000 and for which the library answers
    0x3010 for an address in that page. *)
Theorem v2p_pae_truncates :
  exists img c v, let i := guest_inst 0 1 in
    @pae_walk (@mem_read (guest_env img) i) id c v = Phys 0x100003010 /\
    @v2p_pae (guest_env img) c v (guest_world i) = Ret (0x3010, guest_world i).
Proof.
  exists [(0x1018, 0x4001); (0x4008, 0x5001); (0x5000, 0x3001); (0x5004, 1)], 0x1000, 0xC0200010.
  split; vm_compute; reflexivity.
Qed.

Lemma lookup_is_ia32_walk_witness :
  @xa_pagetable_lookup (guest_env flat_image) 0x1000 0x400010 (guest_world (guest_inst 0 0)) =
  Ret (0x3010, guest_world (guest_inst 0 0)).
Proof.
  refine (eq_trans (@lookup_is_ia32_walk (guest_env flat_image) (guest_whole _) 0x1000 0x400010
    (guest_world (guest_inst 0 0)) (guest_geometry 0 0) eq_refl _ _ _) _).
  - lia.
  - lia.
  - vm_compute. discriminate.
  - vm_compute. reflexivity.
Defined.

Lemma translate_kv2p_total_witness :
  exists a, @xa_translate_kv2p (guest_env flat_image) 0xC0003010 (guest_world (guest_inst 0 0)) =
    Ret (a, guest_world (guest_inst 0 0)) /\ is_u32 a /\ (a <> 0 -> a mod 4096 = 0x10).
Proof.
  apply (@translate_kv2p_total (guest_env flat_image) (guest_whole _) 0xC0003010
           (guest_world (guest_inst 0 0)) (guest_geometry 0 0)). lia.
Defined.

Lemma lookup_is_pae_walk_witness :
  @xa_pagetable_lookup (guest_env pae_image) 0x1000 0xC0200010 (guest_world (guest_inst 0 1)) =
  Ret (0x3010, guest_world (guest_inst 0 1)).
Proof.
  refine (eq_trans (@lookup_is_pae_walk (guest_env pae_image) (guest_whole _) 0x1000 0xC0200010
    (guest_world (guest_inst 0 1)) (guest_geometry 0 1) _ _ _ _ _) _).
  - discriminate.
  - lia.
  - lia.
  - apply (bool_decide_eq_true_1 _). vm_compute. reflexivity.
  - vm_compute. discriminate.
  - vm_compute. reflexivity.
Defined.

Lemma buffalo_flag_inverted_witness :
  Z.testbit 0x400 10 = true /\ buffalo_nopae (guest_inst 1 0) 0x400 0 = Some PrototypeEntry.
Proof.
  split; [reflexivity|].
  apply (proj2 (buffalo_flag_inverted (guest_inst 1 0) 0x400)); vm_compute; reflexivity.
Defined.
