(* ===== verification/XaCache.v ===== *)
(** * The address cache and the pid cache

    Models xa_cache.c on the node heap of Dll.v, states what a cache is as a
    function on a list of entries, and proves that the pointer code computes
    that function ([Refine] and [RefinePid]) and what follows from it. *)

From Stdlib Require Import String.
From S2P Require Import Prelude CStr Dll XaTypes XaMap Guest PageTable.

(** ** Field updates *)

Definition touch (now : Z) (e : xa_cache_entry) : xa_cache_entry :=
  CacheEntry now (symbol_name e) (virt_address e) (mach_address e) (pid e).

Definition p_touch (now : Z) (e : xa_pid_cache_entry) : xa_pid_cache_entry :=
  PidCacheEntry now (p_pid e) (pgd e).

(** The text of an entry's name. *)
Definition name_of (e : xa_cache_entry) : cstr := s_text (symbol_name e).

Section Model.
Context {E : XenEnv}.

(** [addr & ~(instance->page_size - 1)] and [addr & (instance->page_size - 1)] *)
Definition page_of (i : xa_instance) (a : Z) : Z :=
  Z.land a (u32 (Z.lnot (u32 (page_size i - 1)))).
Definition page_off (i : xa_instance) (a : Z) : Z := Z.land a (u32 (page_size i - 1)).

Definition sym_matches (name : cstr) (e : xa_cache_entry) : bool :=
  strncmp (name_of e) name MAX_SYM_LEN =? 0.

Definition sym_hit (name : cstr) (p : Z) (e : xa_cache_entry) : bool :=
  sym_matches name e && (pid e =? p) && negb (mach_address e =? 0).

Definition virt_hit (lookup p : Z) (e : xa_cache_entry) : bool :=
  if virt_address e =? 0 then false (* continue *)
  else (virt_address e =? lookup) && (pid e =? p) && negb (mach_address e =? 0).

(** A walk that compares the names: each name that is looked at is read. *)
Definition find_named (test : xa_cache_entry -> bool) (n : nat) (p : option loc) : M world (option loc) :=
  iter n (fun cur =>
    match cur with
    | None => mret (inr None)
    | Some l => node ← on_cache (deref cur);
                _ ← use_string (symbol_name (payload node));
                if test (payload node) then mret (inr (Some l))
                else mret (inl (next node))
    end) p.

(** Returns [*mach_address] on a hit ([ret = 1]) and [None] on a miss. *)
Definition xa_check_cache_sym (name : cstr) (p : Z) : M world (option Z) :=
  d ← gets cache;
  r ← find_named (sym_hit name p) (fuel d) (head d);
  match r with
  | None => mret None
  | Some _ =>
      now ← time_now;
      _ ← on_cache (store r (set_payload (touch now)));
      n ← on_cache (deref r);
      mret (Some (mach_address (payload n)))
  end.

Definition xa_check_cache_virt (virt p : Z) : M world (option Z) :=
  i ← gets inst;
  let lookup := page_of i virt in
  d ← gets cache;
  r ← on_cache (find_from (virt_hit lookup p) (fuel d) (head d));
  match r with
  | None => mret None
  | Some _ =>
      now ← time_now;
      _ ← on_cache (store r (set_payload (touch now)));
      n ← on_cache (deref r);
      mret (Some (Z.lor (mach_address (payload n)) (page_off i virt)))
  end.

(** [if (mach_address) mach_address else xa_translate_kv2p(instance, virt)] *)
Definition mach_or_translate (virt mach : Z) : M world Z :=
  if negb (mach =? 0) then mret mach else xa_translate_kv2p virt.

(** First part of [xa_update_cache]: an entry with that name is refreshed. *)
Definition update_by_symbol (name : cstr) (virt p mach : Z) : M world bool :=
  d ← gets cache;
  r ← find_named (sym_matches name) (fuel d) (head d);
  match r with
  | None => mret false
  | Some _ =>
      now ← time_now;
      _ ← on_cache (store r (set_payload (fun e =>
            CacheEntry now (symbol_name e) 0 (mach_address e) p)));
      ma ← mach_or_translate virt mach;
      _ ← on_cache (store r (set_payload (fun e =>
            CacheEntry (last_used e) (symbol_name e) (virt_address e) ma (pid e))));
      mret true
  end.

(** Second part: an entry for that page is refreshed, whatever its pid. *)
Definition update_by_virt (vlookup mlookup p : Z) : M world bool :=
  d ← gets cache;
  r ← on_cache (find_from (fun e => virt_address e =? vlookup) (fuel d) (head d));
  match r with
  | None => mret false
  | Some _ =>
      now ← time_now;
      _ ← on_cache (store r (set_payload (fun e =>
            CacheEntry now (symbol_name e) (virt_address e) mlookup p)));
      mret true
  end.

(** Third part: the least recently used entry makes room; its name is freed,
    then the entry. *)
Definition evict_oldest : M world unit :=
  d ← gets cache;
  oldest ← on_cache (oldest_from (fun x y => last_used x <? last_used y) (fuel d) (head d));
  _ ← on_cache (unlink oldest);
  node ← on_cache (deref oldest);
  _ ← free_string (symbol_name (payload node));
  on_cache (release oldest).

(** Last part: a new entry at the end of the list. *)
Definition add_entry (name : option cstr) (virt vlookup mlookup p mach : Z) : M world unit :=
  now ← time_now;
  e ← (match name with
       | Some s =>
           copy ← new_string (strndup s MAX_SYM_LEN);
           ma ← mach_or_translate virt mach;
           mret (CacheEntry now copy 0 ma p)
       | None =>
           copy ← new_string (strndup [] MAX_SYM_LEN);
           mret (CacheEntry now copy vlookup mlookup p)
       end : M world xa_cache_entry);
  on_cache (push e).

Definition xa_update_cache (name : option cstr) (virt p mach : Z) : M world Z :=
  i ← gets inst;
  let vlookup := page_of i virt in
  let mlookup := page_of i mach in
  if XA_CACHE_SIZE =? 0 then mret 1
  else
    by_sym ← (match name with
              | Some s => update_by_symbol s virt p mach
              | None => mret false
              end : M world bool);
    if (by_sym : bool) then mret 1
    else
      by_virt ← (if negb (virt =? 0) then update_by_virt vlookup mlookup p
                 else mret false : M world bool);
      if (by_virt : bool) then mret 1
      else
        match name, virt =? 0 with
        | None, true => mret 1 (* spurious call with bad info *)
        | _, _ =>
            d ← gets cache;
            _ ← (if XA_CACHE_SIZE <=? count d then evict_oldest else mret tt : M world unit);
            _ ← add_entry name virt vlookup mlookup p mach;
            mret 1
        end.

(** Only the nodes are freed, not the names. *)
Definition xa_destroy_cache : M world Z :=
  d ← gets cache;
  _ ← on_cache (free_from (fuel d) (head d));
  _ ← on_cache (modify (with_head None));
  _ ← on_cache (modify (with_tail None));
  _ ← on_cache (modify (with_count 0));
  mret 0.

(** *** PID to PGD cache *)

Definition xa_check_pid_cache_helper (p : Z) : M world (option loc) :=
  d ← gets pid_cache;
  r ← on_pid_cache (find_from (fun e => p_pid e =? p) (fuel d) (head d));
  match r with
  | None => mret None
  | Some _ =>
      now ← time_now;
      _ ← on_pid_cache (store r (set_payload (p_touch now)));
      mret r
  end.

Definition xa_check_pid_cache (p : Z) : M world (option Z) :=
  search ← xa_check_pid_cache_helper p;
  match search with
  | None => mret None
  | Some _ => n ← on_pid_cache (deref search); mret (Some (pgd (payload n)))
  end.

Definition evict_oldest_pid : M world unit :=
  d ← gets pid_cache;
  oldest ← on_pid_cache (oldest_from (fun x y => p_last_used x <? p_last_used y)
                           (fuel d) (head d));
  on_pid_cache (evict oldest).

Definition xa_update_pid_cache (p g : Z) : M world Z :=
  if XA_PID_CACHE_SIZE =? 0 then mret 1
  else if p =? 0 then mret 1 (* spurious call with bad info *)
  else
    search ← xa_check_pid_cache_helper p;
    match search with
    | Some _ =>
        _ ← on_pid_cache (store search (set_payload (fun e =>
              PidCacheEntry (p_last_used e) (p_pid e) g)));
        mret 1
    | None =>
        d ← gets pid_cache;
        _ ← (if XA_PID_CACHE_SIZE <=? count d then evict_oldest_pid
             else mret tt : M world unit);
        now ← time_now;
        _ ← on_pid_cache (push (PidCacheEntry now p g));
        mret 1
    end.

Definition xa_destroy_pid_cache : M world Z :=
  d ← gets pid_cache;
  _ ← on_pid_cache (free_from (fuel d) (head d));
  _ ← on_pid_cache (modify (with_head None));
  _ ← on_pid_cache (modify (with_tail None));
  _ ← on_pid_cache (modify (with_count 0));
  mret 0.
End Model.

(** ** The caches as functions on lists of entries *)

Section Spec.
(** A lookup: the first hit, marked as used now. *)
Definition spec_check (hit : xa_cache_entry -> bool) (now : Z) (l : list xa_cache_entry)
  : option xa_cache_entry * list xa_cache_entry :=
  match split_first hit l with
  | Some (pre, e, post) => (Some e, pre ++ touch now e :: post)
  | None => (None, l)
  end.

(** Room for one more entry: at capacity the least recently used goes. *)
Definition make_room {A} (key : A -> Z) (cap : nat) (l : list A) : list A :=
  if (cap <=? length l)%nat then
    match split_min key l with
    | Some (pre, _, post) => pre ++ post
    | None => l
    end
  else l.

(** An update: refresh the entry of that name, else the entry of that page,
    else add a new entry.  [ma] is the machine address for a symbol, [b] the
    block a new name is put in. *)
Definition spec_update (b : loc) (name : option cstr) (virt vlookup mlookup p ma now : Z)
    (l : list xa_cache_entry) : list xa_cache_entry :=
  let by_virt :=
    if virt =? 0 then None else split_first (fun e => virt_address e =? vlookup) l in
  match name with
  | Some s =>
      match split_first (sym_matches s) l with
      | Some (pre, e, post) => pre ++ CacheEntry now (symbol_name e) 0 ma p :: post
      | None =>
          match by_virt with
          | Some (pre, e, post) =>
              pre ++ CacheEntry now (symbol_name e) (virt_address e) mlookup p :: post
          | None => make_room last_used 25 l ++
                      [CacheEntry now (OwnedString b (strndup s MAX_SYM_LEN)) 0 ma p]
          end
      end
  | None =>
      match by_virt with
      | Some (pre, e, post) =>
          pre ++ CacheEntry now (symbol_name e) (virt_address e) mlookup p :: post
      | None => if virt =? 0 then l
                else make_room last_used 25 l ++ [CacheEntry now (OwnedString b []) vlookup mlookup p]
      end
  end.

Definition spec_pid_check (now p : Z) (l : list xa_pid_cache_entry)
  : option Z * list xa_pid_cache_entry :=
  match split_first (fun e => p_pid e =? p) l with
  | Some (pre, e, post) => (Some (pgd e), pre ++ p_touch now e :: post)
  | None => (None, l)
  end.

Definition spec_pid_update (now p g : Z) (l : list xa_pid_cache_entry)
  : list xa_pid_cache_entry :=
  if p =? 0 then l
  else match split_first (fun e => p_pid e =? p) l with
       | Some (pre, e, post) => pre ++ PidCacheEntry now p g :: post
       | None => make_room p_last_used 5 l ++ [PidCacheEntry now p g]
       end.

Lemma make_room_length {A} (key : A -> Z) cap (l : list A) :
  (0 < cap)%nat -> (length l <= cap)%nat -> (length (make_room key cap l) < cap)%nat.
Proof.
  intros Hc Hl. unfold make_room. destruct (Nat.leb_spec cap (length l)); [|lia].
  destruct (split_min key l) as [[[pre a] post]|] eqn:Es.
  - apply split_min_Some in Es as [-> _]. rewrite length_app in *. simpl in *. lia.
  - destruct l; [simpl in *; lia|]. simpl in Es.
    destruct (split_min key l) as [[[? ?] ?]|]; [destruct (_ <? _)|]; done.
Qed.
End Spec.

(** ** Refinement *)

Section Refine.
Context {E : XenEnv} {W : WholePages}.
Implicit Types (w : world) (l : list xa_cache_entry).

Lemma runs_on_cache {A} (m : M (dll xa_cache_entry) A) w (Q : A -> world -> Prop) :
  runs m (cache w) (fun a d => Q a (with_cache d w)) -> runs (on_cache m) w Q.
Proof. apply runs_zoom. Qed.

(** The blocks that the names of the entries are in. *)
Definition blocks l : list loc := (fun e => s_block (symbol_name e)) <$> l.

(** Every entry has a name of its own, which is allocated. *)
Definition owned (h : string_heap) (bs : list loc) : Prop :=
  NoDup bs /\ Forall (fun b => b ∈ live_strings h) bs /\
  forall b, b ∈ live_strings h -> (b < next_string h)%nat.

(** The cache has the entries [l], with their names. *)
Definition cached w l : Prop := holds (cache w) l /\ owned (strings w) (blocks l).

(** The blocks of the nodes that are allocated, and the other live strings. *)
Definition cache_blocks w : gset loc :=
  list_to_set ((fun kv => s_block (symbol_name (payload kv.2))) <$> map_to_list (nodes (cache w))).
Definition other_strings w : gset loc := live_strings (strings w) ∖ cache_blocks w.

(** The effect of a cache operation on the rest of the state: none, except
    that the clock may have been read. *)
Definition cache_step w (l' : list xa_cache_entry) w' : Prop :=
  cached w' l' /\ inst w' = inst w /\ pid_cache w' = pid_cache w /\
  live_maps w' = live_maps w /\ (ticks w <= ticks w')%nat.

(** ... and on the strings that no entry has. *)
Definition others_kept w w' : Prop := other_strings w' = other_strings w.

Lemma cache_step_refl w l : cached w l -> cache_step w l w.
Proof. intros. by split_and!. Qed.

Lemma cached_blocks w l : holds (cache w) l -> cache_blocks w = list_to_set (blocks l).
Proof.
  intros Hh. apply leibniz_equiv. intros b. unfold cache_blocks, blocks.
  rewrite !elem_of_list_to_set, !list_elem_of_fmap. split.
  - intros ([p n] & -> & Hin%elem_of_map_to_list). exists (payload n). split; [done|].
    apply (holds_payload _ _ _ Hh). eauto.
  - intros (e & -> & (p & n & Hl & <-)%(holds_payload _ _ _ Hh)). exists (p, n). split; [done|].
    by apply elem_of_map_to_list.
Qed.

Lemma cached_nil w : holds (cache w) [] -> (forall b, b ∈ live_strings (strings w) -> (b < next_string (strings w))%nat) ->
  cached w [].
Proof. intros Hh Hb. split; [done|]. split; [constructor|]. split; [constructor|done]. Qed.

(** A copy of another string does not matter. *)
Lemma cached_keep w l : cached w l -> cached (keep_string w) l.
Proof.
  intros [Hh (Hn & Hl & Hb)]. split; [done|]. split; [done|]. split; cbn.
  - eapply list.Forall_impl; [exact Hl|]. intros b Hi. cbn beta. apply elem_of_union. by right.
  - intros b [->%elem_of_singleton|Hi%Hb]%elem_of_union; lia.
Qed.

Lemma cached_inj w l l' : cached w l -> cached w l' -> l = l'.
Proof. intros [H _] [H' _]. by eapply holds_inj. Qed.

(** Entries with the same names, in the same order. *)
Lemma cached_same w w' l l' :
  cached w l -> strings w' = strings w -> blocks l' = blocks l -> holds (cache w') l' ->
  cached w' l' /\ others_kept w w'.
Proof.
  intros [Hh Ho] Hs Hb Hh'. split; [split; [done|by rewrite Hs, Hb]|].
  unfold others_kept, other_strings. by rewrite (cached_blocks w l), (cached_blocks w' l'), Hs, Hb.
Qed.

Lemma blocks_app l k : blocks (l ++ k) = blocks l ++ blocks k.
Proof. apply fmap_app. Qed.

Lemma runs_time_now w (Q : Z -> world -> Prop) :
  Q (clock (ticks w)) (with_ticks (S (ticks w)) w) -> runs time_now w Q.
Proof. intros HQ. by eapply runs_eq. Qed.

(** As long as the names of the entries are allocated, the walk that reads them
    is the plain one. *)
Lemma find_named_eq test n p w l :
  cached w l -> find_named test n p w = on_cache (find_from test n p) w.
Proof.
  intros [Hh (_ & Ho & _)]. revert p.
  assert (Hw : with_cache (cache w) w = w) by by destruct w.
  induction n as [|n IH]; intros p; [done|]. unfold on_cache, zoom, find_named, find_from in *. rewrite !iter_S.
  destruct p as [q|].
  2:{ unfold mbind, M_bind, mret, M_ret. by rewrite Hw. }
  destruct (nodes (cache w) !! q) as [nd|] eqn:Eq.
  2:{ unfold mbind, M_bind, on_cache, zoom, deref. by rewrite Eq. }
  assert (Hl : s_block (symbol_name (payload nd)) ∈ live_strings (strings w)).
  { rewrite list.Forall_forall in Ho. apply Ho, list_elem_of_fmap. exists (payload nd). split; [done|].
    apply (holds_payload _ _ _ Hh). eauto. }
  assert (Hd : deref (Some q) (cache w) = Ret (nd, cache w)) by (unfold deref; by rewrite Eq).
  assert (Hu : use_string (symbol_name (payload nd)) w = Ret (tt, w)) by (unfold use_string; by rewrite decide_True).
  assert (Hd' : on_cache (deref (Some q)) w = Ret (nd, w)) by (unfold on_cache, zoom; by rewrite Hd, Hw).
  erewrite bind_eq.
  2:{ erewrite bind_eq by exact Hd'. erewrite bind_eq by exact Hu.
      instantiate (2 := if test (payload nd) then inr (Some q) else inl (next nd)). by destruct (test (payload nd)). }
  erewrite (bind_eq _ _ (cache w)).
  2:{ erewrite bind_eq by exact Hd.
      instantiate (2 := if test (payload nd) then inr (Some q) else inl (next nd)). by destruct (test (payload nd)). }
  destruct (test (payload nd)); [unfold mret, M_ret; by rewrite Hw|]. exact (IH (next nd)).
Qed.

Lemma runs_find (named : bool) (f : xa_cache_entry -> bool) w l (Q : option loc -> world -> Prop) :
  cached w l ->
  match split_first f l with
  | Some (pre, e, post) => forall p, at_loc (cache w) p pre e post -> Q (Some p) w
  | None => Q None w
  end ->
  runs (d ← gets cache; if named then find_named f (fuel d) (head d)
                        else on_cache (find_from f (fuel d) (head d))) w Q.
Proof.
  intros Hh HQ. apply runs_bind, runs_gets.
  assert (H : runs (on_cache (find_from f (fuel (cache w)) (head (cache w)))) w Q).
  { apply runs_on_cache. eapply runs_mono; [apply find_holds, Hh|]. intros r d [-> H].
    assert (with_cache (cache w) w = w) as -> by by destruct w.
    destruct (split_first f l) as [[[pre e] post]|]; [|by subst].
    destruct H as (p & -> & Hp). by apply HQ. }
  destruct named; [|done]. unfold runs in *. by rewrite (find_named_eq _ _ _ _ l).
Qed.

Lemma bind_assoc_runs {S A B C} (m : M S A) (k : A -> M S B) (k' : B -> M S C) s Q :
  runs ((m ≫= k) ≫= k') s Q -> runs (m ≫= (fun a => k a ≫= k')) s Q.
Proof.
  unfold runs, mbind, M_bind. intros (c & s' & H & HQ). exists c, s'. split; [|done].
  by destruct (m s) as [[a t]| |].
Qed.

(** Both lookups have this shape. *)
Lemma check_refines (named : bool) (hit : xa_cache_entry -> bool) (res : xa_cache_entry -> Z) w l :
  cached w l ->
  runs (d ← gets cache;
        r ← (if named then find_named hit (fuel d) (head d) else on_cache (find_from hit (fuel d) (head d)));
        match r with
        | None => mret None
        | Some _ =>
            now ← time_now;
            _ ← on_cache (store r (set_payload (touch now)));
            n ← on_cache (deref r);
            mret (Some (res (payload n)))
        end) w
    (fun r w' =>
       let '(o, l') := spec_check hit (clock (ticks w)) l in
       r = (fun e => res (touch (clock (ticks w)) e)) <$> o /\ cache_step w l' w' /\ others_kept w w').
Proof.
  intros Hh. apply bind_assoc_runs, runs_bind. eapply (runs_find named); [done|].
  unfold spec_check. destruct (split_first hit l) as [[[pre e] post]|] eqn:Es.
  - intros p Hp. apply runs_bind, runs_time_now, runs_bind, runs_on_cache.
    eapply runs_mono; [by apply store_at_loc|]. intros [] d Hd. cbn beta in Hd.
    apply runs_bind, runs_on_cache. eapply runs_mono; [eapply deref_at_loc; exact Hd|].
    intros n d' [Ed Hn]. simpl in Ed. subst d'. apply runs_ret. rewrite Hn. split; [done|].
    apply split_first_Some in Es as [-> _].
    destruct (cached_same w (with_cache d (with_ticks (S (ticks w)) w)) (pre ++ e :: post)
      (pre ++ touch (clock (ticks w)) e :: post)) as [Hc Ho];
      [done|done|by rewrite !blocks_app|by eapply at_loc_holds|].
    split; [|done]. split_and!; simpl; [done..|lia].
  - apply runs_ret. split; [done|]. split; [by apply cache_step_refl|done].
Qed.

Lemma check_sym_kept name p w l :
  cached w l ->
  runs (xa_check_cache_sym name p) w (fun r w' =>
    let '(o, l') := spec_check (sym_hit name p) (clock (ticks w)) l in
    r = mach_address <$> o /\ cache_step w l' w' /\ others_kept w w').
Proof. apply (check_refines true (sym_hit name p) mach_address). Qed.

Lemma check_virt_kept virt p w l (i := inst w) :
  cached w l ->
  runs (xa_check_cache_virt virt p) w (fun r w' =>
    let '(o, l') := spec_check (virt_hit (page_of i virt) p) (clock (ticks w)) l in
    r = (fun e => Z.lor (mach_address e) (page_off i virt)) <$> o /\ cache_step w l' w' /\ others_kept w w').
Proof.
  intros Hh. unfold xa_check_cache_virt. apply runs_bind, runs_gets.
  by apply (check_refines false (virt_hit (page_of i virt) p)
              (fun e => Z.lor (mach_address e) (page_off i virt))).
Qed.

Lemma check_sym_refines name p w l :
  cached w l ->
  runs (xa_check_cache_sym name p) w (fun r w' =>
    let '(o, l') := spec_check (sym_hit name p) (clock (ticks w)) l in
    r = mach_address <$> o /\ cache_step w l' w').
Proof.
  intros Hh. eapply runs_mono; [by apply check_sym_kept|]. intros r w'.
  destruct (spec_check _ _ l) as [o l']. by intros (? & ? & _).
Qed.

Lemma check_virt_refines virt p w l (i := inst w) :
  cached w l ->
  runs (xa_check_cache_virt virt p) w (fun r w' =>
    let '(o, l') := spec_check (virt_hit (page_of i virt) p) (clock (ticks w)) l in
    r = (fun e => Z.lor (mach_address e) (page_off i virt)) <$> o /\ cache_step w l' w').
Proof.
  intros Hh. eapply runs_mono; [by apply check_virt_kept|]. intros r w'.
  fold i. destruct (spec_check _ _ l) as [o l']. by intros (? & ? & _).
Qed.

Definition mach_value i (virt mach : Z) : Z := if mach =? 0 then kv2p i virt else mach.

Lemma mach_or_translate_eq virt mach w :
  geometry (inst w) -> is_u32 virt ->
  mach_or_translate virt mach w = Ret (mach_value (inst w) virt mach, w).
Proof.
  intros Hg Hv. unfold mach_or_translate, mach_value.
  destruct (mach =? 0); [by apply xa_translate_kv2p_eq|done].
Qed.

(** A cache whose entries were written to, but not their names. *)
Lemma step_same w d n l l' :
  cached w l -> blocks l' = blocks l -> holds d l' -> (ticks w <= n)%nat ->
  cache_step w l' (with_cache d (with_ticks n w)) /\ others_kept w (with_cache d (with_ticks n w)).
Proof.
  intros Hc Hb Hd Hn. destruct (cached_same w (with_cache d (with_ticks n w)) l l') as [Hc' Ho]; [done..|].
  split; [|done]. by split_and!.
Qed.

Lemma update_by_symbol_refines s virt p mach w l :
  geometry (inst w) -> is_u32 virt -> cached w l ->
  runs (update_by_symbol s virt p mach) w (fun b w' =>
    match split_first (sym_matches s) l with
    | Some (pre, e, post) => b = true /\
        cache_step w (pre ++ CacheEntry (clock (ticks w)) (symbol_name e) 0
                               (mach_value (inst w) virt mach) p :: post) w' /\ others_kept w w'
    | None => b = false /\ w' = w
    end).
Proof.
  intros Hg Hv Hh. apply bind_assoc_runs, runs_bind. eapply (runs_find true); [done|].
  destruct (split_first (sym_matches s) l) as [[[pre e] post]|] eqn:Es; [|by apply runs_ret].
  intros q Hp. apply runs_bind, runs_time_now, runs_bind, runs_on_cache.
  eapply runs_mono; [by apply store_at_loc|]. intros [] d Hd. cbn beta in Hd.
  apply runs_bind. eapply runs_eq; [by apply mach_or_translate_eq|].
  apply runs_bind, runs_on_cache. eapply runs_mono; [eapply store_at_loc; exact Hd|].
  intros [] d' Hd'. apply runs_ret. split; [done|]. apply split_first_Some in Es as [-> _].
  apply (step_same w d' (S (ticks w)) (pre ++ e :: post)); [done|by rewrite !blocks_app|by eapply at_loc_holds in Hd'|lia].
Qed.

Lemma update_by_virt_refines v m p w l :
  cached w l ->
  runs (update_by_virt v m p) w (fun b w' =>
    match split_first (fun e => virt_address e =? v) l with
    | Some (pre, e, post) => b = true /\
        cache_step w (pre ++ CacheEntry (clock (ticks w)) (symbol_name e) (virt_address e)
                               m p :: post) w' /\ others_kept w w'
    | None => b = false /\ w' = w
    end).
Proof.
  intros Hh. apply bind_assoc_runs, runs_bind. eapply (runs_find false); [done|].
  destruct (split_first _ l) as [[[pre e] post]|] eqn:Es; [|by apply runs_ret].
  intros q Hp. apply runs_bind, runs_time_now, runs_bind, runs_on_cache.
  eapply runs_mono; [by apply store_at_loc|]. intros [] d Hd. cbn beta in Hd.
  apply runs_ret. split; [done|]. apply split_first_Some in Es as [-> _].
  apply (step_same w d (S (ticks w)) (pre ++ e :: post)); [done|by rewrite !blocks_app|by eapply at_loc_holds in Hd|lia].
Qed.

(** An entry goes, and its name with it. *)
Lemma owned_drop h bs b bs' :
  owned h (bs ++ b :: bs') ->
  b ∈ live_strings h /\ owned (StringHeap (live_strings h ∖ {[b]}) (next_string h)) (bs ++ bs') /\
  (live_strings h ∖ {[b]}) ∖ list_to_set (bs ++ bs') = live_strings h ∖ list_to_set (bs ++ b :: bs').
Proof.
  intros (Hn & Hl & Hb). rewrite list.Forall_forall in Hl. rewrite list_to_set_app_L. cbn [list_to_set].
  apply list.NoDup_app in Hn as (Hn1 & Hx & [Hbn Hn2]%list.NoDup_cons).
  split; [apply Hl, elem_of_app; right; apply list_elem_of_here|]. split.
  - split; [|split; cbn [live_strings next_string]].
    + apply list.NoDup_app. split; [done|]. split; [|done]. intros x H1 H2. by apply (Hx x H1), list_elem_of_further.
    + apply list.Forall_forall. intros x [Hi|Hi]%elem_of_app; apply elem_of_difference;
        (split; [apply Hl, elem_of_app|intros ->%elem_of_singleton]).
      * by left.
      * by apply (Hx b Hi), list_elem_of_here.
      * right. by apply list_elem_of_further.
      * done.
    + intros x [Hi _]%elem_of_difference. by apply Hb.
  - rewrite list_to_set_app_L. cbn [list_to_set]. clear. set_solver.
Qed.

Lemma evict_oldest_refines w l :
  cached w l -> (length l <= 25)%nat ->
  runs (d ← gets cache; (if XA_CACHE_SIZE <=? count d then evict_oldest else mret tt
                          : M world unit)) w
    (fun _ w' => exists d h, w' = with_cache d (with_strings h w) /\ next_string h = next_string (strings w) /\
       cached w' (make_room last_used 25 l) /\ others_kept w w').
Proof.
  intros Hc Hl. pose proof Hc as [Hh Ho]. apply runs_bind, runs_gets. rewrite (holds_count _ _ Hh).
  unfold make_room, XA_CACHE_SIZE.
  destruct (Z.leb_spec 25 (Z.of_nat (length l))), (Nat.leb_spec 25 (length l)); try lia.
  - unfold evict_oldest. apply runs_bind, runs_gets, runs_bind, runs_on_cache.
    eapply runs_mono; [apply (oldest_holds last_used); [done|by intros ->]|].
    intros r d [-> (p & pre & a & post & Es & -> & Hp)]. rewrite Es.
    assert (with_cache (cache w) w = w) as -> by by destruct w.
    apply split_min_Some in Es as [-> _]. rewrite blocks_app in Ho.
    destruct (owned_drop _ (blocks pre) (s_block (symbol_name a)) (blocks post) Ho) as (Hlive & Ho' & Hrest).
    apply runs_bind, runs_on_cache. eapply runs_mono; [eapply evict_in_steps; [done|lia]|].
    intros [] d1 Hd1. apply runs_bind, runs_on_cache. eapply runs_mono; [exact Hd1|].
    intros n d2 [-> Hrel]. apply runs_bind. eapply runs_eq.
    { unfold free_string. cbn [strings with_cache]. by rewrite decide_True. }
    apply runs_on_cache. cbn [cache with_cache with_strings]. eapply runs_mono; [exact Hrel|]. intros [] d' Hd'.
    exists d', (StringHeap (live_strings (strings w) ∖ {[s_block (symbol_name a)]}) (next_string (strings w))).
    split; [by destruct w|]. split; [done|].
    set (w' := with_cache d' _). assert (Hhw : holds (cache w') (pre ++ post)) by exact Hd'.
    split; [split; [done|by rewrite blocks_app]|]. unfold others_kept, other_strings.
    rewrite (cached_blocks w' _ Hhw), (cached_blocks w _ Hh), !blocks_app. exact Hrest.
  - apply runs_ret. exists (cache w), (strings w). split; [by destruct w|]. split; [done|]. done.
Qed.

(** An entry comes, with a name of its own. *)
Lemma owned_add h bs :
  owned h bs -> owned (one_more h) (bs ++ [next_string h]) /\
  live_strings (one_more h) ∖ list_to_set (bs ++ [next_string h]) = live_strings h ∖ list_to_set bs.
Proof.
  intros (Hn & Hl & Hb). rewrite list.Forall_forall in Hl.
  assert (Hf : next_string h ∉ live_strings h) by (intros ?%Hb; lia). unfold one_more. cbn [live_strings next_string].
  split.
  - split; [|split; cbn [live_strings next_string]].
    + apply list.NoDup_app. split; [done|]. split; [|apply list.NoDup_singleton].
      intros x Hx ->%list_elem_of_singleton. by apply Hf, Hl.
    + apply list.Forall_forall. intros x [Hx| ->%list_elem_of_singleton]%elem_of_app; [|set_solver].
      apply Hl in Hx. set_solver.
    + intros x [->%elem_of_singleton|Hx%Hb]%elem_of_union; lia.
  - rewrite list_to_set_app_L. cbn [list_to_set]. clear -Hf. set_solver.
Qed.

Definition new_entry i (b : loc) (name : option cstr) (virt vlookup mlookup p mach now : Z) :=
  match name with
  | Some s => CacheEntry now (OwnedString b (strndup s MAX_SYM_LEN)) 0 (mach_value i virt mach) p
  | None => CacheEntry now (OwnedString b []) vlookup mlookup p
  end.

Lemma add_entry_refines name virt v m p mach w l :
  geometry (inst w) -> is_u32 virt -> cached w l -> (length l <= 25)%nat ->
  runs (add_entry name virt v m p mach) w (fun _ w' =>
    cache_step w (l ++ [new_entry (inst w) (next_string (strings w)) name virt v m p mach (clock (ticks w))]) w' /\
    others_kept w w').
Proof.
  intros Hg Hv [Hh Ho] Hl. unfold add_entry. apply runs_bind, runs_time_now, runs_bind.
  set (e := new_entry _ _ name virt v m p mach _).
  set (w1 := with_strings (one_more (strings w)) (with_ticks (S (ticks w)) w)).
  eapply (runs_mono _ _ (fun e' w' => w' = w1 /\ e' = e)).
  - destruct name as [s|]; apply runs_bind; (eapply runs_eq; [reflexivity|]); [|by apply runs_ret].
    apply runs_bind. eapply runs_eq; [by apply mach_or_translate_eq|]. by apply runs_ret.
  - intros e' w' [-> ->]. apply runs_on_cache.
    eapply runs_mono; [eapply push_holds; [exact Hh|lia]|].
    intros [] d Hd. destruct (owned_add _ _ Ho) as [Ho' Hrest].
    assert (Hb : blocks (l ++ [e]) = blocks l ++ [next_string (strings w)]).
    { rewrite blocks_app. by destruct name. }
    split.
    + split_and!; simpl; try done; [|lia]. split; [exact Hd|]. by rewrite Hb.
    + unfold others_kept, other_strings.
      rewrite (cached_blocks w _ Hh), (cached_blocks (with_cache d w1) (l ++ [e]) Hd), Hb. exact Hrest.
Qed.

(** Making room and adding, the last part of an update. *)
Lemma insert_refines name virt v m p mach w l :
  geometry (inst w) -> is_u32 virt -> cached w l -> (length l <= 25)%nat ->
  runs (d ← gets cache;
        _ ← (if XA_CACHE_SIZE <=? count d then evict_oldest else mret tt : M world unit);
        _ ← add_entry name virt v m p mach;
        mret 1) w
    (fun r w' => r = 1 /\
      cache_step w (make_room last_used 25 l ++
                    [new_entry (inst w) (next_string (strings w)) name virt v m p mach (clock (ticks w))]) w' /\
      others_kept w w').
Proof.
  intros Hg Hv Hh Hl. apply bind_assoc_runs, runs_bind.
  eapply runs_mono; [by apply evict_oldest_refines|]. intros [] w' (d & h & -> & Hn & Hd & Hk).
  pose proof (make_room_length last_used 25 l ltac:(lia) Hl).
  apply runs_bind. eapply runs_mono; [by apply (add_entry_refines name virt); [..|exact Hd|lia]|].
  intros [] w' [Hw Hk']. apply runs_ret. cbn [strings with_cache with_strings] in Hw. rewrite Hn in Hw.
  split; [done|]. split; [done|]. unfold others_kept in *. congruence.
Qed.

(** What is found by name, and what is found by page. *)
Definition by_name (name : option cstr) l :=
  match name with Some s => split_first (sym_matches s) l | None => None end.
Definition by_page i virt l :=
  if virt =? 0 then None else split_first (fun e => virt_address e =? page_of i virt) l.

Definition update_tail (name : option cstr) virt vlookup mlookup p mach : M world Z :=
  by_virt ← (if negb (virt =? 0) then update_by_virt vlookup mlookup p
             else mret false : M world bool);
  if (by_virt : bool) then mret 1
  else match name, virt =? 0 with
       | None, true => mret 1
       | _, _ =>
           d ← gets cache;
           _ ← (if XA_CACHE_SIZE <=? count d then evict_oldest else mret tt : M world unit);
           _ ← add_entry name virt vlookup mlookup p mach;
           mret 1
       end.

Lemma update_tail_refines name virt p mach w l (i := inst w) (b := next_string (strings w)) :
  geometry i -> is_u32 virt -> cached w l -> (length l <= 25)%nat ->
  by_name name l = None ->
  runs (update_tail name virt (page_of i virt) (page_of i mach) p mach) w (fun r w' => r = 1 /\
    cache_step w (spec_update b name virt (page_of i virt) (page_of i mach) p
                    (mach_value i virt mach) (clock (ticks w)) l) w' /\ others_kept w w').
Proof.
  intros Hg Hv Hh Hl Hn. apply runs_bind.
  eapply (runs_mono _ _ (fun (f : bool) w' =>
    match by_page i virt l with
    | Some (pre, e, post) => f = true /\
        cache_step w (pre ++ CacheEntry (clock (ticks w)) (symbol_name e) (virt_address e)
                               (page_of i mach) p :: post) w' /\ others_kept w w'
    | None => f = false /\ w' = w
    end)).
  { unfold by_page. destruct (virt =? 0); [by apply runs_ret|]. by apply update_by_virt_refines. }
  intros f w' Hb. unfold spec_update. fold (by_page i virt l). unfold by_name in Hn.
  destruct (by_page i virt l) as [[[pre e] post]|].
  - destruct Hb as [-> Hw]. apply runs_ret. destruct name; [by rewrite Hn|done].
  - destruct Hb as [-> ->]. destruct name as [s|]; [rewrite Hn|destruct (virt =? 0)].
    + by apply (insert_refines (Some s)).
    + apply runs_ret. split; [done|]. split; [by apply cache_step_refl|done].
    + by apply (insert_refines None).
Qed.

Lemma update_kept name virt p mach w l (i := inst w) (b := next_string (strings w)) :
  geometry i -> is_u32 virt -> cached w l -> (length l <= 25)%nat ->
  runs (xa_update_cache name virt p mach) w (fun r w' => r = 1 /\
    cache_step w (spec_update b name virt (page_of i virt) (page_of i mach) p
                    (mach_value i virt mach) (clock (ticks w)) l) w' /\ others_kept w w').
Proof.
  intros Hg Hv Hh Hl. apply runs_bind, runs_gets, runs_bind.
  eapply (runs_mono _ _ (fun (f : bool) w' =>
    match by_name name l with
    | Some (pre, e, post) => f = true /\
        cache_step w (pre ++ CacheEntry (clock (ticks w)) (symbol_name e) 0
                               (mach_value i virt mach) p :: post) w' /\ others_kept w w'
    | None => f = false /\ w' = w
    end)).
  { destruct name as [s|]; [by apply update_by_symbol_refines|by apply runs_ret]. }
  intros f w' Hb. destruct (by_name name l) as [[[pre e] post]|] eqn:En; destruct Hb as [-> Hw].
  - apply runs_ret. split; [done|]. destruct name as [s|]; [|done].
    unfold spec_update. simpl in En. by rewrite En.
  - rewrite Hw. by apply update_tail_refines.
Qed.

Lemma update_refines name virt p mach w l (i := inst w) (b := next_string (strings w)) :
  geometry i -> is_u32 virt -> cached w l -> (length l <= 25)%nat ->
  runs (xa_update_cache name virt p mach) w (fun r w' => r = 1 /\
    cache_step w (spec_update b name virt (page_of i virt) (page_of i mach) p
                    (mach_value i virt mach) (clock (ticks w)) l) w').
Proof.
  intros Hg Hv Hh Hl. eapply runs_mono; [by apply update_kept|]. by intros r w' (? & ? & _).
Qed.

(** The names of the entries stay allocated, and nothing leads to them. *)
Lemma destroy_refines w l :
  cached w l ->
  runs xa_destroy_cache w (fun r w' => r = 0 /\ cache_step w [] w' /\
    nodes (cache w') = ∅ /\ count (cache w') = 0 /\ strings w' = strings w).
Proof.
  intros [Hh (_ & _ & Hb)]. apply runs_bind, runs_gets, runs_bind, runs_on_cache.
  eapply runs_mono; [by eapply destroy_holds|]. intros [] d ->.
  eapply runs_eq; [done|]. split_and!; try done. split_and!; simpl; try done.
  apply cached_nil; [apply holds_empty|done].
Qed.
End Refine.

(** ** Refinement of the pid cache *)

Section RefinePid.
Context {E : XenEnv}.
Implicit Types (w : world) (l : list xa_pid_cache_entry).

Lemma runs_on_pid_cache {A} (m : M (dll xa_pid_cache_entry) A) w (Q : A -> world -> Prop) :
  runs m (pid_cache w) (fun a d => Q a (with_pid_cache d w)) -> runs (on_pid_cache m) w Q.
Proof. apply runs_zoom. Qed.

Definition pid_step w (l' : list xa_pid_cache_entry) w' : Prop :=
  holds (pid_cache w') l' /\ inst w' = inst w /\ (cache w' = cache w /\ strings w' = strings w) /\
  live_maps w' = live_maps w /\ (ticks w <= ticks w')%nat.

Lemma pid_step_refl w l : holds (pid_cache w) l -> pid_step w l w.
Proof. intros. by split_and!. Qed.

(** The helper finds the entry, and leaves it touched. *)
Lemma pid_helper_refines p w l :
  holds (pid_cache w) l ->
  runs (xa_check_pid_cache_helper p) w (fun r w' =>
    match split_first (fun e => p_pid e =? p) l with
    | Some (pre, e, post) => exists q, r = Some q /\
        at_loc (pid_cache w') q pre (p_touch (clock (ticks w)) e) post /\
        pid_step w (pre ++ p_touch (clock (ticks w)) e :: post) w'
    | None => r = None /\ w' = w
    end).
Proof.
  intros Hh. apply runs_bind, runs_gets, runs_bind, runs_on_pid_cache.
  eapply runs_mono; [by apply find_holds|]. intros r d [-> H].
  assert (with_pid_cache (pid_cache w) w = w) as -> by by destruct w.
  destruct (split_first _ l) as [[[pre e] post]|]; [|subst; by apply runs_ret].
  destruct H as (q & -> & Hq). apply runs_bind, runs_time_now, runs_bind, runs_on_pid_cache.
  eapply runs_mono; [by apply store_at_loc|]. intros [] d Hd. cbn beta in Hd.
  apply runs_ret. exists q. split_and!; [done|done|].
  split_and!; simpl; [by eapply at_loc_holds in Hd|done|done|done|done|lia].
Qed.

Lemma check_pid_refines p w l :
  holds (pid_cache w) l ->
  runs (xa_check_pid_cache p) w (fun r w' =>
    let '(o, l') := spec_pid_check (clock (ticks w)) p l in r = o /\ pid_step w l' w').
Proof.
  intros Hh. apply runs_bind. eapply runs_mono; [by apply pid_helper_refines|].
  intros r w' H. unfold spec_pid_check.
  destruct (split_first _ l) as [[[pre e] post]|].
  - destruct H as (q & -> & Hq & Hs). apply runs_bind, runs_on_pid_cache.
    eapply runs_mono; [eapply deref_at_loc; exact Hq|]. intros n d [-> Hn].
    apply runs_ret. rewrite Hn. split; [done|by destruct w'].
  - destruct H as [-> ->]. apply runs_ret. split; [done|by apply pid_step_refl].
Qed.

Lemma evict_oldest_pid_refines w l :
  holds (pid_cache w) l -> (length l <= 5)%nat ->
  runs (d ← gets pid_cache;
        (if XA_PID_CACHE_SIZE <=? count d then evict_oldest_pid else mret tt : M world unit)) w
    (fun _ w' => exists d, w' = with_pid_cache d w /\ holds d (make_room p_last_used 5 l)).
Proof.
  intros Hh Hl. apply runs_bind, runs_gets. rewrite (holds_count _ _ Hh).
  unfold make_room, XA_PID_CACHE_SIZE.
  destruct (Z.leb_spec 5 (Z.of_nat (length l))), (Nat.leb_spec 5 (length l)); try lia.
  - unfold evict_oldest_pid. apply runs_bind, runs_gets, runs_bind, runs_on_pid_cache.
    eapply runs_mono; [apply (oldest_holds p_last_used); [done|by intros ->]|].
    intros r d [-> (p & pre & a & post & Es & -> & Hp)]. rewrite Es.
    assert (with_pid_cache (pid_cache w) w = w) as -> by by destruct w.
    apply runs_on_pid_cache. eapply runs_mono; [eapply evict_at_loc; [done|]|].
    { apply split_min_Some in Es as [-> _]. lia. }
    intros [] d Hd. by exists d.
  - apply runs_ret. exists (pid_cache w). split; [by destruct w|done].
Qed.

Lemma update_pid_refines p g w l :
  holds (pid_cache w) l -> (length l <= 5)%nat ->
  runs (xa_update_pid_cache p g) w (fun r w' => r = 1 /\
    pid_step w (spec_pid_update (clock (ticks w)) p g l) w').
Proof.
  intros Hh Hl. unfold xa_update_pid_cache, spec_pid_update.
  change (XA_PID_CACHE_SIZE =? 0) with false. cbv iota.
  destruct (p =? 0); [apply runs_ret; split; [done|by apply pid_step_refl]|].
  apply runs_bind. eapply runs_mono; [by apply pid_helper_refines|]. intros r w' H.
  destruct (split_first _ l) as [[[pre e] post]|] eqn:Es.
  - destruct H as (q & -> & Hq & Hs). apply runs_bind, runs_on_pid_cache.
    eapply runs_mono; [by apply store_at_loc|]. intros [] d Hd. cbn beta in Hd.
    apply runs_ret. apply split_first_Some in Es as (_ & Hp%Z.eqb_eq & _).
    apply at_loc_holds in Hd. simpl in Hd. rewrite Hp in Hd.
    destruct Hs as (_ & ? & [? ?] & ? & ?). split; [done|by split_and!].
  - destruct H as [-> ->]. apply bind_assoc_runs, runs_bind.
    eapply runs_mono; [by apply evict_oldest_pid_refines|]. intros [] w' (d & -> & Hd).
    pose proof (make_room_length p_last_used 5 l ltac:(lia) Hl).
    apply runs_bind, runs_time_now, runs_bind, runs_on_pid_cache.
    eapply runs_mono; [eapply push_holds; [exact Hd|lia]|]. intros [] d' Hd'.
    apply runs_ret. split; [done|]. split_and!; simpl; done || lia.
Qed.

Lemma destroy_pid_refines w l :
  holds (pid_cache w) l ->
  runs xa_destroy_pid_cache w (fun r w' => r = 0 /\ pid_step w [] w' /\
    nodes (pid_cache w') = ∅ /\ count (pid_cache w') = 0).
Proof.
  intros Hh. apply runs_bind, runs_gets, runs_bind, runs_on_pid_cache.
  eapply runs_mono; [by eapply destroy_holds|]. intros [] d ->.
  eapply runs_eq; [done|]. split_and!; try done. split_and!; simpl; try done.
  apply holds_empty.
Qed.
End RefinePid.

(** ** What a cache is good for *)

Section SpecLemmas.

Lemma spec_update_length b name virt v m p ma now l :
  (length l <= 25)%nat -> (length (spec_update b name virt v m p ma now l) <= 25)%nat.
Proof.
  intros Hl. pose proof (make_room_length last_used 25 l ltac:(lia) Hl) as Hr.
  unfold spec_update. repeat case_match; simplify_eq;
    repeat match goal with
    | H : split_first _ _ = Some _ |- _ => apply split_first_Some in H as (-> & _)
    end; rewrite ?length_app in *; simpl in *; lia.
Qed.

Lemma spec_check_length hit now l : length (spec_check hit now l).2 = length l.
Proof.
  unfold spec_check. destruct (split_first hit l) as [[[pre e] post]|] eqn:Es; [|done].
  apply split_first_Some in Es as [-> _]. simpl. by rewrite !length_app.
Qed.

Lemma spec_pid_update_length now p g l :
  (length l <= 5)%nat -> (length (spec_pid_update now p g l) <= 5)%nat.
Proof.
  intros Hl. pose proof (make_room_length p_last_used 5 l ltac:(lia) Hl) as Hr.
  unfold spec_pid_update. repeat case_match; simplify_eq; [done| |].
  - match goal with H : split_first _ _ = Some _ |- _ =>
      apply split_first_Some in H as (-> & _) end.
    rewrite ?length_app in *; simpl in *; lia.
  - rewrite length_app. simpl. lia.
Qed.

Lemma spec_pid_check_length now p l : length (spec_pid_check now p l).2 = length l.
Proof.
  unfold spec_pid_check. destruct (split_first _ l) as [[[pre e] post]|] eqn:Es; [|done].
  apply split_first_Some in Es as [-> _]. simpl. by rewrite !length_app.
Qed.

(** An eviction removes entries, it does not change them. *)
Lemma make_room_Forall {A} (P : A -> Prop) key cap (l : list A) :
  Forall P l -> Forall P (make_room key cap l).
Proof.
  intros Hl. unfold make_room. destruct (cap <=? length l)%nat; [|done].
  destruct (split_min key l) as [[[pre a] post]|] eqn:Es; [|done].
  apply split_min_Some in Es as [-> _].
  apply Forall_app in Hl as [H1 [_ H2]%list.Forall_cons]. by apply Forall_app.
Qed.

(** The entry an update leaves is the first one a lookup for it meets. *)
Lemma update_then_check_page b l virt v m p ma now now' :
  virt <> 0 -> v <> 0 -> m <> 0 ->
  exists e, (spec_check (virt_hit v p) now' (spec_update b None virt v m p ma now l)).1 = Some e /\
    mach_address e = m.
Proof.
  intros Hvirt Hv Hm. apply Z.eqb_neq in Hvirt as Hvirt'. unfold spec_update. rewrite Hvirt'.
  assert (Hhit : forall n s, virt_hit v p (CacheEntry n s v m p) = true).
  { intros. unfold virt_hit. cbn. apply Z.eqb_neq in Hv, Hm. by rewrite Hv, Hm, !Z.eqb_refl. }
  assert (Hmiss : forall k, Forall (fun e => (virt_address e =? v) = false) k ->
                            Forall (fun e => virt_hit v p e = false) k).
  { intros k Hk. eapply Forall_impl; [|exact Hk]. intros e He. unfold virt_hit.
    rewrite He. by destruct (virt_address e =? 0). }
  destruct (split_first _ l) as [[[pre e] post]|] eqn:Es.
  - apply split_first_Some in Es as (_ & He%Z.eqb_eq & Hpre). rewrite He.
    unfold spec_check. rewrite split_first_app; [|done|by apply Hmiss]. by eexists.
  - apply split_first_is_None in Es. unfold spec_check.
    rewrite split_first_app; [|done|by apply Hmiss, make_room_Forall]. by eexists.
Qed.

Lemma sym_matches_strndup b s : sym_matches s (CacheEntry 0 (OwnedString b (strndup s MAX_SYM_LEN)) 0 0 0) = true.
Proof.
  unfold sym_matches, name_of. cbn [symbol_name s_text]. apply Z.eqb_eq, strncmp_eq. unfold strndup.
  by rewrite take_take, Nat.min_id.
Qed.

Lemma update_then_check_name b l s virt v m p ma now now' :
  ma <> 0 ->
  (virt = 0 \/ Forall (fun e => virt_address e <> v) l) ->
  exists e, (spec_check (sym_hit s p) now' (spec_update b (Some s) virt v m p ma now l)).1 = Some e /\
    mach_address e = ma.
Proof.
  intros Hma Hv. apply Z.eqb_neq in Hma. unfold spec_update.
  assert (Hmiss : forall k, Forall (fun e => sym_matches s e = false) k ->
                            Forall (fun e => sym_hit s p e = false) k).
  { intros k Hk. eapply Forall_impl; [|exact Hk]. intros e He. unfold sym_hit. by rewrite He. }
  assert (Hhit : forall n nm, sym_matches s (CacheEntry 0 nm 0 0 0) = true ->
    sym_hit s p (CacheEntry n nm 0 ma p) = true).
  { intros n nm H. unfold sym_hit. cbn [pid mach_address]. rewrite Hma, Z.eqb_refl.
    unfold sym_matches, name_of in *. cbn [symbol_name] in *. by rewrite H. }
  destruct (split_first (sym_matches s) l) as [[[pre e] post]|] eqn:Es.
  - apply split_first_Some in Es as (_ & He & Hpre). unfold spec_check.
    rewrite split_first_app; [|by apply Hhit|by apply Hmiss]. by eexists.
  - apply split_first_is_None in Es.
    assert ((if virt =? 0 then None else split_first (fun e => virt_address e =? v) l) = None)
      as ->.
    { destruct Hv as [->|Hv]; [done|]. destruct (virt =? 0); [done|].
      apply split_first_None. eapply Forall_impl; [|exact Hv]. intros e He. by apply Z.eqb_neq. }
    unfold spec_check. rewrite split_first_app;
      [|apply Hhit, sym_matches_strndup|by apply Hmiss, make_room_Forall]. by eexists.
Qed.

Lemma pid_update_then_check now now' p g l :
  p <> 0 -> (spec_pid_check now' p (spec_pid_update now p g l)).1 = Some g.
Proof.
  intros Hp%Z.eqb_neq. unfold spec_pid_update. rewrite Hp.
  destruct (split_first _ l) as [[[pre e] post]|] eqn:Es.
  - apply split_first_Some in Es as (_ & _ & Hpre). unfold spec_pid_check.
    by rewrite split_first_app; [|apply Z.eqb_refl|].
  - apply split_first_is_None in Es. unfold spec_pid_check.
    by rewrite split_first_app; [|apply Z.eqb_refl|apply make_room_Forall].
Qed.
End SpecLemmas.

(** ** Sequences of cache operations *)

Inductive cache_op :=
| OpCheckSym (name : cstr) (p : Z)
| OpCheckVirt (virt p : Z)
| OpUpdate (name : option cstr) (virt p mach : Z)
| OpDestroy
| OpCheckPid (p : Z)
| OpUpdatePid (p g : Z)
| OpDestroyPid.

Section Ops.
Context {E : XenEnv}.

Definition run_op (o : cache_op) : M world unit :=
  match o with
  | OpCheckSym name p => _ ← xa_check_cache_sym name p; mret tt
  | OpCheckVirt virt p => _ ← xa_check_cache_virt virt p; mret tt
  | OpUpdate name virt p mach => _ ← xa_update_cache name virt p mach; mret tt
  | OpDestroy => _ ← xa_destroy_cache; mret tt
  | OpCheckPid p => _ ← xa_check_pid_cache p; mret tt
  | OpUpdatePid p g => _ ← xa_update_pid_cache p g; mret tt
  | OpDestroyPid => _ ← xa_destroy_pid_cache; mret tt
  end.

Fixpoint run_ops (ops : list cache_op) : M world unit :=
  match ops with
  | [] => mret tt
  | o :: ops' => _ ← run_op o; run_ops ops'
  end.

(** Arguments are machine words. *)
Definition op_ok (o : cache_op) : Prop :=
  match o with OpUpdate _ virt _ _ => is_u32 virt | _ => True end.

Definition caches_ok (w : world) : Prop :=
  (exists l, cached w l /\ (length l <= 25)%nat) /\
  (exists l, holds (pid_cache w) l /\ (length l <= 5)%nat).

(** What every cache operation leaves alone. *)
Definition same_rest (w w' : world) : Prop :=
  inst w' = inst w /\ live_maps w' = live_maps w.

(** The names that operations leave allocated without an entry. *)
Definition lost_by (o : cache_op) (w : world) : gset loc :=
  match o with OpDestroy => cache_blocks w | _ => ∅ end.

Fixpoint strings_lost (ops : list cache_op) (w : world) : gset loc :=
  match ops with
  | [] => ∅
  | o :: ops' => lost_by o w ∪ match run_op o w with Ret (_, w1) => strings_lost ops' w1 | _ => ∅ end
  end.
End Ops.

Section OpsLemmas.
Context {E : XenEnv} {W : WholePages}.
Implicit Types (w : world).

Lemma runs_ignore {A} (m : M world A) w (Q : world -> Prop) :
  runs m w (fun _ w' => Q w') -> runs (_ ← m; mret tt) w (fun _ w' => Q w').
Proof. intros H. apply runs_bind. eapply runs_mono; [exact H|]. intros. by apply runs_ret. Qed.

Definition op_done (o : cache_op) w w' : Prop :=
  caches_ok w' /\ same_rest w w' /\ other_strings w' = other_strings w ∪ lost_by o w.

Lemma cache_step_ok o w l w' lp :
  cache_step w l w' -> others_kept w w' -> lost_by o w = ∅ -> (length l <= 25)%nat ->
  holds (pid_cache w) lp -> (length lp <= 5)%nat -> op_done o w w'.
Proof.
  intros (Hh & Hi & Hp & Hm & _) Hk Ho Hl Hhp Hlp.
  split; [split; [by exists l|exists lp; by rewrite Hp]|]. split; [done|]. by rewrite Ho, (right_id_L ∅ (∪)).
Qed.

Lemma pid_step_ok o w l w' lc :
  pid_step w l w' -> lost_by o w = ∅ -> (length l <= 5)%nat -> cached w lc -> (length lc <= 25)%nat ->
  op_done o w w'.
Proof.
  intros (Hh & Hi & [Hc Hs] & Hm & _) Ho Hl Hlc Hlen.
  split; [split; [exists lc; unfold cached; by rewrite Hc, Hs|by exists l]|]. split; [done|].
  unfold other_strings, cache_blocks. by rewrite Hc, Hs, Ho, (right_id_L ∅ (∪)).
Qed.

Lemma run_op_ok o w :
  geometry (inst w) -> op_ok o -> caches_ok w -> runs (run_op o) w (fun _ w' => op_done o w w').
Proof.
  intros Hg Ho [(l & Hh & Hl) (lp & Hhp & Hlp)].
  destruct o as [name p|virt p|name virt p mach| |p|p g|]; cbn [run_op]; apply runs_ignore.
  - eapply runs_mono; [by apply check_sym_kept|]. intros r w'.
    pose proof (spec_check_length (sym_hit name p) (clock (ticks w)) l) as E1.
    destruct (spec_check _ _ l) as [o l']. intros (_ & Hs & Hk).
    eapply cache_step_ok; [exact Hs|done|done|simpl in E1; lia|done|done].
  - eapply runs_mono; [by apply check_virt_kept|]. intros r w'.
    pose proof (spec_check_length (virt_hit (page_of (inst w) virt) p) (clock (ticks w)) l) as E1.
    destruct (spec_check _ _ l) as [o l']. intros (_ & Hs & Hk).
    eapply cache_step_ok; [exact Hs|done|done|simpl in E1; lia|done|done].
  - eapply runs_mono; [by apply update_kept|]. intros r w' (_ & Hs & Hk).
    eapply cache_step_ok; [exact Hs|done|done|by apply spec_update_length|done|done].
  - eapply runs_mono; [by eapply destroy_refines|]. intros r w' (_ & (Hc & Hi & Hp & Hm & _) & Hn & _ & Hst).
    split; [split; [exists []; split; [done|simpl; lia]|exists lp; by rewrite Hp]|]. split; [done|].
    unfold other_strings. rewrite (cached_blocks w' []), Hst by apply Hc. cbn [blocks fmap list_fmap list_to_set lost_by].
    rewrite difference_empty_L, difference_union_L. symmetry. rewrite (comm_L (∪)). apply subseteq_union_1_L.
    rewrite (cached_blocks w l) by apply Hh. intros b Hb%elem_of_list_to_set.
    destruct Hh as [_ (_ & Hl' & _)]. rewrite list.Forall_forall in Hl'. by apply Hl'.
  - eapply runs_mono; [by apply check_pid_refines|]. intros r w'.
    pose proof (spec_pid_check_length (clock (ticks w)) p lp) as E1.
    destruct (spec_pid_check _ _ lp) as [o l']. intros [_ Hs].
    eapply pid_step_ok; [exact Hs|done|simpl in E1; lia|done|done].
  - eapply runs_mono; [by apply update_pid_refines|]. intros r w' [_ Hs].
    eapply pid_step_ok; [exact Hs|done|by apply spec_pid_update_length|done|done].
  - eapply runs_mono; [by eapply destroy_pid_refines|]. intros r w' (_ & Hs & _).
    eapply pid_step_ok; [exact Hs|done|simpl; lia|done|done].
Qed.
End OpsLemmas.

(** ** Properties *)

Section Properties.
Context {E : XenEnv} {W : WholePages}.
Implicit Types (w : world) (l : list xa_cache_entry).

(** C4: any sequence of operations on the two caches, lookups, updates and
    destructions in any order, runs to the end without touching NULL, a
    freed node or a freed name, and without freeing anything twice; afterwards
    both lists are well formed doubly linked lists of at most 25 and 5 entries,
    every entry has a name of its own that is allocated, the counters are the
    number of entries and of live nodes (no node leaks), and the instance and
    the set of live mappings are untouched.  Of the names, an update frees that
    of the entry it evicts; what stays allocated without an entry is exactly the
    names of the entries that the calls of [xa_destroy_cache] dropped. *)
Theorem cache_ops_safe ops w :
  geometry (inst w) -> Forall op_ok ops -> caches_ok w ->
  runs (run_ops ops) w (fun _ w' =>
    caches_ok w' /\ same_rest w w' /\
    count (cache w') = Z.of_nat (size (nodes (cache w'))) /\
    count (pid_cache w') = Z.of_nat (size (nodes (pid_cache w'))) /\
    other_strings w' = other_strings w ∪ strings_lost ops w).
Proof.
  intros Hg Hops. revert w Hg. induction Hops as [|o ops Ho Hops IH]; intros w Hg Hok.
  - apply runs_ret. split_and!; [done|done|..]; destruct Hok as [(l & [Hl _] & _) (lp & Hlp & _)];
      [by rewrite (holds_count _ _ Hl), (holds_size _ _ Hl)
      |by rewrite (holds_count _ _ Hlp), (holds_size _ _ Hlp)
      |by cbn [strings_lost]; rewrite (right_id_L ∅ (∪))].
  - cbn [run_ops strings_lost]. apply runs_bind.
    destruct (run_op_ok o w Hg Ho Hok) as (u & w1 & E1 & Hok1 & [Hi Hm] & Hs1). eapply runs_eq; [exact E1|].
    rewrite E1. eapply runs_mono; [apply IH; [by rewrite Hi|done]|].
    intros _ w2 (? & (Hi2 & Hm2) & ? & ? & Hs2). split_and!; try done; [split; congruence|].
    by rewrite Hs2, Hs1, (assoc_L (∪)).
Qed.

(** [xa_destroy_cache] frees the nodes and not the names: all of them
    stay allocated, and there is no entry left that leads to one. *)
Theorem destroy_cache_leaks w l :
  cached w l ->
  runs xa_destroy_cache w (fun _ w' => cached w' [] /\ nodes (cache w') = ∅ /\ strings w' = strings w /\
    Forall (fun e => s_block (symbol_name e) ∈ live_strings (strings w')) l).
Proof.
  intros Hc. eapply runs_mono; [by apply (destroy_refines w l)|]. intros r w' (_ & [Hc' _] & Hn & _ & Hs).
  split; [done|]. split; [done|]. split; [done|]. rewrite Hs. destruct Hc as [_ (_ & Hl & _)].
  unfold blocks in Hl. by rewrite Forall_fmap in Hl.
Qed.

(** C2: [xa_update_cache] computes the abstract update on every branch:
    refresh the entry of that name, else the entry of that page, else evict
    the least recently used entry when 25 are present and append one, with a
    copy of the name in a new block. *)
Theorem update_cache_functional name virt p mach w l (i := inst w) :
  geometry i -> is_u32 virt -> cached w l -> (length l <= 25)%nat ->
  runs (xa_update_cache name virt p mach) w (fun r w' => r = 1 /\
    cached w' (spec_update (next_string (strings w)) name virt (page_of i virt) (page_of i mach) p
                        (mach_value i virt mach) (clock (ticks w)) l) /\
    inst w' = i /\ pid_cache w' = pid_cache w /\ live_maps w' = live_maps w).
Proof.
  intros. eapply runs_mono; [by apply update_refines|].
  intros r w' (-> & ? & ? & ? & ? & _). by split_and!.
Qed.

(** When a new page is cached while 25 entries are present, the entry
    that disappears is the first of those with the smallest [last_used], its
    name is freed, and every other entry stays, in its order. *)
Theorem update_cache_evicts_lru virt p mach w l (i := inst w) :
  geometry i -> is_u32 virt -> virt <> 0 -> cached w l -> length l = 25%nat ->
  Forall (fun e => virt_address e <> page_of i virt) l ->
  runs (xa_update_cache None virt p mach) w (fun r w' =>
    exists pre old post, l = pre ++ old :: post /\ is_first_min last_used pre old post /\
      cached w' ((pre ++ post) ++
        [CacheEntry (clock (ticks w)) (OwnedString (next_string (strings w)) []) (page_of i virt) (page_of i mach) p]) /\
      others_kept w w').
Proof.
  intros Hg Hv Hv0%Z.eqb_neq Hh Hl Hno.
  eapply runs_mono; [apply update_kept; [done..|lia]|]. intros r w' (_ & [Hw _] & Hk).
  unfold spec_update in Hw. fold i in Hw. rewrite Hv0, split_first_None in Hw.
  2:{ eapply Forall_impl; [|exact Hno]. intros e He. by apply Z.eqb_neq. }
  unfold make_room in Hw. rewrite Hl in Hw. simpl in Hw.
  destruct (split_min last_used l) as [[[pre old] post]|] eqn:Es.
  - apply split_min_Some in Es as [-> Hmin]. by exists pre, old, post.
  - destruct l; [done|]. simpl in Es.
    destruct (split_min last_used l) as [[[? ?] ?]|]; [destruct (_ <? _)|]; done.
Qed.

(** A page that was just cached is found: a lookup of any address in it
    for the same pid answers the frame recorded, joined with the offset. *)
Theorem update_then_check_virt virt virt' p mach w l (i := inst w) :
  geometry i -> is_u32 virt -> virt <> 0 -> cached w l -> (length l <= 25)%nat ->
  page_of i virt <> 0 -> page_of i virt' = page_of i virt ->
  page_of i mach <> 0 ->
  runs (_ ← xa_update_cache None virt p mach; xa_check_cache_virt virt' p) w
    (fun r _ => r = Some (Z.lor (page_of i mach) (page_off i virt'))).
Proof.
  intros Hg Hv Hv0 Hh Hl Hp Hsame Hm. subst i. apply runs_bind.
  eapply runs_mono; [by apply update_refines|]. intros r w' [_ (Hw & Hi & _)].
  eapply runs_mono; [by apply check_virt_refines|]. intros r' w''. rewrite Hi. rewrite Hsame.
  destruct (update_then_check_page (next_string (strings w)) l virt (page_of (inst w) virt) (page_of (inst w) mach) p
              (mach_value (inst w) virt mach) (clock (ticks w)) (clock (ticks w')))
    as (e & He & Hma'); [done..|].
  destruct (spec_check _ _ _) as [o l'']. simpl in He. subst o.
  intros [-> _]. simpl. by rewrite Hma'.
Qed.

(** A symbol that was just cached is found with the machine address
    recorded, provided no entry for the page of its virtual address was in
    the way (the code would have refreshed that entry instead). *)
Theorem update_then_check_sym s virt p mach w l (i := inst w) :
  geometry i -> is_u32 virt -> cached w l -> (length l <= 25)%nat -> mach <> 0 ->
  virt = 0 \/ Forall (fun e => virt_address e <> page_of i virt) l ->
  runs (_ ← xa_update_cache (Some s) virt p mach; xa_check_cache_sym s p) w
    (fun r _ => r = Some mach).
Proof.
  intros Hg Hv Hh Hl Hm Hno. subst i. apply runs_bind.
  eapply runs_mono; [by apply update_refines|]. intros r w' [_ (Hw & Hi & _)].
  eapply runs_mono; [by apply check_sym_refines|]. intros r' w''.
  assert (Hma : mach_value (inst w) virt mach = mach).
  { unfold mach_value. by rewrite (proj2 (Z.eqb_neq mach 0) Hm). }
  rewrite Hma. destruct (update_then_check_name (next_string (strings w)) l s virt (page_of (inst w) virt)
    (page_of (inst w) mach) p mach (clock (ticks w)) (clock (ticks w'))) as (e & He & Hma'); [done..|].
  destruct (spec_check _ _ _) as [o l'']. simpl in He. subst o.
  intros [-> _]. simpl. by rewrite Hma'.
Qed.

(** A page directory that was just recorded for a process is found
    again, and the pid cache then holds at most five entries. *)
Theorem update_then_check_pid p g w (l : list xa_pid_cache_entry) :
  p <> 0 -> holds (pid_cache w) l -> (length l <= 5)%nat ->
  runs (_ ← xa_update_pid_cache p g; xa_check_pid_cache p) w
    (fun r w' => r = Some g /\ exists k, holds (pid_cache w') k /\ (length k <= 5)%nat).
Proof.
  intros Hp Hh Hl. apply runs_bind.
  eapply runs_mono; [by apply update_pid_refines|]. intros r w' [_ (Hw & _)].
  eapply runs_mono; [by apply check_pid_refines|]. intros r' w''.
  pose proof (pid_update_then_check (clock (ticks w)) (clock (ticks w')) p g l Hp) as He.
  pose proof (spec_pid_update_length (clock (ticks w)) p g l Hl) as Hl'.
  pose proof (spec_pid_check_length (clock (ticks w')) p
                (spec_pid_update (clock (ticks w)) p g l)) as Hlc.
  destruct (spec_pid_check _ _ _) as [o l'']. simpl in He, Hlc. subst o.
  intros [-> [Hh'' _]]. split; [done|]. exists l''. split; [done|lia].
Qed.
End Properties.

(** An access to page zero corrupts a cached symbol: entries for symbols
    have [virt_address] zero, so an update for an address below 4096 takes
    the first of them for the page's entry and overwrites its address.  Here
    the symbol was cached at 0x1234 and is then found at 0x5000. *)
Theorem page_zero_poisons_symbol :
  exists img, @runs _ _
    (_ ← @xa_update_cache (guest_env img) (Some (str "init_task")) 0 0 0x1234;
     _ ← @xa_update_cache (guest_env img) None 0x10 0 0x5010;
     @xa_check_cache_sym (guest_env img) (str "init_task") 0)
    (guest_world (guest_inst 1 0)) (fun r _ => r = Some 0x5000).
Proof. exists []. eexists _, _. split; vm_compute; reflexivity. Qed.

(** *** Witnesses *)

Lemma guest_caches_ok i : caches_ok (guest_world i).
Proof.
  split; exists []; (split; [|simpl; lia]); [|apply holds_empty].
  apply cached_nil; [apply holds_empty|]. by intros b ?%elem_of_empty.
Defined.

Lemma guest_cached i : cached (guest_world i) [].
Proof. apply cached_nil; [apply holds_empty|]. by intros b ?%elem_of_empty. Defined.

Lemma guest_pid_cache_holds i : holds (pid_cache (guest_world i)) [].
Proof. apply holds_empty. Defined.

(** A full cache in memory: entries with [last_used] 7, 6, ..., then 3. *)
Definition full_list : list xa_cache_entry :=
  (fun k => CacheEntry (if k <? 5 then 7 - k else 3) (OwnedString (Z.to_nat k) []) (0x10000 + 4096 * k)
              (0x4000 + 4096 * k) 0) <$> seqZ 0 25.

Definition fill (l : list xa_cache_entry) : M (dll xa_cache_entry) unit :=
  foldr (fun e m => _ ← push e; m) (mret tt) l.

Definition full_world : world :=
  match fill full_list (empty_dll 0%nat) with
  | Ret (_, d) => with_strings (StringHeap (list_to_set (seq 0 25)) 25%nat) (with_cache d (guest_world (guest_inst 1 0)))
  | _ => guest_world (guest_inst 1 0)
  end.

Lemma fill_holds l k d :
  holds d k -> (length (k ++ l) < 1000)%nat -> runs (fill l) d (fun _ d' => holds d' (k ++ l)).
Proof.
  revert k d. induction l as [|e l IH]; intros k d Hh Hl.
  - apply runs_ret. by rewrite app_nil_r.
  - simpl. apply runs_bind. eapply runs_mono; [apply push_holds; [exact Hh|]|].
    { rewrite length_app in Hl. lia. }
    intros [] d' Hd. rewrite cons_middle, app_assoc. apply IH; [done|].
    rewrite <- app_assoc. done.
Qed.

Lemma full_world_cached : cached full_world full_list.
Proof.
  destruct (fill_holds full_list [] (empty_dll 0%nat)) as (u & d & Ew & Hd);
    [apply holds_empty|vm_compute; lia|].
  unfold full_world. rewrite Ew. split; [exact Hd|]. cbn [strings with_strings].
  assert (blocks full_list = seq 0 25) as -> by (vm_compute; reflexivity).
  split; [apply NoDup_seq|]. split; cbn [live_strings next_string].
  - apply list.Forall_forall. intros b Hb. by apply elem_of_list_to_set.
  - intros b [_ Hb]%elem_of_list_to_set%elem_of_seq. exact Hb.
Qed.

Lemma cache_ops_safe_witness :
  @runs _ _ (@run_ops (guest_env flat_image)
    [OpUpdate None 0xC0003010 0 0x3010; OpUpdate (Some (str "jiffies")) 0xC0000010 0 0;
     OpCheckVirt 0xC0003020 0; OpUpdatePid 7 0x4000; OpDestroyPid; OpDestroy;
     OpUpdate None 0xC0004010 0 0x4010]) (guest_world (guest_inst 1 0))
    (fun _ w' => caches_ok w' /\ same_rest (guest_world (guest_inst 1 0)) w' /\
      count (cache w') = Z.of_nat (size (nodes (cache w'))) /\
      count (pid_cache w') = Z.of_nat (size (nodes (pid_cache w'))) /\
      size (other_strings w') = 2%nat).
Proof.
  eapply runs_mono.
  - apply (@cache_ops_safe (guest_env flat_image) (guest_whole _)).
    + apply guest_geometry.
    + repeat constructor; simpl; lia.
    + apply guest_caches_ok.
  - intros _ w' (H1 & H2 & H3 & H4 & H5). split; [exact H1|]. split; [exact H2|]. split; [exact H3|].
    split; [exact H4|]. rewrite H5. vm_compute. reflexivity.
Defined.

Lemma destroy_cache_leaks_witness :
  @runs _ _ (@xa_destroy_cache) full_world
    (fun _ w' => cached w' [] /\ nodes (cache w') = ∅ /\ strings w' = strings full_world).
Proof.
  eapply runs_mono; [apply (destroy_cache_leaks full_world full_list), full_world_cached|].
  intros _ w' (H1 & H2 & H3 & _). split; [exact H1|]. split; [exact H2|exact H3].
Defined.

Lemma update_cache_functional_witness :
  @runs _ _ (@xa_update_cache (guest_env flat_image) None 0xC0003010 0 0x3010)
    (guest_world (guest_inst 1 0)) (fun r w' => r = 1 /\
      cached w' [CacheEntry 0 (OwnedString 0%nat []) 0xC0003000 0x3000 0] /\
      inst w' = guest_inst 1 0 /\ pid_cache w' = empty_dll 0%nat /\ live_maps w' = 0).
Proof.
  apply (@update_cache_functional (guest_env flat_image) (guest_whole _) None 0xC0003010 0 0x3010
           (guest_world (guest_inst 1 0)) []).
  - apply guest_geometry.
  - lia.
  - apply guest_cached.
  - simpl. lia.
Defined.

Lemma update_cache_evicts_lru_witness :
  @runs _ _ (@xa_update_cache (guest_env flat_image) None 0xC0003010 0 0x3010)
    full_world (fun r w' => exists pre old post, full_list = pre ++ old :: post /\
      is_first_min last_used pre old post /\
      cached w' ((pre ++ post) ++ [CacheEntry 0 (OwnedString 25%nat []) 0xC0003000 0x3000 0]) /\
      others_kept full_world w').
Proof.
  apply (@update_cache_evicts_lru (guest_env flat_image) (guest_whole _) 0xC0003010 0 0x3010
           full_world full_list).
  - vm_compute. done.
  - lia.
  - lia.
  - apply full_world_cached.
  - reflexivity.
  - apply list.Forall_forall. intros e He. apply list_elem_of_fmap in He as (k & -> & Hk).
    apply elem_of_seqZ in Hk. change (page_of _ _) with 0xC0003000. cbn [virt_address]. lia.
Defined.

Lemma update_then_check_virt_witness :
  @runs _ _ (_ ← @xa_update_cache (guest_env flat_image) None 0xC0003010 0 0x3010;
             @xa_check_cache_virt (guest_env flat_image) 0xC0003F00 0)
    (guest_world (guest_inst 1 0)) (fun r _ => r = Some 0x3F00).
Proof.
  apply (@update_then_check_virt (guest_env flat_image) (guest_whole _) 0xC0003010 0xC0003F00 0 0x3010
           (guest_world (guest_inst 1 0)) []).
  - apply guest_geometry.
  - lia.
  - lia.
  - apply guest_cached.
  - simpl. lia.
  - vm_compute. discriminate.
  - reflexivity.
  - vm_compute. discriminate.
Defined.

Lemma update_then_check_sym_witness :
  @runs _ _ (_ ← @xa_update_cache (guest_env flat_image) (Some (str "jiffies")) 0xC0000010 0 0x10;
             @xa_check_cache_sym (guest_env flat_image) (str "jiffies") 0)
    (guest_world (guest_inst 1 0)) (fun r _ => r = Some 0x10).
Proof.
  apply (@update_then_check_sym (guest_env flat_image) (guest_whole _) (str "jiffies") 0xC0000010 0
           0x10 (guest_world (guest_inst 1 0)) []).
  - apply guest_geometry.
  - lia.
  - apply guest_cached.
  - simpl. lia.
  - lia.
  - right. constructor.
Defined.

Lemma update_then_check_pid_witness :
  @runs _ _ (_ ← @xa_update_pid_cache (guest_env flat_image) 7 0x4000;
             @xa_check_pid_cache (guest_env flat_image) 7)
    (guest_world (guest_inst 1 0))
    (fun r w' => r = Some 0x4000 /\ exists k, holds (pid_cache w') k /\ (length k <= 5)%nat).
Proof.
  apply (@update_then_check_pid (guest_env flat_image) 7 0x4000 (guest_world (guest_inst 1 0)) []).
  - lia.
  - apply guest_pid_cache_holds.
  - simpl. lia.
Defined.
