(* ===== verification/XaAccess.v ===== *)
(** * Access by virtual address

    Models [xa_access_user_va] and its relatives of xa_memory.c and the word
    reads of xa_util.c that go through them, and proves that the cache in
    front of the page tables is transparent: with it or without it the caller
    gets the same page.

    How the page directory of a process is found is the business of the
    operating system files, which themselves read kernel memory through
    [xa_access_kernel_va].  The recursion is untied by an argument,
    [pid_to_pgd]; the kernel's own directory (pid 0) never uses it. *)

From S2P Require Import Prelude CStr Dll XaTypes XaMap Guest PageTable XaCache.

Section Model.
Context {E : XenEnv}.

(** [xa_access_user_va]; the offset is left unset when the answer is NULL. *)
Definition access_va (pid_to_pgd : Z -> M world Z) (virt_address p prot : Z)
  : M world (option mapping * Z) :=
  (* check the LRU cache *)
  hit ← xa_check_cache_virt virt_address p;
  match hit with
  | Some address => xa_access_ma address prot
  | None =>
      address ← (if p =? 0 then
                   (* use kernel page tables *)
                   cr3 ← cr3_or_zero; xa_pagetable_lookup cr3 virt_address
                 else
                   (* use user page tables *)
                   pgd ← pid_to_pgd p;
                   if negb (pgd =? 0) then xa_pagetable_lookup pgd virt_address else mret 0
                 : M world Z);
      if address =? 0 then mret (None, 0)
      else
        (* update cache and map the memory *)
        _ ← xa_update_cache None virt_address p address;
        xa_access_ma address prot
  end.

Definition xa_access_kernel_va (virt_address prot : Z) : M world (option mapping * Z) :=
  access_va (fun _ => fault) virt_address 0 prot.

(** [xa_read_long_virt] and [xa_read_long_long_virt] *)
Definition read_virt (n : nat) (pid_to_pgd : Z -> M world Z) (vaddr p : Z) : M world (option Z) :=
  r ← access_va pid_to_pgd vaddr p PROT_READ; read_through n r.

Definition read_kernel (n : nat) (vaddr : Z) : M world (option Z) :=
  read_virt n (fun _ => fault) vaddr 0.

(** The copy of [xc_map_foreign_pages] in xa_util.c: the batch call, then a
    look at the marks it left in the array. *)
Definition xc_map_foreign_pages (dom prot : Z) (arr : list Z) : M world (option mapping) :=
  res ← do_map (xc_map_foreign_batch dom prot arr);
  match res with
  | None => mret None
  | Some m =>
      if existsb (fun pfn => Z.land pfn 0xF0000000 =? 0xF0000000) (xc_batch_result dom prot arr)
      then _ ← munmap; mret None
      else mret (Some m)
  end.

(** The loop of [xa_access_user_va_range]: the frames of the pages from
    [start] on, [None] when an address is zero. *)
Fixpoint range_pfns (pgd start : Z) (k : Z) (n : nat) : M world (option (list Z)) :=
  match n with
  | O => mret (Some [])
  | S n' =>
      i ← gets inst;
      let addr := u32 (start + k * page_size i) in
      if addr =? 0 then mret None
      else
        a ← xa_pagetable_lookup pgd addr;
        rest ← range_pfns pgd start (k + 1) n';
        mret (cons (Z.shiftr a (page_shift i)) <$> rest)
  end.

Definition range_num_pages (i : xa_instance) (size : Z) : Z := u32 (size / page_size i + 1).

Definition access_va_range (pid_to_pgd : Z -> M world Z) (virt_address size p prot : Z)
  : M world (option mapping * Z) :=
  i ← gets inst;
  let num_pages := range_num_pages i size in
  pgd ← (if negb (p =? 0) then pid_to_pgd p else cr3_or_zero : M world Z);
  let start := page_of i virt_address in
  pfns ← range_pfns pgd start 0 (Z.to_nat num_pages);
  match pfns with
  | None => mret (None, 0)
  | Some l =>
      let offset := u32 (virt_address - start) in
      r ← xc_map_foreign_pages (domain_id (m_xen i)) prot l;
      mret (r, offset)
  end.

Definition xa_access_kernel_va_range (virt_address size prot : Z) : M world (option mapping * Z) :=
  access_va_range (fun _ => fault) virt_address size 0 prot.
End Model.

(** ** What a client of the memory may rely on *)

(** [PidToPgd i pgd_of m]: on instance [i], the computation [m] finds the page
    directory [pgd_of p] of every process [p], and keeps what holds of the
    two caches ([I]).  The operating system files provide it. *)
Class PidToPgd {E : XenEnv} (I : world -> Prop) (pgd_of : Z -> Z) (m : Z -> M world Z) : Prop :=
  pid_to_pgd_runs : forall p w, I w -> p <> 0 ->
    runs (m p) w (fun r w' => r = pgd_of p /\ I w' /\ live_maps w' = live_maps w).

Section Transparent.
Context {E : XenEnv} {W : WholePages}.
Variables (i : xa_instance) (pgd_of : Z -> Z).
Hypothesis Hgeo : geometry i.
Hypothesis Hpgd : forall p, is_u32 (pgd_of p).

(** Translation by the page tables alone. *)
Definition translate (p v : Z) : Z :=
  if p =? 0 then kv2p i v
  else if pgd_of p =? 0 then 0 else pt_lookup i (pgd_of p) v.

(** A cached page is the page the tables give, at every offset. *)
Definition entry_coherent (e : xa_cache_entry) : Prop :=
  virt_address e <> 0 -> mach_address e <> 0 ->
  is_u32 (mach_address e) /\ mach_address e mod 4096 = 0 /\
  forall o, 0 <= o < 4096 -> translate (pid e) (virt_address e + o) = mach_address e + o.

Definition pid_entry_coherent (e : xa_pid_cache_entry) : Prop := pgd e = pgd_of (p_pid e).

Definition coherent (w : world) : Prop :=
  inst w = i /\
  (exists l, cached w l /\ (length l <= 25)%nat /\ Forall entry_coherent l) /\
  (exists l, holds (pid_cache w) l /\ (length l <= 5)%nat /\ Forall pid_entry_coherent l).

(** The page and offset for a virtual address, without any cache. *)
Definition page_at (prot a : Z) : option mapping * Z :=
  if a =? 0 then (None, 0) else (frame_of i prot (a / 4096), a mod 4096).

Lemma page_of_eq v : is_u32 v -> page_of i v = v / 4096 * 4096.
Proof.
  intros Hv. unfold page_of. destruct Hgeo as [_ ->].
  change (u32 (Z.lnot (u32 (4096 - 1)))) with 0xFFFFF000. by rewrite mask_page.
Qed.

Lemma page_off_eq v : page_off i v = v mod 4096.
Proof.
  unfold page_off. destruct Hgeo as [_ ->].
  change (u32 (4096 - 1)) with (Z.ones 12). by rewrite Z.land_ones.
Qed.

Lemma page_split_eq v : is_u32 v -> v = page_of i v + v mod 4096.
Proof. intros Hv. rewrite page_of_eq by done. pose proof (Z.div_mod v 4096). lia. Qed.

Lemma page_of_aligned v : is_u32 v -> page_of i v mod 4096 = 0.
Proof. intros Hv. rewrite page_of_eq by done. by apply Z.mod_mul. Qed.

Lemma translate_page p b o a :
  b mod 4096 = 0 -> 0 <= o < 4096 -> translate p (b + o) = a -> a <> 0 ->
  is_u32 (a - o) /\ (a - o) mod 4096 = 0 /\
  forall o', 0 <= o' < 4096 -> translate p (b + o') = (a - o) + o'.
Proof.
  intros Hb Ho. unfold translate, kv2p. destruct (p =? 0).
  - by apply pt_lookup_page.
  - destruct (pgd_of p =? 0); [by intros <-|]. by apply pt_lookup_page.
Qed.

Lemma translate_u32 p v : is_u32 (translate p v).
Proof.
  unfold translate, kv2p. destruct (p =? 0); [apply pt_lookup_spec|].
  destruct (pgd_of p =? 0); [lia|apply pt_lookup_spec].
Qed.

(** A translation, cut to its page and made into an entry, is coherent. *)
Lemma entry_coherent_new now s p v a :
  is_u32 v -> translate p v = a -> a <> 0 ->
  entry_coherent (CacheEntry now s (page_of i v) (page_of i a) p).
Proof.
  intros Hv Ha Ha0 _ _. cbn [virt_address mach_address pid].
  pose proof (Z.mod_pos_bound v 4096 ltac:(lia)) as Ho.
  rewrite (page_split_eq v Hv) in Ha.
  destruct (translate_page p (page_of i v) (v mod 4096) a) as (Hr & Hm & Hall);
    [by apply page_of_aligned|done|done|done|].
  assert (page_of i a = a - v mod 4096) as ->; [|done].
  assert (is_u32 a) by (rewrite <- Ha; apply translate_u32).
  rewrite page_of_eq by done. apply Z.mod_divide in Hm as [q Hq]; [|done].
  replace a with (q * 4096 + v mod 4096) by lia.
  rewrite Z.div_add_l, (Z.div_small (v mod 4096)) by lia. lia.
Qed.

Lemma spec_check_Forall P hit now l :
  (forall e, P e -> P (touch now e)) -> Forall P l -> Forall P (spec_check hit now l).2.
Proof.
  intros HP Hl. unfold spec_check.
  destruct (split_first hit l) as [[[pre e] post]|] eqn:Es; [|done].
  apply split_first_Some in Es as [-> _].
  apply Forall_app in Hl as [H1 [H2 H3]%list.Forall_cons].
  apply Forall_app. split; [done|]. constructor; auto.
Qed.

Lemma spec_check_hit hit now l e :
  (spec_check hit now l).1 = Some e -> e ∈ l /\ hit e = true.
Proof.
  unfold spec_check. destruct (split_first hit l) as [[[pre e'] post]|] eqn:Es; [|done].
  apply split_first_Some in Es as (-> & He & _). intros [= <-]. split; [|done].
  apply elem_of_app. right. apply list_elem_of_here.
Qed.

Lemma coherent_step w l w' :
  coherent w -> cache_step w l w' -> (length l <= 25)%nat -> Forall entry_coherent l ->
  coherent w' /\ live_maps w' = live_maps w.
Proof.
  intros (Hi & _ & Hp) (Hh & Hi' & Hp' & Hm & _) Hl Hc. split; [|done].
  split; [by rewrite Hi'|]. rewrite Hp'. split; [|done]. by exists l.
Qed.

Lemma coherent_opened w m : coherent w -> coherent (opened m w).
Proof. by destruct m. Qed.

Lemma live_maps_opened w m :
  live_maps (opened m w) = live_maps w + (match m with Some _ => 1 | None => 0 end).
Proof. destruct m; simpl; lia. Qed.

(** A hit is the right answer. *)
Lemma check_virt_coherent v p w :
  coherent w -> is_u32 v ->
  runs (xa_check_cache_virt v p) w (fun r w' => coherent w' /\ live_maps w' = live_maps w /\
    match r with Some a => a = translate p v /\ a <> 0 | None => True end).
Proof.
  intros Hc Hv. pose proof Hc as (Hi & (l & Hh & Hl & Hf) & _).
  eapply runs_mono; [by apply check_virt_refines|]. rewrite Hi. intros r w' H.
  pose proof (spec_check_length (virt_hit (page_of i v) p) (clock (ticks w)) l) as Hlen.
  pose proof (spec_check_Forall entry_coherent (virt_hit (page_of i v) p) (clock (ticks w)) l
                (fun e He => He) Hf) as Hf'.
  pose proof (spec_check_hit (virt_hit (page_of i v) p) (clock (ticks w)) l) as Hhit.
  destruct (spec_check _ _ l) as [o l']. simpl in Hlen, Hf', Hhit. destruct H as [-> Hs].
  destruct (coherent_step w l' w') as [Hc' Hm]; [done|done|lia|done|].
  split; [done|]. split; [done|]. destruct o as [e|]; [|done]. simpl.
  destruct (Hhit e eq_refl) as [He Hh']. unfold virt_hit in Hh'.
  destruct (virt_address e =? 0) eqn:E0; [done|]. zbool.
  rewrite list.Forall_forall in Hf. specialize (Hf e He) as (Hu & Hal & Hall); [done|done|].
  rewrite page_off_eq. pose proof (Z.mod_pos_bound v 4096 ltac:(lia)) as Ho.
  rewrite (lor_add _ _ 12) by done.
  subst p. split; [|lia]. symmetry. rewrite (page_split_eq v) at 1 by done.
  match goal with H : virt_address e = _ |- _ => rewrite <- H end. by apply Hall.
Qed.

(** Recording a translation keeps the cache coherent. *)
Lemma update_coherent v p a w :
  coherent w -> is_u32 v -> translate p v = a -> a <> 0 ->
  runs (xa_update_cache None v p a) w (fun _ w' => coherent w' /\ live_maps w' = live_maps w).
Proof.
  intros Hc Hv Ha Ha0. pose proof Hc as (Hi & (l & Hh & Hl & Hf) & _).
  eapply runs_mono; [apply update_refines; [by rewrite Hi|done|done|done]|].
  rewrite Hi. intros r w' [_ Hs].
  eapply coherent_step; [done|exact Hs|by apply spec_update_length|].
  unfold spec_update. destruct (v =? 0); [done|].
  destruct (split_first _ l) as [[[pre e] post]|] eqn:Es.
  - apply split_first_Some in Es as (-> & He%Z.eqb_eq & _).
    apply Forall_app in Hf as [H1 [_ H3]%list.Forall_cons].
    apply Forall_app. split; [done|]. constructor; [|done].
    rewrite He. by apply entry_coherent_new.
  - apply Forall_app. split; [by apply make_room_Forall|].
    constructor; [by apply entry_coherent_new|constructor].
Qed.

(** The path that misses the cache computes the translation. *)
Lemma translate_runs m v p w :
  coherent w -> is_u32 v -> p = 0 \/ PidToPgd coherent pgd_of m ->
  runs (if p =? 0 then cr3 ← cr3_or_zero; xa_pagetable_lookup cr3 v
        else pgd ← m p; if negb (pgd =? 0) then xa_pagetable_lookup pgd v else mret 0
        : M world Z) w
    (fun a w' => a = translate p v /\ coherent w' /\ live_maps w' = live_maps w).
Proof.
  intros Hc Hv Hm. unfold translate. destruct (Z.eqb_spec p 0) as [->|Hp].
  - eapply runs_eq; [apply xa_translate_kv2p_eq; [|done]|].
    { by destruct Hc as [-> _]. }
    pose proof Hc as [Hi _]. by rewrite Hi.
  - destruct Hm as [?|Hm]; [done|]. apply runs_bind.
    eapply runs_mono; [by apply pid_to_pgd_runs|]. intros g w' (-> & Hc' & Hl).
    destruct (pgd_of p =? 0); [by apply runs_ret|].
    eapply runs_eq; [apply xa_pagetable_lookup_eq; [|apply Hpgd|done]|].
    { by destruct Hc' as [-> _]. }
    pose proof Hc' as [Hi _]. by rewrite Hi.
Qed.

Lemma access_ma_coherent a prot w :
  coherent w -> is_u32 a -> a <> 0 ->
  runs (xa_access_ma a prot) w (fun r w' => r = page_at prot a /\ coherent w' /\
    live_maps w' = live_maps w + match r.1 with Some _ => 1 | None => 0 end).
Proof.
  intros Hc Ha Ha0%Z.eqb_neq. pose proof Hc as [Hi _].
  eapply runs_eq; [apply xa_access_ma_eq; [by rewrite Hi|done]|].
  unfold page_at. rewrite Ha0, Hi. split; [done|].
  split; [by apply coherent_opened|]. apply live_maps_opened.
Qed.

Lemma access_va_coherent m v p prot w :
  coherent w -> is_u32 v -> p = 0 \/ PidToPgd coherent pgd_of m ->
  runs (access_va m v p prot) w (fun r w' =>
    r = page_at prot (translate p v) /\ coherent w' /\
    live_maps w' = live_maps w + match r.1 with Some _ => 1 | None => 0 end).
Proof.
  intros Hc Hv Hm. apply runs_bind. eapply runs_mono; [by apply check_virt_coherent|].
  intros [a|] w1 (Hc1 & Hl1 & Ha).
  - destruct Ha as [-> Ha0]. rewrite <- Hl1.
    apply access_ma_coherent; [done|apply translate_u32|done].
  - apply runs_bind. eapply runs_mono; [by apply translate_runs|].
    intros a w2 (-> & Hc2 & Hl2). rewrite <- Hl1, <- Hl2.
    clear Ha. destruct (Z.eqb_spec (translate p v) 0) as [Ha|Ha].
    + apply runs_ret. unfold page_at. rewrite Ha. split; [done|]. split; [done|simpl; lia].
    + apply runs_bind. eapply runs_mono; [by apply update_coherent|].
      intros _ w3 [Hc3 Hl3]. rewrite <- Hl3.
      apply access_ma_coherent; [done|apply translate_u32|done].
Qed.

(** What a word read at a virtual address gives. *)
Definition read_at (n : nat) (p v : Z) : option Z :=
  let a := translate p v in if a =? 0 then None else mem_read i n a.

Lemma translate_offset p v :
  is_u32 v -> translate p v <> 0 -> translate p v mod 4096 = v mod 4096.
Proof.
  intros Hv Ha. pose proof (Z.mod_pos_bound v 4096 ltac:(lia)) as Ho.
  destruct (translate_page p (page_of i v) (v mod 4096) (translate p v)) as (_ & Hm & _);
    [by apply page_of_aligned|done|by rewrite <- page_split_eq|done|].
  apply Z.mod_divide in Hm as [q Hq]; [|done].
  replace (translate p v) with (v mod 4096 + q * 4096) by lia.
  rewrite Z.mod_add, Z.mod_mod by lia. done.
Qed.

Lemma page_at_whole prot a m o : page_at prot a = (Some m, o) -> m_len m = 4096 /\ o = a mod 4096.
Proof.
  unfold page_at. destruct (a =? 0); [done|]. intros [= Hm <-]. split; [|done].
  by eapply frame_whole.
Qed.

(** Reading through a page that was mapped for a virtual address. *)
Lemma read_page_coherent n f o p v w w' :
  is_u32 v -> v mod 4096 + Z.of_nat n <= 4096 ->
  (f, o) = page_at PROT_READ (translate p v) -> coherent w' ->
  live_maps w' = live_maps w + match f with Some _ => 1 | None => 0 end ->
  runs (read_through n (f, o)) w' (fun r w'' =>
    r = read_at n p v /\ coherent w'' /\ live_maps w'' = live_maps w).
Proof.
  intros Hv Hn Hr Hc' Hl. unfold page_at in Hr. unfold read_at, mem_read.
  destruct (Z.eqb_spec (translate p v) 0) as [Ha|Ha]; injection Hr as -> ->.
  { apply runs_ret. split; [done|]. split; [done|lia]. }
  pose proof (translate_offset p v Hv Ha) as Ho. rewrite Ho.
  destruct (frame_of i PROT_READ (translate p v / 4096)) as [mp|] eqn:Hf; simpl.
  - apply runs_bind. pose proof (Z.mod_pos_bound v 4096 ltac:(lia)).
    apply load_runs; [lia| |].
    { rewrite (frame_whole _ _ _ _ Hgeo Hf). lia. }
    apply runs_bind, runs_modify, runs_ret. split; [done|]. split; [done|simpl; lia].
  - apply runs_ret. split; [done|]. split; [done|lia].
Qed.

Lemma read_virt_coherent n m v p w :
  coherent w -> is_u32 v -> p = 0 \/ PidToPgd coherent pgd_of m ->
  v mod 4096 + Z.of_nat n <= 4096 ->
  runs (read_virt n m v p) w (fun r w' =>
    r = read_at n p v /\ coherent w' /\ live_maps w' = live_maps w).
Proof.
  intros Hc Hv Hm Hn. apply runs_bind. eapply runs_mono; [by apply access_va_coherent|].
  intros [f o] w' (Hr & Hc' & Hl). by apply read_page_coherent.
Qed.
End Transparent.

(** ** Symbols and the cache *)

Section SymbolCache.
Context {E : XenEnv} {W : WholePages}.
Variables (i : xa_instance) (pgd_of : Z -> Z).
Hypothesis Hgeo : geometry i.

Lemma check_sym_miss name p w lc :
  coherent i pgd_of w -> cached w lc -> Forall (fun e => sym_hit name p e = false) lc ->
  runs (xa_check_cache_sym name p) w (fun r w' =>
    r = None /\ coherent i pgd_of w' /\ live_maps w' = live_maps w).
Proof.
  intros Hc Hh Hno. pose proof Hc as (Hi & (l & Hl & Hlen & Hf) & Hp).
  pose proof (cached_inj _ _ _ Hh Hl) as ->.
  eapply runs_mono; [by apply check_sym_refines|]. intros r w' H.
  unfold spec_check in H. rewrite split_first_None in H by done. destruct H as [-> Hs].
  split; [done|]. by eapply coherent_step.
Qed.

(** Recording a symbol keeps the page entries coherent. *)
Lemma update_sym_coherent name v p w :
  coherent i pgd_of w -> is_u32 v ->
  runs (xa_update_cache (Some name) v p 0) w (fun _ w' =>
    coherent i pgd_of w' /\ live_maps w' = live_maps w).
Proof.
  intros Hc Hv. pose proof Hc as (Hi & (l & Hh & Hl & Hf) & _).
  eapply runs_mono; [apply update_refines; [by rewrite Hi|done|done|done]|].
  rewrite Hi. intros r w' [_ Hs].
  eapply coherent_step; [done|exact Hs|by apply spec_update_length|].
  assert (Hzero : page_of i 0 = 0) by done.
  unfold spec_update. rewrite Hzero.
  destruct (split_first (sym_matches name) l) as [[[pre e] post]|] eqn:Es.
  - apply split_first_Some in Es as (-> & _ & _).
    apply Forall_app in Hf as [H1 [_ H3]%list.Forall_cons].
    apply Forall_app. split; [done|]. constructor; [|done]. by intros ?.
  - destruct (if v =? 0 then None else _) as [[[pre e] post]|] eqn:Ev.
    + destruct (v =? 0); [done|]. apply split_first_Some in Ev as (-> & _ & _).
      apply Forall_app in Hf as [H1 [_ H3]%list.Forall_cons].
      apply Forall_app. split; [done|]. constructor; [|done]. by intros _ ?.
    + apply Forall_app. split; [by apply make_room_Forall|]. constructor; [by intros ?|constructor].
Qed.
End SymbolCache.

(** ** Ranges *)

Section Range.
Context {E : XenEnv} {W : WholePages}.
Implicit Types (w : world) (i : xa_instance).

(** The page addresses of a range and the frames behind them. *)
Definition range_addrs i (start k : Z) (n : nat) : list Z :=
  (fun j => u32 (start + j * page_size i)) <$> seqZ k (Z.of_nat n).

Definition range_frames i (pgd start k : Z) (n : nat) : list Z :=
  (fun addr => pt_lookup i pgd addr / 4096) <$> range_addrs i start k n.

Lemma range_addrs_S i start k n :
  range_addrs i start k (S n) = u32 (start + k * page_size i) :: range_addrs i start (k + 1) n.
Proof. unfold range_addrs. rewrite seqZ_cons by lia. cbn. by rewrite Nat2Z.inj_succ, Z.pred_succ. Qed.

Lemma range_pfns_eq pgd start k n w (i := inst w) :
  geometry i -> is_u32 pgd ->
  range_pfns pgd start k n w =
  Ret (if decide (0 ∈ range_addrs i start k n) then None
       else Some (range_frames i pgd start k n), w).
Proof.
  intros Hg Hp. revert k. induction n as [|n IH]; intros k; [done|].
  cbn [range_pfns]. erewrite bind_eq by done. fold i. unfold range_frames.
  rewrite range_addrs_S. cbn [fmap list_fmap].
  destruct (Z.eqb_spec (u32 (start + k * page_size i)) 0) as [E0|E0].
  - rewrite E0. rewrite decide_True; [done|]. apply list_elem_of_here.
  - erewrite bind_eq by (apply xa_pagetable_lookup_eq; [done|done|apply u32_range]).
    erewrite bind_eq by apply IH. fold i.
    destruct (decide (0 ∈ range_addrs i start (k + 1) n)) as [Hin|Hin].
    + rewrite decide_True; [done|]. by apply list_elem_of_further.
    + rewrite decide_False; [|by intros [?|?]%elem_of_cons].
      simpl. unfold mret, M_ret. repeat f_equal. destruct Hg as [-> _].
      by rewrite Z.shiftr_div_pow2.
Qed.
End Range.

(** ** Properties *)

Section Properties.
Context {E : XenEnv} {W : WholePages}.
Implicit Types (w : world) (i : xa_instance).

(** C16: the cache is transparent for kernel addresses: whatever coherent
    contents the two caches have, [xa_access_kernel_va] terminates and gives
    the page and the offset the page tables give (NULL when they give none);
    it leaves the caches coherent and opens one mapping, the one it
    returns. *)
Theorem kernel_va_transparent i pgd_of v prot w :
  geometry i -> (forall p, is_u32 (pgd_of p)) -> coherent i pgd_of w -> is_u32 v ->
  runs (xa_access_kernel_va v prot) w (fun r w' =>
    r = page_at i prot (kv2p i v) /\ coherent i pgd_of w' /\
    live_maps w' = live_maps w + match r.1 with Some _ => 1 | None => 0 end).
Proof. intros Hg Hp Hc Hv. apply (access_va_coherent i pgd_of Hg Hp _ v 0); [done|done|by left]. Qed.

(** The cache is transparent for user addresses too, given any component
    that finds the page directory of a process: the answer is the page of
    that process's own tables, never a page cached for another process. *)
Theorem user_va_transparent i pgd_of m v p prot w :
  geometry i -> (forall p, is_u32 (pgd_of p)) -> PidToPgd (coherent i pgd_of) pgd_of m ->
  coherent i pgd_of w -> is_u32 v -> p <> 0 -> pgd_of p <> 0 ->
  runs (access_va m v p prot) w (fun r w' =>
    r = page_at i prot (pt_lookup i (pgd_of p) v) /\ coherent i pgd_of w' /\
    live_maps w' = live_maps w + match r.1 with Some _ => 1 | None => 0 end).
Proof.
  intros Hg Hp Hm Hc Hv Hp0%Z.eqb_neq Hg0%Z.eqb_neq.
  eapply runs_mono; [apply (access_va_coherent i pgd_of Hg Hp m v p); [done|done|by right]|].
  intros r w' H. unfold translate in H. by rewrite Hp0, Hg0 in H.
Qed.

(** Reading a word at a kernel address returns the word of the guest's
    memory at the translated address, or fails when there is no page; the
    mapping is closed again and the caches stay coherent. *)
Theorem read_kernel_value n i pgd_of v w :
  geometry i -> (forall p, is_u32 (pgd_of p)) -> coherent i pgd_of w -> is_u32 v ->
  v mod 4096 + Z.of_nat n <= 4096 ->
  runs (read_kernel n v) w (fun r w' =>
    r = (if kv2p i v =? 0 then None else mem_read i n (kv2p i v)) /\
    coherent i pgd_of w' /\ live_maps w' = live_maps w).
Proof. intros Hg Hp Hc Hv Hn. apply (read_virt_coherent i pgd_of Hg Hp n _ v 0); [done|done|by left|done]. Qed.

(** [xa_access_kernel_va_range] asks libxc for the frames of
    [size / page_size + 1] consecutive pages, translated one by one, and
    fails when one of their addresses is zero. *)
Theorem kernel_va_range_functional v size prot w (i := inst w)
    (n := Z.to_nat (range_num_pages i size)) (c := default 0 (current_cr3 i)) :
  geometry i -> is_u32 v ->
  xa_access_kernel_va_range v size prot w =
  if decide (0 ∈ range_addrs i (v / 4096 * 4096) 0 n) then Ret ((None, 0), w)
  else (r ← xc_map_foreign_pages (domain_id (m_xen i)) prot
              (range_frames i c (v / 4096 * 4096) 0 n);
        mret (r, v mod 4096)) w.
Proof.
  intros Hg Hv. unfold xa_access_kernel_va_range, access_va_range.
  erewrite bind_eq by done. fold i. change (negb (0 =? 0)) with false. cbv iota zeta.
  erewrite bind_eq by apply cr3_or_zero_eq. fold i. rewrite page_of_eq by done.
  erewrite bind_eq by (apply range_pfns_eq; [done|apply current_cr3_u32]). fold i c n.
  destruct (decide _); [done|]. f_equal.
  replace (u32 (v - v / 4096 * 4096)) with (v mod 4096); [done|].
  rewrite Z.mod_eq, (Z.mul_comm 4096) by done. symmetry. apply u32_small.
  pose proof (Z.mod_eq v 4096). pose proof (Z.mod_pos_bound v 4096). lia.
Qed.
End Properties.

(** The number of pages does not take the offset into account: the range
    mapped ends before the range asked for exactly when the offset of its
    start and the remainder of its size together exceed a page. *)
Theorem range_too_short i v size :
  geometry i -> 0 <= v -> 0 <= size < 4294967296 ->
  (4096 * range_num_pages i size < v mod 4096 + size <-> 4096 < v mod 4096 + size mod 4096).
Proof.
  intros [_ Hs] Hv Hsz. unfold range_num_pages. rewrite Hs, u32_small.
  - pose proof (Z.div_mod size 4096). lia.
  - assert (size / 4096 < 1048576) by (apply Z.div_lt_upper_bound; lia).
    assert (0 <= size / 4096) by (apply Z.div_pos; lia). lia.
Qed.

(** *** Witnesses *)

Definition guest_pgd (p : Z) : Z := if p =? 0 then 0 else 0x1000.

Lemma guest_pgd_u32 p : is_u32 (guest_pgd p).
Proof. unfold guest_pgd. destruct (p =? 0); lia. Defined.

Lemma world_coherent `{E : XenEnv} i pgd_of : coherent i pgd_of (guest_world i).
Proof.
  split; [done|]. split; exists [].
  - split; [apply guest_cached|]. split; [simpl; lia|constructor].
  - split; [apply holds_empty|]. split; [simpl; lia|constructor].
Defined.

Lemma guest_coherent img os pgd_of :
  @coherent (guest_env img) (guest_inst os 0) pgd_of (guest_world (guest_inst os 0)).
Proof. apply world_coherent. Defined.

Lemma guest_pid_to_pgd img I : @PidToPgd (guest_env img) I guest_pgd (fun p => mret (guest_pgd p)).
Proof. intros p w HI Hp. by apply runs_ret. Defined.

Lemma kernel_va_transparent_witness :
  @runs _ _ (@xa_access_kernel_va (guest_env flat_image) 0xC0003010 PROT_READ)
    (guest_world (guest_inst 1 0)) (fun r w' =>
      r.2 = 0x10 /\ live_maps w' = live_maps (guest_world (guest_inst 1 0)) + 1).
Proof.
  eapply runs_mono.
  - apply (@kernel_va_transparent (guest_env flat_image) (guest_whole _) (guest_inst 1 0) guest_pgd).
    + apply guest_geometry.
    + apply guest_pgd_u32.
    + apply guest_coherent.
    + lia.
  - intros r w' (-> & _ & Hl). split; [reflexivity|exact Hl].
Defined.

Lemma user_va_transparent_witness :
  @runs _ _ (@access_va (guest_env flat_image) (fun p => mret (guest_pgd p)) 0x400010 7 PROT_READ)
    (guest_world (guest_inst 1 0)) (fun r w' =>
      r.2 = 0x10 /\ live_maps w' = live_maps (guest_world (guest_inst 1 0)) + 1).
Proof.
  eapply runs_mono.
  - apply (@user_va_transparent (guest_env flat_image) (guest_whole _) (guest_inst 1 0) guest_pgd).
    + apply guest_geometry.
    + apply guest_pgd_u32.
    + apply guest_pid_to_pgd.
    + apply guest_coherent.
    + lia.
    + lia.
    + vm_compute. discriminate.
  - intros r w' (-> & _ & Hl). split; [reflexivity|exact Hl].
Defined.

Lemma read_kernel_value_witness :
  @runs _ _ (@read_kernel (guest_env flat_image) 4 0xC0003010)
    (guest_world (guest_inst 1 0)) (fun r _ => r = Some 0xCAFE).
Proof.
  eapply runs_mono.
  - apply (@read_kernel_value (guest_env flat_image) (guest_whole _) 4 (guest_inst 1 0) guest_pgd).
    + apply guest_geometry.
    + apply guest_pgd_u32.
    + apply guest_coherent.
    + lia.
    + vm_compute. discriminate.
  - intros r w' (-> & _). vm_compute. reflexivity.
Defined.

Lemma kernel_va_range_functional_witness :
  @xa_access_kernel_va_range (guest_env flat_image) 0xC0003010 0x2000 PROT_READ
    (guest_world (guest_inst 1 0)) = Ret ((None, 0x10), guest_world (guest_inst 1 0)).
Proof.
  refine (eq_trans (@kernel_va_range_functional (guest_env flat_image) (guest_whole _) 0xC0003010
    0x2000 PROT_READ (guest_world (guest_inst 1 0)) _ _) _).
  - apply guest_geometry.
  - lia.
  - vm_compute. reflexivity.
Defined.

Lemma range_too_short_witness :
  geometry (guest_inst 1 0) /\ 4096 * range_num_pages (guest_inst 1 0) 2 < 0xFFF mod 4096 + 2.
Proof.
  split; [apply guest_geometry|].
  apply (proj2 (range_too_short (guest_inst 1 0) 0xFFF 2 (guest_geometry 1 0) ltac:(lia) ltac:(lia))).
  vm_compute. reflexivity.
Defined.
