(* ===== verification/Symbols.v ===== *)
(** * Symbol files

    Models xa_symbols.c, which looks a symbol up in a file of rows, and
    linux_symbols.c, which applies it to the System.map of a Linux guest, and
    proves that looking a name up in a well-formed System.map yields the
    address of its first row. *)

From Stdlib Require Import String.
From S2P Require Import Prelude CStr.

Definition MAX_ROW_LENGTH : nat := 200.

(** [fgets(row, MAX_ROW_LENGTH, f)]: the bytes up to and including the next
    newline, at most 199 of them, and the rest of the file. *)
Fixpoint read_line (n : nat) (f : list Z) : list Z * list Z :=
  match n, f with
  | S n', c :: f' =>
      if c =? 10 then ([c], f')
      else let '(l, r) := read_line n' f' in (c :: l, r)
  | _, _ => ([], f)
  end.

(** The row buffer after [fgets]: the line, a NUL, and what was there before. *)
Definition fill_row (line row : list Z) : list Z :=
  line ++ 0 :: drop (S (length line)) row.

(** The loop that skips [n] columns, from the current position on; [sp] says
    that it is inside a run of white space.  The white space is overwritten
    with NULs.  Answers the bytes before the token and those from the token
    on, or [None] when the row ends first.  A run of white space at the very
    end of the buffer is left only by reading past it. *)
Fixpoint cut_columns (n : nat) (sp : bool) (l : list Z) : result (option (list Z * list Z)) :=
  let prepend c r :=
    match r with
    | Ret (Some (a, b)) => Ret (Some (c :: a, b))
    | r => r
    end in
  match l with
  | [] => if sp then Fault else Ret (if (n =? 0)%nat then Some ([], []) else None)
  | c :: l' =>
      if sp then
        if isspace c then prepend 0 (cut_columns n true l')
        else if (pred n =? 0)%nat then Ret (Some ([], l))
        else prepend c (cut_columns (pred n) false l')
      else
        if (n =? 0)%nat then Ret (Some ([], l))
        else if isspace c then prepend 0 (cut_columns n true l')
        else prepend c (cut_columns n false l')
  end.

(** The token ends at the next white space, or at the end of the buffer. *)
Fixpoint cut_token (l : list Z) : list Z :=
  match l with
  | [] => []
  | c :: l' => if isspace c then 0 :: l' else c :: cut_token l'
  end.

(** [strncmp(token, symbol, n) == 0] where the token runs to the end of the
    buffer [buf]; reading past the buffer is undefined. *)
Fixpoint token_is (n : nat) (buf : list Z) (s : cstr) : result bool :=
  match n with
  | O => Ret true
  | S n' =>
      match buf with
      | [] => Fault
      | b :: buf' =>
          match s with
          | [] => Ret (b =? 0)
          | c :: s' => if b =? c then token_is n' buf' s' else Ret false
          end
      end
  end.

(** [get_symbol_row]: the row buffer of the first row whose column [position]
    is the symbol, or [None] (XA_FAILURE).  The fuel bounds the rows read; a
    row is at least one byte of the file. *)
Fixpoint get_symbol_row (fuel : nat) (f row : list Z) (symbol : cstr) (position : nat)
  : result (option (list Z)) :=
  match fuel with
  | O => Diverge
  | S n =>
      match f with
      | [] => Ret None
      | _ =>
          let '(line, f') := read_line (pred MAX_ROW_LENGTH) f in
          let row1 := fill_row line row in
          match cut_columns position false row1 with
          | Ret (Some (before, token)) =>
              let token' := cut_token token in
              match token_is MAX_ROW_LENGTH token' symbol with
              | Ret true => Ret (Some (before ++ token'))
              | Ret false => get_symbol_row n f' (before ++ token') symbol position
              | Fault => Fault
              | Diverge => Diverge
              end
          | Ret None => Ret None (* goto error_exit *)
          | Fault => Fault
          | Diverge => Diverge
          end
      end
  end.

(** *** [strtoul(row, NULL, 16)] *)

Definition hex_value (c : Z) : option Z :=
  if (48 <=? c) && (c <=? 57) then Some (c - 48)
  else if (97 <=? c) && (c <=? 102) then Some (c - 87)
  else if (65 <=? c) && (c <=? 70) then Some (c - 55)
  else None.

(** digits up to the first byte that is none *)
Fixpoint hex_digits (acc : Z) (s : list Z) : Z :=
  match s with
  | [] => acc
  | c :: s' => match hex_value c with
               | Some d => hex_digits (16 * acc + d) s'
               | None => acc
               end
  end.

(** [0x] is a prefix only in front of a digit *)
Definition skip_0x (s : list Z) : list Z :=
  match s with
  | 48 :: x :: d :: _ =>
      if ((x =? 120) || (x =? 88)) && (match hex_value d with Some _ => true | None => false end)
      then drop 2 s else s
  | _ => s
  end.

Fixpoint skip_space (s : list Z) : list Z :=
  match s with
  | c :: s' => if isspace c then skip_space s' else s
  | [] => []
  end.

(** ULONG_MAX when the value does not fit *)
Definition strtoul16 (row : list Z) : Z :=
  let s := skip_space row in
  let '(neg, s) := match s with
                   | 45 :: s' => (true, s')
                   | 43 :: s' => (false, s')
                   | _ => (false, s)
                   end in
  let v := hex_digits 0 (skip_0x s) in
  if 4294967295 <? v then 4294967295 else if (neg : bool) then u32 (- v) else v.

(** [linux_system_map_symbol_to_address] on the bytes of the map file and
    what [malloc] left in the row buffer. *)
Definition system_map_lookup (file row : list Z) (symbol : cstr) : result (option Z) :=
  match get_symbol_row (S (length file)) file row symbol 2 with
  | Ret (Some row') => Ret (Some (strtoul16 row'))
  | Ret None => Ret None
  | Fault => Fault
  | Diverge => Diverge
  end.

(** ** Well-formed System.map files *)

Record map_row := MapRow { r_addr : Z; r_type : cstr; r_name : cstr }.

Definition hex_char (d : Z) : Z := if d <? 10 then 48 + d else 87 + d.

(** [n] hexadecimal digits, most significant first *)
Fixpoint hex_print (n : nat) (a : Z) : cstr :=
  match n with
  | O => []
  | S n' => hex_print n' (a / 16) ++ [hex_char (a mod 16)]
  end.

Definition print_row (r : map_row) : list Z :=
  hex_print 8 (r_addr r) ++ 32 :: r_type r ++ 32 :: r_name r ++ [10].

Definition print_map (rs : list map_row) : list Z := concat (print_row <$> rs).

(** a word: not empty, no white space, no NUL *)
Definition word (s : cstr) : Prop := s <> [] /\ Forall (fun c => isspace c = false /\ c <> 0) s.

Definition row_ok (r : map_row) : Prop :=
  is_u32 (r_addr r) /\ word (r_type r) /\ word (r_name r) /\
  (length (print_row r) < MAX_ROW_LENGTH)%nat.

(** The address of the first row with that name. *)
Fixpoint map_find (rs : list map_row) (symbol : cstr) : option Z :=
  match rs with
  | [] => None
  | r :: rs' => if decide (r_name r = symbol) then Some (r_addr r) else map_find rs' symbol
  end.

(** ** Parsing undoes printing *)

Lemma hex_value_char d : 0 <= d < 16 -> hex_value (hex_char d) = Some d.
Proof.
  intros Hd. unfold hex_char, hex_value. destruct (Z.ltb_spec d 10).
  - rewrite !(proj2 (Z.leb_le _ _)) by lia. simpl. f_equal. lia.
  - rewrite (proj2 (Z.leb_gt (87 + d) 57)), !(proj2 (Z.leb_le _ (87 + d))) by lia.
    rewrite (proj2 (Z.leb_le (87 + d) 102)) by lia. simpl. f_equal. lia.
Qed.

Lemma hex_char_range d : 0 <= d < 16 -> 48 <= hex_char d <= 102 /\ hex_char d <> 120 /\ hex_char d <> 88.
Proof. intros Hd. unfold hex_char. destruct (Z.ltb_spec d 10); lia. Qed.

Lemma length_hex_print n a : length (hex_print n a) = n.
Proof. revert a. induction n; intros; simpl; [done|]. rewrite length_app, IHn. simpl. lia. Qed.

Lemma hex_print_Forall n a : Forall (fun c => exists d, 0 <= d < 16 /\ c = hex_char d) (hex_print n a).
Proof.
  revert a. induction n as [|n IH]; intros a; simpl; [constructor|].
  apply Forall_app. split; [done|]. constructor; [|constructor].
  exists (a mod 16). split; [apply Z.mod_pos_bound; lia|done].
Qed.

Lemma hex_digits_app acc s t :
  Forall (fun c => exists d, 0 <= d < 16 /\ c = hex_char d) s ->
  hex_digits acc (s ++ t) = hex_digits (hex_digits acc s) t.
Proof.
  intros Hs. revert acc. induction Hs as [|c s (d & Hd & ->) Hs IH]; intros acc; simpl; [done|].
  by rewrite hex_value_char.
Qed.

Lemma hex_digits_print n a acc :
  0 <= a -> hex_digits acc (hex_print n a) = acc * 16 ^ Z.of_nat n + a mod 16 ^ Z.of_nat n.
Proof.
  revert a acc. induction n as [|n IH]; intros a acc Ha; simpl hex_print.
  - simpl. rewrite Z.mod_1_r. lia.
  - rewrite hex_digits_app by apply hex_print_Forall. rewrite IH by (apply Z.div_pos; lia).
    simpl. rewrite hex_value_char by (apply Z.mod_pos_bound; lia).
    rewrite Nat2Z.inj_succ, Z.pow_succ_r, Z.rem_mul_r by lia. lia.
Qed.

Lemma strtoul16_hex a rest :
  is_u32 a -> strtoul16 (hex_print 8 a ++ 0 :: rest) = a.
Proof.
  intros Ha. assert (Hall := hex_print_Forall 8 a).
  assert (Hd := hex_digits_print 8 a 0 ltac:(lia)).
  assert (Hlen := length_hex_print 8 a).
  set (h := hex_print 8 a) in *. clearbody h. unfold strtoul16.
  destruct h as [|c0 [|c1 h]]; [done|done|].
  apply list.Forall_cons in Hall as [(d0 & Hd0 & ->) Hall].
  pose proof (hex_char_range d0 Hd0) as (H0 & _).
  assert (Hsp : isspace (hex_char d0) = false).
  { unfold isspace. rewrite (proj2 (Z.eqb_neq _ 32)), (proj2 (Z.leb_gt _ 13)) by lia.
    by rewrite andb_false_r. }
  cbn [app skip_space]. rewrite Hsp.
  assert (Hsign : forall (X : Type) (x y : list Z -> X) z s, 48 <= hex_char d0 ->
    match hex_char d0 :: s with 45 :: s' => x s' | 43 :: s' => y s' | _ => z end = z).
  { intros X x y z s Hc. destruct (hex_char d0) as [|p|p]; [lia| |lia].
    do 7 (destruct p as [p|p|]; try lia; try done). }
  rewrite (Hsign (bool * list Z)%type (fun s' => (true, s')) (fun s' => (false, s'))) by lia.
  assert (Hx : skip_0x (hex_char d0 :: c1 :: h ++ 0 :: rest) = hex_char d0 :: c1 :: h ++ 0 :: rest).
  { apply list.Forall_cons in Hall as [(d1 & Hd1 & ->) _].
    pose proof (hex_char_range d1 Hd1) as (_ & Hx1 & Hx2).
    unfold skip_0x. apply Z.eqb_neq in Hx1, Hx2. rewrite Hx1, Hx2. simpl.
    repeat case_match; done. }
  rewrite Hx. change (hex_char d0 :: c1 :: h ++ 0 :: rest) with ((hex_char d0 :: c1 :: h) ++ 0 :: rest).
  rewrite hex_digits_app by (constructor; [by exists d0|done]). rewrite Hd. simpl (hex_digits _ (0 :: _)).
  rewrite Z.add_0_l. change (16 ^ Z.of_nat 8) with 4294967296. rewrite Z.mod_small by done.
  by rewrite (proj2 (Z.ltb_ge _ _)) by lia.
Qed.

Definition nospace (s : cstr) : Prop := Forall (fun c => isspace c = false) s.

Lemma hex_print_nospace n a : nospace (hex_print n a).
Proof.
  eapply Forall_impl; [|apply hex_print_Forall]. intros c (d & Hd & ->).
  pose proof (hex_char_range d Hd). unfold isspace.
  rewrite (proj2 (Z.eqb_neq _ 32)), (proj2 (Z.leb_gt _ 13)) by lia. apply andb_false_r.
Qed.

Lemma word_nospace s : word s -> nospace s.
Proof. intros [_ H]. eapply Forall_impl; [|exact H]. by intros c [? _]. Qed.

(** A column: the bytes before its white space are kept. *)
Lemma cut_columns_skip n s l :
  n <> 0%nat -> nospace s ->
  cut_columns n false (s ++ l) =
  match cut_columns n false l with
  | Ret (Some (a, b)) => Ret (Some (s ++ a, b))
  | r => r
  end.
Proof.
  intros Hn%Nat.eqb_neq. induction 1 as [|c s Hc Hs IH]; simpl.
  - by destruct (cut_columns n false l) as [[[a b]|]| |].
  - rewrite Hn, Hc, IH. by destruct (cut_columns n false l) as [[[a b]|]| |].
Qed.

Lemma cut_columns_space n c s l :
  isspace c = true -> s <> [] -> nospace s ->
  cut_columns (S n) false (c :: s ++ l) =
  match cut_columns n false (s ++ l) with
  | Ret (Some (a, b)) => Ret (Some (0 :: a, b))
  | r => r
  end.
Proof.
  intros Hc Hs0 Hs. destruct Hs as [|c' s Hc' Hs]; [done|].
  cbn [app cut_columns]. cbn [Nat.eqb pred]. rewrite Hc, Hc'.
  destruct n as [|n]; cbn [Nat.eqb]; [done|].
  by destruct (cut_columns (S n) false (s ++ l)) as [[[a b]|]| |].
Qed.

Lemma cut_columns_row h t nm rest :
  nospace h -> word t -> word nm ->
  cut_columns 2 false (h ++ 32 :: t ++ 32 :: nm ++ rest) =
  Ret (Some (h ++ 0 :: t ++ [0], nm ++ rest)).
Proof.
  intros Hh Ht Hn. rewrite cut_columns_skip by done.
  rewrite (cut_columns_space 1 32 t) by (done || apply Ht || by apply word_nospace).
  rewrite cut_columns_skip by (done || by apply word_nospace).
  rewrite (cut_columns_space 0 32 nm) by (done || apply Hn || by apply word_nospace).
  destruct Hn as [Hn0 Hn]. destruct nm as [|c nm]; [done|]. cbn [app cut_columns Nat.eqb].
  done.
Qed.

Lemma cut_token_row nm rest : nospace nm -> cut_token (nm ++ 10 :: rest) = nm ++ 0 :: rest.
Proof. induction 1 as [|c nm Hc Hn IH]; simpl; [done|]. by rewrite Hc, IH. Qed.

Lemma token_is_row n nm rest s :
  Forall (fun c => c <> 0) nm -> Forall (fun c => c <> 0) s -> (length nm < n)%nat ->
  token_is n (nm ++ 0 :: rest) s = Ret (bool_decide (nm = s)).
Proof.
  intros Hnm. revert s n. induction Hnm as [|b nm Hb Hnm IH]; intros s n Hs Hlen;
    (destruct n as [|n]; [simpl in Hlen; lia|]); destruct Hs as [|c s Hc Hs]; cbn [app token_is].
  - done.
  - destruct (Z.eqb_spec 0 c); [congruence|done].
  - by rewrite (proj2 (Z.eqb_neq b 0)) by done.
  - destruct (Z.eqb_spec b c) as [->|Hne].
    + rewrite IH by (done || simpl in Hlen; lia). f_equal. apply bool_decide_ext.
      split; [by intros ->|by intros [= ->]].
    + by rewrite bool_decide_eq_false_2 by (intros [= ? ?]; done).
Qed.

Lemma read_line_row n s f :
  Forall (fun c => c <> 10) s -> (length s < n)%nat -> read_line n (s ++ 10 :: f) = (s ++ [10], f).
Proof.
  intros Hs. revert n. induction Hs as [|c s Hc Hs IH]; intros n Hn;
    (destruct n as [|n]; [simpl in Hn; lia|]); cbn [app read_line]; [done|].
  rewrite (proj2 (Z.eqb_neq c 10)) by done. by rewrite IH by (simpl in Hn; lia).
Qed.

Lemma nospace_nonl s : nospace s -> Forall (fun c => c <> 10) s.
Proof. intros H. eapply Forall_impl; [|exact H]. by intros c Hc ->. Qed.

Lemma word_nonzero s : word s -> Forall (fun c => c <> 0) s.
Proof. intros [_ H]. eapply Forall_impl; [|exact H]. by intros c [_ ?]. Qed.

(** The columns of a row, without the newline. *)
Definition row_body (r : map_row) : list Z :=
  hex_print 8 (r_addr r) ++ 32 :: r_type r ++ 32 :: r_name r.

Lemma print_row_app r f : print_row r ++ f = row_body r ++ 10 :: f.
Proof. unfold print_row, row_body. by repeat (rewrite <- app_assoc; cbn [app]). Qed.

Lemma row_body_nonl r : row_ok r -> Forall (fun c => c <> 10) (row_body r).
Proof.
  intros (_ & Ht & Hn & _). unfold row_body. apply Forall_app.
  split; [apply nospace_nonl, hex_print_nospace|]. constructor; [done|].
  apply Forall_app. split; [by apply nospace_nonl, word_nospace|].
  constructor; [done|by apply nospace_nonl, word_nospace].
Qed.

Lemma row_body_length r : row_ok r -> (length (row_body r) < 199)%nat.
Proof.
  intros (_ & _ & _ & Hl). pose proof (print_row_app r []) as H. rewrite app_nil_r in H.
  rewrite H, length_app in Hl. cbn [length] in Hl. unfold MAX_ROW_LENGTH in Hl. lia.
Qed.

(** One row of a well-formed file. *)
Lemma get_symbol_row_step fuel r f row symbol :
  row_ok r -> Forall (fun c => c <> 0) symbol ->
  exists rest, get_symbol_row (S fuel) (print_row r ++ f) row symbol 2 =
    if decide (r_name r = symbol) then Ret (Some (hex_print 8 (r_addr r) ++ 0 :: rest))
    else get_symbol_row fuel f (hex_print 8 (r_addr r) ++ 0 :: rest) symbol 2.
Proof.
  intros Hr Hs. pose proof Hr as (Ha & Ht & Hn & Hl). pose proof (row_body_length r Hr) as Hlb.
  set (junk := drop (S (length (row_body r ++ [10]))) row).
  exists (r_type r ++ [0] ++ r_name r ++ 0 :: 0 :: junk).
  rewrite print_row_app. cbn [get_symbol_row].
  destruct (row_body r ++ 10 :: f) eqn:Ef; [by destruct (row_body r)|]. rewrite <- Ef. clear Ef.
  change (pred MAX_ROW_LENGTH) with 199%nat.
  rewrite read_line_row by (done || by apply row_body_nonl). cbv zeta.
  assert (fill_row (row_body r ++ [10]) row =
    hex_print 8 (r_addr r) ++ 32 :: r_type r ++ 32 :: r_name r ++ 10 :: 0 :: junk) as ->.
  { unfold fill_row. fold junk. unfold row_body. by repeat (rewrite <- app_assoc; cbn [app]). }
  rewrite cut_columns_row by (done || apply hex_print_nospace).
  rewrite cut_token_row by by apply word_nospace.
  assert ((length (r_name r) < MAX_ROW_LENGTH)%nat).
  { unfold row_body in Hlb. rewrite length_app in Hlb. cbn [length] in Hlb.
    rewrite length_app in Hlb. cbn [length] in Hlb. unfold MAX_ROW_LENGTH. lia. }
  rewrite token_is_row by (done || by apply word_nonzero).
  assert ((hex_print 8 (r_addr r) ++ 0 :: r_type r ++ [0]) ++ r_name r ++ 0 :: 0 :: junk =
    hex_print 8 (r_addr r) ++ 0 :: r_type r ++ [0] ++ r_name r ++ 0 :: 0 :: junk) as ->.
  { by repeat (rewrite <- app_assoc; cbn [app]). }
  destruct (decide (r_name r = symbol));
    [by rewrite bool_decide_eq_true_2|by rewrite bool_decide_eq_false_2].
Qed.

Lemma get_symbol_row_map rs : forall fuel row symbol,
  Forall row_ok rs -> Forall (fun c => c <> 0) symbol -> (length rs < fuel)%nat ->
  match map_find rs symbol with
  | Some a => exists rest,
      get_symbol_row fuel (print_map rs) row symbol 2 = Ret (Some (hex_print 8 a ++ 0 :: rest)) /\
      is_u32 a
  | None => get_symbol_row fuel (print_map rs) row symbol 2 = Ret None
  end.
Proof.
  induction rs as [|r rs IH]; intros fuel row symbol Hrs Hs Hf.
  - destruct fuel as [|fuel]; [simpl in Hf; lia|]. done.
  - destruct fuel as [|fuel]; [simpl in Hf; lia|].
    apply list.Forall_cons in Hrs as [Hr Hrs].
    change (print_map (r :: rs)) with (print_row r ++ print_map rs). cbn [map_find].
    destruct (get_symbol_row_step fuel r (print_map rs) row symbol Hr Hs) as [rest ->].
    destruct (decide (r_name r = symbol)); [exists rest; split; [done|apply Hr]|].
    apply IH; [done|done|simpl in Hf; lia].
Qed.

Lemma print_map_length rs : (length rs <= length (print_map rs))%nat.
Proof.
  induction rs as [|r rs IH]; [done|].
  change (print_map (r :: rs)) with (print_row r ++ print_map rs).
  rewrite length_app. unfold print_row. rewrite length_app, length_hex_print. simpl. lia.
Qed.

Lemma system_map_lookup_map rs row symbol :
  Forall row_ok rs -> Forall (fun c => c <> 0) symbol ->
  system_map_lookup (print_map rs) row symbol = Ret (map_find rs symbol).
Proof.
  intros Hrs Hs. unfold system_map_lookup. pose proof (print_map_length rs) as Hl.
  pose proof (get_symbol_row_map rs (S (length (print_map rs))) row symbol Hrs Hs ltac:(lia)) as H.
  destruct (map_find rs symbol) as [a|].
  - destruct H as (rest & -> & Ha). by rewrite strtoul16_hex.
  - by rewrite H.
Qed.

(** ** Properties *)

(** C26: looking a symbol up in a well-formed System.map terminates without
    reading outside the row buffer, whatever the buffer held before, and
    yields the address of the first row with that name, or XA_FAILURE when no
    row has it: the lookup undoes the printing of the file. *)
Theorem system_map_lookup_correct rs row symbol :
  Forall row_ok rs -> Forall (fun c => c <> 0) symbol ->
  system_map_lookup (print_map rs) row symbol = Ret (map_find rs symbol).
Proof. apply system_map_lookup_map. Qed.

(** White space in the last byte of a full row buffer is skipped past the
    end of the buffer: there is a map file and a buffer for which the lookup
    reads outside it, because the loop over white space has no bound. *)
Theorem symbol_row_overruns :
  exists file row, length row = MAX_ROW_LENGTH /\
    system_map_lookup file row (str "init_task") = Fault.
Proof.
  exists (str "c0100000"), (repeat 32 200). split; [reflexivity|vm_compute; reflexivity].
Qed.

Definition sample_map : list map_row :=
  [MapRow 0xc0100000 (str "T") (str "_text"); MapRow 0xc0001000 (str "D") (str "swapper_pg_dir");
   MapRow 0xc0005000 (str "D") (str "init_task"); MapRow 0xc0009020 (str "D") (str "modules")].

Lemma word_decide s :
  s <> [] -> forallb (fun c => negb (isspace c) && negb (c =? 0)) s = true -> word s.
Proof.
  intros Hs H. split; [done|]. rewrite forallb_forall in H. apply list.Forall_forall.
  intros c Hc%list_elem_of_In%H. apply andb_true_iff in Hc as [H1%negb_true_iff H2%negb_true_iff].
  split; [done|by apply Z.eqb_neq].
Qed.

Lemma sample_map_ok : Forall row_ok sample_map.
Proof.
  repeat constructor; try (cbn; lia);
    try (apply word_decide; [discriminate|vm_compute; reflexivity]).
Qed.

Lemma system_map_lookup_correct_witness :
  system_map_lookup (print_map sample_map) [] (str "init_task") = Ret (Some 0xc0005000).
Proof.
  refine (eq_trans (system_map_lookup_correct sample_map [] (str "init_task") sample_map_ok _) _).
  - repeat constructor; discriminate.
  - vm_compute. reflexivity.
Defined.
