(* ===== verification/HexDump.v ===== *)
(** * Hexadecimal dumps

    Models [print_hex] of xa_pretty_print.c, and proves that a dump can be
    read back: the hexadecimal columns are the bytes, all of them and nothing
    else, whatever the character column shows. *)

From Stdlib Require Import String.
From S2P Require Import Prelude CStr XaTypes Symbols.

(** [data[index]] *)
Definition data_at (data : mapping) (index : Z) : result Z :=
  if (0 <=? index) && (index <? m_len data) then Ret (u8 (m_byte data index)) else Fault.

(** one hex value, or three blanks behind the end *)
Definition hex_cell (data : mapping) (length index : Z) : result cstr :=
  if index <? length then
    b ← data_at data index; mret (hex_print 2 b ++ [32])
  else mret [32; 32; 32].

(** one character of the ascii values, nothing behind the end *)
Definition ascii_cell (data : mapping) (length index : Z) : result cstr :=
  if index <? length then
    b ← data_at data index; mret [if isprint b then b else 46]
  else mret [].

Fixpoint cells (cell : Z -> result cstr) (l : list Z) : result cstr :=
  match l with
  | [] => mret []
  | j :: l' => c ← cell j; rest ← cells cell l'; mret (c ++ rest)
  end.

Definition hex_row (data : mapping) (length i : Z) : result cstr :=
  first ← cells (fun j => hex_cell data length (i * 16 + j)) (seqZ 0 8);
  second ← cells (fun j => hex_cell data length (i * 16 + j)) (seqZ 8 8);
  ascii ← cells (fun j => ascii_cell data length (i * 16 + j)) (seqZ 0 16);
  mret (hex_print 8 (i * 16) ++ str "|  " ++ first ++ str " " ++ second ++ str "  " ++ ascii ++ [10]).

(** What [print_hex(data, length)] writes; reading outside the data is
    undefined behaviour.  [length] is an int whose rounding up overflows within
    15 of INT_MAX; no caller has that many bytes mapped. *)
Definition print_hex (data : mapping) (length : Z) : result cstr :=
  cells (hex_row data length) (seqZ 0 (Z.shiftr (length + 15) 4)).

(** ** Reading a dump *)

Fixpoint split_lines (cur s : cstr) : list cstr :=
  match s with
  | [] => []
  | c :: s' => if c =? 10 then rev cur :: split_lines [] s' else split_lines (c :: cur) s'
  end.

Definition read_cell (s : cstr) : option Z :=
  match s with
  | a :: b :: _ => x ← hex_value a; y ← hex_value b; Some (16 * x + y)
  | _ => None
  end.

Fixpoint read_cells (n : nat) (s : cstr) : list Z :=
  match n with
  | O => []
  | S n' => match read_cell s with
            | Some b => b :: read_cells n' (drop 3 s)
            | None => read_cells n' (drop 3 s)
            end
  end.

(** The address takes 11 columns, the two groups 24 each and a blank between. *)
Definition read_row (row : cstr) : list Z :=
  read_cells 8 (drop 11 row) ++ read_cells 8 (drop 36 row).

Definition read_dump (s : cstr) : list Z := concat (read_row <$> split_lines [] s).

(** ** The dump of a mapping *)

Definition byte (m : mapping) (k : Z) : Z := u8 (m_byte m k).

Definition cell_text (m : mapping) (n k : Z) : cstr :=
  if k <? n then hex_print 2 (byte m k) ++ [32] else [32; 32; 32].

Definition ascii_text (m : mapping) (n k : Z) : cstr :=
  if k <? n then [if isprint (byte m k) then byte m k else 46] else [].

Definition row_text (m : mapping) (n i : Z) : cstr :=
  hex_print 8 (i * 16) ++ str "|  " ++
  concat ((fun j => cell_text m n (i * 16 + j)) <$> seqZ 0 8) ++ str " " ++
  concat ((fun j => cell_text m n (i * 16 + j)) <$> seqZ 8 8) ++ str "  " ++
  concat ((fun j => ascii_text m n (i * 16 + j)) <$> seqZ 0 16) ++ [10].

Lemma cells_eq cell text l :
  Forall (fun j => cell j = Ret (text j)) l -> cells cell l = Ret (concat (text <$> l)).
Proof.
  induction 1 as [|j l Hj Hl IH]; [done|]. cbn [cells]. rewrite Hj. cbn [mbind result_bind].
  by rewrite IH.
Qed.

Lemma data_at_eq m k : 0 <= k < m_len m -> data_at m k = Ret (byte m k).
Proof. intros Hk. unfold data_at. by rewrite (proj2 (Z.leb_le _ _)), (proj2 (Z.ltb_lt _ _)) by lia. Qed.

Lemma hex_cell_eq m n k : n <= m_len m -> 0 <= k -> hex_cell m n k = Ret (cell_text m n k).
Proof.
  intros Hn Hk. unfold hex_cell, cell_text. destruct (Z.ltb_spec k n); [|done].
  by rewrite data_at_eq by lia.
Qed.

Lemma ascii_cell_eq m n k : n <= m_len m -> 0 <= k -> ascii_cell m n k = Ret (ascii_text m n k).
Proof.
  intros Hn Hk. unfold ascii_cell, ascii_text. destruct (Z.ltb_spec k n); [|done].
  by rewrite data_at_eq by lia.
Qed.

Lemma seqZ_Forall (P : Z -> Prop) a n : (forall k, a <= k < a + n -> P k) -> Forall P (seqZ a n).
Proof. intros H. apply list.Forall_forall. intros k Hk%elem_of_seqZ. by apply H. Qed.

Lemma hex_row_eq m n i : n <= m_len m -> 0 <= i -> hex_row m n i = Ret (row_text m n i).
Proof.
  intros Hn Hi. unfold hex_row, row_text.
  rewrite (cells_eq _ (fun j => cell_text m n (i * 16 + j)) (seqZ 0 8))
    by (apply seqZ_Forall; intros; apply hex_cell_eq; lia).
  rewrite (cells_eq _ (fun j => cell_text m n (i * 16 + j)) (seqZ 8 8))
    by (apply seqZ_Forall; intros; apply hex_cell_eq; lia).
  by rewrite (cells_eq _ (fun j => ascii_text m n (i * 16 + j)) (seqZ 0 16))
    by (apply seqZ_Forall; intros; apply ascii_cell_eq; lia).
Qed.

(** *** Reading the rows *)

Lemma split_lines_line cur l s :
  Forall (fun c => c <> 10) l -> split_lines cur (l ++ 10 :: s) = (rev cur ++ l) :: split_lines [] s.
Proof.
  intros Hl. revert cur. induction Hl as [|c l Hc Hl IH]; intros cur; cbn [app split_lines].
  - by rewrite app_nil_r.
  - rewrite (proj2 (Z.eqb_neq _ _)) by done. rewrite IH. cbn [rev]. by rewrite <- app_assoc.
Qed.

Lemma read_cell_text m n k rest :
  read_cell (cell_text m n k ++ rest) = if k <? n then Some (byte m k) else None.
Proof.
  unfold cell_text. destruct (k <? n); [|done]. pose proof (u8_range (m_byte m k)) as Hb.
  fold (byte m k) in Hb. cbn [hex_print app read_cell].
  assert (0 <= byte m k / 16 < 16) by (split; [apply Z.div_pos; lia|apply Z.div_lt_upper_bound; lia]).
  rewrite (Z.mod_small (byte m k / 16)) by done.
  rewrite !hex_value_char by (try apply Z.mod_pos_bound; lia). cbn [mbind option_bind].
  f_equal. pose proof (Z.div_mod (byte m k) 16). lia.
Qed.

Lemma length_cell_text m n k : length (cell_text m n k) = 3%nat.
Proof. unfold cell_text. by destruct (k <? n). Qed.

Lemma read_cells_text m n (l : list Z) rest :
  read_cells (length l) (concat (cell_text m n <$> l) ++ rest) =
  byte m <$> filter (fun k => k < n) l.
Proof.
  induction l as [|k l IH]; [done|]. cbn [length read_cells fmap list_fmap concat].
  rewrite <- app_assoc, read_cell_text, drop_app_length'.
  2:{ by rewrite length_cell_text. }
  rewrite list.filter_cons. fold (fmap (M:=list) (cell_text m n) l). rewrite IH.
  destruct (Z.ltb_spec k n); destruct (decide (k < n)); by try lia.
Qed.

Lemma hex_char_line d : 0 <= d < 16 -> hex_char d <> 10.
Proof. intros Hd. pose proof (hex_char_range d Hd). lia. Qed.

Lemma hex_print_line k a : Forall (fun c => c <> 10) (hex_print k a).
Proof.
  eapply Forall_impl; [|apply hex_print_Forall]. intros c (d & Hd & ->). by apply hex_char_line.
Qed.

Lemma concat_line {A} (f : A -> cstr) l :
  (forall a, Forall (fun c => c <> 10) (f a)) -> Forall (fun c => c <> 10) (concat (f <$> l)).
Proof. intros Hf. induction l; [constructor|]. apply Forall_app. by split. Qed.

Lemma lit_line s : forallb (fun c => negb (c =? 10)) s = true -> Forall (fun c => c <> 10) s.
Proof.
  induction s as [|c s IH]; cbn [forallb]; intros H; [constructor|]. zbool.
  constructor; [done|by apply IH].
Qed.

Lemma cell_text_line m n k : Forall (fun c => c <> 10) (cell_text m n k).
Proof.
  unfold cell_text. destruct (k <? n).
  - apply Forall_app. split; [apply hex_print_line|]. by repeat constructor.
  - by repeat constructor.
Qed.

Lemma ascii_text_line m n k : Forall (fun c => c <> 10) (ascii_text m n k).
Proof.
  unfold ascii_text, isprint. destruct (k <? n); [|constructor]. constructor; [|constructor].
  destruct (Z.leb_spec 32 (byte m k)), (Z.leb_spec (byte m k) 126); simpl; lia.
Qed.

(** A row is its bytes. *)
Definition row_bytes (m : mapping) (n i : Z) : list Z :=
  byte m <$> filter (fun k => k < n) (seqZ (i * 16) 16).

Lemma seqZ_shift a b n : (fun j => a + j) <$> seqZ b n = seqZ (a + b) n.
Proof.
  unfold seqZ. rewrite <- list_fmap_compose. apply list_fmap_ext. intros ? ? _. simpl. lia.
Qed.

Lemma group_text m n a b l :
  concat ((fun j => cell_text m n (a + j)) <$> seqZ b l) = concat (cell_text m n <$> seqZ (a + b) l).
Proof. by rewrite <- seqZ_shift, <- list_fmap_compose. Qed.

Lemma read_row_text m n i row :
  row_text m n i = row ++ [10] -> read_row row = row_bytes m n i.
Proof.
  unfold row_text. rewrite !(app_assoc _ _ [10]), !app_assoc. intros [<- _]%app_inj_tail.
  rewrite <- !app_assoc. unfold read_row. rewrite !group_text.
  set (addr := hex_print 8 _).
  assert (Ha : length addr = 8%nat) by apply length_hex_print.
  assert (H8 : forall a, length (concat (cell_text m n <$> seqZ a 8)) = 24%nat).
  { intros a. change (seqZ a 8) with (seqZ a (Z.of_nat 8)). unfold seqZ.
    rewrite Nat2Z.id. cbn [seq fmap list_fmap concat]. rewrite !length_app, !length_cell_text. done. }
  rewrite (app_assoc addr), drop_app_length' by (rewrite length_app, Ha; done).
  assert (Hd : forall s, drop 36 (addr ++ str "|  " ++ concat (cell_text m n <$> seqZ (i * 16 + 0) 8) ++ str " " ++ s) = s).
  { intros s. rewrite !app_assoc. apply drop_app_length'. rewrite !length_app, Ha, H8. done. }
  rewrite <- !app_assoc, Hd.
  assert (Hr : forall a rest, read_cells 8 (concat (cell_text m n <$> seqZ a 8) ++ rest) =
                 byte m <$> filter (fun k => k < n) (seqZ a 8)).
  { intros a rest. assert (length (seqZ a 8) = 8%nat) as E by by rewrite length_seqZ.
    rewrite <- E at 1. apply read_cells_text. }
  rewrite !Hr, Z.add_0_r, <- fmap_app, <- list.filter_app. unfold row_bytes.
  by rewrite <- (seqZ_app (i * 16) 8 8) by lia.
Qed.

Lemma row_text_split m n i : exists row, row_text m n i = row ++ [10] /\ Forall (fun c => c <> 10) row.
Proof.
  unfold row_text. eexists. split; [by rewrite !(app_assoc _ _ [10])|].
  apply Forall_app. split; [apply hex_print_line|].
  apply Forall_app. split; [apply lit_line; reflexivity|].
  apply Forall_app. split; [apply concat_line; intros; apply cell_text_line|].
  apply Forall_app. split; [apply lit_line; reflexivity|].
  apply Forall_app. split; [apply concat_line; intros; apply cell_text_line|].
  apply Forall_app. split; [apply lit_line; reflexivity|].
  apply concat_line. intros. apply ascii_text_line.
Qed.

Lemma read_dump_rows m n l :
  read_dump (concat (row_text m n <$> l)) = concat (row_bytes m n <$> l).
Proof.
  induction l as [|i l IH]; [done|]. cbn [fmap list_fmap concat].
  destruct (row_text_split m n i) as (row & Er & Hr). rewrite Er, <- app_assoc.
  unfold read_dump. cbn [app]. rewrite split_lines_line by done. cbn [rev app fmap list_fmap concat].
  f_equal; [by apply read_row_text|exact IH].
Qed.

(** The rows cover the bytes. *)
Lemma rows_bytes m n k :
  concat (row_bytes m n <$> seqZ 0 (Z.of_nat k)) = byte m <$> filter (fun j => j < n) (seqZ 0 (16 * Z.of_nat k)).
Proof.
  induction k as [|k IH]; [done|].
  rewrite seqZ_S, fmap_app, concat_app, IH, Nat2Z.inj_succ.
  rewrite Z.mul_succ_r, (seqZ_app 0 (16 * Z.of_nat k) 16), list.filter_app, fmap_app by lia. f_equal.
  cbn [fmap list_fmap concat]. rewrite app_nil_r. unfold row_bytes. do 3 f_equal. lia.
Qed.

Lemma filter_below_length n l : 0 <= n <= l -> filter (fun j => j < n) (seqZ 0 l) = seqZ 0 n.
Proof.
  intros Hn. replace l with (n + (l - n)) by lia. rewrite seqZ_app, list.filter_app by lia.
  assert (forall a k, a + k <= n -> filter (fun j => j < n) (seqZ a k) = seqZ a k) as Hin.
  { intros a k Hk. assert (Forall (fun j => j < n) (seqZ a k)) as Hf by (apply seqZ_Forall; lia).
    induction Hf as [|j t Hj Ht IH]; [done|]. by rewrite filter_cons_True, IH. }
  assert (forall a k, n <= a -> filter (fun j => j < n) (seqZ a k) = []) as Hout.
  { intros a k Hk. assert (Forall (fun j => ~ j < n) (seqZ a k)) as Hf by (apply seqZ_Forall; lia).
    induction Hf as [|j t Hj Ht IH]; [done|]. by rewrite filter_cons_False. }
  by rewrite Hin, Hout, app_nil_r by lia.
Qed.

Lemma rows_enough n : 0 <= n -> n <= 16 * Z.shiftr (n + 15) 4 /\ 0 <= Z.shiftr (n + 15) 4.
Proof.
  intros Hn. rewrite Z.shiftr_div_pow2 by done. change (2 ^ 4) with 16.
  pose proof (Z.div_mod (n + 15) 16). pose proof (Z.mod_pos_bound (n + 15) 16).
  split; [lia|]. apply Z.div_pos; lia.
Qed.

Lemma print_hex_eq m n :
  0 <= n <= m_len m ->
  print_hex m n = Ret (concat (row_text m n <$> seqZ 0 (Z.shiftr (n + 15) 4))).
Proof.
  intros Hn. apply cells_eq, seqZ_Forall. intros k Hk. apply hex_row_eq; lia.
Qed.

Lemma print_hex_text m n :
  0 <= n <= m_len m ->
  exists s, print_hex m n = Ret s /\ read_dump s = bytes m 0 (Z.to_nat n).
Proof.
  intros Hn. destruct (rows_enough n) as [H1 H2]; [lia|].
  eexists. split; [by apply print_hex_eq|]. rewrite read_dump_rows.
  rewrite <- (Z2Nat.id (Z.shiftr (n + 15) 4)), rows_bytes by lia.
  rewrite filter_below_length by lia. unfold bytes. rewrite !Z2Nat.id by lia.
  apply list_fmap_ext. intros ? ? _. done.
Qed.

(** ** Properties *)

(** C35: [print_hex] of at most the mapped bytes never reads outside of them,
    and the dump determines the bytes: the columns of its rows read back are
    the bytes in their order, every one of them and no other, although the
    character column can show anything (digits, blanks) behind them. *)
Theorem print_hex_roundtrip m n :
  0 <= n <= m_len m ->
  exists s, print_hex m n = Ret s /\ read_dump s = bytes m 0 (Z.to_nat n).
Proof. apply print_hex_text. Qed.

Lemma print_hex_roundtrip_witness :
  exists s, print_hex (Mapping 20 (fun k => 40 + 3 * k)) 19 = Ret s /\
    read_dump s = [40; 43; 46; 49; 52; 55; 58; 61; 64; 67; 70; 73; 76; 79; 82; 85; 88; 91; 94].
Proof. apply (print_hex_roundtrip (Mapping 20 (fun k => 40 + 3 * k)) 19). simpl. lia. Defined.

(** Two dumps in full, as the program prints them. *)
Example print_hex_two_rows :
  print_hex (Mapping 18 (fun k => 40 + 3 * k)) 18 =
  Ret (str "00000000|  28 2b 2e 31 34 37 3a 3d  40 43 46 49 4c 4f 52 55   (+.147:=@CFILORU" ++ [10] ++
       str "00000010|  58 5b                                              X[" ++ [10]).
Proof. vm_compute. reflexivity. Qed.

Example print_hex_past_end : print_hex (Mapping 4 (fun _ => 0)) 5 = Fault.
Proof. reflexivity. Qed.
