(* ===== verification/XaStore.v ===== *)
(** * Domain information

    Models xa_domain_info.c, which asks the xenstore about a domain, and
    linux_domain_info.c, which guesses the name of a System.map from the name
    of the kernel.  The xenstore itself is a parameter. *)

From Stdlib Require Import String.
From S2P Require Import Prelude CStr.

(** - [xs_read path]: the value of a node, or NULL;
    - [xs_directory path]: the names of its children. *)
Class StoreEnv := {
  xs_read : cstr -> option cstr;
  xs_directory : cstr -> list cstr }.

(** [sprintf] with [%d] of a number that is not negative *)
Fixpoint dec_digits (fuel : nat) (n : Z) : cstr :=
  match fuel with
  | O => []
  | S k => (if n <? 10 then [] else dec_digits k (n / 10)) ++ [48 + n mod 10]
  end.

Definition dec (n : Z) : cstr := if n <? 0 then 45 :: dec_digits 11 (- n) else dec_digits 11 n.

(** [atoi] of a string of digits *)
Fixpoint atoi_digits (acc : Z) (s : cstr) : Z :=
  match s with
  | c :: s' => if (48 <=? c) && (c <=? 57) then atoi_digits (10 * acc + (c - 48)) s' else acc
  | [] => acc
  end.

Definition atoi (s : cstr) : Z := s32 (atoi_digits 0 s).

(** [fnmatch("*tail", s, 0) == 0] *)
Definition ends_with (tail s : cstr) : bool := bool_decide (tail `suffix_of` s).

Section Model.
Context {X : StoreEnv} {S : Type}.

(** [sprintf] of a string into the 100-byte buffer [tmp] *)
Definition sprintf_100 (s : cstr) : M S cstr :=
  _ ← assert_m (length s <? 100)%nat; mret s.

Definition xa_get_vmpath (id : Z) : M S (option cstr) :=
  tmp ← sprintf_100 (str "/local/domain/" ++ dec (s32 id) ++ str "/vm");
  mret (xs_read tmp).

(** [%s] of a NULL pointer is undefined behaviour. *)
Definition xa_get_kernel_name (id : Z) : M S (option cstr) :=
  v ← xa_get_vmpath id;
  vmpath ← of_option v;
  tmp ← sprintf_100 (vmpath ++ str "/image/kernel");
  mret (xs_read tmp).

Definition xa_ishvm (id : Z) : M S Z :=
  v ← xa_get_vmpath id;
  vmpath ← of_option v;
  (* check the value for xen 3.2.x and earlier *)
  tmp ← sprintf_100 (vmpath ++ str "/image/kernel");
  if match xs_read tmp with
     | Some ostype => ends_with (str "hvmloader") ostype
     | None => false
     end then mret 1
  else
    (* try again using different path for 3.3.x *)
    tmp' ← sprintf_100 (vmpath ++ str "/image/ostype");
    if match xs_read tmp' with
       | Some ostype => ends_with (str "hvm") ostype
       | None => false
       end then mret 1
    else mret 0.

Fixpoint find_domain (name : cstr) (domains : list cstr) : M S Z :=
  match domains with
  | [] => mret 0
  | idStr :: domains' =>
      tmp ← sprintf_100 (str "/local/domain/" ++ idStr ++ str "/name");
      nameCandidate ← of_option (xs_read tmp);
      if strncmp name nameCandidate 100 =? 0 then mret (u32 (atoi idStr))
      else find_domain name domains'
  end.

Definition xa_get_domain_id (name : cstr) : M S Z :=
  find_domain name (xs_directory (str "/local/domain")).

(** *** Predicting the name of the System.map *)

(** The loop over [kernel] from position [i] on, with [rest] the bytes of
    [kernel] from there, [None] once past its NUL; [n] turns are left.  The
    answer is what is appended to [sysmap]; [room] bytes of [sysmap] are free. *)
Fixpoint predict_loop (n room : nat) (rest : option cstr) : M S cstr :=
  match n with
  | O => mret []
  | Datatypes.S n' =>
      match rest with
      | None => fault (* kernel + i is outside the string *)
      | Some k =>
          if strncmp k (str "vmlinu") 6 =? 0 then
            tail ← (if (7 <=? length k)%nat then mret (drop 7 k) else fault : M S cstr);
            _ ← assert_m (length (str "System.map" ++ tail) <? room)%nat;
            mret (str "System.map" ++ tail)
          else
            match k with
            | [] => (* kernel[i] is the NUL: nothing is appended *)
                predict_loop n' (pred room) None
            | c :: k' => r ← predict_loop n' (pred room) (Some k'); mret (c :: r)
            end
      end
  end.

Definition predict_from (kernel : cstr) : M S cstr :=
  let length_ := (length kernel + 4)%nat in
  predict_loop length_ length_ (Some kernel).

Definition linux_predict_sysmap_name (id : Z) : M S (option cstr) :=
  k ← xa_get_kernel_name id;
  match k with
  | None => mret None
  | Some kernel =>
      (* we can't predict for hvm domains *)
      if strcmp kernel (str "/usr/lib/xen/boot/hvmloader") =? 0 then mret None
      else r ← predict_from kernel; mret (Some r)
  end.
End Model.

(** ** Decimal numbers *)

Lemma dec_digits_Forall k n : 0 <= n -> Forall (fun c => 48 <= c <= 57) (dec_digits k n).
Proof.
  revert n. induction k as [|k IH]; intros n Hn; cbn [dec_digits]; [constructor|].
  apply Forall_app. split.
  - destruct (n <? 10); [constructor|]. apply IH. by apply Z.div_pos.
  - constructor; [|constructor]. pose proof (Z.mod_pos_bound n 10). lia.
Qed.

Lemma atoi_digits_app acc s t :
  Forall (fun c => 48 <= c <= 57) s ->
  atoi_digits acc (s ++ t) = atoi_digits (atoi_digits acc s) t.
Proof.
  intros Hs. revert acc. induction Hs as [|c s Hc Hs IH]; intros acc; [done|].
  cbn [app atoi_digits]. rewrite !(proj2 (Z.leb_le _ _)) by lia. apply IH.
Qed.

Lemma atoi_dec_digits k n : 0 <= n < 10 ^ Z.of_nat k -> atoi_digits 0 (dec_digits k n) = n.
Proof.
  revert n. induction k as [|k IH]; intros n Hn; cbn [dec_digits].
  - simpl in *. lia.
  - rewrite Nat2Z.inj_succ, Z.pow_succ_r in Hn by lia.
    pose proof (Z.mod_pos_bound n 10 ltac:(lia)) as Hm. pose proof (Z.div_mod n 10 ltac:(lia)) as Hd.
    rewrite atoi_digits_app.
    2:{ destruct (n <? 10); [constructor|]. apply dec_digits_Forall, Z.div_pos; lia. }
    destruct (Z.ltb_spec n 10).
    + cbn [atoi_digits]. rewrite !(proj2 (Z.leb_le _ _)) by lia. rewrite Z.mod_small in * by lia.
      cbn. lia.
    + rewrite IH by (split; [apply Z.div_pos; lia|apply Z.div_lt_upper_bound; lia]).
      cbn [atoi_digits]. rewrite !(proj2 (Z.leb_le _ _)) by lia. cbn. lia.
Qed.

(** ** The predicted name *)

Section Predict.
Context {S : Type}.

(** No earlier position of the name matches. *)
Definition first_at (pre rest : cstr) : Prop :=
  strncmp rest (str "vmlinu") 6 = 0 /\
  forall a b, pre = a ++ b -> b <> [] -> strncmp (b ++ rest) (str "vmlinu") 6 <> 0.

Lemma predict_loop_found pre rest : forall n room (s : S),
  first_at pre rest -> (7 <= length rest)%nat ->
  (length pre < n)%nat -> (length pre + 10 + (length rest - 7) < room)%nat ->
  predict_loop n room (Some (pre ++ rest)) s = Ret (pre ++ str "System.map" ++ drop 7 rest, s).
Proof.
  induction pre as [|c pre IH]; intros n room s [Hm Hno] Hr Hn Hroom;
    (destruct n as [|n]; [simpl in Hn; lia|]).
  - cbn [app predict_loop]. rewrite Hm. cbn [Z.eqb].
    rewrite (proj2 (Nat.leb_le 7 _)) by done. rewrite bind_ret_l.
    erewrite bind_eq; [done|]. unfold assert_m.
    assert (length (str "System.map" ++ drop 7 rest) < room)%nat as ->%Nat.ltb_lt; [|done].
    rewrite length_app, length_drop. simpl (length (str _)). simpl in Hroom. lia.
  - cbn [app predict_loop].
    rewrite (proj2 (Z.eqb_neq _ 0)) by (apply (Hno [] (c :: pre)); done).
    erewrite bind_eq; [done|]. apply IH; [|done|simpl in Hn; lia|simpl in *; lia].
    split; [done|]. intros a b -> Hb. by apply (Hno (c :: a) b).
Qed.

(** Without a match the loop runs past the end of the name. *)
Lemma predict_loop_missing k : forall n room (s : S),
  (forall a b, k = a ++ b -> strncmp b (str "vmlinu") 6 <> 0) -> (length k + 1 < n)%nat ->
  predict_loop n room (Some k) s = Fault.
Proof.
  induction k as [|c k IH]; intros n room s Hno Hn; (destruct n as [|n]; [simpl in Hn; lia|]);
    cbn [predict_loop].
  - rewrite (proj2 (Z.eqb_neq _ 0)) by by apply (Hno [] []).
    destruct n; [simpl in Hn; lia|done].
  - rewrite (proj2 (Z.eqb_neq _ 0)) by by apply (Hno [] (c :: k)).
    unfold mbind at 1, M_bind. rewrite IH; [done| |simpl in *; lia].
    intros a b ->. by apply (Hno (c :: a)).
Qed.
End Predict.

(** For a kernel whose name contains "vmlinu", the first occurrence and
    the byte after it are replaced with "System.map"; the buffer of
    [strlen + 4] bytes is exactly large enough. *)
Theorem predict_sysmap_correct (pre rest : cstr) :
  first_at pre rest -> (7 <= length rest)%nat ->
  predict_from (S := unit) (pre ++ rest) tt = Ret (pre ++ str "System.map" ++ drop 7 rest, tt).
Proof.
  intros Hf Hr. unfold predict_from. apply predict_loop_found; [done|done|..];
    rewrite length_app; lia.
Qed.

(** For a kernel whose name does not contain "vmlinu", the loop does not
    stop at the end of the name: it reads past it. *)
Theorem predict_sysmap_overruns (kernel : cstr) :
  (forall a b, kernel = a ++ b -> strncmp b (str "vmlinu") 6 <> 0) ->
  predict_from (S := unit) kernel tt = Fault.
Proof. intros Hno. apply predict_loop_missing; [done|lia]. Qed.

(** [xa_get_domain_id] finds a domain by its name: for a store that lists
    the domains with distinct names, each under its number, the number of the
    first domain with that name comes back, and 0 (the number of dom0) when
    there is none. *)
Theorem domain_id_correct {S} (doms : list (Z * cstr)) (name : cstr) (X : StoreEnv) (s : S) :
  xs_directory (str "/local/domain") = (fun d => dec d.1) <$> doms ->
  Forall (fun d => 0 <= d.1 < 2147483648 /\ (length d.2 <= 100)%nat /\
     xs_read (str "/local/domain/" ++ dec d.1 ++ str "/name") = Some d.2) doms ->
  (length name <= 100)%nat ->
  xa_get_domain_id name s =
  Ret (match list_find (fun d => d.2 = name) doms with Some (_, d) => d.1 | None => 0 end, s).
Proof.
  intros Hdir Hd Hn. unfold xa_get_domain_id. rewrite Hdir. clear Hdir.
  assert (Hdec : forall id, 0 <= id < 2147483648 -> (length (dec_digits 11 id) <= 11)%nat).
  { intros id _. generalize 11%nat as k. intros k. revert id.
    induction k as [|k IH]; intros id; cbn [dec_digits]; [simpl; lia|].
    rewrite length_app. simpl. specialize (IH (id / 10)). destruct (id <? 10); simpl; lia. }
  induction Hd as [|[id nm] doms (Hid & Hl & Hrd) Hd IH]; [done|].
  cbn [fmap list_fmap find_domain fst snd list_find] in *.
  assert (Edec : dec id = dec_digits 11 id).
  { unfold dec. by rewrite (proj2 (Z.ltb_ge id 0)) by lia. }
  specialize (Hdec id Hid). rewrite <- Edec in Hdec.
  erewrite bind_eq.
  2:{ unfold sprintf_100, assert_m. rewrite (proj2 (Nat.ltb_lt _ _)); [done|].
      rewrite !length_app. simpl (length (str _)). lia. }
  rewrite Hrd. cbn [of_option]. rewrite bind_ret_l.
  assert (Hiff : strncmp name nm 100 = 0 <-> nm = name).
  { rewrite strncmp_long by done. split; by intros ->. }
  destruct (decide (nm = name)) as [->|Hne].
  - rewrite (proj2 (Z.eqb_eq _ 0)) by by apply Hiff.
    unfold atoi. rewrite Edec, atoi_dec_digits by (simpl; lia).
    unfold mret, M_ret. rewrite s32_small, u32_small by lia. by rewrite decide_True.
  - rewrite (proj2 (Z.eqb_neq _ 0)) by by rewrite Hiff. rewrite IH.
    rewrite decide_False by done.
    by destruct (list_find (fun d : Z * cstr => d.2 = name) doms) as [[? [? ?]]|].
Qed.

(** *** Witnesses *)

Lemma first_at_cons c pre rest :
  strncmp ((c :: pre) ++ rest) (str "vmlinu") 6 <> 0 -> first_at pre rest ->
  first_at (c :: pre) rest.
Proof.
  intros Hc [Hm Hno]. split; [done|]. intros [|c' a] b Hab Hb.
  - simpl in Hab. by subst b.
  - injection Hab as _ ->. by eapply Hno.
Qed.

Lemma first_at_boot : first_at (str "/boot/") (str "vmlinuz-2.6.18").
Proof.
  repeat (apply first_at_cons; [vm_compute; discriminate|]).
  split; [reflexivity|]. intros a b Hab Hb. destruct a; [simpl in Hab; by subst b|done].
Qed.

Lemma predict_sysmap_correct_witness :
  predict_from (S := unit) (str "/boot/vmlinuz-2.6.18") tt =
  Ret (str "/boot/System.map-2.6.18", tt).
Proof.
  refine (eq_trans (predict_sysmap_correct (str "/boot/") (str "vmlinuz-2.6.18")
    first_at_boot _) _); [simpl; lia|reflexivity].
Defined.

Lemma predict_sysmap_overruns_witness : predict_from (S := unit) (str "/xen") tt = Fault.
Proof.
  apply (predict_sysmap_overruns (str "/xen")). intros a b Hab.
  change (str "/xen") with [47; 120; 101; 110] in Hab.
  do 4 (destruct a as [|? a]; [cbn [app] in Hab; subst b; vm_compute; discriminate|
    injection Hab as _ Hab]).
  destruct a; [cbn [app] in Hab; subst b; vm_compute; discriminate|discriminate].
Defined.

Definition guest_store : StoreEnv := {|
  xs_read path :=
    if decide (path = str "/local/domain/0/name") then Some (str "Domain-0")
    else if decide (path = str "/local/domain/12/name") then Some (str "fedora") else None;
  xs_directory _ := [str "0"; str "12"] |}.

Lemma domain_id_correct_witness :
  @xa_get_domain_id guest_store unit (str "fedora") tt = Ret (12, tt).
Proof.
  refine (eq_trans (domain_id_correct [(0, str "Domain-0"); (12, str "fedora")] (str "fedora")
    guest_store tt _ _ _) _).
  - reflexivity.
  - repeat constructor; simpl; lia.
  - simpl. lia.
  - reflexivity.
Defined.
