(* ===== verification/ProcList.v ===== *)
(** * Walking the guest's process list

    [linux_get_taskstruct] and [windows_get_EPROCESS] are the same loop at
    different offsets: follow the circular list of processes from
    [init_task], one kernel page at a time, and return the page of the first
    process with the pid.  This file models the loop, states what list the
    guest's memory holds and proves that the loop finds in it what is to be
    found, and that it ends. *)

From S2P Require Import Prelude CStr Dll XaTypes XaMap Guest PageTable XaCache XaAccess.

Section Model.
Context {E : XenEnv}.

(** One turn of the loop: [inl] is the next process, [inr] what is returned. *)
Definition task_step (tasks_offset pid_offset p list_head next_process : Z)
  : M world (Z + option (mapping * Z)) :=
  r ← xa_access_kernel_va next_process PROT_READ;
  match r with
  | (None, _) => mret (inr None) (* failed to get task list next pointer *)
  | (Some memory, offset) =>
      next ← load32 memory offset;
      (* if we are back at the list head, we are done *)
      if list_head =? next then _ ← munmap; mret (inr None)
      else
        task_pid ← load32 memory (offset + pid_offset - tasks_offset);
        (* if pid matches, then we found what we want *)
        if s32 task_pid =? p then mret (inr (Some (memory, offset)))
        else _ ← munmap; mret (inl next)
  end.

Definition get_task (n : nat) (tasks_offset pid_offset p : Z) : M world (option (mapping * Z)) :=
  i ← gets inst;
  iter n (task_step tasks_offset pid_offset p (init_task i)) (init_task i).
End Model.

(** ** The list in the guest's memory *)

Section Spec.
Context {E : XenEnv}.
Variables (i : xa_instance) (tasks_offset pid_offset : Z).

Definition field (m : mapping) (off : Z) : Z := le_combine (bytes m off 4).
Definition next_of (t : mapping * Z) : Z := field t.1 t.2.
Definition pid_of (t : mapping * Z) : Z := s32 (field t.1 (t.2 + pid_offset - tasks_offset)).

(** [v] is the address of a list node; its page is mapped and holds both the
    link and the pid. *)
Definition task_at (v : Z) (t : mapping * Z) : Prop :=
  is_u32 v /\ page_at i PROT_READ (kv2p i v) = (Some t.1, t.2) /\
  t.2 + 4 <= 4096 /\
  0 <= t.2 + pid_offset - tasks_offset /\ t.2 + pid_offset - tasks_offset + 4 <= 4096.

(** The processes met from [v] on, until one whose link is [head].  That one
    is not among them: the loop ends before it looks at its pid. *)
Inductive tasks (head : Z) : Z -> list (mapping * Z) -> Prop :=
| tasks_last v t : task_at v t -> next_of t = head -> tasks head v []
| tasks_cons v t l :
    task_at v t -> next_of t <> head -> tasks head (next_of t) l -> tasks head v (t :: l).

Fixpoint find_task (p : Z) (l : list (mapping * Z)) : option (mapping * Z) :=
  match l with
  | [] => None
  | t :: l' => if pid_of t =? p then Some t else find_task p l'
  end.

Lemma find_task_Some p l t : find_task p l = Some t -> t ∈ l /\ pid_of t = p.
Proof.
  induction l as [|t' l IH]; simpl; [done|]. destruct (Z.eqb_spec (pid_of t') p).
  - intros [= ->]. split; [apply list_elem_of_here|done].
  - intros [? ?]%IH. split; [by apply list_elem_of_further|done].
Qed.

(** The task found lies in a mapped page. *)
Lemma tasks_at head v l t :
  tasks head v l -> t ∈ l -> exists u, task_at u t.
Proof.
  induction 1 as [v t' Ht Hn|v t' l Ht Hn Hl IH]; [by intros ?%not_elem_of_nil|].
  intros [->|Hin]%elem_of_cons; [by exists v|by apply IH].
Qed.
End Spec.

Section Correct.
Context {E : XenEnv} {W : WholePages}.
Variables (i : xa_instance) (pgd_of : Z -> Z) (tasks_offset pid_offset : Z).
Hypothesis Hgeo : geometry i.
Hypothesis Hpgd : forall p, is_u32 (pgd_of p).

Abbreviation task_at' := (task_at i tasks_offset pid_offset).
Abbreviation tasks' := (tasks i tasks_offset pid_offset).
Abbreviation find_task' := (find_task tasks_offset pid_offset).

Lemma kernel_va_coherent v prot w :
  coherent i pgd_of w -> is_u32 v ->
  runs (xa_access_kernel_va v prot) w (fun r w' =>
    r = page_at i prot (kv2p i v) /\ coherent i pgd_of w' /\
    live_maps w' = live_maps w + match r.1 with Some _ => 1 | None => 0 end).
Proof. intros Hc Hv. apply (access_va_coherent i pgd_of Hgeo Hpgd _ v 0); [done|done|by left]. Qed.

Lemma coherent_munmap w : coherent i pgd_of w -> coherent i pgd_of (with_live_maps (live_maps w - 1) w).
Proof. done. Qed.

Lemma page_at_mapped prot a m o : page_at i prot a = (Some m, o) -> m_len m = 4096 /\ 0 <= o < 4096.
Proof.
  intros H. apply (page_at_whole i Hgeo) in H as [? ->]. split; [done|].
  apply Z.mod_pos_bound. lia.
Qed.

Lemma tasks_link head v l : tasks' head v l -> exists t, task_at' v t.
Proof. destruct 1; eauto. Qed.

(** The loop finds the first process with the pid and ends with one mapping
    open if there is one, none otherwise. *)
Lemma get_task_correct p head l : forall v w n,
  tasks' head v l -> coherent i pgd_of w -> (length l < n)%nat ->
  runs (iter n (task_step tasks_offset pid_offset p head) v) w (fun r w' =>
    r = find_task' p l /\ coherent i pgd_of w' /\
    live_maps w' = live_maps w + match r with Some _ => 1 | None => 0 end).
Proof.
  intros v w n Hl. revert w n. induction Hl as [v t Ht Hn|v t l Ht Hn Hl IH]; intros w n Hc Hf;
    (destruct n as [|n]; [simpl in Hf; lia|]); apply runs_iter_step; unfold task_step;
    destruct Ht as (Hu & Hpg & H1 & H2 & H3); destruct t as [m o]; cbn [fst snd] in *;
    apply page_at_mapped in Hpg as Hpg'; destruct Hpg' as [Hlen Ho];
    apply runs_bind; (eapply runs_mono; [by apply kernel_va_coherent|]);
    intros r w1 (-> & Hc1 & Hl1); rewrite Hpg in *; cbn [fst] in Hl1;
    apply runs_bind; (apply load_runs; [lia|rewrite Hlen; lia|]).
  - change (le_combine (bytes m o 4)) with (next_of (m, o)). rewrite Hn, Z.eqb_refl.
    apply runs_bind, runs_modify, runs_ret. cbn [find_task].
    split; [done|]. split; [done|simpl; lia].
  - change (le_combine (bytes m o 4)) with (next_of (m, o)).
    rewrite (proj2 (Z.eqb_neq _ _)) by congruence.
    apply runs_bind, load_runs; [lia|rewrite Hlen; lia|]. cbn [find_task].
    change (s32 (le_combine (bytes m (o + pid_offset - tasks_offset) 4)))
      with (pid_of tasks_offset pid_offset (m, o)).
    destruct (pid_of tasks_offset pid_offset (m, o) =? p).
    + apply runs_ret. split; [done|]. split; [done|done].
    + apply runs_bind, runs_modify, runs_ret.
      eapply runs_mono; [apply IH; [by apply coherent_munmap|simpl in Hf; lia]|].
      intros r w2 (-> & Hc2 & Hl2). split; [done|]. split; [done|]. simpl in Hl2. lia.
Qed.

(** Fields of a task that is open. *)
Lemma task_field u t off :
  task_at' u t -> 0 <= t.2 + off - tasks_offset -> t.2 + off - tasks_offset + 4 <= 4096 ->
  forall w Q, Q (field t.1 (t.2 + off - tasks_offset)) w ->
  runs (load32 t.1 (t.2 + off - tasks_offset)) w Q.
Proof.
  intros (_ & Hpg & _) H1 H2 w Q HQ. apply page_at_mapped in Hpg as [Hlen _].
  apply load_runs; [lia|rewrite Hlen; lia|done].
Qed.
End Correct.
