(* ===== verification/Linux.v ===== *)
(** * Linux guests

    Models linux_memory.c and linux_symbols.c on the memory, cache, process
    list and symbol components, and proves that the page directory of a
    process is found: the Linux component provides the interface [PidToPgd]
    that access by user address is built on. *)

From Stdlib Require Import String.
From S2P Require Import Prelude CStr Dll XaTypes XaMap Guest PageTable XaCache XaAccess Symbols.
From S2P Require Import XaStore ProcList.

(** - [read_file path]: the contents of a file, [None] when [fopen] fails;
    - [malloc_row]: what [malloc] leaves in the row buffer. *)
Class FileEnv := { read_file : cstr -> option (list Z); malloc_row : list Z }.

Definition lift_result {S A} (r : result A) : M S A := fun s =>
  match r with Ret a => Ret (a, s) | Fault => Fault | Diverge => Diverge end.

(** Addresses copied out of the memory descriptor. *)
Record xa_linux_taskaddr := Taskaddr {
  start_code : Z; end_code : Z; start_data : Z; end_data : Z; start_brk : Z; brk_ : Z;
  start_stack : Z; arg_stack : Z; arg_end : Z; env_start : Z; env_end : Z }.

Section Model.
Context {E : XenEnv} {X : StoreEnv} {F : FileEnv}.

Definition linux_system_map_symbol_to_address (symbol : cstr) : M world (option Z) :=
  i ← gets inst;
  _ ← (if match sysmap i with None => true | Some s => (length s =? 0)%nat end then
         s ← linux_predict_sysmap_name (domain_id (m_xen i));
         _ ← (match s with Some t => _ ← kept_copy t; mret tt | None => mret tt end : M world unit);
         modify (fun w => with_inst (set_sysmap s (inst w)) w)
       else mret tt : M world unit);
  i ← gets inst;
  name ← of_option (sysmap i);
  match read_file name with
  | None => mret None
  | Some file => lift_result (system_map_lookup file malloc_row symbol)
  end.

(** finds the task struct for a given pid; [n] bounds the turns of the loop *)
Definition linux_get_taskstruct (n : nat) (p : Z) : M world (option (mapping * Z)) :=
  i ← gets inst;
  get_task n (l_tasks_offset (os_linux i)) (l_pid_offset (os_linux i)) p.

(** finds the address of the page global directory for a given pid *)
Definition linux_pid_to_pgd (n : nat) (p : Z) : M world Z :=
  i ← gets inst;
  let o := os_linux i in
  r ← linux_get_taskstruct n p;
  match r with
  | None => mret 0
  | Some (memory, offset) =>
      ptr ← load32 memory (offset + l_mm_offset o - l_tasks_offset o);
      _ ← munmap;
      v ← read_kernel 4 (u32 (ptr + l_pgd_offset o));
      (* convert pgd into a machine address *)
      pgd ← xa_translate_kv2p (default 0 v);
      (* update the cache with this new pid->pgd mapping *)
      _ ← xa_update_pid_cache p pgd;
      mret pgd
  end.

Definition linux_access_kernel_symbol (symbol : cstr) (prot : Z) : M world (option mapping * Z) :=
  (* check the LRU cache *)
  hit ← xa_check_cache_sym symbol 0;
  match hit with
  | Some address => xa_access_ma address PROT_READ
  | None =>
      (* get the virtual address of the symbol *)
      v ← linux_system_map_symbol_to_address symbol;
      match v with
      | None => mret (None, 0)
      | Some virt_address =>
          _ ← xa_update_cache (Some symbol) virt_address 0 0;
          xa_access_kernel_va virt_address prot
      end
  end.

(** [memcpy(taskaddr, memory + off, sizeof(xa_linux_taskaddr_t))] *)
Definition load_taskaddr (memory : mapping) (off : Z) : M world xa_linux_taskaddr :=
  l ← read_longs memory off 11;
  match l with
  | [a; b; c; d; e; f; g; h; j; k; x] => mret (Taskaddr a b c d e f g h j k x)
  | _ => fault
  end.

(** fills the taskaddr struct for a given linux process; [None] is
    XA_FAILURE *)
Definition xa_linux_get_taskaddr (n : nat) (p : Z) : M world (option xa_linux_taskaddr) :=
  i ← gets inst;
  let o := os_linux i in
  r ← linux_get_taskstruct n p;
  match r with
  | None => mret None
  | Some (memory, offset) =>
      ptr ← load32 memory (offset + l_mm_offset o - l_tasks_offset o);
      _ ← munmap;
      r' ← xa_access_kernel_va ptr PROT_READ;
      match r' with
      | (None, _) => mret None
      | (Some memory', offset') =>
          t ← load_taskaddr memory' (offset' + l_addr_offset o);
          _ ← munmap;
          mret (Some t)
      end
  end.
End Model.

(** ** Finding the page directory of a process *)

Section Pgd.
Context {E : XenEnv} {W : WholePages}.
Variables (i : xa_instance) (l : list (mapping * Z)).
Abbreviation o := (os_linux i).
Abbreviation tasks_off := (l_tasks_offset o).
Abbreviation pid_off := (l_pid_offset o).

(** The memory descriptor pointer of a task, and the page directory it leads
    to: the word at [mm->pgd], read at a kernel address and translated. *)
Definition mm_of (t : mapping * Z) : Z := field t.1 (t.2 + l_mm_offset o - tasks_off).

Definition task_pgd (t : mapping * Z) : Z :=
  kv2p i (default 0 (read_at i (fun _ => 0) 4 0 (u32 (mm_of t + l_pgd_offset o)))).

Definition linux_pgd_of (p : Z) : Z :=
  match find_task tasks_off pid_off p l with Some t => task_pgd t | None => 0 end.

(** What a guest must look like: a process list that closes, tasks whose [mm]
    field is in the page of their links, page directory pointers that do not
    straddle pages. *)
Record linux_guest : Prop := {
  lg_geometry : geometry i;
  lg_tasks : tasks i tasks_off pid_off (init_task i) (init_task i) l;
  lg_mm : Forall (fun t => 0 <= t.2 + l_mm_offset o - tasks_off /\
                           t.2 + l_mm_offset o - tasks_off + 4 <= 4096) l;
  lg_pgd : Forall (fun t => u32 (mm_of t + l_pgd_offset o) mod 4096 + 4 <= 4096) l }.

Lemma linux_pgd_of_u32 p : is_u32 (linux_pgd_of p).
Proof.
  unfold linux_pgd_of. destruct (find_task _ _ p l); [|lia].
  unfold task_pgd, kv2p. apply pt_lookup_spec.
Qed.

Lemma read_at_0 g g' n v : read_at i g n 0 v = read_at i g' n 0 v.
Proof. done. Qed.

(** Recording the right page directory keeps the pid cache coherent. *)
Lemma update_pid_coherent pgd_of p w :
  coherent i pgd_of w ->
  runs (xa_update_pid_cache p (pgd_of p)) w (fun _ w' =>
    coherent i pgd_of w' /\ live_maps w' = live_maps w).
Proof.
  intros Hc. pose proof Hc as (Hi & Hcc & (lp & Hh & Hl & Hf)).
  eapply runs_mono; [by apply update_pid_refines|].
  intros r w' [_ (Hh' & Hi' & [Hc' Hs'] & Hm & _)]. split; [|done].
  split; [by rewrite Hi'|]. unfold cached in *. rewrite Hc', Hs'. split; [done|].
  eexists. split; [exact Hh'|]. split; [by apply spec_pid_update_length|].
  unfold spec_pid_update. destruct (p =? 0); [done|].
  destruct (split_first _ lp) as [[[pre e] post]|] eqn:Es.
  - apply split_first_Some in Es as (-> & _ & _).
    apply Forall_app in Hf as [H1 [_ H3]%list.Forall_cons].
    apply Forall_app. split; [done|]. by constructor.
  - apply Forall_app. split; [by apply make_room_Forall|]. by repeat constructor.
Qed.

Lemma linux_get_taskstruct_runs pgd_of n p w :
  linux_guest -> (forall p, is_u32 (pgd_of p)) -> coherent i pgd_of w -> (length l < n)%nat ->
  runs (linux_get_taskstruct n p) w (fun r w' =>
    r = find_task tasks_off pid_off p l /\ coherent i pgd_of w' /\
    live_maps w' = live_maps w + match r with Some _ => 1 | None => 0 end).
Proof.
  intros Hg Hp Hc Hn. pose proof Hc as [Hi _].
  apply runs_bind, runs_gets. rewrite Hi. apply runs_bind, runs_gets. rewrite Hi.
  by apply (get_task_correct i pgd_of tasks_off pid_off (lg_geometry Hg) Hp p (init_task i) l);
    [apply Hg|..].
Qed.

Lemma linux_pid_to_pgd_runs n p w :
  linux_guest -> coherent i linux_pgd_of w -> (length l < n)%nat ->
  runs (linux_pid_to_pgd n p) w (fun r w' =>
    r = linux_pgd_of p /\ coherent i linux_pgd_of w' /\ live_maps w' = live_maps w).
Proof.
  intros Hg Hc Hn. pose proof Hc as [Hi _].
  apply runs_bind, runs_gets. rewrite Hi. cbv zeta.
  apply runs_bind. eapply runs_mono.
  { by apply linux_get_taskstruct_runs; [|apply linux_pgd_of_u32|..]. }
  intros r w1 (-> & Hc1 & Hl1). unfold linux_pgd_of at 1.
  destruct (find_task tasks_off pid_off p l) as [[m off]|] eqn:Ef.
  2:{ apply runs_ret. split; [done|]. split; [done|lia]. }
  pose proof Ef as [Hin _]%find_task_Some.
  destruct (tasks_at _ _ _ _ _ _ _ (lg_tasks Hg) Hin) as [u Hu].
  pose proof (proj1 (list.Forall_forall _ _) (lg_mm Hg) _ Hin) as [H1 H2].
  pose proof (proj1 (list.Forall_forall _ _) (lg_pgd Hg) _ Hin) as H3.
  apply runs_bind.
  apply (task_field i tasks_off pid_off (lg_geometry Hg) u (m, off) (l_mm_offset o) Hu H1 H2).
  change (field (m, off).1 _) with (mm_of (m, off)).
  apply runs_bind, runs_modify, runs_bind.
  eapply runs_mono.
  { apply (read_virt_coherent i linux_pgd_of (lg_geometry Hg) linux_pgd_of_u32 4 _ _ 0);
      [by apply coherent_munmap|apply u32_range|by left|done]. }
  intros v w2 (-> & Hc2 & Hl2). pose proof Hc2 as [Hi2 _].
  apply runs_bind. eapply runs_eq.
  { apply xa_translate_kv2p_eq; [rewrite Hi2; apply Hg|].
    unfold read_at. case_match; simpl; [lia|].
    destruct (mem_read i 4 _) eqn:Em; simpl; [|lia]. by apply mem_read_range in Em. }
  rewrite Hi2, (read_at_0 linux_pgd_of (fun _ => 0)).
  change (kv2p i _) with (task_pgd (m, off)).
  assert (task_pgd (m, off) = linux_pgd_of p) as Ep by (unfold linux_pgd_of; by rewrite Ef).
  rewrite Ep. apply runs_bind. eapply runs_mono; [by apply update_pid_coherent|].
  intros _ w3 [Hc3 Hl3]. apply runs_ret. split; [done|]. split; [done|].
  simpl in Hl2. lia.
Qed.

(** The Linux component provides what access by user address needs. *)
Lemma linux_provides_pgd n :
  linux_guest -> (length l < n)%nat ->
  PidToPgd (coherent i linux_pgd_of) linux_pgd_of (linux_pid_to_pgd n).
Proof. intros Hg Hn p w Hc _. by apply linux_pid_to_pgd_runs. Qed.
End Pgd.

(** ** Symbols and memory descriptors *)

Section Symbol.
Context {E : XenEnv} {W : WholePages} {X : StoreEnv} {F : FileEnv}.
Variables (i : xa_instance) (pgd_of : Z -> Z).
Hypothesis Hgeo : geometry i.
Hypothesis Hpgd : forall p, is_u32 (pgd_of p).

Lemma lookup_sysmap_runs name rs symbol w :
  inst w = i -> sysmap i = Some name -> name <> [] -> read_file name = Some (print_map rs) ->
  Forall row_ok rs -> Forall (fun c => c <> 0) symbol ->
  linux_system_map_symbol_to_address symbol w = Ret (map_find rs symbol, w).
Proof.
  intros Hi Hs Hn Hr Hrs Hsym. unfold linux_system_map_symbol_to_address.
  erewrite bind_eq by done. rewrite Hi, Hs.
  assert ((length name =? 0)%nat = false) as -> by by destruct name.
  rewrite bind_ret_l. erewrite bind_eq by done. rewrite Hi, Hs. cbn [of_option].
  rewrite bind_ret_l, Hr. unfold lift_result.
  by rewrite system_map_lookup_map.
Qed.
End Symbol.

Section TaskAddr.
Context {E : XenEnv} {W : WholePages}.

(** Consecutive words of a mapped page. *)
Fixpoint words (m : mapping) (off : Z) (k : nat) : list Z :=
  match k with O => [] | S k' => field m off :: words m (off + 4) k' end.

Lemma read_longs_runs m k : forall off w (Q : list Z -> world -> Prop),
  0 <= off -> off + 4 * Z.of_nat k <= m_len m -> Q (words m off k) w ->
  runs (read_longs m off k) w Q.
Proof.
  induction k as [|k IH]; intros off w Q H1 H2 HQ; [by apply runs_ret|].
  apply runs_bind, load_runs; [lia|lia|]. apply runs_bind, IH; [lia|lia|]. by apply runs_ret.
Qed.

(** The addresses in a memory descriptor, in the order of the structure. *)
Definition taskaddr_at (m : mapping) (off : Z) : xa_linux_taskaddr :=
  Taskaddr (field m off) (field m (off + 4)) (field m (off + 4 + 4)) (field m (off + 4 + 4 + 4))
    (field m (off + 4 + 4 + 4 + 4)) (field m (off + 4 + 4 + 4 + 4 + 4))
    (field m (off + 4 + 4 + 4 + 4 + 4 + 4)) (field m (off + 4 + 4 + 4 + 4 + 4 + 4 + 4))
    (field m (off + 4 + 4 + 4 + 4 + 4 + 4 + 4 + 4))
    (field m (off + 4 + 4 + 4 + 4 + 4 + 4 + 4 + 4 + 4))
    (field m (off + 4 + 4 + 4 + 4 + 4 + 4 + 4 + 4 + 4 + 4)).

Lemma load_taskaddr_runs m off w (Q : xa_linux_taskaddr -> world -> Prop) :
  0 <= off -> off + 44 <= m_len m -> Q (taskaddr_at m off) w -> runs (load_taskaddr m off) w Q.
Proof. intros H1 H2 HQ. apply runs_bind, read_longs_runs; [lia|lia|]. by apply runs_ret. Qed.
End TaskAddr.

(** ** Access to a symbol *)

Section KernelSymbol.
Context {E : XenEnv} {W : WholePages} {X : StoreEnv} {F : FileEnv}.
Variables (i : xa_instance) (pgd_of : Z -> Z).
Hypothesis Hgeo : geometry i.
Hypothesis Hpgd : forall p, is_u32 (pgd_of p).

Lemma map_find_u32 rs symbol a : Forall row_ok rs -> map_find rs symbol = Some a -> is_u32 a.
Proof.
  intros Hrs Ea. induction Hrs as [|r rs Hr Hrs IH]; cbn [map_find] in Ea; [done|].
  destruct (decide _); [injection Ea as <-; apply Hr|auto].
Qed.

(** An instance whose System.map is configured and readable, and a symbol
    name that can be looked up in it. *)
Definition sysmap_ready (name : cstr) (rs : list map_row) (symbol : cstr) : Prop :=
  sysmap i = Some name /\ name <> [] /\ read_file name = Some (print_map rs) /\
  Forall row_ok rs /\ Forall (fun c => c <> 0) symbol.

Lemma linux_kernel_symbol_runs name rs symbol prot w lc :
  coherent i pgd_of w -> sysmap_ready name rs symbol ->
  cached w lc -> Forall (fun e => sym_hit symbol 0 e = false) lc ->
  runs (linux_access_kernel_symbol symbol prot) w (fun r w' =>
    r = match map_find rs symbol with Some a => page_at i prot (kv2p i a) | None => (None, 0) end /\
    coherent i pgd_of w' /\
    live_maps w' = live_maps w + match r.1 with Some _ => 1 | None => 0 end).
Proof.
  intros Hc (Hs & Hn & Hr & Hrs & Hsym) Hh Hno.
  apply runs_bind. eapply runs_mono; [by eapply (check_sym_miss i pgd_of)|].
  intros r w1 (-> & Hc1 & Hl1). pose proof Hc1 as [Hi1 _].
  apply runs_bind. eapply runs_eq; [by eapply lookup_sysmap_runs|].
  destruct (map_find rs symbol) as [a|] eqn:Ea.
  - pose proof (map_find_u32 _ _ _ Hrs Ea) as Ha.
    apply runs_bind. eapply runs_mono; [by apply (update_sym_coherent i pgd_of Hgeo)|].
    intros _ w2 [Hc2 Hl2]. rewrite <- Hl1, <- Hl2. by apply kernel_va_coherent.
  - apply runs_ret. split; [done|]. split; [done|simpl; lia].
Qed.
End KernelSymbol.

(** ** Properties *)

Section Properties.
Context {E : XenEnv} {W : WholePages} {X : StoreEnv} {F : FileEnv}.
Variables (i : xa_instance) (l : list (mapping * Z)).
Hypothesis Hguest : linux_guest i l.

(** C17: [linux_pid_to_pgd] ends on every guest whose process list closes, with
    fuel above its length, and returns the physical address of the page
    directory of the first process with the pid (0 when there is none); it
    leaves no mapping open and the caches coherent, so it provides the
    interface user address access is built on. *)
Theorem linux_pid_to_pgd_correct n :
  (length l < n)%nat ->
  PidToPgd (coherent i (linux_pgd_of i l)) (linux_pgd_of i l) (linux_pid_to_pgd n).
Proof. intros Hn. by apply linux_provides_pgd. Qed.

(** The first access to a kernel symbol of a Linux guest looks it up in
    the System.map and gives the page its address translates to, NULL when
    the map does not have it. *)
Theorem linux_kernel_symbol_correct name rs symbol prot w lc pgd_of :
  (forall p, is_u32 (pgd_of p)) -> coherent i pgd_of w -> sysmap_ready i name rs symbol ->
  cached w lc -> Forall (fun e => sym_hit symbol 0 e = false) lc ->
  runs (linux_access_kernel_symbol symbol prot) w (fun r w' =>
    r = match map_find rs symbol with Some a => page_at i prot (kv2p i a) | None => (None, 0) end /\
    coherent i pgd_of w' /\
    live_maps w' = live_maps w + match r.1 with Some _ => 1 | None => 0 end).
Proof. intros Hp Hc Hs Hh Hno. eapply linux_kernel_symbol_runs; [apply Hguest|done..]. Qed.

Lemma linux_get_taskaddr_runs n p w pgd_of :
  (length l < n)%nat -> (forall p, is_u32 (pgd_of p)) -> coherent i pgd_of w ->
  (forall t m o, find_task (l_tasks_offset (os_linux i)) (l_pid_offset (os_linux i)) p l = Some t ->
     page_at i PROT_READ (kv2p i (mm_of i t)) = (Some m, o) ->
     0 <= o + l_addr_offset (os_linux i) /\ o + l_addr_offset (os_linux i) + 44 <= 4096) ->
  runs (xa_linux_get_taskaddr n p) w (fun r w' =>
    r = (t ← find_task (l_tasks_offset (os_linux i)) (l_pid_offset (os_linux i)) p l;
         match page_at i PROT_READ (kv2p i (mm_of i t)) with
         | (Some m, o) => Some (taskaddr_at m (o + l_addr_offset (os_linux i)))
         | (None, _) => None
         end) /\
    coherent i pgd_of w' /\ live_maps w' = live_maps w).
Proof.
  intros Hn Hp Hc Hin. pose proof Hc as [Hi _]. pose proof (lg_geometry _ _ Hguest) as Hgeo.
  apply runs_bind, runs_gets. rewrite Hi. cbv zeta. apply runs_bind.
  eapply runs_mono; [by apply linux_get_taskstruct_runs|]. intros r w1 (-> & Hc1 & Hl1).
  destruct (find_task _ _ p l) as [[m off]|] eqn:Ef.
  2:{ apply runs_ret. split; [done|]. split; [done|lia]. }
  pose proof Ef as [Ht _]%find_task_Some.
  destruct (tasks_at _ _ _ _ _ _ _ (lg_tasks _ _ Hguest) Ht) as [u Hu].
  pose proof (proj1 (list.Forall_forall _ _) (lg_mm _ _ Hguest) _ Ht) as [H1 H2].
  apply runs_bind. apply (task_field i _ _ Hgeo u (m, off) _ Hu H1 H2).
  change (field (m, off).1 _) with (mm_of i (m, off)).
  apply runs_bind, runs_modify, runs_bind.
  eapply runs_mono.
  { apply (kernel_va_coherent i pgd_of Hgeo Hp); [by apply coherent_munmap|].
    apply (le_combine_range (bytes m _ 4)), bytes_u8. }
  intros [[m'|] o'] w2 (Hr & Hc2 & Hl2); simpl mbind; cbn [option_bind]; rewrite <- Hr.
  - destruct (Hin _ _ _ eq_refl (eq_sym Hr)) as [H3 H4].
    pose proof (page_at_mapped i Hgeo _ _ _ _ (eq_sym Hr)) as [Hlen _].
    apply runs_bind, load_taskaddr_runs; [done|lia|].
    apply runs_bind, runs_modify, runs_ret. split; [done|]. split; [done|simpl in *; lia].
  - apply runs_ret. split; [done|]. split; [done|simpl in *; lia].
Qed.

(** [xa_linux_get_taskaddr] returns the eleven addresses stored in the
    memory descriptor of the process, and fails exactly when there is no such
    process or its descriptor has no page; either way nothing stays mapped. *)
Theorem linux_get_taskaddr_correct n p w pgd_of :
  (length l < n)%nat -> (forall p, is_u32 (pgd_of p)) -> coherent i pgd_of w ->
  (forall t m o, find_task (l_tasks_offset (os_linux i)) (l_pid_offset (os_linux i)) p l = Some t ->
     page_at i PROT_READ (kv2p i (mm_of i t)) = (Some m, o) ->
     0 <= o + l_addr_offset (os_linux i) /\ o + l_addr_offset (os_linux i) + 44 <= 4096) ->
  runs (xa_linux_get_taskaddr n p) w (fun r w' =>
    r = (t ← find_task (l_tasks_offset (os_linux i)) (l_pid_offset (os_linux i)) p l;
         match page_at i PROT_READ (kv2p i (mm_of i t)) with
         | (Some m, o) => Some (taskaddr_at m (o + l_addr_offset (os_linux i)))
         | (None, _) => None
         end) /\
    coherent i pgd_of w' /\ live_maps w' = live_maps w).
Proof. apply linux_get_taskaddr_runs. Qed.
End Properties.

(** *** Witnesses *)

#[local] Instance linux_env : XenEnv := guest_env linux_image.
#[local] Instance linux_whole : WholePages := guest_whole _.
Abbreviation lin := (guest_inst 1 0).

Definition linux_files : FileEnv := {|
  read_file name := if decide (name = str "/boot/System.map") then Some (print_map sample_map) else None;
  malloc_row := [] |}.

(** The same instance with its System.map configured. *)
Definition lin_map : xa_instance := set_sysmap (Some (str "/boot/System.map")) lin.

Definition task (a : Z) : mapping * Z := (guest_frame linux_image a, a mod 4096).

Lemma guest_page_at i prot v a :
  i = lin \/ i = lin_map -> kv2p i v = a -> 0 < a < 0x100000 ->
  page_at i prot (kv2p i v) = (Some (guest_frame linux_image a), a mod 4096).
Proof.
  intros Hi -> Ha. unfold page_at. rewrite (proj2 (Z.eqb_neq a 0)) by lia.
  assert (frame_of i prot (a / 4096) = Some (guest_frame linux_image a)) as ->; [|done].
  destruct Hi as [-> | ->]; exact (guest_frame_of linux_image 1 0 prot a ltac:(lia)).
Qed.

Lemma lin_guest i : i = lin \/ i = lin_map -> linux_guest i [task 0x5010; task 0x6010].
Proof.
  intros Hi.
  assert (Ht : forall v a, kv2p i v = a -> is_u32 v -> 0 < a < 0x100000 -> a mod 4096 = 0x10 ->
    task_at i (l_tasks_offset (os_linux i)) (l_pid_offset (os_linux i)) v (task a)).
  { intros v a Hk Hv Ha Hm. unfold task_at, task. cbn [fst snd]. rewrite Hm.
    assert (l_tasks_offset (os_linux i) = 16 /\ l_pid_offset (os_linux i) = 24) as [-> ->]
      by by destruct Hi as [-> | ->].
    split; [done|]. split; [|lia]. rewrite <- Hm. by apply guest_page_at. }
  split.
  - by destruct Hi as [-> | ->].
  - assert (init_task i = 0xC0005010) as -> by by destruct Hi as [-> | ->].
    assert (Hn : forall a b, next_of (task a) = b -> next_of (task a) = b) by done.
    apply tasks_cons; [apply Ht| |].
    + destruct Hi as [-> | ->]; vm_compute; reflexivity.
    + lia.
    + lia.
    + reflexivity.
    + vm_compute. discriminate.
    + assert (next_of (task 0x5010) = 0xC0006010) as -> by (vm_compute; reflexivity).
      apply tasks_cons; [apply Ht| |].
      * destruct Hi as [-> | ->]; vm_compute; reflexivity.
      * lia.
      * lia.
      * reflexivity.
      * vm_compute. discriminate.
      * assert (next_of (task 0x6010) = 0xC0008010) as -> by (vm_compute; reflexivity).
        apply (tasks_last _ _ _ _ _ (task 0x8010)); [apply Ht|vm_compute; reflexivity].
        -- destruct Hi as [-> | ->]; vm_compute; reflexivity.
        -- lia.
        -- lia.
        -- reflexivity.
  - destruct Hi as [-> | ->]; repeat constructor; vm_compute; discriminate.
  - destruct Hi as [-> | ->]; repeat constructor; vm_compute; discriminate.
Qed.

Lemma lin_coherent i pgd_of : coherent i pgd_of (guest_world i).
Proof. apply world_coherent. Defined.

Lemma linux_pid_to_pgd_correct_witness :
  runs (linux_pid_to_pgd 3 1) (guest_world lin) (fun r _ => r = 0x9000).
Proof.
  eapply runs_mono.
  - apply (linux_pid_to_pgd_correct lin _ (lin_guest lin (or_introl eq_refl)) 3).
    + simpl. lia.
    + apply lin_coherent.
    + discriminate.
  - intros r w' (-> & _). vm_compute. reflexivity.
Defined.

Lemma linux_kernel_symbol_correct_witness :
  @runs _ _ (@linux_access_kernel_symbol linux_env guest_store linux_files (str "init_task") PROT_READ)
    (guest_world lin_map) (fun r w' => r.2 = 0 /\ live_maps w' = 0 + 1).
Proof.
  eapply runs_mono.
  - apply (@linux_kernel_symbol_correct linux_env linux_whole guest_store linux_files lin_map _
             (lin_guest lin_map (or_intror eq_refl)) (str "/boot/System.map") sample_map
             (str "init_task") PROT_READ (guest_world lin_map) [] (fun _ => 0)).
    + lia.
    + apply lin_coherent.
    + split_and!; [reflexivity|discriminate|reflexivity|apply sample_map_ok|].
      repeat constructor; discriminate.
    + apply guest_cached.
    + constructor.
  - intros r w' (Hr & _ & Hl).
    change (map_find sample_map (str "init_task")) with (Some 0xc0005000) in Hr. cbv iota in Hr.
    assert (Hp : @page_at linux_env lin_map PROT_READ (kv2p lin_map 0xc0005000) =
            (Some (guest_frame linux_image 0x5000), 0)).
    { refine (guest_page_at lin_map PROT_READ 0xc0005000 0x5000 (or_intror eq_refl) _ _);
        [vm_compute; reflexivity|lia]. }
    rewrite Hp in Hr. subst r. split; [reflexivity|exact Hl].
Defined.

Lemma linux_get_taskaddr_correct_witness :
  runs (xa_linux_get_taskaddr 3 1) (guest_world lin) (fun r _ => start_code <$> r = Some 0x08048000).
Proof.
  assert (Hmm : @page_at linux_env lin PROT_READ (kv2p lin (mm_of lin (task 0x5010))) =
                (Some (guest_frame linux_image 0x7000), 0)).
  { assert (mm_of lin (task 0x5010) = 0xC0007000) as -> by (vm_compute; reflexivity).
    refine (guest_page_at lin PROT_READ 0xC0007000 0x7000 (or_introl eq_refl) _ _);
      [vm_compute; reflexivity|lia]. }
  assert (Hf : find_task 16 24 1 [task 0x5010; task 0x6010] = Some (task 0x5010)) by
    (unfold find_task; by assert ((pid_of 16 24 (task 0x5010) =? 1) = true) as -> by
       (vm_compute; reflexivity)).
  eapply runs_mono.
  - apply (linux_get_taskaddr_correct lin _ (lin_guest lin (or_introl eq_refl)) 3 1 _ (fun _ => 0)).
    + simpl. lia.
    + lia.
    + apply lin_coherent.
    + intros t m o Ht Hp. change (find_task _ _ _ _) with
        (find_task 16 24 1 [task 0x5010; task 0x6010]) in Ht. rewrite Hf in Ht.
      injection Ht as <-. rewrite Hmm in Hp. injection Hp as <- <-.
      change (l_addr_offset (os_linux lin)) with 0x80. lia.
  - change (find_task (l_tasks_offset (os_linux lin)) (l_pid_offset (os_linux lin)) 1
              [task 0x5010; task 0x6010]) with (find_task 16 24 1 [task 0x5010; task 0x6010]).
    rewrite Hf. cbn [mbind option_bind]. rewrite Hmm.
    intros r w' (-> & _). reflexivity.
Defined.
