(* ===== verification/SymAccess.v ===== *)
(** * Kernel symbols through the cache

    An entry for a symbol keeps the physical address of the symbol, so the
    second access to it does neither read the System.map nor walk the page
    tables.  This file states what the entries for symbols must hold, proves
    that the operations of the library keep it so outside page zero, and that
    an access to a symbol then gives the same page whether it is cached or
    not. *)

From Stdlib Require Import String.
From S2P Require Import Prelude CStr Dll XaTypes XaMap Guest PageTable XaCache XaAccess Symbols XaStore ProcList Linux.

Lemma runs_and {S A} (m : M S A) s (P Q : A -> S -> Prop) :
  runs m s P -> runs m s Q -> runs m s (fun a s' => P a s' /\ Q a s').
Proof.
  intros (a & s' & E & HP) HQ. exists a, s'. split; [done|]. split; [done|]. by eapply runs_inv.
Qed.

(** Entries for symbols have no page, and entries for pages have no name. *)
Definition sym_shape (e : xa_cache_entry) : Prop := name_of e <> [] -> virt_address e = 0.

Lemma spec_update_shape b name virt v m p ma now l :
  Forall sym_shape l -> Forall sym_shape (spec_update b name virt v m p ma now l).
Proof.
  intros Hl.
  assert (Hput : forall pre e post e', l = pre ++ e :: post -> (sym_shape e -> sym_shape e') ->
            Forall sym_shape (pre ++ e' :: post)).
  { intros pre e post e' -> He. apply Forall_app in Hl as [H1 [H2 H3]%list.Forall_cons].
    apply Forall_app. split; [done|]. apply Forall_cons_2; auto. }
  assert (Hnew : forall e', sym_shape e' -> Forall sym_shape (make_room last_used 25 l ++ [e'])).
  { intros e' He. apply Forall_app. split; [by apply make_room_Forall|].
    apply Forall_cons_2; [done|constructor]. }
  unfold spec_update. destruct name as [s|].
  - destruct (split_first (sym_matches s) l) as [[[pre e] post]|] eqn:Es.
    { apply split_first_Some in Es as (Hl' & _). by eapply Hput. }
    destruct (if virt =? 0 then None else _) as [[[pre e] post]|] eqn:Ev; [|by apply Hnew].
    destruct (virt =? 0); [done|]. apply split_first_Some in Ev as (Hl' & _). by eapply Hput.
  - destruct (if virt =? 0 then None else _) as [[[pre e] post]|] eqn:Ev.
    { destruct (virt =? 0); [done|]. apply split_first_Some in Ev as (Hl' & _). by eapply Hput. }
    destruct (virt =? 0); [done|]. apply Hnew. by intros [].
Qed.

(** A cached name is found only by the symbol it is the name of. *)
Lemma sym_matches_name s e :
  (length s < MAX_SYM_LEN)%nat -> sym_matches s e = true -> name_of e = s.
Proof.
  intros Hlen Hm. unfold sym_matches in Hm. apply Z.eqb_eq, strncmp_eq in Hm.
  rewrite (take_ge s) in Hm by lia.
  destruct (decide (length (name_of e) <= MAX_SYM_LEN)%nat); [by rewrite take_ge in Hm|].
  apply (f_equal length) in Hm. rewrite length_take in Hm. lia.
Qed.

Section Syms.
Context {E : XenEnv} {W : WholePages}.
Variables (i : xa_instance) (pgd_of : Z -> Z) (addr_of : cstr -> option Z).
Hypothesis Hgeo : geometry i.
Hypothesis Hpgd : forall p, is_u32 (pgd_of p).
Hypothesis Haddr : forall s a, addr_of s = Some a ->
  is_u32 a /\ s <> [] /\ (length s < MAX_SYM_LEN)%nat.

(** The entry of a symbol that has a translation holds it. *)
Definition sym_value (e : xa_cache_entry) : Prop :=
  name_of e <> [] -> mach_address e <> 0 ->
  exists a, addr_of (name_of e) = Some a /\ mach_address e = kv2p i a.

Definition sym_entry (e : xa_cache_entry) : Prop := sym_shape e /\ sym_value e.

Definition syms (w : world) : Prop := exists l, cached w l /\ Forall sym_entry l.

Lemma syms_step w l w' : cache_step w l w' -> Forall sym_entry l -> syms w'.
Proof. intros (Hh & _) Hl. by exists l. Qed.

(** Above page zero every page has an address. *)
Lemma page_nonzero v : is_u32 v -> 4096 <= v -> page_of i v <> 0.
Proof. intros Hv Hv'. rewrite page_of_eq by done. Z.to_euclidean_division_equations. lia. Qed.

Lemma sym_entry_touch now e : sym_entry e -> sym_entry (touch now e).
Proof. done. Qed.

Lemma sym_matches_eq s e :
  addr_of s <> None -> sym_matches s e = true -> name_of e = s.
Proof.
  intros Hs. destruct (addr_of s) as [a|] eqn:Es; [|done].
  destruct (Haddr _ _ Es) as (_ & _ & Hlen). by apply sym_matches_name.
Qed.

Lemma spec_update_page_syms b virt v m p now l :
  v <> 0 -> Forall sym_entry l -> Forall sym_entry (spec_update b None virt v m p 0 now l).
Proof.
  intros Hv Hl. unfold spec_update.
  destruct (if virt =? 0 then None else _) as [[[pre e] post]|] eqn:Ev.
  - destruct (virt =? 0); [done|]. apply split_first_Some in Ev as (-> & He%Z.eqb_eq & _).
    apply Forall_app in Hl as [H1 [[H2 _] H3]%list.Forall_cons].
    apply Forall_app. split; [done|]. apply Forall_cons_2; [|done].
    split; [exact H2|]. intros Hn. apply H2 in Hn. unfold name_of in Hn; cbn [symbol_name s_text] in Hn. congruence.
  - destruct (virt =? 0); [done|]. apply Forall_app. split; [by apply make_room_Forall|].
    apply Forall_cons_2; [|constructor]. by split; intros [].
Qed.

Lemma spec_update_sym_syms b s a now l :
  addr_of s = Some a -> 4096 <= a -> Forall sym_entry l ->
  Forall sym_entry (spec_update b (Some s) a (page_of i a) 0 0 (kv2p i a) now l).
Proof.
  intros Es Ha Hl. destruct (Haddr _ _ Es) as (Hu & Hne & Hlen).
  assert (Hnew : forall e, name_of e = s -> virt_address e = 0 -> mach_address e = kv2p i a ->
            sym_entry e).
  { intros e Hs Hv Hm. split; [by intros _|]. intros _ _. exists a. by rewrite Hs, Hm. }
  unfold spec_update. destruct (split_first (sym_matches s) l) as [[[pre e] post]|] eqn:Em.
  - apply split_first_Some in Em as (-> & He & _).
    apply Forall_app in Hl as [H1 [_ H3]%list.Forall_cons].
    apply Forall_app. split; [done|]. apply Forall_cons_2; [|done].
    apply Hnew; [|done..]. unfold name_of; cbn [symbol_name s_text]. apply sym_matches_eq; [by rewrite Es|done].
  - destruct (if a =? 0 then None else _) as [[[pre e] post]|] eqn:Ev.
    + destruct (a =? 0); [done|]. apply split_first_Some in Ev as (-> & He%Z.eqb_eq & _).
      apply Forall_app in Hl as [H1 [[H2 _] H3]%list.Forall_cons].
      apply Forall_app. split; [done|]. apply Forall_cons_2; [|done].
      split; [exact H2|]. intros Hn. apply H2 in Hn. unfold name_of in Hn; cbn [symbol_name s_text] in Hn.
      rewrite He in Hn. by apply page_nonzero in Hn.
    + apply Forall_app. split; [by apply make_room_Forall|].
      apply Forall_cons_2; [|constructor]. apply Hnew; [|done..]. unfold name_of; cbn [symbol_name s_text].
      unfold strndup. by rewrite take_ge by lia.
Qed.

(** *** The operations *)

Lemma check_virt_syms v p w :
  coherent i pgd_of w -> syms w -> runs (xa_check_cache_virt v p) w (fun _ w' => syms w').
Proof.
  intros Hc (l & Hh & Hf). eapply runs_mono; [by apply check_virt_refines|]. intros r w' H.
  pose proof (spec_check_Forall sym_entry (virt_hit (page_of (inst w) v) p) (clock (ticks w)) l
                (sym_entry_touch _) Hf) as Hf'.
  destruct (spec_check _ _ l) as [o l']. destruct H as [_ Hs]. by eapply syms_step.
Qed.

Lemma update_page_syms v p a w :
  coherent i pgd_of w -> syms w -> is_u32 v -> 4096 <= v -> a <> 0 ->
  runs (xa_update_cache None v p a) w (fun _ w' => syms w').
Proof.
  intros Hc (l & Hh & Hf) Hv Hv' Ha. pose proof Hc as (Hi & (l' & Hh' & Hlen & _) & _).
  pose proof (cached_inj _ _ _ Hh Hh') as <-.
  eapply runs_mono; [apply update_refines; [by rewrite Hi|done|exact Hh|done]|].
  rewrite Hi. intros r w' [_ Hs]. eapply syms_step; [exact Hs|].
  apply spec_update_page_syms; [by apply page_nonzero|done].
Qed.

Lemma kernel_va_syms v prot w :
  coherent i pgd_of w -> syms w -> is_u32 v -> 4096 <= v ->
  runs (xa_access_kernel_va v prot) w (fun _ w' => syms w').
Proof.
  intros Hc Hs Hv Hv'. apply runs_bind.
  eapply runs_mono; [apply runs_and; [by apply check_virt_coherent|by apply check_virt_syms]|].
  intros [a|] w1 ((Hc1 & _ & Ha) & Hs1); pose proof Hc1 as [Hi1 _].
  - destruct Ha as [-> Ha0]. eapply runs_eq; [apply xa_access_ma_eq; [by rewrite Hi1|by apply translate_u32]|].
    by destruct (frame_of _ _ _).
  - apply runs_bind. eapply runs_eq; [by apply xa_translate_kv2p_eq; [rewrite Hi1|]|].
    rewrite Hi1. destruct (Z.eqb_spec (kv2p i v) 0) as [|Hk]; [by apply runs_ret|].
    apply runs_bind.
    eapply runs_mono; [apply runs_and;
      [apply (update_coherent i pgd_of Hgeo v 0 (kv2p i v)); done|by apply update_page_syms]|].
    intros _ w2 ((Hc2 & _) & Hs2). pose proof Hc2 as [Hi2 _].
    eapply runs_eq; [apply xa_access_ma_eq; [by rewrite Hi2|]|by destruct (frame_of _ _ _)].
    apply pt_lookup_spec.
Qed.

Lemma update_sym_syms s a w :
  coherent i pgd_of w -> syms w -> addr_of s = Some a -> 4096 <= a ->
  runs (xa_update_cache (Some s) a 0 0) w (fun _ w' => syms w').
Proof.
  intros Hc (l & Hh & Hf) Es Ha. pose proof Hc as (Hi & (l' & Hh' & Hlen & _) & _).
  pose proof (cached_inj _ _ _ Hh Hh') as <-. pose proof (Haddr _ _ Es) as (Hu & _).
  eapply runs_mono; [apply update_refines; [by rewrite Hi|done|exact Hh|done]|].
  rewrite Hi. intros r w' [_ Hs]. eapply syms_step; [exact Hs|].
  unfold mach_value. rewrite Z.eqb_refl. by apply spec_update_sym_syms.
Qed.

(** A hit is the symbol's physical address. *)
Lemma check_sym_coherent s w :
  coherent i pgd_of w -> syms w -> (forall e, sym_matches s e = true -> name_of e = s) -> s <> [] ->
  runs (xa_check_cache_sym s 0) w (fun r w' =>
    coherent i pgd_of w' /\ syms w' /\ live_maps w' = live_maps w /\
    match r with
    | Some m => m <> 0 /\ exists a, addr_of s = Some a /\ m = kv2p i a
    | None => True
    end).
Proof.
  intros Hc (l & Hh & Hf) Hm Hne. pose proof Hc as (Hi & (l' & Hh' & Hlen & Hf') & _).
  pose proof (cached_inj _ _ _ Hh Hh') as <-.
  eapply runs_mono; [by apply check_sym_refines|]. intros r w' H.
  pose proof (spec_check_Forall sym_entry (sym_hit s 0) (clock (ticks w)) l (sym_entry_touch _) Hf) as Hf1.
  pose proof (spec_check_Forall (entry_coherent i pgd_of) (sym_hit s 0) (clock (ticks w)) l
                (fun e He => He) Hf') as Hf2.
  pose proof (spec_check_hit (sym_hit s 0) (clock (ticks w)) l) as Hhit.
  pose proof (spec_check_length (sym_hit s 0) (clock (ticks w)) l) as Hl.
  destruct (spec_check _ _ l) as [o l1]. simpl in Hl, Hf1, Hf2, Hhit. destruct H as [-> Hs].
  destruct (coherent_step i pgd_of w l1 w') as [Hc' Hl']; [done|done|lia|done|].
  split; [done|]. split; [by eapply syms_step|]. split; [done|].
  destruct o as [e|]; [|done]. simpl. destruct (Hhit e eq_refl) as [He Hsym].
  unfold sym_hit in Hsym. zbool. split; [done|].
  rewrite list.Forall_forall in Hf. destruct (Hf e He) as [_ Hv].
  assert (name_of e = s) as Hn by by apply Hm. rewrite <- Hn. apply Hv; [by rewrite Hn|done].
Qed.
End Syms.

(** ** Linux symbols *)

Lemma map_find_spec rs s a :
  Forall row_ok rs -> map_find rs s = Some a ->
  is_u32 a /\ s <> [] /\ (length s < MAX_SYM_LEN)%nat.
Proof.
  induction 1 as [|r rs (Hu & _ & (Hne & _) & Hlen) Hrs IH]; cbn [map_find]; [done|].
  destruct (decide (r_name r = s)) as [<-|]; [|done]. intros [= <-].
  split; [done|]. split; [done|]. unfold print_row in Hlen.
  rewrite !length_app in Hlen. cbn [length] in Hlen. rewrite !length_app in Hlen.
  cbn [length] in Hlen. rewrite !length_app in Hlen. unfold MAX_ROW_LENGTH in Hlen. unfold MAX_SYM_LEN. lia.
Qed.

Section Linux.
Context {E : XenEnv} {W : WholePages} {X : StoreEnv} {F : FileEnv}.
Variables (i : xa_instance) (pgd_of : Z -> Z) (name : cstr) (rs : list map_row).
Hypothesis Hgeo : geometry i.
Hypothesis Hpgd : forall p, is_u32 (pgd_of p).

(** The caches hold nothing but what the page tables and the System.map say. *)
Definition sym_coherent (w : world) : Prop := coherent i pgd_of w /\ syms i (map_find rs) w.

Lemma linux_symbol_cached symbol w :
  sym_coherent w -> sysmap_ready i name rs symbol -> symbol <> [] ->
  (length symbol < MAX_SYM_LEN)%nat ->
  (forall a, map_find rs symbol = Some a -> 4096 <= a) ->
  runs (linux_access_kernel_symbol symbol PROT_READ) w (fun r w' =>
    r = match map_find rs symbol with
        | Some a => page_at i PROT_READ (kv2p i a)
        | None => (None, 0)
        end /\
    sym_coherent w' /\
    live_maps w' = live_maps w + match r.1 with Some _ => 1 | None => 0 end).
Proof.
  intros [Hc Hs] (Hsm & Hn & Hr & Hrs & Hsym) Hne Hlen Hz.
  pose proof (fun s a => map_find_spec rs s a Hrs) as Haddr.
  pose proof (fun e => sym_matches_name symbol e Hlen) as Hmatch.
  apply runs_bind. eapply runs_mono; [by apply (check_sym_coherent i pgd_of (map_find rs))|].
  intros [ma|] w1 (Hc1 & Hs1 & Hl1 & Hm); rewrite <- Hl1; pose proof Hc1 as [Hi1 _].
  - destruct Hm as (Hm0 & a & Ea & ->). rewrite Ea.
    assert (is_u32 (kv2p i a)) as Hu by apply pt_lookup_spec.
    eapply runs_mono; [apply runs_and; [by apply (access_ma_coherent i pgd_of Hgeo)|]|].
    { eapply (runs_eq _ _ _ _ (fun _ w' => syms i (map_find rs) w'));
        [apply xa_access_ma_eq; [by rewrite Hi1|done]|by destruct (frame_of _ _ _)]. }
    intros r w2 ((-> & Hc2 & Hl2) & Hs2). by split_and!.
  - apply runs_bind. eapply runs_eq; [by eapply lookup_sysmap_runs|].
    destruct (map_find rs symbol) as [a|] eqn:Ea.
    2:{ apply runs_ret. split; [done|]. split; [done|simpl; lia]. }
    specialize (Hz a eq_refl). destruct (Haddr _ _ Ea) as (Ha & _).
    apply runs_bind. eapply runs_mono; [apply runs_and;
      [by apply (update_sym_coherent i pgd_of Hgeo)|by apply (update_sym_syms i pgd_of (map_find rs) Hgeo Haddr)]|].
    intros _ w2 ((Hc2 & Hl2) & Hs2). rewrite <- Hl2.
    eapply runs_mono; [apply runs_and; [by apply (kernel_va_coherent i pgd_of Hgeo Hpgd)|
                                        by apply (kernel_va_syms i pgd_of (map_find rs) Hgeo)]|].
    intros r w3 ((-> & Hc3 & Hl3) & Hs3). by split_and!.
Qed.
End Linux.
