(* ===== verification/WindowsPe.v ===== *)
(** * The export table of the Windows kernel

    Models windows_peparse.c: the kernel image is found in physical memory and
    its export table is read to turn the name of an export into its relative
    address. *)

From Stdlib Require Import String.
From S2P Require Import Prelude CStr Dll XaTypes XaMap Guest PageTable XaCache XaAccess.

Definition IMAGE_DOS_HEADER : Z := 0x5A4D.
Definition IMAGE_NT_SIGNATURE : Z := 0x00004550.
Definition sizeof_file_header : Z := 20.
Definition sizeof_optional_header : Z := 224.
Definition sizeof_export_table : Z := 40.

(** The fields of [struct export_table]. *)
Record export_table := ExportTable {
  et_characteristics : Z;
  et_time_date_stamp : Z;
  et_major_version : Z;
  et_minor_version : Z;
  et_name : Z;
  et_base : Z;
  number_of_functions : Z;
  number_of_names : Z;
  address_of_functions : Z;
  address_of_names : Z;
  address_of_name_ordinals : Z }.

Section Model.
Context {E : XenEnv}.

(** [strnlen]: the bytes up to a NUL, at most [n] of them. *)
Fixpoint load_string (n : nat) (m : mapping) (off : Z) : M world cstr :=
  match n with
  | O => mret []
  | S n' =>
      c ← load 1 m off;
      if c =? 0 then mret []
      else s ← load_string n' m (off + 1); mret (c :: s)
  end.

(** takes an rva and looks up a null terminated string at that location; an
    empty string is NULL *)
Definition rva_to_string (rva : Z) : M world (option cstr) :=
  i ← gets inst;
  r ← xa_access_pa (u32 (ntoskrnl (os_windows i) + rva)) PROT_READ;
  match r with
  | (None, _) => mret None
  | (Some memory, offset) =>
      let max_length := s32 (u32 (page_size i - offset - 1)) in
      s ← load_string (Z.to_nat max_length) memory offset;
      _ ← munmap;
      mret (match s with [] => None | _ => Some s end)
  end.

(** [None] is XA_FAILURE with [*rva] as it was. *)
Definition get_export_rva (aof_index : Z) (et : export_table) : M world (option Z) :=
  i ← gets inst;
  xa_read_long_phys (u32 (ntoskrnl (os_windows i) + address_of_functions et + aof_index * 4)).

Definition get_aof_index (aon_index : Z) (et : export_table) : M world Z :=
  i ← gets inst;
  r ← xa_read_long_phys (u32 (ntoskrnl (os_windows i) + address_of_name_ordinals et + aon_index * 2));
  match r with
  | Some aof_index => mret (Z.land aof_index 0xffff)
  | None => mret (-1)
  end.

(** The loop of [get_aon_index] from index [k] on, [n] names to go. *)
Fixpoint find_name (symbol : cstr) (et : export_table) (k : Z) (n : nat) : M world Z :=
  match n with
  | O => mret (-1)
  | S n' =>
      i ← gets inst;
      r ← xa_read_long_phys (u32 (ntoskrnl (os_windows i) + address_of_names et + k * 4));
      let str_rva := default 0 r in
      found ← (if negb (str_rva =? 0) then
                 s ← rva_to_string str_rva;
                 match s with
                 | Some rva => mret (strncmp rva symbol (length rva) =? 0)
                 | None => mret false
                 end
               else mret false : M world bool);
      if (found : bool) then mret (s32 k) else find_name symbol et (k + 1) n'
  end.

Definition get_aon_index (symbol : cstr) (et : export_table) : M world Z :=
  find_name symbol et 0 (Z.to_nat (number_of_names et)).

(** [memcpy] of [len] bytes out of a mapping: all of them must be readable. *)
Definition check_copy (m : mapping) (off len : Z) : M world unit :=
  assert_m ((0 <=? off) && (off + len <=? m_len m)).

Definition load_export_table (m : mapping) (off : Z) : M world export_table :=
  _ ← check_copy m off sizeof_export_table;
  a ← load32 m off; b ← load32 m (off + 4); c ← load 2 m (off + 8); d ← load 2 m (off + 10);
  e ← load32 m (off + 12); f ← load32 m (off + 16); g ← load32 m (off + 20);
  h ← load32 m (off + 24); j ← load32 m (off + 28); k ← load32 m (off + 32);
  l ← load32 m (off + 36);
  mret (ExportTable a b c d e f g h j k l).

Definition get_export_table (base_addr : Z) : M world (option export_table) :=
  (* signature location *)
  value ← xa_read_long_phys (u32 (base_addr + 60));
  let signature_location := u32 (base_addr + default 0 value) in
  (* optional header *)
  r ← xa_access_pa (u32 (signature_location + 4 + sizeof_file_header)) PROT_READ;
  match r with
  | (None, _) => mret None
  | (Some memory, offset) =>
      _ ← check_copy memory offset sizeof_optional_header;
      export_header_rva ← load32 memory (offset + 96);
      _ ← munmap;
      (* export header *)
      r' ← xa_access_pa (u32 (base_addr + export_header_rva)) PROT_READ;
      match r' with
      | (None, _) => mret None
      | (Some memory', offset') =>
          et ← load_export_table memory' offset';
          _ ← munmap;
          mret (Some et)
      end
  end.

(** returns the rva value for a windows kernel export *)
Definition windows_export_to_rva (symbol : cstr) : M world (option Z) :=
  i ← gets inst;
  (* get export table structure *)
  t ← get_export_table (ntoskrnl (os_windows i));
  match t with
  | None => mret None
  | Some et =>
      (* find AddressOfNames index for export symbol *)
      aon_index ← get_aon_index symbol et;
      if aon_index =? -1 then mret None
      else
        (* find AddressOfFunctions index for export symbol *)
        aof_index ← get_aof_index aon_index et;
        if aof_index =? -1 then mret None
        else
          (* find RVA value for export symbol *)
          get_export_rva aof_index et
  end.

(** [value] keeps what it held when a read fails. *)
Definition valid_ntoskrnl_start (addr : Z) : M world bool :=
  (* validate DOS header *)
  r ← xa_read_long_phys addr;
  let value := default 0 r in
  if negb (Z.land value 0xffff =? IMAGE_DOS_HEADER) then mret false
  else
    (* validate nt signature *)
    r ← xa_read_long_phys (u32 (addr + 60));
    let value := default value r in
    let signature_location := u32 (addr + value) in
    r ← xa_read_long_phys signature_location;
    let value := default value r in
    if negb (value =? IMAGE_NT_SIGNATURE) then mret false
    else
      (* check name via export table *)
      t ← get_export_table addr;
      match t with
      | None => mret false
      | Some et =>
          name ← rva_to_string (u32 (et_name et + addr));
          match name with
          | Some s => mret (strcmp s (str "ntoskrnl.exe") =? 0)
          | None => mret false
          end
      end.
End Model.

(** ** The export table as data *)

Section Pure.
Context {E : XenEnv} {W : WholePages}.
Implicit Types (w : world).
Variable i : xa_instance.
Hypothesis Hgeo : geometry i.
Hypothesis Hphys : hvm i <> 0 \/ mode i = XA_MODE_FILE.

Fixpoint string_at (n : nat) (m : mapping) (off : Z) : cstr :=
  match n with
  | O => []
  | S n' => let c := le_combine (bytes m off 1) in
            if c =? 0 then [] else c :: string_at n' m (off + 1)
  end.

Lemma load_string_eq n : forall m off w,
  0 <= off -> off + Z.of_nat n <= m_len m ->
  load_string n m off w = Ret (string_at n m off, w).
Proof.
  induction n as [|n IH]; intros m off w H1 H2; [done|]. cbn [load_string string_at].
  erewrite bind_eq.
  2:{ unfold load. rewrite (proj2 (Z.leb_le 0 _)), (proj2 (Z.leb_le _ (m_len m))) by lia. done. }
  destruct (le_combine (bytes m off 1) =? 0); [done|].
  by erewrite bind_eq by (apply IH; lia).
Qed.

(** The string at a physical address: up to the end of its page at most. *)
Definition phys_string (a : Z) : option cstr :=
  m ← frame_of i PROT_READ (a / 4096);
  match string_at (Z.to_nat (4095 - a mod 4096)) m (a mod 4096) with
  | [] => None
  | s => Some s
  end.

Lemma read_phys_eq a w :
  inst w = i -> is_u32 a -> a mod 4096 <= 4092 ->
  xa_read_long_phys a w = Ret (mem_read i 4 a, w).
Proof.
  intros Hi Ha Hm. rewrite <- Hi. apply xa_read_phys_eq; rewrite ?Hi; try done. lia.
Qed.

Lemma rva_to_string_eq rva w :
  inst w = i ->
  rva_to_string rva w = Ret (phys_string (u32 (ntoskrnl (os_windows i) + rva)), w).
Proof.
  intros Hi. unfold rva_to_string. erewrite bind_eq by done. rewrite Hi.
  set (a := u32 _). assert (Ha : is_u32 a) by apply u32_range.
  erewrite bind_eq by (apply xa_access_pa_eq; rewrite ?Hi; done). rewrite Hi.
  unfold phys_string. destruct (frame_of i PROT_READ (a / 4096)) as [m|] eqn:Hf; [|done].
  pose proof (Z.mod_pos_bound a 4096 ltac:(lia)) as Ho. cbn [mbind option_bind].
  assert (s32 (u32 (page_size i - a mod 4096 - 1)) = 4095 - a mod 4096) as ->.
  { destruct Hgeo as [_ ->]. rewrite u32_small, s32_small by lia. lia. }
  erewrite bind_eq by (apply load_string_eq; [|rewrite (frame_whole _ _ _ _ Hgeo Hf)]; lia).
  unfold mbind, M_bind, munmap, modify, mret, M_ret. simpl. rewrite live_maps_undo.
  by destruct (string_at _ m _).
Qed.

(** The [k]-th entry of the table of names: the string it points at. *)
Definition export_name (et : export_table) (k : Z) : option cstr :=
  let rva := default 0 (mem_read i 4 (u32 (ntoskrnl (os_windows i) + address_of_names et + k * 4))) in
  if rva =? 0 then None else phys_string (u32 (ntoskrnl (os_windows i) + rva)).

(** What the loop looks for: the first entry whose name is a prefix of the
    symbol. *)
Definition name_matches (symbol : cstr) (et : export_table) (k : Z) : bool :=
  match export_name et k with
  | Some s => bool_decide (s `prefix_of` symbol)
  | None => false
  end.

Fixpoint first_match (symbol : cstr) (et : export_table) (k : Z) (n : nat) : option Z :=
  match n with
  | O => None
  | S n' => if name_matches symbol et k then Some k else first_match symbol et (k + 1) n'
  end.

Lemma strncmp_prefix (a b : cstr) : (strncmp a b (length a) =? 0) = bool_decide (a `prefix_of` b).
Proof.
  apply eq_true_iff_eq. rewrite Z.eqb_eq, bool_decide_eq_true, strncmp_eq, firstn_all. split.
  - intros ->. exists (drop (length a) b). by rewrite take_drop.
  - intros [k ->]. by rewrite take_app_length.
Qed.

Lemma find_name_eq symbol et n : forall k w,
  inst w = i ->
  (forall j, k <= j < k + Z.of_nat n ->
     u32 (ntoskrnl (os_windows i) + address_of_names et + j * 4) mod 4096 <= 4092) ->
  find_name symbol et k n w =
  Ret (match first_match symbol et k n with Some j => s32 j | None => -1 end, w).
Proof.
  induction n as [|n IH]; intros k w Hi Hal; [done|]. cbn [find_name first_match].
  erewrite bind_eq by done. rewrite Hi.
  erewrite bind_eq by (apply read_phys_eq; [done|apply u32_range|apply Hal; lia]).
  cbv zeta. unfold name_matches, export_name.
  destruct (default 0 _ =? 0) eqn:E0; cbn [negb].
  - rewrite bind_ret_l. apply IH; [done|intros; apply Hal; lia].
  - erewrite bind_eq.
    2:{ erewrite bind_eq by (by apply rva_to_string_eq).
        instantiate (2 := match phys_string (u32 (ntoskrnl (os_windows i) + default 0
           (mem_read i 4 (u32 (ntoskrnl (os_windows i) + address_of_names et + k * 4))))) with
           | Some s => strncmp s symbol (length s) =? 0 | None => false end).
        by destruct (phys_string _). }
    destruct (phys_string _) as [s|].
    + rewrite strncmp_prefix. destruct (bool_decide _); [done|].
      apply IH; [done|intros; apply Hal; lia].
    + apply IH; [done|intros; apply Hal; lia].
Qed.

Lemma first_match_Some symbol et n : forall k j,
  first_match symbol et k n = Some j ->
  k <= j < k + Z.of_nat n /\ name_matches symbol et j = true /\
  forall j', k <= j' < j -> name_matches symbol et j' = false.
Proof.
  induction n as [|n IH]; intros k j; cbn [first_match]; [done|].
  destruct (name_matches symbol et k) eqn:Em.
  - intros [= <-]. split; [lia|]. split; [done|]. lia.
  - intros Hj. apply IH in Hj as (H1 & H2 & H3). split; [lia|]. split; [done|].
    intros j' Hj'. destruct (decide (j' = k)) as [->|]; [done|]. apply H3. lia.
Qed.

(** The export table of the image at [base], read out of the headers. *)
Definition table_at (m : mapping) (off : Z) : export_table :=
  let f n o := le_combine (bytes m (off + o) n) in
  ExportTable (le_combine (bytes m off 4)) (f 4%nat 4) (f 2%nat 8) (f 2%nat 10) (f 4%nat 12)
    (f 4%nat 16) (f 4%nat 20) (f 4%nat 24) (f 4%nat 28) (f 4%nat 32) (f 4%nat 36).

Definition optional_header_at (base : Z) : Z :=
  u32 (u32 (base + default 0 (mem_read i 4 (u32 (base + 60)))) + 4 + sizeof_file_header).

Definition export_header_at (base : Z) (m : mapping) : Z :=
  u32 (base + le_combine (bytes m (optional_header_at base mod 4096 + 96) 4)).

Definition export_table_at (base : Z) : option export_table :=
  m ← frame_of i PROT_READ (optional_header_at base / 4096);
  m' ← frame_of i PROT_READ (export_header_at base m / 4096);
  Some (table_at m' (export_header_at base m mod 4096)).

(** The headers do not straddle pages. *)
Record headers_in_page (base : Z) : Prop := {
  hp_signature : u32 (base + 60) mod 4096 <= 4092;
  hp_optional : optional_header_at base mod 4096 + sizeof_optional_header <= 4096;
  hp_export : forall m, frame_of i PROT_READ (optional_header_at base / 4096) = Some m ->
    export_header_at base m mod 4096 + sizeof_export_table <= 4096 }.

Lemma check_copy_eq m off len w :
  0 <= off -> off + len <= m_len m -> check_copy m off len w = Ret (tt, w).
Proof.
  intros H1 H2. unfold check_copy, assert_m.
  by rewrite (proj2 (Z.leb_le 0 off)), (proj2 (Z.leb_le _ (m_len m))) by done.
Qed.

Lemma load_eq n m off w :
  0 <= off -> off + Z.of_nat n <= m_len m -> load n m off w = Ret (le_combine (bytes m off n), w).
Proof.
  intros H1 H2. unfold load.
  by rewrite (proj2 (Z.leb_le 0 off)), (proj2 (Z.leb_le _ (m_len m))) by done.
Qed.

Lemma load_export_table_eq m off w :
  0 <= off -> off + 40 <= m_len m -> load_export_table m off w = Ret (table_at m off, w).
Proof.
  intros H1 H2. unfold load_export_table, load32, sizeof_export_table.
  erewrite bind_eq by (apply check_copy_eq; lia).
  do 11 (erewrite bind_eq by (apply load_eq; lia)). done.
Qed.

Lemma map_phys a w :
  inst w = i -> is_u32 a ->
  xa_access_pa a PROT_READ w =
  Ret ((frame_of i PROT_READ (a / 4096), a mod 4096), opened (frame_of i PROT_READ (a / 4096)) w).
Proof. intros Hi Ha. rewrite xa_access_pa_eq; rewrite ?Hi; done. Qed.

Lemma munmap_opened (m : mapping) w : munmap (opened (Some m) w) = Ret (tt, w).
Proof. unfold munmap, modify, opened. f_equal. f_equal. apply live_maps_undo. Qed.

Lemma get_export_table_eq base w :
  inst w = i -> headers_in_page base ->
  get_export_table base w = Ret (export_table_at base, w).
Proof.
  intros Hi [H1 H2 H3]. unfold get_export_table, export_table_at.
  erewrite bind_eq by (apply read_phys_eq; [done|apply u32_range|done]). cbv zeta.
  fold (optional_header_at base). erewrite bind_eq by (apply map_phys; [done|apply u32_range]).
  destruct (frame_of i PROT_READ (optional_header_at base / 4096)) as [m|] eqn:Hf; [|done].
  specialize (H3 m eq_refl). pose proof (frame_whole _ _ _ _ Hgeo Hf) as Hlen.
  pose proof (Z.mod_pos_bound (optional_header_at base) 4096 ltac:(lia)).
  unfold sizeof_optional_header in *. cbn [mbind option_bind].
  erewrite bind_eq by (apply check_copy_eq; lia).
  erewrite bind_eq by (apply load_eq; lia).
  erewrite bind_eq by apply munmap_opened. fold (export_header_at base m).
  erewrite bind_eq by (apply map_phys; [done|apply u32_range]).
  destruct (frame_of i PROT_READ (export_header_at base m / 4096)) as [m'|] eqn:Hf'; [|done].
  pose proof (frame_whole _ _ _ _ Hgeo Hf') as Hlen'. cbn [mbind option_bind].
  unfold sizeof_export_table in H3.
  pose proof (Z.mod_pos_bound (export_header_at base m) 4096 ltac:(lia)).
  erewrite bind_eq by (apply load_export_table_eq; lia).
  by erewrite bind_eq by apply munmap_opened.
Qed.

(** A kernel image starts at the physical address [a]: a DOS header, whose word
    at 60 leads to a PE signature, and an export table that names the image
    ntoskrnl.exe. *)
Definition dos_header (a : Z) : bool :=
  match mem_read i 4 a with Some m => m mod 2 ^ 16 =? 0x5A4D | None => false end.
Definition pe_signature (a : Z) : option Z :=
  v ← mem_read i 4 (u32 (a + 60)); mem_read i 4 (u32 (a + v)).

Definition kernel_at (a : Z) : bool :=
  dos_header a && bool_decide (pe_signature a = Some 0x4550) &&
  match export_table_at a with
  | Some et => bool_decide (phys_string (u32 (a + et_name et)) = Some (str "ntoskrnl.exe"))
  | None => false
  end.

(** What looks like an image at [a] has its headers in pages. *)
Record image_in_page (a : Z) : Prop := {
  im_signature : dos_header a = true -> forall v, mem_read i 4 (u32 (a + 60)) = Some v ->
    u32 (a + v) mod 4096 <= 4092;
  im_headers : dos_header a = true -> pe_signature a = Some 0x4550 -> headers_in_page a }.

Lemma image_same_page a o : a mod 4096 = 0 -> 0 <= o < 4096 -> is_Some (mem_read i 4 a) -> is_Some (mem_read i 4 (a + o)).
Proof.
  intros Ha Ho. unfold mem_read. assert ((a + o) / 4096 = a / 4096) as -> by (Z.to_euclidean_division_equations; lia).
  destruct (frame_of i PROT_READ (a / 4096)); [by eexists|]. by intros [].
Qed.

(** What fails to be read keeps the value read before: an unreadable signature at
    [a + 0x4550] passes for one, but the header behind it is not readable
    either. *)
Lemma no_export_table a w :
  inst w = i -> a mod 4096 = 0 -> is_u32 a -> u32 (a + 60) = a + 60 -> mem_read i 4 (a + 60) = Some 0x4550 ->
  mem_read i 4 (u32 (a + 0x4550)) = None -> get_export_table a w = Ret (None, w).
Proof.
  intros Hi Hm Ha E60 Ev Hs. unfold get_export_table. rewrite E60.
  erewrite bind_eq by (apply read_phys_eq; [done|rewrite <- E60; apply u32_range|Z.to_euclidean_division_equations; lia]).
  cbv zeta. rewrite Ev. cbn [default id]. erewrite bind_eq by (apply map_phys; [done|apply u32_range]).
  match goal with |- context [frame_of i PROT_READ ?f] => assert (frame_of i PROT_READ f = None) as -> end; [|done].
  unfold mem_read in Hs. destruct (frame_of i PROT_READ (u32 (a + 0x4550) / 4096)) eqn:Ef; [done|].
  rewrite <- Ef. f_equal. unfold u32, sizeof_file_header, id.
  Z.to_euclidean_division_equations. lia.
Qed.

Lemma valid_ntoskrnl_eq a w :
  inst w = i -> ntoskrnl (os_windows i) = 0 -> a mod 4096 = 0 -> is_u32 a -> image_in_page a ->
  valid_ntoskrnl_start a w = Ret (kernel_at a, w).
Proof.
  intros Hi H0 Hm Ha [Hs Hh]. unfold valid_ntoskrnl_start, kernel_at.
  erewrite bind_eq by (apply read_phys_eq; [done|done|rewrite Hm; lia]). cbv zeta.
  rewrite (Z.land_ones _ 16) by done. unfold dos_header in *.
  destruct (mem_read i 4 a) as [m|] eqn:Em; [|done]. cbn [default id]. change (id m) with m. unfold IMAGE_DOS_HEADER.
  destruct (m mod 2 ^ 16 =? 0x5A4D) eqn:Eh; cbn [negb andb]; [|done].
  destruct (image_same_page a 60 Hm ltac:(lia) ltac:(by eexists)) as [v Ev]. unfold pe_signature in *.
  assert (u32 (a + 60) = a + 60) as E60 by (apply u32_small; Z.to_euclidean_division_equations; lia).
  rewrite E60 in *. specialize (Hs eq_refl v Ev).
  erewrite bind_eq by (apply read_phys_eq; [done|rewrite <- E60; apply u32_range|Z.to_euclidean_division_equations; lia]).
  rewrite Ev in *. cbn [default id mbind option_bind] in *. change (id v) with v.
  erewrite bind_eq by (apply read_phys_eq; [done|apply u32_range|done]). unfold IMAGE_NT_SIGNATURE.
  destruct (mem_read i 4 (u32 (a + v))) as [sig|] eqn:Esig.
  - cbn [default id]. change (id sig) with sig. destruct (Z.eqb_spec sig 0x4550) as [->|Hne]; cbn [negb].
    2:{ rewrite bool_decide_false by congruence. done. }
    rewrite bool_decide_true by done. cbn [andb]. erewrite bind_eq by (apply get_export_table_eq; auto).
    destruct (export_table_at a) as [et|]; [|done]. erewrite bind_eq by by apply rva_to_string_eq.
    assert (u32 (ntoskrnl (os_windows i) + u32 (et_name et + a)) = u32 (a + et_name et)) as ->.
    { rewrite H0, Z.add_0_l, Z.add_comm. by rewrite (u32_small (u32 _)) by apply u32_range. }
    destruct (phys_string _) as [s|]; [|done]. unfold mret, M_ret. do 2 f_equal.
    apply eq_true_iff_eq. by rewrite Z.eqb_eq, bool_decide_eq_true, strcmp_eq, (inj_iff Some).
  - cbn [default]. rewrite bool_decide_false by done. cbn [andb].
    destruct (Z.eqb_spec v 0x4550) as [->|]; cbn [negb]; [|done].
    by erewrite bind_eq by (by apply no_export_table).
Qed.

(** Names, ordinals and functions joined as the format prescribes. *)
Abbreviation kbase := (ntoskrnl (os_windows i)).
Definition ordinal_loc (et : export_table) (k : Z) : Z :=
  u32 (kbase + address_of_name_ordinals et + k * 2).
Definition ordinal (et : export_table) (k : Z) : option Z :=
  (fun v => Z.land v 0xffff) <$> mem_read i 4 (ordinal_loc et k).
Definition function_loc (et : export_table) (o : Z) : Z :=
  u32 (kbase + address_of_functions et + o * 4).

Definition export_rva (symbol : cstr) : option Z :=
  et ← export_table_at kbase;
  k ← first_match symbol et 0 (Z.to_nat (number_of_names et));
  o ← ordinal et k;
  mem_read i 4 (function_loc et o).

(** No table entry that is read straddles a page.  The ordinals are two bytes
    long but read as four. *)
Record exports_in_page (symbol : cstr) : Prop := {
  ep_headers : headers_in_page kbase;
  ep_number : forall et, export_table_at kbase = Some et -> 0 <= number_of_names et < 2147483648;
  ep_names : forall et j, export_table_at kbase = Some et -> 0 <= j < number_of_names et ->
    u32 (kbase + address_of_names et + j * 4) mod 4096 <= 4092;
  ep_ordinal : forall et k, export_table_at kbase = Some et ->
    first_match symbol et 0 (Z.to_nat (number_of_names et)) = Some k ->
    ordinal_loc et k mod 4096 <= 4092;
  ep_function : forall et k o, export_table_at kbase = Some et ->
    first_match symbol et 0 (Z.to_nat (number_of_names et)) = Some k ->
    ordinal et k = Some o -> function_loc et o mod 4096 <= 4092 }.

Lemma windows_export_eq symbol w :
  inst w = i -> exports_in_page symbol ->
  windows_export_to_rva symbol w = Ret (export_rva symbol, w).
Proof.
  intros Hi [H1 H2 H3 H4 H5]. unfold windows_export_to_rva, export_rva.
  erewrite bind_eq by done. rewrite Hi.
  erewrite bind_eq by by apply get_export_table_eq.
  destruct (export_table_at kbase) as [et|] eqn:Et; [|done].
  specialize (H2 et eq_refl). unfold get_aon_index. cbn [mbind option_bind].
  erewrite bind_eq.
  2:{ apply find_name_eq; [done|]. intros j Hj. apply H3; [done|lia]. }
  destruct (first_match symbol et 0 (Z.to_nat (number_of_names et))) as [k|] eqn:Ek; [|done].
  specialize (H4 et k eq_refl Ek). specialize (H5 et k).
  apply first_match_Some in Ek as Hk. destruct Hk as [Hk _].
  rewrite s32_small, (proj2 (Z.eqb_neq k (-1))) by lia. cbn [mbind option_bind].
  assert (Hao : get_aof_index k et w = Ret (default (-1) (ordinal et k), w)).
  { unfold get_aof_index, ordinal. erewrite bind_eq by done. rewrite Hi.
    erewrite bind_eq by (apply read_phys_eq; [done|apply u32_range|done]).
    fold (ordinal_loc et k). by destruct (mem_read i 4 (ordinal_loc et k)). }
  erewrite bind_eq by exact Hao.
  destruct (ordinal et k) as [o|] eqn:Eo; [|done]. change (default (-1) (Some o)) with o.
  assert (0 <= o).
  { unfold ordinal in Eo. destruct (mem_read _ _ _); [|done]. injection Eo as <-.
    apply Z.land_nonneg. right. lia. }
  rewrite (proj2 (Z.eqb_neq o (-1))) by lia. unfold get_export_rva.
  erewrite bind_eq by done. rewrite Hi. cbn [mbind option_bind].
  apply read_phys_eq; [done|apply u32_range|]. by apply H5.
Qed.
End Pure.

(** ** Properties *)

Section Properties.
Context {E : XenEnv} {W : WholePages}.
Implicit Types (w : world).

(** The search for an export ends and returns the index of the first entry
    of the name table whose string is a non-empty prefix of the symbol, -1
    when there is none; every page it maps is unmapped again. *)
Theorem aon_index_first_prefix symbol et w (i := inst w) :
  geometry i -> hvm i <> 0 \/ mode i = XA_MODE_FILE -> 0 <= number_of_names et < 2147483648 ->
  (forall j, 0 <= j < number_of_names et ->
     u32 (ntoskrnl (os_windows i) + address_of_names et + j * 4) mod 4096 <= 4092) ->
  get_aon_index symbol et w =
  Ret (default (-1) (first_match i symbol et 0 (Z.to_nat (number_of_names et))), w).
Proof.
  intros Hg Hp Hn Hal. unfold get_aon_index.
  rewrite (find_name_eq i Hg Hp) by (done || (intros j Hj; apply Hal; lia)).
  destruct (first_match i symbol et 0 _) as [j|] eqn:Ej; [|done].
  apply first_match_Some in Ej as [Hj _]. cbn [default]. by rewrite s32_small by lia.
Qed.

(** An export is shadowed by any earlier one whose name is a prefix of
    its own: the search for the name of entry [k] stops before [k]. *)
Theorem export_shadowed symbol et w j k s (i := inst w) :
  geometry i -> hvm i <> 0 \/ mode i = XA_MODE_FILE -> 0 <= number_of_names et < 2147483648 ->
  (forall j, 0 <= j < number_of_names et ->
     u32 (ntoskrnl (os_windows i) + address_of_names et + j * 4) mod 4096 <= 4092) ->
  0 <= j < k -> k < number_of_names et ->
  export_name i et k = Some symbol -> export_name i et j = Some s -> s `prefix_of` symbol ->
  exists r, get_aon_index symbol et w = Ret (r, w) /\ 0 <= r <= j.
Proof.
  intros Hg Hp Hn Hal Hj Hk Hsym Hs Hpre. unfold get_aon_index.
  rewrite (find_name_eq i Hg Hp) by (done || (intros j' Hj'; apply Hal; lia)).
  assert (Hm : name_matches i symbol et j = true).
  { unfold name_matches. rewrite Hs. by apply bool_decide_eq_true. }
  destruct (first_match i symbol et 0 _) as [r|] eqn:Er.
  - apply first_match_Some in Er as (Hr & _ & Hno).
    assert (r <= j). { destruct (Z.le_gt_cases r j); [done|]. rewrite Hno in Hm; [done|lia]. }
    exists r. rewrite s32_small by lia. split; [done|lia].
  - exfalso. assert (Hall : forall n k0 j', first_match i symbol et k0 n = None ->
      k0 <= j' < k0 + Z.of_nat n -> name_matches i symbol et j' = false).
    { clear. induction n as [|n IH]; intros k0 j' H Hj'; cbn [first_match] in H; [lia|].
      destruct (name_matches i symbol et k0) eqn:E0; [done|].
      destruct (decide (j' = k0)) as [->|]; [done|]. apply (IH (k0 + 1)); [done|lia]. }
    rewrite (Hall _ _ j Er) in Hm; [done|lia].
Qed.

(** C27: resolving an export reads the headers of the kernel image and then the
    function table at the ordinal of the first matching name: names, ordinals
    and functions are joined as the format prescribes, a failure at any step
    is XA_FAILURE, and no page stays mapped. *)
Theorem export_to_rva_correct symbol w (i := inst w) :
  geometry i -> hvm i <> 0 \/ mode i = XA_MODE_FILE -> exports_in_page i symbol ->
  windows_export_to_rva symbol w = Ret (export_rva i symbol, w).
Proof. intros Hg Hp He. by apply windows_export_eq. Qed.
End Properties.

(** *** Witnesses *)

#[local] Instance windows_env : XenEnv := guest_env windows_image.
#[local] Instance windows_whole : WholePages := guest_whole _.
Abbreviation win := (guest_inst 2 0).

Definition win_et : export_table :=
  ExportTable 0 0 0 0 0x440 0 0 2 0x300 0x310 0x320.

Example win_et_read : get_export_table 0x8000 (guest_world win) = Ret (Some win_et, guest_world win).
Proof. vm_compute. reflexivity. Qed.

Lemma win_names j : 0 <= j < 2 -> u32 (0x8000 + 0x310 + j * 4) mod 4096 <= 4092.
Proof.
  intros Hj. assert (j = 0 \/ j = 1) as [-> | ->] by lia; vm_compute; discriminate.
Qed.

Lemma aon_index_first_prefix_witness :
  get_aon_index (str "PsInitialSystemProcess") win_et (guest_world win) = Ret (0, guest_world win).
Proof.
  refine (eq_trans (aon_index_first_prefix (str "PsInitialSystemProcess") win_et (guest_world win)
    (guest_geometry 2 0) _ _ win_names) _).
  - left. discriminate.
  - vm_compute. split; [discriminate|reflexivity].
  - vm_compute. reflexivity.
Defined.

Lemma export_shadowed_witness :
  exists r, get_aon_index (str "PsInitialSystemProcess") win_et (guest_world win) =
    Ret (r, guest_world win) /\ 0 <= r <= 0.
Proof.
  apply (export_shadowed (str "PsInitialSystemProcess") win_et (guest_world win) 0 1 (str "PsInit")
    (guest_geometry 2 0)).
  - left. discriminate.
  - vm_compute. split; [discriminate|reflexivity].
  - exact win_names.
  - lia.
  - vm_compute. reflexivity.
  - vm_compute. reflexivity.
  - vm_compute. reflexivity.
  - by exists (str "ialSystemProcess").
Defined.

Lemma win_export_table : export_table_at win (ntoskrnl (os_windows win)) = Some win_et.
Proof. vm_compute. reflexivity. Qed.

Lemma win_headers_in_page : headers_in_page win (ntoskrnl (os_windows win)).
Proof.
  split; [vm_compute; discriminate|vm_compute; discriminate|].
  intros m Hm. assert (m = guest_frame windows_image 0x8000) as ->.
  { assert (optional_header_at win (ntoskrnl (os_windows win)) = 0x8098) as E by
      (vm_compute; reflexivity).
    rewrite E in Hm. rewrite (guest_frame_of windows_image 2 0) in Hm by lia. by injection Hm. }
  vm_compute. discriminate.
Qed.

(** The entries of the tables of the image, for a symbol that is found first
    at index [k]. *)
Lemma win_exports_in_page symbol k o :
  first_match win symbol win_et 0 2 = Some k -> ordinal win win_et k = Some o ->
  ordinal_loc win win_et k mod 4096 <= 4092 -> function_loc win win_et o mod 4096 <= 4092 ->
  exports_in_page win symbol.
Proof.
  intros Hk Ho H1 H2. split.
  - exact win_headers_in_page.
  - intros et Het. rewrite win_export_table in Het. injection Het as <-.
    vm_compute. split; [discriminate|reflexivity].
  - intros et j Het. rewrite win_export_table in Het. injection Het as <-. apply win_names.
  - intros et k' Het. rewrite win_export_table in Het. injection Het as <-.
    change (Z.to_nat (number_of_names win_et)) with 2%nat. rewrite Hk. by intros [= <-].
  - intros et k' o' Het. rewrite win_export_table in Het. injection Het as <-.
    change (Z.to_nat (number_of_names win_et)) with 2%nat. rewrite Hk. intros [= <-].
    rewrite Ho. by intros [= <-].
Qed.

Lemma win_psinit_in_page : exports_in_page win (str "PsInit").
Proof. apply (win_exports_in_page _ 0 0); vm_compute; (reflexivity || discriminate). Qed.

Lemma export_to_rva_correct_witness :
  windows_export_to_rva (str "PsInit") (guest_world win) = Ret (Some 0x1111, guest_world win).
Proof.
  refine (eq_trans (export_to_rva_correct (str "PsInit") (guest_world win) (guest_geometry 2 0) _
    win_psinit_in_page) _).
  - left. discriminate.
  - vm_compute. reflexivity.
Defined.
