(* ===== verification/Windows.v ===== *)
(** * Windows guests

    Models windows_memory.c and windows_process.c: kernel symbols through the
    export table, the base of the kernel image, the process list, and the
    search of physical memory for a process by name. *)

From Stdlib Require Import String.
From S2P Require Import Prelude CStr Dll XaTypes XaMap Guest PageTable XaCache XaAccess ProcList.
From S2P Require Import WindowsPe.

(** Base addresses that are known to exist across versions of Windows. *)
Definition base_address : list Z :=
  [0x00100000; 0x00400000; 0x004d4000; 0x004d0000; 0x004d5000; 0x00a02000; 0x00496000;
   0x004d7000; 0x004de000; 0x00800000; 0x01800000].

Section Model.
Context {E : XenEnv}.

Definition windows_symbol_to_address (symbol : cstr) : M world (option Z) :=
  windows_export_to_rva symbol.

(** start by looking at known base addresses *)
Fixpoint try_bases (l : list Z) : M world (option Z) :=
  match l with
  | [] => mret None
  | paddr :: l' => ok ← valid_ntoskrnl_start paddr;
                   if (ok : bool) then mret (Some paddr) else try_bases l'
  end.

(** one turn of the search for the MZ header *)
Definition search_step (paddr : Z) : M world (Z + Z) :=
  ok ← valid_ntoskrnl_start paddr;
  if (ok : bool) then mret (inr paddr)
  else
    i ← gets inst;
    let paddr := u32 (paddr + page_size i) in
    if (paddr <=? 0) || (0x40000000 <=? paddr) then mret (inr 0) else mret (inl paddr).

(** page by page; [n] bounds the turns *)
Definition search_base (n : nat) (paddr : Z) : M world Z := iter n search_step paddr.

(** find the ntoskrnl base address *)
Definition get_ntoskrnl_base (n : nat) : M world Z :=
  r ← try_bases base_address;
  match r with
  | Some paddr => mret paddr
  | None => i ← gets inst; search_base n (page_size i)
  end.

Definition windows_access_kernel_symbol (symbol : cstr) (prot : Z) : M world (option mapping * Z) :=
  (* check the LRU cache *)
  hit ← xa_check_cache_sym symbol 0;
  match hit with
  | Some address => xa_access_ma address PROT_READ
  | None =>
      (* get the RVA of the symbol *)
      r ← windows_symbol_to_address symbol;
      match r with
      | None => mret (None, 0)
      | Some rva =>
          (* convert RVA into virt address *)
          i ← gets inst;
          let phys_address := u32 (ntoskrnl (os_windows i) + rva) in
          let virt_address := u32 (phys_address + page_offset i) in
          _ ← xa_update_cache (Some symbol) virt_address 0 0;
          xa_access_pa phys_address prot
      end
  end.

(** finds the EPROCESS struct for a given pid *)
Definition windows_get_EPROCESS (n : nat) (p : Z) : M world (option (mapping * Z)) :=
  i ← gets inst;
  get_task n (w_tasks_offset (os_windows i)) (w_pid_offset (os_windows i)) p.

(** finds the address of the page global directory for a given pid; the
    mapping is unmapped once in the body and once more at [error_exit] *)
Definition windows_pid_to_pgd (n : nat) (p : Z) : M world Z :=
  i ← gets inst;
  let o := os_windows i in
  r ← windows_get_EPROCESS n p;
  match r with
  | None => mret 0
  | Some (memory, offset) =>
      pgd ← load32 memory (offset + w_pdbase_offset o - w_tasks_offset o);
      _ ← munmap;
      (* update the cache with this new pid->pgd mapping *)
      _ ← xa_update_pid_cache p pgd;
      _ ← munmap;
      mret pgd
  end.

(** [xa_windows_get_peb], given what finds the page directories: the two
    fields that were read, each [None] where its read failed (the caller's
    structure is then as it was) *)
Definition get_peb (pid_to_pgd : Z -> M world Z) (n : nat) (p : Z)
  : M world (option (option Z * option Z)) :=
  i ← gets inst;
  let o := os_windows i in
  r ← windows_get_EPROCESS n p;
  match r with
  | None => mret None
  | Some (memory, offset) =>
      ptr ← load32 memory (offset + w_peb_offset o - w_tasks_offset o);
      _ ← munmap;
      base ← read_virt 4 pid_to_pgd (u32 (ptr + w_iba_offset o)) p;
      heap ← read_virt 4 pid_to_pgd (u32 (ptr + w_ph_offset o)) p;
      mret (Some (base, heap))
  end.

(** the name is copied and its page left mapped *)
Definition windows_get_eprocess_name (paddr : Z) : M world (option cstr) :=
  r ← xa_access_pa (u32 (paddr + 0x174)) PROT_READ;
  match r with
  | (None, _) => mret None
  | (Some memory, offset) => s ← load_string 50 memory offset; mret (Some s)
  end.

(** One turn of [windows_find_eprocess]; the loop variables are the offset and
    the last value read. *)
Definition find_eprocess_step (name : cstr) (end_ : Z) (st : Z * Z) : M world (Z * Z + Z) :=
  let '(offset, value) := st in
  if offset <? end_ then
    r ← xa_read_long_phys offset;
    let value := default value r in
    found ← (if (value =? 0x001b0003) || (value =? 0x00200003) then
               s ← windows_get_eprocess_name offset;
               match s with
               | Some procname => mret (strncmp procname name 50 =? 0)
               | None => mret false
               end
             else mret false : M world bool);
    if (found : bool) then mret (inr offset) else mret (inl (u32 (offset + 8), value))
  else mret (inr 0).

Definition memory_end (i : xa_instance) : Z :=
  if mode i =? XA_MODE_XEN then xen_size (m_xen i)
  else if mode i =? XA_MODE_FILE then file_size (m_file i)
  else 0.

Definition windows_find_eprocess (n : nat) (name : cstr) : M world Z :=
  i ← gets inst;
  iter n (find_eprocess_step name (memory_end i)) (0, 0).
End Model.

(** ** The kernel base *)

Section Base.
Context {E : XenEnv} {W : WholePages}.
Implicit Types (w : world).
Variables (i : xa_instance) (valid : Z -> bool).
Hypothesis Hsize : page_size i = 4096.
(** The addresses the search goes through, in order. *)
Definition candidates : list Z :=
  base_address ++ ((fun k => 4096 * k) <$> seqZ 1 (0x40000 - 1)).

Hypothesis Hvalid : forall a w, inst w = i -> a ∈ candidates ->
  valid_ntoskrnl_start a w = Ret (valid a, w).

Fixpoint first_valid (l : list Z) : Z :=
  match l with [] => 0 | a :: l' => if valid a then a else first_valid l' end.

Lemma first_valid_app l l' :
  first_valid (l ++ l') = if existsb valid l then first_valid l else first_valid l'.
Proof.
  induction l as [|a l IH]; [done|]. cbn [app first_valid existsb].
  destruct (valid a); [done|]. exact IH.
Qed.

Lemma try_bases_eq l w :
  inst w = i -> (forall a, a ∈ l -> a ∈ candidates) ->
  try_bases l w = Ret (if existsb valid l then Some (first_valid l) else None, w).
Proof.
  intros Hi Hl. induction l as [|a l IH]; [done|]. cbn [try_bases existsb first_valid].
  erewrite bind_eq by (apply Hvalid; [done|apply Hl, list_elem_of_here]).
  destruct (valid a); [done|]. apply IH. intros b Hb. by apply Hl, list_elem_of_further.
Qed.

Lemma search_step_eq k w :
  inst w = i -> 0 < k < 0x40000 ->
  search_step (4096 * k) w =
  Ret (if valid (4096 * k) then inr (4096 * k)
       else if decide (k + 1 = 0x40000) then inr 0 else inl (4096 * (k + 1)), w).
Proof.
  intros Hi Hk. unfold search_step. erewrite bind_eq.
  2:{ apply Hvalid; [done|]. apply elem_of_app. right. apply list_elem_of_fmap.
      exists k. split; [done|]. apply elem_of_seqZ. lia. }
  destruct (valid (4096 * k)); [done|]. erewrite bind_eq by done. rewrite Hi, Hsize.
  replace (4096 * k + 4096) with (4096 * (k + 1)) by lia. rewrite u32_small by lia.
  rewrite (proj2 (Z.leb_gt _ 0)) by lia. cbn [orb].
  destruct (decide (k + 1 = 0x40000)) as [->|]; [done|].
  by rewrite (proj2 (Z.leb_gt _ _)) by lia.
Qed.

Lemma search_base_eq m : forall n k w,
  inst w = i -> 0 < k -> k + Z.of_nat (S m) = 0x40000 -> (S m <= n)%nat ->
  search_base n (4096 * k) w = Ret (first_valid ((fun k => 4096 * k) <$> seqZ k (Z.of_nat (S m))), w).
Proof.
  induction m as [|m IH]; intros n k w Hi Hk Hm Hn; (destruct n as [|n]; [lia|]);
    unfold search_base; rewrite iter_S, seqZ_cons by lia; cbn [fmap list_fmap first_valid];
    (erewrite bind_eq by (apply search_step_eq; [done|lia]));
    destruct (valid (4096 * k)); try done.
  - rewrite decide_True by lia. done.
  - rewrite decide_False by lia. replace (Z.pred (Z.of_nat (S (S m)))) with (Z.of_nat (S m)) by lia.
    replace (Z.succ k) with (k + 1) by lia. apply IH; [done|lia|lia|lia].
Qed.

Lemma get_ntoskrnl_base_eq n w :
  inst w = i -> (Z.to_nat 0x40000 <= n)%nat ->
  get_ntoskrnl_base n w = Ret (first_valid candidates, w).
Proof.
  intros Hi Hn. unfold get_ntoskrnl_base, candidates.
  erewrite bind_eq by (apply try_bases_eq; [done|intros a Ha; apply elem_of_app; by left]).
  rewrite first_valid_app.
  destruct (existsb valid base_address); [done|].
  erewrite bind_eq by done. rewrite Hi, Hsize.
  pose proof (search_base_eq (Z.to_nat 0x3FFFE) n 1 w Hi) as H.
  rewrite Nat2Z.inj_succ, Z2Nat.id in H by lia. apply H; lia.
Qed.
End Base.

Lemma candidates_aligned a : a ∈ candidates -> a mod 4096 = 0 /\ 0 <= a < 0x40000000.
Proof.
  intros [Ha|Ha]%elem_of_app.
  - unfold base_address in Ha.
    repeat (apply elem_of_cons in Ha as [->|Ha]; [split; [reflexivity|lia]|]).
    by apply not_elem_of_nil in Ha.
  - apply list_elem_of_fmap in Ha as (k & -> & Hk%elem_of_seqZ).
    split; [rewrite Z.mul_comm; by apply Z.mod_mul|lia].
Qed.

(** The first address at which a kernel image starts. *)
Definition first_kernel `{E : XenEnv} (i : xa_instance) : Z := first_valid (kernel_at i) candidates.

Lemma get_ntoskrnl_base_first `{E : XenEnv} `{W : !WholePages} i n w :
  geometry i -> hvm i <> 0 \/ mode i = XA_MODE_FILE -> ntoskrnl (os_windows i) = 0 ->
  (Z.to_nat 0x40000 <= n)%nat -> (forall a, a ∈ candidates -> image_in_page i a) -> inst w = i ->
  get_ntoskrnl_base n w = Ret (first_kernel i, w).
Proof.
  intros Hg Hp H0 Hn Ha Hi.
  refine (get_ntoskrnl_base_eq i (kernel_at i) (proj2 Hg) _ n w Hi Hn).
  intros a w' Hi' Hc. pose proof (candidates_aligned a Hc) as [Hm Hr].
  assert (Hu : is_u32 a) by (clear -Hr; lia).
  exact (valid_ntoskrnl_eq i Hg Hp a w' Hi' H0 Hm Hu (Ha a Hc)).
Qed.

(** ** The search for a process by name *)

Section Eprocess.
Context {E : XenEnv} {W : WholePages}.
Implicit Types (w : world).
Variables (i : xa_instance) (name : cstr).
Hypothesis Hgeo : geometry i.
Hypothesis Hphys : hvm i <> 0 \/ mode i = XA_MODE_FILE.

Definition magic (v : Z) : bool := (v =? 0x001b0003) || (v =? 0x00200003).

(** No word that the search stops to look at. *)
Definition no_magic : Prop :=
  forall a, is_u32 a -> a mod 8 = 0 ->
    match mem_read i 4 a with Some v => magic v = false | None => True end.

(** With no such word a turn only moves on. *)
Lemma find_step_eq end_ offset value w :
  inst w = i -> no_magic -> is_u32 offset -> offset mod 8 = 0 -> magic value = false ->
  exists value', magic value' = false /\
  find_eprocess_step name end_ (offset, value) w =
  Ret (if offset <? end_ then inl (u32 (offset + 8), value') else inr 0, w).
Proof.
  intros Hi Hno Ho Hm Hv. unfold find_eprocess_step. destruct (offset <? end_); [|by exists 0].
  assert (H : magic (default value (mem_read i 4 offset)) = false).
  { specialize (Hno offset Ho Hm). by destruct (mem_read i 4 offset). }
  exists (default value (mem_read i 4 offset)). split; [done|].
  erewrite bind_eq.
  2:{ apply (read_phys_eq i Hgeo Hphys); [done|done|].
      Z.to_euclidean_division_equations. lia. }
  cbv zeta. fold (magic (default value (mem_read i 4 offset))). rewrite H. done.
Qed.

Lemma find_loop_ends end_ : forall n offset value w,
  inst w = i -> no_magic -> 0 <= offset -> offset mod 8 = 0 -> magic value = false ->
  0 <= end_ <= 0xFFFFFFF8 -> end_ + 8 <= offset + 8 * Z.of_nat n -> offset <= end_ + 7 ->
  iter n (find_eprocess_step name end_) (offset, value) w = Ret (0, w).
Proof.
  induction n as [|n IH]; intros offset value w Hi Hno Ho Hm Hv He Hn Hle; [lia|].
  rewrite iter_S. destruct (decide (offset < end_)) as [Hlt|Hge].
  - destruct (find_step_eq end_ offset value w) as (v' & Hv' & Hstep); [done|done|lia|done|done|].
    erewrite bind_eq by exact Hstep. rewrite (proj2 (Z.ltb_lt _ _)) by done.
    rewrite u32_small by lia. apply IH; try done; [lia| |lia|lia].
    Z.to_euclidean_division_equations. lia.
  - unfold find_eprocess_step. rewrite (proj2 (Z.ltb_ge offset end_)) by lia. done.
Qed.

(** When the size of the memory is above 0xFFFFFFF8 the offset wraps to zero
    before it reaches the end. *)
Lemma find_loop_diverges end_ : forall n offset value w,
  inst w = i -> no_magic -> is_u32 offset -> offset mod 8 = 0 -> magic value = false ->
  0xFFFFFFF8 < end_ ->
  iter n (find_eprocess_step name end_) (offset, value) w = Diverge.
Proof.
  induction n as [|n IH]; intros offset value w Hi Hno Ho Hm Hv He; [done|].
  rewrite iter_S.
  destruct (find_step_eq end_ offset value w) as (v' & Hv' & Hstep); [done..|].
  erewrite bind_eq by exact Hstep.
  rewrite (proj2 (Z.ltb_lt _ _)) by (Z.to_euclidean_division_equations; lia).
  apply IH; try done; [apply u32_range|]. unfold u32. Z.to_euclidean_division_equations. lia.
Qed.
End Eprocess.

(** ** Properties *)

Section Properties.
Context {E : XenEnv} {W : WholePages}.
Implicit Types (w : world).

(** C30: the search for the kernel image ends: with fuel for 2^18 pages it
    returns the first address, of the eleven known bases and then of the
    pages from 4096 up to 1 GB, at which the memory has the headers of a PE
    image whose export table names it ntoskrnl.exe ([kernel_at]), and 0 when
    there is none; nothing stays mapped.  The search is for a guest whose base
    is not known yet; what looks like an image must have its headers in single
    pages. *)
Theorem ntoskrnl_base_correct n w (i := inst w) :
  geometry i -> hvm i <> 0 \/ mode i = XA_MODE_FILE -> ntoskrnl (os_windows i) = 0 ->
  (Z.to_nat 0x40000 <= n)%nat -> (forall a, a ∈ candidates -> image_in_page i a) ->
  exists base, get_ntoskrnl_base n w = Ret (base, w) /\
    ((base = 0 /\ forall a, a ∈ candidates -> kernel_at i a = false) \/
     (exists before after, candidates = before ++ base :: after /\ kernel_at i base = true /\
        forall a, a ∈ before -> kernel_at i a = false)).
Proof.
  intros Hg Hp H0 Hn Ha. exists (first_kernel i). split; [by apply get_ntoskrnl_base_first|].
  unfold first_kernel. clear Ha. generalize candidates. intros l.
  induction l as [|a l IH]; cbn [first_valid]; [left; split; [done|]; by intros a ?%not_elem_of_nil|].
  destruct (kernel_at i a) eqn:Ek.
  - right. exists [], l. split; [done|]. split; [done|]. by intros b ?%not_elem_of_nil.
  - destruct IH as [[H1 H2]|(l1 & l2 & H1 & H2 & H3)]; [left|right].
    + split; [done|]. intros b [-> |Hb]%elem_of_cons; auto.
    + exists (a :: l1), l2. rewrite H1 at 1. split; [done|]. split; [done|]. intros b [-> |Hb]%elem_of_cons; auto.
Qed.

(** The search of physical memory for a process ends exactly when the
    size of the memory is at most 0xFFFFFFF8: on a memory without process
    headers it then returns 0, and above that size it runs for ever, because
    the 32-bit offset wraps to zero before it reaches the end. *)
Theorem find_eprocess_ends name w (i := inst w) :
  geometry i -> hvm i <> 0 \/ mode i = XA_MODE_FILE -> no_magic i -> is_u32 (memory_end i) ->
  (memory_end i <= 0xFFFFFFF8 -> forall n, memory_end i + 8 <= 8 * Z.of_nat n ->
     windows_find_eprocess n name w = Ret (0, w)) /\
  (0xFFFFFFF8 < memory_end i -> forall n, windows_find_eprocess n name w = Diverge).
Proof.
  intros Hg Hp Hno He. split.
  - intros Hle n Hn. unfold windows_find_eprocess. erewrite bind_eq by done. fold i.
    apply (find_loop_ends i name Hg Hp); try done; lia.
  - intros Hlt n. unfold windows_find_eprocess. erewrite bind_eq by done. fold i.
    by apply (find_loop_diverges i name Hg Hp).
Qed.

(** [windows_pid_to_pgd] returns the directory base of the first process
    with the pid and unmaps its page twice: it gives up one mapping more than
    it made, one that belongs to somebody else. *)
Theorem windows_pid_to_pgd_double_munmap (i : xa_instance) l n p w t pgd_of :
  geometry i -> (forall p, is_u32 (pgd_of p)) -> coherent i pgd_of w ->
  tasks i (w_tasks_offset (os_windows i)) (w_pid_offset (os_windows i)) (init_task i) (init_task i) l ->
  (length l < n)%nat ->
  find_task (w_tasks_offset (os_windows i)) (w_pid_offset (os_windows i)) p l = Some t ->
  0 <= t.2 + w_pdbase_offset (os_windows i) - w_tasks_offset (os_windows i) ->
  t.2 + w_pdbase_offset (os_windows i) - w_tasks_offset (os_windows i) + 4 <= 4096 ->
  runs (windows_pid_to_pgd n p) w (fun r w' =>
    r = field t.1 (t.2 + w_pdbase_offset (os_windows i) - w_tasks_offset (os_windows i)) /\
    live_maps w' = live_maps w - 1).
Proof.
  intros Hg Hp Hc Hl Hn Ht H1 H2. pose proof Hc as [Hi _].
  apply runs_bind, runs_gets. rewrite Hi. cbv zeta. apply runs_bind.
  apply runs_bind, runs_gets. rewrite Hi. apply runs_bind, runs_gets. rewrite Hi.
  eapply runs_mono; [by apply (get_task_correct i pgd_of _ _ Hg Hp p (init_task i) l)|].
  intros r w1 (-> & Hc1 & Hl1). rewrite Ht in *. destruct t as [m o].
  pose proof Ht as [Hin _]%find_task_Some. destruct (tasks_at _ _ _ _ _ _ _ Hl Hin) as [u Hu].
  apply runs_bind. apply (task_field i _ _ Hg u (m, o) _ Hu H1 H2).
  apply runs_bind, runs_modify, runs_bind.
  destruct Hc1 as (_ & _ & (lp & Hh & Hlp & _)).
  eapply runs_mono; [by apply (update_pid_refines _ _ _ lp)|].
  intros r w2 [_ (_ & _ & _ & Hm & _)]. apply runs_bind, runs_modify, runs_ret.
  split; [done|]. simpl in *. lia.
Qed.

(** [windows_get_eprocess_name] leaves the page of the name mapped:
    every candidate the search looks at costs a mapping. *)
Theorem eprocess_name_leaks paddr w (i := inst w) (a := u32 (paddr + 0x174)) m :
  geometry i -> hvm i <> 0 \/ mode i = XA_MODE_FILE ->
  frame_of i PROT_READ (a / 4096) = Some m -> a mod 4096 + 50 <= 4096 ->
  windows_get_eprocess_name paddr w =
  Ret (Some (string_at 50 m (a mod 4096)), with_live_maps (live_maps w + 1) w).
Proof.
  intros Hg Hp Hf Ha. unfold windows_get_eprocess_name.
  erewrite bind_eq by (apply xa_access_pa_eq; [done|apply u32_range|done]).
  fold a i. rewrite Hf. pose proof (Z.mod_pos_bound a 4096 ltac:(lia)).
  erewrite bind_eq by (apply load_string_eq; [lia|rewrite (frame_whole _ _ _ _ Hg Hf); lia]).
  done.
Qed.

(** The first access to a kernel symbol of a Windows guest gives the page
    and offset of the physical address "kernel base + export address", and
    NULL when the export does not resolve. *)
Theorem windows_kernel_symbol_correct symbol prot w (i := inst w) lc pgd_of :
  geometry i -> hvm i <> 0 \/ mode i = XA_MODE_FILE -> coherent i pgd_of w ->
  cached w lc -> Forall (fun e => sym_hit symbol 0 e = false) lc ->
  exports_in_page i symbol ->
  runs (windows_access_kernel_symbol symbol prot) w (fun r w' =>
    r = match export_rva i symbol with
        | Some v => let a := u32 (ntoskrnl (os_windows i) + v) in
                    (frame_of i prot (a / 4096), a mod 4096)
        | None => (None, 0)
        end /\
    coherent i pgd_of w' /\
    live_maps w' = live_maps w + match r.1 with Some _ => 1 | None => 0 end).
Proof.
  intros Hg Hp Hc Hh Hno He. apply runs_bind.
  eapply runs_mono; [by eapply (check_sym_miss i pgd_of)|].
  intros r w1 (-> & Hc1 & Hl1). pose proof Hc1 as [Hi1 _].
  apply runs_bind. eapply runs_eq; [by apply (windows_export_eq i Hg Hp)|].
  destruct (export_rva i symbol) as [v|]; [|apply runs_ret; split; [done|split; [done|simpl; lia]]].
  apply runs_bind, runs_gets. rewrite Hi1. cbv zeta.
  apply runs_bind. eapply runs_mono; [apply (update_sym_coherent i pgd_of Hg); [done|apply u32_range]|].
  intros _ w2 [Hc2 Hl2]. pose proof Hc2 as [Hi2 _].
  eapply runs_eq; [apply xa_access_pa_eq; rewrite ?Hi2; [done|apply u32_range|done]|].
  rewrite Hi2. split; [done|]. split; [by apply coherent_opened|].
  rewrite live_maps_opened. cbn [fst]. lia.
Qed.
End Properties.

(** *** Witnesses *)

#[local] Instance win_env : XenEnv := guest_env windows_image.
#[local] Instance win_whole : WholePages := guest_whole _.
Abbreviation win := (guest_inst 2 0).

(** The instance before the kernel is found. *)
Definition search_inst : xa_instance :=
  XaInstance XA_MODE_FILE XA_FAILSOFT None None 0xC0000000 12 4096 0 0
    2 1 0 0 0x1000 guest_linux (WindowsInstance 0 0x88 0x18 0x84 0x1b0 0x8 0x18)
    (XenSource 0 0 0 0 0 None 0) (FileSource 0x100000).

(** Beyond the end of the image file nothing is mapped. *)
Lemma guest_read_end img a :
  0x100000 <= a < 0x40000000 -> a mod 4096 = 0 -> @mem_read (guest_env img) search_inst 4 a = None.
Proof.
  intros Ha Hm. unfold mem_read, frame_of. cbn [mode search_inst m_file file_size page_shift page_size].
  change (XA_MODE_FILE =? XA_MODE_XEN) with false. change (XA_MODE_FILE =? XA_MODE_FILE) with true.
  cbv iota. rewrite Z.shiftl_mul_pow2 by done. change (2 ^ 12) with 4096.
  apply Z.mod_divide in Hm as [q ->]; [|done]. rewrite Z.div_mul, u32_small by lia.
  by rewrite (proj2 (Z.leb_le _ _)) by lia.
Qed.

(** An image with a kernel at 0x8000: the PE header at 0x8080, the export table
    at 0x8200 and the name at 0x8300. *)
Definition kernel_image : image :=
  [(0x8000, 0x5A4D); (0x803C, 0x80); (0x8080, 0x4550); (0x80F8, 0x200); (0x820C, 0x300);
   (0x8300, 0x736F746E); (0x8304, 0x6C6E726B); (0x8308, 0x6578652E)].

Abbreviation kenv := (guest_env kernel_image).

Lemma one_header_low :
  forallb (fun k => negb (@dos_header kenv search_inst (4096 * k)) || (k =? 8)) (seqZ 0 256) = true.
Proof. vm_compute. reflexivity. Qed.

Lemma one_header a : a ∈ candidates -> @dos_header kenv search_inst a = true -> a = 0x8000.
Proof.
  intros [Hm Ha]%candidates_aligned Hd. destruct (decide (a < 0x100000)) as [Hlt|Hge].
  - apply Z.mod_divide in Hm as [k ->]; [|done]. pose proof one_header_low as H. rewrite forallb_forall in H.
    assert (Hk : k ∈ seqZ 0 256) by (apply elem_of_seqZ; lia). apply list_elem_of_In, H in Hk.
    rewrite Z.mul_comm in Hk, Hd. rewrite Z.mul_comm, Hd in Hk. apply Z.eqb_eq in Hk as ->. done.
  - unfold dos_header in Hd. by rewrite guest_read_end in Hd by lia.
Qed.

Lemma kernel_headers a : a ∈ candidates -> @image_in_page kenv search_inst a.
Proof.
  intros Ha. split; intros Hd; pose proof (one_header a Ha Hd) as ->.
  - assert (Hv : @mem_read kenv search_inst 4 (u32 (0x8000 + 60)) = Some 0x80) by (vm_compute; reflexivity).
    intros v. rewrite Hv. intros [= <-]. vm_compute. discriminate.
  - intros _. split.
    + vm_compute. discriminate.
    + vm_compute. discriminate.
    + intros m Hm. assert (Some (guest_frame kernel_image 0x8098) = Some m) as [= <-].
      { rewrite <- Hm. symmetry. exact (guest_frame_of kernel_image 2 0 PROT_READ 0x8098 ltac:(lia)). }
      vm_compute. discriminate.
Qed.

Lemma kernel_candidate : 0x8000 ∈ candidates.
Proof.
  apply elem_of_app. right. apply list_elem_of_fmap. exists 8. split; [reflexivity|]. apply elem_of_seqZ. lia.
Qed.

Lemma kernel_found : @kernel_at kenv search_inst 0x8000 = true.
Proof. vm_compute. reflexivity. Qed.

Lemma ntoskrnl_base_correct_witness :
  @get_ntoskrnl_base kenv (Z.to_nat 0x40000) (guest_world search_inst) = Ret (0x8000, guest_world search_inst).
Proof.
  destruct (@ntoskrnl_base_correct kenv (guest_whole _) (Z.to_nat 0x40000) (guest_world search_inst)
    (conj eq_refl eq_refl) (or_intror eq_refl) eq_refl (le_n _) kernel_headers)
    as (base & Hr & [[_ Hno]|(before & after & Hl & Hk & _)]).
  - pose proof (Hno 0x8000 kernel_candidate) as H.
    pose proof (eq_trans (eq_sym kernel_found) H) as H'. discriminate H'.
  - assert (base = 0x8000) as <-; [|exact Hr]. apply one_header.
    + rewrite Hl. apply elem_of_app. right. apply list_elem_of_here.
    + unfold kernel_at in Hk. apply andb_true_iff in Hk as [Hk _]. by apply andb_true_iff in Hk as [Hk _].
Defined.

Lemma empty_no_magic os p : @no_magic (guest_env []) (guest_inst os p).
Proof.
  intros a Ha Hm. destruct (@mem_read (guest_env []) (guest_inst os p) 4 a) as [v|] eqn:Em; [|done].
  assert (Hz : forall k, byte_at [] k = 0) by (intros; apply Z.shiftr_0_l).
  unfold mem_read, frame_of in Em. cbn [mode guest_inst] in Em.
  change (XA_MODE_FILE =? XA_MODE_XEN) with false in Em.
  change (XA_MODE_FILE =? XA_MODE_FILE) with true in Em. cbv iota zeta in Em.
  apply bind_Some in Em as (m & Hf & [= <-]). case_match; [done|].
  injection Hf as <-. unfold bytes, m_byte. change (seqZ 0 (Z.of_nat 4)) with [0; 1; 2; 3].
  cbn [fmap list_fmap le_combine]. by rewrite !Hz.
Qed.

Lemma find_eprocess_ends_witness :
  @windows_find_eprocess (guest_env []) (Z.to_nat 0x20001) (str "System") (guest_world win) =
  Ret (0, guest_world win).
Proof.
  apply (proj1 (@find_eprocess_ends (guest_env []) (guest_whole _) (str "System") (guest_world win)
    (guest_geometry 2 0) ltac:(left; discriminate) (empty_no_magic 2 0) ltac:(vm_compute; split; [discriminate|reflexivity]))).
  - vm_compute. discriminate.
  - change (memory_end (inst (guest_world win))) with 0x100000. lia.
Defined.

Definition wtask (a : Z) : mapping * Z := (guest_frame windows_image a, a mod 4096).

Lemma win_page_at prot v a :
  kv2p win v = a -> 0 < a < 0x100000 ->
  page_at win prot (kv2p win v) = (Some (guest_frame windows_image a), a mod 4096).
Proof.
  intros -> Ha. unfold page_at. rewrite (proj2 (Z.eqb_neq a 0)) by lia.
  assert (frame_of win prot (a / 4096) = Some (guest_frame windows_image a)) as ->; [|done].
  exact (guest_frame_of windows_image 2 0 prot a ltac:(lia)).
Qed.

Lemma win_task_at v a :
  kv2p win v = a -> is_u32 v -> 0 < a < 0x100000 -> a mod 4096 = 0x88 ->
  task_at win 0x88 0x84 v (wtask a).
Proof.
  intros Hk Hv Ha Hm. unfold task_at, wtask. cbn [fst snd]. rewrite Hm.
  split; [done|]. split; [|lia]. rewrite <- Hm. by apply win_page_at.
Qed.

(** The process list of the image: [init_task] is the first process. *)
Definition win_list : xa_instance :=
  XaInstance XA_MODE_FILE XA_FAILSOFT None None 0xC0000000 12 4096 0xC0001000 0xC0005088
    2 1 0 0 0x1000 guest_linux guest_windows (XenSource 0 0 0 0 0 None 0) (FileSource 0x100000).

Lemma win_tasks : tasks win_list 0x88 0x84 0xC0005088 0xC0005088 [wtask 0x5088; wtask 0x6088].
Proof.
  apply tasks_cons; [apply win_task_at| |].
  - vm_compute. reflexivity.
  - lia.
  - lia.
  - reflexivity.
  - vm_compute. discriminate.
  - assert (next_of (wtask 0x5088) = 0xC0006088) as -> by (vm_compute; reflexivity).
    apply tasks_cons; [apply win_task_at| |].
    + vm_compute. reflexivity.
    + lia.
    + lia.
    + reflexivity.
    + vm_compute. discriminate.
    + assert (next_of (wtask 0x6088) = 0xC0007088) as -> by (vm_compute; reflexivity).
      apply (tasks_last _ _ _ _ _ (wtask 0x7088)); [apply win_task_at|vm_compute; reflexivity].
      * vm_compute. reflexivity.
      * lia.
      * lia.
      * reflexivity.
Qed.

Lemma windows_pid_to_pgd_double_munmap_witness :
  runs (windows_pid_to_pgd 3 12) (guest_world win_list) (fun r w' => r = 0xF000 /\ live_maps w' = -1).
Proof.
  eapply runs_mono.
  - apply (windows_pid_to_pgd_double_munmap win_list [wtask 0x5088; wtask 0x6088] 3 12 _
             (wtask 0x6088) (fun _ => 0)).
    + done.
    + lia.
    + apply world_coherent.
    + exact win_tasks.
    + simpl. lia.
    + change (w_tasks_offset (os_windows win_list)) with 0x88.
      change (w_pid_offset (os_windows win_list)) with 0x84. unfold find_task.
      assert ((pid_of 0x88 0x84 (wtask 0x5088) =? 12) = false) as -> by (vm_compute; reflexivity).
      assert ((pid_of 0x88 0x84 (wtask 0x6088) =? 12) = true) as -> by (vm_compute; reflexivity).
      reflexivity.
    + vm_compute. discriminate.
    + vm_compute. discriminate.
  - intros r w' [-> ->]. split; vm_compute; reflexivity.
Defined.

Lemma eprocess_name_leaks_witness :
  windows_get_eprocess_name (0x8400 - 0x174) (guest_world win) =
  Ret (Some (str "PsInit"), with_live_maps 1 (guest_world win)).
Proof.
  refine (eq_trans (eprocess_name_leaks (0x8400 - 0x174) (guest_world win) (guest_frame windows_image 0x8400)
    (guest_geometry 2 0) _ _ _) _).
  - left. discriminate.
  - apply (guest_frame_of windows_image 2 0 PROT_READ 0x8400). lia.
  - vm_compute. discriminate.
  - vm_compute. reflexivity.
Defined.

Lemma windows_kernel_symbol_correct_witness :
  runs (windows_access_kernel_symbol (str "PsInit") PROT_READ) (guest_world win)
    (fun r w' => r.2 = 0x111 /\ live_maps w' = 0 + 1).
Proof.
  eapply runs_mono.
  - apply (windows_kernel_symbol_correct (str "PsInit") PROT_READ (guest_world win) [] (fun _ => 0)).
    + apply guest_geometry.
    + left. discriminate.
    + apply world_coherent.
    + apply guest_cached.
    + constructor.
    + exact win_psinit_in_page.
  - intros r w' (Hr & _ & Hl).
    assert (Hx : export_rva (inst (guest_world win)) (str "PsInit") = Some 0x1111) by
      (vm_compute; reflexivity).
    rewrite Hx in Hr. cbv zeta in Hr.
    change (u32 (ntoskrnl (os_windows (inst (guest_world win))) + 0x1111)) with 0x9111 in Hr.
    assert (frame_of (inst (guest_world win)) PROT_READ (0x9111 / 4096) =
            Some (guest_frame windows_image 0x9111)) as Hf.
    { apply (guest_frame_of windows_image 2 0 PROT_READ 0x9111). lia. }
    rewrite Hf in Hr. subst r. split; [reflexivity|exact Hl].
Defined.
