(* ===== verification/XaApi.v ===== *)
(** * The operations of the library

    The functions of xa_memory.c, xa_util.c and windows_memory.c that choose
    between the operating systems, and user address access as the callers of
    the library see it: through the pid cache, the process list, the address
    cache and the page tables. *)

From Stdlib Require Import String.
From S2P Require Import Prelude CStr Dll XaTypes XaMap Guest PageTable XaCache XaAccess Symbols.
From S2P Require Import XaStore ProcList Linux SymAccess WindowsPe Windows.

Section Model.
Context {E : XenEnv} {X : StoreEnv} {F : FileEnv}.

(** map memory given a kernel symbol *)
Definition xa_access_kernel_sym (symbol : cstr) (prot : Z) : M world (option mapping * Z) :=
  i ← gets inst;
  if os_type i =? XA_OS_LINUX then linux_access_kernel_symbol symbol prot
  else if os_type i =? XA_OS_WINDOWS then windows_access_kernel_symbol symbol prot
  else mret (None, 0).

(** finds the address of the page global directory for a given pid; [n]
    bounds the walk through the process list *)
Definition xa_pid_to_pgd (n : nat) (p : Z) : M world Z :=
  (* first check the cache *)
  hit ← xa_check_pid_cache p;
  match hit with
  | Some pgd => mret pgd
  | None =>
      (* otherwise do the lookup *)
      i ← gets inst;
      if os_type i =? XA_OS_LINUX then linux_pid_to_pgd n p
      else if os_type i =? XA_OS_WINDOWS then windows_pid_to_pgd n p
      else mret 0
  end.

Definition xa_access_user_va (n : nat) : Z -> Z -> Z -> M world (option mapping * Z) :=
  access_va (xa_pid_to_pgd n).

Definition xa_access_user_va_range (n : nat) : Z -> Z -> Z -> Z -> M world (option mapping * Z) :=
  access_va_range (xa_pid_to_pgd n).

Definition xa_read_long_virt (n : nat) : Z -> Z -> M world (option Z) :=
  read_virt 4 (xa_pid_to_pgd n).

Definition xa_read_long_long_virt (n : nat) : Z -> Z -> M world (option Z) :=
  read_virt 8 (xa_pid_to_pgd n).

Definition xa_read_long_sym (sym : cstr) : M world (option Z) :=
  r ← xa_access_kernel_sym sym PROT_READ; read_through 4 r.

Definition xa_read_long_long_sym (sym : cstr) : M world (option Z) :=
  r ← xa_access_kernel_sym sym PROT_READ; read_through 8 r.

Definition xa_symbol_to_address (sym : cstr) : M world (option Z) :=
  i ← gets inst;
  if os_type i =? XA_OS_LINUX then linux_system_map_symbol_to_address sym
  else if os_type i =? XA_OS_WINDOWS then windows_symbol_to_address sym
  else mret None.

Definition xa_windows_get_peb (n : nat) (p : Z) : M world (option (option Z * option Z)) :=
  get_peb (xa_pid_to_pgd n) n p.
End Model.

(** ** The pid cache in front of the process list *)

Section PidCache.
Context {E : XenEnv} {W : WholePages}.
Variables (i : xa_instance) (pgd_of : Z -> Z).

(** A hit is the directory of the process. *)
Lemma check_pid_coherent p w :
  coherent i pgd_of w ->
  runs (xa_check_pid_cache p) w (fun r w' =>
    coherent i pgd_of w' /\ live_maps w' = live_maps w /\
    match r with Some g => g = pgd_of p | None => True end).
Proof.
  intros Hc. pose proof Hc as (Hi & Hcc & (lp & Hh & Hl & Hf)).
  eapply runs_mono; [by apply check_pid_refines|]. intros r w' H.
  unfold spec_pid_check in H.
  destruct (split_first _ lp) as [[[pre e] post]|] eqn:Es; destruct H as [-> Hs];
    destruct Hs as (Hh' & Hi' & [Hc' Hst] & Hm & _); unfold cached in Hcc.
  - apply split_first_Some in Es as (-> & He%Z.eqb_eq & _).
    apply Forall_app in Hf as [H1 [H2 H3]%list.Forall_cons].
    split; [|split; [done|by rewrite <- He]].
    split; [by rewrite Hi'|]. unfold cached. rewrite Hc', Hst. split; [done|].
    eexists. split; [exact Hh'|]. rewrite length_app in *. split; [done|].
    apply Forall_app. split; [done|]. by constructor.
  - split; [|done]. split; [by rewrite Hi'|]. unfold cached. rewrite Hc', Hst. split; [done|]. by exists lp.
Qed.
End PidCache.

Section LinuxApi.
Context {E : XenEnv} {W : WholePages} {X : StoreEnv} {F : FileEnv}.
Variables (i : xa_instance) (l : list (mapping * Z)).
Hypothesis Hguest : linux_guest i l.
Hypothesis Hos : os_type i = XA_OS_LINUX.

Lemma xa_pid_to_pgd_runs n p w :
  (length l < n)%nat -> coherent i (linux_pgd_of i l) w ->
  runs (xa_pid_to_pgd n p) w (fun r w' =>
    r = linux_pgd_of i l p /\ coherent i (linux_pgd_of i l) w' /\ live_maps w' = live_maps w).
Proof.
  intros Hn Hc. apply runs_bind. eapply runs_mono; [by apply check_pid_coherent|].
  intros [g|] w1 (Hc1 & Hl1 & Hg); [by apply runs_ret|]. pose proof Hc1 as [Hi1 _].
  apply runs_bind, runs_gets. rewrite Hi1, Hos. cbn [Z.eqb XA_OS_LINUX].
  rewrite <- Hl1. by apply linux_pid_to_pgd_runs.
Qed.

Lemma api_provides_pgd n :
  (length l < n)%nat ->
  PidToPgd (coherent i (linux_pgd_of i l)) (linux_pgd_of i l) (xa_pid_to_pgd n).
Proof. intros Hn p w Hc _. by apply xa_pid_to_pgd_runs. Qed.

(** C3: accessing a user address of a Linux process through the whole stack,
    address cache, pid cache, process list and page tables, terminates on
    every guest whose process list closes and gives the page that the
    process's own page tables map there; NULL when the process has no page
    directory or the address no page.  Exactly the page that is returned
    stays mapped. *)
Theorem user_va_correct n v p prot w :
  (length l < n)%nat -> coherent i (linux_pgd_of i l) w -> is_u32 v -> p <> 0 ->
  runs (xa_access_user_va n v p prot) w (fun r w' =>
    r = page_at i prot (match find_task (l_tasks_offset (os_linux i)) (l_pid_offset (os_linux i)) p l with
                        | Some t => if task_pgd i t =? 0 then 0 else pt_lookup i (task_pgd i t) v
                        | None => 0
                        end) /\
    coherent i (linux_pgd_of i l) w' /\
    live_maps w' = live_maps w + match r.1 with Some _ => 1 | None => 0 end).
Proof.
  intros Hn Hc Hv Hp%Z.eqb_neq.
  eapply runs_mono.
  { apply (access_va_coherent i (linux_pgd_of i l) (lg_geometry _ _ Hguest) (linux_pgd_of_u32 i l));
      [done|exact Hv|right; by apply api_provides_pgd]. }
  intros r w' H. unfold translate in H. rewrite Hp in H. unfold linux_pgd_of at 1 2 in H.
  by destruct (find_task _ _ p l).
Qed.

(** C14: [xa_access_kernel_sym] gives the page the symbol's address translates
    to, NULL when the System.map does not have the symbol or the tables no page,
    in every state in which the caches agree with the map and the tables: the
    answer does not depend on what is cached.  The caches agree again
    afterwards, so this holds for every access of a sequence. *)
Theorem kernel_sym_transparent name rs symbol w :
  sym_coherent i (linux_pgd_of i l) rs w -> sysmap_ready i name rs symbol -> symbol <> [] ->
  (length symbol < MAX_SYM_LEN)%nat -> (forall a, map_find rs symbol = Some a -> 4096 <= a) ->
  runs (xa_access_kernel_sym symbol PROT_READ) w (fun r w' =>
    r = match map_find rs symbol with
        | Some a => page_at i PROT_READ (kv2p i a)
        | None => (None, 0)
        end /\
    sym_coherent i (linux_pgd_of i l) rs w' /\
    live_maps w' = live_maps w + match r.1 with Some _ => 1 | None => 0 end).
Proof.
  intros Hc Hs Hne Hlen Hz. pose proof Hc as [[Hi _] _].
  apply runs_bind, runs_gets. rewrite Hi, Hos. cbn [Z.eqb XA_OS_LINUX].
  eapply linux_symbol_cached; [apply Hguest|apply linux_pgd_of_u32|done..].
Qed.

(** [xa_read_long_sym] of a symbol that is not cached yet returns the word
    the System.map's address of the symbol leads to through the kernel page
    tables, and fails when the map has no such symbol or the address no page;
    no mapping stays open. *)
Theorem read_long_sym_correct name rs symbol w lc :
  coherent i (linux_pgd_of i l) w -> sysmap_ready i name rs symbol ->
  cached w lc -> Forall (fun e => sym_hit symbol 0 e = false) lc ->
  (forall a, map_find rs symbol = Some a -> a mod 4096 <= 4092) ->
  runs (xa_read_long_sym symbol) w (fun r w' =>
    r = (a ← map_find rs symbol; read_at i (linux_pgd_of i l) 4 0 a) /\
    coherent i (linux_pgd_of i l) w' /\ live_maps w' = live_maps w).
Proof.
  intros Hc Hs Hh Hno Hal. pose proof Hc as [Hi _]. pose proof (lg_geometry _ _ Hguest) as Hgeo.
  apply runs_bind, runs_bind, runs_gets. rewrite Hi, Hos. cbn [Z.eqb XA_OS_LINUX].
  eapply runs_mono.
  { eapply linux_kernel_symbol_runs; [done|apply linux_pgd_of_u32|done..]. }
  intros [f o] w' (Hr & Hc' & Hl). pose proof Hs as (_ & _ & _ & Hrs & _).
  destruct (map_find rs symbol) as [a|] eqn:Ea; cbn [mbind option_bind].
  - pose proof (map_find_u32 _ _ _ Hrs Ea) as Ha. specialize (Hal a eq_refl).
    eapply read_page_coherent; [exact Hgeo|exact Ha|simpl; lia|exact Hr|exact Hc'|exact Hl].
  - injection Hr as -> ->. apply runs_ret. split; [done|]. split; [done|simpl in Hl; lia].
Qed.
End LinuxApi.

(** *** Witnesses *)

Lemma user_va_correct_witness :
  @runs _ _ (@xa_access_user_va linux_env 3 0x400010 1 PROT_READ)
    (guest_world lin) (fun r w' => r.2 = 0x10 /\ live_maps w' = 0 + 1).
Proof.
  eapply runs_mono.
  - apply (@user_va_correct linux_env linux_whole lin _
             (lin_guest lin (or_introl eq_refl)) eq_refl 3 0x400010 1).
    + simpl. lia.
    + apply lin_coherent.
    + lia.
    + lia.
  - intros r w' (-> & _ & Hl). split; [vm_compute; reflexivity|]. rewrite Hl.
    change (@page_at linux_env lin PROT_READ 0x3010) with (Some (guest_frame linux_image 0x3010), 0x10).
    vm_compute. reflexivity.
Defined.

(** The second access to a symbol, from the state the first one leaves. *)
Lemma kernel_sym_transparent_witness :
  @runs _ _ (_ ← @xa_access_kernel_sym linux_env guest_store linux_files (str "init_task") PROT_READ;
             @xa_access_kernel_sym linux_env guest_store linux_files (str "init_task") PROT_READ)
    (guest_world lin_map) (fun r w' => r = @page_at linux_env lin_map PROT_READ (@kv2p linux_env lin_map 0xC0005000) /\ live_maps w' = 2).
Proof.
  assert (Hs : @sysmap_ready linux_files lin_map (str "/boot/System.map") sample_map (str "init_task")).
  { split_and!; [reflexivity|discriminate|reflexivity|apply sample_map_ok|].
    repeat constructor; discriminate. }
  assert (Hz : forall a, map_find sample_map (str "init_task") = Some a -> 4096 <= a).
  { intros a. change (map_find sample_map (str "init_task")) with (Some 0xc0005000).
    intros [= <-]. vm_compute. discriminate. }
  apply runs_bind. eapply runs_mono.
  - apply (@kernel_sym_transparent linux_env linux_whole guest_store linux_files lin_map _
             (lin_guest lin_map (or_intror eq_refl)) eq_refl (str "/boot/System.map") sample_map
             (str "init_task") (guest_world lin_map)).
    + split; [apply lin_coherent|]. exists []. split; [apply guest_cached|constructor].
    + exact Hs.
    + discriminate.
    + vm_compute. lia.
    + exact Hz.
  - intros r w1 (-> & Hc1 & Hl1). eapply runs_mono.
    + apply (@kernel_sym_transparent linux_env linux_whole guest_store linux_files lin_map _
               (lin_guest lin_map (or_intror eq_refl)) eq_refl (str "/boot/System.map") sample_map
               (str "init_task") w1); [exact Hc1|exact Hs|discriminate|vm_compute; lia|exact Hz].
    + intros r w2 (-> & _ & Hl2).
      change (map_find sample_map (str "init_task")) with (Some 0xc0005000) in *.
      split; [reflexivity|]. rewrite Hl2, Hl1. vm_compute. reflexivity.
Defined.

Lemma read_long_sym_correct_witness :
  @runs _ _ (@xa_read_long_sym linux_env guest_store linux_files (str "init_task"))
    (guest_world lin_map) (fun r w' => r = Some 0x11 /\ live_maps w' = 0).
Proof.
  eapply runs_mono.
  - apply (@read_long_sym_correct linux_env linux_whole guest_store linux_files lin_map _
             (lin_guest lin_map (or_intror eq_refl)) eq_refl (str "/boot/System.map") sample_map
             (str "init_task") (guest_world lin_map) []).
    + apply lin_coherent.
    + split_and!; [reflexivity|discriminate|reflexivity|apply sample_map_ok|].
      repeat constructor; discriminate.
    + apply guest_cached.
    + constructor.
    + intros a. change (map_find sample_map (str "init_task")) with (Some 0xc0005000).
      intros [= <-]. vm_compute. discriminate.
  - intros r w' (Hr & _ & Hl). split; [|exact Hl]. rewrite Hr.
    change (map_find sample_map (str "init_task")) with (Some 0xc0005000). cbn [mbind option_bind].
    vm_compute. reflexivity.
Defined.
