(* ===== verification/Config.v ===== *)
(** * The configuration file

    Models the semantic actions of config/grammar.y and [xa_parse_config]:
    each rule fills a field of [tmp_entry], and the end of a domain's block
    copies it when it is the domain that is asked for.  [yyparse] is made by
    bison from the grammar; it is a parameter that gives its return value and
    the actions it runs, in order. *)

From Stdlib Require Import String.
From S2P Require Import Prelude CStr Symbols.

Definition CONFIG_STR_LENGTH : nat := 1024.

(** The offsets are a union of five ints for Linux and seven for Windows: the
    seven 4-byte slots. *)
Record xa_config_entry := ConfigEntry {
  domain_name : cstr;
  c_sysmap : cstr;
  c_ostype : cstr;
  offsets : list Z }.

(** [bzero(&entry, sizeof(xa_config_entry_t))] *)
Definition zero_entry : xa_config_entry := ConfigEntry [] [] [] (replicate 7 0).

Inductive offset_field :=
| linux_tasks | linux_mm | linux_pid | linux_pgd | linux_addr
| win_ntoskrnl | win_tasks | win_pdbase | win_pid | win_peb | win_iba | win_ph.

#[export] Instance offset_field_eq_dec : EqDecision offset_field.
Proof. solve_decision. Defined.

(** The slot of the union a member occupies. *)
Definition slot (f : offset_field) : nat :=
  match f with
  | linux_tasks | win_ntoskrnl => 0
  | linux_mm | win_tasks => 1
  | linux_pid | win_pdbase => 2
  | linux_pgd | win_pid => 3
  | linux_addr | win_peb => 4
  | win_iba => 5
  | win_ph => 6
  end.

Definition offset_of (f : offset_field) (e : xa_config_entry) : Z := nth (slot f) (offsets e) 0.

(** *** [strtol($3, NULL, 0)] with a 32-bit long *)

Fixpoint digits (base acc : Z) (s : list Z) : Z :=
  match s with
  | [] => acc
  | c :: s' => match hex_value c with
               | Some d => if d <? base then digits base (base * acc + d) s' else acc
               | None => acc
               end
  end.

Definition strtol0 (s : cstr) : Z :=
  let s := skip_space s in
  let '(neg, s) := match s with
                   | 45 :: s' => (true, s')
                   | 43 :: s' => (false, s')
                   | _ => (false, s)
                   end in
  let v := if negb (bool_decide (skip_0x s = s)) then digits 16 0 (skip_0x s)
           else match s with
                | 48 :: s' => digits 8 0 s'
                | _ => digits 10 0 s
                end in
  let v := if (neg : bool) then - v else v in
  Z.max (-2147483648) (Z.min 2147483647 v).

(** Digits are read from left to right. *)
Lemma digits_app base acc s t :
  Forall (fun c => exists d, hex_value c = Some d /\ d < base) s ->
  digits base acc (s ++ t) = digits base (digits base acc s) t.
Proof.
  intros Hs. revert acc. induction Hs as [|c s (d & Hd & Hb) Hs IH]; intros acc; [done|].
  cbn [app digits]. rewrite Hd, (proj2 (Z.ltb_lt _ _)) by done. apply IH.
Qed.

(** *** The actions *)

Inductive action :=
| offset_assignment (f : offset_field) (num : cstr)
| sysmap_assignment (filename : cstr)
| ostype_assignment (word : cstr)
| domain_info (word : cstr).

(** [snprintf(tmp_str, CONFIG_STR_LENGTH, "%s", s)] *)
Definition clip (s : cstr) : cstr := take (pred CONFIG_STR_LENGTH) s.

(** The globals [entry] and [tmp_entry]. *)
Definition parser_state : Type := xa_config_entry * xa_config_entry.

Definition entry_done (target_domain : cstr) (st : parser_state) : parser_state :=
  let '(entry, tmp) := st in
  (if strncmp (domain_name tmp) target_domain CONFIG_STR_LENGTH =? 0 then tmp else entry,
   zero_entry).

Definition run_action (target_domain : cstr) (st : parser_state) (a : action) : parser_state :=
  let '(entry, tmp) := st in
  match a with
  | offset_assignment f num =>
      (entry, ConfigEntry (domain_name tmp) (c_sysmap tmp) (c_ostype tmp)
                (<[slot f := strtol0 num]> (offsets tmp)))
  | sysmap_assignment s =>
      (entry, ConfigEntry (domain_name tmp) (clip s) (c_ostype tmp) (offsets tmp))
  | ostype_assignment s =>
      (entry, ConfigEntry (domain_name tmp) (c_sysmap tmp) (clip s) (offsets tmp))
  | domain_info s =>
      entry_done target_domain
        (entry, ConfigEntry (clip s) (c_sysmap tmp) (c_ostype tmp) (offsets tmp))
  end.

Class ConfigParser := { yyparse : list Z -> Z * list action }.

(** The return value and what [xa_get_config] points to afterwards. *)
Definition xa_parse_config `{ConfigParser} (text : list Z) (td : cstr) : Z * xa_config_entry :=
  let '(ret, acts) := yyparse text in
  (ret, (fold_left (run_action td) acts (zero_entry, zero_entry)).1).

(** ** Blocks of a configuration file *)

Record block := Block { b_name : cstr; b_fields : list action }.

Definition is_field (a : action) : bool := match a with domain_info _ => false | _ => true end.

Definition block_ok (b : block) : Prop := Forall (fun a => is_field a = true) (b_fields b).

Definition block_actions (b : block) : list action := b_fields b ++ [domain_info (b_name b)].

(** What one block says, on its own. *)
Definition field_of (tmp : xa_config_entry) (a : action) : xa_config_entry :=
  match a with
  | offset_assignment f num =>
      ConfigEntry (domain_name tmp) (c_sysmap tmp) (c_ostype tmp)
        (<[slot f := strtol0 num]> (offsets tmp))
  | sysmap_assignment s => ConfigEntry (domain_name tmp) (clip s) (c_ostype tmp) (offsets tmp)
  | ostype_assignment s => ConfigEntry (domain_name tmp) (c_sysmap tmp) (clip s) (offsets tmp)
  | domain_info s => tmp
  end.

Definition block_entry (b : block) : xa_config_entry :=
  let e := fold_left field_of (b_fields b) zero_entry in
  ConfigEntry (clip (b_name b)) (c_sysmap e) (c_ostype e) (offsets e).

Definition block_named (td : cstr) (b : block) : bool := bool_decide (clip (b_name b) = td).

(** The last block for a domain, or zeros. *)
Fixpoint last_named (td : cstr) (default_ : xa_config_entry) (bs : list block) : xa_config_entry :=
  match bs with
  | [] => default_
  | b :: bs' => last_named td (if block_named td b then block_entry b else default_) bs'
  end.

Lemma run_fields td fs : Forall (fun a => is_field a = true) fs -> forall entry tmp,
  fold_left (run_action td) fs (entry, tmp) = (entry, fold_left field_of fs tmp).
Proof.
  induction 1 as [|a fs Ha Hfs IH]; intros entry tmp; [done|].
  cbn [fold_left]. rewrite <- IH. by destruct a.
Qed.

Lemma length_clip s : (length (clip s) <= 1023)%nat.
Proof. unfold clip, CONFIG_STR_LENGTH. rewrite length_take. cbn [pred]. lia. Qed.

Lemma run_block td b : block_ok b -> (length td <= 1023)%nat -> forall entry,
  fold_left (run_action td) (block_actions b) (entry, zero_entry) =
  (if block_named td b then block_entry b else entry, zero_entry).
Proof.
  intros Hb Htd entry. unfold block_actions. rewrite fold_left_app, run_fields by done.
  cbn [fold_left run_action entry_done domain_name]. unfold block_named.
  pose proof (length_clip (b_name b)).
  pose proof (strncmp_long (clip (b_name b)) td CONFIG_STR_LENGTH) as Hs. unfold CONFIG_STR_LENGTH in *.
  destruct (Z.eqb_spec (strncmp (clip (b_name b)) td 1024) 0) as [E|E].
  - apply Hs in E; [|lia..]. by rewrite bool_decide_true.
  - rewrite bool_decide_false; [done|]. intros E'%Hs; [done|lia..].
Qed.

Lemma run_blocks td bs : Forall block_ok bs -> (length td <= 1023)%nat -> forall entry,
  fold_left (run_action td) (concat (block_actions <$> bs)) (entry, zero_entry) =
  (last_named td entry bs, zero_entry).
Proof.
  intros Hbs Htd. induction Hbs as [|b bs Hb Hbs IH]; intros entry; [done|].
  cbn [fmap list_fmap concat last_named]. rewrite fold_left_app, run_block by done. apply IH.
Qed.

(** Parsing a configuration file gives what its last block for the domain
    says, with every field of that block that is not set zero whatever the
    blocks before it set, and all zeros when no block has the name. *)
Theorem parse_config_correct `{ConfigParser} text td bs :
  yyparse text = (0, concat (block_actions <$> bs)) -> Forall block_ok bs ->
  (length td <= 1023)%nat ->
  xa_parse_config text td = (0, last_named td zero_entry bs).
Proof.
  intros Hy Hbs Htd. unfold xa_parse_config. rewrite Hy. by rewrite run_blocks.
Qed.

(** *** Witness *)

Definition sample_blocks : list block :=
  [Block (str "fedora")
     [sysmap_assignment (str "/boot/System.map"); ostype_assignment (str "Linux");
      offset_assignment linux_tasks (str "16"); offset_assignment linux_mm (str "0x14");
      offset_assignment linux_pid (str "24"); offset_assignment linux_pgd (str "014");
      offset_assignment linux_addr (str "128")];
   Block (str "winxp")
     [ostype_assignment (str "Windows"); offset_assignment win_tasks (str "0x88")]].

Definition sample_parser : ConfigParser := {|
  yyparse _ := (0, concat (block_actions <$> sample_blocks)) |}.

Lemma parse_config_correct_witness :
  @xa_parse_config sample_parser [] (str "fedora") =
  (0, ConfigEntry (str "fedora") (str "/boot/System.map") (str "Linux") [16; 20; 24; 12; 128; 0; 0]).
Proof.
  refine (eq_trans (@parse_config_correct sample_parser [] (str "fedora") sample_blocks _ _ _) _).
  - reflexivity.
  - repeat constructor.
  - simpl. lia.
  - vm_compute. reflexivity.
Defined.
