(* ===== verification/Grammar.v ===== *)
(** * The grammar of the configuration file

    The productions of config/grammar.y as inductive relations between the
    tokens they derive and the actions they run, and the parser that bison
    makes of them as a function, with the actions that were run before a
    syntax error.  Together with the scanner this is the instance of
    [ConfigParser] the library is built with. *)

From Stdlib Require Import String.
From S2P Require Import Prelude CStr Symbols Config Lexicon.

(** ** The productions *)

(** The rules [linux_tasks_assignment] to [win_ph_assignment] have the same
    form; the field their token stands for. *)
Definition offset_token (t : token) : option offset_field :=
  match t with
  | LINUX_TASKS => Some linux_tasks
  | LINUX_MM => Some linux_mm
  | LINUX_PID => Some linux_pid
  | LINUX_PGD => Some linux_pgd
  | LINUX_ADDR => Some linux_addr
  | WIN_NTOSKRNL => Some win_ntoskrnl
  | WIN_TASKS => Some win_tasks
  | WIN_PDBASE => Some win_pdbase
  | WIN_PID => Some win_pid
  | WIN_PEB => Some win_peb
  | WIN_IBA => Some win_iba
  | WIN_PH => Some win_ph
  | _ => None
  end.

Inductive assignment : list token -> list action -> Prop :=
| assignment_empty : assignment [] []
| assignment_sysmap s :
    assignment [SYSMAPTOK; EQUALS; QUOTE; FILENAME s; QUOTE] [sysmap_assignment s]
| assignment_ostype s :
    assignment [OSTYPETOK; EQUALS; QUOTE; WORD s; QUOTE] [ostype_assignment s]
| assignment_offset t f s :
    offset_token t = Some f -> assignment [t; EQUALS; NUM s] [offset_assignment f s].

Inductive assignments : list token -> list action -> Prop :=
| assignments_empty : assignments [] []
| assignments_snoc ts acts ts' acts' :
    assignments ts acts -> assignment ts' acts' ->
    assignments (ts ++ ts' ++ [SEMICOLON]) (acts ++ acts').

Inductive domain : list token -> list action -> Prop :=
| domain_info_ w ts acts :
    assignments ts acts ->
    domain (WORD w :: OBRACE :: ts ++ [EBRACE]) (acts ++ [domain_info w]).

Inductive domains : list token -> list action -> Prop :=
| domains_empty : domains [] []
| domains_snoc ts acts ts' acts' :
    domains ts acts -> domain ts' acts' -> domains (ts ++ ts') (acts ++ acts').

(** ** The parser *)

(** One assignment: its actions and what follows it, [None] for a syntax
    error.  An action is run as soon as the last token of its rule is read:
    bison makes that reduction by default, without looking ahead. *)
Definition parse_assignment (ts : list token) : list action * option (list token) :=
  match ts with
  | SYSMAPTOK :: EQUALS :: QUOTE :: FILENAME s :: QUOTE :: ts' => ([sysmap_assignment s], Some ts')
  | OSTYPETOK :: EQUALS :: QUOTE :: WORD s :: QUOTE :: ts' => ([ostype_assignment s], Some ts')
  | SEMICOLON :: _ => ([], Some ts)
  | t :: EQUALS :: NUM s :: ts' =>
      match offset_token t with
      | Some f => ([offset_assignment f s], Some ts')
      | None => ([], None)
      end
  | _ => ([], None)
  end.

(** [assignments EBRACE] *)
Fixpoint parse_assignments (fuel : nat) (ts : list token) : list action * option (list token) :=
  match fuel with
  | O => ([], None)
  | S n =>
      match ts with
      | EBRACE :: ts' => ([], Some ts')
      | _ =>
          let '(acts, r) := parse_assignment ts in
          match r with
          | Some (SEMICOLON :: ts') =>
              let '(acts', r') := parse_assignments n ts' in (acts ++ acts', r')
          | _ => (acts, None)
          end
      end
  end.

(** [domains], to the end of the input: what [yyparse] returns and the actions
    it runs. *)
Fixpoint parse_domains (fuel : nat) (ts : list token) : Z * list action :=
  match fuel with
  | O => (1, [])
  | S n =>
      match ts with
      | [] => (0, [])
      | WORD w :: OBRACE :: ts' =>
          let '(acts, r) := parse_assignments (S (length ts')) ts' in
          match r with
          | Some ts'' =>
              let '(ret, acts') := parse_domains n ts'' in (ret, acts ++ domain_info w :: acts')
          | None => (1, acts)
          end
      | _ => (1, [])
      end
  end.

Definition yyparse_tokens (ts : list token) : Z * list action := parse_domains (S (length ts)) ts.

(** The parser the library is built with. *)
#[export] Instance bison_parser : ConfigParser := {| yyparse text := yyparse_tokens (yylex text) |}.

(** ** The parser accepts the language of the grammar *)

Lemma assignments_cons ts acts ts' acts' :
  assignment ts acts -> assignments ts' acts' ->
  assignments (ts ++ SEMICOLON :: ts') (acts ++ acts').
Proof.
  intros Ha. induction 1 as [|us bs us' bs' Hs IH Ha'].
  - rewrite app_nil_r. apply (assignments_snoc [] [] ts acts); [constructor|done].
  - replace (ts ++ SEMICOLON :: us ++ us' ++ [SEMICOLON])
      with ((ts ++ SEMICOLON :: us) ++ us' ++ [SEMICOLON]) by by rewrite <- app_assoc.
    rewrite (app_assoc acts). by constructor.
Qed.

Lemma domains_cons ts acts ts' acts' :
  domain ts acts -> domains ts' acts' -> domains (ts ++ ts') (acts ++ acts').
Proof.
  intros Hd. induction 1 as [|us bs us' bs' Hs IH Hd'].
  - rewrite !app_nil_r. apply (domains_snoc [] [] ts acts); [constructor|done].
  - rewrite !app_assoc. by constructor.
Qed.

(** Left recursion turned into right recursion. *)
Lemma assignments_inv ts acts : assignments ts acts ->
  ts = [] /\ acts = [] \/
  exists ts1 acts1 ts2 acts2, ts = ts1 ++ SEMICOLON :: ts2 /\ acts = acts1 ++ acts2 /\
    assignment ts1 acts1 /\ assignments ts2 acts2.
Proof.
  induction 1 as [|us bs us' bs' Hs IH Ha]; [by left|]. right. destruct IH as [[-> ->]|IH].
  - exists us', bs', [], []. rewrite app_nil_r. split; [done|]. split; [done|]. split; [done|constructor].
  - destruct IH as (ts1 & acts1 & ts2 & acts2 & -> & -> & H1 & H2).
    exists ts1, acts1, (ts2 ++ us' ++ [SEMICOLON]), (acts2 ++ bs').
    split; [by rewrite <- app_assoc|]. split; [by rewrite app_assoc|]. split; [done|by constructor].
Qed.

Lemma domains_inv ts acts : domains ts acts ->
  ts = [] /\ acts = [] \/
  exists ts1 acts1 ts2 acts2, ts = ts1 ++ ts2 /\ acts = acts1 ++ acts2 /\
    domain ts1 acts1 /\ domains ts2 acts2.
Proof.
  induction 1 as [|us bs us' bs' Hs IH Ha]; [by left|]. right. destruct IH as [[-> ->]|IH].
  - exists us', bs', [], []. rewrite !app_nil_r. split; [done|]. split; [done|]. split; [done|constructor].
  - destruct IH as (ts1 & acts1 & ts2 & acts2 & -> & -> & H1 & H2).
    exists ts1, acts1, (ts2 ++ us'), (acts2 ++ bs').
    split; [by rewrite app_assoc|]. split; [by rewrite app_assoc|]. split; [done|by constructor].
Qed.

(** An assignment is read as one in front of a semicolon. *)
Lemma parse_assignment_complete ts acts rest :
  assignment ts acts -> parse_assignment (ts ++ SEMICOLON :: rest) = (acts, Some (SEMICOLON :: rest)).
Proof. intros H. inversion H as [| | |t f s Hf]; subst; try done. by destruct t; try done; injection Hf as <-. Qed.

Lemma parse_assignment_sound ts acts rest :
  parse_assignment ts = (acts, Some (SEMICOLON :: rest)) ->
  exists ts1, ts = ts1 ++ SEMICOLON :: rest /\ assignment ts1 acts.
Proof.
  intros H. assert (Hoff : forall t f s, ts = t :: EQUALS :: NUM s :: SEMICOLON :: rest ->
    offset_token t = Some f -> acts = [offset_assignment f s] ->
    exists ts1, ts = ts1 ++ SEMICOLON :: rest /\ assignment ts1 acts).
  { intros t f s -> Hf ->. exists [t; EQUALS; NUM s]. split; [done|by constructor]. }
  destruct ts as [|t ts]; [done|]. unfold parse_assignment in H.
  destruct t; repeat case_match; try discriminate H; simplify_eq/=;
    try (eapply Hoff; [reflexivity|done|reflexivity]).
  - eexists [_; _; _; _; _]. split; [reflexivity|constructor].
  - eexists [_; _; _; _; _]. split; [reflexivity|constructor].
  - exists []. split; [done|constructor].
Qed.

Lemma parse_assignments_complete n : forall ts acts rest,
  assignments ts acts -> (length ts < n)%nat ->
  parse_assignments n (ts ++ EBRACE :: rest) = (acts, Some rest).
Proof.
  induction n as [|n IH]; intros ts acts rest Hs Hn; [lia|].
  destruct (assignments_inv _ _ Hs) as [[-> ->]|(ts1 & acts1 & ts2 & acts2 & -> & -> & H1 & H2)]; [done|].
  pose proof (parse_assignment_complete ts1 acts1 (ts2 ++ EBRACE :: rest) H1) as Hp.
  rewrite length_app in Hn. simpl in Hn. rewrite <- app_assoc. cbn [app parse_assignments].
  assert (Hne : forall ts', ts1 ++ SEMICOLON :: ts2 ++ EBRACE :: rest <> EBRACE :: ts').
  { intros ts'. inversion H1; subst; try done. by destruct t. }
  destruct (ts1 ++ SEMICOLON :: ts2 ++ EBRACE :: rest) as [|t l]; [done|].
  destruct t; try (rewrite Hp, (IH ts2 acts2 rest) by (done || lia); done). by destruct (Hne l).
Qed.

Lemma parse_assignments_sound n : forall ts acts rest,
  parse_assignments n ts = (acts, Some rest) ->
  exists ts1, ts = ts1 ++ EBRACE :: rest /\ assignments ts1 acts.
Proof.
  induction n as [|n IH]; intros ts acts rest; cbn [parse_assignments]; [done|].
  assert (Hstep : (let '(acts, r) := parse_assignment ts in
      match r with
      | Some (SEMICOLON :: ts') => let '(acts', r') := parse_assignments n ts' in (acts ++ acts', r')
      | _ => (acts, None)
      end) = (acts, Some rest) -> exists ts1, ts = ts1 ++ EBRACE :: rest /\ assignments ts1 acts).
  { destruct (parse_assignment ts) as [acts1 [[|t ts']|]] eqn:Ea; try done. destruct t; try done.
    destruct (parse_assignments n ts') as [acts2 r] eqn:Es. intros [= <- ->].
    apply parse_assignment_sound in Ea as (ts1 & -> & H1).
    apply IH in Es as (ts2 & -> & H2). exists (ts1 ++ SEMICOLON :: ts2).
    split; [by rewrite <- app_assoc|by apply assignments_cons]. }
  destruct ts as [|t ts]; [apply Hstep|]. destruct t; try apply Hstep.
  intros [= <- <-]. exists []. split; [done|constructor].
Qed.

Lemma parse_domains_complete n : forall ts acts,
  domains ts acts -> (length ts < n)%nat -> parse_domains n ts = (0, acts).
Proof.
  induction n as [|n IH]; intros ts acts Hs Hn; [lia|].
  destruct (domains_inv _ _ Hs) as [[-> ->]|(ts1 & acts1 & ts2 & acts2 & -> & -> & H1 & H2)]; [done|].
  inversion H1 as [w us bs Hus E1 E2]; subst ts1 acts1.
  assert (length us + length ts2 < n)%nat.
  { revert Hn. rewrite length_app. simpl. rewrite length_app. simpl. lia. }
  cbn [app parse_domains]. rewrite <- !app_assoc. cbn [app].
  rewrite (parse_assignments_complete _ us bs ts2) by (done || rewrite length_app; lia).
  by rewrite (IH ts2 acts2) by (done || lia).
Qed.

Lemma parse_domains_sound n : forall ts acts, parse_domains n ts = (0, acts) -> domains ts acts.
Proof.
  induction n as [|n IH]; intros ts acts; cbn [parse_domains]; [done|].
  destruct ts as [|t ts]; [intros [= <-]; constructor|]. destruct t as [| | | | | | | | | | | | | | | |w| | | | | |];
    try done.
  destruct ts as [|t ts]; [done|]. destruct t; try done.
  destruct (parse_assignments (S (length ts)) ts) as [bs [ts'|]] eqn:Ea; [|done].
  destruct (parse_domains n ts') as [ret acts'] eqn:Ed. intros [= -> <-].
  apply parse_assignments_sound in Ea as (us & -> & Hus). apply IH in Ed.
  replace (WORD w :: OBRACE :: us ++ EBRACE :: ts')
    with ((WORD w :: OBRACE :: us ++ [EBRACE]) ++ ts') by by (cbn [app]; rewrite <- app_assoc).
  replace (bs ++ domain_info w :: acts') with ((bs ++ [domain_info w]) ++ acts') by by rewrite <- app_assoc.
  apply domains_cons; [by constructor|done].
Qed.

Lemma yyparse_iff ts acts : yyparse_tokens ts = (0, acts) <-> domains ts acts.
Proof.
  split; [apply parse_domains_sound|]. intros H. apply parse_domains_complete; [done|lia].
Qed.

(** ** What a configuration can hold *)

Definition string_ok (s : cstr) : Prop := Forall (fun c => file_char c = true) s.

Definition token_ok (t : token) : Prop :=
  match t with NUM s | WORD s | FILENAME s => string_ok s | _ => True end.

Definition action_ok (a : action) : Prop :=
  match a with
  | offset_assignment _ s | sysmap_assignment s | ostype_assignment s | domain_info s => string_ok s
  end.

Lemma lexicon_token_ok r a s t : (r, a) ∈ lexicon -> matches r s -> a s = Some t -> token_ok t.
Proof.
  assert (H : Forall (fun p : re * lex_action => (forall s t, p.2 s = Some t -> token_ok t) \/
    within file_char p.1 /\ forall s t, string_ok s -> p.2 s = Some t -> token_ok t) lexicon).
  { unfold lexicon, keyword. cbn [fst snd].
    do 14 (apply list.Forall_cons_2; [left; by intros ? ? [= <-]|]).
    change (str "0x") with [48; 120].
    do 3 (apply list.Forall_cons_2;
      [right; split; [cbn [within fst Plus lit]; repeat split; by_bits|by intros ? ? ? [= <-]]|]).
    do 5 (apply list.Forall_cons_2; [left; by intros ? ? [= <-]|]).
    do 3 (apply list.Forall_cons_2; [by left|]). constructor. }
  rewrite list.Forall_forall in H. intros Hin Hm. destruct (H _ Hin) as [Hok|[Hw Hok]]; [by apply Hok|].
  apply Hok. by apply (within_matches _ r).
Qed.

Lemma yylex_tokens_ok s : Forall token_ok (yylex s).
Proof.
  pose proof (proj1 (yylex_iff s _) eq_refl) as Ht.
  induction Ht as [|s n a ts Hc Ht IH|c s ts Hu Ht IH]; [constructor| |done].
  destruct (a (take n s)) as [t|] eqn:Ha; [|done]. constructor; [|done].
  destruct Hc as (i & r & Hi & _ & Hm & _). by apply (lexicon_token_ok r a (take n s)); [apply list_elem_of_lookup_2 in Hi| |].
Qed.

Ltac inv_Forall := repeat match goal with H : Forall _ (_ :: _) |- _ => inversion H; subst; clear H end.

Lemma parse_assignment_ok ts : Forall token_ok ts ->
  Forall action_ok (parse_assignment ts).1 /\
  forall ts', (parse_assignment ts).2 = Some ts' -> Forall token_ok ts'.
Proof.
  intros Hts. unfold parse_assignment. repeat case_match; subst; cbn [fst snd];
    (split; [|intros ts' [= <-]]); try done; inv_Forall; by repeat constructor.
Qed.

Lemma parse_assignments_ok n : forall ts, Forall token_ok ts ->
  Forall action_ok (parse_assignments n ts).1 /\
  forall ts', (parse_assignments n ts).2 = Some ts' -> Forall token_ok ts'.
Proof.
  induction n as [|n IH]; intros ts Hts; cbn [parse_assignments]; [by split; [constructor|]|].
  pose proof (parse_assignment_ok ts Hts) as Hp.
  assert (Hstep : forall p, p = (let '(acts, r) := parse_assignment ts in
      match r with
      | Some (SEMICOLON :: ts') => let '(acts', r') := parse_assignments n ts' in (acts ++ acts', r')
      | _ => (acts, None)
      end) -> Forall action_ok p.1 /\ forall ts', p.2 = Some ts' -> Forall token_ok ts').
  { intros p ->. destruct (parse_assignment ts) as [acts [[|t ts']|]]; cbn [fst snd] in *;
      [by destruct Hp..| |by destruct Hp].
    destruct Hp as [Ha Hr]. specialize (Hr _ eq_refl). inversion Hr; subst.
    destruct t; try by split. destruct (IH ts') as [Ha' Hr']; [done|].
    destruct (parse_assignments n ts') as [acts' r']. cbn [fst snd] in *. split; [by apply Forall_app|done]. }
  destruct ts as [|t ts]; [by apply Hstep|]. destruct t; try (by apply Hstep).
  split; [constructor|]. intros ts' [= <-]. by inversion Hts.
Qed.

Lemma parse_domains_ok n : forall ts, Forall token_ok ts -> Forall action_ok (parse_domains n ts).2.
Proof.
  induction n as [|n IH]; intros ts Hts; cbn [parse_domains]; [constructor|].
  destruct ts as [|t ts]; [constructor|]. destruct t; try constructor.
  destruct ts as [|t ts]; [constructor|]. destruct t; try constructor. inv_Forall.
  destruct (parse_assignments_ok (S (length ts)) ts) as [Ha Hr]; [done|].
  destruct (parse_assignments (S (length ts)) ts) as [acts [ts'|]]; cbn [fst snd] in *; [|done].
  specialize (IH ts' (Hr _ eq_refl)). destruct (parse_domains n ts') as [ret acts']. cbn [snd] in *.
  apply Forall_app. split; [done|]. by constructor.
Qed.

(** The C types of an entry: strings that fit their arrays, seven ints. *)
Definition entry_typed (e : xa_config_entry) : Prop :=
  Forall (fun s => string_ok s /\ (length s < CONFIG_STR_LENGTH)%nat)
    [domain_name e; c_sysmap e; c_ostype e] /\
  length (offsets e) = 7%nat /\ Forall (fun z => -2147483648 <= z < 2147483648) (offsets e).

Lemma zero_entry_typed : entry_typed zero_entry.
Proof.
  split; [|split; [done|by repeat constructor]].
  repeat constructor; unfold CONFIG_STR_LENGTH; simpl; lia.
Qed.

Lemma strtol0_range s : -2147483648 <= strtol0 s < 2147483648.
Proof. unfold strtol0. repeat case_match; lia. Qed.

Lemma clip_ok s : string_ok s -> string_ok (clip s) /\ (length (clip s) < CONFIG_STR_LENGTH)%nat.
Proof.
  intros Hs. split; [by apply Forall_take|]. pose proof (length_clip s). unfold CONFIG_STR_LENGTH. lia.
Qed.

Lemma run_action_typed td st a : action_ok a -> entry_typed st.1 -> entry_typed st.2 ->
  entry_typed (run_action td st a).1 /\ entry_typed (run_action td st a).2.
Proof.
  intros Ha He (Hs & Hl & Ho). destruct st as [entry tmp]. cbn [fst snd] in *.
  inversion Hs as [|? ? Hs1 Hs2]; subst. inversion Hs2 as [|? ? Hs3 Hs4]; subst. inversion Hs4; subst.
  destruct a as [f s|s|s|s]; cbn [run_action entry_done fst snd action_ok] in *.
  - split; [done|]. split; [done|]. cbn [offsets]. rewrite length_insert. split; [done|].
    apply Forall_insert; [done|apply strtol0_range].
  - split; [done|]. split; [|done]. pose proof (clip_ok s Ha). repeat (apply list.Forall_cons_2; [done|]). constructor.
  - split; [done|]. split; [|done]. pose proof (clip_ok s Ha). repeat (apply list.Forall_cons_2; [done|]). constructor.
  - split; [|apply zero_entry_typed]. destruct (_ =? 0); [|done].
    split; [|done]. pose proof (clip_ok s Ha). repeat (apply list.Forall_cons_2; [done|]). constructor.
Qed.

(** ** Properties *)

(** C24: the parser accepts exactly the token sequences the grammar derives and
    runs exactly the actions of the derivation, in order; so the grammar is
    unambiguous in what it does. *)
Theorem yyparse_correct (ts : list token) (acts : list action) :
  yyparse_tokens ts = (0, acts) <-> domains ts acts.
Proof. apply yyparse_iff. Qed.

(** C25: whatever bytes the configuration file holds, the entry that parsing it
    leaves is well typed: three NUL-terminated strings of file name characters
    that fit their arrays of 1024, and seven 32-bit ints. *)
Theorem parse_config_typed (text : list Z) (td : cstr) : entry_typed (xa_parse_config text td).2.
Proof.
  unfold xa_parse_config. change (yyparse text) with (yyparse_tokens (yylex text)).
  pose proof (parse_domains_ok (S (length (yylex text))) _ (yylex_tokens_ok text)) as Ha.
  unfold yyparse_tokens. destruct (parse_domains _ _) as [ret acts]. cbn [snd] in *.
  assert (H : forall st, entry_typed st.1 -> entry_typed st.2 ->
    entry_typed (fold_left (run_action td) acts st).1).
  { induction Ha as [|a acts Hact Hacts IH]; intros st H1 H2; [done|]. cbn [fold_left].
    destruct (run_action_typed td st a Hact H1 H2). by apply IH. }
  apply H; apply zero_entry_typed.
Qed.
