(* ===== verification/ConfigText.v ===== *)
(** * Configuration files as they are written

    The text of a configuration file as blocks of assignments and comments,
    and the proof that scanning and parsing it runs its assignments.  The
    kernel module tools/linux-offset-finder/findoffsets.c prints such a block;
    what it prints is modelled here and read back. *)

From Stdlib Require Import String.
From S2P Require Import Prelude CStr Symbols Config Lexicon Grammar.

(** ** Text *)

(** The keyword of a field: its rule in lexicon.l and its token. *)
Definition field_rule (f : offset_field) : nat * string * token :=
  match f with
  | linux_tasks => (0%nat, "linux_tasks"%string, LINUX_TASKS)
  | linux_mm => (1%nat, "linux_mm"%string, LINUX_MM)
  | linux_pid => (2%nat, "linux_pid"%string, LINUX_PID)
  | linux_pgd => (3%nat, "linux_pgd"%string, LINUX_PGD)
  | linux_addr => (4%nat, "linux_addr"%string, LINUX_ADDR)
  | win_ntoskrnl => (5%nat, "ntoskrnl"%string, WIN_NTOSKRNL)
  | win_tasks => (6%nat, "win_tasks"%string, WIN_TASKS)
  | win_pdbase => (7%nat, "win_pdbase"%string, WIN_PDBASE)
  | win_pid => (8%nat, "win_pid"%string, WIN_PID)
  | win_peb => (9%nat, "win_peb"%string, WIN_PEB)
  | win_iba => (10%nat, "win_iba"%string, WIN_IBA)
  | win_ph => (11%nat, "win_ph"%string, WIN_PH)
  end.

Definition field_name (f : offset_field) : cstr := str (field_rule f).1.2.
Definition field_token (f : offset_field) : token := (field_rule f).2.

(** A line of a block: an assignment or a comment. *)
Inductive line := Assign (a : action) | Comment (s : cstr).

Record text_block := TextBlock { t_name : cstr; t_lines : list line }.

Definition print_assign (a : action) : cstr :=
  match a with
  | offset_assignment f s => field_name f ++ str " = " ++ s
  | sysmap_assignment s => str "sysmap = " ++ [34] ++ s ++ [34]
  | ostype_assignment s => str "ostype = " ++ [34] ++ s ++ [34]
  | domain_info _ => []
  end.

Definition print_line (l : line) : cstr :=
  match l with
  | Assign a => str "    " ++ print_assign a ++ [59; 10]
  | Comment s => [35] ++ s ++ [10]
  end.

Definition print_text_block (b : text_block) : cstr :=
  t_name b ++ str " {" ++ [10] ++ concat (print_line <$> t_lines b) ++ [125; 10].

Definition print_config (bs : list text_block) : cstr := concat (print_text_block <$> bs).

(** What the scanner can tell apart: numbers in decimal or hex, an absolute
    path, words. *)
Definition path_ok (s : cstr) : Prop :=
  exists s', s = 47 :: s' /\ Forall (fun c => file_char c = true) s'.

Definition assign_ok (a : action) : Prop :=
  match a with
  | offset_assignment _ s => num_ok s
  | sysmap_assignment s => path_ok s
  | ostype_assignment s => word_ok s
  | domain_info _ => False
  end.

Definition line_ok (l : line) : Prop :=
  match l with Assign a => assign_ok a | Comment s => Forall (fun c => c <> 10) s end.

Definition text_ok (b : text_block) : Prop := word_ok (t_name b) /\ Forall line_ok (t_lines b).

(** The assignments of the lines. *)
Definition line_actions (l : line) : list action :=
  match l with Assign a => [a] | Comment _ => [] end.

Definition text_to_block (b : text_block) : block :=
  Block (t_name b) (concat (line_actions <$> t_lines b)).

(** ** Scanning the text *)

(** Side conditions: the next byte is known. *)
Ltac stop := first [done | exact eq_refl].

Definition assign_tokens (a : action) : list token :=
  match a with
  | offset_assignment f s => [field_token f; EQUALS; NUM s]
  | sysmap_assignment s => [SYSMAPTOK; EQUALS; QUOTE; FILENAME s; QUOTE]
  | ostype_assignment s => [OSTYPETOK; EQUALS; QUOTE; WORD s; QUOTE]
  | domain_info _ => []
  end.

Definition line_tokens (l : line) : list token :=
  match l with Assign a => assign_tokens a ++ [SEMICOLON] | Comment _ => [] end.

Definition block_tokens (b : text_block) : list token :=
  WORD (t_name b) :: OBRACE :: concat (line_tokens <$> t_lines b) ++ [EBRACE].

Lemma yylex_field f rest :
  stops lexeme_char rest -> yylex (field_name f ++ rest) = field_token f :: yylex rest.
Proof.
  intros Hs. unfold field_name, field_token.
  apply (yylex_keyword (field_rule f).1.1); try (by destruct f); try done;
    destruct f; vm_compute; reflexivity.
Qed.

Lemma yylex_spaces n s : yylex (replicate n 32 ++ s) = yylex s.
Proof. induction n as [|n IH]; [done|]. cbn [replicate app]. by rewrite yylex_blank. Qed.

(** [" = "] *)
Lemma yylex_assign_op s : yylex (str " = " ++ s) = EQUALS :: yylex s.
Proof.
  change (str " = " ++ s) with (32 :: 61 :: 32 :: s).
  by rewrite yylex_blank, yylex_equals, yylex_blank.
Qed.

Lemma yylex_assign a rest : assign_ok a -> stops lexeme_char rest ->
  yylex (print_assign a ++ rest) = assign_tokens a ++ yylex rest.
Proof.
  intros Ha Hs. destruct a as [f s|s|s|s]; cbn [assign_ok print_assign assign_tokens app] in *; [..|done].
  - rewrite <- !app_assoc, yylex_field, yylex_assign_op, yylex_num by stop. reflexivity.
  - destruct Ha as (s' & -> & Hf).
    change (str "sysmap = ") with (str "sysmap" ++ str " = "). rewrite <- !app_assoc.
    rewrite (yylex_keyword 12 "sysmap" SYSMAPTOK) by (done || vm_compute; reflexivity).
    rewrite yylex_assign_op. cbn [app]. rewrite <- app_assoc, yylex_quote, yylex_filename by stop.
    cbn [app]. by rewrite yylex_quote.
  - change (str "ostype = ") with (str "ostype" ++ str " = "). rewrite <- !app_assoc.
    rewrite (yylex_keyword 13 "ostype" OSTYPETOK) by (done || vm_compute; reflexivity).
    rewrite yylex_assign_op. cbn [app]. rewrite yylex_quote, <- app_assoc, yylex_word by stop.
    cbn [app]. by rewrite yylex_quote.
Qed.

Lemma yylex_line l rest : line_ok l -> yylex (print_line l ++ rest) = line_tokens l ++ yylex rest.
Proof.
  intros Hl. destruct l as [a|s]; cbn [line_ok print_line line_tokens] in *.
  - change (str "    ") with (replicate 4 32). rewrite <- !app_assoc, yylex_spaces.
    rewrite yylex_assign by stop. cbn [app]. by rewrite yylex_semicolon, yylex_eol.
  - rewrite <- !app_assoc. cbn [app]. by rewrite yylex_comment.
Qed.

Lemma yylex_lines ls rest : Forall line_ok ls ->
  yylex (concat (print_line <$> ls) ++ rest) = concat (line_tokens <$> ls) ++ yylex rest.
Proof.
  induction 1 as [|l ls Hl Hls IH]; [done|]. cbn [fmap list_fmap concat].
  rewrite <- !app_assoc, yylex_line by stop. by rewrite IH.
Qed.

Lemma yylex_block b rest : text_ok b -> yylex (print_text_block b ++ rest) = block_tokens b ++ yylex rest.
Proof.
  intros [Hn Hl]. unfold print_text_block, block_tokens. change (str " {") with [32; 123].
  rewrite <- !app_assoc. rewrite yylex_word by stop. cbn [app].
  rewrite yylex_blank, yylex_obrace, yylex_eol by stop.
  rewrite yylex_lines by stop. cbn [app]. rewrite yylex_ebrace, yylex_eol.
  by rewrite <- app_assoc.
Qed.

Lemma yylex_config bs : Forall text_ok bs -> yylex (print_config bs) = concat (block_tokens <$> bs).
Proof.
  intros Hbs. unfold print_config. induction Hbs as [|b bs Hb Hbs IH]; [done|].
  cbn [fmap list_fmap concat]. by rewrite yylex_block, IH.
Qed.

(** ** Parsing it *)

Lemma assign_derives a : assign_ok a -> assignment (assign_tokens a) [a].
Proof. destruct a as [f s|s|s|s]; try done; try constructor. by destruct f. Qed.

Lemma lines_derive ls : Forall line_ok ls ->
  assignments (concat (line_tokens <$> ls)) (concat (line_actions <$> ls)).
Proof.
  induction 1 as [|l ls Hl Hls IH]; [constructor|]. cbn [fmap list_fmap concat].
  destruct l as [a|s]; [|exact IH]. cbn [line_tokens line_actions]. rewrite <- app_assoc.
  apply assignments_cons; [by apply assign_derives|done].
Qed.

Lemma config_derives bs : Forall text_ok bs ->
  domains (concat (block_tokens <$> bs)) (concat (block_actions <$> (text_to_block <$> bs))).
Proof.
  induction 1 as [|b bs [Hn Hl] Hbs IH]; [constructor|]. cbn [fmap list_fmap concat].
  apply domains_cons; [|done]. unfold block_actions, block_tokens. cbn [text_to_block b_fields b_name].
  constructor. by apply lines_derive.
Qed.

Lemma yyparse_config bs : Forall text_ok bs ->
  yyparse (print_config bs) = (0, concat (block_actions <$> (text_to_block <$> bs))).
Proof. intros Hbs. change (yyparse ?t) with (yyparse_tokens (yylex t)). rewrite yylex_config by done.
  by apply yyparse_iff, config_derives. Qed.

Lemma text_block_ok b : text_ok b -> block_ok (text_to_block b).
Proof.
  intros [_ Hl]. unfold block_ok. cbn [text_to_block b_fields].
  induction Hl as [|l ls Hl Hls IH]; [constructor|]. cbn [fmap list_fmap concat].
  apply Forall_app. split; [|done]. destruct l as [a|s]; [|constructor].
  constructor; [by destruct a|constructor].
Qed.

Lemma parse_config_text bs td : Forall text_ok bs -> (length td <= 1023)%nat ->
  xa_parse_config (print_config bs) td = (0, last_named td zero_entry (text_to_block <$> bs)).
Proof.
  intros Hbs Htd. unfold xa_parse_config. rewrite yyparse_config by done.
  rewrite run_blocks; [done| |done]. apply Forall_fmap. eapply list.Forall_impl; [exact Hbs|].
  intros b. apply text_block_ok.
Qed.

(** ** The offset finder *)

(** Where the kernel keeps the fields of the current process. *)
Record task_struct := TaskStruct {
  p_addr : Z; comm_addr : Z; tasks_addr : Z; mm_addr : Z; pid_addr : Z;
  mm : Z; pgd_addr : Z; start_code_addr : Z }.

(** Differences of pointers in [unsigned long]. *)
Definition commOffset (p : task_struct) : Z := u32 (comm_addr p - p_addr p).
Definition tasksOffset (p : task_struct) : Z := u32 (tasks_addr p - p_addr p).
Definition mmOffset (p : task_struct) : Z := u32 (mm_addr p - p_addr p).
Definition pidOffset (p : task_struct) : Z := u32 (pid_addr p - p_addr p).
Definition pgdOffset (p : task_struct) : Z := u32 (pgd_addr p - mm p).
Definition addrOffset (p : task_struct) : Z := u32 (start_code_addr p - mm p).

(** [%x] *)
Fixpoint hex_of (fuel : nat) (n : Z) : cstr :=
  match fuel with
  | O => []
  | S k => (if n <? 16 then [] else hex_of k (n / 16)) ++ [hex_char (n mod 16)]
  end.

Definition print_x (n : Z) : cstr := hex_of 8 n.

Definition MYMODNAME : cstr := str "FindOffsets ".

(** The lines from the name of the domain on, with the two places that are to
    be filled in. *)
Definition offset_lines (name path : cstr) (p : task_struct) : list cstr := [
  name ++ str " {" ++ [10];
  str "    ostype = " ++ [34] ++ str "Linux" ++ [34; 59; 10];
  str "    sysmap = " ++ [34] ++ path ++ [34; 59; 10];
  str "#    linux_name = 0x" ++ print_x (commOffset p) ++ [59; 10];
  str "    linux_tasks = 0x" ++ print_x (tasksOffset p) ++ [59; 10];
  str "    linux_mm = 0x" ++ print_x (mmOffset p) ++ [59; 10];
  str "    linux_pid = 0x" ++ print_x (pidOffset p) ++ [59; 10];
  str "    linux_pgd = 0x" ++ print_x (pgdOffset p) ++ [59; 10];
  str "    linux_addr = 0x" ++ print_x (addrOffset p) ++ [59; 10];
  str "}" ++ [10]
].

(** What [my_init_module] prints, call by call, for [p = current]. *)
Definition my_init_module (current : option task_struct) : list cstr :=
  (str "Module " ++ MYMODNAME ++ str " loaded." ++ [10; 10]) ::
  match current with
  | Some p => offset_lines (str "[domain name]") (str "[insert path here]") p
  | None => [MYMODNAME ++ str ": found no process to populate task_struct." ++ [10]]
  end.

(** *** Hex numbers *)

Lemma hex_char_is_hex d : 0 <= d < 16 -> is_hex (hex_char d) = true.
Proof.
  intros Hd. unfold is_hex, is_digit, hex_char. destruct (Z.ltb_spec d 10).
  - by rewrite (proj2 (Z.leb_le 48 _)), (proj2 (Z.leb_le _ 57)) by lia.
  - rewrite (proj2 (Z.leb_le 97 _)), (proj2 (Z.leb_le _ 102)) by lia. by rewrite orb_true_r.
Qed.

Lemma hex_of_chars k n : 0 <= n -> Forall (fun c => exists d, 0 <= d < 16 /\ c = hex_char d) (hex_of k n).
Proof.
  revert n. induction k as [|k IH]; intros n Hn; cbn [hex_of]; [constructor|].
  apply Forall_app. split.
  - destruct (n <? 16); [constructor|]. apply IH, Z.div_pos; lia.
  - constructor; [|constructor]. exists (n mod 16). split; [|done]. apply Z.mod_pos_bound. lia.
Qed.

Lemma hex_of_nonempty k n : hex_of (S k) n <> [].
Proof. cbn [hex_of]. by intros [_ ?]%app_eq_nil. Qed.

Lemma digits_hex k n : 0 <= n < 16 ^ Z.of_nat k -> digits 16 0 (hex_of k n) = n.
Proof.
  revert n. induction k as [|k IH]; intros n Hn; cbn [hex_of]; [simpl in *; lia|].
  rewrite Nat2Z.inj_succ, Z.pow_succ_r in Hn by lia.
  pose proof (Z.mod_pos_bound n 16 ltac:(lia)) as Hm. pose proof (Z.div_mod n 16 ltac:(lia)) as Hd.
  assert (Hlast : forall acc, digits 16 acc [hex_char (n mod 16)] = 16 * acc + n mod 16).
  { intros acc. cbn [digits]. rewrite hex_value_char by done. rewrite (proj2 (Z.ltb_lt _ _)) by lia. done. }
  rewrite digits_app, Hlast.
  2:{ destruct (n <? 16); [constructor|]. eapply list.Forall_impl; [apply hex_of_chars, Z.div_pos; lia|].
      cbn beta. intros c (d & Hd' & ->). exists d. split; [by apply hex_value_char|lia]. }
  destruct (Z.ltb_spec n 16).
  - cbn [digits]. rewrite Z.mod_small by lia. lia.
  - rewrite IH by (split; [apply Z.div_pos; lia|apply Z.div_lt_upper_bound; lia]). lia.
Qed.

Lemma num_ok_hex n : 0 <= n -> num_ok (48 :: 120 :: print_x n).
Proof.
  intros Hn. left. exists (print_x n). split; [done|]. split; [apply hex_of_nonempty|].
  eapply list.Forall_impl; [by apply hex_of_chars|]. cbn beta. intros c (d & Hd & ->).
  by apply hex_char_is_hex.
Qed.

Lemma strtol0_hex n : is_u32 n -> strtol0 (48 :: 120 :: print_x n) = Z.min 2147483647 n.
Proof.
  intros Hn. unfold print_x. pose proof (hex_of_nonempty 7 n) as Hne.
  pose proof (hex_of_chars 8 n ltac:(lia)) as Hc. pose proof (digits_hex 8 n ltac:(simpl; lia)) as Hd.
  destruct Hc as [|c s (d & Hdr & ->) Hs]; [done|].
  assert (E0 : skip_0x (48 :: 120 :: hex_char d :: s) = hex_char d :: s).
  { cbn [skip_0x]. by rewrite hex_value_char. }
  unfold strtol0. change (skip_space (48 :: 120 :: hex_char d :: s)) with (48 :: 120 :: hex_char d :: s).
  cbn beta iota. rewrite E0, bool_decide_false by (intros E; apply (f_equal length) in E; simpl in E; lia).
  cbn [negb]. rewrite Hd. lia.
Qed.

(** The lines are those of a block. *)
Definition offsets_block (name path : cstr) (p : task_struct) : text_block :=
  let off f n := Assign (offset_assignment f (48 :: 120 :: print_x n)) in
  TextBlock name [
    Assign (ostype_assignment (str "Linux")); Assign (sysmap_assignment path);
    Comment (str "    linux_name = 0x" ++ print_x (commOffset p) ++ [59]);
    off linux_tasks (tasksOffset p); off linux_mm (mmOffset p); off linux_pid (pidOffset p);
    off linux_pgd (pgdOffset p); off linux_addr (addrOffset p)].

Lemma offset_lines_text name path p :
  concat (offset_lines name path p) = print_text_block (offsets_block name path p).
Proof.
  unfold offset_lines, print_text_block, offsets_block. cbn [t_name t_lines concat fmap list_fmap].
  cbn [print_line print_assign field_name field_rule fst snd]. rewrite <- !app_assoc. reflexivity.
Qed.

Lemma linux_word : word_ok (str "Linux").
Proof.
  split.
  - exists 76, (str "inux"). split; [done|]. split; [done|]. split; [done|]. repeat constructor.
  - by apply (bool_decide_eq_true (str "Linux" ∉ [str "ntoskrnl"; str "sysmap"; str "ostype"])).
Qed.

Lemma offsets_text_ok name path p : word_ok name -> path_ok path -> text_ok (offsets_block name path p).
Proof.
  intros Hn Hp. split; [done|]. cbn [offsets_block t_lines].
  apply list.Forall_cons_2; [exact linux_word|]. apply list.Forall_cons_2; [exact Hp|].
  apply list.Forall_cons_2.
  - apply Forall_app. split; [by repeat constructor|]. apply Forall_app.
    split; [|by repeat constructor]. eapply list.Forall_impl; [by apply hex_of_chars, u32_range|].
    cbn beta. intros c (d & Hd & ->). unfold hex_char. destruct (Z.ltb_spec d 10); lia.
  - repeat (apply list.Forall_cons_2; [apply num_ok_hex, u32_range|]). constructor.
Qed.

Definition small_offsets (p : task_struct) : Prop :=
  tasksOffset p < 2147483648 /\ mmOffset p < 2147483648 /\ pidOffset p < 2147483648 /\
  pgdOffset p < 2147483648 /\ addrOffset p < 2147483648.

(** ** Properties *)

(** A configuration file of blocks of assignments and comments is parsed
    without an error, and what is found for a domain is what its last block
    says: scanning and parsing undo writing. *)
Theorem config_roundtrip (bs : list text_block) (td : cstr) :
  Forall text_ok bs -> (length td <= 1023)%nat ->
  xa_parse_config (print_config bs) td = (0, last_named td zero_entry (text_to_block <$> bs)).
Proof. apply parse_config_text. Qed.

(** C22: what the offset finder prints, with the name of the domain and the path
    of the map filled in, is parsed back to exactly the offsets it computed. *)
Theorem findoffsets_roundtrip (name path : cstr) (p : task_struct) :
  word_ok name -> path_ok path -> (length name <= 1023)%nat -> (length path <= 1023)%nat ->
  small_offsets p ->
  xa_parse_config (concat (offset_lines name path p)) name =
  (0, ConfigEntry name path (str "Linux")
        [tasksOffset p; mmOffset p; pidOffset p; pgdOffset p; addrOffset p; 0; 0]).
Proof.
  intros Hn Hp Hnl Hpl (H1 & H2 & H3 & H4 & H5). rewrite offset_lines_text.
  pose proof (parse_config_text [offsets_block name path p] name) as H.
  unfold print_config in H. cbn [fmap list_fmap concat] in H. rewrite app_nil_r in H.
  rewrite H; [|constructor; [by apply offsets_text_ok|constructor]|done].
  assert (Hclip : forall s, (length s <= 1023)%nat -> clip s = s).
  { intros s Hs. unfold clip, CONFIG_STR_LENGTH. by apply take_ge. }
  cbn [last_named]. unfold block_named. cbn [text_to_block offsets_block b_name t_name].
  rewrite Hclip by done. rewrite bool_decide_true by done. f_equal.
  unfold block_entry. cbn [text_to_block b_fields b_name t_name t_lines offsets_block line_actions
    fmap list_fmap concat app fold_left field_of domain_name c_sysmap c_ostype offsets zero_entry].
  rewrite !strtol0_hex by apply u32_range. rewrite !Z.min_r by lia.
  rewrite !Hclip by (done || simpl; lia). reflexivity.
Qed.

(** A block that names its System.map by a relative path that looks like a
    word, such as [System.map-2.6.18], is a syntax error: nothing is read from
    the file. *)
Theorem relative_sysmap_rejected (name file rest td : cstr) :
  word_ok name -> word_ok file ->
  xa_parse_config (name ++ str " {" ++ [10] ++ str "    sysmap = " ++ [34] ++ file ++ [34] ++ rest) td =
  (1, zero_entry).
Proof.
  intros Hn Hf.
  assert (Hlex : yylex (name ++ str " {" ++ [10] ++ str "    sysmap = " ++ [34] ++ file ++ [34] ++ rest) =
    WORD name :: OBRACE :: SYSMAPTOK :: EQUALS :: QUOTE :: WORD file :: QUOTE :: yylex rest).
  { change (str " {") with [32; 123]. rewrite yylex_word by stop. cbn [app].
    rewrite yylex_blank, yylex_obrace, yylex_eol by done.
    change (str "    sysmap = ") with (replicate 4 32 ++ str "sysmap" ++ str " = ").
    rewrite <- !app_assoc, yylex_spaces.
    rewrite (yylex_keyword 12 "sysmap" SYSMAPTOK) by (done || vm_compute; reflexivity).
    rewrite yylex_assign_op. cbn [app]. rewrite yylex_quote, yylex_word by stop.
    cbn [app]. by rewrite yylex_quote. }
  unfold xa_parse_config. change (yyparse ?t) with (yyparse_tokens (yylex t)). by rewrite Hlex.
Qed.

(** *** Witnesses *)

Definition sample_text : list text_block := [
  TextBlock (str "winxp") [Assign (ostype_assignment (str "Windows"));
    Assign (offset_assignment win_tasks (str "0x88"))];
  TextBlock (str "fedora") [Comment (str " the offsets of a kernel");
    Assign (sysmap_assignment (str "/boot/System.map-2.6")); Assign (offset_assignment linux_mm (str "010"))]].

Lemma word_ok_intro c s : is_alpha c = true -> s <> [] -> forallb word_char s = true ->
  bool_decide (c :: s ∉ [str "ntoskrnl"; str "sysmap"; str "ostype"]) = true -> word_ok (c :: s).
Proof.
  intros Hc Hne Hs Hk%bool_decide_eq_true. split; [|done]. exists c, s. split; [done|]. split; [done|].
  split; [done|]. rewrite forallb_forall in Hs. apply list.Forall_forall. intros d Hd.
  by apply Hs, list_elem_of_In.
Qed.

Ltac word_tac := apply word_ok_intro; [reflexivity|done|reflexivity|reflexivity].

Lemma sample_text_ok : Forall text_ok sample_text.
Proof.
  apply list.Forall_cons_2; [|apply list.Forall_cons_2; [|constructor]]; (split; [word_tac|]).
  - apply list.Forall_cons_2; [word_tac|]. apply list.Forall_cons_2; [|constructor].
    left. exists (str "88"). split; [done|]. split; [done|]. by repeat constructor.
  - apply list.Forall_cons_2; [by repeat constructor|]. apply list.Forall_cons_2.
    + exists (str "boot/System.map-2.6"). split; [done|]. by repeat constructor.
    + apply list.Forall_cons_2; [|constructor]. right. split; [done|]. by repeat constructor.
Qed.

Lemma config_roundtrip_witness :
  xa_parse_config (print_config sample_text) (str "fedora") =
  (0, ConfigEntry (str "fedora") (str "/boot/System.map-2.6") [] [0; 8; 0; 0; 0; 0; 0]).
Proof.
  refine (eq_trans (config_roundtrip sample_text (str "fedora") sample_text_ok _) _).
  - simpl. lia.
  - vm_compute. reflexivity.
Defined.

Definition sample_task : task_struct :=
  TaskStruct 0xc1000000 0xc1000194 0xc1000060 0xc1000080 0xc10000a4 0xc2000000 0xc2000024 0xc2000080.

Lemma findoffsets_roundtrip_witness :
  xa_parse_config (concat (offset_lines (str "fc5") (str "/boot/System.map") sample_task)) (str "fc5") =
  (0, ConfigEntry (str "fc5") (str "/boot/System.map") (str "Linux") [0x60; 0x80; 0xa4; 0x24; 0x80; 0; 0]).
Proof.
  apply (findoffsets_roundtrip (str "fc5") (str "/boot/System.map") sample_task).
  - word_tac.
  - exists (str "boot/System.map"). split; [done|]. by repeat constructor.
  - simpl. lia.
  - simpl. lia.
  - vm_compute. repeat split.
Defined.

Lemma relative_sysmap_rejected_witness :
  xa_parse_config (str "fc5 {" ++ [10] ++ str "    sysmap = " ++ [34] ++ str "System.map-2.6.18" ++ [34] ++
    str "; }") (str "fc5") = (1, zero_entry).
Proof.
  refine (relative_sysmap_rejected (str "fc5") (str "System.map-2.6.18") (str "; }") (str "fc5") _ _);
    word_tac.
Defined.
