(* ===== verification/XaCore.v ===== *)
(** * Opening and closing an instance

    Models xa_core.c, xa_error.c, linux_core.c and windows_core.c: the
    configuration is read, the paging mode and the size of the memory are
    found out, the operating system's kernel page directory and process list
    are located; closing frees the caches.

    Both kinds of instance are modelled with Xen support compiled in. *)

From Stdlib Require Import String.
From S2P Require Import Prelude CStr Dll XaTypes XaMap XaPhys Guest PageTable XaCache XaAccess Symbols.
From S2P Require Import XaStore ProcList Linux SymAccess WindowsPe Windows XaApi Config.

(** - [xc_interface_open]: a handle, or -1 ([None]);
    - [xc_domain_getinfo dom]: the shared info frame of the one domain it
      describes, [None] when its answer is not 1;
    - [xc_version], [xc_extraversion]: XENVER_version and XENVER_extraversion;
    - [open_image name]: whether [fopen(name, "rb")] succeeds;
    - [image_stat]: [st_size] of the image, [None] when [fstat] fails. *)
Class HostEnv := {
  xc_interface_open : option Z;
  xc_interface_close : Z -> Z;
  xc_domain_getinfo : Z -> option Z;
  xc_version : Z;
  xc_extraversion : cstr;
  open_image : cstr -> bool;
  image_stat : option Z }.

(** What the code returns when an operation fails. *)
Definition report_error (mode_ error_type : Z) : Z :=
  if mode_ =? XA_FAILHARD then XA_FAILURE
  else if mode_ =? XA_FAILSOFT then
    if error_type =? XA_ECRITICAL then XA_FAILURE else XA_SUCCESS
  else XA_FAILURE.

(** [strtol(s, NULL, 10)] with a 32-bit long *)
Definition strtol10 (s : cstr) : Z :=
  let s := skip_space s in
  let '(neg, s) := match s with
                   | 45 :: s' => (true, s')
                   | 43 :: s' => (false, s')
                   | _ => (false, s)
                   end in
  let v := digits 10 0 s in
  let v := if (neg : bool) then - v else v in
  Z.max (-2147483648) (Z.min 2147483647 v).

Definition set_xen_size (n : Z) (i : xa_instance) : xa_instance :=
  let x := m_xen i in
  set_m_xen (XenSource (xc_handle x) (domain_id x) (xen_version x) (shared_info_frame x) n
               (live_pfn_to_mfn_table x) (nr_pfns x)) i.

Definition set_xen_version (v : Z) (i : xa_instance) : xa_instance :=
  let x := m_xen i in
  set_m_xen (XenSource (xc_handle x) (domain_id x) v (shared_info_frame x) (xen_size x)
               (live_pfn_to_mfn_table x) (nr_pfns x)) i.

Definition set_xen_info (f : Z) (i : xa_instance) : xa_instance :=
  let x := m_xen i in
  set_m_xen (XenSource (xc_handle x) (domain_id x) (xen_version x) f (xen_size x)
               (live_pfn_to_mfn_table x) (nr_pfns x)) i.

Definition set_domain_id (d : Z) (i : xa_instance) : xa_instance :=
  let x := m_xen i in
  set_m_xen (XenSource (xc_handle x) d (xen_version x) (shared_info_frame x) (xen_size x)
               (live_pfn_to_mfn_table x) (nr_pfns x)) i.

Definition modify_inst (f : xa_instance -> xa_instance) : M world unit :=
  modify (fun w => with_inst (f (inst w)) w).

(** The version strings that are recognised, in the order of the tests. *)
Definition known_versions : list (cstr * Z) :=
  [(str "3.0.4", 1); (str "3.1.0", 2); (str "3.1.1", 3); (str "3.1.2", 4); (str "3.1.3", 5);
   (str "3.1.4", 6); (str "3.2.0", 7); (str "3.2.1", 8); (str "3.2.2", 9); (str "3.2.3", 10);
   (str "3.3.0", 11); (str "3.3.1", 12); (str "3.4.0", 13)].

(** The first of them that [versionStr] begins with ([fnmatch("x*", s, 0)]);
    XA_XENVER_UNKNOWN when there is none. *)
Fixpoint match_version (versionStr : cstr) (l : list (cstr * Z)) : Z :=
  match l with
  | [] => 0
  | (p, v) :: l' => if bool_decide (p `prefix_of` versionStr) then v else match_version versionStr l'
  end.

Section Model.
Context {E : XenEnv} {X : StoreEnv} {F : FileEnv} {P : ConfigParser} {H : HostEnv}.

Definition xa_report_error (error_type : Z) : M world Z :=
  i ← gets inst; mret (report_error (error_mode i) error_type).

(** [strtol] of a NULL pointer is undefined behaviour.  The product is taken as
    where [long] has 64 bits, where it does not overflow and is cut to 32 bits
    on the assignment; where [long] has 32 bits the same value is what the
    compilers' wrapping multiplication gives. *)
Definition get_memory_size : M world Z :=
  i ← gets inst;
  if mode i =? XA_MODE_XEN then
    tmp ← sprintf_100 (str "/local/domain/" ++ dec (s32 (domain_id (m_xen i))) ++ str "/memory/target");
    target ← of_option (xs_read tmp);
    let size := u32 (strtol10 target * 1024) in
    _ ← modify_inst (set_xen_size size);
    if size =? 0 then mret XA_FAILURE else mret XA_SUCCESS
  else if mode i =? XA_MODE_FILE then
    match image_stat with
    | None => mret XA_FAILURE
    | Some st_size => _ ← modify_inst (set_m_file (FileSource (u32 st_size))); mret XA_SUCCESS
    end
  else mret XA_SUCCESS.

(** An offset that the configuration does not give is left as it is. *)
Definition or_keep (new old : Z) : Z := if new =? 0 then old else new.

Definition copy_linux (e : xa_config_entry) (i : xa_instance) : xa_instance :=
  let o := os_linux i in
  set_os_linux (LinuxInstance (or_keep (offset_of linux_tasks e) (l_tasks_offset o))
    (or_keep (offset_of linux_mm e) (l_mm_offset o)) (or_keep (offset_of linux_pid e) (l_pid_offset o))
    (or_keep (offset_of linux_pgd e) (l_pgd_offset o))
    (or_keep (offset_of linux_addr e) (l_addr_offset o))) i.

Definition copy_windows (e : xa_config_entry) (i : xa_instance) : xa_instance :=
  let o := os_windows i in
  set_os_windows (WindowsInstance (or_keep (u32 (offset_of win_ntoskrnl e)) (ntoskrnl o))
    (or_keep (offset_of win_tasks e) (w_tasks_offset o))
    (or_keep (offset_of win_pdbase e) (w_pdbase_offset o))
    (or_keep (offset_of win_pid e) (w_pid_offset o))
    (or_keep (offset_of win_peb e) (w_peb_offset o))
    (or_keep (offset_of win_iba e) (w_iba_offset o))
    (or_keep (offset_of win_ph e) (w_ph_offset o))) i.

(** copy the values from entry into instance struct *)
Definition copy_entry (e : xa_config_entry) : M world Z :=
  name ← kept_copy (c_sysmap e);
  _ ← modify_inst (set_sysmap (Some name));
  if strncmp (c_ostype e) (str "Linux") CONFIG_STR_LENGTH =? 0 then
    _ ← modify_inst (fun i => copy_linux e (set_os_type XA_OS_LINUX i)); mret XA_SUCCESS
  else if strncmp (c_ostype e) (str "Windows") CONFIG_STR_LENGTH =? 0 then
    _ ← modify_inst (fun i => copy_windows e (set_os_type XA_OS_WINDOWS i)); mret XA_SUCCESS
  else mret XA_FAILURE.

(** convert domain id to domain name for Xen mode *)
Definition name_domain : M world bool :=
  i ← gets inst;
  if mode i =? XA_MODE_XEN then
    tmp ← sprintf_100 (str "/local/domain/" ++ dec (s32 (domain_id (m_xen i))) ++ str "/name");
    _ ← (match xs_read tmp with Some t => _ ← kept_copy t; mret tt | None => mret tt end : M world unit);
    _ ← modify_inst (set_image_type (xs_read tmp));
    mret (match xs_read tmp with Some _ => true | None => false end)
  else mret true.

Definition read_config_file : M world Z :=
  match read_file (str "/etc/xenaccess.conf") with
  | None => mret XA_FAILURE
  | Some text =>
      named ← name_domain;
      if (named : bool) then
        i ← gets inst;
        td ← of_option (image_type i);
        let '(err, entry) := xa_parse_config text td in
        if negb (err =? 0) then mret XA_FAILURE else copy_entry entry
      else mret XA_FAILURE
  end.

(** check that this domain uses a paging method that we support *)
Definition get_page_info_xen : M world Z :=
  i ← gets inst;
  match xc_vcpu_getcontext (domain_id (m_xen i)) with
  | None => mret XA_FAILURE
  | Some ctrlreg =>
      if xa_get_bit (ctrlreg 0) 31 =? 0 then mret XA_FAILURE
      else
        _ ← modify_inst (fun i =>
              set_cr3 (Z.land (ctrlreg 3) 0xFFFFF000)
                (set_pse (xa_get_bit (ctrlreg 4) 4) (set_pae (xa_get_bit (ctrlreg 4) 5) i)));
        mret XA_SUCCESS
  end.

Definition init_page_offset : M world unit :=
  modify_inst (fun i =>
    set_page_size (Z.shiftl 1 12) (set_page_shift 12
      (set_page_offset (if os_type i =? XA_OS_LINUX then 0xc0000000
                        else if os_type i =? XA_OS_WINDOWS then 0x80000000 else 0) i))).

Definition init_xen_version : M world unit :=
  let major := Z.shiftr (s32 xc_version) 16 in
  let minor := Z.land (s32 xc_version) (Z.shiftl 1 16 - 1) in
  versionStr ← sprintf_100 (dec major ++ str "." ++ dec minor ++ xc_extraversion);
  modify_inst (set_xen_version (match_version versionStr known_versions)).

(** *** linux_core.c *)

(** fetch the head of the task list; [memory] is NULL when its symbol could
    not be accessed and the error was let pass *)
Definition read_init_task (memory : option mapping) (local_offset : Z) : M world Z :=
  i ← gets inst;
  m ← of_option memory;
  v ← load32 m (local_offset + l_tasks_offset (os_linux i));
  _ ← modify_inst (set_init_task v);
  _ ← munmap;
  mret XA_SUCCESS.

(** the search for init_task, in the other PAE mode if it fails in this one *)
Definition access_init_task : M world (option mapping * Z) :=
  r ← xa_access_kernel_sym (str "init_task") PROT_READ;
  match r with
  | (Some memory, local_offset) => mret (Some memory, local_offset)
  | (None, _) =>
      (* address lookup failure, switching PAE mode *)
      _ ← modify_inst (fun i => set_pae (if pae i =? 0 then 1 else 0) i);
      xa_access_kernel_sym (str "init_task") PROT_READ
  end.

(** the kernel page directory of a paravirtual guest is read at the symbol *)
Definition read_kpgd : M world Z :=
  i ← gets inst;
  if hvm i =? 0 then
    _ ← modify_inst (fun i => set_kpgd (u32 (kpgd i - page_offset i)) i);
    i ← gets inst;
    v ← xa_read_long_phys (kpgd i);
    match v with
    | Some k => _ ← modify_inst (set_kpgd k); mret XA_SUCCESS
    | None => xa_report_error XA_EMINOR
    end
  else mret XA_SUCCESS.

Definition linux_init : M world Z :=
  a ← linux_system_map_symbol_to_address (str "swapper_pg_dir");
  ret ← (match a with
         | Some k => _ ← modify_inst (set_kpgd k); mret XA_SUCCESS
         | None => xa_report_error XA_EMINOR
         end : M world Z);
  if ret =? XA_FAILURE then mret ret
  else
    ret ← read_kpgd;
    if ret =? XA_FAILURE then mret ret
    else
      r ← access_init_task;
      ret' ← (match r.1 with
              | Some _ => mret ret
              | None => xa_report_error XA_EMINOR
              end : M world Z);
      if ret' =? XA_FAILURE then mret ret'
      else _ ← read_init_task r.1 r.2; mret ret'.

(** *** windows_core.c *)

(** the end of both methods: the page directory is kept as a virtual address *)
Definition finish_kpgd (ret : Z) : M world Z :=
  _ ← modify_inst (fun i => set_kpgd (u32 (kpgd i + page_offset i)) i);
  i ← gets inst;
  if kpgd i =? page_offset i then xa_report_error XA_EMINOR else mret ret.

(** [xa_read_long_phys(instance, addr, &(instance->kpgd))] with the error
    reported *)
Definition kpgd_from (addr ret : Z) : M world Z :=
  v ← xa_read_long_phys addr;
  match v with
  | Some k => _ ← modify_inst (set_kpgd k); mret ret
  | None => xa_report_error XA_EMINOR
  end.

(** The return value and [*sysproc]. *)
Definition get_kpgd_method2 (n : nat) : M world (Z * Z) :=
  sysproc ← windows_find_eprocess n (str "System");
  ret ← (if sysproc =? 0 then xa_report_error XA_EMINOR else mret XA_SUCCESS : M world Z);
  if ret =? XA_FAILURE then mret (ret, sysproc)
  else
    ret ← kpgd_from (u32 (sysproc + 0x18)) ret;
    if ret =? XA_FAILURE then mret (ret, sysproc)
    else ret ← finish_kpgd ret; mret (ret, sysproc).

Definition get_kpgd_method1 (sysproc : Z) : M world (Z * Z) :=
  v ← xa_read_long_sym (str "PsInitialSystemProcess");
  let sysproc := default sysproc v in
  ret ← (match v with Some _ => mret XA_SUCCESS | None => xa_report_error XA_EMINOR end : M world Z);
  if ret =? XA_FAILURE then mret (ret, sysproc)
  else
    sysproc ← xa_translate_kv2p sysproc;
    i ← gets inst;
    ret ← kpgd_from (u32 (sysproc + w_pdbase_offset (os_windows i))) ret;
    if ret =? XA_FAILURE then mret (ret, sysproc)
    else ret ← finish_kpgd ret; mret (ret, sysproc).

Definition set_ntoskrnl (v : Z) (i : xa_instance) : xa_instance :=
  let o := os_windows i in
  set_os_windows (WindowsInstance v (w_tasks_offset o) (w_pdbase_offset o) (w_pid_offset o)
                    (w_peb_offset o) (w_iba_offset o) (w_ph_offset o)) i.

(** get base address for kernel image in memory unless it has already been set
    in the configuration file *)
Definition find_ntoskrnl (n : nat) : M world Z :=
  i ← gets inst;
  if ntoskrnl (os_windows i) =? 0 then
    base ← get_ntoskrnl_base n;
    _ ← modify_inst (set_ntoskrnl base);
    if base =? 0 then xa_report_error XA_EMINOR else mret XA_SUCCESS
  else mret XA_SUCCESS.

Definition find_kpgd (n : nat) (ret : Z) : M world (Z * Z) :=
  r1 ← get_kpgd_method1 0;
  if r1.1 =? XA_FAILURE then
    r2 ← get_kpgd_method2 n;
    if r2.1 =? XA_FAILURE then ret ← xa_report_error XA_EMINOR; mret (ret, r2.2)
    else mret (ret, r2.2)
  else mret (ret, r1.2).

Definition windows_init (n : nat) : M world Z :=
  ret ← find_ntoskrnl n;
  if ret =? XA_FAILURE then mret ret
  else
    r ← find_kpgd n ret;
    if r.1 =? XA_FAILURE then mret r.1
    else
      (* get address start of process list *)
      i ← gets inst;
      v ← xa_read_long_phys (u32 (r.2 + w_tasks_offset (os_windows i)));
      _ ← (match v with Some t => modify_inst (set_init_task t) | None => mret tt end : M world unit);
      mret r.1.

(** *** xa_core.c *)

(** [ret = m; if (XA_FAILURE == ret) ret = xa_report_error(...)], going on with
    [k] unless that says failure *)
Definition checked (m : M world Z) (error_type : Z) (k : Z -> M world Z) : M world Z :=
  r ← m;
  ret ← (if r =? XA_FAILURE then xa_report_error error_type else mret r : M world Z);
  if ret =? XA_FAILURE then mret ret else k ret.

(** the part of [helper_init] for Xen before the configuration is read *)
Definition init_domain_info : M world Z :=
  i ← gets inst;
  if mode i =? XA_MODE_XEN then
    match xc_domain_getinfo (domain_id (m_xen i)) with
    | None => mret XA_FAILURE
    | Some f => _ ← modify_inst (set_xen_info f); _ ← init_xen_version; mret XA_SUCCESS
    end
  else mret XA_SUCCESS.

(** determine the page sizes and layout for target OS *)
Definition init_page_layout : M world Z :=
  i ← gets inst;
  if mode i =? XA_MODE_XEN then get_page_info_xen
  else _ ← modify_inst (fun i => set_pae 0 (set_hvm 1 i)); mret XA_SUCCESS.

Definition init_hvm : M world unit :=
  i ← gets inst;
  if mode i =? XA_MODE_XEN then h ← xa_ishvm (domain_id (m_xen i)); modify_inst (set_hvm h)
  else mret tt.

Definition helper_init (n : nat) : M world Z :=
  checked init_domain_info XA_ECRITICAL (fun _ =>
  checked read_config_file XA_EMINOR (fun _ =>
  checked init_page_layout XA_ECRITICAL (fun _ =>
    _ ← init_page_offset;
    _ ← init_hvm;
    checked get_memory_size XA_ECRITICAL (fun ret =>
      i ← gets inst;
      if os_type i =? XA_OS_LINUX then linux_init
      else if os_type i =? XA_OS_WINDOWS then windows_init n
      else mret ret)))).

Definition helper_destroy : M world Z :=
  i ← gets inst;
  _ ← (match live_pfn_to_mfn_table (m_xen i) with Some _ => munmap | None => mret tt end : M world unit);
  _ ← xa_destroy_cache;
  _ ← xa_destroy_pid_cache;
  mret XA_SUCCESS.

(** [bzero(instance, sizeof(xa_instance_t))] *)
Definition zero_instance : xa_instance :=
  XaInstance 0 0 None None 0 0 0 0 0 0 0 0 0 0 (LinuxInstance 0 0 0 0 0)
    (WindowsInstance 0 0 0 0 0 0 0) (XenSource 0 0 0 0 0 None 0) (FileSource 0).

(** [cache_head = NULL] to [current_pid_cache_size = 0] *)
Definition zero_cache (w : world) : world :=
  with_pid_cache (with_count 0 (with_tail None (with_head None (pid_cache w))))
    (with_cache (with_count 0 (with_tail None (with_head None (cache w)))) w).

(** common code for all init functions *)
Definition xa_init_common : M world unit := modify zero_cache.

(** initialize to view an actively running Xen domain *)
Definition xa_init_vm_private (n : nat) (dom error_mode_ : Z) : M world Z :=
  _ ← modify (fun w => with_inst zero_instance (zero_cache w));
  _ ← modify_inst (fun i => set_error_mode error_mode_ (set_mode XA_MODE_XEN i));
  match xc_interface_open with
  | None => mret XA_FAILURE
  | Some h =>
      _ ← modify_inst (fun i => set_m_xen (XenSource h (domain_id (m_xen i)) (xen_version (m_xen i))
            (shared_info_frame (m_xen i)) (xen_size (m_xen i)) (live_pfn_to_mfn_table (m_xen i))
            (nr_pfns (m_xen i))) i);
      _ ← xa_init_common;
      _ ← modify_inst (fun i => set_m_xen (XenSource (xc_handle (m_xen i)) dom (xen_version (m_xen i))
            (shared_info_frame (m_xen i)) (xen_size (m_xen i)) None 0) i);
      helper_init n
  end.

(** initialize to view a file image *)
Definition xa_init_file_private (n : nat) (filename image_type_ : cstr) (error_mode_ : Z) : M world Z :=
  _ ← modify_inst (fun i => set_error_mode error_mode_ (set_mode XA_MODE_FILE i));
  if open_image filename then
    _ ← xa_init_common;
    type ← kept_copy (strndup image_type_ 256);
    _ ← modify_inst (set_image_type (Some type));
    helper_init n
  else mret XA_FAILURE.

Definition xa_init_vm_name_strict (n : nat) (name : cstr) : M world Z :=
  d ← xa_get_domain_id name; xa_init_vm_private n d XA_FAILHARD.
Definition xa_init_vm_name_lax (n : nat) (name : cstr) : M world Z :=
  d ← xa_get_domain_id name; xa_init_vm_private n d XA_FAILSOFT.
Definition xa_init_vm_id_strict (n : nat) (d : Z) : M world Z := xa_init_vm_private n d XA_FAILHARD.
Definition xa_init_vm_id_lax (n : nat) (d : Z) : M world Z := xa_init_vm_private n d XA_FAILSOFT.
Definition xa_init_file_strict (n : nat) (f t : cstr) : M world Z := xa_init_file_private n f t XA_FAILHARD.
Definition xa_init_file_lax (n : nat) (f t : cstr) : M world Z := xa_init_file_private n f t XA_FAILSOFT.

Definition xa_destroy : M world Z :=
  _ ← modify_inst (set_domain_id 0);
  ret1 ← helper_destroy;
  i ← gets inst;
  let ret2 := xc_interface_close (xc_handle (m_xen i)) in
  if (ret1 =? XA_FAILURE) || (ret2 =? XA_FAILURE) then mret XA_FAILURE else mret XA_SUCCESS.
End Model.

(** ** Caches without a single translation

    The state of the caches when an instance has just been opened, and as long
    as no address has been translated. *)

Section Blank.
Context {E : XenEnv} {W : WholePages} {X : StoreEnv} {F : FileEnv}.
Implicit Types (i : xa_instance) (w : world).

Definition no_page (e : xa_cache_entry) : Prop := mach_address e = 0 /\ sym_shape e.

Definition blank w : Prop :=
  (exists l, cached w l /\ (length l <= 25)%nat /\ Forall no_page l) /\
  holds (pid_cache w) [].

Lemma blank_coherent pgd_of w : blank w -> coherent (inst w) pgd_of w.
Proof.
  intros [(l & Hh & Hl & Hf) Hp]. split; [done|]. split.
  - exists l. split; [done|]. split; [done|]. eapply Forall_impl; [|exact Hf].
    by intros e [He _] _ [].
  - exists []. split; [done|]. split; [simpl; lia|constructor].
Qed.

Lemma blank_keep w : blank w -> blank (keep_string w).
Proof. intros [(l & Hc & Hl & Hf) Hp]. split; [|done]. exists l. split; [by apply cached_keep|done]. Qed.

Lemma blank_copies n w : blank w -> blank (Nat.iter n keep_string w).
Proof. intros Hb. induction n as [|n IH]; [done|]. by apply blank_keep. Qed.

Lemma blank_with_inst i w : blank w -> blank (with_inst i w).
Proof. done. Qed.

Lemma blank_step w l w' :
  blank w -> cache_step w l w' -> (length l <= 25)%nat -> Forall no_page l ->
  blank w' /\ inst w' = inst w /\ live_maps w' = live_maps w.
Proof.
  intros [_ Hp] (Hh & Hi & Hpc & Hm & _) Hl Hf. split; [|done].
  split; [by exists l|by rewrite Hpc].
Qed.

Lemma blank_syms i addr_of w : blank w -> syms i addr_of w.
Proof.
  intros [(l & Hh & _ & Hf) _]. exists l. split; [done|]. eapply Forall_impl; [|exact Hf].
  intros e [He Hsh]. split; [exact Hsh|]. by intros _ [].
Qed.

Lemma sym_hit_blank name p l :
  Forall no_page l -> Forall (fun e => sym_hit name p e = false) l.
Proof.
  intros H. eapply Forall_impl; [|exact H]. intros e [He _]. unfold sym_hit. rewrite He.
  apply andb_false_r.
Qed.

Lemma virt_hit_blank v p l : Forall no_page l -> Forall (fun e => virt_hit v p e = false) l.
Proof.
  intros H. eapply Forall_impl; [|exact H]. intros e [He _]. unfold virt_hit. rewrite He.
  destruct (virt_address e =? 0); [done|apply andb_false_r].
Qed.

Lemma check_sym_blank name p w :
  blank w -> runs (xa_check_cache_sym name p) w (fun r w' =>
    r = None /\ blank w' /\ inst w' = inst w /\ live_maps w' = live_maps w).
Proof.
  intros Hb. pose proof Hb as [(l & Hh & Hl & Hf) _].
  eapply runs_mono; [by apply check_sym_refines|]. intros r w' H.
  unfold spec_check in H. rewrite split_first_None in H by by apply sym_hit_blank.
  destruct H as [-> Hs]. split; [done|]. by eapply blank_step.
Qed.

Lemma check_virt_blank v p w :
  blank w -> runs (xa_check_cache_virt v p) w (fun r w' =>
    r = None /\ blank w' /\ inst w' = inst w /\ live_maps w' = live_maps w).
Proof.
  intros Hb. pose proof Hb as [(l & Hh & Hl & Hf) _].
  eapply runs_mono; [by apply check_virt_refines|]. intros r w' H.
  unfold spec_check in H. rewrite split_first_None in H by by apply virt_hit_blank.
  destruct H as [-> Hs]. split; [done|]. by eapply blank_step.
Qed.

(** A symbol whose address has no translation leaves no translation behind. *)
Lemma update_sym_blank name v p w :
  blank w -> geometry (inst w) -> is_u32 v -> kv2p (inst w) v = 0 ->
  runs (xa_update_cache (Some name) v p 0) w (fun _ w' =>
    blank w' /\ inst w' = inst w /\ live_maps w' = live_maps w).
Proof.
  intros Hb Hg Hv Hk. pose proof Hb as [(l & Hh & Hl & Hf) _].
  eapply runs_mono; [by apply update_refines|]. intros r w' [_ Hs].
  eapply blank_step; [done|exact Hs|by apply spec_update_length|].
  unfold mach_value. rewrite Z.eqb_refl, Hk.
  assert (Hz : page_of (inst w) 0 = 0) by done. rewrite Hz.
  apply list.Forall_and in Hf as [Hf Hsh]. apply list.Forall_and.
  split; [|by apply spec_update_shape]. unfold spec_update.
  destruct (split_first (sym_matches name) l) as [[[pre e] post]|] eqn:Es.
  - apply split_first_Some in Es as (-> & _ & _).
    apply Forall_app in Hf as [H1 [_ H3]%list.Forall_cons].
    apply Forall_app. split; [done|]. by constructor.
  - destruct (if v =? 0 then None else _) as [[[pre e] post]|] eqn:Ev.
    + destruct (v =? 0); [done|]. apply split_first_Some in Ev as (-> & _ & _).
      apply Forall_app in Hf as [H1 [_ H3]%list.Forall_cons].
      apply Forall_app. split; [done|]. by constructor.
    + apply Forall_app. split; [by apply make_room_Forall|]. by repeat constructor.
Qed.

Lemma kernel_va_blank v prot w :
  blank w -> geometry (inst w) -> is_u32 v -> kv2p (inst w) v = 0 ->
  runs (xa_access_kernel_va v prot) w (fun r w' =>
    r = (None, 0) /\ blank w' /\ inst w' = inst w /\ live_maps w' = live_maps w).
Proof.
  intros Hb Hg Hv Hk. apply runs_bind. eapply runs_mono; [by apply check_virt_blank|].
  intros r w1 (-> & Hb1 & Hi1 & Hl1). apply runs_bind.
  eapply runs_eq; [apply xa_translate_kv2p_eq; [by rewrite Hi1|done]|].
  rewrite Hi1, Hk. by apply runs_ret.
Qed.

Lemma linux_symbol_blank name rs symbol a prot w :
  blank w -> geometry (inst w) -> sysmap_ready (inst w) name rs symbol ->
  map_find rs symbol = Some a -> kv2p (inst w) a = 0 ->
  runs (linux_access_kernel_symbol symbol prot) w (fun r w' =>
    r = (None, 0) /\ blank w' /\ inst w' = inst w /\ live_maps w' = live_maps w).
Proof.
  intros Hb Hg (Hs & Hn & Hr & Hrs & Hsym) Ea Hk. pose proof (map_find_u32 _ _ _ Hrs Ea) as Ha.
  apply runs_bind. eapply runs_mono; [by apply check_sym_blank|].
  intros r w1 (-> & Hb1 & Hi1 & Hl1). rewrite <- Hi1 in *.
  apply runs_bind. eapply runs_eq; [by apply (lookup_sysmap_runs (inst w1) name rs)|]. rewrite Ea.
  apply runs_bind. eapply runs_mono; [by apply update_sym_blank|].
  intros _ w2 (Hb2 & Hi2 & Hl2). rewrite <- Hi2 in *.
  eapply runs_mono; [by apply kernel_va_blank|].
  intros r' w3 (-> & Hb3 & Hi3 & Hl3). split; [done|]. split; [done|]. split; [done|lia].
Qed.

(** A symbol the map does not have. *)
Lemma linux_symbol_missing name rs symbol prot w :
  blank w -> sysmap_ready (inst w) name rs symbol -> map_find rs symbol = None ->
  runs (linux_access_kernel_symbol symbol prot) w (fun r w' =>
    r = (None, 0) /\ blank w' /\ inst w' = inst w /\ live_maps w' = live_maps w).
Proof.
  intros Hb (Hs & Hn & Hr & Hrs & Hsym) Ea.
  apply runs_bind. eapply runs_mono; [by apply check_sym_blank|].
  intros r w1 (-> & Hb1 & Hi1 & Hl1). rewrite <- Hi1 in *.
  apply runs_bind. eapply runs_eq; [by apply (lookup_sysmap_runs (inst w1) name rs)|]. rewrite Ea.
  by apply runs_ret.
Qed.
End Blank.

(** ** Opening a Linux guest *)

Section LinuxInit.
Context {E : XenEnv} {W : WholePages} {X : StoreEnv} {F : FileEnv}.
Implicit Types (i : xa_instance) (w : world).

Definition flip_pae i : xa_instance := set_pae (if pae i =? 0 then 1 else 0) i.

(** [init_task] does not take part in any translation. *)
Lemma coherent_init_task i v pgd_of w :
  coherent i pgd_of w -> coherent (set_init_task v i) pgd_of (with_inst (set_init_task v i) w).
Proof. intros (Hi & Hc & Hp). split; [done|]. split; [exact Hc|exact Hp]. Qed.

Lemma kernel_sym_linux i symbol prot w (Q : option mapping * Z -> world -> Prop) :
  inst w = i -> os_type i = XA_OS_LINUX ->
  runs (linux_access_kernel_symbol symbol prot) w Q -> runs (xa_access_kernel_sym symbol prot) w Q.
Proof. intros Hi Ho HQ. apply runs_bind, runs_gets. by rewrite Hi, Ho. Qed.

(** The modes in which the task list head is found: the one that is set, or
    the other one when the set one has no translation for it. *)
Definition init_mode i1 (a : Z) i' : Prop :=
  i' = i1 \/ (i' = flip_pae i1 /\ kv2p i1 a = 0).

Lemma init_mode_tables k i a i' : init_mode (set_kpgd k i) a i' -> tables i' = tables i.
Proof. by intros [-> | [-> _]]. Qed.

(** What is known once an access to a symbol at [a] has succeeded. *)
Definition ready i pgd_of rs (a : Z) w : Prop :=
  coherent i pgd_of w /\ (4096 <= a -> syms i (map_find rs) w).

Lemma blank_kernel_symbol pgd_of name rs symbol a w m o :
  (forall p, is_u32 (pgd_of p)) -> blank w -> geometry (inst w) ->
  sysmap_ready (inst w) name rs symbol -> map_find rs symbol = Some a ->
  page_at (inst w) PROT_READ (kv2p (inst w) a) = (Some m, o) ->
  runs (linux_access_kernel_symbol symbol PROT_READ) w (fun r w' =>
    r = (Some m, o) /\ ready (inst w) pgd_of rs a w' /\ live_maps w' = live_maps w + 1).
Proof.
  intros Hp Hb Hg Hs Ea Hpg. pose proof Hb as [(l & Hh & Hl & Hf) _].
  pose proof Hs as (_ & _ & _ & Hrs & _). pose proof (map_find_spec _ _ _ Hrs Ea) as (Ha & Hne & Hlen).
  destruct (decide (4096 <= a)) as [Hz|Hz].
  - eapply runs_mono.
    { apply (linux_symbol_cached (inst w) pgd_of name rs Hg Hp); try done.
      - split; [by apply blank_coherent|by apply blank_syms].
      - intros a'. rewrite Ea. by intros [= <-]. }
    intros r w' (-> & [Hc Hsy] & Hlm). rewrite Ea, Hpg in *. done.
  - eapply runs_mono.
    { eapply (linux_kernel_symbol_runs (inst w) pgd_of Hg Hp); [by apply blank_coherent|done|done|].
      by apply sym_hit_blank. }
    intros r w' (-> & Hc & Hlm). rewrite Ea, Hpg in *. split; [done|]. split; [|done].
    by split.
Qed.

Lemma access_init_task_runs pgd_of i1 i' name rs a m o w :
  (forall p, is_u32 (pgd_of p)) -> geometry i1 -> os_type i1 = XA_OS_LINUX ->
  sysmap_ready i1 name rs (str "init_task") -> map_find rs (str "init_task") = Some a ->
  init_mode i1 a i' -> page_at i' PROT_READ (kv2p i' a) = (Some m, o) ->
  inst w = i1 -> blank w ->
  runs access_init_task w (fun r w' =>
    r = (Some m, o) /\ ready i' pgd_of rs a w' /\ live_maps w' = live_maps w + 1).
Proof.
  intros Hp Hg Ho Hs Ea Hmode Hpg Hi Hb. apply runs_bind.
  destruct Hmode as [-> | [-> Hz]].
  - eapply runs_mono.
    { eapply kernel_sym_linux; [exact Hi|done|].
      rewrite <- Hi in *. by eapply (blank_kernel_symbol pgd_of). }
    intros r w' (-> & Hc & Hl). apply runs_ret. rewrite <- Hi. by rewrite Hi in *.
  - eapply runs_mono.
    { eapply kernel_sym_linux; [exact Hi|done|].
      rewrite <- Hi in *. by eapply linux_symbol_blank. }
    intros r w1 (-> & Hb1 & Hi1 & Hl1). apply runs_bind, runs_modify. rewrite Hi1, Hi.
    fold (flip_pae i1). rewrite <- Hl1.
    eapply kernel_sym_linux; [done|exact Ho|].
    apply (blank_kernel_symbol pgd_of name rs _ a (with_inst (flip_pae i1) w1) m o); done.
Qed.

(** [swapper_pg_dir] at [k]: the directory of a fully virtualised guest, and
    in a paravirtual guest the word at its physical address, once the table is
    fetched. *)
Definition find_directory (k : Z) i : option xa_instance :=
  if hvm i =? 0 then
    let a := u32 (k - page_offset i) in
    v ← phys_read (with_p2m i) 4 a; Some (set_kpgd v (with_p2m (set_kpgd a i)))
  else Some (set_kpgd k i).

Record directory_ok (k : Z) i i1 : Prop := {
  dir_found : find_directory k i = Some i1;
  dir_table : hvm i = 0 -> paravirtual i /\ pv_frame i (u32 (k - page_offset i) / 4096) /\
    u32 (k - page_offset i) mod 4096 <= 4092 }.

Lemma directory_flat k i : hvm i <> 0 -> directory_ok k i (set_kpgd k i).
Proof. intros Hh. split; [|done]. unfold find_directory. by rewrite (proj2 (Z.eqb_neq _ _)). Qed.

(** What the search for the directory leaves of the instance. *)
Lemma find_directory_same k i i1 :
  find_directory k i = Some i1 ->
  geometry i1 = geometry i /\ hvm i1 = hvm i /\ os_type i1 = os_type i /\ os_linux i1 = os_linux i /\
  sysmap i1 = sysmap i /\ mode i1 = mode i /\ xen_size (m_xen i1) = xen_size (m_xen i) /\
  domain_id (m_xen i1) = domain_id (m_xen i) /\ page_offset i1 = page_offset i.
Proof.
  unfold find_directory. destruct (hvm i =? 0); [|by intros [= <-]].
  intros (v & _ & [= <-])%bind_Some. unfold with_p2m. by destruct (p2m_table _) as [[t n]|].
Qed.

Lemma read_kpgd_runs k i i1 w :
  directory_ok k i i1 -> inst w = set_kpgd k i ->
  runs read_kpgd w (fun r w' =>
    r = XA_SUCCESS /\ w' = with_inst i1 (with_live_maps (live_maps w + (tables i1 - tables i)) w)).
Proof.
  intros [Hd Ht] Hi. unfold find_directory in Hd. apply runs_bind, runs_gets. rewrite Hi.
  change (hvm (set_kpgd k i)) with (hvm i). destruct (Z.eqb_spec (hvm i) 0) as [Hh|Hh].
  2:{ injection Hd as <-. apply runs_ret. split; [done|]. change (tables (set_kpgd k i)) with (tables i).
      rewrite Z.sub_diag, Z.add_0_r. rewrite <- Hi. by destruct w. }
  destruct (Ht Hh) as (Hp & Hf & Hal). set (a := u32 (k - page_offset i)) in *.
  apply runs_bind, runs_modify, runs_bind, runs_gets. rewrite Hi.
  change (set_kpgd (u32 (kpgd (set_kpgd k i) - page_offset (set_kpgd k i))) (set_kpgd k i)) with (set_kpgd a i).
  assert (Hp' : paravirtual (set_kpgd a i)) by (destruct Hp; by split).
  apply bind_Some in Hd as (v & Hv & [= <-]).
  apply runs_bind. eapply runs_eq.
  { apply (xa_read_phys_first 4 a (with_inst (set_kpgd a i) w)); [exact Hp'|apply u32_range|exact Hf|lia]. }
  change (inst (with_inst (set_kpgd a i) w)) with (set_kpgd a i).
  assert (Hsome : phys_read (with_p2m (set_kpgd a i)) 4 a = Some v).
  { rewrite <- Hv. unfold with_p2m. change (p2m_table (set_kpgd a i)) with (p2m_table i).
    by destruct (p2m_table i) as [[t n]|]. }
  rewrite Hsome. apply runs_bind, runs_modify, runs_ret. split; [done|].
  unfold table_loaded. cbn [inst with_inst].
  change (p2m_table (set_kpgd a i)) with (p2m_table i). rewrite opened_live.
  unfold tables. change (live_pfn_to_mfn_table (m_xen (set_kpgd v ?x))) with (live_pfn_to_mfn_table (m_xen x)).
  rewrite with_p2m_kept, (pv_unkept i Hp) by apply Hp'.
  change (p2m_table (set_kpgd a i)) with (p2m_table i). rewrite Z.sub_0_r.
  by destruct (p2m_table i) as [[t n]|].
Qed.

Lemma linux_init_runs pgd_of name rs k i1 a m o w (i := inst w) i' :
  (forall p, is_u32 (pgd_of p)) ->
  geometry i -> directory_ok k i i1 -> os_type i = XA_OS_LINUX -> blank w ->
  sysmap_ready i name rs (str "swapper_pg_dir") ->
  map_find rs (str "swapper_pg_dir") = Some k -> map_find rs (str "init_task") = Some a ->
  init_mode i1 a i' -> page_at i' PROT_READ (kv2p i' a) = (Some m, o) ->
  0 <= o + l_tasks_offset (os_linux i) -> o + l_tasks_offset (os_linux i) + 4 <= 4096 ->
  runs linux_init w (fun r w' =>
    r = XA_SUCCESS /\
    inst w' = set_init_task (field m (o + l_tasks_offset (os_linux i))) i' /\
    ready (inst w') pgd_of rs a w' /\ live_maps w' = live_maps w + (tables i' - tables i)).
Proof.
  intros Hp Hg Hdir Ho Hb (Hs & Hn & Hr & Hrs & Hsym) Ek Ea Hmode Hpg H1 H2.
  destruct (find_directory_same _ _ _ (dir_found _ _ _ Hdir)) as (Eg & _ & Eo & El & Es & _).
  apply runs_bind. eapply runs_eq; [by apply (lookup_sysmap_runs i name rs)|]. rewrite Ek.
  apply runs_bind, runs_bind, runs_modify, runs_ret. cbn [Z.eqb XA_SUCCESS XA_FAILURE].
  apply runs_bind. eapply runs_mono; [by apply (read_kpgd_runs k i i1)|].
  intros r0 w0 (-> & Hw0). cbn [Z.eqb XA_SUCCESS XA_FAILURE]. apply runs_bind.
  eapply runs_mono.
  { apply (access_init_task_runs pgd_of i1 i' name rs a m o); try done.
    - by rewrite Eg.
    - by rewrite Eo.
    - split_and!; try done; [by rewrite Es|]. repeat constructor; discriminate.
    - by rewrite Hw0.
    - rewrite Hw0. exact Hb. }
  intros r w1 (-> & [Hc1 Hs1] & Hl1). cbn [fst snd].
  apply runs_bind, runs_ret. cbn [Z.eqb XA_SUCCESS XA_FAILURE].
  pose proof Hc1 as [Hi1 _]. pose proof Hmode as Hlo.
  assert (os_linux i' = os_linux i) as Elo by (destruct Hlo as [-> | [-> _]]; done).
  assert (geometry i') as Hg' by (destruct Hlo as [-> | [-> _]]; [by rewrite Eg|by change (geometry i1); rewrite Eg]).
  assert (tables i' = tables i1) as Et by (by destruct Hlo as [-> | [-> _]]).
  apply runs_bind, runs_bind, runs_gets, runs_bind.
  eapply runs_of_option; [done|]. rewrite Hi1, Elo.
  pose proof (page_at_mapped i' Hg' _ _ _ _ Hpg) as [Hlen _].
  apply runs_bind, load_runs; [done|by rewrite Hlen|].
  apply runs_bind, runs_modify, runs_bind, runs_modify, runs_ret, runs_ret.
  cbn [inst with_inst with_live_maps live_maps]. rewrite Hi1.
  split; [done|]. split; [done|]. split.
  - split; [by apply (coherent_init_task i' _ pgd_of w1)|]. exact Hs1.
  - rewrite Hl1, Hw0, Et. cbn [live_maps with_inst with_live_maps]. fold i. lia.
Qed.
End LinuxInit.

(** ** Opening a memory image *)

Section InitFile.
Context {E : XenEnv} {W : WholePages} {X : StoreEnv} {F : FileEnv} {P : ConfigParser} {H : HostEnv}.
Implicit Types (i : xa_instance) (w : world).

Lemma checked_ok m t k w (Q : Z -> world -> Prop) :
  runs m w (fun r w' => r = XA_SUCCESS /\ runs (k XA_SUCCESS) w' Q) -> runs (checked m t k) w Q.
Proof.
  intros Hm. apply runs_bind. eapply runs_mono; [exact Hm|]. intros r w' [-> Hk].
  apply runs_bind, runs_ret. exact Hk.
Qed.

(** What is known about the instance before the operating system is looked
    at: everything but [kpgd] and [init_task]. *)
Definition file_instance i (type : cstr) (error_mode_ st_size : Z) (e : xa_config_entry) : xa_instance :=
  set_m_file (FileSource (u32 st_size))
    (set_page_size 4096 (set_page_shift 12 (set_page_offset 0xc0000000
      (set_pae 0 (set_hvm 1 (copy_linux e (set_os_type XA_OS_LINUX (set_sysmap (Some (c_sysmap e))
        (set_image_type (Some (strndup type 256))
          (set_error_mode error_mode_ (set_mode XA_MODE_FILE i))))))))))).

Lemma copy_entry_linux e w :
  c_ostype e = str "Linux" ->
  copy_entry e w =
  Ret (XA_SUCCESS,
       with_inst (copy_linux e (set_os_type XA_OS_LINUX (set_sysmap (Some (c_sysmap e)) (inst w)))) (keep_string w)).
Proof.
  intros He. unfold copy_entry. erewrite bind_eq by done. erewrite bind_eq by done.
  rewrite He. unfold strncmp. rewrite strcmp_refl. done.
Qed.

(** The caches of an instance that was not used before. *)
Definition fresh w : Prop := cached w [] /\ holds (pid_cache w) [].

Lemma holds_nil_zero {A} (d : dll A) :
  holds d [] -> with_count 0 (with_tail None (with_head None d)) = d.
Proof.
  intros (xs & [Hr Hn] & Hxs). destruct xs; [|done]. destruct d as [m h t c b].
  destruct Hr as [_ Hh Ht]. simpl in *. by subst.
Qed.

Lemma zero_cache_fresh w : fresh w -> zero_cache w = w.
Proof.
  intros [[H1 _] H2]. unfold zero_cache, with_cache, with_pid_cache. simpl.
  rewrite !holds_nil_zero by done. by destruct w.
Qed.

Lemma fresh_blank w : fresh w -> blank w.
Proof. intros [H1 H2]. split; [|done]. exists []. split; [done|]. split; [simpl; lia|constructor]. Qed.

(** Reading the configuration of an image. *)
Lemma read_config_linux text type e w :
  mode (inst w) = XA_MODE_FILE -> image_type (inst w) = Some type ->
  read_file (str "/etc/xenaccess.conf") = Some text -> xa_parse_config text type = (0, e) ->
  c_ostype e = str "Linux" ->
  read_config_file w =
  Ret (XA_SUCCESS,
       with_inst (copy_linux e (set_os_type XA_OS_LINUX (set_sysmap (Some (c_sysmap e)) (inst w)))) (keep_string w)).
Proof.
  intros Hm Ht Hr Hp He. unfold read_config_file. rewrite Hr. cbv beta iota.
  erewrite bind_eq.
  2:{ unfold name_domain. erewrite bind_eq by done. rewrite Hm. done. }
  cbv beta iota. erewrite bind_eq by done. rewrite Ht. cbn [of_option]. rewrite bind_ret_l, Hp.
  cbn [Z.eqb negb]. by apply copy_entry_linux.
Qed.

Lemma helper_init_linux n text type e st_size w (Q : Z -> world -> Prop) :
  mode (inst w) = XA_MODE_FILE -> image_type (inst w) = Some type ->
  read_file (str "/etc/xenaccess.conf") = Some text -> xa_parse_config text type = (0, e) ->
  c_ostype e = str "Linux" -> image_stat = Some st_size ->
  runs linux_init
    (with_inst (set_m_file (FileSource (u32 st_size))
      (set_page_size 4096 (set_page_shift 12 (set_page_offset 0xc0000000
        (set_pae 0 (set_hvm 1 (copy_linux e (set_os_type XA_OS_LINUX
          (set_sysmap (Some (c_sysmap e)) (inst w)))))))))) (keep_string w)) Q ->
  runs (helper_init n) w Q.
Proof.
  intros Hm Ht Hr Hp He Hst HQ.
  apply checked_ok, runs_bind, runs_gets. rewrite Hm. apply runs_ret. split; [done|].
  apply checked_ok. eapply runs_eq; [by eapply read_config_linux|]. split; [done|].
  apply checked_ok, runs_bind, runs_gets. cbn [inst with_inst mode copy_linux set_os_linux set_os_type set_sysmap].
  rewrite Hm. apply runs_bind, runs_modify, runs_ret. split; [done|].
  apply runs_bind, runs_modify, runs_bind, runs_bind, runs_gets.
  cbn [inst with_inst mode set_page_size set_page_shift set_page_offset set_pae set_hvm
       copy_linux set_os_linux set_os_type set_sysmap].
  rewrite Hm. apply runs_ret, checked_ok, runs_bind, runs_gets.
  cbn [inst with_inst mode set_page_size set_page_shift set_page_offset set_pae set_hvm
       copy_linux set_os_linux set_os_type set_sysmap].
  rewrite Hm. cbn [Z.eqb XA_MODE_FILE XA_MODE_XEN]. rewrite Hst.
  apply runs_bind, runs_modify, runs_ret. split; [done|].
  apply runs_bind, runs_gets. exact HQ.
Qed.

(** The instance may be uninitialised memory: only its cache pointers are set
    before they are used. *)
Lemma init_file_runs n filename type error_mode_ text e st_size rs k a m o pgd_of w i'
    (i := file_instance (inst w) type error_mode_ st_size e) :
  fresh (zero_cache w) -> (forall p, is_u32 (pgd_of p)) -> open_image filename = true ->
  read_file (str "/etc/xenaccess.conf") = Some text ->
  xa_parse_config text (strndup type 256) = (0, e) -> c_ostype e = str "Linux" ->
  image_stat = Some st_size -> sysmap_ready i (c_sysmap e) rs (str "swapper_pg_dir") ->
  map_find rs (str "swapper_pg_dir") = Some k -> map_find rs (str "init_task") = Some a ->
  init_mode (set_kpgd k i) a i' -> page_at i' PROT_READ (kv2p i' a) = (Some m, o) ->
  0 <= o + l_tasks_offset (os_linux i) -> o + l_tasks_offset (os_linux i) + 4 <= 4096 ->
  runs (xa_init_file_private n filename type error_mode_) w (fun r w' =>
    r = XA_SUCCESS /\
    inst w' = set_init_task (field m (o + l_tasks_offset (os_linux i))) i' /\
    ready (inst w') pgd_of rs a w' /\ live_maps w' = live_maps w).
Proof.
  intros Hf Hpgd Hopen Hr Hp He Hst Hs Ek Ea Hmode Hpg H1 H2.
  apply runs_bind, runs_modify. rewrite Hopen. apply runs_bind, runs_modify.
  apply runs_bind. eapply runs_eq; [reflexivity|]. apply runs_bind, runs_modify.
  eapply helper_init_linux; [done|done|exact Hr|exact Hp|exact He|exact Hst|].
  set (w2 := keep_string (keep_string (zero_cache w))).
  match goal with |- runs _ ?w1 _ => change w1 with (with_inst i w2) end.
  eapply runs_mono.
  - apply (linux_init_runs pgd_of (c_sysmap e) rs k (set_kpgd k i) a m o (with_inst i w2) i');
      [exact Hpgd|done|by apply directory_flat|done|by apply (blank_with_inst i), blank_keep, blank_keep, fresh_blank|
       exact Hs|exact Ek|exact Ea|exact Hmode|exact Hpg|exact H1|exact H2].
  - intros r w' (-> & Hi & Hrd & Hl). split_and!; [done|exact Hi|exact Hrd|]. rewrite Hl.
    rewrite (init_mode_tables _ _ _ _ Hmode). change (inst (with_inst i ?x)) with i.
    change (live_maps (with_inst i w2)) with (live_maps w). generalize (tables i). lia.
Qed.

End InitFile.

(** ** Errors while opening, and closing *)

(** Decimal digits are read back. *)
Lemma hex_value_digit c : 48 <= c <= 57 -> hex_value c = Some (c - 48).
Proof. intros Hc. unfold hex_value. by rewrite !(proj2 (Z.leb_le _ _)) by lia. Qed.

Lemma digits_dec k n : 0 <= n < 10 ^ Z.of_nat k -> digits 10 0 (dec_digits k n) = n.
Proof.
  revert n. induction k as [|k IH]; intros n Hn; cbn [dec_digits]; [simpl in *; lia|].
  rewrite Nat2Z.inj_succ, Z.pow_succ_r in Hn by lia.
  pose proof (Z.mod_pos_bound n 10 ltac:(lia)) as Hm. pose proof (Z.div_mod n 10 ltac:(lia)) as Hd.
  assert (Hlast : forall acc, digits 10 acc [48 + n mod 10] = 10 * acc + n mod 10).
  { intros acc. cbn [digits]. rewrite hex_value_digit, (proj2 (Z.ltb_lt _ _)) by lia. lia. }
  rewrite digits_app.
  2:{ destruct (n <? 10); [constructor|].
      eapply Forall_impl; [|apply (dec_digits_Forall k (n / 10)), Z.div_pos; lia].
      intros c Hc. cbn beta in Hc. exists (c - 48). split; [by apply hex_value_digit|lia]. }
  rewrite Hlast. destruct (Z.ltb_spec n 10).
  - cbn [digits]. rewrite Z.mod_small by lia. lia.
  - rewrite IH by (split; [apply Z.div_pos; lia|apply Z.div_lt_upper_bound; lia]). lia.
Qed.

Lemma strtol10_dec n : 0 <= n <= 2147483647 -> strtol10 (dec_digits 10 n) = n.
Proof.
  intros Hn. pose proof (digits_dec 10 n ltac:(simpl; lia)) as Hd.
  assert (Hc : exists c s, dec_digits 10 n = c :: s /\ 48 <= c <= 57).
  { pose proof (dec_digits_Forall 10 n ltac:(lia)) as Hf.
    destruct (dec_digits 10 n) as [|c s] eqn:Ed.
    - cbn [dec_digits] in Ed. by apply app_nil in Ed as [_ ?].
    - apply list.Forall_cons in Hf as [Hc _]. by exists c, s. }
  destruct Hc as (c & s & Es & Hc). unfold strtol10. rewrite Es in *. cbn [skip_space].
  assert (isspace c = false) as ->.
  { unfold isspace. rewrite (proj2 (Z.eqb_neq c 32)), (proj2 (Z.leb_gt c 13)) by lia.
    by rewrite andb_false_r. }
  assert (Hsign : (match c :: s with 45 :: s' => (true, s') | 43 :: s' => (false, s') | _ => (false, c :: s) end)
          = (false, c :: s)).
  { assert (c = 48 \/ c = 49 \/ c = 50 \/ c = 51 \/ c = 52 \/ c = 53 \/ c = 54 \/ c = 55 \/ c = 56 \/ c = 57)
      as Hcase by lia. by repeat destruct Hcase as [-> | Hcase]; subst. }
  rewrite Hsign, Hd. lia.
Qed.

Section Errors.
Context {E : XenEnv} {W : WholePages} {X : StoreEnv} {F : FileEnv} {P : ConfigParser} {H : HostEnv}.
Implicit Types (i : xa_instance) (w : world).

Lemma init_task_missing name rs w :
  blank w -> geometry (inst w) -> os_type (inst w) = XA_OS_LINUX ->
  sysmap_ready (inst w) name rs (str "init_task") -> map_find rs (str "init_task") = None ->
  runs access_init_task w (fun r w' => r = (None, 0) /\ inst w' = flip_pae (inst w)).
Proof.
  intros Hb Hg Ho Hs Ea. apply runs_bind. eapply runs_mono.
  { eapply kernel_sym_linux; [done|done|]. by eapply linux_symbol_missing. }
  intros r w1 (-> & Hb1 & Hi1 & Hl1). apply runs_bind, runs_modify.
  eapply kernel_sym_linux; [done|by cbn; rewrite Hi1|].
  eapply runs_mono; [eapply (linux_symbol_missing name rs); [done| |done]|].
  { cbn [inst with_inst]. by rewrite Hi1. }
  intros r w2 (-> & _ & Hi2 & _). split; [done|]. rewrite Hi2. cbn [inst with_inst]. by rewrite Hi1.
Qed.

(** In lax mode a Linux guest whose System.map lacks [init_task] makes
    [linux_init] read through a NULL pointer: the error is let pass and the
    page that could not be mapped is used. *)
Theorem lax_init_null_pointer name rs k w (i := inst w) :
  blank w -> geometry i -> hvm i <> 0 -> os_type i = XA_OS_LINUX -> error_mode i = XA_FAILSOFT ->
  sysmap_ready i name rs (str "swapper_pg_dir") -> map_find rs (str "swapper_pg_dir") = Some k ->
  map_find rs (str "init_task") = None ->
  linux_init w = Fault.
Proof.
  intros Hb Hg Hh Ho He (Hs & Hn & Hr & Hrs & Hsym) Ek Ea. unfold linux_init.
  erewrite bind_eq by by apply (lookup_sysmap_runs i name rs). rewrite Ek.
  erewrite bind_eq by done. cbn [Z.eqb XA_SUCCESS XA_FAILURE].
  set (w1 := with_inst _ w).
  assert (read_kpgd w1 = Ret (XA_SUCCESS, w1)) as Hk.
  { unfold read_kpgd. erewrite bind_eq by done. unfold w1. cbn [inst with_inst set_kpgd hvm].
    by rewrite (proj2 (Z.eqb_neq _ _)) by done. }
  erewrite bind_eq by exact Hk. cbn [Z.eqb XA_SUCCESS XA_FAILURE].
  destruct (init_task_missing name rs w1) as (r & w2 & Hm & -> & Hi2); try done.
  { split_and!; try done. repeat constructor; discriminate. }
  erewrite bind_eq by exact Hm. cbn [fst snd].
  assert (xa_report_error XA_EMINOR w2 = Ret (XA_SUCCESS, w2)) as Hrep.
  { unfold xa_report_error. erewrite bind_eq by done. rewrite Hi2.
    cbn [error_mode flip_pae set_pae w1 inst with_inst set_kpgd]. fold i. by rewrite He. }
  erewrite bind_eq by exact Hrep. done.
Qed.

(** The memory size of a Xen domain is its target in kilobytes times 1024
    modulo 2^32: exact below 4 GB, and a domain of exactly 4 GB (or a
    multiple) is reported to have no memory, which is an error. *)
Theorem memory_size_wraps w kb (i := inst w) :
  mode i = XA_MODE_XEN -> 0 <= kb <= 2147483647 ->
  (length (str "/local/domain/" ++ dec (s32 (domain_id (m_xen i))) ++ str "/memory/target") < 100)%nat ->
  xs_read (str "/local/domain/" ++ dec (s32 (domain_id (m_xen i))) ++ str "/memory/target") =
    Some (dec_digits 10 kb) ->
  get_memory_size w =
  Ret (if u32 (kb * 1024) =? 0 then XA_FAILURE else XA_SUCCESS,
       with_inst (set_xen_size (u32 (kb * 1024)) i) w) /\
  (kb < 4194304 -> u32 (kb * 1024) = kb * 1024).
Proof.
  intros Hm Hkb Hlen Hx. split; [|intros; apply u32_small; lia].
  unfold get_memory_size. erewrite bind_eq by done. fold i. rewrite Hm. cbn [Z.eqb XA_MODE_XEN].
  unfold sprintf_100. rewrite (proj2 (Nat.ltb_lt _ _)) by done.
  erewrite bind_eq by done. rewrite Hx. cbn [of_option]. rewrite bind_ret_l.
  rewrite strtol10_dec by done. erewrite bind_eq by done. by destruct (u32 (kb * 1024) =? 0).
Qed.

Lemma destroy_runs w lc lp :
  cached w lc -> holds (pid_cache w) lp ->
  runs xa_destroy w (fun r w' =>
    r = (if xc_interface_close (xc_handle (m_xen (inst w))) =? XA_FAILURE then XA_FAILURE else XA_SUCCESS) /\
    fresh w' /\ nodes (cache w') = ∅ /\ nodes (pid_cache w') = ∅ /\
    inst w' = set_domain_id 0 (inst w) /\
    live_maps w' = live_maps w - match live_pfn_to_mfn_table (m_xen (inst w)) with Some _ => 1 | None => 0 end /\
    strings w' = strings w).
Proof.
  intros Hc Hp. apply runs_bind, runs_modify, runs_bind.
  set (w1 := with_inst _ w).
  assert (Hmap : runs (match live_pfn_to_mfn_table (m_xen (inst w1)) with
                       | Some _ => munmap | None => mret tt end : M world unit) w1
    (fun _ w2 => cached w2 lc /\ holds (pid_cache w2) lp /\ inst w2 = inst w1 /\
       live_maps w2 = live_maps w - match live_pfn_to_mfn_table (m_xen (inst w)) with Some _ => 1 | None => 0 end /\
       strings w2 = strings w)).
  { change (live_pfn_to_mfn_table (m_xen (inst w1))) with (live_pfn_to_mfn_table (m_xen (inst w))).
    destruct (live_pfn_to_mfn_table _); [by apply runs_modify|]. apply runs_ret.
    split_and!; try done. simpl. lia. }
  apply runs_bind, runs_gets, runs_bind. eapply runs_mono; [exact Hmap|].
  intros _ w2 (Hc2 & Hp2 & Hi2 & Hl2 & Hs2). apply runs_bind.
  eapply runs_mono; [by eapply destroy_refines|].
  intros _ w3 (_ & (Hc3 & Hi3 & Hpc3 & Hm3 & _) & Hn3 & _ & Hs3). apply runs_bind.
  eapply runs_mono; [eapply destroy_pid_refines; by rewrite Hpc3|].
  intros _ w4 (_ & (Hp4 & Hi4 & [Hcc4 Hs4] & Hm4 & _) & Hn4 & _).
  apply runs_ret, runs_bind, runs_gets. rewrite Hi4, Hi3, Hi2.
  cbn [Z.eqb XA_SUCCESS XA_FAILURE orb]. unfold w1. cbn [inst with_inst].
  change (xc_handle (m_xen (set_domain_id 0 (inst w)))) with (xc_handle (m_xen (inst w))).
  assert (Hpost : fresh w4 /\ nodes (cache w4) = ∅ /\ nodes (pid_cache w4) = ∅ /\
    inst w4 = set_domain_id 0 (inst w) /\
    live_maps w4 = live_maps w - match live_pfn_to_mfn_table (m_xen (inst w)) with Some _ => 1 | None => 0 end /\
    strings w4 = strings w).
  { split; [split; [unfold cached in *; by rewrite Hcc4, Hs4|done]|]. rewrite Hcc4. split_and!; try done.
    - by rewrite Hi4, Hi3, Hi2.
    - lia.
    - by rewrite Hs4, Hs3. }
  by destruct (xc_interface_close _ =? XA_FAILURE); apply runs_ret.
Qed.

(** C31: closing an instance frees every node of both caches, whatever they
    hold, and unmaps the pfn-to-mfn table if one was built; it fails exactly
    when the libxc handle cannot be closed.  No string is freed: the names of
    the cache entries and the copies that the instance points to stay
    allocated. *)
Theorem destroy_correct w lc lp :
  cached w lc -> holds (pid_cache w) lp ->
  runs xa_destroy w (fun r w' =>
    r = (if xc_interface_close (xc_handle (m_xen (inst w))) =? XA_FAILURE then XA_FAILURE else XA_SUCCESS) /\
    fresh w' /\ nodes (cache w') = ∅ /\ nodes (pid_cache w') = ∅ /\
    inst w' = set_domain_id 0 (inst w) /\
    live_maps w' = live_maps w - match live_pfn_to_mfn_table (m_xen (inst w)) with Some _ => 1 | None => 0 end /\
    strings w' = strings w).
Proof. apply destroy_runs. Qed.
End Errors.

(** *** Witnesses *)

#[local] Existing Instance linux_env.
#[local] Existing Instance linux_whole.

Definition core_files : FileEnv := {|
  read_file name :=
    if decide (name = str "/etc/xenaccess.conf") then Some []
    else if decide (name = str "/boot/System.map") then Some (print_map sample_map) else None;
  malloc_row := [] |}.

Definition core_host : HostEnv := {|
  xc_interface_open := Some 3;
  xc_interface_close _ := 0;
  xc_domain_getinfo _ := None;
  xc_version := 0x30001;
  xc_extraversion := str ".0";
  open_image _ := true;
  image_stat := Some 0x100000 |}.

(** What the sample configuration says of the sample guest. *)
Definition sample_entry : xa_config_entry :=
  ConfigEntry (str "fedora") (str "/boot/System.map") (str "Linux") [16; 20; 24; 12; 128; 0; 0].

Definition opened_guest : xa_instance :=
  set_kpgd 0xC0001000 (file_instance zero_instance (str "fedora") XA_FAILSOFT 0x100000 sample_entry).

Lemma fresh_guest i : fresh (guest_world i).
Proof. split; [apply guest_cached|apply holds_empty]. Defined.

Lemma opened_page :
  @page_at linux_env opened_guest PROT_READ (kv2p opened_guest 0xC0005000) =
  (Some (guest_frame linux_image 0x5000), 0).
Proof.
  assert (@kv2p linux_env opened_guest 0xC0005000 = 0x5000) as -> by (vm_compute; reflexivity).
  reflexivity.
Qed.


Lemma lax_init_null_pointer_witness :
  @linux_init linux_env guest_store
    {| read_file name := if decide (name = str "/boot/System.map")
                         then Some (print_map (take 2 sample_map)) else None; malloc_row := [] |}
    (guest_world lin_map) = Fault.
Proof.
  apply (@lax_init_null_pointer linux_env guest_store _ (str "/boot/System.map")
           (take 2 sample_map) 0xC0001000 (guest_world lin_map)).
  - apply fresh_blank, fresh_guest.
  - done.
  - discriminate.
  - reflexivity.
  - reflexivity.
  - split_and!; [reflexivity|discriminate|reflexivity|apply Forall_take, sample_map_ok|].
    repeat constructor; discriminate.
  - reflexivity.
  - reflexivity.
Defined.

Lemma memory_size_wraps_witness :
  exists w', @get_memory_size {| xs_read _ := Some (str "4194304"); xs_directory _ := [] |} core_host
    (guest_world pv_inst) = Ret (XA_FAILURE, w') /\ xen_size (m_xen (inst w')) = 0.
Proof.
  eexists. split.
  - apply (@memory_size_wraps {| xs_read _ := Some (str "4194304"); xs_directory _ := [] |} core_host
             (guest_world pv_inst) 4194304).
    + reflexivity.
    + lia.
    + simpl. lia.
    + reflexivity.
  - vm_compute. reflexivity.
Defined.

Lemma destroy_correct_witness :
  @runs _ _ (@xa_destroy core_host) (guest_world pv_inst) (fun r w' => r = XA_SUCCESS /\ nodes (cache w') = ∅).
Proof.
  eapply runs_mono.
  - apply (@destroy_correct core_host (guest_world pv_inst) [] []); [apply guest_cached|apply holds_empty].
  - intros r w' (-> & _ & Hn & _). split; [reflexivity|exact Hn].
Defined.
