(* ===== verification/XaVm.v ===== *)
(** * Opening a running domain

    The other way into the library: [xa_init_vm_id_strict] and its siblings,
    for a Linux domain, fully virtualised or paravirtual.  What XenStore, libxc, the
    configuration and the System.map must say is spelled out, and the
    instance that results is determined by it.  The same is done for an image
    file, so that the programs have one record of assumptions for each. *)

From Stdlib Require Import String.
From S2P Require Import Prelude CStr Dll XaTypes XaMap XaPhys Guest PageTable XaCache XaAccess Symbols.
From S2P Require Import XaStore ProcList Linux SymAccess WindowsPe Windows XaApi Config XaCore.

(** The version string of the hypervisor. *)
Definition version_string `{HostEnv} : cstr :=
  dec (Z.shiftr (s32 xc_version) 16) ++ str "." ++
  dec (Z.land (s32 xc_version) (Z.shiftl 1 16 - 1)) ++ xc_extraversion.

(** A node below the directory of a domain in XenStore. *)
Definition dom_path (d : Z) (leaf : cstr) : cstr := str "/local/domain/" ++ dec (s32 d) ++ leaf.

Section Vm.
Context {E : XenEnv} {W : WholePages} {X : StoreEnv} {F : FileEnv} {P : ConfigParser} {H : HostEnv}.
Implicit Types (i : xa_instance) (w : world).

(** Whether a node of the domain's image directory ends in [suffix]. *)
Definition image_node (vmpath leaf suffix : cstr) : bool :=
  match xs_read (vmpath ++ leaf) with Some s => ends_with suffix s | None => false end.

(** Domain [dom] has [kb] kilobytes of memory; [h] says that it is fully
    virtualised, by its loader or its type. *)
Record dom_store (dom kb : Z) (vmpath : cstr) (h : Z) : Prop := {
  vs_vm : xs_read (dom_path dom (str "/vm")) = Some vmpath;
  vs_hvm : h = Z.b2z (image_node vmpath (str "/image/kernel") (str "hvmloader") ||
                      image_node vmpath (str "/image/ostype") (str "hvm"));
  vs_target : xs_read (dom_path dom (str "/memory/target")) = Some (dec_digits 10 kb);
  vs_kb : 0 < kb < 4194304;
  vs_vmpath : (length (vmpath ++ str "/image/kernel") < 100)%nat;
  vs_paths : (length (dom_path dom (str "/memory/target")) < 100)%nat }.

(** What the operating system of the configuration adds to the instance, and
    how it is looked at. *)
Definition supported (os : Z) : Prop := os = XA_OS_LINUX \/ os = XA_OS_WINDOWS.
Definition os_name (os : Z) : cstr := if os =? XA_OS_LINUX then str "Linux" else str "Windows".
Definition os_offset (os : Z) : Z := if os =? XA_OS_LINUX then 0xc0000000 else 0x80000000.
Definition os_entry (os : Z) (e : xa_config_entry) i : xa_instance :=
  (if os =? XA_OS_LINUX then copy_linux e else copy_windows e) (set_os_type os i).
Definition os_init (n : nat) (os : Z) : M world Z :=
  if os =? XA_OS_LINUX then linux_init else windows_init n.

(** What the control registers, the page layout and the size of the domain add
    to the instance. *)
Definition page_layers (off kb h : Z) (ctrlreg : Z -> Z) i : xa_instance :=
  set_xen_size (kb * 1024) (set_hvm h
    (set_page_size 4096 (set_page_shift 12 (set_page_offset off
      (set_cr3 (Z.land (ctrlreg 3) 0xFFFFF000)
        (set_pse (xa_get_bit (ctrlreg 4) 4) (set_pae (xa_get_bit (ctrlreg 4) 5) i))))))).

(** The instance as it is when the operating system is looked at: what the
    domain, its version, its configuration, its control registers and its size
    add to it. *)
Definition vm_layers (os f kb h : Z) (version : Z) (ctrlreg : Z -> Z) (type : cstr) (e : xa_config_entry) i
  : xa_instance :=
  page_layers (os_offset os) kb h ctrlreg
    (os_entry os e (set_sysmap (Some (c_sysmap e))
      (set_image_type (Some type)
        (set_xen_version version (set_xen_info f i))))).

Definition vm_instance (os handle dom f kb h : Z) (ctrlreg : Z -> Z) (type : cstr) (error_mode_ : Z)
    (e : xa_config_entry) : xa_instance :=
  vm_layers os f kb h (match_version version_string known_versions) ctrlreg type e
    (set_m_xen (XenSource handle dom 0 0 0 None 0)
       (set_error_mode error_mode_ (set_mode XA_MODE_XEN zero_instance))).

Lemma copy_entry_os os e w :
  supported os -> c_ostype e = os_name os ->
  copy_entry e w =
  Ret (XA_SUCCESS, with_inst (os_entry os e (set_sysmap (Some (c_sysmap e)) (inst w))) (keep_string w)).
Proof.
  intros [-> | ->] He; [by apply copy_entry_linux|].
  unfold copy_entry. erewrite bind_eq by done. erewrite bind_eq by done. by rewrite He.
Qed.

Lemma os_type_entry os e i : os_type (os_entry os e i) = os.
Proof. unfold os_entry. by destruct (os =? XA_OS_LINUX). Qed.

Lemma os_entry_xen os e i : mode (os_entry os e i) = mode i /\ m_xen (os_entry os e i) = m_xen i.
Proof. unfold os_entry. by destruct (os =? XA_OS_LINUX). Qed.

Lemma sprintf_100_ok {S} (s : cstr) (w : S) : (length s < 100)%nat -> sprintf_100 s w = Ret (s, w).
Proof. intros Hl. unfold sprintf_100. by rewrite (proj2 (Nat.ltb_lt _ _)). Qed.

Lemma dom_path_short d leaf leaf' :
  (length (dom_path d leaf') < 100)%nat -> (length leaf <= length leaf')%nat ->
  (length (dom_path d leaf) < 100)%nat.
Proof. unfold dom_path. rewrite !length_app. lia. Qed.

(** *** The steps of [helper_init] *)

Lemma init_domain_info_vm f w :
  mode (inst w) = XA_MODE_XEN -> xc_domain_getinfo (domain_id (m_xen (inst w))) = Some f ->
  (length version_string < 100)%nat ->
  init_domain_info w =
  Ret (XA_SUCCESS, with_inst (set_xen_version (match_version version_string known_versions)
                                (set_xen_info f (inst w))) w).
Proof.
  intros Hm Hf Hv. unfold init_domain_info. erewrite bind_eq by done. rewrite Hm, Hf.
  cbn [Z.eqb XA_MODE_XEN]. erewrite bind_eq by done.
  unfold init_xen_version. fold version_string. erewrite bind_eq; [done|].
  by erewrite bind_eq by by apply sprintf_100_ok.
Qed.

Lemma read_config_vm os text type e w :
  supported os ->
  mode (inst w) = XA_MODE_XEN ->
  xs_read (dom_path (domain_id (m_xen (inst w))) (str "/name")) = Some type ->
  (length (dom_path (domain_id (m_xen (inst w))) (str "/name")) < 100)%nat ->
  read_file (str "/etc/xenaccess.conf") = Some text -> xa_parse_config text type = (0, e) ->
  c_ostype e = os_name os ->
  read_config_file w =
  Ret (XA_SUCCESS,
       with_inst (os_entry os e (set_sysmap (Some (c_sysmap e)) (set_image_type (Some type) (inst w))))
         (keep_string (keep_string w))).
Proof.
  intros Hos Hm Hx Hl Hr Hp He. unfold read_config_file. rewrite Hr. cbv beta iota.
  erewrite bind_eq.
  2:{ unfold name_domain. erewrite bind_eq by done. rewrite Hm. cbn [Z.eqb XA_MODE_XEN].
      erewrite bind_eq by by apply sprintf_100_ok. fold (dom_path (domain_id (m_xen (inst w))) (str "/name")).
      rewrite Hx. erewrite bind_eq by done. by erewrite bind_eq by done. }
  cbv beta iota. erewrite bind_eq by done. cbn [inst with_inst image_type set_image_type of_option].
  rewrite bind_ret_l, Hp. cbn [Z.eqb negb]. by rewrite (copy_entry_os os).
Qed.

Lemma get_page_info_vm ctrlreg w :
  xc_vcpu_getcontext (domain_id (m_xen (inst w))) = Some ctrlreg -> xa_get_bit (ctrlreg 0) 31 <> 0 ->
  get_page_info_xen w =
  Ret (XA_SUCCESS,
       with_inst (set_cr3 (Z.land (ctrlreg 3) 0xFFFFF000)
         (set_pse (xa_get_bit (ctrlreg 4) 4) (set_pae (xa_get_bit (ctrlreg 4) 5) (inst w)))) w).
Proof.
  intros Hc Hb%Z.eqb_neq. unfold get_page_info_xen. erewrite bind_eq by done. by rewrite Hc, Hb.
Qed.

Lemma ishvm_eq dom vmpath w :
  xs_read (dom_path dom (str "/vm")) = Some vmpath ->
  (length (dom_path dom (str "/vm")) < 100)%nat -> (length (vmpath ++ str "/image/kernel") < 100)%nat ->
  xa_ishvm dom w = Ret (Z.b2z (image_node vmpath (str "/image/kernel") (str "hvmloader") ||
                               image_node vmpath (str "/image/ostype") (str "hvm")), w).
Proof.
  intros Hv Hp Hl. unfold xa_ishvm. erewrite bind_eq.
  2:{ unfold xa_get_vmpath. fold (dom_path dom (str "/vm")).
      erewrite bind_eq; [done|by apply sprintf_100_ok]. }
  rewrite Hv. cbn [of_option]. rewrite bind_ret_l.
  erewrite bind_eq by (apply sprintf_100_ok; exact Hl).
  fold (image_node vmpath (str "/image/kernel") (str "hvmloader")).
  destruct (image_node vmpath (str "/image/kernel") (str "hvmloader")); [done|].
  erewrite bind_eq by (apply sprintf_100_ok; rewrite length_app in Hl |- *; exact Hl).
  fold (image_node vmpath (str "/image/ostype") (str "hvm")).
  by destruct (image_node vmpath (str "/image/ostype") (str "hvm")).
Qed.

Lemma ishvm_vm dom kb vmpath h w :
  dom_store dom kb vmpath h -> xa_ishvm dom w = Ret (h, w).
Proof.
  intros [Hv -> _ _ Hl Hp]. apply ishvm_eq; [done| |done].
  eapply dom_path_short; [exact Hp|simpl; lia].
Qed.

Lemma init_hvm_vm dom kb vmpath h w :
  mode (inst w) = XA_MODE_XEN -> domain_id (m_xen (inst w)) = dom ->
  dom_store dom kb vmpath h ->
  init_hvm w = Ret (tt, with_inst (set_hvm h (inst w)) w).
Proof.
  intros Hm Hd Hs. unfold init_hvm. erewrite bind_eq by done. rewrite Hm, Hd. cbn [Z.eqb XA_MODE_XEN].
  by erewrite bind_eq by by eapply ishvm_vm.
Qed.

Lemma get_memory_size_vm dom kb vmpath h w :
  mode (inst w) = XA_MODE_XEN -> domain_id (m_xen (inst w)) = dom ->
  dom_store dom kb vmpath h ->
  get_memory_size w = Ret (XA_SUCCESS, with_inst (set_xen_size (kb * 1024) (inst w)) w).
Proof.
  intros Hm Hd Hs. pose proof (vs_kb _ _ _ _ Hs) as Hkb.
  destruct (memory_size_wraps w kb Hm) as [Hsz Hex]; [lia|rewrite Hd; by apply Hs..|].
  rewrite Hex in Hsz by lia. rewrite (proj2 (Z.eqb_neq (kb * 1024) 0)) in Hsz by lia. exact Hsz.
Qed.

Lemma checked_eq m t k w w' (Q : Z -> world -> Prop) :
  m w = Ret (XA_SUCCESS, w') -> runs (k XA_SUCCESS) w' Q -> runs (checked m t k) w Q.
Proof. intros Hm Hk. apply checked_ok. by eapply runs_eq. Qed.

Lemma get_page_layout_vm dom ctrlreg w :
  mode (inst w) = XA_MODE_XEN -> domain_id (m_xen (inst w)) = dom ->
  xc_vcpu_getcontext dom = Some ctrlreg -> xa_get_bit (ctrlreg 0) 31 <> 0 ->
  init_page_layout w =
  Ret (XA_SUCCESS,
       with_inst (set_cr3 (Z.land (ctrlreg 3) 0xFFFFF000)
         (set_pse (xa_get_bit (ctrlreg 4) 4) (set_pae (xa_get_bit (ctrlreg 4) 5) (inst w)))) w).
Proof.
  intros Hm Hd Hc Hb. unfold init_page_layout. erewrite bind_eq by done. rewrite Hm. cbn [Z.eqb XA_MODE_XEN].
  apply get_page_info_vm; [by rewrite Hd|done].
Qed.

(** The part of [helper_init] between the configuration and the operating
    system. *)
Lemma page_layers_runs dom kb vmpath h ctrlreg i w (k : Z -> M world Z) (Q : Z -> world -> Prop) :
  inst w = i -> mode i = XA_MODE_XEN -> domain_id (m_xen i) = dom -> dom_store dom kb vmpath h ->
  xc_vcpu_getcontext dom = Some ctrlreg -> xa_get_bit (ctrlreg 0) 31 <> 0 ->
  runs (k XA_SUCCESS)
    (with_inst (page_layers (if os_type i =? XA_OS_LINUX then 0xc0000000
                             else if os_type i =? XA_OS_WINDOWS then 0x80000000 else 0)
                  kb h ctrlreg i) w) Q ->
  runs (checked init_page_layout XA_ECRITICAL (fun _ =>
          _ ← init_page_offset; _ ← init_hvm; checked get_memory_size XA_ECRITICAL k)) w Q.
Proof.
  intros Hi Hm Hd Hst Hctx Hpg HQ. subst i.
  eapply checked_eq; [by eapply get_page_layout_vm|].
  cbn [inst with_inst]. apply runs_bind, runs_modify. cbn [inst with_inst].
  apply runs_bind. eapply runs_eq; [by eapply init_hvm_vm|].
  eapply checked_eq; [by eapply get_memory_size_vm|].
  exact HQ.
Qed.

Lemma helper_init_vm os n dom f text e kb type vmpath h ctrlreg w (Q : Z -> world -> Prop) :
  supported os ->
  mode (inst w) = XA_MODE_XEN -> domain_id (m_xen (inst w)) = dom ->
  xc_domain_getinfo dom = Some f ->
  (length version_string < 100)%nat -> dom_store dom kb vmpath h ->
  xs_read (dom_path dom (str "/name")) = Some type ->
  xc_vcpu_getcontext dom = Some ctrlreg -> xa_get_bit (ctrlreg 0) 31 <> 0 ->
  read_file (str "/etc/xenaccess.conf") = Some text ->
  xa_parse_config text type = (0, e) -> c_ostype e = os_name os ->
  runs (os_init n os)
    (with_inst (vm_layers os f kb h (match_version version_string known_versions) ctrlreg type e (inst w))
       (keep_string (keep_string w))) Q ->
  runs (helper_init n) w Q.
Proof.
  intros Hos Hm Hd Hi Hver Hst Hname Hctx Hpg Hr Hp He HQ. unfold vm_layers in HQ.
  eapply checked_eq; [apply (init_domain_info_vm f); [done|by rewrite Hd|done]|].
  revert HQ. generalize (match_version version_string known_versions). intros v HQ.
  set (i1 := set_xen_version v (set_xen_info f (inst w))) in *.
  assert (Hm1 : mode i1 = XA_MODE_XEN) by exact Hm.
  assert (Hd1 : domain_id (m_xen i1) = dom) by exact Hd.
  assert (Hc1 : forall i', with_inst i' (keep_string (keep_string (with_inst i1 w))) =
    with_inst i' (keep_string (keep_string w))) by done.
  clearbody i1. eapply checked_eq.
  { apply (read_config_vm os text type e); cbn [inst with_inst]; rewrite ?Hd1; try done.
    eapply dom_path_short; [by apply Hst|simpl; lia]. }
  cbn [inst with_inst]. rewrite Hc1.
  set (i2 := os_entry os e _) in *.
  destruct (os_entry_xen os e (set_sysmap (Some (c_sysmap e)) (set_image_type (Some type) i1))) as [Em Ex].
  assert (Hm2 : mode i2 = XA_MODE_XEN) by exact (eq_trans Em Hm1).
  assert (Hd2 : domain_id (m_xen i2) = dom) by (unfold i2; by rewrite Ex).
  assert (Ho2 : os_type i2 = os) by apply os_type_entry. clear Em Ex. clearbody i2.
  eapply (page_layers_runs dom kb vmpath h ctrlreg i2); [done|exact Hm2|exact Hd2|exact Hst|exact Hctx|exact Hpg|].
  rewrite Ho2.
  assert ((if os =? XA_OS_LINUX then 0xc0000000 else if os =? XA_OS_WINDOWS then 0x80000000 else 0) =
          os_offset os) as -> by by destruct Hos as [-> | ->].
  apply runs_bind, runs_gets. cbn [inst with_inst].
  change (os_type (page_layers _ _ _ _ i2)) with (os_type i2). rewrite Ho2.
  unfold os_init in HQ. by destruct Hos as [-> | ->].
Qed.

(** What is found when a domain is opened, whatever runs in it: the handle and
    the shared info frame of libxc, its name, path, kind and size in XenStore,
    its control registers, the configuration file and the entry in it. *)
Record domain_setup := DomainSetup {
  vm_handle : Z; vm_info : Z; vm_name : cstr; vm_path : cstr; vm_hvm : Z; vm_kb : Z;
  vm_ctrlreg : Z -> Z; vm_text : list Z; vm_entry : xa_config_entry }.

Record domain_ok (os dom : Z) (d : domain_setup) : Prop := {
  ok_open : xc_interface_open = Some (vm_handle d);
  ok_info : xc_domain_getinfo dom = Some (vm_info d);
  ok_version : (length version_string < 100)%nat;
  ok_name : xs_read (dom_path dom (str "/name")) = Some (vm_name d);
  ok_store : dom_store dom (vm_kb d) (vm_path d) (vm_hvm d);
  ok_context : xc_vcpu_getcontext dom = Some (vm_ctrlreg d);
  ok_paging : xa_get_bit (vm_ctrlreg d 0) 31 <> 0;
  ok_config : read_file (str "/etc/xenaccess.conf") = Some (vm_text d);
  ok_entry : xa_parse_config (vm_text d) (vm_name d) = (0, vm_entry d);
  ok_ostype : c_ostype (vm_entry d) = os_name os }.

(** The instance when its operating system is looked at. *)
Definition domain_instance (os dom error_mode_ : Z) (d : domain_setup) : xa_instance :=
  vm_instance os (vm_handle d) dom (vm_info d) (vm_kb d) (vm_hvm d) (vm_ctrlreg d) (vm_name d) error_mode_ (vm_entry d).

Lemma domain_init_runs n os dom error_mode_ d w (Q : Z -> world -> Prop) :
  supported os -> fresh (zero_cache w) -> domain_ok os dom d ->
  (forall w', inst w' = domain_instance os dom error_mode_ d -> blank w' -> live_maps w' = live_maps w ->
     runs (os_init n os) w' Q) ->
  runs (xa_init_vm_private n dom error_mode_) w Q.
Proof.
  intros Hos Hf [Ho Hi Hver Hname Hst Hctx Hpg Hr Hp He] HQ.
  apply runs_bind, runs_modify, runs_bind, runs_modify. rewrite Ho.
  apply runs_bind, runs_modify, runs_bind, runs_modify, runs_bind, runs_modify.
  eapply (helper_init_vm os); [exact Hos|done|done|exact Hi|exact Hver|exact Hst|exact Hname|exact Hctx|exact Hpg|exact Hr|exact Hp|exact He|].
  match goal with |- runs _ ?w1 _ =>
    change w1 with (with_inst (domain_instance os dom error_mode_ d) (keep_string (keep_string (zero_cache w)))) end.
  apply HQ; [done| |done]. apply blank_with_inst, blank_keep, blank_keep, fresh_blank, Hf.
Qed.

Lemma domain_geometry os dom error_mode_ d :
  let i := domain_instance os dom error_mode_ d in
  geometry i /\ hvm i = vm_hvm d /\ mode i = XA_MODE_XEN /\ os_type i = os /\ page_offset i = os_offset os /\
  xen_size (m_xen i) = vm_kb d * 1024 /\ live_pfn_to_mfn_table (m_xen i) = None.
Proof.
  cbv zeta. unfold domain_instance, vm_instance, vm_layers, page_layers, os_entry.
  by destruct (os =? XA_OS_LINUX).
Qed.

(** For Linux: the rows of the System.map with the addresses of
    [swapper_pg_dir] and [init_task], and the page and offset of
    [init_task]. *)
Record vm_setup := VmSetup {
  vm_domain :> domain_setup; vm_rows : list map_row;
  vm_kpgd : Z; vm_init_task : Z; vm_page : mapping; vm_offset : Z }.

Definition vm_before (dom error_mode_ : Z) (s : vm_setup) : xa_instance :=
  domain_instance XA_OS_LINUX dom error_mode_ s.

(** [i'] is the instance with its page directory, and its table in a
    paravirtual domain, in the paging mode in which [init_task] is found. *)
Record vm_ok (dom error_mode_ : Z) (s : vm_setup) (i' : xa_instance) : Prop := {
  ok_domain : domain_ok XA_OS_LINUX dom s;
  ok_sysmap : sysmap_ready (vm_before dom error_mode_ s) (c_sysmap (vm_entry s)) (vm_rows s)
                (str "swapper_pg_dir");
  ok_kpgd : map_find (vm_rows s) (str "swapper_pg_dir") = Some (vm_kpgd s);
  ok_task : map_find (vm_rows s) (str "init_task") = Some (vm_init_task s);
  ok_mode : exists i1, directory_ok (vm_kpgd s) (vm_before dom error_mode_ s) i1 /\
              init_mode i1 (vm_init_task s) i';
  ok_page : page_at i' PROT_READ (kv2p i' (vm_init_task s)) = (Some (vm_page s), vm_offset s);
  ok_link : 0 <= vm_offset s + l_tasks_offset (os_linux i') /\
            vm_offset s + l_tasks_offset (os_linux i') + 4 <= 4096 }.

(** The instance that is left, with the head of the task list. *)
Definition vm_opened (s : vm_setup) (i' : xa_instance) : xa_instance :=
  set_init_task (field (vm_page s) (vm_offset s + l_tasks_offset (os_linux i'))) i'.

(** The kernel's page directory and the paging mode are all that changes in an
    image. *)
Lemma init_mode_same k i a i' :
  init_mode (set_kpgd k i) a i' ->
  page_shift i' = page_shift i /\ page_size i' = page_size i /\ os_type i' = os_type i /\
  m_xen i' = m_xen i /\ sysmap i' = sysmap i.
Proof. intros [-> | [-> _]]; split_and!; reflexivity. Qed.

Lemma init_mode_os_linux k i a i' : init_mode (set_kpgd k i) a i' -> os_linux i' = os_linux i.
Proof. intros [-> | [-> _]]; reflexivity. Qed.

(** In a domain, the table is added. *)
Lemma directory_mode_same k i i1 a i' :
  directory_ok k i i1 -> init_mode i1 a i' ->
  geometry i' = geometry i /\ os_type i' = os_type i /\ os_linux i' = os_linux i /\
  sysmap i' = sysmap i /\ hvm i' = hvm i /\ mode i' = mode i /\
  xen_size (m_xen i') = xen_size (m_xen i).
Proof.
  intros [Hd _] Hm. destruct (find_directory_same _ _ _ Hd) as (<- & <- & <- & <- & <- & <- & <- & _).
  destruct Hm as [-> | [-> _]]; split_and!; reflexivity.
Qed.

Lemma directory_mode_table k i i1 a i' :
  directory_ok k i i1 -> init_mode i1 a i' -> live_pfn_to_mfn_table (m_xen i) = None ->
  live_pfn_to_mfn_table (m_xen i') = (if hvm i =? 0 then fst <$> p2m_table i else None) /\
  (hvm i = 0 -> is_Some (p2m_table i)).
Proof.
  intros [Hd Ht] Hm Hn.
  assert (Hi1 : live_pfn_to_mfn_table (m_xen i') = live_pfn_to_mfn_table (m_xen i1))
    by (by destruct Hm as [-> | [-> _]]).
  rewrite Hi1. clear Hm Hi1. unfold find_directory in Hd. destruct (Z.eqb_spec (hvm i) 0) as [Hh|Hh].
  2:{ injection Hd as <-. by split. }
  apply bind_Some in Hd as (v & Hv & [= <-]). destruct (Ht Hh) as (Hp & _).
  change (live_pfn_to_mfn_table (m_xen (set_kpgd v ?x))) with (live_pfn_to_mfn_table (m_xen x)).
  split; [exact (with_p2m_kept (set_kpgd _ i) Hn)|]. intros _.
  apply bind_Some in Hv as (m & Hm & _). revert Hm. unfold phys_frame. rewrite mfn_with_p2m by done.
  by destruct (p2m_table i).
Qed.

Lemma init_vm_runs n dom error_mode_ s i' pgd_of w :
  fresh (zero_cache w) -> (forall p, is_u32 (pgd_of p)) -> vm_ok dom error_mode_ s i' ->
  runs (xa_init_vm_private n dom error_mode_) w (fun r w' =>
    r = XA_SUCCESS /\ inst w' = vm_opened s i' /\
    ready (vm_opened s i') pgd_of (vm_rows s) (vm_init_task s) w' /\
    live_maps w' = live_maps w + tables (vm_opened s i')).
Proof.
  intros Hf Hpgd Hok. pose proof Hok as [Hd Hs Ek Ea (i1 & Hdir & Hmode) Hpage [H1 H2]].
  destruct (directory_mode_same _ _ _ _ _ Hdir Hmode) as (_ & _ & Hof & _).
  apply (domain_init_runs n XA_OS_LINUX dom error_mode_ s); [by left|done|done|].
  fold (vm_before dom error_mode_ s). intros w0 Hi0 Hb0 Hl0. rewrite <- Hl0.
  pose proof (domain_geometry XA_OS_LINUX dom error_mode_ s) as (Hg & Hh & _ & Ho & _ & _ & Ht).
  fold (vm_before dom error_mode_ s) in Hg, Hh, Ho, Ht. rewrite <- Hi0 in *.
  eapply runs_mono.
  - apply (linux_init_runs pgd_of (c_sysmap (vm_entry s)) (vm_rows s) (vm_kpgd s) i1 (vm_init_task s)
             (vm_page s) (vm_offset s) w0 i' Hpgd); try done; by rewrite <- Hof.
  - rewrite <- Hof. fold (vm_opened s i').
    intros r w' (-> & Hi' & Hrd & Hl). rewrite Hi' in Hrd. split_and!; [done|done|done|]. rewrite Hl.
    change (tables (vm_opened s i')) with (tables i'). unfold tables at 2. rewrite Ht. lia.
Qed.

(** What is known of the instance without looking at the guest. *)
Lemma vm_opened_spec dom error_mode_ s i' :
  vm_ok dom error_mode_ s i' ->
  geometry (vm_opened s i') /\ os_type (vm_opened s i') = XA_OS_LINUX /\
  mode (vm_opened s i') = XA_MODE_XEN /\
  sysmap_ready (vm_opened s i') (c_sysmap (vm_entry s)) (vm_rows s) (str "init_task").
Proof.
  intros Hok. pose proof (ok_mode _ _ _ _ Hok) as (i1 & Hdir & Hmode).
  pose proof (ok_sysmap _ _ _ _ Hok) as (Hs & Hn & Hr & Hrs & _).
  destruct (directory_mode_same _ _ _ _ _ Hdir Hmode) as (Eg & Eo & _ & Es & _ & Em & _).
  pose proof (domain_geometry XA_OS_LINUX dom error_mode_ s) as (Hg & _ & Hm & Ho & _).
  fold (vm_before dom error_mode_ s) in Hg, Hm, Ho. rewrite <- Eg in Hg. rewrite <- Eo in Ho.
  rewrite <- Em in Hm.
  split; [exact Hg|]. split; [exact Ho|]. split; [exact Hm|].
  split; [exact (eq_trans Es Hs)|]. split; [exact Hn|]. split; [exact Hr|]. split; [exact Hrs|].
  repeat constructor; discriminate.
Qed.

Lemma vm_opened_size dom error_mode_ s i' :
  vm_ok dom error_mode_ s i' ->
  xen_size (m_xen (vm_opened s i')) = vm_kb s * 1024 /\ hvm (vm_opened s i') = vm_hvm s.
Proof.
  intros Hok. pose proof (ok_mode _ _ _ _ Hok) as (i1 & Hdir & Hmode).
  destruct (directory_mode_same _ _ _ _ _ Hdir Hmode) as (_ & _ & _ & _ & Eh & _ & Ex).
  pose proof (domain_geometry XA_OS_LINUX dom error_mode_ s) as (_ & Hh & _ & _ & _ & Hx & _).
  fold (vm_before dom error_mode_ s) in Hh, Hx. split; [exact (eq_trans Ex Hx)|exact (eq_trans Eh Hh)].
Qed.

(** The table an open domain keeps. *)
Lemma vm_opened_table dom error_mode_ s i' :
  vm_ok dom error_mode_ s i' ->
  live_pfn_to_mfn_table (m_xen (vm_opened s i')) =
    (if vm_hvm s =? 0 then fst <$> p2m_table (vm_before dom error_mode_ s) else None) /\
  (vm_hvm s = 0 -> is_Some (p2m_table (vm_before dom error_mode_ s))).
Proof.
  intros Hok. pose proof (ok_mode _ _ _ _ Hok) as (i1 & Hdir & Hmode).
  pose proof (domain_geometry XA_OS_LINUX dom error_mode_ s) as (_ & Hh & _ & _ & _ & _ & Ht).
  fold (vm_before dom error_mode_ s) in Hh, Ht. rewrite <- Hh.
  exact (directory_mode_table _ _ _ _ _ Hdir Hmode Ht).
Qed.

(** C15: opening a Linux domain succeeds, whatever the instance's memory held
    before, and leaves an instance all of whose fields are determined by libxc,
    XenStore, the configuration, the System.map and the domain's memory: its
    size, hypervisor version, control registers and paging mode, page directory
    and task list.  The caches agree with the page tables.  Nothing stays
    mapped of a fully virtualised domain; of a paravirtual one the pfn-to-mfn
    table does, which the instance keeps. *)
Theorem init_vm_correct n dom error_mode_ s i' pgd_of w :
  fresh (zero_cache w) -> (forall p, is_u32 (pgd_of p)) -> vm_ok dom error_mode_ s i' ->
  runs (xa_init_vm_private n dom error_mode_) w (fun r w' =>
    r = XA_SUCCESS /\ inst w' = vm_opened s i' /\
    coherent (vm_opened s i') pgd_of w' /\
    live_pfn_to_mfn_table (m_xen (vm_opened s i')) =
      (if vm_hvm s =? 0 then fst <$> p2m_table (vm_before dom error_mode_ s) else None) /\
    live_maps w' = live_maps w + (if vm_hvm s =? 0 then 1 else 0)).
Proof.
  intros Hf Hp Hok. destruct (vm_opened_table _ _ _ _ Hok) as [Ht Hs].
  eapply runs_mono; [by apply init_vm_runs|].
  intros r w' (-> & Hi & [Hc _] & Hl). split_and!; try done. rewrite Hl. unfold tables. rewrite Ht.
  destruct (Z.eqb_spec (vm_hvm s) 0) as [Hh|]; [|done]. by destruct (Hs Hh) as [[t n0] ->].
Qed.
End Vm.

(** ** Opening an image, from an uninitialised instance *)

Section Image.
Context {E : XenEnv} {W : WholePages} {X : StoreEnv} {F : FileEnv} {P : ConfigParser} {H : HostEnv}.

Record image_setup := ImageSetup {
  im_text : list Z; im_entry : xa_config_entry; im_size : Z; im_rows : list map_row;
  im_kpgd : Z; im_init_task : Z; im_page : mapping; im_offset : Z }.

Definition image_before (i0 : xa_instance) (type : cstr) (error_mode_ : Z) (s : image_setup) : xa_instance :=
  file_instance i0 type error_mode_ (im_size s) (im_entry s).

Record image_ok (i0 : xa_instance) (filename type : cstr) (error_mode_ : Z) (s : image_setup)
    (i' : xa_instance) : Prop := {
  im_open : open_image filename = true;
  im_config : read_file (str "/etc/xenaccess.conf") = Some (im_text s);
  im_found : xa_parse_config (im_text s) (strndup type 256) = (0, im_entry s);
  im_linux : c_ostype (im_entry s) = str "Linux";
  im_stat : image_stat = Some (im_size s);
  im_sysmap : sysmap_ready (image_before i0 type error_mode_ s) (c_sysmap (im_entry s)) (im_rows s)
                (str "swapper_pg_dir");
  im_swapper : map_find (im_rows s) (str "swapper_pg_dir") = Some (im_kpgd s);
  im_task : map_find (im_rows s) (str "init_task") = Some (im_init_task s);
  im_mode : init_mode (set_kpgd (im_kpgd s) (image_before i0 type error_mode_ s)) (im_init_task s) i';
  im_at : page_at i' PROT_READ (kv2p i' (im_init_task s)) = (Some (im_page s), im_offset s);
  im_link : 0 <= im_offset s + l_tasks_offset (os_linux i') /\
            im_offset s + l_tasks_offset (os_linux i') + 4 <= 4096 }.

Definition image_opened (s : image_setup) (i' : xa_instance) : xa_instance :=
  set_init_task (field (im_page s) (im_offset s + l_tasks_offset (os_linux i'))) i'.

Lemma init_image_runs n filename type error_mode_ s i' pgd_of w :
  fresh (zero_cache w) -> (forall p, is_u32 (pgd_of p)) ->
  image_ok (inst w) filename type error_mode_ s i' ->
  runs (xa_init_file_private n filename type error_mode_) w (fun r w' =>
    r = XA_SUCCESS /\ inst w' = image_opened s i' /\
    ready (image_opened s i') pgd_of (im_rows s) (im_init_task s) w' /\ live_maps w' = live_maps w).
Proof.
  intros Hf Hpgd [Ho Hr Hp He Hst Hs Ek Ea Hmode Hpage [H1 H2]].
  pose proof (init_mode_os_linux _ _ _ _ Hmode) as Hof. unfold image_before in *.
  eapply runs_mono.
  - apply (init_file_runs n filename type error_mode_ (im_text s) (im_entry s) (im_size s) (im_rows s)
             (im_kpgd s) (im_init_task s) (im_page s) (im_offset s) pgd_of w i'); try done;
      by rewrite <- Hof.
  - rewrite <- Hof. fold (image_opened s i'). intros r w' (-> & Hi' & Hrd & Hl).
    rewrite Hi' in Hrd. by split_and!.
Qed.

Lemma image_opened_spec i0 filename type error_mode_ s i' :
  image_ok i0 filename type error_mode_ s i' ->
  geometry (image_opened s i') /\ os_type (image_opened s i') = XA_OS_LINUX /\
  m_xen (image_opened s i') = m_xen i0 /\
  sysmap_ready (image_opened s i') (c_sysmap (im_entry s)) (im_rows s) (str "init_task").
Proof.
  intros Hok. pose proof (im_mode _ _ _ _ _ _ Hok) as Hmode.
  pose proof (im_sysmap _ _ _ _ _ _ Hok) as (Hs & Hn & Hr & Hrs & _).
  destruct (init_mode_same _ _ _ _ Hmode) as (Hg1 & Hg2 & Ho & Ht & Hsm).
  split; [by split|]. split; [exact Ho|]. split; [exact Ht|].
  split; [exact (eq_trans Hsm Hs)|]. split; [exact Hn|]. split; [exact Hr|]. split; [exact Hrs|].
  repeat constructor; discriminate.
Qed.
End Image.

(** *** A running domain

    Domain 7, "fedora", one megabyte; three processes behind [init_task], the
    second of them with a pid that is negative as an [int], the third with a page of code, and two modules. *)

Definition vm_image : image :=
  [(0x1C00, 0x83);
   (0x5010, 0xC0006010);
   (0x6010, 0xC0007010); (0x6018, 1);
   (0x7010, 0xC0008010); (0x7018, 0xFFFFFFFB);
   (0x8010, 0xC0005010); (0x8018, 42);
   (0x8014, 0xC000C000); (0xC00C, 0xC000D000); (0xC080, 0x08048000); (0xC084, 0x08049000);
   (0xD080, 0xE003); (0xE120, 0xF003); (0xF000, 0x464C457F);
   (0x9020, 0xC000A010); (0xA010, 0xC000B010); (0xB010, 0xC0009020)] ++
  put_str 0xA018 (str "ext3") ++ put_str 0xB018 (str "jbd") ++
  put_str 0x6194 (str "init") ++ put_str 0x7194 (str "zombie") ++ put_str 0x8194 (str "sshd").

Definition vm_frame (a : Z) : mapping := Mapping 4096 (fun k => byte_at vm_image (4096 * (a / 4096) + k)).

Definition sample_ctrlreg (r : Z) : Z := if r =? 0 then 0x80000011 else if r =? 3 then 0x1000 else 0.

#[local] Instance vm_env : XenEnv := {|
  xc_map_foreign_range _ _ mfn :=
    Some (Mapping 4096 (fun k => byte_at vm_image (4096 * mfn + k)));
  xc_map_foreign_batch _ _ _ := None;
  xc_batch_result _ _ mfns := mfns;
  xc_vcpu_getcontext _ := Some sample_ctrlreg;
  xc_maximum_gpfn _ := 0xFF;
  shinfo_max_pfn _ := 0;
  shinfo_frame_list_list _ := 0;
  file_mmap _ _ _ := None;
  clock n := Z.of_nat n;
  indet := 0 |}.

#[local] Instance vm_whole : WholePages.
Proof. split; [by intros ???? [= <-]|done|done]. Defined.

Definition vm_xenstore_of (kb : Z) : StoreEnv := {|
  xs_read path :=
    if decide (path = str "/local/domain/7/name") then Some (str "fedora")
    else if decide (path = str "/local/domain/7/vm") then Some (str "/vm/1234")
    else if decide (path = str "/vm/1234/image/kernel") then Some (str "/usr/lib/xen/boot/hvmloader")
    else if decide (path = str "/local/domain/7/memory/target") then Some (dec_digits 10 kb)
    else None;
  xs_directory _ := [] |}.

#[local] Instance vm_xenstore : StoreEnv := vm_xenstore_of 1024.

#[local] Instance vm_files : FileEnv := {|
  read_file name :=
    if decide (name = str "/etc/xenaccess.conf") then Some []
    else if decide (name = str "/boot/System.map") then Some (print_map sample_map) else None;
  malloc_row := [] |}.

#[local] Instance vm_host : HostEnv := {|
  xc_interface_open := Some 3;
  xc_interface_close _ := 0;
  xc_domain_getinfo _ := Some 0x10;
  xc_version := 0x30003;
  xc_extraversion := str ".1";
  open_image _ := false;
  image_stat := None |}.

#[local] Existing Instance sample_parser.

Definition sample_vm_of (kb : Z) : vm_setup :=
  VmSetup (DomainSetup 3 0x10 (str "fedora") (str "/vm/1234") 1 kb
    sample_ctrlreg [] sample_entry) sample_map 0xC0001000 0xC0005000 (vm_frame 0x5000) 0.

Definition sample_instance_of (kb error_mode_ : Z) : xa_instance :=
  set_kpgd 0xC0001000 (vm_before 7 error_mode_ (sample_vm_of kb)).

Definition sample_vm : vm_setup := sample_vm_of 1024.
Definition sample_vm_instance (error_mode_ : Z) : xa_instance := sample_instance_of 1024 error_mode_.

Lemma sample_kv2p kb error_mode_ v a :
  kv2p (sample_vm_instance 0) v = a -> kv2p (sample_instance_of kb error_mode_) v = a.
Proof. done. Qed.

Lemma sample_domain_ok kb :
  0 < kb < 4194304 ->
  @domain_ok vm_env (vm_xenstore_of kb) vm_files sample_parser vm_host XA_OS_LINUX 7 (sample_vm_of kb).
Proof.
  intros Hkb. split; try reflexivity.
  - vm_compute. lia.
  - split; try reflexivity; [exact Hkb|vm_compute; lia..].
  - vm_compute. discriminate.
Qed.

Lemma sample_vm_ok_of kb error_mode_ :
  0 < kb < 4194304 ->
  @vm_ok vm_env (vm_xenstore_of kb) vm_files sample_parser vm_host 7 error_mode_ (sample_vm_of kb)
    (sample_instance_of kb error_mode_).
Proof.
  intros Hkb. split.
  - by apply sample_domain_ok.
  - split_and!; [reflexivity|discriminate|reflexivity|apply sample_map_ok|].
    repeat constructor; discriminate.
  - reflexivity.
  - reflexivity.
  - eexists. split; [by apply directory_flat|by left].
  - change (vm_init_task (sample_vm_of kb)) with 0xC0005000.
    erewrite sample_kv2p by (vm_compute; reflexivity). reflexivity.
  - change (os_linux (sample_instance_of kb error_mode_)) with (os_linux (sample_vm_instance 0)).
    vm_compute. split; discriminate.
Qed.

Lemma sample_vm_ok error_mode_ : vm_ok 7 error_mode_ sample_vm (sample_vm_instance error_mode_).
Proof. apply (sample_vm_ok_of 1024). lia. Qed.

Lemma fresh_guest_zero i : fresh (zero_cache (guest_world i)).
Proof. split; [apply guest_cached|apply holds_empty]. Defined.
