(* ===== verification/XaLax.v ===== *)
(** * Opening a domain without a configuration, and errors

    What [xa_init_vm_private] does when the configuration does not describe the
    domain: the lax mode goes on without an operating system, the strict mode
    fails.  The errors that both modes end at are stated here as well. *)

From Stdlib Require Import String.
From S2P Require Import Prelude CStr Dll XaTypes XaMap XaPhys Guest PageTable XaCache XaAccess Symbols.
From S2P Require Import XaStore ProcList Linux SymAccess WindowsPe Windows XaApi Config XaCore XaVm.

Section Lax.
Context {E : XenEnv} {W : WholePages} {X : StoreEnv} {F : FileEnv} {P : ConfigParser} {H : HostEnv}.
Implicit Types (i : xa_instance) (w : world).

(** Why the configuration is of no use, and what was learnt of the domain
    before that was found out: there is no file, the domain has no name, the
    file has no entry for the name or is not well formed, or the entry's
    operating system is not one of the two. *)
Inductive unconfigured (dom : Z) i : xa_instance -> Prop :=
| no_file :
    read_file (str "/etc/xenaccess.conf") = None -> unconfigured dom i i
| no_name text :
    read_file (str "/etc/xenaccess.conf") = Some text ->
    xs_read (dom_path dom (str "/name")) = None -> unconfigured dom i (set_image_type None i)
| no_entry text type err e :
    read_file (str "/etc/xenaccess.conf") = Some text ->
    xs_read (dom_path dom (str "/name")) = Some type ->
    xa_parse_config text type = (err, e) -> err <> 0 ->
    unconfigured dom i (set_image_type (Some type) i)
| no_system text type e :
    read_file (str "/etc/xenaccess.conf") = Some text ->
    xs_read (dom_path dom (str "/name")) = Some type ->
    xa_parse_config text type = (0, e) ->
    strncmp (c_ostype e) (str "Linux") CONFIG_STR_LENGTH <> 0 ->
    strncmp (c_ostype e) (str "Windows") CONFIG_STR_LENGTH <> 0 ->
    unconfigured dom i (set_sysmap (Some (c_sysmap e)) (set_image_type (Some type) i)).

Lemma unconfigured_same dom i i1 :
  unconfigured dom i i1 ->
  mode i1 = mode i /\ m_xen i1 = m_xen i /\ os_type i1 = os_type i /\ error_mode i1 = error_mode i.
Proof. by intros []. Qed.

Lemma name_domain_eq dom w :
  mode (inst w) = XA_MODE_XEN -> domain_id (m_xen (inst w)) = dom ->
  (length (dom_path dom (str "/name")) < 100)%nat ->
  name_domain w =
  Ret (match xs_read (dom_path dom (str "/name")) with Some _ => true | None => false end,
       with_inst (set_image_type (xs_read (dom_path dom (str "/name"))) (inst w))
         (match xs_read (dom_path dom (str "/name")) with Some _ => keep_string w | None => w end)).
Proof.
  intros Hm <- Hl. unfold name_domain. erewrite bind_eq by done. rewrite Hm. cbn [Z.eqb XA_MODE_XEN].
  erewrite bind_eq by by apply sprintf_100_ok. by destruct (xs_read _).
Qed.

(** The copies of strings made before it was found out stay. *)

Lemma read_config_unconfigured dom i1 w :
  mode (inst w) = XA_MODE_XEN -> domain_id (m_xen (inst w)) = dom ->
  (length (dom_path dom (str "/name")) < 100)%nat -> unconfigured dom (inst w) i1 ->
  exists c, read_config_file w = Ret (XA_FAILURE, with_inst i1 (Nat.iter c keep_string w)).
Proof.
  intros Hm Hd Hl Hu. unfold read_config_file.
  destruct Hu as [Hr|text Hr Hn|text type err e Hr Hn Hp He|text type e Hr Hn Hp H1 H2]; rewrite Hr.
  - exists 0%nat. by destruct w.
  - exists 0%nat. erewrite bind_eq by by eapply name_domain_eq. by rewrite Hn.
  - exists 1%nat. erewrite bind_eq by by eapply name_domain_eq. rewrite Hn. cbv iota.
    erewrite bind_eq by done. cbn [inst with_inst image_type set_image_type of_option].
    rewrite bind_ret_l, Hp. by rewrite (proj2 (Z.eqb_neq err 0)).
  - exists 2%nat. erewrite bind_eq by by eapply name_domain_eq. rewrite Hn. cbv iota.
    erewrite bind_eq by done. cbn [inst with_inst image_type set_image_type of_option].
    rewrite bind_ret_l, Hp. change (negb (0 =? 0)) with false. cbv iota.
    unfold copy_entry. erewrite bind_eq by done. erewrite bind_eq by done.
    by rewrite (proj2 (Z.eqb_neq _ 0) H1), (proj2 (Z.eqb_neq _ 0) H2).
Qed.

(** An error is let pass or ends the opening. *)
Lemma checked_passed m t k w w' (Q : Z -> world -> Prop) :
  m w = Ret (XA_FAILURE, w') -> report_error (error_mode (inst w')) t = XA_SUCCESS ->
  runs (k XA_SUCCESS) w' Q -> runs (checked m t k) w Q.
Proof.
  intros Hm Hr Hk. apply runs_bind. eapply runs_eq; [exact Hm|]. change (XA_FAILURE =? XA_FAILURE) with true.
  cbv iota. apply runs_bind. unfold xa_report_error. apply runs_bind, runs_gets. rewrite Hr. apply runs_ret. exact Hk.
Qed.

Lemma checked_ended m t k w w' (Q : Z -> world -> Prop) :
  m w = Ret (XA_FAILURE, w') -> report_error (error_mode (inst w')) t = XA_FAILURE ->
  Q XA_FAILURE w' -> runs (checked m t k) w Q.
Proof.
  intros Hm Hr HQ. apply runs_bind. eapply runs_eq; [exact Hm|]. change (XA_FAILURE =? XA_FAILURE) with true.
  cbv iota. apply runs_bind. unfold xa_report_error. apply runs_bind, runs_gets. rewrite Hr. by apply runs_ret, runs_ret.
Qed.

(** A critical error is never let pass. *)
Lemma critical error_mode_ : report_error error_mode_ XA_ECRITICAL = XA_FAILURE.
Proof. unfold report_error. destruct (_ =? XA_FAILHARD); [done|]. by destruct (_ =? XA_FAILSOFT). Qed.

(** The configuration was read, or its absence let pass. *)
Inductive config_passed (dom : Z) i : xa_instance -> Prop :=
| passed_found os text type e :
    supported os -> read_file (str "/etc/xenaccess.conf") = Some text ->
    xs_read (dom_path dom (str "/name")) = Some type ->
    xa_parse_config text type = (0, e) -> c_ostype e = os_name os ->
    config_passed dom i (os_entry os e (set_sysmap (Some (c_sysmap e)) (set_image_type (Some type) i)))
| passed_without i1 :
    error_mode i = XA_FAILSOFT -> unconfigured dom i i1 -> config_passed dom i i1.

Lemma os_entry_mode os e i : error_mode (os_entry os e i) = error_mode i.
Proof. unfold os_entry. by destruct (os =? XA_OS_LINUX). Qed.

Lemma config_passed_same dom i i1 :
  config_passed dom i i1 -> mode i1 = mode i /\ m_xen i1 = m_xen i /\ error_mode i1 = error_mode i.
Proof.
  intros [os text type e _ _ _ _ _|i1' _ Hu].
  - destruct (os_entry_xen os e (set_sysmap (Some (c_sysmap e)) (set_image_type (Some type) i))) as [-> ->].
    by rewrite os_entry_mode.
  - by destruct (unconfigured_same _ _ _ Hu) as (-> & -> & _ & ->).
Qed.

(** Copies of strings change nothing but the strings. *)
Lemma copied_blank c w :
  blank w -> blank (Nat.iter c keep_string w) /\ live_maps (Nat.iter c keep_string w) = live_maps w.
Proof. intros Hb. split; [by apply blank_copies|]. by induction c. Qed.

Lemma copies_inst c i i' w :
  with_inst i' (Nat.iter c keep_string (with_inst i w)) = with_inst i' (Nat.iter c keep_string w).
Proof.
  assert (Hc : forall w0, Nat.iter c keep_string (with_inst i w0) = with_inst i (Nat.iter c keep_string w0)).
  { intros w0. induction c as [|c IH]; [done|]. simpl. by rewrite IH. }
  by rewrite Hc.
Qed.

Lemma config_passed_runs dom i1 w (k : Z -> M world Z) (Q : Z -> world -> Prop) :
  mode (inst w) = XA_MODE_XEN -> domain_id (m_xen (inst w)) = dom ->
  (length (dom_path dom (str "/name")) < 100)%nat -> config_passed dom (inst w) i1 ->
  (forall c, runs (k XA_SUCCESS) (with_inst i1 (Nat.iter c keep_string w)) Q) ->
  runs (checked read_config_file XA_EMINOR k) w Q.
Proof.
  intros Hm Hd Hl [os text type e Hos Hr Hn Hp He|i1' Hs Hu] HQ.
  - eapply checked_eq; [|exact (HQ 2%nat)].
    apply (read_config_vm os text); by rewrite ?Hd.
  - destruct (read_config_unconfigured dom i1' w Hm Hd Hl Hu) as [c Hc].
    eapply checked_passed; [exact Hc| |exact (HQ c)].
    cbn [inst with_inst]. destruct (unconfigured_same _ _ _ Hu) as (_ & _ & _ & ->). by rewrite Hs.
Qed.

(** The instance when the configuration is looked at. *)
Definition started (handle dom f error_mode_ : Z) : xa_instance :=
  set_xen_version (match_version version_string known_versions)
    (set_xen_info f (set_m_xen (XenSource handle dom 0 0 0 None 0)
       (set_error_mode error_mode_ (set_mode XA_MODE_XEN zero_instance)))).

(** [helper_init] after the configuration. *)
Definition after_config (n : nat) : M world Z :=
  checked init_page_layout XA_ECRITICAL (fun _ =>
    _ ← init_page_offset;
    _ ← init_hvm;
    checked get_memory_size XA_ECRITICAL (fun ret =>
      i ← gets inst;
      if os_type i =? XA_OS_LINUX then linux_init
      else if os_type i =? XA_OS_WINDOWS then windows_init n
      else mret ret)).

Lemma started_runs n handle dom f error_mode_ w (Q : Z -> world -> Prop) :
  xc_interface_open = Some handle -> xc_domain_getinfo dom = Some f ->
  (length version_string < 100)%nat ->
  runs (checked read_config_file XA_EMINOR (fun _ => after_config n))
    (with_inst (started handle dom f error_mode_) (zero_cache w)) Q ->
  runs (xa_init_vm_private n dom error_mode_) w Q.
Proof.
  intros Ho Hf Hv HQ. apply runs_bind, runs_modify, runs_bind, runs_modify. rewrite Ho.
  apply runs_bind, runs_modify, runs_bind, runs_modify, runs_bind, runs_modify.
  eapply checked_eq; [by apply (init_domain_info_vm f)|]. exact HQ.
Qed.

(** A domain that is there, with the configuration passed. *)
Definition reached (dom error_mode_ : Z) i1 : Prop :=
  exists handle f, xc_interface_open = Some handle /\ xc_domain_getinfo dom = Some f /\
    (length version_string < 100)%nat /\ (length (dom_path dom (str "/name")) < 100)%nat /\
    config_passed dom (started handle dom f error_mode_) i1.

Lemma reached_runs n dom error_mode_ i1 w (Q : Z -> world -> Prop) :
  reached dom error_mode_ i1 ->
  (forall c, runs (after_config n) (with_inst i1 (Nat.iter c keep_string (zero_cache w))) Q) ->
  runs (xa_init_vm_private n dom error_mode_) w Q.
Proof.
  intros (h & f & Ho & Hi & Hv & Hl & Hc) HQ. eapply started_runs; [exact Ho|exact Hi|exact Hv|].
  apply (config_passed_runs dom i1); [done|done|exact Hl|exact Hc|].
  intros c. rewrite copies_inst. apply HQ.
Qed.

Lemma reached_same dom error_mode_ i1 :
  reached dom error_mode_ i1 ->
  mode i1 = XA_MODE_XEN /\ domain_id (m_xen i1) = dom /\ xc_interface_open <> None.
Proof.
  intros (h & f & Ho & _ & _ & _ & Hc). destruct (config_passed_same _ _ _ Hc) as (-> & -> & _).
  by rewrite Ho.
Qed.

(** What is found when a domain is opened, up to its memory. *)
Record bare_setup := BareSetup {
  bs_handle : Z; bs_info : Z; bs_path : cstr; bs_hvm : Z; bs_kb : Z; bs_ctrlreg : Z -> Z }.

Record bare_ok (dom : Z) (d : bare_setup) : Prop := {
  bo_open : xc_interface_open = Some (bs_handle d);
  bo_info : xc_domain_getinfo dom = Some (bs_info d);
  bo_version : (length version_string < 100)%nat;
  bo_store : dom_store dom (bs_kb d) (bs_path d) (bs_hvm d);
  bo_context : xc_vcpu_getcontext dom = Some (bs_ctrlreg d);
  bo_paging : xa_get_bit (bs_ctrlreg d 0) 31 <> 0 }.

Definition bare_start (dom error_mode_ : Z) (d : bare_setup) : xa_instance :=
  started (bs_handle d) dom (bs_info d) error_mode_.

Definition bare_opened (d : bare_setup) i1 : xa_instance := page_layers 0 (bs_kb d) (bs_hvm d) (bs_ctrlreg d) i1.

Lemma bare_name dom d : bare_ok dom d -> (length (dom_path dom (str "/name")) < 100)%nat.
Proof. intros Hok. eapply dom_path_short; [by apply (bo_store _ _ Hok)|simpl; lia]. Qed.

Lemma init_unconfigured_runs n dom error_mode_ d i1 w (i := bare_start dom error_mode_ d) :
  fresh (zero_cache w) -> bare_ok dom d -> unconfigured dom i i1 ->
  runs (xa_init_vm_private n dom error_mode_) w (fun r w' =>
    blank w' /\ live_maps w' = live_maps w /\
    if error_mode_ =? XA_FAILSOFT then r = XA_SUCCESS /\ inst w' = bare_opened d i1
    else r = XA_FAILURE /\ inst w' = i1).
Proof.
  intros Hf Hok Hu. pose proof (bare_name _ _ Hok) as Hl.
  destruct Hok as [Ho Hi Hv Hs Hc Hp].
  destruct (unconfigured_same _ _ _ Hu) as (Em & Ex & Eo & Ee).
  eapply started_runs; [exact Ho|exact Hi|exact Hv|]. fold (bare_start dom error_mode_ d). fold i.
  apply fresh_blank in Hf.
  destruct (Z.eqb_spec error_mode_ XA_FAILSOFT) as [->|Hn].
  - eapply (config_passed_runs dom i1); [done|done|exact Hl|by apply passed_without|].
    intros c. rewrite copies_inst. destruct (copied_blank c _ Hf) as [Hb Hlm].
    set (w1 := Nat.iter c keep_string (zero_cache w)) in *.
    eapply (page_layers_runs dom _ _ _ _ i1); [done|by rewrite Em|by rewrite Ex|exact Hs|exact Hc|exact Hp|].
    rewrite Eo. change (os_type i) with 0. change (0 =? XA_OS_LINUX) with false.
    change (0 =? XA_OS_WINDOWS) with false. cbv iota.
    apply runs_bind, runs_gets. cbn [inst with_inst].
    change (os_type (page_layers _ _ _ _ i1)) with (os_type i1). rewrite Eo.
    change (os_type i) with 0. apply runs_ret. by split_and!.
  - destruct (read_config_unconfigured dom i1 (with_inst i (zero_cache w)) eq_refl eq_refl Hl Hu) as [c Hrc].
    destruct (copied_blank c _ Hf) as [Hb Hlm].
    rewrite (copies_inst c) in Hrc.
    eapply checked_ended; [exact Hrc| |by split_and!].
    cbn [inst with_inst]. rewrite Ee. change (error_mode i) with error_mode_.
    unfold report_error. apply Z.eqb_neq in Hn. rewrite Hn. by destruct (error_mode_ =? XA_FAILHARD).
Qed.

Lemma bare_opened_spec dom error_mode_ d i1 (i := bare_opened d i1) :
  unconfigured dom (bare_start dom error_mode_ d) i1 ->
  geometry i /\ mode i = XA_MODE_XEN /\ hvm i = bs_hvm d /\ os_type i = 0 /\
  xen_size (m_xen i) = bs_kb d * 1024 /\ live_pfn_to_mfn_table (m_xen i) = None.
Proof.
  intros Hu. destruct (unconfigured_same _ _ _ Hu) as (Em & Ex & Eo & _).
  unfold i, bare_opened. split; [by split|]. split; [exact Em|]. split; [done|]. split; [exact Eo|].
  split; [done|]. change (live_pfn_to_mfn_table (m_xen (page_layers _ _ _ _ i1))) with (live_pfn_to_mfn_table (m_xen i1)).
  by rewrite Ex.
Qed.

(** A domain the configuration does not describe is opened in the lax mode all
    the same, without an operating system: its size, registers and page layout
    are there, and its physical memory can be read; the strict mode fails.
    Neither leaves anything mapped or cached. *)
Theorem init_vm_unconfigured n dom error_mode_ d i1 pgd_of w (i := bare_start dom error_mode_ d) :
  fresh (zero_cache w) -> bare_ok dom d -> unconfigured dom i i1 ->
  runs (xa_init_vm_private n dom error_mode_) w (fun r w' =>
    live_maps w' = live_maps w /\ coherent (inst w') pgd_of w' /\
    if error_mode_ =? XA_FAILSOFT then r = XA_SUCCESS /\ inst w' = bare_opened d i1
    else r = XA_FAILURE /\ inst w' = i1).
Proof.
  intros Hf Hok Hu. eapply runs_mono; [by apply init_unconfigured_runs|].
  intros r w' (Hb & Hl & Hr). split; [done|]. split; [by apply blank_coherent|exact Hr].
Qed.

(** The errors after which no mode goes on: libxc cannot be reached, there is
    no such domain, its registers cannot be read, its processor has paging
    disabled, or its size is a multiple of 4 GB, which 32 bits make zero. *)
Inductive opening_error (dom error_mode_ : Z) : Prop :=
| no_interface : xc_interface_open = None -> opening_error dom error_mode_
| no_domain handle :
    xc_interface_open = Some handle -> xc_domain_getinfo dom = None -> opening_error dom error_mode_
| no_registers i1 :
    reached dom error_mode_ i1 -> xc_vcpu_getcontext dom = None -> opening_error dom error_mode_
| no_paging i1 ctrlreg :
    reached dom error_mode_ i1 -> xc_vcpu_getcontext dom = Some ctrlreg ->
    xa_get_bit (ctrlreg 0) 31 = 0 -> opening_error dom error_mode_
| no_memory i1 ctrlreg vmpath kb :
    reached dom error_mode_ i1 -> xc_vcpu_getcontext dom = Some ctrlreg ->
    xa_get_bit (ctrlreg 0) 31 <> 0 ->
    xs_read (dom_path dom (str "/vm")) = Some vmpath -> (length (vmpath ++ str "/image/kernel") < 100)%nat ->
    (length (dom_path dom (str "/memory/target")) < 100)%nat ->
    xs_read (dom_path dom (str "/memory/target")) = Some (dec_digits 10 kb) ->
    0 <= kb <= 2147483647 -> u32 (kb * 1024) = 0 -> opening_error dom error_mode_.

(** Nothing was mapped or cached. *)
Definition untouched w w' : Prop := blank w' /\ live_maps w' = live_maps w.

Lemma untouched_inst i w w' : untouched w w' -> untouched w (with_inst i w').
Proof. by intros [Hb Hl]. Qed.

Lemma checked_critical m k w w' (Q : Z -> world -> Prop) :
  m w = Ret (XA_FAILURE, w') -> Q XA_FAILURE w' -> runs (checked m XA_ECRITICAL k) w Q.
Proof. intros Hm HQ. eapply checked_ended; [exact Hm|apply critical|exact HQ]. Qed.

Lemma no_domain_info w :
  mode (inst w) = XA_MODE_XEN -> xc_domain_getinfo (domain_id (m_xen (inst w))) = None ->
  init_domain_info w = Ret (XA_FAILURE, w).
Proof. intros Hm Hi. unfold init_domain_info. erewrite bind_eq by done. by rewrite Hm, Hi. Qed.

Lemma no_page_info w :
  mode (inst w) = XA_MODE_XEN ->
  match xc_vcpu_getcontext (domain_id (m_xen (inst w))) with
  | Some ctrlreg => xa_get_bit (ctrlreg 0) 31 = 0
  | None => True
  end ->
  init_page_layout w = Ret (XA_FAILURE, w).
Proof.
  intros Hm Hc. unfold init_page_layout. erewrite bind_eq by done. rewrite Hm.
  change (XA_MODE_XEN =? XA_MODE_XEN) with true. cbv iota.
  unfold get_page_info_xen. erewrite bind_eq by done.
  destruct (xc_vcpu_getcontext _); [|done]. by rewrite Hc.
Qed.

Lemma no_memory_size dom kb w :
  mode (inst w) = XA_MODE_XEN -> domain_id (m_xen (inst w)) = dom ->
  (length (dom_path dom (str "/memory/target")) < 100)%nat ->
  xs_read (dom_path dom (str "/memory/target")) = Some (dec_digits 10 kb) ->
  0 <= kb <= 2147483647 -> u32 (kb * 1024) = 0 ->
  exists i', get_memory_size w = Ret (XA_FAILURE, with_inst i' w).
Proof.
  intros Hm <- Hl Ht Hkb Hz. destruct (memory_size_wraps w kb Hm Hkb Hl Ht) as [Hsz _].
  rewrite Hz in Hsz. eexists. exact Hsz.
Qed.

(** C40: Opening a domain fails at each of these errors, in either mode, with
    nothing mapped or cached.  When libxc could not be reached the handle in
    the instance is 0, standard input, and closing the instance closes that. *)
Theorem init_vm_errors n dom error_mode_ w :
  fresh (zero_cache w) -> opening_error dom error_mode_ ->
  runs (xa_init_vm_private n dom error_mode_) w (fun r w' =>
    r = XA_FAILURE /\ untouched w w' /\ (xc_interface_open = None -> xc_handle (m_xen (inst w')) = 0)).
Proof.
  intros Hf He. apply fresh_blank in Hf as Hb. assert (Hu : untouched w (zero_cache w)) by done.
  destruct He as [Ho|h Ho Hi|i1 Hr Hx|i1 cr Hr Hx Hp|i1 cr vmpath kb Hr Hx Hp Hvm Hvl Hl Ht Hkb Hz].
  - apply runs_bind, runs_modify, runs_bind, runs_modify. rewrite Ho. by apply runs_ret.
  - apply runs_bind, runs_modify, runs_bind, runs_modify. rewrite Ho.
    apply runs_bind, runs_modify, runs_bind, runs_modify, runs_bind, runs_modify.
    eapply checked_critical; [by apply no_domain_info|]. split; [done|]. by split.
  - destruct (reached_same _ _ _ Hr) as (Hm & Hd & Hno). eapply reached_runs; [exact Hr|].
    intros c. destruct (copied_blank c _ Hb) as [Hbc Hlc]. set (w1 := Nat.iter c keep_string (zero_cache w)) in *.
    eapply checked_critical; [apply no_page_info; cbn [inst with_inst]; [done|by rewrite Hd, Hx]|].
    split; [done|]. by split.
  - destruct (reached_same _ _ _ Hr) as (Hm & Hd & Hno). eapply reached_runs; [exact Hr|].
    intros c. destruct (copied_blank c _ Hb) as [Hbc Hlc]. set (w1 := Nat.iter c keep_string (zero_cache w)) in *.
    eapply checked_critical; [apply no_page_info; cbn [inst with_inst]; [done|by rewrite Hd, Hx]|].
    split; [done|]. by split.
  - destruct (reached_same _ _ _ Hr) as (Hm & Hd & Hno). eapply reached_runs; [exact Hr|].
    intros c. destruct (copied_blank c _ Hb) as [Hbc Hlc]. set (w1 := Nat.iter c keep_string (zero_cache w)) in *.
    eapply checked_eq; [by apply (get_page_layout_vm dom cr)|].
    apply runs_bind, runs_modify, runs_bind. eapply runs_eq.
    { unfold init_hvm. erewrite bind_eq by done. cbn [inst with_inst].
      change (mode (set_page_size _ _)) with (mode i1). rewrite Hm.
      change (XA_MODE_XEN =? XA_MODE_XEN) with true. cbv iota.
      change (domain_id (m_xen (set_page_size _ _))) with (domain_id (m_xen i1)). rewrite Hd.
      erewrite bind_eq; [reflexivity|]. apply (ishvm_eq dom vmpath); [exact Hvm| |exact Hvl].
      eapply dom_path_short; [exact Hl|simpl; lia]. }
    match goal with |- runs (checked _ _ _) ?w0 _ =>
      destruct (no_memory_size dom kb w0) as [i' Hs]; [exact Hm|exact Hd|done..|] end.
    eapply checked_critical; [exact Hs|]. split; [done|]. by split.
Qed.
End Lax.

(** ** Opening by name *)

Section Name.
Context {E : XenEnv} {X : StoreEnv} {F : FileEnv} {P : ConfigParser} {H : HostEnv}.

(** The number of the first domain with the name, 0 if none has it. *)
Definition number_of (doms : list (Z * cstr)) (name : cstr) : Z :=
  match list_find (fun d => d.2 = name) doms with Some (_, d) => d.1 | None => 0 end.

(** Opening a domain by its name is opening the one with its number in
    XenStore; a name that no domain has opens domain 0, the one XenAccess runs
    in, instead of failing. *)
Theorem init_vm_by_name n doms name w :
  xs_directory (str "/local/domain") = (fun d => dec d.1) <$> doms ->
  Forall (fun d => 0 <= d.1 < 2147483648 /\ (length d.2 <= 100)%nat /\
     xs_read (str "/local/domain/" ++ dec d.1 ++ str "/name") = Some d.2) doms ->
  (length name <= 100)%nat ->
  xa_init_vm_name_strict n name w = xa_init_vm_id_strict n (number_of doms name) w /\
  xa_init_vm_name_lax n name w = xa_init_vm_id_lax n (number_of doms name) w.
Proof.
  intros Hd Hf Hl. pose proof (domain_id_correct doms name X w Hd Hf Hl) as Hid.
  split; [unfold xa_init_vm_name_strict|unfold xa_init_vm_name_lax];
    by rewrite (bind_eq _ _ _ _ _ Hid).
Qed.
End Name.

(** *** Witnesses: the sample domain without a configuration file *)

#[local] Existing Instance vm_env.
#[local] Existing Instance vm_whole.
#[local] Existing Instance vm_host.
#[local] Existing Instance sample_parser.

Definition no_files : FileEnv := {| read_file _ := None; malloc_row := [] |}.
#[local] Existing Instance no_files.

Definition bare_vm (h kb : Z) (ctrlreg : Z -> Z) : bare_setup := BareSetup 3 0x10 (str "/vm/1234") h kb ctrlreg.

Lemma bare_vm_ok kb :
  0 < kb < 4194304 -> @bare_ok vm_env (vm_xenstore_of kb) vm_host 7 (bare_vm 1 kb sample_ctrlreg).
Proof.
  intros Hkb. split; try reflexivity.
  - vm_compute. lia.
  - split; try reflexivity; [exact Hkb|vm_compute; lia..].
  - vm_compute. discriminate.
Qed.

Lemma init_vm_unconfigured_witness :
  runs (@xa_init_vm_private vm_env vm_xenstore no_files sample_parser vm_host 0 7 XA_FAILSOFT) (guest_world lin)
    (fun r w' => r = XA_SUCCESS /\ xen_size (m_xen (inst w')) = 0x100000 /\ os_type (inst w') = 0) /\
  runs (@xa_init_vm_private vm_env vm_xenstore no_files sample_parser vm_host 0 7 XA_FAILHARD) (guest_world lin)
    (fun r w' => r = XA_FAILURE).
Proof.
  split.
  - eapply runs_mono.
    + apply (@init_vm_unconfigured vm_env vm_xenstore no_files sample_parser vm_host 0 7 XA_FAILSOFT
               (bare_vm 1 1024 sample_ctrlreg) (bare_start 7 XA_FAILSOFT (bare_vm 1 1024 sample_ctrlreg)) (fun _ => 0)).
      * apply fresh_guest_zero.
      * apply bare_vm_ok. lia.
      * by apply no_file.
    + intros r w' (_ & _ & -> & Hi). rewrite Hi. split; [reflexivity|]. split; reflexivity.
  - eapply runs_mono.
    + apply (@init_vm_unconfigured vm_env vm_xenstore no_files sample_parser vm_host 0 7 XA_FAILHARD
               (bare_vm 1 1024 sample_ctrlreg) (bare_start 7 XA_FAILHARD (bare_vm 1 1024 sample_ctrlreg)) (fun _ => 0)).
      * apply fresh_guest_zero.
      * apply bare_vm_ok. lia.
      * by apply no_file.
    + by intros r w' (_ & _ & -> & _).
Defined.

(** A domain of 4 GB, and a host where libxc cannot be reached. *)
Definition no_libxc : HostEnv := {|
  xc_interface_open := None;
  xc_interface_close _ := 0;
  xc_domain_getinfo _ := None;
  xc_version := 0;
  xc_extraversion := [];
  open_image _ := false;
  image_stat := None |}.

Lemma init_vm_errors_witness :
  runs (@xa_init_vm_private vm_env (vm_xenstore_of 4194304) no_files sample_parser vm_host 0 7 XA_FAILSOFT)
    (guest_world lin) (fun r w' => r = XA_FAILURE /\ live_maps w' = 0) /\
  runs (@xa_init_vm_private vm_env vm_xenstore no_files sample_parser no_libxc 0 7 XA_FAILSOFT)
    (guest_world lin) (fun r w' => r = XA_FAILURE /\ xc_handle (m_xen (inst w')) = 0).
Proof.
  split.
  - eapply runs_mono.
    + apply (@init_vm_errors vm_env (vm_xenstore_of 4194304) no_files sample_parser vm_host 0 7 XA_FAILSOFT).
      * apply fresh_guest_zero.
      * apply (@no_memory vm_env (vm_xenstore_of 4194304) no_files sample_parser vm_host 7 XA_FAILSOFT
                 (@started vm_host 3 7 0x10 XA_FAILSOFT) sample_ctrlreg (str "/vm/1234") 4194304);
          [|reflexivity|vm_compute; discriminate|reflexivity|vm_compute; lia|vm_compute; lia|reflexivity|lia|reflexivity].
        exists 3, 0x10. split; [reflexivity|]. split; [reflexivity|]. split; [vm_compute; lia|].
        split; [vm_compute; lia|]. apply passed_without; [reflexivity|by apply no_file].
    + intros r w' (-> & [_ Hl] & _). split; [reflexivity|exact Hl].
  - eapply runs_mono.
    + apply (@init_vm_errors vm_env vm_xenstore no_files sample_parser no_libxc 0 7 XA_FAILSOFT).
      * apply fresh_guest_zero.
      * by apply no_interface.
    + intros r w' (-> & _ & Hh). split; [reflexivity|]. by apply Hh.
Defined.

Lemma init_vm_by_name_witness :
  @xa_init_vm_name_strict vm_env guest_store no_files sample_parser vm_host 0 (str "debian") (guest_world lin) =
  @xa_init_vm_id_strict vm_env guest_store no_files sample_parser vm_host 0 0 (guest_world lin).
Proof.
  refine (eq_trans (proj1 (@init_vm_by_name vm_env guest_store no_files sample_parser vm_host 0
    [(0, str "Domain-0"); (12, str "fedora")] (str "debian") (guest_world lin) _ _ _)) _).
  - reflexivity.
  - apply list.Forall_cons. split; [vm_compute; split_and!; (reflexivity || discriminate || lia)|].
    apply list.Forall_cons. split; [vm_compute; split_and!; (reflexivity || discriminate || lia)|constructor].
  - vm_compute. lia.
  - reflexivity.
Defined.
