(* ===== verification/XaWin.v ===== *)
(** * Opening a running Windows domain

    Kernel symbols of a Windows guest are exports of the kernel image, found
    by physical address; once they are cached they are found through the page
    tables.  This file proves the two the same when the kernel is mapped where
    the code takes it to be, follows [windows_init] through its first method,
    and opens a fully virtualised Windows domain from the command line's
    number to the head of the process list. *)

From Stdlib Require Import String.
From S2P Require Import Prelude CStr Dll XaTypes XaMap XaPhys Guest PageTable XaCache XaAccess Symbols.
From S2P Require Import XaStore ProcList Linux SymAccess WindowsPe Windows XaApi Config XaCore XaVm.

(** ** Exports as symbols *)

Section Symbols.
Context {E : XenEnv} {W : WholePages}.
Variables (i : xa_instance) (pgd_of : Z -> Z).
Hypothesis Hgeo : geometry i.
Hypothesis Hpgd : forall p, is_u32 (pgd_of p).
Hypothesis Hphys : hvm i <> 0 \/ mode i = XA_MODE_FILE.

(** Where an export is in physical memory, and the virtual address it is
    cached under. *)
Definition export_phys (rva : Z) : Z := u32 (ntoskrnl (os_windows i) + rva).
Definition export_virt (rva : Z) : Z := u32 (export_phys rva + page_offset i).

Definition export_addr (s : cstr) : option Z :=
  if decide (s <> [] /\ (length s < MAX_SYM_LEN)%nat) then export_virt <$> export_rva i s else None.

Lemma export_addr_spec s a : export_addr s = Some a -> is_u32 a /\ s <> [] /\ (length s < MAX_SYM_LEN)%nat.
Proof.
  unfold export_addr. case_decide as Hs; [|done]. destruct (export_rva i s); [|done].
  intros [= <-]. split; [apply u32_range|done].
Qed.

(** The kernel's pages are mapped at the page offset. *)
Definition export_linear (symbol : cstr) : Prop :=
  forall v, export_rva i symbol = Some v ->
    kv2p i (export_virt v) = export_phys v /\ export_phys v <> 0 /\ 4096 <= export_virt v.

(** What is known of the state: the caches agree with the page tables and the
    exports. *)
Definition win_coherent (w : world) : Prop := coherent i pgd_of w /\ syms i export_addr w.

Lemma windows_symbol_cached symbol w :
  win_coherent w -> exports_in_page i symbol -> symbol <> [] -> (length symbol < MAX_SYM_LEN)%nat ->
  export_linear symbol ->
  runs (windows_access_kernel_symbol symbol PROT_READ) w (fun r w' =>
    r = match export_rva i symbol with
        | Some v => page_at i PROT_READ (export_phys v)
        | None => (None, 0)
        end /\
    win_coherent w' /\ live_maps w' = live_maps w + match r.1 with Some _ => 1 | None => 0 end).
Proof.
  intros [Hc Hs] He Hne Hlen Hlin.
  pose proof (fun e => sym_matches_name symbol e Hlen) as Hmatch.
  assert (Haddr : export_addr symbol = export_virt <$> export_rva i symbol).
  { unfold export_addr. by rewrite decide_True. }
  apply runs_bind. eapply runs_mono; [by apply (check_sym_coherent i pgd_of export_addr)|].
  intros [ma|] w1 (Hc1 & Hs1 & Hl1 & Hm); rewrite <- Hl1; pose proof Hc1 as [Hi1 _].
  - destruct Hm as (Hm0 & a & Ea & ->). rewrite Haddr in Ea.
    destruct (export_rva i symbol) as [v|] eqn:Ev; [|done]. injection Ea as <-.
    destruct (Hlin v Ev) as (Hk & Hk0 & _). rewrite Hk in *.
    assert (is_u32 (export_phys v)) as Hu by apply u32_range.
    eapply runs_mono; [apply runs_and; [by apply (access_ma_coherent i pgd_of Hgeo)|]|].
    { eapply (runs_eq _ _ _ _ (fun _ w' => syms i export_addr w'));
        [apply xa_access_ma_eq; [by rewrite Hi1|done]|by destruct (frame_of _ _ _)]. }
    intros r w2 ((-> & Hc2 & Hl2) & Hs2). by split_and!.
  - apply runs_bind. eapply runs_eq; [by apply (windows_export_eq i Hgeo Hphys)|].
    destruct (export_rva i symbol) as [v|] eqn:Ev.
    2:{ apply runs_ret. split; [done|]. split; [done|simpl; lia]. }
    destruct (Hlin v Ev) as (Hk & Hk0%Z.eqb_neq & Hz).
    apply runs_bind, runs_gets. rewrite Hi1. cbv zeta. fold (export_phys v) (export_virt v).
    apply runs_bind. eapply runs_mono; [apply runs_and;
      [by apply (update_sym_coherent i pgd_of Hgeo); [|apply u32_range]|
       by apply (update_sym_syms i pgd_of export_addr Hgeo export_addr_spec)]|].
    intros _ w2 ((Hc2 & Hl2) & Hs2). rewrite <- Hl2. pose proof Hc2 as [Hi2 _].
    eapply runs_eq; [apply xa_access_pa_eq; rewrite ?Hi2; [done|apply u32_range|done]|].
    rewrite Hi2. unfold page_at. rewrite Hk0. split; [done|].
    split; [|apply live_maps_opened]. split; [by apply coherent_opened|].
    by destruct (frame_of i PROT_READ (export_phys v / 4096)).
Qed.

(** The word at an export. *)
Definition export_word (symbol : cstr) : option Z :=
  v ← export_rva i symbol; mem_read i 4 (export_phys v).

Lemma read_page_syms n addr_of (a : Z) r w (Q : option Z -> world -> Prop) :
  r = page_at i PROT_READ a -> is_u32 a -> a <> 0 -> a mod 4096 + Z.of_nat n <= 4096 ->
  coherent i pgd_of w -> syms i addr_of w ->
  (forall w', coherent i pgd_of w' -> syms i addr_of w' ->
     live_maps w' = live_maps w - match r.1 with Some _ => 1 | None => 0 end ->
     Q (mem_read i n a) w') ->
  runs (read_through n r) w Q.
Proof.
  intros -> Ha Ha0%Z.eqb_neq Hal Hc Hs HQ. unfold page_at in *. rewrite Ha0 in *.
  unfold mem_read in HQ. pose proof (Z.mod_pos_bound a 4096 ltac:(lia)).
  destruct (frame_of i PROT_READ (a / 4096)) as [m|] eqn:Em; cbn [read_through mbind option_bind fst] in *.
  - apply runs_bind, load_runs; [lia|rewrite (frame_whole _ _ _ _ Hgeo Em); lia|].
    apply runs_bind, runs_modify, runs_ret. apply HQ; [by apply coherent_munmap|done|done].
  - apply runs_ret. apply HQ; [done|done|lia].
Qed.

Lemma windows_read_sym symbol w :
  os_type i = XA_OS_WINDOWS -> win_coherent w -> exports_in_page i symbol -> symbol <> [] ->
  (length symbol < MAX_SYM_LEN)%nat -> export_linear symbol ->
  (forall v, export_rva i symbol = Some v -> export_phys v mod 4096 <= 4092) ->
  forall `{StoreEnv, FileEnv},
  runs (xa_read_long_sym symbol) w (fun r w' =>
    r = export_word symbol /\ win_coherent w' /\ live_maps w' = live_maps w).
Proof.
  intros Ho Hw He Hne Hlen Hlin Hal ? ?. pose proof Hw as [[Hi _] _].
  apply runs_bind, runs_bind, runs_gets. rewrite Hi, Ho. cbn [Z.eqb XA_OS_WINDOWS XA_OS_LINUX].
  eapply runs_mono; [by apply windows_symbol_cached|]. intros r w1 (-> & [Hc1 Hs1] & Hl1).
  unfold export_word. destruct (export_rva i symbol) as [v|] eqn:Ev; cbn [mbind option_bind].
  - destruct (Hlin v Ev) as (_ & Hv0 & _). specialize (Hal v eq_refl).
    eapply (read_page_syms 4); [done|apply u32_range|exact Hv0|simpl; lia|exact Hc1|exact Hs1|].
    intros w2 Hc2 Hs2 Hl2. split; [done|]. split; [done|]. rewrite Hl1 in Hl2. lia.
  - apply runs_ret. split; [done|]. split; [done|]. cbn in Hl1. lia.
Qed.
End Symbols.

(** ** The page directory of the kernel *)

Section Init.
Context {E : XenEnv} {W : WholePages} {X : StoreEnv} {F : FileEnv} {P : ConfigParser} {H : HostEnv}.
Implicit Types (i : xa_instance) (w : world).

(** In a running domain neither [kpgd] nor [init_task] takes part in a
    translation. *)
Lemma win_coherent_kpgd i k pgd_of w :
  mode i = XA_MODE_XEN -> win_coherent i pgd_of w ->
  win_coherent (set_kpgd k i) pgd_of (with_inst (set_kpgd k i) w).
Proof.
  intros Hm [(Hi & Hc & Hp) Hs]. destruct i as [m0]. change (m0 = XA_MODE_XEN) in Hm. subst m0.
  split; [|exact Hs].
  split; [done|]. split; [exact Hc|exact Hp].
Qed.

Lemma win_coherent_task i t pgd_of w :
  win_coherent i pgd_of w -> win_coherent (set_init_task t i) pgd_of (with_inst (set_init_task t i) w).
Proof. intros [(Hi & Hc & Hp) Hs]. split; [|exact Hs]. split; [done|]. split; [exact Hc|exact Hp]. Qed.

(** What the kernel image and the System process must say: the word at the
    export PsInitialSystemProcess is the address of the process, its directory
    base is [k], and [t] is the link to the next process. *)
Record system_process i (p k t : Z) : Prop := {
  sp_exports : exports_in_page i (str "PsInitialSystemProcess");
  sp_linear : export_linear i (str "PsInitialSystemProcess");
  sp_aligned : forall v, export_rva i (str "PsInitialSystemProcess") = Some v ->
    export_phys i v mod 4096 <= 4092;
  sp_word : export_word i (str "PsInitialSystemProcess") = Some p;
  sp_pdbase_in : u32 (kv2p i p + w_pdbase_offset (os_windows i)) mod 4096 <= 4092;
  sp_pdbase : mem_read i 4 (u32 (kv2p i p + w_pdbase_offset (os_windows i))) = Some k;
  sp_nonzero : k <> 0;
  sp_tasks_in : u32 (kv2p i p + w_tasks_offset (os_windows i)) mod 4096 <= 4092;
  sp_tasks : mem_read i 4 (u32 (kv2p i p + w_tasks_offset (os_windows i))) = Some t }.

Lemma export_word_u32 i s p : export_word i s = Some p -> is_u32 p.
Proof.
  unfold export_word. destruct (export_rva i s); [|done]. cbn [mbind option_bind].
  intros Hp. by apply mem_read_range in Hp.
Qed.

(** The directory base as a virtual address. *)
Definition kernel_dir i (k : Z) : Z := u32 (k + page_offset i).

Lemma kernel_dir_nonzero i k : is_u32 k -> is_u32 (page_offset i) -> k <> 0 -> kernel_dir i k <> page_offset i.
Proof.
  intros Hk Ho Hk0. unfold kernel_dir, u32. intros Heq.
  Z.to_euclidean_division_equations. lia.
Qed.

Lemma method1_runs i p k t pgd_of w :
  geometry i -> (forall q, is_u32 (pgd_of q)) -> hvm i <> 0 -> mode i = XA_MODE_XEN ->
  os_type i = XA_OS_WINDOWS -> is_u32 (page_offset i) -> system_process i p k t -> win_coherent i pgd_of w ->
  runs (get_kpgd_method1 0) w (fun r w' =>
    r = (XA_SUCCESS, kv2p i p) /\ win_coherent (set_kpgd (kernel_dir i k) i) pgd_of w' /\
    live_maps w' = live_maps w).
Proof.
  intros Hg Hp Hh Hm Ho Hoff [H1 H2 H3 H4 H5 H6 H7 _ _] Hw. assert (Hph : hvm i <> 0 \/ mode i = XA_MODE_FILE) by by left.
  apply runs_bind. eapply runs_mono.
  { apply (windows_read_sym i pgd_of Hg Hph (str "PsInitialSystemProcess") w Ho Hw H1);
      [discriminate|vm_compute; lia|exact H2|exact H3]. }
  intros r w1 (-> & Hw1 & Hl1). rewrite H4. cbn [default]. pose proof Hw1 as [[Hi1 _] _].
  apply runs_bind, runs_ret. change (XA_SUCCESS =? XA_FAILURE) with false. cbv iota.
  apply runs_bind. eapply runs_eq.
  { apply xa_translate_kv2p_eq; [by rewrite Hi1|by eapply export_word_u32]. }
  rewrite Hi1. change (id p) with p. apply runs_bind, runs_gets. rewrite Hi1.
  apply runs_bind, runs_bind. eapply runs_eq; [by apply (read_phys_eq i Hg Hph); [|apply u32_range|]|].
  rewrite H6. apply runs_bind, runs_modify, runs_ret. change (XA_SUCCESS =? XA_FAILURE) with false. cbv iota.
  apply runs_bind, runs_bind, runs_modify, runs_bind, runs_gets. cbn [inst with_inst]. rewrite Hi1.
  cbn [kpgd page_offset set_kpgd].
  pose proof (mem_read_range i 4 _ _ H6) as Hk. change (256 ^ Z.of_nat 4) with 4294967296 in Hk.
  pose proof (kernel_dir_nonzero i k Hk Hoff H7) as Hne%Z.eqb_neq. unfold kernel_dir in Hne.
  rewrite Hne. apply runs_ret, runs_ret. split; [done|]. split; [|done].
  fold (kernel_dir i k). exact (win_coherent_kpgd i (kernel_dir i k) pgd_of w1 Hm Hw1).
Qed.

(** Where the kernel image is: configured, or found by the search. *)
Definition base_known (n : nat) i (base : Z) : Prop :=
  (ntoskrnl (os_windows i) = base /\ base <> 0) \/
  (ntoskrnl (os_windows i) = 0 /\ base <> 0 /\ (Z.to_nat 0x40000 <= n)%nat /\
   base = first_kernel i /\ forall a, a ∈ candidates -> image_in_page i a).

Lemma set_ntoskrnl_same i : set_ntoskrnl (ntoskrnl (os_windows i)) i = i.
Proof. by destruct i as [? ? ? ? ? ? ? ? ? ? ? ? ? ? ? []]. Qed.

Lemma find_ntoskrnl_eq n i base w :
  inst w = i -> geometry i -> hvm i <> 0 \/ mode i = XA_MODE_FILE -> base_known n i base ->
  find_ntoskrnl n w = Ret (XA_SUCCESS, with_inst (set_ntoskrnl base i) w).
Proof.
  intros Hi Hg Hh Hb. unfold find_ntoskrnl. erewrite bind_eq by done. rewrite Hi.
  destruct Hb as [[Hb H0]|(H0 & Hb0 & Hn & -> & Hv)].
  - rewrite Hb, (proj2 (Z.eqb_neq _ _)) by done. rewrite <- Hb, set_ntoskrnl_same, <- Hi. by destruct w.
  - rewrite H0. cbn [Z.eqb]. erewrite bind_eq by (exact (get_ntoskrnl_base_first i n w Hg Hh H0 Hn Hv Hi)).
    erewrite bind_eq by done. rewrite (proj2 (Z.eqb_neq _ _)) by done. by rewrite Hi.
Qed.

(** The instance [windows_init] leaves. *)
Definition win_opened i (base k t : Z) : xa_instance :=
  set_init_task t (set_kpgd (kernel_dir i k) (set_ntoskrnl base i)).

Lemma win_opened_same i base k t (i' := win_opened i base k t) :
  (geometry i' = geometry i) /\ hvm i' = hvm i /\ os_type i' = os_type i /\ m_xen i' = m_xen i.
Proof. done. Qed.

Lemma windows_init_runs n i base p k t pgd_of w (i1 := set_ntoskrnl base i) :
  inst w = i -> geometry i -> (forall q, is_u32 (pgd_of q)) -> hvm i <> 0 -> mode i = XA_MODE_XEN ->
  os_type i = XA_OS_WINDOWS -> is_u32 (page_offset i) -> blank w ->
  base_known n i base -> system_process i1 p k t ->
  runs (windows_init n) w (fun r w' =>
    r = XA_SUCCESS /\ win_coherent (win_opened i base k t) pgd_of w' /\ live_maps w' = live_maps w).
Proof.
  intros Hi Hg Hp Hh Hm Ho Hoff Hb Hbase Hsp.
  apply runs_bind. eapply runs_eq; [by apply find_ntoskrnl_eq; [..|left|]|].
  change (XA_SUCCESS =? XA_FAILURE) with false. cbv iota. fold i1. apply runs_bind, runs_bind.
  assert (Hw : win_coherent i1 pgd_of (with_inst i1 w)).
  { split; [exact (blank_coherent pgd_of (with_inst i1 w) Hb)|by apply blank_syms]. }
  eapply runs_mono; [by apply (method1_runs i1 p k t pgd_of)|].
  intros r w1 (-> & Hw1 & Hl1). cbn [fst snd]. change (XA_SUCCESS =? XA_FAILURE) with false. cbv iota.
  apply runs_ret. cbn [fst snd]. change (XA_SUCCESS =? XA_FAILURE) with false. cbv iota.
  pose proof Hw1 as [[Hi1 _] _]. apply runs_bind, runs_gets. rewrite Hi1. apply runs_bind.
  eapply runs_eq.
  { apply (read_phys_eq (set_kpgd (kernel_dir i1 k) i1)); [done|by left|done|apply u32_range|apply Hsp]. }
  change (mem_read (set_kpgd _ _) 4 ?a) with (mem_read i1 4 a).
  change (os_windows (set_kpgd _ _)) with (os_windows i1). rewrite (sp_tasks _ _ _ _ Hsp).
  apply runs_bind, runs_modify, runs_ret. split; [done|]. split; [|done]. rewrite Hi1.
  by apply win_coherent_task.
Qed.
End Init.

(** ** An image *)

Section Image.
Context {E : XenEnv} {W : WholePages} {X : StoreEnv} {F : FileEnv} {P : ConfigParser} {H : HostEnv}.
Implicit Types (i : xa_instance) (w : world).

(** In file mode addresses are translated with the page directory that is
    being looked for: with a cleared instance and an image of at most 2 GB no
    address has a page. *)
Lemma kv2p_image_zero i v :
  geometry i -> mode i = XA_MODE_FILE -> pae i = 0 -> kpgd i = 0 -> page_offset i = 0x80000000 ->
  file_size (m_file i) <= 0x80000000 -> indet = 0 -> is_u32 v -> kv2p i v = 0.
Proof.
  intros [Hsh Hps] Hm Hpae Hk Ho Hf Hi Hv. unfold kv2p, current_cr3. rewrite Hm, Hk, Ho.
  cbn [Z.eqb XA_MODE_FILE XA_MODE_XEN Pos.eqb]. unfold pt_lookup. rewrite Hpae. cbn [Z.eqb].
  change (default 0 (Some (u32 (0 - 0x80000000)))) with 0x80000000. unfold ia32_walk.
  change (0x80000000 / 2 ^ 12 * 2 ^ 12) with 0x80000000. rewrite rd_indet_4.
  assert (Hr : mem_read i 4 (0x80000000 + 4 * (v / 2 ^ 22)) = None).
  { unfold mem_read, frame_of. rewrite Hm, Hsh. cbn [Z.eqb XA_MODE_FILE XA_MODE_XEN Pos.eqb].
    assert ((0x80000000 + 4 * (v / 2 ^ 22)) / 4096 = 0x80000) as ->
      by (Z.to_euclidean_division_equations; lia).
    change (u32 (Z.shiftl 0x80000 12)) with 0x80000000. by rewrite (proj2 (Z.leb_le _ _)). }
  rewrite Hr. unfold or_indet. by rewrite Hi.
Qed.

(** An image in a cleared instance: the export PsInitialSystemProcess leads to
    the address [p] of the System process, as in a running domain; [k] and [t]
    are the words of page zero at the offsets of the directory base and of the
    list. *)
Record cleared_image i (p k t : Z) : Prop := {
  ci_geometry : geometry i;
  ci_mode : mode i = XA_MODE_FILE;
  ci_hvm : hvm i <> 0;
  ci_os : os_type i = XA_OS_WINDOWS;
  ci_pae : pae i = 0;
  ci_kpgd : kpgd i = 0;
  ci_offset : page_offset i = 0x80000000;
  ci_size : file_size (m_file i) <= 0x80000000;
  ci_base : ntoskrnl (os_windows i) <> 0;
  ci_exports : exports_in_page i (str "PsInitialSystemProcess");
  ci_aligned : forall v, export_rva i (str "PsInitialSystemProcess") = Some v ->
    export_phys i v mod 4096 <= 4092;
  ci_word : export_word i (str "PsInitialSystemProcess") = Some p;
  ci_pdbase : is_u32 (w_pdbase_offset (os_windows i)) /\ w_pdbase_offset (os_windows i) mod 4096 <= 4092;
  ci_dir : mem_read i 4 (w_pdbase_offset (os_windows i)) = Some k;
  ci_nonzero : k <> 0;
  ci_tasks : is_u32 (w_tasks_offset (os_windows i)) /\ w_tasks_offset (os_windows i) mod 4096 <= 4092;
  ci_next : mem_read i 4 (w_tasks_offset (os_windows i)) = Some t }.

(** The word at the export, read while no entry for it is cached. *)
Lemma image_sysproc i p k t pgd_of lc w :
  cleared_image i p k t -> coherent i pgd_of w -> cached w lc ->
  Forall (fun e => sym_hit (str "PsInitialSystemProcess") 0 e = false) lc ->
  runs (xa_read_long_sym (str "PsInitialSystemProcess")) w (fun r w' => r = Some p /\ inst w' = i).
Proof.
  intros Hc Hco Hlc Hno. pose proof (ci_geometry _ _ _ _ Hc) as Hg. pose proof Hco as [Hi _].
  apply runs_bind, runs_bind, runs_gets. rewrite Hi, (ci_os _ _ _ _ Hc).
  cbn [Z.eqb XA_OS_WINDOWS XA_OS_LINUX]. eapply runs_mono.
  { apply (windows_kernel_symbol_correct (str "PsInitialSystemProcess") PROT_READ w lc pgd_of);
      rewrite ?Hi; [done|right; apply Hc|done|done|done|apply Hc]. }
  rewrite Hi. intros r w1 (-> & [Hi1 _] & _). pose proof (ci_word _ _ _ _ Hc) as Ep.
  pose proof (ci_aligned _ _ _ _ Hc) as Hal. unfold export_word in Ep.
  destruct (export_rva i _) as [v|]; [|done]. cbn [mbind option_bind] in Ep. cbv zeta. fold (export_phys i v).
  specialize (Hal v eq_refl). unfold mem_read in Ep.
  destruct (frame_of i PROT_READ (export_phys i v / 4096)) as [m|] eqn:Em; [|done].
  cbn [mbind option_bind] in Ep. pose proof (Z.mod_pos_bound (export_phys i v) 4096 ltac:(lia)).
  apply runs_bind, load_runs; [lia|rewrite (frame_whole _ _ _ _ Hg Em); lia|].
  apply runs_bind, runs_modify, runs_ret. done.
Qed.

Lemma image_method1 i p k t pgd_of lc w :
  indet = 0 -> cleared_image i p k t -> coherent i pgd_of w -> cached w lc ->
  Forall (fun e => sym_hit (str "PsInitialSystemProcess") 0 e = false) lc ->
  runs (get_kpgd_method1 0) w (fun r w' =>
    r = (XA_SUCCESS, 0) /\ inst w' = set_kpgd (u32 (k + 0x80000000)) i).
Proof.
  intros Hin Hc Hco Hlc Hno. apply runs_bind. eapply runs_mono; [by eapply image_sysproc|].
  intros r w1 (-> & Hi1). cbn [default]. apply runs_bind, runs_ret.
  change (XA_SUCCESS =? XA_FAILURE) with false. cbv iota. change (id p) with p.
  pose proof Hc as [Hg Hm Hh _ Hpae Hk0 Hoff Hfs _ _ _ Hw [Hpd1 Hpd2] Ek Hk _ _].
  apply export_word_u32 in Hw.
  apply runs_bind. eapply runs_eq; [apply xa_translate_kv2p_eq; [by rewrite Hi1|done]|].
  rewrite Hi1, (kv2p_image_zero i p) by done. apply runs_bind, runs_gets. rewrite Hi1, Z.add_0_l, u32_small by done.
  apply runs_bind, runs_bind. eapply runs_eq; [by apply (read_phys_eq i Hg); [right| | |]|].
  rewrite Ek. apply runs_bind, runs_modify, runs_ret. change (XA_SUCCESS =? XA_FAILURE) with false. cbv iota.
  apply runs_bind, runs_bind, runs_modify, runs_bind, runs_gets. cbn [inst with_inst].
  rewrite Hi1. cbn [kpgd page_offset set_kpgd].
  pose proof (mem_read_range i 4 _ _ Ek) as Hr. change (256 ^ Z.of_nat 4) with 4294967296 in Hr.
  assert (Hne : kernel_dir i k <> page_offset i) by (apply kernel_dir_nonzero; [done|by rewrite Hoff|done]).
  unfold kernel_dir in Hne. rewrite (proj2 (Z.eqb_neq _ _)) by done. rewrite Hoff. by apply runs_ret, runs_ret.
Qed.

(** Opening an image of a Windows guest "succeeds" without having found
    anything when the instance's memory is zero: the address of the System
    process, rightly read at its export, is translated with the page directory
    the function is there to find, so physical address zero is taken for the
    process; the page directory and the head of the process list are words of
    page zero, and the search that would find the process is not tried. *)
Theorem windows_image_page_zero n i p k t pgd_of lc w :
  indet = 0 -> cleared_image i p k t -> coherent i pgd_of w -> cached w lc ->
  Forall (fun e => sym_hit (str "PsInitialSystemProcess") 0 e = false) lc ->
  runs (windows_init n) w (fun r w' =>
    r = XA_SUCCESS /\ kpgd (inst w') = u32 (k + 0x80000000) /\ init_task (inst w') = t).
Proof.
  intros Hin Hc Hco Hlc Hno. pose proof Hco as [Hi _].
  apply runs_bind. eapply runs_eq.
  { unfold find_ntoskrnl. erewrite bind_eq by done. rewrite Hi. by rewrite (proj2 (Z.eqb_neq _ _)) by apply Hc. }
  change (XA_SUCCESS =? XA_FAILURE) with false. cbv iota. apply runs_bind, runs_bind.
  eapply runs_mono; [by eapply image_method1|]. intros r w1 (-> & Hi1). cbn [fst snd].
  change (XA_SUCCESS =? XA_FAILURE) with false. cbv iota. apply runs_ret. cbn [fst snd].
  change (XA_SUCCESS =? XA_FAILURE) with false. cbv iota. apply runs_bind, runs_gets. rewrite Hi1.
  destruct Hc as [Hg Hm Hh _ _ _ _ _ _ _ _ _ _ _ _ [Hta1 Hta2] Et].
  change (os_windows (set_kpgd ?x ?j)) with (os_windows j). rewrite Z.add_0_l, u32_small by done.
  apply runs_bind. eapply runs_eq.
  { apply (read_phys_eq (set_kpgd (u32 (k + 0x80000000)) i)); [done|by right|done|done|done]. }
  change (mem_read (set_kpgd ?x ?j) 4 ?a) with (mem_read j 4 a). rewrite Et.
  apply runs_bind, runs_modify, runs_ret. by rewrite Hi1.
Qed.
End Image.

(** ** The domain *)

Section Domain.
Context {E : XenEnv} {W : WholePages} {X : StoreEnv} {F : FileEnv} {P : ConfigParser} {H : HostEnv}.

(** For Windows: the base of the kernel image, the address of the System
    process, its directory base and the link in its list of processes. *)
Record win_setup := WinSetup {
  wn_domain :> domain_setup; wn_base : Z; wn_system : Z; wn_dir : Z; wn_next : Z }.

Definition wn_before (dom error_mode_ : Z) (s : win_setup) : xa_instance :=
  domain_instance XA_OS_WINDOWS dom error_mode_ s.

(** The instance with the kernel's base known, in which the System process is
    looked for. *)
Definition wn_based (dom error_mode_ : Z) (s : win_setup) : xa_instance :=
  set_ntoskrnl (wn_base s) (wn_before dom error_mode_ s).

Record win_ok (n : nat) (dom error_mode_ : Z) (s : win_setup) : Prop := {
  wk_domain : domain_ok XA_OS_WINDOWS dom s;
  wk_hvm : vm_hvm s = 1;
  wk_base : base_known n (wn_before dom error_mode_ s) (wn_base s);
  wk_system : system_process (wn_based dom error_mode_ s) (wn_system s) (wn_dir s) (wn_next s) }.

Definition wn_opened (dom error_mode_ : Z) (s : win_setup) : xa_instance :=
  win_opened (wn_before dom error_mode_ s) (wn_base s) (wn_dir s) (wn_next s).

Lemma init_windows_runs n dom error_mode_ s pgd_of w :
  fresh (zero_cache w) -> (forall p, is_u32 (pgd_of p)) -> win_ok n dom error_mode_ s ->
  runs (xa_init_vm_private n dom error_mode_) w (fun r w' =>
    r = XA_SUCCESS /\ win_coherent (wn_opened dom error_mode_ s) pgd_of w' /\ live_maps w' = live_maps w).
Proof.
  intros Hf Hp [Hd Hv Hb Hs].
  apply (domain_init_runs n XA_OS_WINDOWS dom error_mode_ s); [by right|done|done|].
  fold (wn_before dom error_mode_ s). intros w0 Hi0 Hb0 <-.
  pose proof (domain_geometry XA_OS_WINDOWS dom error_mode_ s) as (Hg & Hh & Hm & Ho & Hoff & _).
  fold (wn_before dom error_mode_ s) in Hg, Hh, Hm, Ho, Hoff. rewrite Hv in Hh.
  apply (windows_init_runs n (wn_before dom error_mode_ s) (wn_base s) (wn_system s) (wn_dir s) (wn_next s));
    try done. by rewrite Hh.
Qed.

Lemma wn_opened_spec dom error_mode_ s :
  let i := wn_opened dom error_mode_ s in
  geometry i /\ hvm i = vm_hvm s /\ os_type i = XA_OS_WINDOWS /\
  xen_size (m_xen i) = vm_kb s * 1024 /\ live_pfn_to_mfn_table (m_xen i) = None.
Proof.
  pose proof (domain_geometry XA_OS_WINDOWS dom error_mode_ s) as Hd. cbv zeta in *. revert Hd.
  unfold wn_opened, wn_before. generalize (domain_instance XA_OS_WINDOWS dom error_mode_ s).
  intros i (Hg & Hh & _ & Ho & _ & Hx & Ht).
  destruct (win_opened_same i (wn_base s) (wn_dir s) (wn_next s)) as (E1 & E2 & E3 & E4).
  rewrite E1, E2, E3, E4. by split_and!.
Qed.

(** C10: opening a fully virtualised Windows domain succeeds: the kernel image
    is taken from the configuration or found in physical memory, the address
    of the System process is read at the export PsInitialSystemProcess, the
    page directory and the head of the process list are read from it, and
    every field of the instance is determined by them.  The caches agree with
    the page tables and the exports, and nothing stays mapped. *)
Theorem init_windows_correct n dom error_mode_ s pgd_of w (i := wn_opened dom error_mode_ s) :
  fresh (zero_cache w) -> (forall p, is_u32 (pgd_of p)) -> win_ok n dom error_mode_ s ->
  runs (xa_init_vm_private n dom error_mode_) w (fun r w' =>
    r = XA_SUCCESS /\ inst w' = i /\ ntoskrnl (os_windows i) = wn_base s /\
    kpgd i = u32 (wn_dir s + 0x80000000) /\ init_task i = wn_next s /\
    coherent i pgd_of w' /\ syms i (export_addr i) w' /\ live_maps w' = live_maps w).
Proof.
  intros Hf Hp Hok. eapply runs_mono; [by apply (init_windows_runs n dom error_mode_ s pgd_of)|].
  intros r w' (-> & [Hc Hs] & Hl).
  pose proof (domain_geometry XA_OS_WINDOWS dom error_mode_ s) as (_ & _ & _ & _ & Hoff & _).
  split; [done|]. split; [by apply Hc|]. split; [done|].
  split; [|split; [done|by split_and!]].
  assert (Hk : forall j base k t, kpgd (win_opened j base k t) = u32 (k + page_offset j)) by done.
  unfold i, wn_opened. rewrite Hk. unfold wn_before. by rewrite Hoff.
Qed.

(** The exports and the tables are the same before and after. *)
Lemma wn_opened_system n dom error_mode_ s :
  win_ok n dom error_mode_ s -> let i := wn_opened dom error_mode_ s in
  exports_in_page i (str "PsInitialSystemProcess") /\ export_linear i (str "PsInitialSystemProcess") /\
  (forall v, export_rva i (str "PsInitialSystemProcess") = Some v -> export_phys i v mod 4096 <= 4092) /\
  export_word i (str "PsInitialSystemProcess") = Some (wn_system s) /\
  forall v, kv2p i v = kv2p (wn_based dom error_mode_ s) v.
Proof.
  intros [_ _ _ [H1 H2 H3 H4 _ _ _ _ _]].
  pose proof (domain_geometry XA_OS_WINDOWS dom error_mode_ s) as (_ & _ & Hm & _).
  fold (wn_before dom error_mode_ s) in Hm. unfold wn_opened, win_opened, wn_based in *.
  destruct (wn_before dom error_mode_ s) as [m0]. change (m0 = XA_MODE_XEN) in Hm. subst m0.
  split; [|split; [exact H2|split; [exact H3|split; [exact H4|done]]]].
  destruct H1 as [[h1 h2 h3] h4 h5 h6 h7]. split; [split|..]; assumption.
Qed.
End Domain.

(** *** A running Windows domain

    Domain 9, "winxp", with its kernel image configured at 0x8000; the System
    process is at 0x80005000 and two more behind it, then the head of the list,
    which is no process; two modules are on the list at 0x8055a620. *)

Definition xp_image : image :=
  [(0x1800, 0x83); (0x1804, 0x400083);
   (0x8000, 0x5A4D); (0x803C, 0x80); (0x8080, 0x4550); (0x80F8, 0x200);
   (0x820C, 0x440); (0x8218, 1); (0x821C, 0x300); (0x8220, 0x310); (0x8224, 0x320);
   (0x8300, 0x500); (0x8310, 0x400); (0x8500, 0x80005000);
   (0x5018, 0x1000); (0x5084, 4); (0x5088, 0x80006088);
   (0x6084, 300); (0x6088, 0x80007088); (0x7084, 1024); (0x7088, 0x80009100); (0x9100, 0x80005088);
   (0x55A620, 0x8000A000); (0xA000, 0x8000B000); (0xA02C, 14); (0xA030, 0x8000A100);
   (0xB000, 0x8055A620); (0xB02C, 22); (0xB030, 0x8000B100)] ++
  put_str 0xA100 (str "hal.dll" ≫= (fun c => [c; 0])) ++ put_str 0xB100 (str "bootvid.dll" ≫= (fun c => [c; 0])) ++
  put_str 0x8400 (str "PsInitialSystemProcess") ++ put_str 0x8440 (str "ntoskrnl.exe") ++
  put_str 0x5174 (str "System") ++ put_str 0x6174 (str "smss.exe") ++ put_str 0x7174 (str "explorer.exe").

Definition xp_frame (a : Z) : mapping := Mapping 4096 (fun k => byte_at xp_image (4096 * (a / 4096) + k)).

#[local] Instance xp_env : XenEnv := {|
  xc_map_foreign_range _ _ mfn := Some (Mapping 4096 (fun k => byte_at xp_image (4096 * mfn + k)));
  xc_map_foreign_batch _ _ _ := None;
  xc_batch_result _ _ mfns := mfns;
  xc_vcpu_getcontext _ := Some sample_ctrlreg;
  xc_maximum_gpfn _ := 0xFF;
  shinfo_max_pfn _ := 0;
  shinfo_frame_list_list _ := 0;
  file_mmap _ _ _ := None;
  clock n := Z.of_nat n;
  indet := 0 |}.

#[local] Instance xp_whole : WholePages.
Proof. split; [by intros ???? [= <-]|done|done]. Defined.

#[local] Instance xp_store : StoreEnv := {|
  xs_read path :=
    if decide (path = str "/local/domain/9/name") then Some (str "winxp")
    else if decide (path = str "/local/domain/9/vm") then Some (str "/vm/5678")
    else if decide (path = str "/vm/5678/image/kernel") then Some (str "/usr/lib/xen/boot/hvmloader")
    else if decide (path = str "/local/domain/9/memory/target") then Some (dec_digits 10 1024)
    else None;
  xs_directory _ := [] |}.

#[local] Existing Instance vm_files.
#[local] Existing Instance vm_host.

#[local] Instance xp_parser : ConfigParser := {|
  yyparse _ := (0, block_actions (Block (str "winxp")
    [ostype_assignment (str "Windows"); offset_assignment win_ntoskrnl (str "0x8000");
     offset_assignment win_tasks (str "0x88"); offset_assignment win_pdbase (str "0x18");
     offset_assignment win_pid (str "0x84")])) |}.

Definition xp_setup : win_setup :=
  WinSetup (DomainSetup 3 0x10 (str "winxp") (str "/vm/5678") 1 1024
    sample_ctrlreg [] (ConfigEntry (str "winxp") [] (str "Windows") [0x8000; 0x88; 0x18; 0x84; 0; 0; 0]))
    0x8000 0x80005000 0x1000 0x80006088.

Abbreviation xp := (wn_opened 9 XA_FAILHARD xp_setup).

Definition xp_et : export_table := ExportTable 0 0 0 0 0x440 0 0 1 0x300 0x310 0x320.

Abbreviation xp_base := (wn_based 9 XA_FAILHARD xp_setup).

Lemma xp_export_table : export_table_at xp_base 0x8000 = Some xp_et.
Proof. vm_compute. reflexivity. Qed.

Lemma xp_first_match : first_match xp_base (str "PsInitialSystemProcess") xp_et 0 1 = Some 0.
Proof. vm_compute. reflexivity. Qed.

Lemma xp_ordinal : ordinal xp_base xp_et 0 = Some 0.
Proof. vm_compute. reflexivity. Qed.

Lemma xp_rva : export_rva xp_base (str "PsInitialSystemProcess") = Some 0x500.
Proof. vm_compute. reflexivity. Qed.

Lemma xp_optional_header : optional_header_at xp_base 0x8000 = 0x8098.
Proof. vm_compute. reflexivity. Qed.

Lemma xp_headers : headers_in_page xp_base 0x8000.
Proof.
  split; [vm_compute; discriminate|rewrite xp_optional_header; vm_compute; discriminate|].
  intros m Hm. rewrite xp_optional_header in Hm.
  assert (m = xp_frame 0x8000) as -> by by injection Hm.
  unfold export_header_at. rewrite xp_optional_header. vm_compute. discriminate.
Qed.

Lemma xp_exports : exports_in_page xp_base (str "PsInitialSystemProcess").
Proof.
  assert (Hb : ntoskrnl (os_windows xp_base) = 0x8000) by reflexivity.
  split; rewrite Hb.
  - exact xp_headers.
  - intros et. rewrite xp_export_table. intros [= <-]. vm_compute. split; [discriminate|reflexivity].
  - intros et j. rewrite xp_export_table. intros [= <-] Hj. change (number_of_names xp_et) with 1 in Hj.
    assert (j = 0) as -> by lia. vm_compute. discriminate.
  - intros et k. rewrite xp_export_table. intros [= <-].
    change (Z.to_nat (number_of_names xp_et)) with 1%nat. rewrite xp_first_match. intros [= <-].
    vm_compute. discriminate.
  - intros et k o. rewrite xp_export_table. intros [= <-].
    change (Z.to_nat (number_of_names xp_et)) with 1%nat. rewrite xp_first_match. intros [= <-].
    rewrite xp_ordinal. intros [= <-]. vm_compute. discriminate.
Qed.

Lemma xp_domain_ok : domain_ok XA_OS_WINDOWS 9 xp_setup.
Proof.
  split; try reflexivity.
  - vm_compute. lia.
  - split; try reflexivity; vm_compute; (lia || done).
  - vm_compute. discriminate.
Qed.

Lemma xp_system : system_process xp_base 0x80005000 0x1000 0x80006088.
Proof.
  split.
  - exact xp_exports.
  - intros v. rewrite xp_rva. intros [= <-]. vm_compute. split; [reflexivity|]. split; discriminate.
  - intros v. rewrite xp_rva. intros [= <-]. vm_compute. discriminate.
  - vm_compute. reflexivity.
  - vm_compute. discriminate.
  - vm_compute. reflexivity.
  - discriminate.
  - vm_compute. discriminate.
  - vm_compute. reflexivity.
Qed.

Lemma xp_ok n : win_ok n 9 XA_FAILHARD xp_setup.
Proof.
  split; [exact xp_domain_ok|reflexivity| |exact xp_system]. left. split; [vm_compute; reflexivity|discriminate].
Qed.

Lemma init_windows_correct_witness :
  runs (xa_init_vm_id_strict 0 9) (guest_world lin) (fun r w' =>
    r = XA_SUCCESS /\ kpgd (inst w') = 0x80001000 /\ init_task (inst w') = 0x80006088 /\ live_maps w' = 0).
Proof.
  eapply runs_mono.
  - apply (init_windows_correct 0 9 XA_FAILHARD xp_setup (fun _ => 0)).
    + apply fresh_guest_zero.
    + intros p. cbv beta. lia.
    + exact (xp_ok 0).
  - intros r w' (-> & Hi & _ & Hk & Ht & _ & _ & Hl). rewrite Hi, Hk, Ht.
    split; [reflexivity|]. split; [vm_compute; reflexivity|]. split; [reflexivity|exact Hl].
Defined.

(** The same guest as an image file, in a cleared instance; page zero holds
    the processor's interrupt vectors. *)
Definition xp_file : image := (0x18, 0xF000EF6F) :: xp_image.

Definition xp_cleared : xa_instance :=
  XaInstance XA_MODE_FILE XA_FAILHARD None None 0x80000000 12 4096 0 0 XA_OS_WINDOWS 1 0 0 0
    (LinuxInstance 0 0 0 0 0) (WindowsInstance 0x8000 0x88 0x18 0x84 0 0 0)
    (XenSource 0 0 0 0 0 None 0) (FileSource 0x100000).

Lemma xp_cleared_image : @cleared_image (guest_env xp_file) xp_cleared 0x80005000 0xF000EF6F 0.
Proof.
  assert (Het : @export_table_at (guest_env xp_file) xp_cleared 0x8000 = Some xp_et) by (vm_compute; reflexivity).
  assert (Hfm : @first_match (guest_env xp_file) xp_cleared (str "PsInitialSystemProcess") xp_et 0 1 = Some 0)
    by (vm_compute; reflexivity).
  assert (Hor : @ordinal (guest_env xp_file) xp_cleared xp_et 0 = Some 0) by (vm_compute; reflexivity).
  assert (Hrva : @export_rva (guest_env xp_file) xp_cleared (str "PsInitialSystemProcess") = Some 0x500)
    by (vm_compute; reflexivity).
  assert (Hopt : @optional_header_at (guest_env xp_file) xp_cleared 0x8000 = 0x8098) by (vm_compute; reflexivity).
  split; [split; reflexivity|reflexivity|discriminate|reflexivity|reflexivity|reflexivity|reflexivity|vm_compute; discriminate|discriminate
         | | | | | |discriminate| |].
  - split; change (ntoskrnl (os_windows xp_cleared)) with 0x8000.
    + split; [vm_compute; discriminate|rewrite Hopt; vm_compute; discriminate|].
      intros m Hm. rewrite Hopt in Hm. injection Hm as <-.
      unfold export_header_at. rewrite Hopt. vm_compute. discriminate.
    + intros et. rewrite Het. intros [= <-]. vm_compute. split; [discriminate|reflexivity].
    + intros et j. rewrite Het. intros [= <-] Hj. change (number_of_names xp_et) with 1 in Hj.
      assert (j = 0) as -> by lia. vm_compute. discriminate.
    + intros et k. rewrite Het. intros [= <-].
      change (Z.to_nat (number_of_names xp_et)) with 1%nat. rewrite Hfm. intros [= <-]. vm_compute. discriminate.
    + intros et k o. rewrite Het. intros [= <-].
      change (Z.to_nat (number_of_names xp_et)) with 1%nat. rewrite Hfm. intros [= <-].
      rewrite Hor. intros [= <-]. vm_compute. discriminate.
  - intros v. rewrite Hrva. intros [= <-]. vm_compute. discriminate.
  - vm_compute. reflexivity.
  - vm_compute. split; [split; [discriminate|reflexivity]|discriminate].
  - vm_compute. reflexivity.
  - vm_compute. split; [split; [discriminate|reflexivity]|discriminate].
  - vm_compute. reflexivity.
Qed.

Lemma windows_image_page_zero_witness :
  runs (@windows_init (guest_env xp_file) xp_store vm_files 0) (guest_world xp_cleared) (fun r w' =>
    r = XA_SUCCESS /\ kpgd (inst w') = 0x7000EF6F /\ init_task (inst w') = 0).
Proof.
  eapply runs_mono.
  - apply (@windows_image_page_zero (guest_env xp_file) (guest_whole _) xp_store vm_files
             0 xp_cleared 0x80005000 0xF000EF6F 0 (fun _ => 0) [] (guest_world xp_cleared)).
    + reflexivity.
    + exact xp_cleared_image.
    + apply world_coherent.
    + apply guest_cached.
    + constructor.
  - intros r w' (-> & -> & ->). split; [reflexivity|]. split; [vm_compute; reflexivity|reflexivity].
Defined.
