(* ===== verification/XaFind.v ===== *)
(** * The Windows kernel's page directory by the name of a process

    The second method of windows_core.c: when PsInitialSystemProcess cannot
    be looked up, physical memory is searched for the process named System.
    The search is proved equal to a search on the words and names of the
    memory, and opening a domain through it is followed to the end. *)

From Stdlib Require Import String.
From S2P Require Import Prelude CStr XaTypes XaMap XaPhys Guest PageTable XaCache XaAccess Symbols ProcList Linux XaStore SymAccess WindowsPe Windows XaApi Config XaCore XaVm XaWin.

(** A string that ends, or is cut, before the end of its page. *)
Lemma load_string_upto n : forall m off w,
  0 <= off -> off < m_len m ->
  off + Z.of_nat n <= m_len m \/ (exists j, 0 <= j /\ off + j < m_len m /\ le_combine (bytes m (off + j) 1) = 0) ->
  load_string n m off w = Ret (string_at n m off, w).
Proof.
  induction n as [|n IH]; intros m off w H0 Hlt Hend; [done|]. cbn [load_string string_at].
  erewrite bind_eq.
  2:{ unfold load. rewrite (proj2 (Z.leb_le 0 _)), (proj2 (Z.leb_le _ (m_len m))) by lia. done. }
  destruct (Z.eqb_spec (le_combine (bytes m off 1)) 0) as [|Hne]; [done|].
  erewrite bind_eq; [done|].
  destruct Hend as [Hl|(j & Hj & Hl & Hz)].
  - destruct n as [|n]; [done|]. apply IH; [lia|lia|left; lia].
  - destruct (decide (j = 0)) as [->|Hj0]; [by rewrite Z.add_0_r in Hz|].
    apply IH; [lia|lia|]. right. exists (j - 1). replace (off + 1 + (j - 1)) with (off + j) by lia.
    split; [lia|done].
Qed.

(** ** The search on the memory *)

Section Search.
Context {E : XenEnv} {W : WholePages}.
Implicit Types (w : world).
Variables (i : xa_instance) (name : cstr).

(** The number of places below the end of the memory. *)
Definition places : nat := Z.to_nat ((memory_end i + 7) / 8).

(** The word that is looked at for the [k]-th multiple of 8: the one there, or
    when it cannot be read the one before. *)
Fixpoint last_value (k : nat) : Z :=
  match k with O => 0 | S k' => default (last_value k') (mem_read i 4 (8 * Z.of_nat k')) end.

Definition name_addr (k : nat) : Z := u32 (8 * Z.of_nat k + 0x174).

(** The name of the process there, when its page can be mapped. *)
Definition name_at (k : nat) : option cstr :=
  m ← frame_of i PROT_READ (name_addr k / 4096); Some (string_at 50 m (name_addr k mod 4096)).

Definition looked_at (k : nat) : bool := magic (last_value (S k)).

Definition is_process (k : nat) : bool :=
  looked_at k && match name_at k with Some s => strncmp s name 50 =? 0 | None => false end.

(** The first process with the name among [n] places from [k] on. *)
Fixpoint first_process (k n : nat) : option nat :=
  match n with
  | O => None
  | S n' => if is_process k then Some k else first_process (S k) n'
  end.

(** How many names are read before the search ends. *)
Fixpoint names_read (k n : nat) : Z :=
  match n with
  | O => 0
  | S n' => (if looked_at k then match name_at k with Some _ => 1 | None => 0 end else 0) +
            if is_process k then 0 else names_read (S k) n'
  end.

(** The names that are read end before their pages do. *)
Definition names_end : Prop := forall k m, (k < places)%nat -> looked_at k = true ->
  frame_of i PROT_READ (name_addr k / 4096) = Some m ->
  name_addr k mod 4096 + 50 <= m_len m \/
  exists j, 0 <= j /\ name_addr k mod 4096 + j < m_len m /\ le_combine (bytes m (name_addr k mod 4096 + j) 1) = 0.

Hypothesis Hgeo : geometry i.
Hypothesis Hphys : hvm i <> 0 \/ mode i = XA_MODE_FILE.
Hypothesis Hnames : names_end.

Lemma eprocess_name_eq k w :
  inst w = i -> (k < places)%nat -> looked_at k = true ->
  windows_get_eprocess_name (8 * Z.of_nat k) w = Ret (name_at k, opened (frame_of i PROT_READ (name_addr k / 4096)) w).
Proof.
  intros Hi Hk Hl. unfold windows_get_eprocess_name, name_at. fold (name_addr k).
  erewrite bind_eq by (apply xa_access_pa_eq; rewrite ?Hi; [done|apply u32_range|done]). rewrite Hi.
  destruct (frame_of i PROT_READ (name_addr k / 4096)) as [m|] eqn:Ef; [|done].
  erewrite bind_eq; [done|]. pose proof (Z.mod_pos_bound (name_addr k) 4096 ltac:(lia)).
  apply load_string_upto; [lia|rewrite (frame_whole _ _ _ _ Hgeo Ef); lia|by apply Hnames].
Qed.

(** One turn. *)
Lemma find_step_search k end_ w :
  inst w = i -> 8 * Z.of_nat k < end_ -> end_ <= 0xFFFFFFF8 -> (k < places)%nat ->
  find_eprocess_step name end_ (8 * Z.of_nat k, last_value k) w =
  Ret (if is_process k then inr (8 * Z.of_nat k) else inl (8 * Z.of_nat (S k), last_value (S k)),
       with_live_maps (live_maps w + (if looked_at k then match name_at k with Some _ => 1 | None => 0 end else 0)) w).
Proof.
  intros Hi Hlt He Hpl. unfold find_eprocess_step. rewrite (proj2 (Z.ltb_lt _ _)) by done.
  erewrite bind_eq.
  2:{ apply (read_phys_eq i Hgeo Hphys); [done|lia|]. Z.to_euclidean_division_equations. lia. }
  cbv zeta. change (default (last_value k) (mem_read i 4 (8 * Z.of_nat k))) with (last_value (S k)).
  fold (magic (last_value (S k))). fold (looked_at k). unfold is_process.
  assert (Hnext : u32 (8 * Z.of_nat k + 8) = 8 * Z.of_nat (S k)) by (rewrite u32_small; lia).
  destruct (looked_at k) eqn:El; cbn [andb].
  - assert (Hfound : (s ← windows_get_eprocess_name (8 * Z.of_nat k);
        match s with Some procname => mret (strncmp procname name 50 =? 0) | None => mret false end : M world bool) w =
      Ret (match name_at k with Some s => strncmp s name 50 =? 0 | None => false end,
           opened (frame_of i PROT_READ (name_addr k / 4096)) w)).
    { erewrite bind_eq by (apply eprocess_name_eq; done). by destruct (name_at k). }
    erewrite bind_eq by exact Hfound. rewrite Hnext, opened_live. unfold name_at.
    destruct (frame_of i PROT_READ (name_addr k / 4096)) as [m|]; cbn [mbind option_bind];
      [by destruct (_ =? 0)|done].
  - erewrite bind_eq by done. rewrite Hnext, Z.add_0_r. by destruct w.
Qed.

Lemma find_loop_search end_ : forall n k w fuel,
  inst w = i -> 0 <= end_ <= 0xFFFFFFF8 -> (n < fuel)%nat ->
  (k + n <= places)%nat -> 8 * Z.of_nat (k + n) >= end_ -> (n = 0%nat \/ 8 * Z.of_nat (k + n) < end_ + 8) ->
  iter fuel (find_eprocess_step name end_) (8 * Z.of_nat k, last_value k) w =
  Ret (match first_process k n with Some j => 8 * Z.of_nat j | None => 0 end,
       with_live_maps (live_maps w + names_read k n) w).
Proof.
  induction n as [|n IH]; intros k w fuel Hi He Hf Hpl Hge Hlt; (destruct fuel as [|fuel]; [lia|]); rewrite iter_S.
  - cbn [first_process names_read]. erewrite bind_eq; [|unfold find_eprocess_step; rewrite (proj2 (Z.ltb_ge _ _)) by lia; done].
    rewrite Z.add_0_r. by destruct w.
  - destruct Hlt as [|Hlt]; [done|]. erewrite bind_eq by (apply find_step_search; [done|lia|lia|lia]).
    cbn [first_process names_read]. destruct (is_process k) eqn:Ep; [by rewrite Z.add_0_r|].
    rewrite IH; [|done|done|lia|lia|lia|]. 2:{ destruct n; [by left|right; lia]. }
    cbn [live_maps with_live_maps]. rewrite Z.add_assoc. done.
Qed.

Lemma find_eprocess_eq n w :
  inst w = i -> 0 <= memory_end i <= 0xFFFFFFF8 -> (places < n)%nat ->
  windows_find_eprocess n name w =
  Ret (match first_process 0 places with Some j => 8 * Z.of_nat j | None => 0 end,
       with_live_maps (live_maps w + names_read 0 places) w).
Proof.
  intros Hi He Hn. unfold windows_find_eprocess. erewrite bind_eq by done. rewrite Hi.
  assert (Hp : Z.of_nat places = (memory_end i + 7) / 8).
  { unfold places. rewrite Z2Nat.id; [done|]. apply Z.div_pos; lia. }
  apply (find_loop_search (memory_end i) places 0 w n Hi He Hn).
  - lia.
  - rewrite Nat.add_0_l, Hp. Z.to_euclidean_division_equations. lia.
  - right. rewrite Nat.add_0_l, Hp. Z.to_euclidean_division_equations. lia.
Qed.
End Search.

(** ** Opening through the second method *)

Section Method2.
Context {E : XenEnv} {W : WholePages} {X : StoreEnv} {F : FileEnv} {P : ConfigParser} {H : HostEnv}.
Implicit Types (i : xa_instance) (w : world).

Definition system_name : cstr := str "System".

(** The System process is at the [j]-th multiple of 8, [k] is the directory
    base in it and [t] the link to the next process. *)
Record system_by_name i (j : nat) (k t : Z) : Prop := {
  sn_end : 0 <= memory_end i <= 0xFFFFFFF8;
  sn_names : names_end i;
  sn_found : first_process i system_name 0 (places i) = Some j;
  sn_nonzero : j <> 0%nat;
  sn_pdbase_in : u32 (8 * Z.of_nat j + 0x18) mod 4096 <= 4092;
  sn_pdbase : mem_read i 4 (u32 (8 * Z.of_nat j + 0x18)) = Some k;
  sn_dir : k <> 0;
  sn_tasks_in : u32 (8 * Z.of_nat j + w_tasks_offset (os_windows i)) mod 4096 <= 4092;
  sn_tasks : mem_read i 4 (u32 (8 * Z.of_nat j + w_tasks_offset (os_windows i))) = Some t }.

(** The kernel image has no usable export PsInitialSystemProcess. *)
Definition no_system_export i : Prop :=
  exports_in_page i (str "PsInitialSystemProcess") /\ export_rva i (str "PsInitialSystemProcess") = None.

Lemma win_coherent_live i pgd_of w n : win_coherent i pgd_of w -> win_coherent i pgd_of (with_live_maps n w).
Proof. intros [Hc Hs]. split; [exact Hc|exact Hs]. Qed.

Lemma method1_fails i pgd_of w :
  geometry i -> (forall q, is_u32 (pgd_of q)) -> hvm i <> 0 -> os_type i = XA_OS_WINDOWS ->
  error_mode i = XA_FAILHARD -> no_system_export i -> win_coherent i pgd_of w ->
  runs (get_kpgd_method1 0) w (fun r w' =>
    r = (XA_FAILURE, 0) /\ win_coherent i pgd_of w' /\ live_maps w' = live_maps w).
Proof.
  intros Hg Hp Hh Ho Hm [He Hn] Hw. assert (Hph : hvm i <> 0 \/ mode i = XA_MODE_FILE) by by left.
  apply runs_bind. eapply runs_mono.
  { apply (windows_read_sym i pgd_of Hg Hph (str "PsInitialSystemProcess") w Ho Hw He);
      [discriminate|vm_compute; lia|by intros v Hv; rewrite Hn in Hv..]. }
  intros r w1 (-> & Hw1 & Hl1). unfold export_word. rewrite Hn. cbn [mbind option_bind default].
  pose proof Hw1 as [[Hi1 _] _].
  apply runs_bind, runs_bind, runs_gets. rewrite Hi1, Hm. change (report_error XA_FAILHARD XA_EMINOR) with XA_FAILURE.
  apply runs_ret. change (XA_FAILURE =? XA_FAILURE) with true. cbv iota. by apply runs_ret.
Qed.

Lemma method2_runs n i j k t pgd_of w :
  geometry i -> hvm i <> 0 -> mode i = XA_MODE_XEN -> is_u32 (page_offset i) ->
  system_by_name i j k t -> (places i < n)%nat -> win_coherent i pgd_of w ->
  runs (get_kpgd_method2 n) w (fun r w' =>
    r = (XA_SUCCESS, 8 * Z.of_nat j) /\ win_coherent (set_kpgd (kernel_dir i k) i) pgd_of w' /\
    live_maps w' = live_maps w + names_read i system_name 0 (places i)).
Proof.
  intros Hg Hh Hm Hoff [H1 H2 H3 H4 H5 H6 H7 _ _] Hn Hw. pose proof Hw as [[Hi _] _].
  assert (Hph : hvm i <> 0 \/ mode i = XA_MODE_FILE) by by left.
  apply runs_bind. eapply runs_eq; [by apply (find_eprocess_eq i system_name Hg Hph H2)|]. rewrite H3.
  rewrite (proj2 (Z.eqb_neq (8 * Z.of_nat j) 0)) by lia.
  apply runs_bind, runs_ret. change (XA_SUCCESS =? XA_FAILURE) with false. cbv iota.
  apply runs_bind, runs_bind. eapply runs_eq; [by apply (read_phys_eq i Hg Hph); [|apply u32_range|]|].
  rewrite H6. apply runs_bind, runs_modify, runs_ret. change (XA_SUCCESS =? XA_FAILURE) with false. cbv iota.
  apply runs_bind, runs_bind, runs_modify, runs_bind, runs_gets. cbn [inst with_inst with_live_maps]. rewrite Hi.
  cbn [kpgd page_offset set_kpgd].
  pose proof (mem_read_range i 4 _ _ H6) as Hk. change (256 ^ Z.of_nat 4) with 4294967296 in Hk.
  pose proof (kernel_dir_nonzero i k Hk Hoff H7) as Hne%Z.eqb_neq. unfold kernel_dir in Hne.
  rewrite Hne. apply runs_ret, runs_ret. split; [done|]. split; [|done].
  fold (kernel_dir i k).
  exact (win_coherent_live _ _ _ _ (win_coherent_kpgd i (kernel_dir i k) pgd_of w Hm Hw)).
Qed.

Lemma init_method2_runs n i base j k t pgd_of w (i1 := set_ntoskrnl base i) :
  inst w = i -> geometry i -> (forall q, is_u32 (pgd_of q)) -> hvm i <> 0 -> mode i = XA_MODE_XEN ->
  os_type i = XA_OS_WINDOWS -> error_mode i = XA_FAILHARD -> is_u32 (page_offset i) -> blank w ->
  base_known n i base -> no_system_export i1 -> system_by_name i1 j k t -> (places i1 < n)%nat ->
  runs (windows_init n) w (fun r w' =>
    r = XA_SUCCESS /\ win_coherent (win_opened i base k t) pgd_of w' /\
    live_maps w' = live_maps w + names_read i1 system_name 0 (places i1)).
Proof.
  intros Hi Hg Hp Hh Hm Ho He Hoff Hb Hbase Hno Hsp Hn.
  apply runs_bind. eapply runs_eq; [by apply find_ntoskrnl_eq; [..|left|]|].
  change (XA_SUCCESS =? XA_FAILURE) with false. cbv iota. fold i1. apply runs_bind, runs_bind.
  assert (Hw : win_coherent i1 pgd_of (with_inst i1 w)).
  { split; [exact (blank_coherent pgd_of (with_inst i1 w) Hb)|by apply blank_syms]. }
  eapply runs_mono; [by apply (method1_fails i1 pgd_of)|].
  intros r w1 (-> & Hw1 & Hl1). cbn [fst snd]. change (XA_FAILURE =? XA_FAILURE) with true. cbv iota.
  apply runs_bind. eapply runs_mono; [by apply (method2_runs n i1 j k t pgd_of)|].
  intros r w2 (-> & Hw2 & Hl2). cbn [fst snd]. change (XA_SUCCESS =? XA_FAILURE) with false. cbv iota.
  apply runs_ret. cbn [fst snd]. change (XA_SUCCESS =? XA_FAILURE) with false. cbv iota.
  pose proof Hw2 as [[Hi2 _] _]. apply runs_bind, runs_gets. rewrite Hi2. apply runs_bind.
  eapply runs_eq.
  { apply (read_phys_eq (set_kpgd (kernel_dir i1 k) i1)); [done|by left|done|apply u32_range|apply Hsp]. }
  change (mem_read (set_kpgd _ _) 4 ?a) with (mem_read i1 4 a).
  change (os_windows (set_kpgd _ _)) with (os_windows i1). rewrite (sn_tasks _ _ _ _ Hsp).
  apply runs_bind, runs_modify, runs_ret. split; [done|]. split.
  - rewrite Hi2. by apply win_coherent_task.
  - change (live_maps w2 = live_maps w + names_read i1 system_name 0 (places i1)). rewrite Hl2, Hl1. done.
Qed.

(** What a domain must be for the search to find its kernel: a setup of
    [XaWin] whose System process is at the [j]-th multiple of 8. *)
Record find_ok (n : nat) (dom : Z) (s : win_setup) (j : nat) : Prop := {
  fk_domain : domain_ok XA_OS_WINDOWS dom s;
  fk_hvm : vm_hvm s = 1;
  fk_base : base_known n (wn_before dom XA_FAILHARD s) (wn_base s);
  fk_export : no_system_export (wn_based dom XA_FAILHARD s);
  fk_system : system_by_name (wn_based dom XA_FAILHARD s) j (wn_dir s) (wn_next s);
  fk_fuel : (places (wn_based dom XA_FAILHARD s) < n)%nat }.

(** C11: a fully virtualised Windows domain whose kernel image does not export
    PsInitialSystemProcess is opened all the same, in strict mode, by the
    second method: memory is searched in steps of 8 bytes, up to its end, for
    the first process header followed at 0x174 by the name System; the page
    directory is taken at 0x18 of it and the process list at the configured
    offset, and the instance is the one the first method leaves when the
    export points at that process.  Every name that is read on the way leaves
    a page mapped. *)
Theorem init_windows_by_name n dom s j pgd_of w (i := wn_opened dom XA_FAILHARD s) :
  fresh (zero_cache w) -> (forall p, is_u32 (pgd_of p)) -> find_ok n dom s j ->
  runs (xa_init_vm_id_strict n dom) w (fun r w' =>
    r = XA_SUCCESS /\ win_coherent i pgd_of w' /\
    live_maps w' = live_maps w +
      names_read (wn_based dom XA_FAILHARD s) system_name 0 (places (wn_based dom XA_FAILHARD s))).
Proof.
  intros Hf Hp [Hd Hv Hb He Hs Hn].
  apply (domain_init_runs n XA_OS_WINDOWS dom XA_FAILHARD s); [by right|done|done|].
  fold (wn_before dom XA_FAILHARD s). intros w0 Hi0 Hb0 <-.
  pose proof (domain_geometry XA_OS_WINDOWS dom XA_FAILHARD s) as (Hg & Hh & Hm & Ho & Hoff & _).
  fold (wn_before dom XA_FAILHARD s) in Hg, Hh, Hm, Ho, Hoff. rewrite Hv in Hh.
  apply (init_method2_runs n (wn_before dom XA_FAILHARD s) (wn_base s) j (wn_dir s) (wn_next s));
    try done. by rewrite Hh.
Qed.
End Method2.

(** *** Witness

    The domain of [XaWin] with 1 KB of memory to search, an export table
    without names, and the header of the System process at 0x100. *)

Definition find_image : image :=
  [(0x1800, 0x83); (0x1804, 0x400083);
   (0x8000, 0x5A4D); (0x803C, 0x80); (0x8080, 0x4550); (0x80F8, 0x200);
   (0x820C, 0x440); (0x821C, 0x300); (0x8220, 0x310); (0x8224, 0x320);
   (0x100, 0x001b0003); (0x118, 0x1000); (0x188, 0x80006088)] ++
  put_str 0x8440 (str "ntoskrnl.exe") ++ put_str 0x274 (str "System").

#[local] Instance find_env : XenEnv := {|
  xc_map_foreign_range _ _ mfn := Some (Mapping 4096 (fun k => byte_at find_image (4096 * mfn + k)));
  xc_map_foreign_batch _ _ _ := None;
  xc_batch_result _ _ mfns := mfns;
  xc_vcpu_getcontext _ := Some sample_ctrlreg;
  xc_maximum_gpfn _ := 0xFF;
  shinfo_max_pfn _ := 0;
  shinfo_frame_list_list _ := 0;
  file_mmap _ _ _ := None;
  clock n := Z.of_nat n;
  indet := 0 |}.

#[local] Instance find_whole : WholePages.
Proof. split; [by intros ???? [= <-]|done|done]. Defined.

#[local] Instance find_store : StoreEnv := {|
  xs_read path :=
    if decide (path = str "/local/domain/9/name") then Some (str "winxp")
    else if decide (path = str "/local/domain/9/vm") then Some (str "/vm/5678")
    else if decide (path = str "/vm/5678/image/kernel") then Some (str "/usr/lib/xen/boot/hvmloader")
    else if decide (path = str "/local/domain/9/memory/target") then Some (str "1")
    else None;
  xs_directory _ := [] |}.

#[local] Existing Instance vm_files.
#[local] Existing Instance vm_host.
#[local] Existing Instance xp_parser.

Definition find_setup : win_setup :=
  WinSetup (DomainSetup 3 0x10 (str "winxp") (str "/vm/5678") 1 1
    sample_ctrlreg [] (ConfigEntry (str "winxp") [] (str "Windows") [0x8000; 0x88; 0x18; 0x84; 0; 0; 0]))
    0x8000 0 0x1000 0x80006088.

Abbreviation find_base := (wn_based 9 XA_FAILHARD find_setup).

Lemma find_export_table : export_table_at find_base 0x8000 = Some (ExportTable 0 0 0 0 0x440 0 0 0 0x300 0x310 0x320).
Proof. vm_compute. reflexivity. Qed.

Lemma find_optional_header : optional_header_at find_base 0x8000 = 0x8098.
Proof. vm_compute. reflexivity. Qed.

Lemma find_headers : headers_in_page find_base 0x8000.
Proof.
  split; [vm_compute; discriminate|rewrite find_optional_header; vm_compute; discriminate|].
  intros m Hm. rewrite find_optional_header in Hm.
  assert (m = Mapping 4096 (fun k => byte_at find_image (4096 * 8 + k))) as -> by by injection Hm.
  unfold export_header_at. rewrite find_optional_header. vm_compute. discriminate.
Qed.

Lemma find_no_export : no_system_export find_base.
Proof.
  split; [|vm_compute; reflexivity].
  assert (Hb : ntoskrnl (os_windows find_base) = 0x8000) by reflexivity.
  split; rewrite Hb.
  - exact find_headers.
  - intros et. rewrite find_export_table. intros [= <-]. vm_compute. split; [discriminate|reflexivity].
  - intros et j. rewrite find_export_table. intros [= <-] Hj. cbn [number_of_names] in Hj. lia.
  - intros et k. rewrite find_export_table. intros [= <-] Hk. discriminate Hk.
  - intros et k o. rewrite find_export_table. intros [= <-] Hk. discriminate Hk.
Qed.

Lemma find_looked : forallb (fun k => negb (looked_at find_base k) || (k =? 32)%nat) (seq 0 128) = true.
Proof. vm_compute. reflexivity. Qed.

Lemma find_names : names_end find_base.
Proof.
  intros k m Hk Hl Hm. assert (Hp : places find_base = 128%nat) by (vm_compute; reflexivity). rewrite Hp in Hk.
  pose proof find_looked as H. rewrite forallb_forall in H.
  specialize (H k). rewrite Hl in H. cbn [negb orb] in H.
  assert (k = 32%nat) as -> by (apply Nat.eqb_eq, H, in_seq; lia).
  left. assert (m = Mapping 4096 (fun k => byte_at find_image k)) as -> by by injection Hm. vm_compute. discriminate.
Qed.

Lemma find_domain_ok : domain_ok XA_OS_WINDOWS 9 find_setup.
Proof.
  split; try reflexivity.
  - vm_compute. lia.
  - split; try reflexivity; vm_compute; (lia || done).
  - vm_compute. discriminate.
Qed.

Lemma find_system : system_by_name find_base 32 0x1000 0x80006088.
Proof.
  split.
  - vm_compute. split; discriminate.
  - exact find_names.
  - vm_compute. reflexivity.
  - discriminate.
  - vm_compute. discriminate.
  - vm_compute. reflexivity.
  - discriminate.
  - vm_compute. discriminate.
  - vm_compute. reflexivity.
Qed.

Lemma find_setup_ok : find_ok 200 9 find_setup 32.
Proof.
  split; [exact find_domain_ok|reflexivity| |exact find_no_export|exact find_system|].
  - left. split; [vm_compute; reflexivity|discriminate].
  - assert (places find_base = 128%nat) as -> by (vm_compute; reflexivity). lia.
Qed.

Lemma init_windows_by_name_witness :
  runs (xa_init_vm_id_strict 200 9) (guest_world lin) (fun r w' =>
    r = XA_SUCCESS /\ kpgd (inst w') = 0x80001000 /\ init_task (inst w') = 0x80006088 /\ live_maps w' = 1).
Proof.
  eapply runs_mono.
  - apply (init_windows_by_name 200 9 find_setup 32 (fun _ => 0)).
    + apply fresh_guest_zero.
    + intros p. cbv beta. lia.
    + exact find_setup_ok.
  - intros r w' (-> & [[Hi _] _] & Hl). rewrite Hi, Hl.
    split; [reflexivity|]. split; [vm_compute; reflexivity|]. split; [reflexivity|vm_compute; reflexivity].
Defined.
