(* ===== verification/XaDomain.v ===== *)
(** * Domains that can be opened

    What the programs that do not care about the operating system rely on when
    they open a running domain: class [Opens].  A Linux domain as in [XaVm],
    fully virtualised or paravirtual, a Windows domain as in [XaWin] and, in
    the lax mode, a domain without a configuration as in [XaLax] provide it. *)

From Stdlib Require Import String.
From S2P Require Import Prelude CStr Dll XaTypes XaMap XaPhys Guest PageTable XaCache XaAccess Symbols.
From S2P Require Import XaStore ProcList Linux SymAccess WindowsPe Windows XaApi Config XaCore XaVm XaLax XaWin.

Section Domains.
Context {E : XenEnv} {W : WholePages} {X : StoreEnv} {F : FileEnv} {P : ConfigParser} {H : HostEnv}.

(** Opening domain [dom] with fuel [n] leaves the instance [i]. *)
Class Opens (n : nat) (dom error_mode_ : Z) (i : xa_instance) : Prop := {
  opens_geometry : geometry i;
  opens_size : 0 < xen_size (m_xen i) < 4294967296;
  opens_runs w : fresh (zero_cache w) ->
    runs (xa_init_vm_private n dom error_mode_) w (fun r w' =>
      r = XA_SUCCESS /\ coherent i (fun _ => 0) w' /\ live_maps w' = live_maps w + tables i) }.

(** The instance of a domain that can be opened. *)
Definition domain_at (n : nat) (dom error_mode_ : Z) (i : xa_instance) : Prop :=
  (exists s i', vm_ok dom error_mode_ s i' /\ i = vm_opened s i') \/
  (exists s, win_ok n dom error_mode_ s /\ i = wn_opened dom error_mode_ s) \/
  (error_mode_ = XA_FAILSOFT /\ exists d i1,
     bare_ok dom d /\ unconfigured dom (bare_start dom error_mode_ d) i1 /\ i = bare_opened d i1).

Lemma zero_pgd_u32 : forall p : Z, is_u32 ((fun _ => 0) p).
Proof. intros p. cbv beta. lia. Qed.

#[local] Instance linux_opens n dom error_mode_ s i' :
  vm_ok dom error_mode_ s i' -> Opens n dom error_mode_ (vm_opened s i').
Proof.
  intros Hok. pose proof (vm_opened_spec _ _ _ _ Hok) as (Hg & _).
  destruct (vm_opened_size _ _ _ _ Hok) as [Hx _].
  pose proof (vs_kb _ _ _ _ (ok_store _ _ _ (ok_domain _ _ _ _ Hok))) as Hkb.
  split; [exact Hg|lia|]. intros w Hf. eapply runs_mono.
  - by apply (init_vm_runs n dom error_mode_ s i' (fun _ => 0) w Hf zero_pgd_u32).
  - by intros r w' (-> & _ & [Hc _] & Hl).
Qed.

#[local] Instance windows_opens n dom error_mode_ s :
  win_ok n dom error_mode_ s -> Opens n dom error_mode_ (wn_opened dom error_mode_ s).
Proof.
  intros Hok. pose proof (wn_opened_spec dom error_mode_ s) as (Hg & _ & _ & Hx & Ht).
  pose proof (vs_kb _ _ _ _ (ok_store _ _ _ (wk_domain _ _ _ _ Hok))) as Hkb.
  split; [exact Hg|lia|]. intros w Hf. eapply runs_mono.
  - by apply (init_windows_runs n dom error_mode_ s (fun _ => 0) w Hf zero_pgd_u32).
  - intros r w' (-> & [Hc _] & Hl). unfold tables. rewrite Ht, Z.add_0_r. by split_and!.
Qed.

#[local] Instance bare_opens n dom d i1 :
  bare_ok dom d -> unconfigured dom (bare_start dom XA_FAILSOFT d) i1 ->
  Opens n dom XA_FAILSOFT (bare_opened d i1).
Proof.
  intros Hok Hu. destruct (bare_opened_spec _ _ _ _ Hu) as (Hg & _ & _ & _ & Hx & Ht).
  pose proof (vs_kb _ _ _ _ (bo_store _ _ Hok)) as Hkb.
  split; [exact Hg|lia|]. intros w Hf. eapply runs_mono; [by apply (init_unconfigured_runs n dom XA_FAILSOFT d i1)|].
  intros r w' (Hb & Hl & -> & Hi). split; [done|]. split.
  - rewrite <- Hi. by apply blank_coherent.
  - unfold tables. by rewrite Ht, Z.add_0_r.
Qed.

Lemma domain_opens n dom error_mode_ i : domain_at n dom error_mode_ i -> Opens n dom error_mode_ i.
Proof.
  intros [(s & i' & Hok & ->)|[(s & Hok & ->)|(-> & d & i1 & Hok & Hu & ->)]];
    [by apply linux_opens|by apply windows_opens|by apply bare_opens].
Qed.
End Domains.
