(* ===== verification/Console.v ===== *)
(** * Programs that use the library

    The state of the example programs: the library's and what has been
    printed on standard output; messages on standard error are left out.
    Library calls run on the first part; this file has the C strings the
    programs print from mapped memory and the end every program shares. *)

From Stdlib Require Import String.
From S2P Require Import Prelude CStr Dll XaTypes XaMap XaPhys Guest PageTable XaCache XaAccess Symbols.
From S2P Require Import XaStore ProcList Linux SymAccess WindowsPe Windows XaApi Config XaCore XaVm.

Record session := Session { lib_state : world; stdout : cstr }.

Definition with_lib (w : world) (s : session) : session := Session w (stdout s).

(** A library call. *)
Definition lib {A} : M world A -> M session A := zoom lib_state with_lib.

Definition printf (t : cstr) : M session unit :=
  modify (fun s => Session (lib_state s) (stdout s ++ t)).

(** The bytes in front of the first NUL; [None] when there is none. *)
Fixpoint until_nul (l : list Z) : option cstr :=
  match l with
  | [] => None
  | c :: l' => if c =? 0 then Some [] else s ← until_nul l'; Some (c :: s)
  end.

(** The C string at [m + off]; it must end inside the mapping. *)
Definition string_at (m : mapping) (off : Z) : option cstr :=
  if 0 <=? off then until_nul (bytes m off (Z.to_nat (m_len m - off))) else None.

(** [%5d] *)
Definition pad5 (n : Z) : cstr := replicate (5 - length (dec n)) 32 ++ dec n.

Section Exit.
Context {H : HostEnv}.

(** The label [error_exit] and what follows it. *)
Definition error_exit (memory : option mapping) : M session Z :=
  _ ← (match memory with Some _ => lib munmap | None => mret tt end : M session unit);
  _ ← lib xa_destroy;
  mret 0.
End Exit.

Section Rules.
Context {A : Type}.

Lemma runs_lib (m : M world A) s (Q : A -> session -> Prop) :
  runs m (lib_state s) (fun a w => Q a (with_lib w s)) -> runs (lib m) s Q.
Proof. apply runs_zoom. Qed.

Lemma runs_printf t s (Q : unit -> session -> Prop) :
  Q tt (Session (lib_state s) (stdout s ++ t)) -> runs (printf t) s Q.
Proof. intros HQ. by eexists tt, _. Qed.
End Rules.

(** Leaving a program frees what the library holds: the caches are empty, and
    the page the program had open and the table of a paravirtual domain are
    unmapped. *)
Lemma error_exit_runs `{XenEnv, WholePages, HostEnv} memory i pgd_of s (Q : Z -> session -> Prop) :
  coherent i pgd_of (lib_state s) ->
  (forall w, fresh w -> nodes (cache w) = ∅ -> nodes (pid_cache w) = ∅ ->
     live_maps w = live_maps (lib_state s) - match memory with Some _ => 1 | None => 0 end - tables i ->
     Q 0 (with_lib w s)) ->
  runs (error_exit memory) s Q.
Proof.
  intros (Hi & (lc & Hc & _) & (lp & Hp & _)) HQ.
  assert (Hm : runs (match memory with Some _ => lib munmap | None => mret tt end : M session unit) s
    (fun _ s' => s' = with_lib (with_live_maps
       (live_maps (lib_state s) - match memory with Some _ => 1 | None => 0 end) (lib_state s)) s)).
  { destruct memory; [by apply runs_lib, runs_modify|]. apply runs_ret.
    destruct s as [[]]. unfold with_lib, with_live_maps. cbn. by rewrite Z.sub_0_r. }
  apply runs_bind. eapply runs_mono; [exact Hm|]. intros _ s1 ->.
  apply runs_bind, runs_lib. eapply runs_mono; [by eapply (destroy_runs _ lc lp)|].
  cbn [lib_state with_lib with_live_maps inst live_maps]. rewrite Hi. fold (tables i).
  intros r w (_ & Hf & Hn1 & Hn2 & _ & Hl). apply runs_ret. apply HQ; [done..|lia].
Qed.

Lemma until_nul_app s rest : Forall (fun c => c <> 0) s -> until_nul (s ++ 0 :: rest) = Some s.
Proof.
  induction 1 as [|c s Hc Hs IH]; [done|]. cbn [app until_nul].
  apply Z.eqb_neq in Hc. rewrite Hc, IH. done.
Qed.

(** What [string_at] reads lies inside the mapping, and has no NUL. *)
Lemma until_nul_Some l s : until_nul l = Some s -> exists rest, l = s ++ 0 :: rest /\ Forall (fun c => c <> 0) s.
Proof.
  revert s. induction l as [|c l IH]; intros s; cbn [until_nul]; [done|].
  destruct (Z.eqb_spec c 0) as [->|Hc]; [intros [= <-]; by exists l|].
  destruct (until_nul l) as [s'|]; [|done]. intros [= <-].
  destruct (IH s' eq_refl) as (rest & -> & Hs). exists rest. split; [done|by constructor].
Qed.
