(* ===== verification/ProcessList.v ===== *)
(** * Listing the processes of a guest

    Models the programs examples/process-list.c and
    examples/process-list-file.c: open the guest, find the head of its process
    list, follow the list once around and print pid and name of the processes
    on the way, close the guest. *)

From Stdlib Require Import String.
From S2P Require Import Prelude CStr Dll XaTypes XaMap XaPhys Guest PageTable XaCache XaAccess Symbols.
From S2P Require Import XaStore ProcList Linux SymAccess WindowsPe Windows XaApi Config XaCore XaVm XaWin Console.

(** [printf("[%5d] %s\n", pid, name)] *)
Definition process_line (p : Z) (name : cstr) : cstr := str "[" ++ pad5 p ++ str "] " ++ name ++ [10].

Section Model.
Context {E : XenEnv} {X : StoreEnv} {F : FileEnv} {P : ConfigParser} {H : HostEnv}.

(** One turn of the loop: [inl] is the next process, [inr] the page that is
    open when the loop is left. *)
Definition walk_step (tasks_offset pid_offset name_offset list_head next_process : Z)
  : M session (Z + option mapping) :=
  r ← lib (xa_access_kernel_va next_process PROT_READ);
  match r with
  | (None, _) => mret (inr None) (* failed to map memory for process list pointer *)
  | (Some memory, offset) =>
      next ← lib (load32 memory offset);
      (* if we are back at the list head, we are done *)
      if list_head =? next then mret (inr (Some memory))
      else
        p ← lib (load32 memory (offset + pid_offset - tasks_offset));
        (* trivial sanity check on data *)
        if s32 p <? 0 then mret (inl next)
        else
          name ← of_option (string_at memory (offset + name_offset - tasks_offset));
          _ ← printf (process_line (s32 p) name);
          _ ← lib munmap;
          mret (inl next)
  end.

(** The walk from the head, once it is known, to the end of the program. *)
Definition walk_from (n : nat) (tasks_offset pid_offset name_offset list_head : Z) : M session Z :=
  _ ← lib munmap;
  r ← iter n (walk_step tasks_offset pid_offset name_offset list_head) list_head;
  error_exit r.

(** The first process of a Windows list is printed before the walk. *)
Definition print_first (memory : mapping) (offset pid_offset name_offset : Z) : M session unit :=
  name ← of_option (string_at memory (offset + name_offset));
  p ← lib (load32 memory (offset + pid_offset));
  printf (process_line (s32 p) name).

(** process-list.c *)
Definition process_list_main (n : nat) (argv1 : cstr) : M session Z :=
  let dom := u32 (atoi argv1) in
  ret ← lib (xa_init_vm_id_strict n dom);
  if ret =? XA_FAILURE then error_exit None
  else
    i ← lib (gets inst);
    if os_type i =? XA_OS_LINUX then
      let tasks_offset := l_tasks_offset (os_linux i) in
      let name_offset := 0x194 in
      let pid_offset := l_pid_offset (os_linux i) in
      r ← lib (xa_access_kernel_sym (str "init_task") PROT_READ);
      match r with
      | (None, _) => error_exit None
      | (Some memory, offset) =>
          next ← lib (load32 memory (offset + tasks_offset));
          walk_from n tasks_offset pid_offset name_offset next
      end
    else if os_type i =? XA_OS_WINDOWS then
      let tasks_offset := w_tasks_offset (os_windows i) in
      let name_offset := 0x174 in
      let pid_offset := w_pid_offset (os_windows i) in
      v ← lib (xa_read_long_sym (str "PsInitialSystemProcess"));
      let list_head := default indet v in
      r ← lib (xa_access_kernel_va list_head PROT_READ);
      match r with
      | (None, _) => error_exit None
      | (Some memory, offset) =>
          next ← lib (load32 memory (offset + tasks_offset));
          _ ← print_first memory offset pid_offset name_offset;
          walk_from n tasks_offset pid_offset name_offset next
      end
    else fault. (* the offsets are not initialised *)

(** process-list-file.c, with its own offsets *)
Definition TASKS_OFFSET : Z := 24 * 4.
Definition PID_OFFSET : Z := 39 * 4.
Definition NAME_OFFSET : Z := 108 * 4.
Definition ActiveProcessLinks_OFFSET : Z := 0x88.
Definition UniqueProcessId_OFFSET : Z := 0x84.
Definition ImageFileName_OFFSET : Z := 0x174.

Definition process_list_file_main (n : nat) (filename : cstr) : M session Z :=
  ret ← lib (xa_init_file_strict n filename (str "WinXP-HVM"));
  if ret =? XA_FAILURE then error_exit None
  else
    i ← lib (gets inst);
    if os_type i =? XA_OS_LINUX then
      r ← lib (xa_access_kernel_sym (str "init_task") PROT_READ);
      match r with
      | (None, _) => error_exit None
      | (Some memory, offset) =>
          next ← lib (load32 memory (offset + TASKS_OFFSET));
          walk_from n TASKS_OFFSET PID_OFFSET NAME_OFFSET next
      end
    else if os_type i =? XA_OS_WINDOWS then
      list_head ← lib (windows_find_eprocess n (str "System"));
      r ← lib (xa_access_pa list_head PROT_READ);
      match r with
      | (None, _) => error_exit None
      | (Some memory, offset) =>
          next ← lib (load32 memory (offset + ActiveProcessLinks_OFFSET));
          _ ← print_first memory offset UniqueProcessId_OFFSET ImageFileName_OFFSET;
          walk_from n ActiveProcessLinks_OFFSET UniqueProcessId_OFFSET ImageFileName_OFFSET next
      end
    else fault.
End Model.

(** ** The list as a ring *)

Section Ring.
Context {E : XenEnv}.
Variables (i : xa_instance) (tasks_offset pid_offset : Z).
Abbreviation task_at' := (task_at i tasks_offset pid_offset).

(** Nodes with their addresses, each linked to the next, the last to [e]. *)
Inductive chain (e : Z) : Z -> list (Z * (mapping * Z)) -> Prop :=
| chain_nil : chain e e []
| chain_cons v t l : task_at' v t -> chain e (next_of t) l -> chain e v ((v, t) :: l).

(** The process list: a ring through the node [v0] the program starts at, no
    node twice. *)
Record ring (v0 : Z) (t0 : mapping * Z) (l : list (Z * (mapping * Z))) : Prop := {
  ring_head : task_at' v0 t0;
  ring_chain : chain v0 (next_of t0) l;
  ring_nodup : NoDup (v0 :: l.*1) }.

Lemma chain_tasks v0 t0 head v l :
  task_at' v0 t0 -> next_of t0 = head -> chain v0 v l ->
  (head = v0 \/ head ∉ (match l with [] => [] | _ :: l' => l'.*1 end)) -> head <> v0 \/ l = [] ->
  tasks i tasks_offset pid_offset head v l.*2.
Proof.
  intros H0 Hn Hl. induction Hl as [|v t l Ht Hl IH]; intros Hnot Hne; cbn [fmap list_fmap snd].
  - by apply (tasks_last _ _ _ _ _ t0).
  - destruct Hne as [Hne|]; [|done]. destruct Hnot as [|Hnot]; [done|].
    apply tasks_cons; [done| |].
    + inversion Hl as [Hv Hl'|v' t' l' Ht' Hl' Hv E']; subst; [congruence|].
      intros Heq. apply Hnot. cbn [fmap list_fmap fst]. rewrite <- Heq. apply list_elem_of_here.
    + apply IH; [|by left]. right. intros Hin. apply Hnot.
      destruct l as [|[v' t'] l']; [done|]. by apply list_elem_of_further.
Qed.

(** The walk that starts behind the first node meets every other one. *)
Lemma ring_tasks v0 t0 l :
  ring v0 t0 l -> tasks i tasks_offset pid_offset (next_of t0) (next_of t0) l.*2.
Proof.
  intros [H0 Hc Hnd]. apply (chain_tasks v0 t0); [done|done|done| |].
  - destruct l as [|[v t] l]; [by right; apply not_elem_of_nil|]. right.
    inversion Hc; subst. cbn [fmap list_fmap fst] in Hnd.
    apply list.NoDup_cons in Hnd as [_ [Hv _]%list.NoDup_cons]. done.
  - destruct l as [|[v t] l]; [by right|]. left. inversion Hc; subst.
    apply list.NoDup_cons in Hnd as [Hv _]. intros Heq. apply Hv. cbn [fmap list_fmap fst].
    rewrite <- Heq. apply list_elem_of_here.
Qed.
End Ring.

(** ** The walk *)

Section Walk.
Context {E : XenEnv} {W : WholePages} {X : StoreEnv} {F : FileEnv} {P : ConfigParser} {H : HostEnv}.
Variables (i : xa_instance) (pgd_of : Z -> Z) (tasks_offset pid_offset name_offset : Z).
Hypothesis Hgeo : geometry i.
Hypothesis Hpgd : forall p, is_u32 (pgd_of p).

Abbreviation pid_of' := (pid_of tasks_offset pid_offset).

Definition name_of (t : mapping * Z) : option cstr := string_at t.1 (t.2 + name_offset - tasks_offset).

(** The names end inside their pages. *)
Definition named (t : mapping * Z) : Prop := exists s, name_of t = Some s.

(** What is to be printed of a list of processes. *)
Definition task_text (t : mapping * Z) : cstr := process_line (pid_of' t) (default [] (name_of t)).

Fixpoint listing (l : list (mapping * Z)) : cstr :=
  match l with
  | [] => []
  | t :: l' => (if pid_of' t <? 0 then [] else task_text t) ++ listing l'
  end.

(** The pages the program forgets. *)
Fixpoint skipped (l : list (mapping * Z)) : Z :=
  match l with [] => 0 | t :: l' => (if pid_of' t <? 0 then 1 else 0) + skipped l' end.

Lemma walk_runs head v l : forall n s,
  tasks i tasks_offset pid_offset head v l -> Forall named l -> coherent i pgd_of (lib_state s) ->
  (length l < n)%nat ->
  runs (iter n (walk_step tasks_offset pid_offset name_offset head) v) s (fun r s' =>
    (exists m, r = Some m) /\ coherent i pgd_of (lib_state s') /\
    stdout s' = stdout s ++ listing l /\
    live_maps (lib_state s') = live_maps (lib_state s) + skipped l + 1).
Proof.
  intros n s Hl. revert n s. induction Hl as [v t Ht Hn|v t l Ht Hn Hl IH]; intros n s Hnm Hc Hf;
    (destruct n as [|n]; [simpl in Hf; lia|]); apply runs_iter_step; unfold walk_step;
    destruct Ht as (Hu & Hpg & H1 & H2 & H3); destruct t as [m o]; cbn [fst snd] in *;
    apply (page_at_mapped i Hgeo) in Hpg as Hpg'; destruct Hpg' as [Hlen Ho];
    apply runs_bind, runs_lib; (eapply runs_mono; [by apply (kernel_va_coherent i pgd_of Hgeo Hpgd)|]);
    intros r w1 (-> & Hc1 & Hl1); rewrite Hpg in *; cbn [fst] in Hl1;
    apply runs_bind, runs_lib; (apply load_runs; [lia|rewrite Hlen; lia|]).
  - change (le_combine (bytes m o 4)) with (next_of (m, o)). rewrite Hn, Z.eqb_refl.
    apply runs_ret. cbn [lib_state stdout with_lib listing skipped].
    split; [by exists m|]. split; [done|]. split; [by rewrite app_nil_r|lia].
  - change (le_combine (bytes m o 4)) with (next_of (m, o)).
    rewrite (proj2 (Z.eqb_neq _ _)) by congruence.
    apply runs_bind, runs_lib, load_runs; [lia|rewrite Hlen; lia|].
    change (s32 (le_combine (bytes m (o + pid_offset - tasks_offset) 4))) with (pid_of' (m, o)).
    apply list.Forall_cons in Hnm as [[nm Hnm] Hnms]. simpl in Hf. cbn [listing skipped].
    destruct (pid_of' (m, o) <? 0).
    + apply runs_ret. eapply runs_mono; [apply IH; [done|exact Hc1|lia]|].
      cbn [lib_state stdout with_lib]. intros r s' (Hr & Hc' & Ho' & Hm').
      split; [done|]. split; [done|]. split; [done|lia].
    + apply runs_bind. eapply runs_of_option; [exact Hnm|].
      apply runs_bind, runs_printf. apply runs_bind, runs_lib, runs_modify, runs_ret.
      eapply runs_mono; [apply IH; [done|by apply coherent_munmap|lia]|].
      cbn [lib_state stdout with_lib with_live_maps live_maps]. intros r s' (Hr & Hc' & Ho' & Hm').
      split; [done|]. split; [done|]. split; [|lia]. rewrite Ho', <- app_assoc.
      unfold task_text. by rewrite Hnm.
Qed.

(** From the page of the first process, still open, to the end. *)
Lemma walk_from_runs n head l s (Q : Z -> session -> Prop) :
  tasks i tasks_offset pid_offset head head l -> Forall named l ->
  coherent i pgd_of (lib_state s) -> (length l < n)%nat ->
  (forall w, fresh w -> nodes (cache w) = ∅ -> nodes (pid_cache w) = ∅ ->
     live_maps w = live_maps (lib_state s) - 1 - tables i + skipped l -> Q 0 (Session w (stdout s ++ listing l))) ->
  runs (walk_from n tasks_offset pid_offset name_offset head) s Q.
Proof.
  intros Hl Hnm Hc Hn HQ. apply runs_bind, runs_lib, runs_modify, runs_bind.
  eapply runs_mono; [by apply (walk_runs head head l); [done|done|apply coherent_munmap|]|].
  cbn [lib_state stdout with_lib with_live_maps live_maps].
  intros r s1 ([m ->] & Hc1 & Ho & Hm). eapply error_exit_runs; [exact Hc1|].
  intros w Hf Hn1 Hn2 Hlm. unfold with_lib. rewrite Ho. apply HQ; [done..|lia].
Qed.
End Walk.

(** ** The programs *)

Section Programs.
Context {E : XenEnv} {W : WholePages} {X : StoreEnv} {F : FileEnv} {P : ConfigParser} {H : HostEnv}.

(** From an instance that has just been opened: the page of [init_task] is
    accessed, the link in it read and the list walked. *)
Lemma list_linux_runs n i rs name a t0 v0 l tasks_offset pid_offset name_offset pgd_of s
    (Q : Z -> session -> Prop) :
  geometry i -> os_type i = XA_OS_LINUX ->
  (forall p, is_u32 (pgd_of p)) -> ready i pgd_of rs a (lib_state s) -> 4096 <= a ->
  sysmap_ready i name rs (str "init_task") -> map_find rs (str "init_task") = Some a ->
  page_at i PROT_READ (kv2p i a) = (Some t0.1, t0.2 - tasks_offset) ->
  ring i tasks_offset pid_offset v0 t0 l -> 0 <= t0.2 ->
  Forall (named tasks_offset name_offset) l.*2 ->
  (length l < n)%nat ->
  (forall w, fresh w -> nodes (cache w) = ∅ -> nodes (pid_cache w) = ∅ ->
     live_maps w = live_maps (lib_state s) - tables i + skipped tasks_offset pid_offset l.*2 ->
     Q 0 (Session w (stdout s ++ listing tasks_offset pid_offset name_offset l.*2))) ->
  runs (r ← lib (xa_access_kernel_sym (str "init_task") PROT_READ);
        match r with
        | (None, _) => error_exit None
        | (Some memory, offset) =>
            next ← lib (load32 memory (offset + tasks_offset));
            walk_from n tasks_offset pid_offset name_offset next
        end) s Q.
Proof.
  intros Hg Ho Hp [Hc Hs] Ha Hsm Ea Hpg Hring H0 Hnm Hn HQ.
  apply runs_bind, runs_lib. eapply runs_mono.
  { eapply kernel_sym_linux; [by apply Hc|done|].
    eapply (linux_symbol_cached i pgd_of name rs Hg Hp); [by split; [|apply Hs]|done|done|vm_compute; lia|].
    intros a'. rewrite Ea. by intros [= <-]. }
  intros r w1 (-> & [Hc1 _] & Hl1). rewrite Ea, Hpg in *. cbn [fst] in Hl1.
  pose proof Hring as [[_ [Hpg0 [Hin _]]] _ _]. apply (page_at_mapped i Hg) in Hpg0 as [Hlen Ho0].
  apply runs_bind, runs_lib. replace (t0.2 - tasks_offset + tasks_offset) with t0.2 by lia.
  apply load_runs; [lia|rewrite Hlen; lia|].
  change (le_combine (bytes t0.1 t0.2 4)) with (next_of t0).
  eapply walk_from_runs; [exact Hg|exact Hp|by eapply ring_tasks|exact Hnm|exact Hc1|by rewrite length_fmap|].
  cbn [lib_state stdout with_lib]. intros w2 Hf Hn1 Hn2 Hl2. apply HQ; [done..|lia].
Qed.

(** C9: [process-list] on a running Linux domain, fully virtualised or
    paravirtual, from the command line to the exit: whatever its instance's
    memory held, it opens the domain, prints exactly the processes on the domain's process ring other
    than [init_task] itself, in their order, with pid and name, leaving out
    those whose pid is negative, and returns 0.  The caches are freed.  The
    page of every process left out stays mapped, since [continue] skips the
    [munmap]; no other page does. *)
Theorem process_list_linux n argv1 s i' v0 l w out
    (dom := u32 (atoi argv1)) (i := vm_opened s i')
    (toff := l_tasks_offset (os_linux i)) (poff := l_pid_offset (os_linux i)) :
  fresh (zero_cache w) -> vm_ok dom XA_FAILHARD s i' -> 4096 <= vm_init_task s ->
  ring i toff poff v0 (vm_page s, vm_offset s + toff) l ->
  Forall (named toff 0x194) l.*2 -> (length l < n)%nat ->
  runs (process_list_main n argv1) (Session w out) (fun r s' =>
    r = 0 /\ stdout s' = out ++ listing toff poff 0x194 l.*2 /\
    fresh (lib_state s') /\ nodes (cache (lib_state s')) = ∅ /\ nodes (pid_cache (lib_state s')) = ∅ /\
    live_maps (lib_state s') = live_maps w + skipped toff poff l.*2).
Proof.
  intros Hf Hok Ha Hring Hnm Hn. pose proof (vm_opened_spec _ _ _ _ Hok) as (Hg & Ho & _ & Hsm).
  apply runs_bind, runs_lib. eapply runs_mono.
  { apply (init_vm_runs n dom XA_FAILHARD s i' (fun _ => 0)); [done|lia|done]. }
  intros r w1 (-> & Hi & Hr & Hl). cbn [Z.eqb XA_SUCCESS XA_FAILURE].
  apply runs_bind, runs_lib, runs_gets. cbn [lib_state with_lib]. rewrite Hi, Ho. fold i.
  cbn [Z.eqb XA_OS_LINUX]. cbv zeta. fold toff poff.
  pose proof (ring_head _ _ _ _ _ _ Hring) as [_ [Hpg0 _]]. cbn [fst snd] in Hpg0.
  eapply (list_linux_runs) with (pgd_of := fun _ => 0); [exact Hg|exact Ho|lia|exact Hr|exact Ha|exact Hsm|apply Hok| |exact Hring| | exact Hnm|exact Hn|].
  - cbn [fst snd]. replace (vm_offset s + toff - toff) with (vm_offset s) by lia. apply Hok.
  - cbn [snd]. apply (ok_link _ _ _ _ Hok).
  - cbn [lib_state stdout with_lib]. intros w2 Hf2 Hn1 Hn2 Hl2. split_and!; try done. cbn [lib_state] in *. rewrite Hl2, Hl. fold i. lia.
Qed.

(** The same for Windows: the System process is found at its export and
    printed, and the list behind its link walked. *)
Lemma list_windows_runs n i p m o v0 l toff poff pgd_of s (t0 := (m, o + toff)) (Q : Z -> session -> Prop) :
  geometry i -> hvm i <> 0 -> os_type i = XA_OS_WINDOWS ->
  (forall q, is_u32 (pgd_of q)) -> win_coherent i pgd_of (lib_state s) ->
  exports_in_page i (str "PsInitialSystemProcess") -> export_linear i (str "PsInitialSystemProcess") ->
  (forall v, export_rva i (str "PsInitialSystemProcess") = Some v -> export_phys i v mod 4096 <= 4092) ->
  export_word i (str "PsInitialSystemProcess") = Some p ->
  page_at i PROT_READ (kv2p i p) = (Some m, o) -> 0 <= o + toff ->
  ring i toff poff v0 t0 l -> named toff 0x174 t0 -> Forall (named toff 0x174) l.*2 ->
  (length l < n)%nat ->
  (forall w, fresh w -> nodes (cache w) = ∅ -> nodes (pid_cache w) = ∅ ->
     live_maps w = live_maps (lib_state s) - tables i + skipped toff poff l.*2 ->
     Q 0 (Session w ((stdout s ++ task_text toff poff 0x174 t0) ++ listing toff poff 0x174 l.*2))) ->
  runs (v ← lib (xa_read_long_sym (str "PsInitialSystemProcess"));
        let list_head := default indet v in
        r ← lib (xa_access_kernel_va list_head PROT_READ);
        match r with
        | (None, _) => error_exit None
        | (Some memory, offset) =>
            next ← lib (load32 memory (offset + toff));
            _ ← print_first memory offset poff 0x174;
            walk_from n toff poff 0x174 next
        end) s Q.
Proof.
  intros Hg Hh Ho Hz0 Hw Hse Hsl Hsa Hsw Hpg H0 Hring [nm0 Hnm0] Hnm Hn HQ.
  assert (Hph : hvm i <> 0 \/ mode i = XA_MODE_FILE) by by left.
  apply runs_bind, runs_lib. eapply runs_mono.
  { apply (windows_read_sym i pgd_of Hg Hph (str "PsInitialSystemProcess"));
      [exact Ho|exact Hw|exact Hse|discriminate|vm_compute; lia|exact Hsl|exact Hsa]. }
  intros r w2 (-> & [Hc2 _] & Hl2). rewrite Hsw. cbn [lib_state with_lib] in *. cbv zeta.
  apply runs_bind, runs_lib. eapply runs_mono.
  { apply (kernel_va_coherent i pgd_of Hg Hz0); [exact Hc2|by eapply export_word_u32]. }
  change (default indet (Some p)) with p.
  intros r w3 (-> & Hc3 & Hl3). rewrite Hpg in *. cbn [fst lib_state with_lib] in Hl3.
  pose proof Hring as [[_ [Hpg0 [Hin [Hp1 Hp2]]]] _ _]. cbn [fst snd t0] in Hpg0, Hin, Hp1, Hp2.
  apply (page_at_mapped i Hg) in Hpg0 as [Hlen _].
  apply runs_bind, runs_lib, load_runs; [exact H0|rewrite Hlen; exact Hin|].
  change (le_combine (bytes m (o + toff) 4)) with (next_of t0).
  apply runs_bind. unfold print_first. apply runs_bind.
  unfold name_of in Hnm0. cbn [fst snd t0] in Hnm0.
  eapply runs_of_option; [replace (o + 0x174) with (o + toff + 0x174 - toff) by lia; exact Hnm0|].
  replace (o + poff) with (o + toff + poff - toff) by lia.
  apply runs_bind, runs_lib, load_runs; [lia|rewrite Hlen; lia|].
  apply runs_printf. cbn [lib_state stdout with_lib].
  eapply walk_from_runs; [exact Hg|exact Hz0|by eapply ring_tasks|exact Hnm|exact Hc3|by rewrite length_fmap|].
  cbn [lib_state stdout with_lib]. intros w4 Hf4 Hn1 Hn2 Hl4.
  assert (Htt : task_text toff poff 0x174 t0 = process_line (pid_of toff poff t0) nm0).
  { unfold task_text, name_of. cbn [fst snd t0]. by rewrite Hnm0. }
  rewrite Htt in HQ. apply HQ; [done|done|done|]. lia.
Qed.

(** C38: [process-list] on a running, fully virtualised Windows domain, from the
    command line to the exit: it opens the domain through the export table,
    prints the System process and then every node of the ring through its list
    link, in order, with pid and name, less those with a negative pid, whose
    pages stay mapped, and returns 0 with the caches freed.  The nodes are not
    all processes: the head of the list is on the ring and printed as one. *)
Theorem process_list_windows n argv1 s m o v0 l w out
    (dom := u32 (atoi argv1)) (i := wn_opened dom XA_FAILHARD s)
    (toff := w_tasks_offset (os_windows i)) (poff := w_pid_offset (os_windows i)) (t0 := (m, o + toff)) :
  fresh (zero_cache w) -> win_ok n dom XA_FAILHARD s ->
  page_at i PROT_READ (kv2p i (wn_system s)) = (Some m, o) -> 0 <= o + toff ->
  ring i toff poff v0 t0 l -> named toff 0x174 t0 -> Forall (named toff 0x174) l.*2 ->
  (length l < n)%nat ->
  runs (process_list_main n argv1) (Session w out) (fun r s' =>
    r = 0 /\ stdout s' = out ++ task_text toff poff 0x174 t0 ++ listing toff poff 0x174 l.*2 /\
    fresh (lib_state s') /\ nodes (cache (lib_state s')) = ∅ /\ nodes (pid_cache (lib_state s')) = ∅ /\
    live_maps (lib_state s') = live_maps w + skipped toff poff l.*2).
Proof.
  intros Hf Hok Hpg H0 Hring Hnm0 Hnm Hn.
  destruct (wn_opened_spec dom XA_FAILHARD s) as (Hg & Hh & Ho & _ & Ht).
  destruct (wn_opened_system n dom XA_FAILHARD s Hok) as (Hse & Hsl & Hsa & Hsw & _).
  cbv zeta in *. fold i in Hg, Hh, Ho, Ht, Hse, Hsl, Hsa, Hsw.
  assert (Hz0 : forall p : Z, is_u32 ((fun _ => 0) p)) by (intros p; cbv beta; lia).
  apply runs_bind, runs_lib. eapply runs_mono.
  { apply (init_windows_runs n dom XA_FAILHARD s (fun _ => 0)); [exact Hf|exact Hz0|exact Hok]. }
  fold i. intros r w1 (-> & Hw & Hl). change (XA_SUCCESS =? XA_FAILURE) with false. cbv iota.
  apply runs_bind, runs_lib, runs_gets. cbn [lib_state with_lib]. rewrite (proj1 (proj1 Hw)), Ho.
  cbn [Z.eqb XA_OS_WINDOWS XA_OS_LINUX Pos.eqb]. cbv zeta. fold toff poff.
  pose proof (list_windows_runs n i (wn_system s) m o v0 l toff poff (fun _ => 0)) as Hlist.
  assert (Hh0 : hvm i <> 0) by (rewrite Hh, (wk_hvm _ _ _ _ Hok); discriminate).
  apply Hlist; [exact Hg|exact Hh0|exact Ho|exact Hz0|exact Hw|exact Hse|exact Hsl|exact Hsa|
                exact Hsw|exact Hpg|exact H0|exact Hring|exact Hnm0|exact Hnm|exact Hn|].
  cbn [lib_state stdout with_lib].
  intros w2 Hf2 Hn1 Hn2 Hl2. cbn [lib_state stdout with_lib] in *.
  unfold tables in Hl2. rewrite Ht, Z.sub_0_r, Hl in Hl2.
  rewrite app_assoc. by split_and!.
Qed.

(** [process-list-file] on an image that cannot be opened: the program goes
    to its exit and closes an instance that was never initialised.  Whatever
    the instance's memory holds as the head of its cache is followed and
    freed: unless it happens to be NULL, that is undefined behaviour. *)
Theorem process_list_file_uninitialised n filename w out p :
  open_image filename = false -> head (cache w) = Some p -> nodes (cache w) !! p = None ->
  process_list_file_main n filename (Session w out) = Fault.
Proof.
  intros Ho Hh Hp. unfold process_list_file_main, xa_init_file_strict, xa_init_file_private.
  erewrite bind_eq.
  2:{ unfold lib, zoom. erewrite bind_eq by done. by rewrite Ho. }
  change (XA_FAILURE =? XA_FAILURE) with true. unfold error_exit. cbv beta iota. rewrite bind_ret_l.
  unfold mbind, M_bind, lib, zoom, xa_destroy, modify_inst, helper_destroy, xa_destroy_cache, on_cache.
  cbn [lib_state with_lib]. unfold mbind, M_bind, modify, gets, zoom.
  cbn [inst with_inst m_xen set_domain_id set_m_xen live_pfn_to_mfn_table set_error_mode set_mode
       cache with_live_maps].
  assert (Hfree : forall d : dll xa_cache_entry, head d = Some p -> nodes d !! p = None -> free_from (fuel d) (head d) d = Fault).
  { intros d Hhd Hpd. rewrite Hhd. unfold free_from, fuel. rewrite iter_S. unfold mbind, M_bind, deref.
    by rewrite Hpd. }
  destruct (live_pfn_to_mfn_table (m_xen (inst w))); cbn [mret M_ret munmap modify cache with_live_maps];
    by rewrite Hfree.
Qed.
End Programs.

(** *** Witnesses *)

#[local] Existing Instance vm_env.
#[local] Existing Instance vm_whole.
#[local] Existing Instance vm_xenstore.
#[local] Existing Instance vm_files.
#[local] Existing Instance vm_host.
#[local] Existing Instance sample_parser.

Abbreviation fedora := (vm_opened sample_vm (sample_vm_instance XA_FAILHARD)).

Definition vm_task (a : Z) : mapping * Z := (vm_frame a, a mod 4096).

Lemma vm_page_at prot v a :
  kv2p fedora v = a -> 0 < a -> page_at fedora prot (kv2p fedora v) = (Some (vm_frame a), a mod 4096).
Proof. intros -> Ha. unfold page_at. by rewrite (proj2 (Z.eqb_neq a 0)) by lia. Qed.

Lemma vm_task_at v a :
  kv2p fedora v = a -> is_u32 v -> 0 < a -> a mod 4096 = 0x10 -> task_at fedora 16 24 v (vm_task a).
Proof.
  intros Hk Hv Ha Hm. unfold task_at, vm_task. cbn [fst snd]. rewrite Hm.
  split; [done|]. split; [|lia]. rewrite <- Hm. by apply vm_page_at.
Qed.

Lemma vm_ring :
  ring fedora 16 24 0xC0005010 (vm_task 0x5010)
    [(0xC0006010, vm_task 0x6010); (0xC0007010, vm_task 0x7010); (0xC0008010, vm_task 0x8010)].
Proof.
  assert (Hn : forall a b l, next_of (vm_task a) = b ->
    chain fedora 16 24 0xC0005010 b l -> chain fedora 16 24 0xC0005010 (next_of (vm_task a)) l)
    by by intros a b l ->.
  split.
  - apply vm_task_at; [vm_compute; reflexivity|lia|lia|reflexivity].
  - apply (Hn _ 0xC0006010); [vm_compute; reflexivity|].
    apply chain_cons; [apply vm_task_at; [vm_compute; reflexivity|lia|lia|reflexivity]|].
    apply (Hn _ 0xC0007010); [vm_compute; reflexivity|].
    apply chain_cons; [apply vm_task_at; [vm_compute; reflexivity|lia|lia|reflexivity]|].
    apply (Hn _ 0xC0008010); [vm_compute; reflexivity|].
    apply chain_cons; [apply vm_task_at; [vm_compute; reflexivity|lia|lia|reflexivity]|].
    apply (Hn _ 0xC0005010); [vm_compute; reflexivity|]. apply chain_nil.
  - cbn [fmap list_fmap fst]. apply (bool_decide_unpack _). vm_compute. reflexivity.
Qed.

Lemma process_list_linux_witness :
  runs (process_list_main 4 (str "7")) (Session (guest_world lin) []) (fun r s' =>
    r = 0 /\ stdout s' = str "[    1] init" ++ [10] ++ str "[   42] sshd" ++ [10] /\
    live_maps (lib_state s') = 1).
Proof.
  eapply runs_mono.
  - apply (process_list_linux 4 (str "7") sample_vm (sample_vm_instance XA_FAILHARD) 0xC0005010
             [(0xC0006010, vm_task 0x6010); (0xC0007010, vm_task 0x7010); (0xC0008010, vm_task 0x8010)]).
    + apply fresh_guest_zero.
    + exact (sample_vm_ok XA_FAILHARD).
    + vm_compute. discriminate.
    + exact vm_ring.
    + cbn [fmap list_fmap snd]. apply Forall_cons_2; [eexists; vm_compute; reflexivity|].
      apply Forall_cons_2; [eexists; vm_compute; reflexivity|].
      apply Forall_cons_2; [eexists; vm_compute; reflexivity|constructor].
    + simpl. lia.
  - intros r s' (-> & Ho & _ & _ & _ & Hl). rewrite Ho, Hl. vm_compute. done.
Defined.

Lemma process_list_file_uninitialised_witness :
  process_list_file_main 4 (str "nothing.dd")
    (Session (with_cache (Dll ∅ (Some 1%nat) None 0 5%nat) (guest_world lin)) []) = Fault.
Proof. by apply (process_list_file_uninitialised 4 (str "nothing.dd") _ [] 1%nat). Defined.

(** A Windows domain. *)
Section Xp.
#[local] Existing Instance xp_env.
#[local] Existing Instance xp_whole.
#[local] Existing Instance xp_store.
#[local] Existing Instance xp_parser.

Definition xp_task (a : Z) : mapping * Z := (xp_frame a, a mod 4096).

Lemma xp_page_at prot v a :
  kv2p xp v = a -> 0 < a -> page_at xp prot (kv2p xp v) = (Some (xp_frame a), a mod 4096).
Proof. intros -> Ha. unfold page_at. by rewrite (proj2 (Z.eqb_neq a 0)) by lia. Qed.

Lemma xp_task_at v a :
  kv2p xp v = a -> is_u32 v -> 0 < a -> 4 <= a mod 4096 <= 4092 -> task_at xp 0x88 0x84 v (xp_task a).
Proof.
  intros Hk Hv Ha Hm. unfold task_at, xp_task. cbn [fst snd].
  split; [done|]. split; [|lia]. by apply xp_page_at.
Qed.

Definition xp_list : list (Z * (mapping * Z)) :=
  [(0x80006088, xp_task 0x6088); (0x80007088, xp_task 0x7088); (0x80009100, xp_task 0x9100)].

Lemma xp_ring : ring xp 0x88 0x84 0x80005088 (xp_task 0x5088) xp_list.
Proof.
  assert (Hn : forall a b l, next_of (xp_task a) = b ->
    chain xp 0x88 0x84 0x80005088 b l -> chain xp 0x88 0x84 0x80005088 (next_of (xp_task a)) l)
    by by intros a b l ->.
  assert (Hk : forall v a, kv2p xp v = a -> is_u32 v -> 0 < a -> (4 <=? a mod 4096) && (a mod 4096 <=? 4092) = true ->
    task_at xp 0x88 0x84 v (xp_task a)).
  { intros v a H1 H2 H3 H4. zbool. by apply xp_task_at. }
  split.
  - apply Hk; [vm_compute; reflexivity|lia|lia|reflexivity].
  - apply (Hn _ 0x80006088); [vm_compute; reflexivity|].
    apply chain_cons; [apply Hk; [vm_compute; reflexivity|lia|lia|reflexivity]|].
    apply (Hn _ 0x80007088); [vm_compute; reflexivity|].
    apply chain_cons; [apply Hk; [vm_compute; reflexivity|lia|lia|reflexivity]|].
    apply (Hn _ 0x80009100); [vm_compute; reflexivity|].
    apply chain_cons; [apply Hk; [vm_compute; reflexivity|lia|lia|reflexivity]|].
    apply (Hn _ 0x80005088); [vm_compute; reflexivity|]. apply chain_nil.
  - cbn [fmap list_fmap fst]. apply (bool_decide_unpack _). vm_compute. reflexivity.
Qed.

Lemma process_list_windows_witness :
  runs (process_list_main 4 (str "9")) (Session (guest_world lin) []) (fun r s' =>
    r = 0 /\ stdout s' = str "[    4] System" ++ [10] ++ str "[  300] smss.exe" ++ [10] ++
                         str "[ 1024] explorer.exe" ++ [10] ++ str "[    0] " ++ [10] /\
    live_maps (lib_state s') = 0).
Proof.
  eapply runs_mono.
  - apply (process_list_windows 4 (str "9") xp_setup (xp_frame 0x5000) 0 0x80005088 xp_list).
    + apply fresh_guest_zero.
    + exact (xp_ok 4).
    + apply (xp_page_at PROT_READ 0x80005000 0x5000); [vm_compute; reflexivity|lia].
    + vm_compute. discriminate.
    + exact xp_ring.
    + eexists. vm_compute. reflexivity.
    + unfold xp_list. cbn [fmap list_fmap snd]. apply Forall_cons_2; [eexists; vm_compute; reflexivity|].
      apply Forall_cons_2; [eexists; vm_compute; reflexivity|].
      apply Forall_cons_2; [eexists; vm_compute; reflexivity|constructor].
    + simpl. lia.
  - intros r s' (-> & Ho & _ & _ & _ & Hl). rewrite Ho, Hl. vm_compute. done.
Defined.
End Xp.
