(* ===== verification/ModuleList.v ===== *)
(** * Listing the kernel modules of a guest

    Models examples/module-list.c: the list of modules is a ring through the
    symbol [modules] (Linux) or through PsLoadedModuleList (Windows), whose
    names are C strings behind the links or UTF-16 strings elsewhere, of which
    the low bytes are printed. *)

From Stdlib Require Import String.
From S2P Require Import Prelude CStr Dll XaTypes XaMap XaPhys Guest PageTable XaCache XaAccess Symbols.
From S2P Require Import XaStore ProcList Linux SymAccess WindowsPe Windows XaApi Config XaCore XaVm XaWin Console ProcessList.

Section Model.
Context {E : XenEnv} {X : StoreEnv} {F : FileEnv} {P : ConfigParser} {H : HostEnv}.

(** [memcpy(tmpname, memory + offset, len)] *)
Definition memcpy (m : mapping) (off len : Z) : M session (list Z) :=
  _ ← assert_m ((0 <=? off) && (off + len <=? m_len m));
  mret (bytes m off (Z.to_nat len)).

(** The loop that drops every other byte; [name] has as many elements as
    [tmpname], so none of the assignments is out of bounds. *)
Definition narrow (tmpname : list Z) : list Z :=
  foldl (fun name i => if Nat.even i then <[Nat.div2 i := nth i tmpname 0]> name else name)
    (replicate (length tmpname) 0) (seq 0 (length tmpname)).

Definition print_unicode_string (len addr : Z) : M session unit :=
  r ← lib (xa_access_kernel_va addr PROT_READ);
  match r with
  | (Some memory, offset) =>
      tmpname ← memcpy memory offset len;
      _ ← lib munmap;
      name ← of_option (until_nul (narrow tmpname));
      printf (name ++ [10])
  | (None, _) => mret tt
  end.

(** print out the module name *)
Definition print_module (os : Z) (memory : mapping) (offset : Z) : M session unit :=
  if os =? XA_OS_LINUX then
    name ← of_option (string_at memory (offset + 8));
    printf (name ++ [10])
  else if os =? XA_OS_WINDOWS then
    length ← lib (load 2 memory (offset + 0x2c));
    buffer_addr ← lib (load32 memory (offset + 0x30));
    print_unicode_string length buffer_addr
  else mret tt.

Definition module_step (list_head next_module : Z) : M session (Z + option mapping) :=
  r ← lib (xa_access_kernel_va next_module PROT_READ);
  match r with
  | (None, _) => mret (inr None) (* failed to map memory for module list pointer *)
  | (Some memory, offset) =>
      next ← lib (load32 memory offset);
      (* if we are back at the list head, we are done *)
      if list_head =? next then mret (inr (Some memory))
      else
        i ← lib (gets inst);
        _ ← print_module (os_type i) memory offset;
        _ ← lib munmap;
        mret (inl next)
  end.

Definition walk_modules (n : nat) (list_head : Z) : M session Z :=
  r ← iter n (module_step list_head) list_head; error_exit r.

(** [PsLoadedModuleList], at an address that does not depend on the guest *)
Definition ps_loaded_module_list (i : xa_instance) : Z :=
  if pae i =? 0 then 0x8055a620 else 0x805533a0.

Definition module_list_main (n : nat) (argv1 : cstr) : M session Z :=
  let dom := u32 (atoi argv1) in
  ret ← lib (xa_init_vm_id_strict n dom);
  if ret =? XA_FAILURE then error_exit None
  else
    i ← lib (gets inst);
    if os_type i =? XA_OS_LINUX then
      v ← lib (xa_read_long_sym (str "modules"));
      walk_modules n (default indet v)
    else if os_type i =? XA_OS_WINDOWS then
      r ← lib (xa_access_kernel_va (ps_loaded_module_list i) PROT_READ);
      match r with
      | (None, _) => error_exit None
      | (Some memory, offset) =>
          next ← lib (load32 memory offset);
          _ ← lib munmap;
          walk_modules n next
      end
    else walk_modules n indet.
End Model.

(** ** Unicode names *)

(** A UTF-16 name in memory: its code units, the low byte first. *)
Definition utf16le (u : list Z) : list Z := u ≫= (fun c => [c mod 256; c / 256]).

(** What the program shows of it: the low byte of every unit, up to the first
    that is zero. *)
Fixpoint shown (u : list Z) : cstr :=
  match u with
  | [] => []
  | c :: u' => if c mod 256 =? 0 then [] else c mod 256 :: shown u'
  end.

(** A name in the Latin-1 characters, whose units are the characters. *)
Definition latin (u : list Z) : Prop := Forall (fun c => 0 < c < 256) u.

Lemma shown_latin u : latin u -> shown u = u.
Proof.
  induction 1 as [|c u Hc _ IH]; [done|]. cbn [shown]. rewrite Z.mod_small by lia.
  rewrite (proj2 (Z.eqb_neq _ _)) by lia. by rewrite IH.
Qed.

Lemma length_utf16le u : length (utf16le u) = (2 * length u)%nat.
Proof. induction u as [|c u IH]; [done|]. simpl in *. lia. Qed.

Lemma utf16le_low u : forall k, nth (2 * k) (utf16le u) 0 = nth k ((fun c => c mod 256) <$> u) 0.
Proof.
  induction u as [|c u IH]; intros k; [by destruct (2 * k)%nat, k|].
  destruct k as [|k]; [done|]. replace (2 * S k)%nat with (S (S (2 * k))) by lia. apply IH.
Qed.

(** After an even number of turns the first half of them is in place. *)
Lemma narrow_prefix t k :
  (2 * k <= length t)%nat ->
  foldl (fun name i => if Nat.even i then <[Nat.div2 i := nth i t 0]> name else name)
    (replicate (length t) 0) (seq 0 (2 * k)) =
  ((fun j => nth (2 * j) t 0) <$> seq 0 k) ++ replicate (length t - k) 0.
Proof.
  induction k as [|k IH]; intros Hk; [by rewrite Nat.sub_0_r|].
  replace (2 * S k)%nat with (S (S (2 * k))) by lia.
  rewrite !seq_S, !foldl_app, IH by lia. cbn [foldl Nat.add].
  rewrite Nat.even_succ, <- Nat.negb_even, (Nat.even_mul 2 k). cbn [Nat.even orb negb].
  rewrite Nat.div2_double, insert_app_r_alt by (rewrite length_fmap, length_seq; lia).
  rewrite length_fmap, length_seq, Nat.sub_diag, fmap_app, <- app_assoc. f_equal.
  replace (length t - k)%nat with (S (length t - S k)) by lia. done.
Qed.

Lemma narrow_utf16le u : narrow (utf16le u) = ((fun c => c mod 256) <$> u) ++ replicate (length u) 0.
Proof.
  unfold narrow. pose proof (length_utf16le u) as Hl.
  pose proof (narrow_prefix (utf16le u) (length u) ltac:(lia)) as H.
  rewrite <- Hl in H. rewrite H. f_equal.
  - apply (nth_ext _ _ 0 0); [by rewrite !length_fmap, length_seq|].
    intros j Hj. rewrite length_fmap, length_seq in Hj.
    rewrite (nth_indep _ 0 ((fun j => nth (2 * j) (utf16le u) 0) 0%nat)) by by rewrite length_fmap, length_seq.
    rewrite (map_nth (fun j => nth (2 * j) (utf16le u) 0)), seq_nth by done. apply utf16le_low.
  - f_equal. lia.
Qed.

(** The buffer has as many bytes as the name in memory, so what is shown of a
    name that is not empty ends in it. *)
Lemma until_nul_shown u r : until_nul (((fun c => c mod 256) <$> u) ++ 0 :: r) = Some (shown u).
Proof.
  induction u as [|c u IH]; [done|]. cbn [fmap list_fmap app until_nul shown].
  destruct (c mod 256 =? 0); [done|]. by rewrite IH.
Qed.

Lemma narrow_shown u : u <> [] -> until_nul (narrow (utf16le u)) = Some (shown u).
Proof. intros Hu. rewrite narrow_utf16le. destruct u as [|c u]; [done|]. cbn [length replicate]. apply until_nul_shown. Qed.

(** ** The walk *)

Section Walk.
Context {E : XenEnv} {W : WholePages} {X : StoreEnv} {F : FileEnv} {P : ConfigParser} {H : HostEnv}.
Variables (i : xa_instance) (pgd_of : Z -> Z).
Hypothesis Hgeo : geometry i.
Hypothesis Hpgd : forall p, is_u32 (pgd_of p).

(** The [_UNICODE_STRING] of a Windows module. *)
Definition mod_length (t : mapping * Z) : Z := le_combine (bytes t.1 (t.2 + 0x2c) 2).
Definition mod_buffer (t : mapping * Z) : Z := field t.1 (t.2 + 0x30).

(** The name of a Windows module: [u] when the buffer of its _UNICODE_STRING is
    on one page that can be read, [None] when the page is not there.  (For an
    empty name, or one of an odd number of bytes, the program has no defined
    behaviour or the name is not one.) *)
Inductive windows_name (t : mapping * Z) : option (list Z) -> Prop :=
| name_there m o u :
    page_at i PROT_READ (kv2p i (mod_buffer t)) = (Some m, o) ->
    u <> [] -> Forall (fun c => 0 <= c < 65536) u -> mod_length t = 2 * Z.of_nat (length u) ->
    o + mod_length t <= 4096 -> bytes m o (2 * length u) = utf16le u ->
    windows_name t (Some u)
| name_away o :
    page_at i PROT_READ (kv2p i (mod_buffer t)) = (None, o) -> windows_name t None.

(** The line printed for it. *)
Definition windows_line (name : option (list Z)) : cstr :=
  match name with Some u => shown u ++ [10] | None => [] end.

(** The line printed for a module. *)
Inductive module_line (t : mapping * Z) : cstr -> Prop :=
| line_linux name :
    os_type i = XA_OS_LINUX -> string_at t.1 (t.2 + 8) = Some name -> module_line t (name ++ [10])
| line_windows name :
    os_type i = XA_OS_WINDOWS -> t.2 + 0x34 <= 4096 -> windows_name t name ->
    module_line t (windows_line name).

Lemma memcpy_runs m off len s (Q : list Z -> session -> Prop) :
  0 <= off -> off + len <= m_len m -> Q (bytes m off (Z.to_nat len)) s -> runs (memcpy m off len) s Q.
Proof.
  intros H1 H2 HQ. apply runs_bind, runs_assert; [|by apply runs_ret].
  apply andb_true_iff. split; by apply Z.leb_le.
Qed.

Lemma print_unicode_runs t name s :
  coherent i pgd_of (lib_state s) -> is_u32 (mod_buffer t) -> windows_name t name ->
  runs (print_unicode_string (mod_length t) (mod_buffer t)) s (fun _ s' =>
    coherent i pgd_of (lib_state s') /\ stdout s' = stdout s ++ windows_line name /\
    live_maps (lib_state s') = live_maps (lib_state s)).
Proof.
  intros Hc Ha Ht. apply runs_bind, runs_lib.
  eapply runs_mono; [by apply (kernel_va_coherent i pgd_of Hgeo Hpgd)|].
  intros r w1 (-> & Hc1 & Hl1). destruct Ht as [m o u Hr Hu _ Hn Hle Hb|o Hr]; rewrite Hr in *; cbn [fst] in Hl1.
  - pose proof (page_at_mapped i Hgeo _ _ _ _ Hr) as [Hlen Ho].
    apply runs_bind, memcpy_runs; [lia|by rewrite Hlen|].
    apply runs_bind, runs_lib, runs_modify, runs_bind.
    eapply runs_of_option.
    { rewrite Hn. replace (Z.to_nat (2 * Z.of_nat (length u))) with (2 * length u)%nat by lia.
      rewrite Hb. by apply narrow_shown. }
    apply runs_printf. cbn [lib_state stdout with_lib]. split; [by apply coherent_munmap|]. split; [done|].
    cbn [live_maps with_live_maps]. lia.
  - apply runs_ret. cbn [lib_state stdout with_lib].
    split; [done|]. split; [by rewrite app_nil_r|lia].
Qed.

Lemma print_module_runs t line s :
  m_len t.1 = 4096 -> 0 <= t.2 -> module_line t line -> coherent i pgd_of (lib_state s) ->
  runs (print_module (os_type i) t.1 t.2) s (fun _ s' =>
    coherent i pgd_of (lib_state s') /\ stdout s' = stdout s ++ line /\
    live_maps (lib_state s') = live_maps (lib_state s)).
Proof.
  intros Hlen H0 Hline Hc. destruct s as [w0 out0]. unfold print_module.
  destruct Hline as [name Hos Hn|name Hos Hin Hn]; rewrite Hos.
  - change (XA_OS_LINUX =? XA_OS_LINUX) with true. cbv iota.
    apply runs_bind. eapply runs_of_option; [exact Hn|]. apply runs_printf. by split_and!.
  - change (XA_OS_WINDOWS =? XA_OS_LINUX) with false.
    change (XA_OS_WINDOWS =? XA_OS_WINDOWS) with true. cbv iota.
    apply runs_bind, runs_lib, load_runs; [lia|rewrite Hlen; lia|].
    apply runs_bind, runs_lib, load_runs; [lia|rewrite Hlen; lia|].
    apply print_unicode_runs; [done| |exact Hn].
    apply (le_combine_range (bytes t.1 (t.2 + 0x30) 4)), bytes_u8.
Qed.

Lemma modules_runs head v l : forall lines n s,
  tasks i 0 0 head v l -> Forall2 module_line l lines -> coherent i pgd_of (lib_state s) -> (length l < n)%nat ->
  runs (iter n (module_step head) v) s (fun r s' =>
    (exists m, r = Some m) /\ coherent i pgd_of (lib_state s') /\
    stdout s' = stdout s ++ concat lines /\
    live_maps (lib_state s') = live_maps (lib_state s) + 1).
Proof.
  intros lines n s Hl. revert lines n s. induction Hl as [v t Ht Hn|v t l Ht Hn Hl IH]; intros lines n s Hok Hc Hf;
    (destruct n as [|n]; [simpl in Hf; lia|]); apply runs_iter_step; unfold module_step;
    destruct Ht as (Hu & Hpg & H1 & _);
    apply (page_at_mapped i Hgeo) in Hpg as Hpg'; destruct Hpg' as [Hlen Ho];
    apply runs_bind, runs_lib; (eapply runs_mono; [by apply (kernel_va_coherent i pgd_of Hgeo Hpgd)|]);
    intros r w1 (-> & Hc1 & Hl1); rewrite Hpg in *; cbn [fst] in Hl1;
    apply runs_bind, runs_lib; (apply load_runs; [lia|rewrite Hlen; lia|]);
    change (le_combine (bytes t.1 t.2 4)) with (next_of t).
  - inversion Hok. rewrite Hn, Z.eqb_refl. apply runs_ret. cbn [lib_state stdout with_lib].
    split; [by exists t.1|]. split; [done|]. split; [by rewrite app_nil_r|lia].
  - rewrite (proj2 (Z.eqb_neq _ _)) by congruence.
    inversion Hok as [|? line ? lines' Hline Hlines]. subst. simpl in Hf.
    apply runs_bind, runs_lib, runs_gets. pose proof Hc1 as [Hi1 _]. cbn [lib_state with_lib]. rewrite Hi1.
    apply runs_bind. eapply runs_mono; [by apply print_module_runs; [|lia|..]|].
    cbn [lib_state stdout with_lib]. intros _ s2 (Hc2 & Ho2 & Hl2).
    apply runs_bind, runs_lib, runs_modify, runs_ret.
    eapply runs_mono; [apply IH; [exact Hlines|by apply coherent_munmap|lia]|].
    cbn [lib_state stdout with_lib with_live_maps live_maps]. intros r s' (Hr & Hc' & Ho' & Hm').
    split; [done|]. split; [done|]. split; [|lia].
    rewrite Ho', Ho2, <- app_assoc. done.
Qed.

(** From the first module on, to the end of the program. *)
Lemma walk_modules_runs n head l lines s (Q : Z -> session -> Prop) :
  tasks i 0 0 head head l -> Forall2 module_line l lines ->
  coherent i pgd_of (lib_state s) -> (length l < n)%nat ->
  (forall w, fresh w -> nodes (cache w) = ∅ -> nodes (pid_cache w) = ∅ ->
     live_maps w = live_maps (lib_state s) - tables i -> Q 0 (Session w (stdout s ++ concat lines))) ->
  runs (walk_modules n head) s Q.
Proof.
  intros Hl Hok Hc Hn HQ. apply runs_bind. eapply runs_mono; [by eapply modules_runs|].
  intros r s1 ([m ->] & Hc1 & Ho & Hm). eapply error_exit_runs; [exact Hc1|].
  intros w Hf Hn1 Hn2 Hlm. unfold with_lib. rewrite Ho. apply HQ; [done..|lia].
Qed.
End Walk.

(** ** The program *)

Section Program.
Context {E : XenEnv} {W : WholePages} {X : StoreEnv} {F : FileEnv} {P : ConfigParser} {H : HostEnv}.

(** [module-list] on a running Linux domain, fully virtualised or
    paravirtual, from the command line to the exit: it prints the name of every module on the ring
    through the symbol [modules], in order and only these, returns 0, frees the
    caches and leaves no page mapped. *)
Theorem module_list_linux n argv1 s i' a t0 v0 l names w out
    (dom := u32 (atoi argv1)) (i := vm_opened s i') :
  fresh (zero_cache w) -> vm_ok dom XA_FAILHARD s i' -> 4096 <= vm_init_task s ->
  map_find (vm_rows s) (str "modules") = Some a -> 4096 <= a ->
  page_at i PROT_READ (kv2p i a) = (Some t0.1, t0.2) -> ring i 0 0 v0 t0 l ->
  Forall2 (fun t name => string_at t.1 (t.2 + 8) = Some name) l.*2 names -> (length l < n)%nat ->
  runs (module_list_main n argv1) (Session w out) (fun r s' =>
    r = 0 /\ stdout s' = out ++ concat ((fun name => name ++ [10]) <$> names) /\
    fresh (lib_state s') /\ nodes (cache (lib_state s')) = ∅ /\ nodes (pid_cache (lib_state s')) = ∅ /\
    live_maps (lib_state s') = live_maps w).
Proof.
  intros Hf Hok Hz Ea Ha Hpg Hring Hmods Hn.
  pose proof (vm_opened_spec _ _ _ _ Hok) as (Hg & Ho & _ & Hsm). fold i in Hg, Ho, Hsm.
  assert (Hz0 : forall p : Z, is_u32 ((fun _ => 0) p)) by (intros p; cbv beta; lia).
  assert (Hlines : Forall2 (module_line i) l.*2 ((fun name => name ++ [10]) <$> names)).
  { apply Forall2_fmap_r. eapply Forall2_impl; [|exact Hmods]. intros t name Ht. by apply line_linux. }
  apply runs_bind, runs_lib. eapply runs_mono.
  { apply (init_vm_runs n dom XA_FAILHARD s i' (fun _ => 0)); [done|lia|done]. }
  fold i. intros r w1 (-> & Hi & [Hc Hs] & Hl). change (XA_SUCCESS =? XA_FAILURE) with false. cbv iota.
  apply runs_bind, runs_lib, runs_gets. cbn [lib_state with_lib]. rewrite Hi, Ho.
  change (XA_OS_LINUX =? XA_OS_LINUX) with true. cbv iota.
  apply runs_bind, runs_lib, runs_bind. eapply runs_mono.
  { eapply kernel_sym_linux; [exact Hi|exact Ho|].
    eapply (linux_symbol_cached i (fun _ => 0) (c_sysmap (vm_entry s)) (vm_rows s) Hg Hz0 (str "modules"));
      [split; [exact Hc|by apply Hs]| |discriminate|vm_compute; lia|].
    - destruct Hsm as (Hs1 & Hs2 & Hs3 & Hs4 & _). split_and!; try done. repeat constructor; discriminate.
    - intros a'. rewrite Ea. by intros [= <-]. }
  intros r w2 (-> & [Hc2 _] & Hl2). rewrite Ea, Hpg in *. cbn [fst] in Hl2.
  pose proof (page_at_mapped i Hg _ _ _ _ Hpg) as [Hlen Ho0].
  pose proof Hring as [(_ & Hpg0 & Hin & _) _ _].
  apply runs_bind, load_runs; [lia|rewrite Hlen; lia|].
  apply runs_bind, runs_modify, runs_ret. cbn [lib_state with_lib default from_option id].
  change (le_combine (bytes t0.1 t0.2 4)) with (next_of t0).
  eapply (walk_modules_runs i (fun _ => 0) Hg Hz0);
    [by eapply ring_tasks|exact Hlines|by apply coherent_munmap|by rewrite length_fmap|].
  cbn [lib_state stdout with_lib with_live_maps live_maps]. intros w3 Hf3 Hn1 Hn2 Hl3.
  cbn [lib_state with_lib] in *. split_and!; try done. cbn [lib_state]. rewrite Hl3, Hl2, Hl. fold i. lia.
Qed.

(** C39: [module-list] on a running, fully virtualised Windows domain: it starts
    at the fixed address where the code takes PsLoadedModuleList to be, goes
    through the ring there and prints one line for every module, in order and
    only these: of the name's UTF-16 code units, as they are in the memory of
    the guest, the low byte of each, up to the first that is zero; so names in
    Latin-1 come out as they are and others are mangled.  A module whose name is
    not mapped has no line.  The program returns 0, frees the caches and leaves
    no page mapped. *)
Theorem module_list_windows n argv1 s t0 v0 l names w out
    (dom := u32 (atoi argv1)) (i := wn_opened dom XA_FAILHARD s) :
  fresh (zero_cache w) -> win_ok n dom XA_FAILHARD s ->
  page_at i PROT_READ (kv2p i (ps_loaded_module_list i)) = (Some t0.1, t0.2) -> ring i 0 0 v0 t0 l ->
  Forall2 (fun t name => t.2 + 0x34 <= 4096 /\ windows_name i t name) l.*2 names -> (length l < n)%nat ->
  runs (module_list_main n argv1) (Session w out) (fun r s' =>
    r = 0 /\ stdout s' = out ++ concat (windows_line <$> names) /\
    (forall us, names = Some <$> us -> Forall latin us ->
       stdout s' = out ++ concat ((fun u => u ++ [10]) <$> us)) /\
    fresh (lib_state s') /\ nodes (cache (lib_state s')) = ∅ /\ nodes (pid_cache (lib_state s')) = ∅ /\
    live_maps (lib_state s') = live_maps w).
Proof.
  intros Hf Hok Hpg Hring Hmods Hn.
  destruct (wn_opened_spec dom XA_FAILHARD s) as (Hg & _ & Ho & _ & Ht).
  cbv zeta in *. fold i in Hg, Ho, Ht.
  assert (Hz0 : forall p : Z, is_u32 ((fun _ => 0) p)) by (intros p; cbv beta; lia).
  assert (Hps : is_u32 (ps_loaded_module_list i)) by (unfold ps_loaded_module_list; destruct (pae i =? 0); lia).
  assert (Hlines : Forall2 (module_line i) l.*2 (windows_line <$> names)).
  { apply Forall2_fmap_r. eapply Forall2_impl; [|exact Hmods]. intros t name [Hin Hname]. by apply line_windows. }
  apply runs_bind, runs_lib. eapply runs_mono.
  { apply (init_windows_runs n dom XA_FAILHARD s (fun _ => 0)); [exact Hf|exact Hz0|exact Hok]. }
  fold i. intros r w1 (-> & [Hc _] & Hl). change (XA_SUCCESS =? XA_FAILURE) with false. cbv iota.
  apply runs_bind, runs_lib, runs_gets. cbn [lib_state with_lib]. rewrite (proj1 Hc), Ho.
  change (XA_OS_WINDOWS =? XA_OS_LINUX) with false. change (XA_OS_WINDOWS =? XA_OS_WINDOWS) with true. cbv iota.
  apply runs_bind, runs_lib. eapply runs_mono.
  { apply (kernel_va_coherent i (fun _ => 0) Hg Hz0); [exact Hc|exact Hps]. }
  intros r w2 (-> & Hc2 & Hl2). rewrite Hpg in *. cbn [fst lib_state with_lib] in Hl2.
  pose proof (page_at_mapped i Hg _ _ _ _ Hpg) as [Hlen Ho0].
  pose proof Hring as [(_ & _ & Hin & _) _ _].
  apply runs_bind, runs_lib, load_runs; [lia|rewrite Hlen; lia|].
  apply runs_bind, runs_lib, runs_modify. cbn [lib_state with_lib].
  change (le_combine (bytes t0.1 t0.2 4)) with (next_of t0).
  eapply (walk_modules_runs i (fun _ => 0) Hg Hz0);
    [by eapply ring_tasks|exact Hlines|by apply coherent_munmap|by rewrite length_fmap|].
  cbn [lib_state stdout with_lib with_live_maps live_maps]. intros w3 Hf3 Hn1 Hn2 Hl3.
  cbn [lib_state with_lib] in *. split_and!; try done; cbn [lib_state stdout].
  { intros us -> Hlat. do 2 f_equal. rewrite <- list_fmap_compose. apply list_fmap_ext.
    intros k u Hu. unfold compose, windows_line. rewrite shown_latin; [done|].
    by eapply Forall_lookup_1. }
  unfold tables in Hl3. rewrite Ht in Hl3. rewrite Hl3, Hl2, Hl. lia.
Qed.
End Program.

(** *** Witness *)

#[local] Existing Instance vm_env.
#[local] Existing Instance vm_whole.
#[local] Existing Instance vm_xenstore.
#[local] Existing Instance vm_files.
#[local] Existing Instance vm_host.
#[local] Existing Instance sample_parser.

Lemma vm_module_at v a :
  kv2p fedora v = a -> is_u32 v -> 0 < a -> a mod 4096 <= 4092 -> task_at fedora 0 0 v (vm_task a).
Proof.
  intros Hk Hv Ha Hm. pose proof (Z.mod_pos_bound a 4096 ltac:(lia)).
  unfold task_at, vm_task. cbn [fst snd].
  split; [done|]. split; [by apply vm_page_at|lia].
Qed.

Lemma vm_modules_ring :
  ring fedora 0 0 0xC0009020 (vm_task 0x9020)
    [(0xC000A010, vm_task 0xA010); (0xC000B010, vm_task 0xB010)].
Proof.
  assert (Hn : forall a b l, next_of (vm_task a) = b ->
    chain fedora 0 0 0xC0009020 b l -> chain fedora 0 0 0xC0009020 (next_of (vm_task a)) l)
    by by intros a b l ->.
  assert (Hm : forall a, a mod 4096 <= 0x20 -> a mod 4096 <= 4092) by (intros; lia).
  split.
  - apply vm_module_at; [vm_compute; reflexivity|lia|lia|apply Hm; vm_compute; discriminate].
  - apply (Hn _ 0xC000A010); [vm_compute; reflexivity|].
    apply chain_cons; [apply vm_module_at;
      [vm_compute; reflexivity|lia|lia|apply Hm; vm_compute; discriminate]|].
    apply (Hn _ 0xC000B010); [vm_compute; reflexivity|].
    apply chain_cons; [apply vm_module_at;
      [vm_compute; reflexivity|lia|lia|apply Hm; vm_compute; discriminate]|].
    apply (Hn _ 0xC0009020); [vm_compute; reflexivity|]. apply chain_nil.
  - cbn [fmap list_fmap fst]. apply (bool_decide_unpack _). vm_compute. reflexivity.
Qed.

Lemma module_list_linux_witness :
  runs (module_list_main 3 (str "7")) (Session (guest_world lin) []) (fun r s' =>
    r = 0 /\ stdout s' = str "ext3" ++ [10] ++ str "jbd" ++ [10] /\ live_maps (lib_state s') = 0).
Proof.
  eapply runs_mono.
  - apply (module_list_linux 3 (str "7") sample_vm (sample_vm_instance XA_FAILHARD) 0xC0009020
             (vm_task 0x9020) 0xC0009020
             [(0xC000A010, vm_task 0xA010); (0xC000B010, vm_task 0xB010)] [str "ext3"; str "jbd"]).
    + apply fresh_guest_zero.
    + exact (sample_vm_ok XA_FAILHARD).
    + vm_compute. discriminate.
    + reflexivity.
    + lia.
    + apply vm_page_at; [vm_compute; reflexivity|lia].
    + exact vm_modules_ring.
    + cbn [fmap list_fmap snd]. constructor; [vm_compute; reflexivity|].
      constructor; [vm_compute; reflexivity|constructor].
    + simpl. lia.
  - intros r s' (-> & Ho & _ & _ & _ & Hl). rewrite Ho, Hl. vm_compute. done.
Defined.

(** A Windows domain. *)
Section Xp.
#[local] Existing Instance xp_env.
#[local] Existing Instance xp_whole.
#[local] Existing Instance xp_store.
#[local] Existing Instance xp_parser.

Lemma xp_module_at v a :
  kv2p xp v = a -> is_u32 v -> 0 < a -> (a mod 4096 <=? 4092) = true -> task_at xp 0 0 v (xp_task a).
Proof.
  intros Hk Hv Ha Hm. zbool. pose proof (Z.mod_pos_bound a 4096 ltac:(lia)).
  unfold task_at, xp_task. cbn [fst snd].
  split; [done|]. split; [by apply xp_page_at|lia].
Qed.

Definition xp_modules : list (Z * (mapping * Z)) :=
  [(0x8000A000, xp_task 0xA000); (0x8000B000, xp_task 0xB000)].

Lemma xp_modules_ring : ring xp 0 0 0x8055A620 (xp_task 0x55A620) xp_modules.
Proof.
  assert (Hn : forall a b l, next_of (xp_task a) = b ->
    chain xp 0 0 0x8055A620 b l -> chain xp 0 0 0x8055A620 (next_of (xp_task a)) l)
    by by intros a b l ->.
  split.
  - apply xp_module_at; [vm_compute; reflexivity|lia|lia|reflexivity].
  - apply (Hn _ 0x8000A000); [vm_compute; reflexivity|].
    apply chain_cons; [apply xp_module_at; [vm_compute; reflexivity|lia|lia|reflexivity]|].
    apply (Hn _ 0x8000B000); [vm_compute; reflexivity|].
    apply chain_cons; [apply xp_module_at; [vm_compute; reflexivity|lia|lia|reflexivity]|].
    apply (Hn _ 0x8055A620); [vm_compute; reflexivity|]. apply chain_nil.
  - cbn [fmap list_fmap fst]. apply (bool_decide_unpack _). vm_compute. reflexivity.
Qed.

Lemma xp_module_name a b u :
  mod_buffer (xp_task a) = b -> 0 < kv2p xp b -> u <> [] -> Forall (fun c => 0 <= c < 65536) u ->
  mod_length (xp_task a) = 2 * Z.of_nat (length u) -> kv2p xp b mod 4096 + mod_length (xp_task a) <= 4096 ->
  bytes (xp_frame (kv2p xp b)) (kv2p xp b mod 4096) (2 * length u) = utf16le u ->
  windows_name xp (xp_task a) (Some u).
Proof.
  intros <- Hk Hne Hu Hl Hin Hb.
  eapply name_there; [apply (xp_page_at PROT_READ _ _ eq_refl Hk)|exact Hne|exact Hu|exact Hl|exact Hin|exact Hb].
Qed.

Lemma chars_units s : bool_decide (Forall (fun c => 0 < c < 256) s) = true -> Forall (fun c => 0 <= c < 65536) s.
Proof. intros Hs%bool_decide_eq_true. eapply list.Forall_impl; [exact Hs|]. cbn. lia. Qed.

Lemma module_list_windows_witness :
  runs (module_list_main 3 (str "9")) (Session (guest_world lin) []) (fun r s' =>
    r = 0 /\ stdout s' = str "hal.dll" ++ [10] ++ str "bootvid.dll" ++ [10] /\ live_maps (lib_state s') = 0).
Proof.
  eapply runs_mono.
  - apply (module_list_windows 3 (str "9") xp_setup (xp_task 0x55A620) 0x8055A620 xp_modules [Some (str "hal.dll"); Some (str "bootvid.dll")]).
    + apply fresh_guest_zero.
    + exact (xp_ok 3).
    + apply (xp_page_at PROT_READ _ 0x55A620); [vm_compute; reflexivity|lia].
    + exact xp_modules_ring.
    + unfold xp_modules. cbn [fmap list_fmap snd].
      constructor; [split; [vm_compute; discriminate|apply (xp_module_name 0xA000 0x8000A100)]|
        constructor; [split; [vm_compute; discriminate|apply (xp_module_name 0xB000 0x8000B100)]|constructor]];
        first [apply chars_units; vm_compute; reflexivity | vm_compute; (reflexivity || discriminate)].
    + simpl. lia.
  - intros r s' (-> & Ho & _ & _ & _ & _ & Hl). rewrite Ho, Hl. clear. vm_compute. split; [reflexivity|split; reflexivity].
Defined.
End Xp.
