(* ===== verification/DumpMemory.v ===== *)
(** * Dumping a domain's memory to a file

    Models examples/dump-memory.c, and composes it with the library's file
    mode: an image that was dumped reads like the domain it was dumped from. *)

From Stdlib Require Import String.
From S2P Require Import Prelude CStr Dll XaTypes XaMap XaPhys Guest PageTable XaCache XaAccess Symbols.
From S2P Require Import XaStore ProcList Linux SymAccess WindowsPe Windows XaApi Config XaCore XaVm XaLax XaWin XaDomain Console.

(** - [fopen_w name]: whether [fopen(name, "w+")] succeeds;
    - [fwrite_count pos n]: how many of [n] bytes [fwrite] writes at [pos]. *)
Class OutputEnv := { fopen_w : cstr -> bool; fwrite_count : Z -> Z -> Z }.

(** The program's state: the session and the bytes in the output file. *)
Record dumper := Dumper { d_session : session; d_file : list Z }.

Definition on_session {A} : M session A -> M dumper A :=
  zoom d_session (fun s d => Dumper s (d_file d)).

Section Model.
Context {E : XenEnv} {X : StoreEnv} {F : FileEnv} {P : ConfigParser} {H : HostEnv} {Out : OutputEnv}.

(** [fwrite(data, 1, n, f)] *)
Definition fwrite (data : list Z) : M dumper Z := fun d =>
  let n := Z.of_nat (length data) in
  let k := fwrite_count (Z.of_nat (length (d_file d))) n in
  Ret (k, Dumper (d_session d) (d_file d ++ take (Z.to_nat k) data)).

(** The [page_size] bytes at [memory]. *)
Definition page_data (memory : mapping) (page_size : Z) : M dumper (list Z) :=
  _ ← assert_m (page_size <=? m_len memory);
  mret (bytes memory 0 (Z.to_nat page_size)).

(** One turn: [address] and [memory] are the loop variables; the loop is left
    with [memory] at the end of the memory or when the file is full. *)
Definition dump_step (st : Z * option mapping) : M dumper (Z * option mapping + option mapping) :=
  let '(address, memory) := st in
  i ← on_session (lib (gets inst));
  if address <? xen_size (m_xen i) then
    r ← on_session (lib (xa_access_pa address PROT_READ));
    match r.1 with
    | Some memory' =>
        (* memory mapped, just write to file *)
        data ← page_data memory' (page_size i);
        written ← fwrite data;
        if negb (written =? page_size i) then mret (inr (Some memory'))
        else
          _ ← on_session (lib munmap);
          mret (inl (u32 (address + page_size i), Some memory'))
    | None =>
        (* memory not mapped, write zeros to maintain offset *)
        written ← fwrite (replicate (Z.to_nat (page_size i)) 0);
        if negb (written =? page_size i) then mret (inr None)
        else mret (inl (u32 (address + page_size i), None))
    end
  else mret (inr memory).

(** The file is named by the first 50 bytes of the argument; the output stays
    empty when it cannot be opened. *)
Definition dump_memory_main (n : nat) (argv1 argv2 : cstr) : M dumper Z :=
  let dom := u32 (atoi argv1) in
  let filename := strndup argv2 50 in
  ret ← on_session (lib (xa_init_vm_id_lax n dom));
  if ret =? XA_FAILURE then on_session (error_exit None)
  else if fopen_w filename then
    memory ← iter n dump_step (0, None);
    on_session (error_exit memory)
  else on_session (error_exit None).
End Model.

(** ** The image *)

Section Image.
Context {E : XenEnv} {W : WholePages}.
Variable i : xa_instance.

(** The bytes of a physical frame, zeros where it cannot be mapped. *)
Definition frame_bytes (f : Z) : list Z :=
  match phys_frame i PROT_READ f with
  | Some m => bytes m 0 4096
  | None => replicate 4096 0
  end.

Definition dump_pages : Z := (xen_size (m_xen i) + 4095) / 4096.

(** The first [k] frames. *)
Definition dump_image (k : nat) : list Z := concat (frame_bytes <$> seqZ 0 (Z.of_nat k)).

Lemma dump_pages_bounds :
  0 <= xen_size (m_xen i) ->
  4096 * dump_pages - 4096 < xen_size (m_xen i) <= 4096 * dump_pages /\ 0 <= dump_pages.
Proof. intros Hs. unfold dump_pages. Z.to_euclidean_division_equations. lia. Qed.

Lemma length_frame_bytes f : length (frame_bytes f) = 4096%nat.
Proof.
  unfold frame_bytes. destruct (phys_frame i PROT_READ f); [apply length_bytes|apply length_replicate].
Qed.

Lemma length_dump_image k : length (dump_image k) = (4096 * k)%nat.
Proof.
  unfold dump_image. induction k as [|k IH]; [done|].
  rewrite seqZ_S, fmap_app, concat_app, length_app, IH. cbn [fmap list_fmap concat].
  rewrite app_nil_r, length_frame_bytes. lia.
Qed.

Lemma dump_image_S k : dump_image (S k) = dump_image k ++ frame_bytes (Z.of_nat k).
Proof.
  unfold dump_image. rewrite seqZ_S, fmap_app, concat_app. cbn [fmap list_fmap concat].
  by rewrite app_nil_r.
Qed.

(** Byte [j] of frame [f] is byte [4096 f + j] of the image. *)
Lemma dump_image_lookup n f j :
  (f < n)%nat -> (j < 4096)%nat ->
  dump_image n !! (4096 * f + j)%nat = frame_bytes (Z.of_nat f) !! j.
Proof.
  intros Hf Hj. induction n as [|n IH]; [lia|]. rewrite dump_image_S.
  destruct (decide (f < n)%nat).
  - rewrite lookup_app_l by (rewrite length_dump_image; lia). by apply IH.
  - assert (f = n) as -> by lia. rewrite lookup_app_r by (rewrite length_dump_image; lia).
    f_equal. rewrite length_dump_image. lia.
Qed.
End Image.

(** ** The loop *)

Section Dump.
Context {E : XenEnv} {W : WholePages} {X : StoreEnv} {F : FileEnv} {P : ConfigParser} {H : HostEnv}
  {Out : OutputEnv}.
Variables (i : xa_instance) (pgd_of : Z -> Z).
Hypothesis Hgeo : geometry i.
Hypothesis Hwrite : forall p n, fwrite_count p n = n.

Lemma runs_on_session {A} (m : M session A) d (Q : A -> dumper -> Prop) :
  runs m (d_session d) (fun a s => Q a (Dumper s (d_file d))) -> runs (on_session m) d Q.
Proof. exact (runs_zoom d_session (fun s d => Dumper s (d_file d)) m d Q). Qed.

Lemma fwrite_runs data d (Q : Z -> dumper -> Prop) :
  Q (Z.of_nat (length data)) (Dumper (d_session d) (d_file d ++ data)) -> runs (fwrite data) d Q.
Proof.
  intros HQ. eexists _, _. split; [reflexivity|]. rewrite Hwrite, Nat2Z.id, take_ge by lia. exact HQ.
Qed.

(** Whether the page last looked at was mapped: it is, once more, unmapped. *)
Definition last_mapped (k : nat) : Z :=
  match k with
  | O => 0
  | S k' => match phys_frame i PROT_READ (Z.of_nat k') with Some _ => 1 | None => 0 end
  end.

Lemma access_pa_page k w :
  inst w = i -> 0 <= k < 1048576 -> in_table i k ->
  xa_access_pa (4096 * k) PROT_READ w =
  Ret ((phys_frame i PROT_READ k, 0), opened (phys_frame i PROT_READ k) w).
Proof.
  intros Hi Hk Hin. assert (Hq : 4096 * k / 4096 = k) by (rewrite Z.mul_comm, Z.div_mul; lia).
  rewrite (xa_access_pa_phys (4096 * k)) by (rewrite ?Hi, ?Hq; auto; lia).
  rewrite Hi, Hq. replace ((4096 * k) mod 4096) with 0; [done|]. rewrite Z.mul_comm, Z.mod_mul; lia.
Qed.

(** One turn writes one frame, whatever the access does to the library's
    state. *)
Lemma dump_turn_runs i0 k o w1 memory d (Q : Z * option mapping + option mapping -> dumper -> Prop) :
  inst (lib_state (d_session d)) = i0 -> geometry i0 -> 4096 * Z.of_nat k < xen_size (m_xen i0) ->
  xa_access_pa (4096 * Z.of_nat k) PROT_READ (lib_state (d_session d)) = Ret ((o, 0), opened o w1) ->
  (forall m, o = Some m -> m_len m = 4096) ->
  Q (inl (u32 (4096 * Z.of_nat (S k)), o))
    (Dumper (Session w1 (stdout (d_session d)))
       (d_file d ++ match o with Some m => bytes m 0 4096 | None => replicate 4096 0 end)) ->
  runs (dump_step (4096 * Z.of_nat k, memory)) d Q.
Proof.
  intros Hi [_ Hps] Hk Hacc Hlen HQ. destruct d as [[w out] file]. cbn [d_session lib_state stdout d_file] in *.
  apply runs_bind, runs_on_session, runs_lib, runs_gets. cbn [d_session lib_state]. rewrite Hi.
  rewrite (proj2 (Z.ltb_lt _ _)) by done.
  apply runs_bind, runs_on_session, runs_lib. eapply runs_eq; [exact Hacc|].
  cbn [fst with_lib lib_state d_session d_file].
  assert (Haddr : u32 (4096 * Z.of_nat k + 4096) = u32 (4096 * Z.of_nat (S k))) by (f_equal; lia).
  rewrite Hps. change (Z.to_nat 4096) with 4096%nat. destruct o as [m|]; cbn [opened].
  - specialize (Hlen m eq_refl). apply runs_bind, runs_bind, runs_assert; [by apply Z.leb_le; lia|]. apply runs_ret.
    apply runs_bind, fwrite_runs. rewrite length_bytes. change (Z.of_nat 4096 =? 4096) with true. cbn [negb].
    apply runs_bind, runs_on_session, runs_lib, runs_modify, runs_ret. rewrite Haddr.
    cbn [d_session lib_state with_lib stdout d_file live_maps with_live_maps]. by rewrite live_maps_undo.
  - apply runs_bind, fwrite_runs. rewrite length_replicate. change (Z.of_nat 4096 =? 4096) with true. cbn [negb].
    apply runs_ret. by rewrite Haddr.
Qed.

Lemma dump_step_runs k memory d (Q : Z * option mapping + option mapping -> dumper -> Prop) :
  coherent i pgd_of (lib_state (d_session d)) -> 4096 * Z.of_nat k < xen_size (m_xen i) ->
  Z.of_nat k < 1048576 -> in_table i (Z.of_nat k) ->
  (forall d', coherent i pgd_of (lib_state (d_session d')) ->
     stdout (d_session d') = stdout (d_session d) ->
     live_maps (lib_state (d_session d')) = live_maps (lib_state (d_session d)) ->
     d_file d' = d_file d ++ frame_bytes i (Z.of_nat k) ->
     Q (inl (u32 (4096 * Z.of_nat (S k)), phys_frame i PROT_READ (Z.of_nat k))) d') ->
  runs (dump_step (4096 * Z.of_nat k, memory)) d Q.
Proof.
  intros Hc Hk Hsize Hin HQ. pose proof Hc as [Hi _].
  eapply dump_turn_runs; [exact Hi|exact Hgeo|exact Hk|apply access_pa_page; [done|lia|done]| |].
  - intros m. by apply phys_whole.
  - by apply HQ.
Qed.

(** When the size is above the last page, the address wraps before it reaches
    the size. *)
Lemma dump_loop_diverges n (Hall : forall f, 0 <= f < 1048576 -> in_table i f) : forall k memory d,
  0xFFFFF000 < xen_size (m_xen i) -> Z.of_nat k < 1048576 ->
  coherent i pgd_of (lib_state (d_session d)) ->
  iter n dump_step (4096 * Z.of_nat k, memory) d = Diverge.
Proof.
  induction n as [|n IH]; intros k memory d Hs Hk Hc; [done|]. rewrite iter_S.
  assert (Hstep : runs (dump_step (4096 * Z.of_nat k, memory)) d (fun r d' =>
    exists k' m', r = inl (4096 * Z.of_nat k', m') /\ Z.of_nat k' < 1048576 /\
      coherent i pgd_of (lib_state (d_session d')))).
  { apply dump_step_runs; [done|lia|done|apply Hall; lia|]. intros d' Hc' _ _ _.
    exists (Z.to_nat ((Z.of_nat k + 1) mod 1048576)), (phys_frame i PROT_READ (Z.of_nat k)).
    pose proof (Z.mod_pos_bound (Z.of_nat k + 1) 1048576 ltac:(lia)). rewrite Z2Nat.id by lia.
    split; [|split; [lia|exact Hc']]. do 2 f_equal. unfold u32. rewrite Nat2Z.inj_succ.
    change 4294967296 with (4096 * 1048576). by rewrite Z.mul_mod_distr_l. }
  destruct Hstep as (r & d' & E1 & k' & m' & -> & Hk' & Hc').
  erewrite bind_eq by exact E1. by apply IH.
Qed.

Lemma dump_loop_runs r : forall k n memory d,
  Z.of_nat (k + r) = dump_pages i -> (r < n)%nat ->
  coherent i pgd_of (lib_state (d_session d)) ->
  0 <= xen_size (m_xen i) <= 0xFFFFF000 -> (forall f, 0 <= f < dump_pages i -> in_table i f) ->
  d_file d = dump_image i k ->
  memory = (match k with O => None | S k' => phys_frame i PROT_READ (Z.of_nat k') end) ->
  runs (iter n dump_step (4096 * Z.of_nat k, memory)) d (fun memory' d' =>
    memory' = (match (k + r)%nat with O => None | S k' => phys_frame i PROT_READ (Z.of_nat k') end) /\
    coherent i pgd_of (lib_state (d_session d')) /\ stdout (d_session d') = stdout (d_session d) /\
    live_maps (lib_state (d_session d')) = live_maps (lib_state (d_session d)) /\
    d_file d' = dump_image i (k + r)).
Proof.
  induction r as [|r IH]; intros k n memory d Hk Hn Hc Hsize Hall Hfile Hmem;
    (destruct n as [|n]; [lia|]); apply runs_iter_step;
    pose proof (dump_pages_bounds i (proj1 Hsize)) as [Hb _].
  - pose proof Hc as [Hi _]. destruct d as [[w out] file]. cbn [d_session lib_state stdout d_file] in *.
    apply runs_bind, runs_on_session, runs_lib, runs_gets. cbn [d_session lib_state]. rewrite Hi.
    rewrite (proj2 (Z.ltb_ge _ _)) by lia. apply runs_ret. rewrite Nat.add_0_r. by split_and!.
  - apply dump_step_runs; [done|lia|lia|apply Hall; lia|]. intros d1 Hc1 Ho1 Hl1 Hf1. rewrite u32_small by lia.
    replace (k + S r)%nat with (S k + r)%nat in * by lia.
    eapply runs_mono; [apply (IH (S k) n _ d1); [done|lia|done|done|done| |done]|].
    { by rewrite Hf1, Hfile, dump_image_S. }
    cbv beta. intros m' d' (Hm & Hc' & Ho' & Hl' & Hf'). split_and!; [done|done|congruence|congruence|done].
Qed.

(** The loop reaches the first frame [f] behind the table, and reads past it. *)
Lemma dump_loop_past t f r : forall k n memory d,
  mode i = XA_MODE_XEN -> hvm i = 0 -> live_pfn_to_mfn_table (m_xen i) = Some t ->
  m_len t < 4 * Z.of_nat f + 4 -> (forall k, (k < f)%nat -> 4 * Z.of_nat k + 4 <= m_len t) ->
  4096 * Z.of_nat f < xen_size (m_xen i) <= 0xFFFFF000 -> (k + r)%nat = f -> (r < n)%nat ->
  coherent i pgd_of (lib_state (d_session d)) ->
  iter n dump_step (4096 * Z.of_nat k, memory) d = Fault.
Proof.
  induction r as [|r IH]; intros k n memory d Hm Hh Ht Hl Hin Hs Hk Hn Hc;
    (destruct n as [|n]; [lia|]); rewrite iter_S.
  - assert (k = f) as -> by lia. pose proof Hc as [Hi _].
    assert (Hq : 4096 * Z.of_nat f / 4096 = Z.of_nat f) by (rewrite Z.mul_comm, Z.div_mul; lia).
    assert (Hpa : xa_access_pa (4096 * Z.of_nat f) PROT_READ (lib_state (d_session d)) = Fault).
    { apply (access_past_table _ _ _ t); rewrite ?Hi, ?Hq; auto; lia. }
    assert (Hstep : dump_step (4096 * Z.of_nat f, memory) d = Fault).
    { unfold dump_step. erewrite bind_eq; [|unfold on_session, lib, zoom; reflexivity].
      rewrite Hi, (proj2 (Z.ltb_lt _ _)) by lia. unfold mbind, M_bind, on_session, lib, zoom.
      cbn [d_session lib_state with_lib]. by rewrite Hpa. }
    unfold mbind, M_bind. by rewrite Hstep.
  - assert (Hstep : runs (dump_step (4096 * Z.of_nat k, memory)) d (fun a d' =>
      exists m', a = inl (4096 * Z.of_nat (S k), m') /\ coherent i pgd_of (lib_state (d_session d')))).
    { apply dump_step_runs; [done|lia|lia|intros _ _; exists t; split; [done|apply Hin; lia]|].
      intros d' Hc' _ _ _. eexists. split; [rewrite u32_small by lia; reflexivity|done]. }
    destruct Hstep as (a & d' & E1 & m' & -> & Hc'). erewrite bind_eq by exact E1.
    apply IH; [done..|lia|lia|done].
Qed.
End Dump.

(** *** A paravirtual domain whose table has not been fetched

    Such is one that was opened without a configuration.  The first turn of
    the loop fetches the table; the others find it. *)

Section Fetch.
Context {E : XenEnv} {W : WholePages} {X : StoreEnv} {F : FileEnv} {P : ConfigParser} {H : HostEnv}
  {Out : OutputEnv}.
Variables (i : xa_instance) (pgd_of : Z -> Z).
Hypothesis Hpv : paravirtual i.
Hypothesis Hwrite : forall p n, fwrite_count p n = n.

Lemma coherent_fetched w : coherent i pgd_of w -> coherent (with_p2m i) pgd_of (table_loaded w).
Proof.
  intros (Hi & Hc & Hp). split; [by cbn; rewrite Hi|].
  unfold table_loaded. rewrite Hi, opened_live. unfold with_p2m.
  destruct (p2m_table i) as [[t n]|]; (split; [exact Hc|exact Hp]).
Qed.

Lemma dump_fetch_runs memory d (Q : Z * option mapping + option mapping -> dumper -> Prop) :
  coherent i pgd_of (lib_state (d_session d)) -> 0 < xen_size (m_xen i) -> pv_frame i 0 ->
  (forall d', coherent (with_p2m i) pgd_of (lib_state (d_session d')) ->
     stdout (d_session d') = stdout (d_session d) ->
     live_maps (lib_state (d_session d')) = live_maps (lib_state (d_session d)) + tables (with_p2m i) ->
     d_file d' = d_file d ++ frame_bytes (with_p2m i) 0 ->
     Q (inl (4096, phys_frame (with_p2m i) PROT_READ 0)) d') ->
  runs (dump_step (0, memory)) d Q.
Proof.
  intros Hc Hs Hf HQ. pose proof Hc as [Hi _].
  eapply (dump_turn_runs Hwrite i 0); [exact Hi|apply Hpv|exact Hs| | |].
  - change (4096 * Z.of_nat 0) with 0. rewrite (xa_access_pa_first 0) by (rewrite ?Hi; done || lia).
    rewrite Hi. reflexivity.
  - intros m. apply phys_whole. destruct (with_p2m_same i) as (-> & _). apply Hpv.
  - apply HQ; [by apply coherent_fetched|done| |done]. cbn [d_session lib_state].
    unfold table_loaded. cbn [live_maps with_inst]. rewrite opened_live, Hi. cbn [live_maps with_live_maps].
    unfold tables. rewrite (with_p2m_kept i (pv_unkept i Hpv)). by destruct (p2m_table i) as [[t n]|].
Qed.

Lemma with_p2m_size : xen_size (m_xen (with_p2m i)) = xen_size (m_xen i).
Proof. unfold with_p2m. by destruct (p2m_table i) as [[t n]|]. Qed.

Lemma dump_fetched_pages : dump_pages (with_p2m i) = dump_pages i.
Proof. unfold dump_pages. by rewrite with_p2m_size. Qed.
End Fetch.

(** ** Walks that read the same tables *)

Section Agree.
Variables (rd rd' : nat -> Z -> option Z).
Hypothesis Hsame : forall n a, is_u32 a -> a mod 4096 + Z.of_nat n <= 4096 -> rd n a = rd' n a.
Hypothesis Hrange : forall n a e, rd n a = Some e -> 0 <= e < 256 ^ Z.of_nat n.

Ltac euclid := Z.to_euclidean_division_equations; lia.

Lemma follow_same n a k k' :
  is_u32 a -> a mod 4096 + Z.of_nat n <= 4096 ->
  (forall e, 0 <= e < 256 ^ Z.of_nat n -> k e = k' e) -> follow (rd n a) k = follow (rd' n a) k'.
Proof.
  intros Ha Hn Hk. rewrite <- Hsame by done. destruct (rd n a) as [e|] eqn:Ee; [|done].
  cbn [follow]. rewrite (Hk e) by by eapply Hrange. done.
Qed.

Lemma ia32_walk_same c v : is_u32 c -> is_u32 v -> ia32_walk rd c v = ia32_walk rd' c v.
Proof.
  intros Hc Hv. unfold ia32_walk. apply follow_same; [euclid|euclid|].
  intros e He. change (256 ^ Z.of_nat 4) with 4294967296 in He. destruct (Z.testbit e 7); [done|].
  apply follow_same; [euclid|euclid|done].
Qed.

Lemma pae_walk_same c v : is_u32 c -> is_u32 v -> pae_walk rd u32 c v = pae_walk rd' u32 c v.
Proof.
  intros Hc Hv. unfold pae_walk.
  assert (Hin : forall b o, is_u32 b -> b mod 4096 = 0 -> 0 <= o < 512 ->
    is_u32 (b + 8 * o) /\ (b + 8 * o) mod 4096 + Z.of_nat 8 <= 4096).
  { intros b o Hb Hm Ho. apply Z.mod_divide in Hm as [q ->]; [|lia].
    rewrite Z.add_comm, Z.mod_add, Z.mod_small by lia. lia. }
  apply follow_same; [euclid|euclid|]. intros e He.
  destruct (Hin (u32 (frame36 e)) (v / 2 ^ 21 mod 2 ^ 9)) as [H1 H2];
    [apply u32_range|apply frame36_aligned|by apply Z.mod_pos_bound|].
  apply follow_same; [done|done|]. intros e' He'. destruct (Z.testbit e' 7); [done|].
  destruct (Hin (u32 (frame36 e')) (v / 2 ^ 12 mod 2 ^ 9)) as [H3 H4];
    [apply u32_range|apply frame36_aligned|by apply Z.mod_pos_bound|].
  by apply follow_same.
Qed.
End Agree.

(** ** Opening the dump *)

(** A file with these bytes behind [mmap]; nothing of Xen is needed for it. *)
Definition dumped_env (content : list Z) (garbage : Z) : XenEnv := {|
  xc_map_foreign_range _ _ _ := None;
  xc_map_foreign_batch _ _ _ := None;
  xc_batch_result _ _ mfns := mfns;
  xc_vcpu_getcontext _ := None;
  xc_maximum_gpfn _ := 0;
  shinfo_max_pfn _ := 0;
  shinfo_frame_list_list _ := 0;
  file_mmap len _ off :=
    if (0 <=? off) && (off <? Z.of_nat (length content)) then
      Some (Mapping len (fun k => nth (Z.to_nat (off + k)) content 0))
    else None;
  clock n := Z.of_nat n;
  indet := garbage |}.

Section Reopen.
Context {E : XenEnv} {W : WholePages}.
Variables (i i_file : xa_instance).
Hypothesis Hgeo : geometry i.
Hypothesis Hfile : geometry i_file.
Hypothesis Hmode : mode i_file = XA_MODE_FILE.
Hypothesis Hsize : 0 <= xen_size (m_xen i) <= 0x80000000.

Abbreviation content := (dump_image i (Z.to_nat (dump_pages i))).
Hypothesis Hlen : file_size (m_file i_file) = Z.of_nat (length content).

Lemma file_frame prot f :
  0 <= f < 1048576 ->
  @frame_of (dumped_env content indet) i_file prot f =
  if f <? dump_pages i then
    Some (Mapping 4096 (fun k => nth (Z.to_nat (4096 * f + k)) content 0))
  else None.
Proof.
  intros Hf. destruct (dump_pages_bounds i (proj1 Hsize)) as [Hb Hp]. pose proof Hfile as [Hsh Hps].
  assert (Hlen' : Z.of_nat (length content) = 4096 * dump_pages i) by (rewrite length_dump_image; lia).
  unfold frame_of. rewrite Hmode, Hlen, Hsh, Hps. cbn [Z.eqb XA_MODE_FILE XA_MODE_XEN].
  rewrite Z.shiftl_mul_pow2 by done. change (2 ^ 12) with 4096. rewrite u32_small, Hlen' by lia.
  destruct (Z.ltb_spec f (dump_pages i)) as [Hlt|Hge].
  - rewrite (proj2 (Z.leb_gt _ _)) by lia. rewrite s32_small by lia. cbn [file_mmap dumped_env].
    rewrite Hlen', (proj2 (Z.leb_le _ _)), (proj2 (Z.ltb_lt _ _)) by lia. cbn [andb].
    by rewrite (Z.mul_comm f).
  - by rewrite (proj2 (Z.leb_le _ _)) by lia.
Qed.

(** Each page of the file is the domain's frame. *)
Lemma file_page_bytes f off n :
  0 <= f < dump_pages i -> 0 <= off -> off + Z.of_nat n <= 4096 ->
  bytes (Mapping 4096 (fun k => nth (Z.to_nat (4096 * f + k)) content 0)) off n =
  match phys_frame i PROT_READ f with Some m => bytes m off n | None => replicate n 0 end.
Proof.
  intros Hf H0 Hn. apply list_eq. intros j. unfold bytes at 1. rewrite list_lookup_fmap.
  destruct (decide (j < n)%nat) as [Hj|Hj].
  2:{ rewrite !lookup_ge_None_2; [done| |by rewrite length_seqZ; lia].
      destruct (phys_frame i PROT_READ f); [rewrite length_bytes|rewrite length_replicate]; lia. }
  rewrite lookup_seqZ_lt by lia. cbn [fmap option_fmap option_map m_byte].
  rewrite nth_lookup. replace (Z.to_nat (4096 * f + (off + (0 + Z.of_nat j)))) with
    (4096 * Z.to_nat f + Z.to_nat (off + Z.of_nat j))%nat by lia.
  rewrite dump_image_lookup, Z2Nat.id by lia. unfold frame_bytes.
  destruct (phys_frame i PROT_READ f) as [m|].
  - unfold bytes. rewrite !list_lookup_fmap, !lookup_seqZ_lt by lia. cbn [fmap option_fmap option_map default from_option id].
    f_equal. unfold u8. rewrite Z.mod_mod by lia. do 2 f_equal. lia.
  - rewrite !lookup_replicate_2 by lia. done.
Qed.

(** Every read inside a page gives what it gives in the domain, zero where the
    domain has no frame; nothing can be read behind the end. *)
Lemma file_mem_read n a :
  is_u32 a -> a mod 4096 + Z.of_nat n <= 4096 ->
  @mem_read (dumped_env content indet) i_file n a =
  if a / 4096 <? dump_pages i then Some (default 0 (phys_read i n a)) else None.
Proof.
  intros Ha Hn. unfold mem_read, phys_read.
  assert (Hf : 0 <= a / 4096 < 1048576) by (split; [apply Z.div_pos; lia|apply Z.div_lt_upper_bound; lia]).
  pose proof (Z.mod_pos_bound a 4096 ltac:(lia)) as Hm.
  rewrite file_frame by done. destruct (Z.ltb_spec (a / 4096) (dump_pages i)); [|done].
  cbn [mbind option_bind]. rewrite file_page_bytes by lia. f_equal.
  destruct (phys_frame i PROT_READ (a / 4096)) as [m|]; [done|]. cbn [mbind option_bind default from_option id].
  clear. induction n as [|n IH]; [done|]. cbn [replicate le_combine]. lia.
Qed.

(** The physical frames of the domain are those below its size. *)
Hypothesis Hframes : forall f, 0 <= f < 1048576 ->
  is_Some (phys_frame i PROT_READ f) <-> f < dump_pages i.

Lemma file_mem_same n a :
  is_u32 a -> a mod 4096 + Z.of_nat n <= 4096 ->
  @mem_read (dumped_env content indet) i_file n a = phys_read i n a.
Proof.
  intros Ha Hn. rewrite file_mem_read by done.
  assert (Hf : 0 <= a / 4096 < 1048576) by (split; [apply Z.div_pos; lia|apply Z.div_lt_upper_bound; lia]).
  pose proof (Hframes _ Hf) as Hfr. unfold phys_read.
  destruct (phys_frame i PROT_READ (a / 4096)) as [m|] eqn:Em.
  - rewrite (proj2 (Z.ltb_lt _ _)) by by apply Hfr. done.
  - rewrite (proj2 (Z.ltb_ge _ _)); [done|]. destruct (Z.lt_ge_cases (a / 4096) (dump_pages i)) as [Hlt|]; [|done].
    apply Hfr in Hlt as [m Hm]. congruence.
Qed.

(** The page tables of a guest whose physical frames are the machine's. *)
Lemma file_translate c v :
  hvm i <> 0 \/ mode i = XA_MODE_FILE -> is_u32 c -> is_u32 v -> pae i_file = pae i ->
  @pt_lookup (dumped_env content indet) i_file c v = pt_lookup i c v.
Proof.
  intros Hph Hc Hv Hp. unfold pt_lookup. rewrite Hp.
  assert (Hsame : forall n a, is_u32 a -> a mod 4096 + Z.of_nat n <= 4096 ->
    @rd_indet (dumped_env content indet) i_file n a = rd_indet i n a).
  { intros n a Ha Hn. unfold rd_indet. f_equal. by rewrite file_mem_same, phys_read_flat by done. }
  assert (Hrange : forall n a e, @rd_indet (dumped_env content indet) i_file n a = Some e ->
    0 <= e < 256 ^ Z.of_nat n) by (intros n a e; apply rd_indet_range).
  destruct (pae i =? 0); [by rewrite (ia32_walk_same _ _ Hsame Hrange)|
                          by rewrite (pae_walk_same _ _ Hsame Hrange)].
Qed.
End Reopen.

(** ** The program *)

Section Program.
Context {E : XenEnv} {W : WholePages} {X : StoreEnv} {F : FileEnv} {P : ConfigParser} {H : HostEnv}
  {Out : OutputEnv}.

(** C13: [dump-memory] of a domain, a Linux one of either kind or a Windows one,
    writes its physical memory to the file, frame after frame up to its size
    rounded up to whole pages, zeros in place of the frames that have no machine
    frame or cannot be mapped, and returns 0 with the caches freed.  The table
    of a paravirtual domain must have the frames up to that size.  The page looked at last is unmapped a second time
    on the way out. *)
Theorem dump_memory_correct n argv1 argv2 i w out (dom := u32 (atoi argv1)) :
  fresh (zero_cache w) -> domain_at n dom XA_FAILSOFT i -> xen_size (m_xen i) <= 0xFFFFF000 ->
  (forall f, 0 <= f < dump_pages i -> in_table i f) ->
  fopen_w (strndup argv2 50) = true -> (forall p k, fwrite_count p k = k) ->
  (Z.to_nat (dump_pages i) < n)%nat ->
  runs (dump_memory_main n argv1 argv2) (Dumper (Session w out) []) (fun r d =>
    r = 0 /\ d_file d = dump_image i (Z.to_nat (dump_pages i)) /\ stdout (d_session d) = out /\
    fresh (lib_state (d_session d)) /\ nodes (cache (lib_state (d_session d))) = ∅ /\
    nodes (pid_cache (lib_state (d_session d))) = ∅ /\
    live_maps (lib_state (d_session d)) = live_maps w - last_mapped i (Z.to_nat (dump_pages i))).
Proof.
  intros Hf Hok Hsz Hall Ho Hw Hn. apply domain_opens in Hok as [Hg Hpos Hopen].
  apply runs_bind, runs_on_session, runs_lib. eapply runs_mono; [by apply Hopen|].
  intros r w1 (-> & Hc & Hl). change (XA_SUCCESS =? XA_FAILURE) with false. cbv iota.
  rewrite Ho. cbn [d_session d_file with_lib lib_state stdout] in *. apply runs_bind.
  destruct (dump_pages_bounds i) as [_ Hpos']; [lia|].
  eapply runs_mono.
  { apply (dump_loop_runs i (fun _ => 0) Hg Hw (Z.to_nat (dump_pages i)) 0 n None
             (Dumper (Session w1 out) [])); cbn [d_session lib_state d_file];
      [lia|exact Hn|exact Hc|lia|exact Hall|done|done]. }
  cbn [d_session d_file lib_state stdout]. intros memory d (-> & Hc2 & Ho2 & Hl2 & Hf2).
  apply runs_on_session. eapply error_exit_runs; [exact Hc2|].
  intros w3 Hf3 Hn1 Hn2 Hl3. cbn [d_session d_file lib_state with_lib stdout].
  split_and!; try done.
  rewrite Hl3, Hl2, Hl. unfold last_mapped.
  destruct (Z.to_nat (dump_pages i)) as [|k]; cbn [Nat.add]; [lia|]. destruct (phys_frame i PROT_READ (Z.of_nat k)); lia.
Qed.

(** [dump-memory] of a paravirtual domain that the configuration does not
    describe, opened in the lax mode: the table is fetched when the first frame
    is written, and the file has the domain's physical memory as in
    [dump_memory_correct]. *)
Theorem dump_memory_unconfigured n argv1 argv2 s i1 w out (dom := u32 (atoi argv1)) (i := bare_opened s i1)
    (pages := Z.to_nat (dump_pages i)) :
  fresh (zero_cache w) -> bare_ok dom s -> unconfigured dom (bare_start dom XA_FAILSOFT s) i1 ->
  paravirtual i -> is_Some (p2m_table i) -> (forall f, 0 <= f < dump_pages i -> pv_frame i f) ->
  bs_kb s * 1024 <= 0xFFFFF000 -> fopen_w (strndup argv2 50) = true ->
  (forall p k, fwrite_count p k = k) -> (pages < n)%nat ->
  runs (dump_memory_main n argv1 argv2) (Dumper (Session w out) []) (fun r d =>
    r = 0 /\ d_file d = dump_image (with_p2m i) pages /\ stdout (d_session d) = out /\
    fresh (lib_state (d_session d)) /\ nodes (cache (lib_state (d_session d))) = ∅ /\
    nodes (pid_cache (lib_state (d_session d))) = ∅ /\
    live_maps (lib_state (d_session d)) = live_maps w - last_mapped (with_p2m i) pages).
Proof.
  intros Hf Hok Hu Hpv Hsome Hfr Hsz Ho Hw Hn.
  destruct (bare_opened_spec _ _ _ _ Hu) as (Hg & Hm & Hh & _ & Hx & Ht). fold i in Hg, Hm, Hh, Hx, Ht.
  pose proof (vs_kb _ _ _ _ (bo_store _ _ Hok)) as Hkb.
  destruct (dump_pages_bounds i) as [Hb Hpos]; [lia|].
  apply runs_bind, runs_on_session, runs_lib. eapply runs_mono.
  { by apply (init_unconfigured_runs n dom XA_FAILSOFT s i1). }
  intros r w1 (Hbl & Hl & -> & Hi). fold i in Hi. change (XA_SUCCESS =? XA_FAILURE) with false. cbv iota.
  rewrite Ho. cbn [d_session d_file with_lib lib_state stdout] in *. apply runs_bind.
  destruct n as [|n]; [lia|]. apply runs_iter_step.
  apply (dump_fetch_runs i (fun _ => 0) Hpv Hw); cbn [d_session lib_state];
    [rewrite <- Hi; by apply blank_coherent|lia|apply Hfr; lia|].
  cbn [d_file stdout d_session lib_state]. intros d1 Hc1 Ho1 Hl1 Hf1. change 4096 with (4096 * Z.of_nat 1) at 1.
  assert (Hg' : geometry (with_p2m i)) by (destruct (with_p2m_same i) as (-> & _); exact Hg).
  eapply runs_mono.
  { apply (dump_loop_runs (with_p2m i) (fun _ => 0) Hg' Hw (pages - 1) 1 n _ d1);
      [rewrite dump_fetched_pages; lia|lia|exact Hc1|rewrite with_p2m_size; lia| | |done].
    - intros f Hff. rewrite dump_fetched_pages in Hff. apply in_with_p2m; [done|by apply Hfr|done].
    - rewrite Hf1, dump_image_S. done. }
  replace (1 + (pages - 1))%nat with pages by lia.
  intros memory d (-> & Hc2 & Ho2 & Hl2 & Hf2). apply runs_on_session. eapply error_exit_runs; [exact Hc2|].
  intros w3 Hf3 Hn1 Hn2 Hl3. cbn [d_session d_file lib_state with_lib stdout].
  split_and!; try done; [by rewrite Ho2|].
  rewrite Hl3, Hl2, Hl1. cbn [with_lib lib_state]. rewrite Hl. unfold last_mapped. destruct pages as [|k]; [lia|].
  destruct (phys_frame (with_p2m i) PROT_READ (Z.of_nat k)); lia.
Qed.

(** A domain whose size is above the address of the last page (4 GB less
    one to three kilobytes) is dumped forever: the address wraps to zero and
    the program writes the memory again and again. *)
Theorem dump_memory_diverges n argv1 argv2 i w out (dom := u32 (atoi argv1)) :
  fresh (zero_cache w) -> domain_at n dom XA_FAILSOFT i -> 0xFFFFF000 < xen_size (m_xen i) ->
  (forall f, 0 <= f < 1048576 -> in_table i f) ->
  fopen_w (strndup argv2 50) = true -> (forall p k, fwrite_count p k = k) ->
  dump_memory_main n argv1 argv2 (Dumper (Session w out) []) = Diverge.
Proof.
  intros Hf Hok Hsz Hall Ho Hw. apply domain_opens in Hok as [Hg Hpos Hopen].
  assert (Hinit : runs (on_session (lib (xa_init_vm_id_lax n dom))) (Dumper (Session w out) [])
    (fun r d => r = XA_SUCCESS /\ coherent i (fun _ => 0) (lib_state (d_session d)))).
  { apply runs_on_session, runs_lib. eapply runs_mono; [by apply Hopen|].
    by intros r w1 (-> & Hc & _). }
  destruct Hinit as (r & d & E1 & -> & Hc). unfold dump_memory_main. fold dom.
  erewrite bind_eq by exact E1. change (XA_SUCCESS =? XA_FAILURE) with false. cbv iota. rewrite Ho.
  unfold mbind, M_bind. change 0 with (4096 * Z.of_nat 0) at 1.
  rewrite (dump_loop_diverges i (fun _ => 0) Hg Hw n Hall 0 None d); [done|lia|lia|exact Hc].
Qed.

(** A paravirtual domain whose size in XenStore is above what its pfn-to-mfn
    table has entries for makes the program read past the table: frame numbers
    are not compared with the size of the table. *)
Theorem dump_memory_past_table n argv1 argv2 i t w out (dom := u32 (atoi argv1)) (f := m_len t / 4) :
  fresh (zero_cache w) -> domain_at n dom XA_FAILSOFT i -> mode i = XA_MODE_XEN -> hvm i = 0 ->
  live_pfn_to_mfn_table (m_xen i) = Some t -> 0 <= m_len t ->
  4096 * f < xen_size (m_xen i) <= 0xFFFFF000 ->
  fopen_w (strndup argv2 50) = true -> (forall p k, fwrite_count p k = k) -> (Z.to_nat f < n)%nat ->
  dump_memory_main n argv1 argv2 (Dumper (Session w out) []) = Fault.
Proof.
  intros Hf Hok Hm Hh Ht Hl0 Hsz Ho Hw Hn. apply domain_opens in Hok as [Hg Hpos Hopen].
  assert (Hinit : runs (on_session (lib (xa_init_vm_id_lax n dom))) (Dumper (Session w out) [])
    (fun r d => r = XA_SUCCESS /\ coherent i (fun _ => 0) (lib_state (d_session d)))).
  { apply runs_on_session, runs_lib. eapply runs_mono; [by apply Hopen|].
    by intros r w1 (-> & Hc & _). }
  destruct Hinit as (r & d & E1 & -> & Hc). unfold dump_memory_main. fold dom.
  erewrite bind_eq by exact E1. change (XA_SUCCESS =? XA_FAILURE) with false. cbv iota. rewrite Ho.
  unfold mbind, M_bind. change 0 with (4096 * Z.of_nat 0) at 1.
  assert (Hf0 : 0 <= f /\ 4 * f <= m_len t < 4 * f + 4)
    by (unfold f; Z.to_euclidean_division_equations; lia).
  rewrite (dump_loop_past i (fun _ => 0) Hg Hw t (Z.to_nat f) (Z.to_nat f) 0 n None d);
    [done|done|done|done|lia|lia|lia|lia|done|done].
Qed.

(** The image of a domain of at most 2 GB, all of whose frames can be
    mapped, is a faithful copy of its physical memory: opened in file mode,
    every read inside a page gives what it gives in the running domain.  For a
    fully virtualised domain so does every translation, in the same paging mode
    and through any page directory; the page tables of a paravirtual domain
    hold machine addresses, which the image does not keep. *)
Theorem dump_opens_like_domain i i_file :
  geometry i -> geometry i_file -> mode i_file = XA_MODE_FILE -> 0 <= xen_size (m_xen i) <= 0x80000000 ->
  (forall f, 0 <= f < 1048576 -> is_Some (phys_frame i PROT_READ f) <-> f < dump_pages i) ->
  file_size (m_file i_file) = Z.of_nat (length (dump_image i (Z.to_nat (dump_pages i)))) ->
  (forall k a, is_u32 a -> a mod 4096 + Z.of_nat k <= 4096 ->
     @mem_read (dumped_env (dump_image i (Z.to_nat (dump_pages i))) indet) i_file k a =
     @phys_read E i k a) /\
  (hvm i <> 0 -> pae i_file = pae i -> forall c v, is_u32 c -> is_u32 v ->
     @pt_lookup (dumped_env (dump_image i (Z.to_nat (dump_pages i))) indet) i_file c v =
     @pt_lookup E i c v).
Proof.
  intros Hg Hgf Hm Hs Hfr Hl. split.
  - intros k a Ha Hk. by apply (@file_mem_same E i i_file).
  - intros Hh Hp c v Hc Hv. apply (@file_translate E i i_file); try done. by left.
Qed.
End Program.

(** *** Witnesses *)

#[local] Existing Instance vm_env.
#[local] Existing Instance vm_whole.
#[local] Existing Instance vm_xenstore.
#[local] Existing Instance vm_files.
#[local] Existing Instance vm_host.
#[local] Existing Instance sample_parser.

#[local] Instance full_disk : OutputEnv := {| fopen_w _ := true; fwrite_count _ n := n |}.

Lemma dump_memory_diverges_witness :
  @dump_memory_main vm_env (vm_xenstore_of 4194301) vm_files sample_parser vm_host full_disk
    1000 (str "7") (str "fedora.dd") (Dumper (Session (guest_world lin) []) []) = Diverge.
Proof.
  apply (@dump_memory_diverges vm_env vm_whole (vm_xenstore_of 4194301) vm_files sample_parser vm_host full_disk
           1000 (str "7") (str "fedora.dd")
           (@vm_opened (sample_vm_of 4194301) (sample_instance_of 4194301 XA_FAILSOFT))).
  - apply fresh_guest_zero.
  - left. eexists _, _. split; [apply (sample_vm_ok_of 4194301); lia|reflexivity].
  - vm_compute. reflexivity.
  - intros f _. apply in_table_flat. left. vm_compute. discriminate.
  - reflexivity.
  - reflexivity.
Defined.

(** A domain of two frames. *)
Definition small_env : XenEnv := {|
  xc_map_foreign_range _ _ mfn :=
    if mfn <? 2 then Some (Mapping 4096 (fun k => (mfn + 1) * k)) else None;
  xc_map_foreign_batch _ _ _ := None;
  xc_batch_result _ _ mfns := mfns;
  xc_vcpu_getcontext _ := None;
  xc_maximum_gpfn _ := 1;
  shinfo_max_pfn _ := 0;
  shinfo_frame_list_list _ := 0;
  file_mmap _ _ _ := None;
  clock n := Z.of_nat n;
  indet := 0 |}.

Definition small_domain : xa_instance :=
  set_m_xen (XenSource 3 7 12 0x10 8000 None 0) (set_mode XA_MODE_XEN lin).
Definition small_file : xa_instance := set_m_file (FileSource 8192) lin.

Lemma dump_opens_like_domain_witness :
  @mem_read (dumped_env (@dump_image small_env small_domain 2) 0) small_file 4 0x1004 = Some 0x0E0C0A08.
Proof.
  assert (Hf : forall f, f <> NULL_ULONG -> @phys_frame small_env small_domain PROT_READ f =
                 if f <? 2 then Some (Mapping 4096 (fun k => (f + 1) * k)) else None).
  { intros f Hn. by rewrite phys_flat by (done || by left). }
  refine (eq_trans (proj1 (@dump_opens_like_domain small_env small_domain small_file _ _ _ _ _ _) 4%nat 0x1004 _ _) _).
  - done.
  - done.
  - reflexivity.
  - vm_compute. split; discriminate.
  - intros f Hr. rewrite Hf by (unfold NULL_ULONG; lia). change (@dump_pages small_domain) with 2. destruct (Z.ltb_spec f 2).
    + split; [done|by eexists].
    + split; [by intros []|lia].
  - rewrite length_dump_image. reflexivity.
  - lia.
  - vm_compute. discriminate.
  - vm_compute. reflexivity.
Defined.
