(* ===== verification/MapTools.v ===== *)
(** * Showing a page of a guest

    Models the programs examples/map-addr.c, examples/map-symbol.c and
    examples/process-data.c: a page of the guest is found by a kernel address,
    by a symbol or by a process, and printed with [print_hex]. *)

From Stdlib Require Import String.
From S2P Require Import Prelude CStr Dll XaTypes HexDump XaMap XaPhys Guest PageTable XaCache XaAccess Symbols.
From S2P Require Import XaStore ProcList Linux SymAccess WindowsPe Windows XaApi Config ConfigText XaCore XaVm Console.
From S2P Require Import ProcessList.

(** [printf("offset = 0x%.8x\n", offset)] *)
Definition offset_line (offset : Z) : cstr := str "offset = 0x" ++ hex_print 8 offset ++ [10].

(** [printf("name = 0x%.8lx\n", v)] *)
Definition addr_line (name : cstr) (v : Z) : cstr := name ++ str " = 0x" ++ hex_print 8 v ++ [10].

Definition linux_printaddr (t : xa_linux_taskaddr) : cstr :=
  addr_line (str "start_code") (start_code t) ++ addr_line (str "end_code") (end_code t) ++
  addr_line (str "start_data") (start_data t) ++ addr_line (str "end_data") (end_data t) ++
  addr_line (str "start_brk") (start_brk t) ++ addr_line (str "brk") (brk_ t) ++
  addr_line (str "start_stack") (start_stack t) ++ addr_line (str "arg_stack") (arg_stack t) ++
  addr_line (str "arg_end") (arg_end t) ++ addr_line (str "env_start") (env_start t) ++
  addr_line (str "env_end") (env_end t).

Definition windows_printaddr (ImageBaseAddress ProcessHeap : Z) : cstr :=
  addr_line (str "ImageBaseAddress") ImageBaseAddress ++ addr_line (str "ProcessHeap") ProcessHeap.

Section Model.
Context {E : XenEnv} {X : StoreEnv} {F : FileEnv} {P : ConfigParser} {H : HostEnv}.

(** [print_hex(memory, xai.page_size)] *)
Definition show_page (memory : mapping) : M session unit :=
  i ← lib (gets inst);
  text ← lift_result (print_hex memory (page_size i));
  printf text.

(** The two programs share everything but how the page is found. *)
Definition map_main (n : nat) (dom : Z) (find : M world (option mapping * Z)) : M session Z :=
  ret ← lib (xa_init_vm_id_strict n dom);
  if ret =? XA_FAILURE then error_exit None
  else
    r ← lib find;
    match r with
    | (None, _) => error_exit None (* failed to map memory *)
    | (Some memory, offset) =>
        _ ← printf (offset_line offset);
        _ ← show_page memory;
        error_exit (Some memory)
    end.

(** map-addr.c *)
Definition map_addr_main (n : nat) (argv1 addr_str : cstr) : M session Z :=
  map_main n (u32 (atoi argv1)) (xa_access_kernel_va (u32 (strtoul16 addr_str)) PROT_READ).

(** map-symbol.c *)
Definition map_symbol_main (n : nat) (argv1 symbol : cstr) : M session Z :=
  map_main n (u32 (atoi argv1)) (xa_access_kernel_sym symbol PROT_READ).

(** The end of process-data.c: the page at the start of the code. *)
Definition show_code (n : nat) (addr p : Z) : M session Z :=
  r ← lib (xa_access_user_va n addr p PROT_READ);
  match r with
  | (None, _) => error_exit None (* failed to map memory *)
  | (Some memory, offset) =>
      _ ← show_page memory;
      _ ← printf (str "offset = 0x" ++ print_x offset ++ [10]);
      error_exit (Some memory)
  end.

Definition pid_line (p : Z) : cstr := str "Memory descriptor addresses for pid = " ++ dec p ++ str ":" ++ [10].

(** process-data.c *)
Definition process_data_main (n : nat) (argv1 argv2 : cstr) : M session Z :=
  let dom := u32 (atoi argv1) in
  let p := atoi argv2 in
  ret ← lib (xa_init_vm_id_strict n dom);
  if ret =? XA_FAILURE then error_exit None
  else
    i ← lib (gets inst);
    if os_type i =? XA_OS_LINUX then
      r ← lib (xa_linux_get_taskaddr n p);
      match r with
      | None => error_exit None (* failed to get task addresses *)
      | Some taskaddr =>
          _ ← printf (pid_line p);
          _ ← printf (linux_printaddr taskaddr);
          show_code n (start_code taskaddr) p
      end
    else if os_type i =? XA_OS_WINDOWS then
      r ← lib (xa_windows_get_peb n p);
      match r with
      | None => error_exit None (* failed to get process addresses from peb *)
      | Some (base, heap) =>
          let ImageBaseAddress := default indet base in
          _ ← printf (pid_line p);
          _ ← printf (windows_printaddr ImageBaseAddress (default indet heap));
          show_code n ImageBaseAddress p
      end
    else
      _ ← printf (pid_line p); error_exit None.
End Model.

(** ** The programs *)

Section Programs.
Context {E : XenEnv} {W : WholePages} {X : StoreEnv} {F : FileEnv} {P : ConfigParser} {H : HostEnv}.

(** A page that is shown can be read back. *)
Lemma show_page_runs i m s (Q : unit -> session -> Prop) :
  geometry i -> inst (lib_state s) = i -> m_len m = 4096 ->
  (forall text, read_dump text = bytes m 0 4096 -> Q tt (Session (lib_state s) (stdout s ++ text))) ->
  runs (show_page m) s Q.
Proof.
  intros Hg Hi Hlen HQ. destruct s as [w out]. cbn [lib_state stdout] in *.
  apply runs_bind, runs_lib, runs_gets. cbn [lib_state]. rewrite Hi.
  destruct Hg as [_ ->]. destruct (print_hex_text m 4096) as (text & Et & Er); [lia|].
  apply runs_bind. eapply runs_eq; [unfold lift_result; by rewrite Et|].
  apply runs_printf. by apply HQ.
Qed.

(** What a program has printed and left when it ends. *)
Definition shown (w : world) (out : cstr) (before : cstr) (page : option mapping) (after : cstr)
    (r : Z) (s : session) : Prop :=
  r = 0 /\ fresh (lib_state s) /\ nodes (cache (lib_state s)) = ∅ /\ nodes (pid_cache (lib_state s)) = ∅ /\
  live_maps (lib_state s) = live_maps w /\
  match page with
  | Some m => exists text, read_dump text = bytes m 0 4096 /\ stdout s = out ++ before ++ text ++ after
  | None => stdout s = out ++ before
  end.

Lemma map_main_runs n dom s i' find page w out pgd_of (i := vm_opened s i') :
  fresh (zero_cache w) -> (forall p, is_u32 (pgd_of p)) -> vm_ok dom XA_FAILHARD s i' ->
  (forall m o, page = (Some m, o) -> m_len m = 4096) ->
  (forall w1, ready i pgd_of (vm_rows s) (vm_init_task s) w1 -> runs find w1 (fun r w2 =>
     r = page /\ coherent i pgd_of w2 /\
     live_maps w2 = live_maps w1 + match r.1 with Some _ => 1 | None => 0 end)) ->
  runs (map_main n dom find) (Session w out)
    (shown w out (match page.1 with Some _ => offset_line page.2 | None => [] end) page.1 []).
Proof.
  intros Hf Hp Hok Hlen Hfind.
  pose proof (vm_opened_spec _ _ _ _ Hok) as (Hg & _). fold i in Hg.
  apply runs_bind, runs_lib. eapply runs_mono.
  { by apply (init_vm_runs n dom XA_FAILHARD s i' pgd_of). }
  fold i. intros r w1 (-> & Hi & Hr & Hl). change (XA_SUCCESS =? XA_FAILURE) with false. cbv iota.
  apply runs_bind, runs_lib. eapply runs_mono; [by apply Hfind|].
  cbn [lib_state with_lib stdout] in *. intros r w2 (-> & Hc2 & Hl2).
  destruct page as [[m|] o]; cbn [fst snd] in *.
  - apply runs_bind, runs_printf, runs_bind. cbn [lib_state with_lib stdout].
    eapply (show_page_runs i); [exact Hg|by apply Hc2|by eapply Hlen|].
    intros text Htext. cbn [lib_state stdout].
    eapply error_exit_runs; [exact Hc2|]. cbn [lib_state stdout with_lib].
    intros w3 Hf3 Hn1 Hn2 Hl3. split_and!; try done; cbn [lib_state stdout with_lib] in *; [lia|].
    exists text. split; [done|]. by rewrite app_nil_r, app_assoc.
  - eapply error_exit_runs; [exact Hc2|]. cbn [lib_state stdout with_lib].
    intros w3 Hf3 Hn1 Hn2 Hl3. split_and!; try done; cbn [lib_state stdout with_lib] in *; [lia|by rewrite app_nil_r].
Qed.

(** [map-addr] on a Linux domain, fully virtualised or paravirtual, from the command line
    to the exit: it prints the offset and a dump of the page to which the
    kernel's page tables map the address, from which every byte of the page
    can be read back; it prints nothing when the address is not mapped.  It
    returns 0, with the caches freed and no page left mapped. *)
Theorem map_addr_linux n argv1 addr_str s i' w out
    (dom := u32 (atoi argv1)) (i := vm_opened s i') (addr := u32 (strtoul16 addr_str))
    (page := page_at i PROT_READ (kv2p i addr)) :
  fresh (zero_cache w) -> vm_ok dom XA_FAILHARD s i' ->
  runs (map_addr_main n argv1 addr_str) (Session w out)
    (shown w out (match page.1 with Some _ => offset_line page.2 | None => [] end) page.1 []).
Proof.
  intros Hf Hok. pose proof (vm_opened_spec _ _ _ _ Hok) as (Hg & _). fold i in Hg.
  assert (Hz0 : forall p : Z, is_u32 ((fun _ => 0) p)) by (intros p; cbv beta; lia).
  apply (map_main_runs n dom s i' _ page w out (fun _ => 0)); [done|done|done| |].
  - intros m o Hp. by apply (page_at_mapped i Hg) in Hp as [Hl _].
  - fold i. intros w1 [Hc _]. apply (kernel_va_coherent i (fun _ => 0) Hg Hz0); [done|apply u32_range].
Qed.

(** [map-symbol] likewise shows the page of a symbol of the System.map, and
    nothing when the map does not have it. *)
Theorem map_symbol_linux n argv1 symbol s i' w out
    (dom := u32 (atoi argv1)) (i := vm_opened s i')
    (page := match map_find (vm_rows s) symbol with
             | Some a => page_at i PROT_READ (kv2p i a)
             | None => (None, 0)
             end) :
  fresh (zero_cache w) -> vm_ok dom XA_FAILHARD s i' -> 4096 <= vm_init_task s ->
  symbol <> [] -> Forall (fun c => c <> 0) symbol -> (length symbol < MAX_SYM_LEN)%nat ->
  (forall a, map_find (vm_rows s) symbol = Some a -> 4096 <= a) ->
  runs (map_symbol_main n argv1 symbol) (Session w out)
    (shown w out (match page.1 with Some _ => offset_line page.2 | None => [] end) page.1 []).
Proof.
  intros Hf Hok Hz Hne Hnn Hlen Hza.
  pose proof (vm_opened_spec _ _ _ _ Hok) as (Hg & Ho & _ & Hsm). fold i in Hg, Ho, Hsm.
  assert (Hz0 : forall p : Z, is_u32 ((fun _ => 0) p)) by (intros p; cbv beta; lia).
  apply (map_main_runs n dom s i' _ page w out (fun _ => 0)); [done|done|done| |].
  - intros m o Hp. unfold page in Hp. destruct (map_find (vm_rows s) symbol) as [a|]; [|done].
    by apply (page_at_mapped i Hg) in Hp as [Hl _].
  - fold i. intros w1 [Hc Hs]. eapply kernel_sym_linux; [by apply Hc|exact Ho|].
    destruct Hsm as (Hs1 & Hs2 & Hs3 & Hs4 & _). eapply runs_mono.
    + apply (linux_symbol_cached i (fun _ => 0) (c_sysmap (vm_entry s)) (vm_rows s) Hg Hz0 symbol);
        [split; [done|by apply Hs]|by split_and!|done|done|done].
    + by intros r w2 (-> & [Hc2 _] & Hl2).
Qed.

(** The memory descriptor of a process. *)
Definition taskaddr_of (i : xa_instance) (l : list (mapping * Z)) (p : Z) : option xa_linux_taskaddr :=
  t ← find_task (l_tasks_offset (os_linux i)) (l_pid_offset (os_linux i)) p l;
  match page_at i PROT_READ (kv2p i (mm_of i t)) with
  | (Some m, o) => Some (taskaddr_at m (o + l_addr_offset (os_linux i)))
  | (None, _) => None
  end.

(** C36: [process-data] on a Linux domain, fully virtualised or paravirtual, from
    the command line to the exit: it prints the eleven addresses of the process's memory
    descriptor and a dump of the page that the process's own page tables map
    at the start of its code, from which every byte can be read back.  It
    prints nothing when there is no such process and no dump when the code
    has no page; it returns 0 with the caches freed and no page left mapped. *)
Theorem process_data_linux n argv1 argv2 s i' l w out
    (dom := u32 (atoi argv1)) (p := atoi argv2) (i := vm_opened s i') :
  fresh (zero_cache w) -> vm_ok dom XA_FAILHARD s i' -> linux_guest i l -> (length l < n)%nat -> p <> 0 ->
  (forall t m o, find_task (l_tasks_offset (os_linux i)) (l_pid_offset (os_linux i)) p l = Some t ->
     page_at i PROT_READ (kv2p i (mm_of i t)) = (Some m, o) ->
     0 <= o + l_addr_offset (os_linux i) /\ o + l_addr_offset (os_linux i) + 44 <= 4096) ->
  runs (process_data_main n argv1 argv2) (Session w out) (fun r s' =>
    match taskaddr_of i l p with
    | None => shown w out [] None [] r s'
    | Some ta =>
        let page := page_at i PROT_READ (translate i (linux_pgd_of i l) p (start_code ta)) in
        shown w out (pid_line p ++ linux_printaddr ta) page.1
          (str "offset = 0x" ++ print_x page.2 ++ [10]) r s'
    end).
Proof.
  intros Hf Hok Hguest Hn Hp0 Hin.
  pose proof (vm_opened_spec _ _ _ _ Hok) as (Hg & Ho & _). fold i in Hg, Ho.
  pose proof (linux_pgd_of_u32 i l) as Hpgd.
  apply runs_bind, runs_lib. eapply runs_mono.
  { by apply (init_vm_runs n dom XA_FAILHARD s i' (linux_pgd_of i l)). }
  fold i. intros r w1 (-> & Hi & [Hc _] & Hl). change (XA_SUCCESS =? XA_FAILURE) with false. cbv iota.
  apply runs_bind, runs_lib, runs_gets. cbn [lib_state with_lib] in *. rewrite Hi, Ho.
  change (XA_OS_LINUX =? XA_OS_LINUX) with true. cbv iota.
  apply runs_bind, runs_lib.
  eapply (runs_mono _ _ (fun r w2 => r = taskaddr_of i l p /\ coherent i (linux_pgd_of i l) w2 /\
    live_maps w2 = live_maps w1)); [by apply (linux_get_taskaddr_runs i l Hguest n (atoi argv2))|].
  cbn [lib_state with_lib stdout]. intros r w2 (-> & Hc2 & Hl2). fold p.
  destruct (taskaddr_of i l p) as [ta|] eqn:Eta.
  2:{ eapply error_exit_runs; [exact Hc2|]. cbn [lib_state stdout with_lib].
      intros w3 Hf3 Hn1 Hn2 Hl3.
      split_and!; try done; cbn [lib_state stdout with_lib] in *; [lia|by rewrite app_nil_r]. }
  apply runs_bind, runs_printf, runs_bind, runs_printf. cbn [lib_state with_lib stdout]. cbv zeta.
  assert (Hu : is_u32 (start_code ta)).
  { unfold taskaddr_of in Eta. destruct (find_task _ _ p l) as [t|]; [|done]. cbn [mbind option_bind] in Eta.
    destruct (page_at i PROT_READ (kv2p i (mm_of i t))) as [[m|] o]; [|done]. injection Eta as <-.
    apply (le_combine_range (bytes m _ 4)), bytes_u8. }
  apply runs_bind, runs_lib. eapply runs_mono.
  { apply (access_va_coherent i (linux_pgd_of i l) Hg Hpgd); [exact Hc2|exact Hu|right; by apply api_provides_pgd]. }
  cbn [lib_state with_lib stdout]. intros r w3 (-> & Hc3 & Hl3).
  destruct (page_at i PROT_READ (translate i (linux_pgd_of i l) p (start_code ta))) as [[m|] o] eqn:Epg;
    cbn [fst snd] in *.
  - apply runs_bind. eapply (show_page_runs i); [exact Hg|by apply Hc3| |].
    { by apply (page_at_mapped i Hg) in Epg as [Hlen _]. }
    intros text Htext. apply runs_bind, runs_printf. cbn [lib_state stdout].
    eapply error_exit_runs; [exact Hc3|]. cbn [lib_state stdout with_lib].
    intros w4 Hf4 Hn1 Hn2 Hl4. split_and!; try done; cbn [lib_state stdout with_lib] in *; [lia|].
    exists text. split; [done|]. by rewrite <- !app_assoc.
  - eapply error_exit_runs; [exact Hc3|]. cbn [lib_state stdout with_lib].
    intros w4 Hf4 Hn1 Hn2 Hl4. split_and!; try done; cbn [lib_state stdout with_lib] in *; [lia|by rewrite <- app_assoc].
Qed.
End Programs.

(** *** Witnesses *)

#[local] Existing Instance vm_env.
#[local] Existing Instance vm_whole.
#[local] Existing Instance vm_xenstore.
#[local] Existing Instance vm_files.
#[local] Existing Instance vm_host.
#[local] Existing Instance sample_parser.

Lemma map_addr_linux_witness :
  runs (map_addr_main 0 (str "7") (str "c0006010")) (Session (guest_world lin) []) (fun r s' =>
    r = 0 /\ live_maps (lib_state s') = 0 /\
    exists text, read_dump text = bytes (vm_frame 0x6010) 0 4096 /\
      stdout s' = str "offset = 0x00000010" ++ [10] ++ text).
Proof.
  eapply runs_mono.
  - apply (map_addr_linux 0 (str "7") (str "c0006010") sample_vm (sample_vm_instance XA_FAILHARD)).
    + apply fresh_guest_zero.
    + exact (sample_vm_ok XA_FAILHARD).
  - change (u32 (strtoul16 (str "c0006010"))) with 0xC0006010.
    rewrite (vm_page_at PROT_READ 0xC0006010 0x6010) by (vm_compute; reflexivity).
    intros r s' (-> & _ & _ & _ & Hl & text & Ht & Ho). split; [done|]. split; [exact Hl|].
    exists text. split; [exact Ht|]. rewrite Ho. by rewrite app_nil_r.
Defined.

Lemma map_symbol_linux_witness :
  runs (map_symbol_main 0 (str "7") (str "modules")) (Session (guest_world lin) []) (fun r s' =>
    r = 0 /\ live_maps (lib_state s') = 0 /\
    exists text, read_dump text = bytes (vm_frame 0x9020) 0 4096 /\
      stdout s' = str "offset = 0x00000020" ++ [10] ++ text).
Proof.
  eapply runs_mono.
  - apply (map_symbol_linux 0 (str "7") (str "modules") sample_vm (sample_vm_instance XA_FAILHARD)).
    + apply fresh_guest_zero.
    + exact (sample_vm_ok XA_FAILHARD).
    + vm_compute. discriminate.
    + discriminate.
    + repeat constructor; discriminate.
    + vm_compute. lia.
    + intros a. change (map_find (vm_rows sample_vm) (str "modules")) with (Some 0xC0009020).
      intros [= <-]. vm_compute. discriminate.
  - change (map_find (vm_rows sample_vm) (str "modules")) with (Some 0xC0009020). cbv iota.
    rewrite (vm_page_at PROT_READ 0xC0009020 0x9020) by (vm_compute; reflexivity).
    intros r s' (-> & _ & _ & _ & Hl & text & Ht & Ho). split; [done|]. split; [exact Hl|].
    exists text. split; [exact Ht|]. rewrite Ho. by rewrite app_nil_r.
Defined.

Abbreviation vm_tasks := [vm_task 0x6010; vm_task 0x7010; vm_task 0x8010].

Lemma vm_guest : linux_guest fedora vm_tasks.
Proof.
  split.
  - by split.
  - assert (init_task fedora = next_of (vm_task 0x5010)) as -> by (vm_compute; reflexivity).
    apply (ring_tasks fedora 16 24 _ _ _ vm_ring).
  - apply Forall_cons_2; [vm_compute; split; discriminate|].
    apply Forall_cons_2; [vm_compute; split; discriminate|].
    apply Forall_cons_2; [vm_compute; split; discriminate|constructor].
  - apply Forall_cons_2; [vm_compute; discriminate|].
    apply Forall_cons_2; [vm_compute; discriminate|].
    apply Forall_cons_2; [vm_compute; discriminate|constructor].
Qed.

Lemma vm_find_42 : find_task 16 24 42 vm_tasks = Some (vm_task 0x8010).
Proof.
  unfold find_task.
  assert ((pid_of 16 24 (vm_task 0x6010) =? 42) = false) as -> by (vm_compute; reflexivity).
  assert ((pid_of 16 24 (vm_task 0x7010) =? 42) = false) as -> by (vm_compute; reflexivity).
  by assert ((pid_of 16 24 (vm_task 0x8010) =? 42) = true) as -> by (vm_compute; reflexivity).
Qed.

Lemma vm_mm_page :
  page_at fedora PROT_READ (kv2p fedora (mm_of fedora (vm_task 0x8010))) = (Some (vm_frame 0xC000), 0).
Proof.
  assert (mm_of fedora (vm_task 0x8010) = 0xC000C000) as -> by (vm_compute; reflexivity).
  by rewrite (vm_page_at PROT_READ 0xC000C000 0xC000) by (vm_compute; reflexivity).
Qed.

Lemma fedora_offsets :
  l_tasks_offset (os_linux fedora) = 16 /\ l_pid_offset (os_linux fedora) = 24 /\
  l_addr_offset (os_linux fedora) = 128.
Proof. vm_compute. done. Qed.

Lemma vm_taskaddr : taskaddr_of fedora vm_tasks 42 = Some (taskaddr_at (vm_frame 0xC000) 128).
Proof.
  destruct fedora_offsets as (H1 & H2 & H3). unfold taskaddr_of. rewrite H1, H2, H3, vm_find_42.
  cbn [mbind option_bind]. rewrite vm_mm_page. reflexivity.
Qed.

Lemma vm_pgd_42 : linux_pgd_of fedora vm_tasks 42 = 0xD000.
Proof.
  destruct fedora_offsets as (H1 & H2 & _). unfold linux_pgd_of. rewrite H1, H2, vm_find_42.
  vm_compute. reflexivity.
Qed.

Lemma process_data_linux_witness :
  runs (process_data_main 4 (str "7") (str "42")) (Session (guest_world lin) []) (fun r s' =>
    r = 0 /\ live_maps (lib_state s') = 0 /\
    exists text, read_dump text = bytes (vm_frame 0xF000) 0 4096 /\
      stdout s' = pid_line 42 ++ linux_printaddr (Taskaddr 0x08048000 0x08049000 0 0 0 0 0 0 0 0 0) ++
                  text ++ str "offset = 0x0" ++ [10]).
Proof.
  eapply runs_mono.
  - apply (process_data_linux 4 (str "7") (str "42") sample_vm (sample_vm_instance XA_FAILHARD) vm_tasks).
    + apply fresh_guest_zero.
    + exact (sample_vm_ok XA_FAILHARD).
    + exact vm_guest.
    + simpl. lia.
    + discriminate.
    + destruct fedora_offsets as (H1 & H2 & H3). intros t m o. rewrite H1, H2, H3.
      change (atoi (str "42")) with 42. rewrite vm_find_42. intros [= <-]. rewrite vm_mm_page. intros [= <- <-]. vm_compute. by split.
  - change (atoi (str "42")) with 42. rewrite vm_taskaddr. cbv beta iota zeta.
    assert (Hta : taskaddr_at (vm_frame 0xC000) 128 = Taskaddr 0x08048000 0x08049000 0 0 0 0 0 0 0 0 0)
      by (vm_compute; reflexivity).
    rewrite Hta. cbn [start_code].
    assert (Htr : translate fedora (linux_pgd_of fedora vm_tasks) 42 0x08048000 = 0xF000).
    { unfold translate. cbn [Z.eqb].
      rewrite vm_pgd_42.
      vm_compute. reflexivity. }
    rewrite Htr. intros r s' (-> & _ & _ & _ & Hl & text & Ht & Ho).
    split; [done|]. split; [exact Hl|]. exists text. split; [exact Ht|]. rewrite Ho. by rewrite <- app_assoc.
Defined.
