(* ===== verification/PyXa.v ===== *)
(** * The Python extension

    Models tools/pyxa/pyxamodule.c: a Python object with a XenAccess instance
    and the page that was read last.  What the interpreter supplies (parsing
    of the arguments, the memory an object is made in) is class [PythonEnv];
    the object's methods are reached by name through the method table.  The
    abstract object of the end of the file has no state: every answer is a
    function of the instance, and the module refines it when the memory that
    an object is made in happens to be zero. *)

From Stdlib Require Import String.
From S2P Require Import Prelude CStr Dll XaTypes XaMap XaPhys Guest PageTable XaCache XaAccess Symbols.
From S2P Require Import XaStore ProcList Linux SymAccess WindowsPe Windows XaApi Config XaCore XaVm XaWin XaDomain.

(** What [memory] holds: NULL, a mapped page, or what was in the memory the
    object was made in. *)
Inductive pointer := Null | Wild | Page (m : mapping).

Inductive exception := TypeError | ValueError | AttributeError.

(** What a call answers: [NULL] with an exception set, or an object. *)
Inductive pyobject :=
| Raise (e : exception)
| PyInstance
| PyString (s : list Z)
| PyInt (z : Z)
| PyBool (b : bool).

(** - [args]: argument tuples;
    - [PyArg_I a]: the value the format "I" takes out of [a] (it does not check
      for overflow);
    - [PyArg_empty a]: whether the empty format accepts [a];
    - [PyObject_NEW]: whether the bytes of [memory] in a new object happen to
      be zero, which [PyObject_NEW] does not promise; [None] when there is no
      room for the object. *)
Class PythonEnv := {
  args : Type;
  PyArg_I : args -> option Z;
  PyArg_empty : args -> bool;
  PyObject_NEW : option bool;
  PyArg_I_range a z : PyArg_I a = Some z -> is_u32 z }.

(** [xai] is the library's state with the object's instance in it, [objects]
    counts the objects that were made and not deleted. *)
Record pyxa := Pyxa { xai : world; memory : pointer; objects : Z }.

Definition with_xai (w : world) (o : pyxa) : pyxa := Pyxa w (memory o) (objects o).
Definition with_memory (p : pointer) (o : pyxa) : pyxa := Pyxa (xai o) p (objects o).
Definition with_objects (k : Z) (o : pyxa) : pyxa := Pyxa (xai o) (memory o) k.

Definition PAGE_SIZE : Z := 4096.

Section Model.
Context {E : XenEnv} {X : StoreEnv} {F : FileEnv} {P : ConfigParser} {H : HostEnv} {Py : PythonEnv}.

(** A library call. *)
Definition pyxai {A} (m : M world A) : M pyxa A := zoom xai with_xai m.

(** [if(pyxamem(self)) munmap(pyxamem(self), PAGE_SIZE);] *)
Definition unmap_memory : M pyxa unit :=
  p ← gets memory;
  match p with
  | Null => mret tt
  | Wild => fault
  | Page _ => pyxai munmap
  end.

(** [sprintf] into [char buf[50]] *)
Definition sprintf_50 (s : cstr) : M pyxa cstr := _ ← assert_m (length s <? 50)%nat; mret s.

(** The object is made before the arguments are parsed, and not deleted when
    the call fails. *)
Definition pyxa_instance_new (n : nat) (a : args) : M pyxa pyobject :=
  _ ← (match PyObject_NEW with
       | Some zero => modify (fun o =>
           with_objects (objects o + 1) (with_memory (if zero then Null else Wild) o))
       | None => mret tt
       end : M pyxa unit);
  match PyArg_I a with
  | None => mret (Raise TypeError)
  | Some dom =>
      _ ← of_option PyObject_NEW;
      r ← pyxai (xa_init_vm_id_strict n dom);
      if r =? XA_FAILURE then mret (Raise ValueError) else mret PyInstance
  end.

Definition pyxa_instance_dealloc : M pyxa unit :=
  _ ← pyxai xa_destroy;
  _ ← unmap_memory;
  modify (fun o => with_objects (objects o - 1) o).

Definition pyxa_read (a : args) : M pyxa pyobject :=
  match PyArg_I a with
  | None => mret (Raise TypeError)
  | Some pfn =>
      _ ← unmap_memory;
      r ← pyxai (xa_access_pa pfn PROT_READ);
      let '(m, offset) := r in
      _ ← modify (with_memory (match m with Some m => Page m | None => Null end));
      match m with
      | None => mret (Raise ValueError)
      | Some m =>
          _ ← assert_m ((0 <=? offset) && (offset <=? PAGE_SIZE) && (PAGE_SIZE <=? m_len m));
          mret (PyString (bytes m offset (Z.to_nat (PAGE_SIZE - offset))))
      end
  end.

(** A method without arguments that answers a field of the instance. *)
Definition no_args (a : args) (f : xa_instance -> Z) : M pyxa pyobject :=
  if PyArg_empty a then i ← pyxai (gets inst); mret (PyInt (f i)) else mret (Raise TypeError).

Definition pyxa_get_cr3 (a : args) : M pyxa pyobject :=
  no_args a (fun i => u32 (kpgd i - page_offset i)).
Definition pyxa_get_domain_id (a : args) : M pyxa pyobject :=
  no_args a (fun i => domain_id (m_xen i)).
Definition pyxa_get_size (a : args) : M pyxa pyobject :=
  no_args a (fun i => xen_size (m_xen i)).

(** These two do not look at their arguments. *)
Definition pyxa_is_pae (a : args) : M pyxa pyobject :=
  i ← pyxai (gets inst); mret (PyBool (negb (pae i =? 0))).
Definition pyxa_is_pse (a : args) : M pyxa pyobject :=
  i ← pyxai (gets inst); mret (PyBool (negb (pse i =? 0))).

Definition pyxa_instance_methods : list (cstr * (args -> M pyxa pyobject)) :=
  [(str "read", pyxa_read); (str "get_cr3", pyxa_get_cr3);
   (str "get_domain_id", pyxa_get_domain_id); (str "get_size", pyxa_get_size);
   (str "is_pae", pyxa_is_pae); (str "is_pse", pyxa_is_pse)].

(** An attribute: a method bound to the object, or the list of the methods'
    names, which cannot be called. *)
Inductive attribute := Bound (f : args -> M pyxa pyobject) | Names (names : list cstr).

(** The first entry of the table with the name. *)
Fixpoint find_entry (table : list (cstr * (args -> M pyxa pyobject))) (attrname : cstr)
  : option attribute :=
  match table with
  | [] => None
  | (name, f) :: table' => if decide (attrname = name) then Some (Bound f) else find_entry table' attrname
  end.

(** [Py_FindMethod] answers [__methods__] itself; [__doc__] too for a type with
    a doc string, which this one has not. *)
Definition Py_FindMethod (table : list (cstr * (args -> M pyxa pyobject))) (attrname : cstr)
  : option attribute :=
  if decide (attrname = str "__methods__") then Some (Names table.*1) else find_entry table attrname.

Definition pyxa_instance_getattr (attrname : cstr) : option attribute :=
  Py_FindMethod pyxa_instance_methods attrname.

(** [o.attrname(a)] *)
Definition call_method (attrname : cstr) (a : args) : M pyxa pyobject :=
  match pyxa_instance_getattr attrname with
  | Some (Bound f) => f a
  | Some (Names _) => mret (Raise TypeError)
  | None => mret (Raise AttributeError)
  end.

Definition pyxa_instance_repr : M pyxa pyobject :=
  i ← pyxai (gets inst);
  buf ← sprintf_50 (str "<pyxa_instance for domain id " ++ dec (s32 (domain_id (m_xen i))) ++ str ">");
  mret (PyString buf).

(** What a script does with an object between making and dropping it. *)
Inductive call := Method (attrname : cstr) (a : args) | Repr.

Definition perform (c : call) : M pyxa pyobject :=
  match c with
  | Method attrname a => call_method attrname a
  | Repr => pyxa_instance_repr
  end.

Fixpoint perform_all (cs : list call) : M pyxa (list pyobject) :=
  match cs with
  | [] => mret []
  | c :: cs' => r ← perform c; rs ← perform_all cs'; mret (r :: rs)
  end.

Definition script (n : nat) (a : args) (cs : list call) : M pyxa (list pyobject) :=
  r ← pyxa_instance_new n a;
  match r with
  | PyInstance => rs ← perform_all cs; _ ← pyxa_instance_dealloc; mret (r :: rs)
  | _ => mret [r]
  end.
End Model.

(** ** The abstract object *)

Section Spec.
Context {E : XenEnv} {Py : PythonEnv}.
Variable i : xa_instance.

(** The rest of the page at a physical address. *)
Definition rest_of_page (pa : Z) : pyobject :=
  match phys_frame i PROT_READ (pa / 4096) with
  | Some m => PyString (bytes m (pa mod 4096) (Z.to_nat (4096 - pa mod 4096)))
  | None => Raise ValueError
  end.

Definition number (a : args) (z : Z) : pyobject := if PyArg_empty a then PyInt z else Raise TypeError.

Definition method_answer (attrname : cstr) (a : args) : pyobject :=
  if decide (attrname = str "read") then
    match PyArg_I a with Some pa => rest_of_page pa | None => Raise TypeError end
  else if decide (attrname = str "get_cr3") then number a (u32 (kpgd i - page_offset i))
  else if decide (attrname = str "get_domain_id") then number a (domain_id (m_xen i))
  else if decide (attrname = str "get_size") then number a (xen_size (m_xen i))
  else if decide (attrname = str "is_pae") then PyBool (negb (pae i =? 0))
  else if decide (attrname = str "is_pse") then PyBool (negb (pse i =? 0))
  else if decide (attrname = str "__methods__") then Raise TypeError
  else Raise AttributeError.

(** The argument of a read is an address of the guest: of a paravirtual one,
    the table has its frame. *)
Definition call_in_guest (c : call) : Prop :=
  match c with
  | Method attrname a =>
      attrname = str "read" -> forall pa, PyArg_I a = Some pa -> in_table i (pa / 4096)
  | Repr => True
  end.

Definition answer (c : call) : pyobject :=
  match c with
  | Method attrname a => method_answer attrname a
  | Repr => PyString (str "<pyxa_instance for domain id " ++ dec (s32 (domain_id (m_xen i))) ++ str ">")
  end.
End Spec.

(** ** The implementation of it *)

Lemma length_dec_digits k n : (length (dec_digits k n) <= k)%nat.
Proof.
  revert n. induction k as [|k IH]; intros n; [done|]. cbn [dec_digits]. rewrite length_app.
  destruct (n <? 10); cbn [length]; [lia|]. specialize (IH (n / 10)). lia.
Qed.

Lemma length_dec n : (length (dec n) <= 12)%nat.
Proof.
  unfold dec. pose proof (length_dec_digits 11 (- n)). pose proof (length_dec_digits 11 n).
  destruct (n <? 0); cbn [length]; lia.
Qed.

Section Refine.
Context {E : XenEnv} {W : WholePages} {X : StoreEnv} {F : FileEnv} {P : ConfigParser} {H : HostEnv}
  {Py : PythonEnv}.
Variables (i : xa_instance) (pgd_of : Z -> Z).
Hypothesis Hgeo : geometry i.

(** Pages the object holds. *)
Definition held (o : pyxa) : Z := match memory o with Page _ => 1 | _ => 0 end.

(** The state of an object between two calls: its instance is [i], [memory] is
    NULL or the one page that is mapped on top of [base] and the table of a
    paravirtual domain, and nothing it says depends on which. *)
Record object_ok (base k : Z) (st : string_heap) (o : pyxa) : Prop := {
  ob_coherent : coherent i pgd_of (xai o);
  ob_memory : memory o <> Wild;
  ob_maps : live_maps (xai o) = base + tables i + held o;
  ob_objects : objects o = k;
  ob_strings : strings (xai o) = st }.

Lemma runs_pyxai {A} (m : M world A) o (Q : A -> pyxa -> Prop) :
  runs m (xai o) (fun a w => Q a (with_xai w o)) -> runs (pyxai m) o Q.
Proof. apply runs_zoom. Qed.

Lemma unmap_memory_runs o (Q : unit -> pyxa -> Prop) :
  memory o <> Wild ->
  Q tt (with_xai (with_live_maps (live_maps (xai o) - held o) (xai o)) o) -> runs unmap_memory o Q.
Proof.
  intros Hm HQ. apply runs_bind, runs_gets. destruct o as [w [| |m] k]; [|done|].
  - apply runs_ret. cbn [held memory xai] in HQ. rewrite Z.sub_0_r in HQ. by destruct w.
  - by apply runs_pyxai, runs_modify.
Qed.

Lemma unmap_wild o : memory o = Wild -> unmap_memory o = Fault.
Proof. intros Hm. unfold unmap_memory. erewrite bind_eq by done. by rewrite Hm. Qed.

Lemma read_runs a base k st o :
  object_ok base k st o -> call_in_guest i (Method (str "read") a) ->
  runs (pyxa_read a) o (fun r o' => r = method_answer i (str "read") a /\ object_ok base k st o').
Proof.
  intros Ho Hin. unfold method_answer. rewrite decide_True by done. unfold pyxa_read.
  destruct (PyArg_I a) as [pa|] eqn:Ea; [|by apply runs_ret].
  specialize (Hin eq_refl pa Ea). apply PyArg_I_range in Ea. destruct Ho as [Hc Hm Hl Hk Hst]. pose proof Hc as [Hi _].
  apply runs_bind, unmap_memory_runs; [done|]. apply runs_bind, runs_pyxai.
  eapply runs_eq; [apply xa_access_pa_phys; cbn; rewrite ?Hi; auto|]. cbn [xai with_xai inst with_live_maps].
  rewrite Hi. unfold rest_of_page. apply runs_bind, runs_modify.
  pose proof (Z.mod_pos_bound pa 4096 ltac:(lia)) as Hmod.
  assert (Hok : object_ok base k st
    (with_memory (match phys_frame i PROT_READ (pa / 4096) with Some m => Page m | None => Null end)
       (with_xai (opened (phys_frame i PROT_READ (pa / 4096))
          (with_live_maps (live_maps (xai o) - held o) (xai o))) o))).
  { split; [by destruct (phys_frame i PROT_READ (pa / 4096))|by destruct (phys_frame i PROT_READ (pa / 4096))| |done|
      by destruct (phys_frame i PROT_READ (pa / 4096))].
    cbn [xai with_memory with_xai]. rewrite live_maps_opened. cbn [live_maps with_live_maps]. rewrite Hl.
    destruct (phys_frame i PROT_READ (pa / 4096)); cbn [held memory with_memory]; lia. }
  destruct (phys_frame i PROT_READ (pa / 4096)) as [m|] eqn:Em; [|by apply runs_ret].
  apply runs_bind, runs_assert.
  { rewrite (phys_whole _ _ _ _ Hgeo Em). unfold PAGE_SIZE.
    rewrite (proj2 (Z.leb_le _ _)), (proj2 (Z.leb_le _ _)) by lia. done. }
  by apply runs_ret.
Qed.

Lemma instance_runs {A} (f : xa_instance -> M pyxa A) o (Q : A -> pyxa -> Prop) :
  inst (xai o) = i -> runs (f i) o Q -> runs (i0 ← pyxai (gets inst); f i0) o Q.
Proof. intros Hi HQ. apply runs_bind, runs_pyxai, runs_gets. rewrite Hi. by destruct o. Qed.

(** Everything but [read] and the destructor leaves the object as it is. *)
Lemma no_args_runs a f o :
  inst (xai o) = i -> runs (no_args a f) o (fun r o' => r = number a (f i) /\ o' = o).
Proof.
  intros Hi. unfold no_args, number. destruct (PyArg_empty a); [|by apply runs_ret].
  apply instance_runs; [done|]. by apply runs_ret.
Qed.

Lemma flag_runs f o :
  inst (xai o) = i ->
  runs (i0 ← pyxai (gets inst); mret (PyBool (negb (f i0 =? 0)))) o (fun r o' =>
    r = PyBool (negb (f i =? 0)) /\ o' = o).
Proof. intros Hi. apply instance_runs; [done|]. by apply runs_ret. Qed.

Lemma other_runs c o :
  inst (xai o) = i -> (forall a, c <> Method (str "read") a) ->
  runs (perform c) o (fun r o' => r = answer i c /\ o' = o).
Proof.
  intros Hi Hn. destruct c as [name a|]; cbn [perform answer].
  - assert (Hname : name <> str "read") by (intros ->; by apply (Hn a)).
    unfold call_method, pyxa_instance_getattr, method_answer, pyxa_instance_methods, Py_FindMethod.
    case_decide as Hms; [subst name; by apply runs_ret|]. cbn [find_entry].
    rewrite !(decide_False (P := name = str "read")) by done.
    repeat case_decide; [by apply no_args_runs..|by apply flag_runs|by apply flag_runs|by apply runs_ret].
  - apply instance_runs; [done|]. unfold sprintf_50. apply runs_bind, runs_bind, runs_assert.
    + apply Nat.ltb_lt. rewrite !length_app. pose proof (length_dec (s32 (domain_id (m_xen i)))).
      change (length (str "<pyxa_instance for domain id ")) with 29%nat.
      change (length (str ">")) with 1%nat. lia.
    + by apply runs_ret, runs_ret.
Qed.

(** Calls are reads or something else. *)
Lemma call_cases (c : call) : (exists a, c = Method (str "read") a) \/ forall a, c <> Method (str "read") a.
Proof.
  destruct c as [name a|]; [|by right]. destruct (decide (name = str "read")) as [->|Hn]; [left; by exists a|].
  right. intros a' [= E1 _]. by apply Hn.
Qed.

(** Every call answers what the abstract object answers. *)
Lemma perform_runs c base k st o :
  object_ok base k st o -> call_in_guest i c -> runs (perform c) o (fun r o' => r = answer i c /\ object_ok base k st o').
Proof.
  intros Ho Hin. destruct (call_cases c) as [[a ->]|Hn]; [by apply read_runs|].
  eapply runs_mono; [apply other_runs; [by apply Ho|done]|]. by intros r o' [-> ->].
Qed.

Lemma perform_all_runs cs base k st : Forall (call_in_guest i) cs -> forall o,
  object_ok base k st o ->
  runs (perform_all cs) o (fun rs o' => rs = answer i <$> cs /\ object_ok base k st o').
Proof.
  induction 1 as [|c cs Hin _ IH]; intros o Ho; [by apply runs_ret|].
  apply runs_bind. eapply runs_mono; [by apply perform_runs|]. intros r o1 (-> & Ho1).
  apply runs_bind. eapply runs_mono; [by apply IH|]. intros rs o2 (-> & Ho2). by apply runs_ret.
Qed.

Lemma dealloc_runs base k st o :
  object_ok base k st o ->
  runs pyxa_instance_dealloc o (fun _ o' =>
    fresh (xai o') /\ nodes (cache (xai o')) = ∅ /\ nodes (pid_cache (xai o')) = ∅ /\
    live_maps (xai o') = base /\ objects o' = k - 1 /\ strings (xai o') = st).
Proof.
  intros [(Hi & (lc & Hc & _) & (lp & Hp & _)) Hm Hl Hk <-].
  apply runs_bind, runs_pyxai. eapply runs_mono; [by eapply destroy_runs|].
  rewrite Hi. fold (tables i). intros r w (_ & Hf & Hn1 & Hn2 & _ & Hl' & Hst).
  apply runs_bind, unmap_memory_runs; [done|]. apply runs_modify.
  cbn [xai with_xai with_objects objects memory live_maps with_live_maps held] in *.
  change (held (with_xai w o)) with (held o).
  split_and!; [by destruct Hf|done|done|rewrite Hl', Hl; lia|lia|exact Hst].
Qed.
End Refine.

(** ** From making the object to dropping it *)

Section Script.
Context {E : XenEnv} {W : WholePages} {X : StoreEnv} {F : FileEnv} {P : ConfigParser} {H : HostEnv}
  {Py : PythonEnv}.

Lemma new_runs n a i w p0 k zero (dom := default 0 (PyArg_I a)) :
  fresh (zero_cache w) -> Opens n dom XA_FAILHARD i -> is_Some (PyArg_I a) -> PyObject_NEW = Some zero ->
  runs (pyxa_instance_new n a) (Pyxa w p0 k) (fun r o =>
    r = PyInstance /\ coherent i (fun _ => 0) (xai o) /\ memory o = (if zero then Null else Wild) /\
    live_maps (xai o) = live_maps w + tables i /\ objects o = k + 1 /\
    exists w1, xa_init_vm_id_strict n dom w = Ret (XA_SUCCESS, w1) /\ strings (xai o) = strings w1).
Proof.
  intros Hf Hok [d Hd] Hp. subst dom. rewrite Hd in Hok. cbn [default] in Hok.
  unfold pyxa_instance_new. rewrite Hp, Hd. apply runs_bind, runs_modify.
  eapply runs_bind, runs_of_option; [done|]. apply runs_bind, runs_pyxai.
  destruct Hok as [_ _ Hopen]. destruct (Hopen w Hf) as (r & w1 & Hr & -> & Hc & Hl).
  eapply runs_eq; [exact Hr|]. change (XA_SUCCESS =? XA_FAILURE) with false. cbv iota.
  apply runs_ret. split_and!; [done..|]. by exists w1.
Qed.

(** A read unmaps the wild pointer; the other calls do not look at it. *)
Lemma perform_wild i c o :
  inst (xai o) = i -> memory o = Wild ->
  perform c o = Fault \/ exists r, perform c o = Ret (r, o).
Proof.
  intros Hi Hm. destruct (call_cases c) as [[a ->]|Hn].
  - change (perform (Method (str "read") a)) with (pyxa_read a). unfold pyxa_read.
    destruct (PyArg_I a); [left|right; by eexists].
    unfold mbind, M_bind. by rewrite unmap_wild.
  - destruct (other_runs i c o Hi Hn) as (r & o' & E1 & _ & ->). right. by exists r.
Qed.

Lemma perform_all_wild i cs o :
  inst (xai o) = i -> memory o = Wild ->
  perform_all cs o = Fault \/ exists rs, perform_all cs o = Ret (rs, o).
Proof.
  intros Hi Hm. induction cs as [|c cs IH]; [right; by eexists|]. cbn [perform_all].
  destruct (perform_wild i c o Hi Hm) as [E1|(r & E1)].
  - left. unfold mbind, M_bind. by rewrite E1.
  - erewrite bind_eq by exact E1. destruct IH as [E2|(rs & E2)].
    + left. unfold mbind, M_bind. by rewrite E2.
    + right. erewrite bind_eq by exact E2. by eexists.
Qed.

Lemma dealloc_wild i o :
  coherent i (fun _ => 0) (xai o) -> memory o = Wild -> pyxa_instance_dealloc o = Fault.
Proof.
  intros (Hi & (lc & Hc & _) & (lp & Hp & _)) Hm.
  destruct (destroy_runs _ lc lp Hc Hp) as (r1 & w1 & E1 & _).
  unfold pyxa_instance_dealloc. erewrite bind_eq by (unfold pyxai, zoom; by rewrite E1).
  unfold mbind, M_bind. by rewrite unmap_wild.
Qed.

(** [PyObject_NEW] does not clear the object and the constructor does not
    set [memory], so when the memory is not zero by chance every script ends in
    undefined behaviour: the first read, or at the latest dropping the object,
    unmaps whatever the uninitialised pointer says. *)
Theorem script_wild n a cs i w p0 k (dom := default 0 (PyArg_I a)) :
  fresh (zero_cache w) -> domain_at n dom XA_FAILHARD i -> is_Some (PyArg_I a) ->
  PyObject_NEW = Some false ->
  script n a cs (Pyxa w p0 k) = Fault.
Proof.
  intros Hf Hok%domain_opens Ha Hp.
  destruct (new_runs n a i w p0 k false Hf Hok Ha Hp) as (r & o & E1 & -> & Hc & Hm & _). cbv iota in Hm.
  unfold script. erewrite bind_eq by exact E1. cbv iota.
  destruct (perform_all_wild _ cs o (proj1 Hc) Hm) as [E2|(rs & E2)].
  - unfold mbind, M_bind. by rewrite E2.
  - erewrite bind_eq by exact E2. unfold mbind, M_bind. by rewrite (dealloc_wild _ _ Hc Hm).
Qed.

(** Without room for the object the constructor opens the domain through the
    null pointer. *)
Lemma script_no_room n a cs o : is_Some (PyArg_I a) -> PyObject_NEW = None -> script n a cs o = Fault.
Proof.
  intros [d Hd] Hp. unfold script, pyxa_instance_new. rewrite Hp, Hd. unfold mbind, M_bind. by destruct o.
Qed.

(** C12: a script that makes an object for a domain, a Linux one of either kind
    or a Windows one, calls methods of it in any order and drops it.  When the
    new object's [memory] happens to be zero, every call answers what the
    abstract object answers, a function of the instance and the domain's memory
    alone; afterwards the object is deleted, the caches have no node and no page
    stays mapped, but every string that opening the domain copied stays
    allocated.  Otherwise ([PyObject_NEW] does not clear the object and the
    constructor does not set [memory]) every script ends in undefined behaviour,
    as it does when there is no room for the object.  The reads must be inside
    the table of a paravirtual domain. *)
Theorem script_correct n a cs i w p0 k (dom := default 0 (PyArg_I a)) :
  fresh (zero_cache w) -> domain_at n dom XA_FAILHARD i -> is_Some (PyArg_I a) ->
  Forall (call_in_guest i) cs ->
  match PyObject_NEW with
  | Some true =>
      runs (script n a cs) (Pyxa w p0 k) (fun rs o =>
        rs = PyInstance :: (answer i <$> cs) /\ objects o = k /\ fresh (xai o) /\
        nodes (cache (xai o)) = ∅ /\ nodes (pid_cache (xai o)) = ∅ /\ live_maps (xai o) = live_maps w /\
        exists w1, xa_init_vm_id_strict n dom w = Ret (XA_SUCCESS, w1) /\ strings (xai o) = strings w1)
  | _ => script n a cs (Pyxa w p0 k) = Fault
  end.
Proof.
  intros Hf Hok Ha Hin. destruct PyObject_NEW as [[]|] eqn:Hp; [|by eapply script_wild|by apply script_no_room].
  apply domain_opens in Hok.
  apply runs_bind. eapply runs_mono; [by apply (new_runs n a i w p0 k true)|].
  destruct Hok as [Hg _ _].
  intros r o (-> & Hc & Hm & Hl & Hk & w1 & Hw1 & Hst). apply runs_bind. eapply runs_mono.
  { apply (perform_all_runs i (fun _ => 0) Hg cs (live_maps w) (k + 1) (strings w1) Hin).
    split; [done|by rewrite Hm|unfold held; rewrite Hm; lia|done|done]. }
  intros rs o2 (-> & Ho2). apply runs_bind. eapply runs_mono; [by eapply dealloc_runs|].
  intros _ o3 (Hf3 & Hn1 & Hn2 & Hl3 & Hk3 & Hs3). apply runs_ret. split_and!; [done|lia|done..|].
  by exists w1.
Qed.

(** The argument of [read] is not checked: a frame number that the table of a
    paravirtual domain does not have makes the interpreter read past it. *)
Theorem read_past_table i t a pa o :
  inst (xai o) = i -> geometry i -> mode i = XA_MODE_XEN -> hvm i = 0 ->
  live_pfn_to_mfn_table (m_xen i) = Some t -> memory o <> Wild ->
  PyArg_I a = Some pa -> m_len t < 4 * (pa / 4096) + 4 ->
  perform (Method (str "read") a) o = Fault.
Proof.
  intros Hi Hg Hm Hh Ht Hw Ha Hl. change (pyxa_read a o = Fault). unfold pyxa_read. rewrite Ha.
  assert (Hu : runs unmap_memory o (fun _ o' => inst (xai o') = i)) by by apply unmap_memory_runs.
  destruct Hu as ([] & o1 & E1 & Hi1). erewrite bind_eq by exact E1.
  assert (Hpa : pyxai (xa_access_pa pa PROT_READ) o1 = Fault).
  { unfold pyxai, zoom. by rewrite (access_past_table pa PROT_READ (xai o1) t);
      rewrite ?Hi1; [..|by eapply PyArg_I_range|]. }
  unfold mbind, M_bind. by rewrite Hpa.
Qed.
End Script.

(** *** Witnesses *)

#[local] Existing Instance vm_env.
#[local] Existing Instance vm_whole.
#[local] Existing Instance vm_xenstore.
#[local] Existing Instance vm_files.
#[local] Existing Instance vm_host.
#[local] Existing Instance sample_parser.

(** Argument tuples of integers; the memory of a new object is zero or not. *)
Definition python (zero : bool) : PythonEnv.
Proof.
  refine {| args := list Z;
            PyArg_I a := match a with [z] => Some (u32 z) | _ => None end;
            PyArg_empty a := bool_decide (a = []);
            PyObject_NEW := Some zero |}.
  intros [|z [|]] z'; [done| |done]. intros [= <-]. apply u32_range.
Defined.

Definition method (name : cstr) (a : list Z) : @call (python true) := @Method (python true) name a.

Definition sample_calls : list (@call (python true)) :=
  [method (str "read") [0x6194]; method (str "get_size") []; method (str "get_cr3") [1];
   method (str "get_cr3") []; method (str "__methods__") []; method (str "zread") [0]; @Repr (python true)].

Lemma sample_hvm : hvm (vm_opened sample_vm (sample_vm_instance XA_FAILHARD)) <> 0.
Proof. vm_compute. discriminate. Qed.

Lemma sample_read :
  @answer vm_env (python true) (vm_opened sample_vm (sample_vm_instance XA_FAILHARD))
    (method (str "read") [0x6194]) = PyString (bytes (vm_frame 0x6000) 0x194 3692).
Proof.
  change (rest_of_page (vm_opened sample_vm (sample_vm_instance XA_FAILHARD)) 0x6194 =
          PyString (bytes (vm_frame 0x6000) 0x194 3692)).
  unfold rest_of_page. rewrite phys_flat by (first [by left; apply sample_hvm | discriminate]). reflexivity.
Qed.

Lemma sample_in_guest :
  Forall (@call_in_guest (python true) (vm_opened sample_vm (sample_vm_instance XA_FAILHARD))) sample_calls.
Proof.
  apply list.Forall_forall. intros [name a|] _; [|exact I]. intros _ pa _.
  apply in_table_flat. left. apply sample_hvm.
Qed.

Lemma script_correct_witness :
  runs (@script _ _ _ _ _ (python true) 0 [7] sample_calls) (Pyxa (guest_world lin) Null 0) (fun rs o =>
    live_maps (xai o) = 0 /\
    (exists page, rs !! 1%nat = Some (PyString page) /\ take 4 page = str "init" /\ length page = 3692%nat) /\
    drop 2 rs = [PyInt 0x100000; Raise TypeError; PyInt 0x1000; Raise TypeError; Raise AttributeError;
                 PyString (str "<pyxa_instance for domain id 7>")]).
Proof.
  eapply runs_mono.
  - apply (@script_correct _ _ _ _ _ _ (python true) 0 [7] sample_calls
             (vm_opened sample_vm (sample_vm_instance XA_FAILHARD)) (guest_world lin) Null 0).
    + apply fresh_guest_zero.
    + left. eexists _, _. split; [exact (sample_vm_ok XA_FAILHARD)|reflexivity].
    + by eexists.
    + exact sample_in_guest.
  - intros rs o (-> & _ & _ & _ & _ & -> & _). split; [reflexivity|]. split.
    + eexists. split; [exact (f_equal Some sample_read)|]. split; [vm_compute; reflexivity|apply length_bytes].
    + vm_compute. reflexivity.
Defined.

Lemma script_wild_witness :
  @script _ _ _ _ _ (python false) 0 [7] [] (Pyxa (guest_world lin) Null 0) = Fault.
Proof.
  apply (@script_wild _ _ _ _ _ _ (python false) 0 [7] []
           (vm_opened sample_vm (sample_vm_instance XA_FAILHARD))).
  - apply fresh_guest_zero.
  - left. eexists _, _. split; [exact (sample_vm_ok XA_FAILHARD)|reflexivity].
  - by eexists.
  - reflexivity.
Defined.
