(* ===== verification/Paravirtual.v ===== *)
(** * A paravirtual domain

    A Linux domain that is not fully virtualised, from the table that
    translates its frame numbers to the programs that are run on it: the
    theorems about opening, listing, dumping and scripting a domain, applied to
    a guest whose page tables hold machine addresses and whose frames lie in
    the machine in reverse order. *)

From Stdlib Require Import String.
From S2P Require Import Prelude CStr Dll XaTypes XaMap XaPhys Guest PageTable XaCache XaAccess Symbols.
From S2P Require Import XaStore ProcList Linux SymAccess WindowsPe Windows XaApi Config XaCore XaVm XaLax XaWin XaDomain.
From S2P Require Import Console ProcessList DumpMemory PyXa.

(** Domain 7, "fedora", with sixteen frames: frame [k] is machine frame
    [0x10F - k], except that frame 12 has none.  The page directory is in frame
    1, the page table in frame 2, the frame list list in frame 3, the frame list
    in frame 4, the pfn-to-mfn table in frame 9; [init_task] is in frame 5 and
    one process in frame 6. *)

Definition pv_machine (k : Z) : Z := 0x10F - k.

Definition pv_table : image :=
  (fun k => (4096 * pv_machine 9 + 4 * k, if k =? 12 then 0xFFFFFFFF else pv_machine k)) <$> seqZ 0 16.

Definition pv_pages : image :=
  (fun k => (4096 * pv_machine 2 + 4 * k, 4096 * pv_machine k + 7)) <$> seqZ 0 16.

Definition pv_image : image :=
  [(4096 * pv_machine 1, 0x10D067); (4096 * pv_machine 1 + 0xC00, 4096 * pv_machine 2 + 7);
   (4096 * pv_machine 3, pv_machine 4); (4096 * pv_machine 4, pv_machine 9);
   (4096 * pv_machine 5 + 16, 0xC0006010);
   (4096 * pv_machine 6 + 16, 0xC0005010); (4096 * pv_machine 6 + 24, 1)] ++
  put_str (4096 * pv_machine 6 + 0x194) (str "init") ++ pv_pages ++ pv_table.

Definition pv_page (f : Z) : mapping := Mapping 4096 (fun k => byte_at pv_image (4096 * f + k)).

(** Bytes of the frames [mfns], one after the other. *)
Definition pv_batch (mfns : list Z) : mapping :=
  Mapping (4096 * Z.of_nat (length mfns))
    (fun k => byte_at pv_image (4096 * nth (Z.to_nat (k / 4096)) mfns 0 + k mod 4096)).

Definition pv_ctrlreg (r : Z) : Z := if r =? 0 then 0x80000011 else if r =? 3 then 4096 * pv_machine 1 else 0.

#[local] Instance pv_env : XenEnv := {|
  xc_map_foreign_range _ _ mfn := Some (pv_page mfn);
  xc_map_foreign_batch _ _ mfns := Some (pv_batch mfns);
  xc_batch_result _ _ mfns := mfns;
  xc_vcpu_getcontext _ := Some pv_ctrlreg;
  xc_maximum_gpfn _ := 0xF;
  shinfo_max_pfn _ := 16;
  shinfo_frame_list_list _ := pv_machine 3;
  file_mmap _ _ _ := None;
  clock n := Z.of_nat n;
  indet := 0 |}.

#[local] Instance pv_whole : WholePages.
Proof. split; [by intros ???? [= <-]|by intros ???? [= <-]|done]. Defined.

(** No loader and no type: not fully virtualised. *)
Definition pv_store (kb : Z) : StoreEnv := {|
  xs_read path :=
    if decide (path = str "/local/domain/7/name") then Some (str "fedora")
    else if decide (path = str "/local/domain/7/vm") then Some (str "/vm/1234")
    else if decide (path = str "/vm/1234/image/kernel") then Some (str "/boot/vmlinuz-2.6.18-xenU")
    else if decide (path = str "/vm/1234/image/ostype") then Some (str "linux")
    else if decide (path = str "/local/domain/7/memory/target") then Some (dec_digits 10 kb)
    else None;
  xs_directory _ := [] |}.

#[local] Instance pv_xenstore : StoreEnv := pv_store 64.

#[local] Existing Instance vm_files.
#[local] Existing Instance vm_host.
#[local] Existing Instance sample_parser.

Definition pv_vm (kb : Z) : vm_setup :=
  VmSetup (DomainSetup 3 0x10 (str "fedora") (str "/vm/1234") 0 kb pv_ctrlreg [] sample_entry)
    sample_map 0xC0001000 0xC0005000 (pv_page (pv_machine 5)) 0.

Definition pv_table_page : mapping := pv_batch [pv_machine 9].

(** The instance with the directory and the table. *)
Definition pv_found (kb error_mode_ : Z) : xa_instance :=
  set_kpgd 0x10D067 (set_p2m_table pv_table_page 16 (set_kpgd 0x1000 (vm_before 7 error_mode_ (pv_vm kb)))).

Lemma pv_domain_ok kb :
  0 < kb < 4194304 ->
  @domain_ok pv_env (pv_store kb) vm_files sample_parser vm_host XA_OS_LINUX 7 (pv_vm kb).
Proof.
  intros Hkb. split; try reflexivity.
  - vm_compute. lia.
  - split; try reflexivity; [exact Hkb|vm_compute; lia..].
  - vm_compute. discriminate.
Qed.

Lemma pv_list : longs (pv_page (pv_machine 3)) 1 = [pv_machine 4].
Proof. vm_compute. reflexivity. Qed.

Lemma pv_list_list : longs (pv_batch [pv_machine 4]) 1 = [pv_machine 9].
Proof. vm_compute. reflexivity. Qed.

Lemma pv_p2m i :
  mode i = XA_MODE_XEN -> xen_version (m_xen i) <> XA_XENVER_3_1_0 ->
  p2m_table i = Some (pv_table_page, 16).
Proof.
  intros Hm Hv%Z.eqb_neq. unfold p2m_table, frame_of. rewrite Hm. cbn [Z.eqb XA_MODE_XEN].
  cbn [mbind option_bind xc_map_foreign_range pv_env].
  assert (Hs : forall s, p2m_size i s = 16) by (intros s; unfold p2m_size; by rewrite Hv).
  rewrite Hs. unfold table_from_list_list, table_from_list.
  change (Z.to_nat ((16 + fpp * fpp - 1) / (fpp * fpp))) with 1%nat.
  change (Z.to_nat ((16 + fpp - 1) / fpp)) with 1%nat.
  change (shinfo_frame_list_list _) with (pv_machine 3). rewrite pv_list.
  cbn [mbind option_bind xc_map_foreign_batch pv_env]. by rewrite pv_list_list.
Qed.

Abbreviation before kb error_mode_ := (vm_before 7 error_mode_ (pv_vm kb)).

Lemma pv_before_p2m kb error_mode_ : p2m_table (before kb error_mode_) = Some (pv_table_page, 16).
Proof. apply pv_p2m; [reflexivity|vm_compute; discriminate]. Qed.

(** Facts about an instance of this domain do not depend on its size. *)
Lemma pv_paravirtual kb error_mode_ : paravirtual (before kb error_mode_).
Proof.
  split; [by split|reflexivity|reflexivity|reflexivity|]. intros s _.
  assert (p2m_size (before kb error_mode_) s = 16) as -> by (vm_compute; reflexivity). lia.
Qed.

Lemma pv_mfn i f :
  mode i = XA_MODE_XEN -> hvm i = 0 -> live_pfn_to_mfn_table (m_xen i) = Some pv_table_page ->
  mfn_of i f = p2m_entry pv_table_page f.
Proof. intros Hm Hh Ht. unfold mfn_of. by rewrite Hm, Hh, Ht. Qed.

Lemma pv_frame_of i prot f mfn :
  mode i = XA_MODE_XEN -> hvm i = 0 -> live_pfn_to_mfn_table (m_xen i) = Some pv_table_page ->
  p2m_entry pv_table_page f = mfn -> mfn <> NULL_ULONG -> phys_frame i prot f = Some (pv_page mfn).
Proof.
  intros Hm Hh Ht He Hn%Z.eqb_neq. unfold phys_frame. rewrite pv_mfn, He, Hn by done.
  unfold frame_of. by rewrite Hm.
Qed.

Lemma pv_entry_1 : p2m_entry pv_table_page 1 = pv_machine 1.
Proof. vm_compute. reflexivity. Qed.

Lemma pv_first_word : le_combine (bytes (pv_page (pv_machine 1)) 0 4) = 0x10D067.
Proof. vm_compute. reflexivity. Qed.

Lemma pv_find_directory i :
  mode i = XA_MODE_XEN -> hvm i = 0 -> xen_version (m_xen i) <> XA_XENVER_3_1_0 ->
  page_offset i = 0xC0000000 ->
  find_directory 0xC0001000 i =
  Some (set_kpgd 0x10D067 (set_p2m_table pv_table_page 16 (set_kpgd 0x1000 i))).
Proof.
  intros Hm Hh Hv Ho. unfold find_directory. rewrite Hh, Ho.
  change (u32 (0xC0001000 - 0xC0000000)) with 0x1000. change (0 =? 0) with true. cbv iota zeta.
  unfold with_p2m. rewrite (pv_p2m i), (pv_p2m (set_kpgd 0x1000 i)) by done.
  unfold phys_read. change (0x1000 / 4096) with 1. change (0x1000 mod 4096) with 0.
  rewrite (pv_frame_of _ _ 1 (pv_machine 1)) by (done || apply pv_entry_1).
  cbn [mbind option_bind]. by rewrite pv_first_word.
Qed.

Lemma pv_directory kb error_mode_ :
  directory_ok 0xC0001000 (before kb error_mode_) (pv_found kb error_mode_).
Proof.
  split.
  - apply pv_find_directory; [reflexivity|reflexivity|vm_compute; discriminate|reflexivity].
  - intros _. split; [apply pv_paravirtual|]. change (u32 (0xC0001000 - page_offset (before kb error_mode_))) with 0x1000.
    split; [|vm_compute; discriminate]. split; [vm_compute; discriminate|].
    intros t n. rewrite pv_before_p2m. intros [= <- <-]. vm_compute. reflexivity.
Qed.

Lemma pv_kv2p kb error_mode_ v a :
  kv2p (pv_found 0 0) v = a -> kv2p (pv_found kb error_mode_) v = a.
Proof. done. Qed.

Lemma pv_ok kb error_mode_ :
  0 < kb < 4194304 ->
  @vm_ok pv_env (pv_store kb) vm_files sample_parser vm_host 7 error_mode_ (pv_vm kb) (pv_found kb error_mode_).
Proof.
  intros Hkb. split.
  - by apply pv_domain_ok.
  - split_and!; [reflexivity|discriminate|reflexivity|apply sample_map_ok|].
    repeat constructor; discriminate.
  - reflexivity.
  - reflexivity.
  - eexists. split; [apply pv_directory|by left].
  - change (vm_init_task (pv_vm kb)) with 0xC0005000.
    erewrite pv_kv2p by (vm_compute; reflexivity). reflexivity.
  - change (os_linux (pv_found kb error_mode_)) with (os_linux (pv_found 0 0)).
    vm_compute. split; discriminate.
Qed.

(** ** The domain is opened, read and dumped *)

Abbreviation pv kb error_mode_ := (vm_opened (pv_vm kb) (pv_found kb error_mode_)).

Lemma pv_opened kb error_mode_ :
  mode (pv kb error_mode_) = XA_MODE_XEN /\ hvm (pv kb error_mode_) = 0 /\
  live_pfn_to_mfn_table (m_xen (pv kb error_mode_)) = Some pv_table_page.
Proof. by split_and!. Qed.

Lemma pv_domain n kb error_mode_ :
  0 < kb < 4194304 ->
  @domain_at pv_env (pv_store kb) vm_files sample_parser vm_host n 7 error_mode_ (pv kb error_mode_).
Proof. intros Hkb. left. eexists _, _. split; [by apply pv_ok|reflexivity]. Qed.

(** Every frame whose entry is in the page of the table. *)
Lemma pv_in_table kb error_mode_ f : f < 1024 -> in_table (pv kb error_mode_) f.
Proof.
  intros Hf _ _. exists pv_table_page. split; [apply pv_opened|].
  change (m_len pv_table_page) with 4096. lia.
Qed.

(** The two kinds of Linux domains: opening the paravirtual one leaves its
    table mapped, opening the other one nothing. *)
Lemma init_vm_correct_witness :
  runs (@xa_init_vm_id_strict vm_env vm_xenstore vm_files sample_parser vm_host 0 7) (guest_world lin)
    (fun r w' => r = XA_SUCCESS /\ init_task (inst w') = 0xC0006010 /\
       xen_size (m_xen (inst w')) = 0x100000 /\ live_maps w' = 0) /\
  runs (xa_init_vm_id_strict 0 7) (guest_world lin)
    (fun r w' => r = XA_SUCCESS /\ init_task (inst w') = 0xC0006010 /\ kpgd (inst w') = 0x10D067 /\
       nr_pfns (m_xen (inst w')) = 16 /\ live_maps w' = 1).
Proof.
  split.
  - eapply runs_mono.
    + apply (@init_vm_correct vm_env vm_whole vm_xenstore vm_files sample_parser vm_host 0 7 XA_FAILHARD
               sample_vm (sample_vm_instance XA_FAILHARD) (fun _ => 0)).
      * apply fresh_guest_zero.
      * apply zero_pgd_u32.
      * apply sample_vm_ok.
    + intros r w' (-> & Hi & _ & _ & Hl). rewrite Hi.
      split; [reflexivity|]. split; [vm_compute; reflexivity|]. split; [vm_compute; reflexivity|exact Hl].
  - eapply runs_mono.
    + apply (init_vm_correct 0 7 XA_FAILHARD (pv_vm 64) (pv_found 64 XA_FAILHARD) (fun _ => 0)).
      * apply fresh_guest_zero.
      * apply zero_pgd_u32.
      * apply pv_ok. lia.
    + intros r w' (-> & Hi & _ & _ & Hl). rewrite Hi.
      split; [reflexivity|]. split; [vm_compute; reflexivity|]. split; [vm_compute; reflexivity|].
      split; [vm_compute; reflexivity|exact Hl].
Defined.

#[local] Existing Instance full_disk.

Lemma pv_dump_pages : dump_pages (pv 64 XA_FAILSOFT) = 16.
Proof. vm_compute. reflexivity. Qed.

(** The dump is in the order of the guest's frames: its process's name is where
    the guest has it, and the frame without a machine frame is zero. *)
Lemma pv_dump_at f j e :
  (f < 16)%nat -> (j < 4096)%nat -> p2m_entry pv_table_page (Z.of_nat f) = e ->
  dump_image (pv 64 XA_FAILSOFT) 16 !! (4096 * f + j)%nat =
  if e =? NULL_ULONG then Some 0 else bytes (pv_page e) 0 4096 !! j.
Proof.
  intros Hf Hj He. rewrite dump_image_lookup by done. unfold frame_bytes.
  destruct (pv_opened 64 XA_FAILSOFT) as (Hm & Hh & Ht).
  destruct (Z.eqb_spec e NULL_ULONG) as [->|Hn].
  - unfold phys_frame. rewrite pv_mfn, He by done. change (NULL_ULONG =? NULL_ULONG) with true. cbv iota.
    by apply lookup_replicate_2.
  - by rewrite (pv_frame_of _ PROT_READ (Z.of_nat f) e Hm Hh Ht He Hn).
Qed.

Lemma pv_entry_6 : p2m_entry pv_table_page (Z.of_nat 6) = pv_machine 6.
Proof. vm_compute. reflexivity. Qed.

Lemma pv_entry_12 : p2m_entry pv_table_page (Z.of_nat 12) = NULL_ULONG.
Proof. vm_compute. reflexivity. Qed.

Lemma pv_name_bytes j c :
  (j < 4096)%nat -> le_combine (bytes (pv_page (pv_machine 6)) (Z.of_nat j) 1) = c ->
  bytes (pv_page (pv_machine 6)) 0 4096 !! j = Some c.
Proof.
  intros Hj <-. unfold bytes. rewrite list_lookup_fmap, lookup_seqZ_lt by lia.
  cbn [fmap option_fmap option_map]. f_equal. change (seqZ 0 (Z.of_nat 1)) with [0].
  cbn [fmap list_fmap le_combine]. rewrite Z.mul_0_r, !Z.add_0_r, Z.add_0_l. done.
Qed.

(** A fully virtualised domain of one megabyte, and the paravirtual one. *)
Lemma dump_memory_correct_witness :
  runs (@dump_memory_main vm_env vm_xenstore vm_files sample_parser vm_host full_disk
          257 (str "7") (str "fedora.dd")) (Dumper (Session (guest_world lin) []) [])
    (fun r d => r = 0 /\ Z.of_nat (length (d_file d)) = 0x100000 /\ live_maps (lib_state (d_session d)) = -1) /\
  runs (dump_memory_main 17 (str "7") (str "fedora.dd")) (Dumper (Session (guest_world lin) []) [])
    (fun r d => r = 0 /\ Z.of_nat (length (d_file d)) = 0x10000 /\
       d_file d !! (4096 * 6 + 0x194)%nat = Some 105 /\ d_file d !! (4096 * 12 + 0)%nat = Some 0 /\
       live_maps (lib_state (d_session d)) = -1).
Proof.
  split.
  - assert (Hp : @dump_pages (vm_opened sample_vm (sample_vm_instance XA_FAILSOFT)) = 256)
      by (vm_compute; reflexivity).
    eapply runs_mono.
    + apply (@dump_memory_correct vm_env vm_whole vm_xenstore vm_files sample_parser vm_host full_disk
               257 (str "7") (str "fedora.dd") (vm_opened sample_vm (sample_vm_instance XA_FAILSOFT))).
      * apply fresh_guest_zero.
      * left. eexists _, _. split; [exact (sample_vm_ok XA_FAILSOFT)|reflexivity].
      * vm_compute. discriminate.
      * intros f _. apply in_table_flat. left. vm_compute. discriminate.
      * reflexivity.
      * reflexivity.
      * rewrite Hp. vm_compute. lia.
    + intros r d (-> & Hf & _ & _ & _ & _ & Hl). rewrite Hf, Hl, length_dump_image, Hp.
      split; [reflexivity|]. split; [lia|]. vm_compute. reflexivity.
  - eapply runs_mono.
    + apply (dump_memory_correct 17 (str "7") (str "fedora.dd") (pv 64 XA_FAILSOFT)).
      * apply fresh_guest_zero.
      * apply pv_domain. lia.
      * vm_compute. discriminate.
      * intros f Hf. rewrite pv_dump_pages in Hf. apply pv_in_table. lia.
      * reflexivity.
      * reflexivity.
      * rewrite pv_dump_pages. lia.
    + intros r d (-> & Hf & _ & _ & _ & _ & Hl). rewrite Hf, Hl, pv_dump_pages, length_dump_image.
      change (Z.to_nat 16) with 16%nat.
      split; [reflexivity|]. split; [reflexivity|]. split.
      { rewrite (pv_dump_at 6 0x194 _ ltac:(lia) ltac:(lia) pv_entry_6). apply pv_name_bytes; [lia|].
        vm_compute. reflexivity. }
      split; [exact (pv_dump_at 12 0 _ ltac:(lia) ltac:(lia) pv_entry_12)|]. vm_compute. reflexivity.
Defined.

(** A domain that was given more memory than its table has entries for. *)
Lemma dump_memory_past_table_witness :
  @dump_memory_main pv_env (pv_store 4100) vm_files sample_parser vm_host full_disk
    1100 (str "7") (str "fedora.dd") (Dumper (Session (guest_world lin) []) []) = Fault.
Proof.
  destruct (pv_opened 4100 XA_FAILSOFT) as (Hm & Hh & Ht).
  apply (@dump_memory_past_table pv_env pv_whole (pv_store 4100) vm_files sample_parser vm_host full_disk
           1100 (str "7") (str "fedora.dd") (pv 4100 XA_FAILSOFT) pv_table_page).
  - apply fresh_guest_zero.
  - apply pv_domain. lia.
  - exact Hm.
  - exact Hh.
  - exact Ht.
  - vm_compute. discriminate.
  - vm_compute. split; [reflexivity|discriminate].
  - reflexivity.
  - reflexivity.
  - change (m_len pv_table_page / 4) with 1024. lia.
Defined.

Lemma read_past_table_witness :
  @perform pv_env (python true) (method (str "read") [0x400000])
    (Pyxa (guest_world (pv 64 XA_FAILHARD)) Null 1) = Fault.
Proof.
  destruct (pv_opened 64 XA_FAILHARD) as (Hm & Hh & Ht).
  apply (@read_past_table pv_env (python true) (pv 64 XA_FAILHARD) pv_table_page [0x400000] 0x400000).
  - reflexivity.
  - split; reflexivity.
  - exact Hm.
  - exact Hh.
  - exact Ht.
  - discriminate.
  - reflexivity.
  - vm_compute. reflexivity.
Defined.

(** Frames out of order, one of them twice, and one without a machine frame. *)
Lemma translations_keep_table_witness :
  exists w, translate_frames [6; 12; 6; 0] (guest_world (before 64 XA_FAILHARD)) =
            Ret ([pv_machine 6; NULL_ULONG; pv_machine 6; pv_machine 0], w) /\ live_maps w = 1.
Proof.
  destruct (translations_keep_table [6; 12; 6; 0] (guest_world (before 64 XA_FAILHARD))) as [E1 E2].
  - apply pv_paravirtual.
  - apply list.Forall_forall. intros f Hf. split; [by set_unfold in Hf; lia|].
    intros t n. change (inst (guest_world (before 64 XA_FAILHARD))) with (before 64 XA_FAILHARD).
    rewrite pv_before_p2m. intros [= <- <-]. set_unfold in Hf. lia.
  - discriminate.
  - assert (Hm : ((fun f => match p2m_table (before 64 XA_FAILHARD) with
                           | Some (t, _) => p2m_entry t f | None => NULL_ULONG end) <$> [6; 12; 6; 0]) =
                 [pv_machine 6; NULL_ULONG; pv_machine 6; pv_machine 0])
      by (rewrite pv_before_p2m; vm_compute; reflexivity).
    exists (table_loaded (guest_world (before 64 XA_FAILHARD))). split.
    + rewrite E1. exact (f_equal (fun l => Ret (l, table_loaded (guest_world (before 64 XA_FAILHARD)))) Hm).
    + rewrite E2. change (inst (guest_world (before 64 XA_FAILHARD))) with (before 64 XA_FAILHARD).
      by rewrite pv_before_p2m.
Defined.

Lemma access_past_table_witness :
  xa_access_pa 0x400000 PROT_READ (guest_world (pv 64 XA_FAILHARD)) = Fault.
Proof.
  destruct (pv_opened 64 XA_FAILHARD) as (Hm & Hh & Ht).
  apply (access_past_table _ _ _ pv_table_page); [by split|exact Hm|exact Hh|exact Ht|lia|].
  vm_compute. reflexivity.
Defined.

(** The same domain without a configuration file. *)
Abbreviation bare_pv := (bare_opened (bare_vm 0 64 pv_ctrlreg) (bare_start 7 XA_FAILSOFT (bare_vm 0 64 pv_ctrlreg))).

Lemma bare_pv_ok : @bare_ok pv_env pv_xenstore vm_host 7 (bare_vm 0 64 pv_ctrlreg).
Proof.
  split; try reflexivity.
  - vm_compute. lia.
  - split; try reflexivity; vm_compute; (lia || done).
  - vm_compute. discriminate.
Qed.

Lemma bare_pv_p2m : p2m_table bare_pv = Some (pv_table_page, 16).
Proof. apply pv_p2m; [reflexivity|vm_compute; discriminate]. Qed.

Lemma bare_pv_paravirtual : paravirtual bare_pv.
Proof.
  split; [by split|reflexivity|reflexivity|reflexivity|]. intros s _.
  assert (p2m_size bare_pv s = 16) as -> by (vm_compute; reflexivity). lia.
Qed.

Lemma bare_pv_pages : dump_pages bare_pv = 16.
Proof. vm_compute. reflexivity. Qed.

Lemma dump_memory_unconfigured_witness :
  runs (@dump_memory_main pv_env pv_xenstore no_files sample_parser vm_host full_disk
          17 (str "7") (str "fedora.dd")) (Dumper (Session (guest_world lin) []) [])
    (fun r d => r = 0 /\ Z.of_nat (length (d_file d)) = 0x10000).
Proof.
  eapply runs_mono.
  - apply (@dump_memory_unconfigured pv_env pv_whole pv_xenstore no_files sample_parser vm_host full_disk
             17 (str "7") (str "fedora.dd") (bare_vm 0 64 pv_ctrlreg)
             (bare_start 7 XA_FAILSOFT (bare_vm 0 64 pv_ctrlreg))).
    + apply fresh_guest_zero.
    + exact bare_pv_ok.
    + by apply no_file.
    + exact bare_pv_paravirtual.
    + rewrite bare_pv_p2m. by eexists.
    + intros f Hf. rewrite bare_pv_pages in Hf. split; [lia|]. intros t n. rewrite bare_pv_p2m.
      intros [= <- <-]. lia.
    + vm_compute. discriminate.
    + reflexivity.
    + reflexivity.
    + rewrite bare_pv_pages. lia.
  - intros r d (-> & Hf & _). rewrite Hf, length_dump_image, bare_pv_pages. by split.
Defined.

(** ** The image is not one for file mode

    The image has the frames in the guest's order, but the guest's page tables
    say where they are in the machine: the walk that finds [init_task] in the
    running domain leaves the image at its first step. *)

Definition pv_file : xa_instance := set_m_file (FileSource 0x10000) lin.
Abbreviation pv_content := (@dump_image pv_env (pv 64 XA_FAILSOFT) (Z.to_nat (@dump_pages (pv 64 XA_FAILSOFT)))).

Lemma pv_file_read n a :
  is_u32 a -> a mod 4096 + Z.of_nat n <= 4096 ->
  @mem_read (dumped_env pv_content 0) pv_file n a =
  if a / 4096 <? 16 then Some (default 0 (phys_read (pv 64 XA_FAILSOFT) n a)) else None.
Proof.
  intros Ha Hn. pose proof (file_mem_read (pv 64 XA_FAILSOFT) pv_file) as Hr.
  rewrite pv_dump_pages in Hr. apply Hr; [by split|done|vm_compute; split; discriminate| |done|done].
  rewrite length_dump_image. reflexivity.
Qed.

Lemma pv_directory_word : phys_read (pv 64 XA_FAILSOFT) 4 0x1C00 = Some (4096 * pv_machine 2 + 7).
Proof.
  destruct (pv_opened 64 XA_FAILSOFT) as (Hm & Hh & Ht). unfold phys_read. change (0x1C00 / 4096) with 1.
  rewrite (pv_frame_of _ PROT_READ 1 (pv_machine 1)) by (done || apply pv_entry_1).
  vm_compute. reflexivity.
Qed.

Example pv_image_untranslatable :
  ia32_walk (mem_read (pv 64 XA_FAILSOFT)) (4096 * pv_machine 1) 0xC0005000 = Phys (4096 * pv_machine 5) /\
  ia32_walk (@mem_read (dumped_env pv_content 0) pv_file) 0x1000 0xC0005000 = Unreadable.
Proof.
  split; [vm_compute; reflexivity|]. unfold ia32_walk.
  change (0x1000 / 2 ^ 12 * 2 ^ 12 + 4 * (0xC0005000 / 2 ^ 22)) with 0x1C00.
  rewrite pv_file_read by (done || lia). change (0x1C00 / 4096 <? 16) with true. cbv iota.
  rewrite pv_directory_word. cbn [default from_option id].
  change (4096 * pv_machine 2 + 7) with 0x10D007. cbn [follow]. change (Z.testbit 0x10D007 0) with true.
  change (Z.testbit 0x10D007 7) with false. cbv iota.
  change (0x10D007 / 2 ^ 12 * 2 ^ 12 + 4 * (0xC0005000 / 2 ^ 12 mod 2 ^ 10)) with 0x10D014.
  rewrite pv_file_read by (done || lia). reflexivity.
Qed.
