(* ===== verification/PeDump.v ===== *)
(** * Printing the exports of the Windows kernel

    Models [dump_exports] of windows_peparse.c, the debugging aid that prints
    the export table.  It maps the page on which each of the three tables
    starts, once, where the search of [WindowsPe] maps a page for every entry:
    it prints the whole table when the tables fit their pages and runs past the
    mapping otherwise, as a comment in the code suspects. *)

From Stdlib Require Import String.
From S2P Require Import Prelude CStr Dll XaTypes XaMap Guest PageTable XaCache XaAccess Symbols.
From S2P Require Import XaStore ProcList Linux SymAccess WindowsPe Windows XaApi Config ConfigText XaCore XaVm Console.

Section Model.
Context {E : XenEnv}.

(** [memcpy] of [n] bytes at [memory + offset + k]. *)
Definition table_entry (n : nat) (t : option mapping * Z) (k : Z) : M session Z :=
  memory ← of_option t.1; lib (load n memory (t.2 + k)).

(** [munmap] of NULL does nothing. *)
Definition munmap_table (t : option mapping * Z) : M session unit :=
  match t.1 with Some _ => lib munmap | None => mret tt end.

(** [printf("%s:%d:0x%x\n", str, ordinal, loc)] *)
Definition export_line (s : cstr) (ordinal loc : Z) : cstr :=
  s ++ [58] ++ dec ordinal ++ [58] ++ str "0x" ++ print_x loc ++ [10].

(** One turn: the name, its ordinal and the location at the ordinal. *)
Definition dump_entry (t1 t2 t3 : option mapping * Z) (i : Z) : M session unit :=
  rva ← table_entry 4 t1 (i * 4);
  if negb (rva =? 0) then
    s ← lib (rva_to_string rva);
    match s with
    | Some s =>
        ordinal ← table_entry 2 t2 (i * 2);
        loc ← table_entry 4 t3 (ordinal * 4);
        printf (export_line s ordinal loc)
    | None => mret tt
    end
  else mret tt.

Fixpoint dump_entries (t1 t2 t3 : option mapping * Z) (i : Z) (n : nat) : M session unit :=
  match n with
  | O => mret tt
  | S n' => _ ← dump_entry t1 t2 t3 i; dump_entries t1 t2 t3 (i + 1) n'
  end.

Definition dump_exports (et : export_table) : M session unit :=
  instance ← lib (gets inst);
  let base_addr := ntoskrnl (os_windows instance) in
  (* load name list *)
  t1 ← lib (xa_access_pa (u32 (base_addr + address_of_names et)) PROT_READ);
  (* load name ordinals list *)
  t2 ← lib (xa_access_pa (u32 (base_addr + address_of_name_ordinals et)) PROT_READ);
  (* load function locations *)
  t3 ← lib (xa_access_pa (u32 (base_addr + address_of_functions et)) PROT_READ);
  (* print names *)
  _ ← dump_entries t1 t2 t3 0 (Z.to_nat (number_of_names et));
  _ ← munmap_table t1;
  _ ← munmap_table t2;
  munmap_table t3.
End Model.

(** ** Entries of a table that fits its page *)

Section Dump.
Context {E : XenEnv} {W : WholePages}.
Variable i : xa_instance.
Hypothesis Hgeo : geometry i.
Hypothesis Hphys : hvm i <> 0 \/ mode i = XA_MODE_FILE.
Variable et : export_table.

Abbreviation base := (ntoskrnl (os_windows i)).
Abbreviation names := (u32 (base + address_of_names et)).
Abbreviation ordinals := (u32 (base + address_of_name_ordinals et)).
Abbreviation functions := (u32 (base + address_of_functions et)).

(** The page and offset of a table. *)
Definition table_of (a : Z) : option mapping * Z := (frame_of i PROT_READ (a / 4096), a mod 4096).

Lemma same_page a k :
  0 <= k -> u32 a mod 4096 + k < 4096 ->
  u32 (a + k) / 4096 = u32 a / 4096 /\ u32 (a + k) mod 4096 = u32 a mod 4096 + k.
Proof.
  intros Hk Hm. pose proof (u32_range a) as Ha.
  assert (u32 (a + k) = u32 a + k) as ->.
  { unfold u32 in *. rewrite <- Zplus_mod_idemp_l. apply Z.mod_small.
    Z.to_euclidean_division_equations. lia. }
  Z.to_euclidean_division_equations. lia.
Qed.

Lemma mem_read_entry n a k m :
  0 <= k -> u32 a mod 4096 + k < 4096 -> frame_of i PROT_READ (u32 a / 4096) = Some m ->
  mem_read i n (u32 (a + k)) = Some (le_combine (bytes m (u32 a mod 4096 + k) n)).
Proof. intros Hk Hm Hf. destruct (same_page a k Hk Hm) as [E1 E2]. unfold mem_read. by rewrite E1, E2, Hf. Qed.

Lemma entry_runs n a k v s (Q : Z -> session -> Prop) :
  is_Some (frame_of i PROT_READ (u32 a / 4096)) -> (0 < n)%nat ->
  0 <= k -> u32 a mod 4096 + k + Z.of_nat n <= 4096 -> mem_read i n (u32 (a + k)) = Some v -> Q v s ->
  runs (table_entry n (table_of (u32 a)) k) s Q.
Proof.
  intros [m Hm] Hn Hk Ha Hv HQ. rewrite (mem_read_entry n a k m) in Hv by (done || lia). injection Hv as <-.
  unfold table_entry, table_of. rewrite Hm. apply runs_bind. eapply runs_of_option; [done|].
  apply runs_lib. eapply runs_eq.
  - apply load_eq; [pose proof (Z.mod_pos_bound (u32 a) 4096 ltac:(lia)); cbn; lia|].
    rewrite (frame_whole _ _ _ _ Hgeo Hm). cbn. lia.
  - by destruct s.
Qed.

(** What the table says of entry [k]: the name, the ordinal and the location. *)
Definition export_entry (k : Z) : option (cstr * Z * Z) :=
  s ← export_name i et k;
  o ← mem_read i 2 (u32 (base + address_of_name_ordinals et + k * 2));
  l ← mem_read i 4 (u32 (base + address_of_functions et + o * 4));
  Some (s, o, l).

Definition export_text (k : Z) : cstr :=
  match export_entry k with Some (s, o, l) => export_line s o l | None => [] end.

(** The tables are mapped and end on the pages they start on. *)
Record tables_in_page : Prop := {
  tp_names : is_Some (frame_of i PROT_READ (names / 4096));
  tp_ordinals : is_Some (frame_of i PROT_READ (ordinals / 4096));
  tp_functions : is_Some (frame_of i PROT_READ (functions / 4096));
  tp_names_end : names mod 4096 + 4 * number_of_names et <= 4096;
  tp_ordinals_end : ordinals mod 4096 + 2 * number_of_names et <= 4096;
  tp_functions_end : forall k o, 0 <= k < number_of_names et ->
    mem_read i 2 (u32 (base + address_of_name_ordinals et + k * 2)) = Some o ->
    functions mod 4096 + 4 * o + 4 <= 4096 }.

Lemma mem_read_some n a k :
  is_Some (frame_of i PROT_READ (u32 a / 4096)) -> 0 <= k -> u32 a mod 4096 + k < 4096 ->
  is_Some (mem_read i n (u32 (a + k))).
Proof. intros [m Hm] Hk Ha. rewrite (mem_read_entry n a k m) by done. by eexists. Qed.

Lemma dump_entry_runs k s (Q : unit -> session -> Prop) :
  tables_in_page -> 0 <= k < number_of_names et -> inst (lib_state s) = i ->
  Q tt (Session (lib_state s) (stdout s ++ export_text k)) ->
  runs (dump_entry (table_of names) (table_of ordinals) (table_of functions) k) s Q.
Proof.
  intros [H1 H2 H3 H4 H5 H6] Hk Hi HQ. unfold export_text, export_entry, export_name in HQ.
  destruct (mem_read_some 4 (base + address_of_names et) (k * 4)) as [rva Erva]; [done|lia..|].
  rewrite Erva in HQ. cbn [default] in HQ.
  apply runs_bind. eapply (entry_runs 4); [done|lia..|exact Erva|]. change (id rva) with rva in HQ.
  destruct (rva =? 0); cbn [negb mbind option_bind] in *.
  { apply runs_ret. rewrite app_nil_r in HQ. by destruct s. }
  apply runs_bind, runs_lib. eapply runs_eq; [by apply (rva_to_string_eq i Hgeo Hphys)|].
  assert (Hs : with_lib (lib_state s) s = s) by by destruct s. rewrite Hs.
  destruct (phys_string i (u32 (base + rva))) as [name|]; cbn [mbind option_bind] in *.
  2:{ apply runs_ret. rewrite app_nil_r in HQ. by destruct s. }
  destruct (mem_read_some 2 (base + address_of_name_ordinals et) (k * 2)) as [o Eo]; [done|lia..|].
  specialize (H6 k o Hk Eo). pose proof (mem_read_range i 2 _ _ Eo) as Ho. change (256 ^ Z.of_nat 2) with 65536 in Ho.
  destruct (mem_read_some 4 (base + address_of_functions et) (o * 4)) as [l El]; [done|lia..|].
  rewrite Eo in HQ. cbn [mbind option_bind] in HQ. rewrite El in HQ. cbn [mbind option_bind] in HQ.
  apply runs_bind. eapply (entry_runs 2); [done|lia..|exact Eo|].
  apply runs_bind. eapply (entry_runs 4); [done|lia..|exact El|]. by apply runs_printf.
Qed.

Lemma dump_entries_runs n : forall k s (Q : unit -> session -> Prop),
  tables_in_page -> 0 <= k -> k + Z.of_nat n = number_of_names et -> inst (lib_state s) = i ->
  Q tt (Session (lib_state s) (stdout s ++ concat (export_text <$> seqZ k (Z.of_nat n)))) ->
  runs (dump_entries (table_of names) (table_of ordinals) (table_of functions) k n) s Q.
Proof.
  induction n as [|n IH]; intros k s Q Ht Hk Hn Hi HQ.
  { apply runs_ret. cbn in HQ. rewrite app_nil_r in HQ. by destruct s. }
  apply runs_bind, dump_entry_runs; [done|lia|done|]. apply IH; [done|lia|lia|done|].
  cbn [lib_state stdout]. replace (Z.of_nat (S n)) with (Z.succ (Z.of_nat n)) in HQ by lia.
  rewrite seqZ_cons in HQ by lia. rewrite Z.pred_succ in HQ. cbn [fmap list_fmap concat] in HQ.
  by rewrite <- app_assoc.
Qed.

(** A mapped table is unmapped. *)
Lemma munmap_table_runs (t : option mapping * Z) s (Q : unit -> session -> Prop) :
  Q tt (with_lib (with_live_maps (live_maps (lib_state s) - match t.1 with Some _ => 1 | None => 0 end)
                    (lib_state s)) s) ->
  runs (munmap_table t) s Q.
Proof.
  intros HQ. unfold munmap_table. destruct (t.1); [by apply runs_lib, runs_modify|].
  apply runs_ret. rewrite Z.sub_0_r in HQ. by destruct s as [[]].
Qed.

(** *** Tables that do not fit *)

(** An entry past the end of its page. *)
Lemma entry_past n a k s :
  0 <= k -> 4096 < a mod 4096 + k + Z.of_nat n -> table_entry n (table_of a) k s = Fault.
Proof.
  intros Hk Ha. unfold table_entry, table_of. cbn [fst snd].
  destruct (frame_of i PROT_READ (a / 4096)) as [m|] eqn:Em; [|done].
  cbn [of_option]. rewrite bind_ret_l. unfold lib, zoom, load.
  rewrite (frame_whole _ _ _ _ Hgeo Em), (proj2 (Z.leb_gt (a mod 4096 + k + Z.of_nat n) 4096)) by lia.
  by rewrite andb_false_r.
Qed.

Lemma entry_cases n t k s : table_entry n t k s = Fault \/ exists v, table_entry n t k s = Ret (v, s).
Proof.
  unfold table_entry. destruct t as [[m|] o]; [|by left]. cbn [fst snd of_option]. rewrite bind_ret_l.
  unfold lib, zoom, load. destruct (_ && _)%bool; [right|by left]. eexists. by destruct s.
Qed.

Lemma bind_fault {S A B} (m : M S A) (k : A -> M S B) s : m s = Fault -> (m ≫= k) s = Fault.
Proof. intros Em. unfold mbind, M_bind. by rewrite Em. Qed.

(** An entry that is printed leaves the library as it was. *)
Lemma dump_entry_cases t1 t2 t3 k s :
  inst (lib_state s) = i ->
  dump_entry t1 t2 t3 k s = Fault \/
  exists s', dump_entry t1 t2 t3 k s = Ret (tt, s') /\ inst (lib_state s') = i.
Proof.
  intros Hi. unfold dump_entry.
  destruct (entry_cases 4 t1 (k * 4) s) as [E1|[rva E1]]; [left; by apply bind_fault|].
  erewrite bind_eq by exact E1. destruct (negb (rva =? 0)); [|right; by eexists].
  erewrite bind_eq.
  2:{ unfold lib, zoom. by rewrite (rva_to_string_eq i Hgeo Hphys) by done. }
  replace (with_lib (lib_state s) s) with s by by destruct s.
  destruct (phys_string _ _) as [name|]; [|right; by eexists].
  destruct (entry_cases 2 t2 (k * 2) s) as [E2|[o E2]]; [left; by apply bind_fault|].
  erewrite bind_eq by exact E2.
  destruct (entry_cases 4 t3 (o * 4) s) as [E3|[l E3]]; [left; by apply bind_fault|].
  erewrite bind_eq by exact E3. right. by eexists.
Qed.

(** The loop faults when one of its entries does. *)
Lemma dump_entries_fault t1 t2 t3 n : forall k s j,
  inst (lib_state s) = i -> k <= j < k + Z.of_nat n ->
  (forall s', table_entry 4 t1 (j * 4) s' = Fault) -> dump_entries t1 t2 t3 k n s = Fault.
Proof.
  induction n as [|n IH]; intros k s j Hi Hj Hf; [lia|]. cbn [dump_entries].
  destruct (decide (j = k)) as [->|].
  { apply bind_fault. unfold dump_entry. by apply bind_fault. }
  destruct (dump_entry_cases t1 t2 t3 k s Hi) as [E1|(s' & E1 & Hi')]; [by apply bind_fault|].
  erewrite bind_eq by exact E1. apply (IH _ _ j); [done|lia|done].
Qed.
End Dump.

(** ** The same entries, read as the search reads them *)

(** Half of a word read at the same place. *)
Lemma low_half `{XenEnv} i a : (fun v => Z.land v 0xffff) <$> mem_read i 4 a = mem_read i 2 a.
Proof.
  unfold mem_read. destruct (frame_of i PROT_READ (a / 4096)) as [m|]; [|done].
  cbn [mbind option_bind fmap option_fmap option_map]. f_equal.
  change (Z.land ?v 0xffff) with (Z.land v (Z.ones 16)). rewrite land_low by done.
  change (bytes m (a mod 4096) 4) with
    (bytes m (a mod 4096) 2 ++ [u8 (m_byte m (a mod 4096 + 2)); u8 (m_byte m (a mod 4096 + 3))]).
  change (bytes m (a mod 4096) 2) with [u8 (m_byte m (a mod 4096 + 0)); u8 (m_byte m (a mod 4096 + 1))].
  cbn [app le_combine]. change (2 ^ 16) with 65536.
  pose proof (u8_range (m_byte m (a mod 4096 + 0))). pose proof (u8_range (m_byte m (a mod 4096 + 1))).
  generalize dependent (u8 (m_byte m (a mod 4096 + 0))). generalize dependent (u8 (m_byte m (a mod 4096 + 1))).
  intros b1 H1 b0 H0. Z.to_euclidean_division_equations. lia.
Qed.

Lemma first_match_from `{XenEnv} i symbol et n : forall k0 k,
  k0 <= k < k0 + Z.of_nat n -> name_matches i symbol et k = true ->
  (forall j, k0 <= j < k -> name_matches i symbol et j = false) ->
  first_match i symbol et k0 n = Some k.
Proof.
  induction n as [|n IH]; intros k0 k Hk Hm Hno; [lia|]. cbn [first_match].
  destruct (decide (k0 = k)) as [->|]; [by rewrite Hm|].
  rewrite Hno by lia. apply IH; [lia|done|]. intros j Hj. apply Hno. lia.
Qed.

(** An entry whose name has no earlier prefix is the one the search finds. *)
Lemma first_match_intro `{XenEnv} i name et k :
  0 <= k < number_of_names et -> export_name i et k = Some name ->
  (forall j s, 0 <= j < k -> export_name i et j = Some s -> ~ s `prefix_of` name) ->
  first_match i name et 0 (Z.to_nat (number_of_names et)) = Some k.
Proof.
  intros Hk Hn Hpre. apply first_match_from; [lia| |].
  - unfold name_matches. rewrite Hn. by apply bool_decide_eq_true.
  - intros j Hj. unfold name_matches. destruct (export_name i et j) as [s|] eqn:Es; [|done].
    apply bool_decide_eq_false. by apply (Hpre j).
Qed.

(** ** Properties *)

Section Properties.
Context {E : XenEnv} {W : WholePages}.

Lemma with_lib_twice w w' s : with_lib w (with_lib w' s) = with_lib w s.
Proof. done. Qed.

(** The loop runs with the three tables mapped. *)
Lemma dump_open et s (i := inst (lib_state s)) :
  geometry i -> hvm i <> 0 \/ mode i = XA_MODE_FILE ->
  let t a := table_of i (u32 (ntoskrnl (os_windows i) + a)) in
  let one a := match (t a).1 with Some _ => 1 | None => 0 end in
  dump_exports et s =
  (_ ← dump_entries (t (address_of_names et)) (t (address_of_name_ordinals et))
         (t (address_of_functions et)) 0 (Z.to_nat (number_of_names et));
   _ ← munmap_table (t (address_of_names et));
   _ ← munmap_table (t (address_of_name_ordinals et));
   munmap_table (t (address_of_functions et)))
    (with_lib (with_live_maps (live_maps (lib_state s) + one (address_of_names et) +
        one (address_of_name_ordinals et) + one (address_of_functions et)) (lib_state s)) s).
Proof.
  intros Hg Hp t one. unfold dump_exports. erewrite bind_eq by done.
  assert (Ha : forall a s', inst (lib_state s') = i ->
    lib (xa_access_pa (u32 (ntoskrnl (os_windows i) + a)) PROT_READ) s' =
    Ret (t a, with_lib (with_live_maps (live_maps (lib_state s') + one a) (lib_state s')) s')).
  { intros a s' Hi. unfold lib, zoom. rewrite (map_phys i Hg Hp) by (done || apply u32_range).
    by rewrite opened_live. }
  cbv beta zeta. fold i. do 3 (erewrite bind_eq by by apply Ha). done.
Qed.

(** When the tables of the kernel's exports fit the pages they start on,
    [dump_exports] prints one line for every entry that has a name, with its
    ordinal and the function table's value at the ordinal, in the order of the
    table; nothing else of the library changes and no page stays mapped. *)
Theorem dump_exports_correct et s (i := inst (lib_state s)) :
  geometry i -> hvm i <> 0 \/ mode i = XA_MODE_FILE -> 0 <= number_of_names et -> tables_in_page i et ->
  dump_exports et s =
  Ret (tt, Session (lib_state s)
             (stdout s ++ concat (export_text i et <$> seqZ 0 (number_of_names et)))).
Proof.
  intros Hg Hp Hn Ht. cut (runs (dump_exports et) s (fun _ s' => s' = Session (lib_state s)
    (stdout s ++ concat (export_text i et <$> seqZ 0 (number_of_names et))))).
  { by intros ([] & s' & -> & ->). }
  unfold runs. rewrite dump_open by done. fold i. apply runs_bind.
  apply (dump_entries_runs i Hg Hp et); [done|lia|lia|done|]. rewrite Z2Nat.id by done.
  do 2 apply runs_bind, munmap_table_runs. apply munmap_table_runs.
  cbn [lib_state with_lib with_live_maps live_maps stdout]. fold i.
  unfold with_lib. cbn [stdout]. f_equal.
  match goal with |- with_live_maps ?n _ = _ => replace n with (live_maps (lib_state s)) by lia end.
  by destruct (lib_state s).
Qed.

(** A table of names that is not mapped or does not end on the page it
    starts on is read through NULL or past the end of the mapping, whatever
    the names are. *)
Theorem dump_exports_overrun et s (i := inst (lib_state s))
    (names := u32 (ntoskrnl (os_windows i) + address_of_names et)) :
  geometry i -> hvm i <> 0 \/ mode i = XA_MODE_FILE -> 0 < number_of_names et ->
  frame_of i PROT_READ (names / 4096) = None \/ 4096 < names mod 4096 + 4 * number_of_names et ->
  dump_exports et s = Fault.
Proof.
  intros Hg Hp Hn Hbad. rewrite dump_open by done. fold i. apply bind_fault.
  apply (dump_entries_fault i Hg Hp _ _ _ _ _ _ (number_of_names et - 1)); [done|lia|].
  intros s'. fold names. destruct Hbad as [Hf|Hend].
  - unfold table_entry, table_of. cbn [fst]. by rewrite Hf.
  - apply entry_past; [done|lia|]. lia.
Qed.

(** C37: the dump and the search agree: for a name that no earlier entry's name
    is a prefix of, [windows_export_to_rva] gives the location that is printed
    beside the name. *)
Theorem dump_agrees_with_lookup et k name o loc s (w := lib_state s) (i := inst w) :
  geometry i -> hvm i <> 0 \/ mode i = XA_MODE_FILE -> tables_in_page i et ->
  export_table_at i (ntoskrnl (os_windows i)) = Some et -> 0 <= k < number_of_names et ->
  export_entry i et k = Some (name, o, loc) ->
  (forall j s, 0 <= j < k -> export_name i et j = Some s -> ~ s `prefix_of` name) ->
  exports_in_page i name ->
  (exists before after, dump_exports et s =
     Ret (tt, Session w (stdout s ++ before ++ export_line name o loc ++ after))) /\
  windows_export_to_rva name w = Ret (Some loc, w).
Proof.
  intros Hg Hp Ht Het Hk He Hpre Hpage. split.
  { rewrite dump_exports_correct by (done || lia). fold w i.
    exists (concat (export_text i et <$> seqZ 0 k)),
           (concat (export_text i et <$> seqZ (k + 1) (number_of_names et - k - 1))).
    do 3 f_equal. replace (number_of_names et) with (k + (1 + (number_of_names et - k - 1))) at 1 by lia.
    rewrite seqZ_app, seqZ_app, !fmap_app, !concat_app by lia.
    assert (Hk1 : seqZ (0 + k) 1 = [k]) by done. rewrite Hk1. cbn [fmap list_fmap concat].
    assert (Hkt : export_text i et k = export_line name o loc) by (unfold export_text; by rewrite He).
    by rewrite Hkt, app_nil_r. }
  rewrite (windows_export_eq i Hg Hp) by done. do 2 f_equal.
  unfold export_entry in He. destruct (export_name i et k) as [nm|] eqn:Es; [|done]. cbn [mbind option_bind] in He.
  fold (ordinal_loc i et k) in He.
  destruct (mem_read i 2 (ordinal_loc i et k)) as [o'|] eqn:Eo; [|done]. cbn [mbind option_bind] in He.
  destruct (mem_read i 4 _) as [l|] eqn:El in He; [|done]. injection He as -> -> ->.
  unfold export_rva. rewrite Het. cbn [mbind option_bind].
  rewrite (first_match_intro i name et k) by (done || lia). cbn [mbind option_bind].
  unfold ordinal. rewrite low_half, Eo. exact El.
Qed.
End Properties.

(** *** Witnesses *)

#[local] Existing Instance windows_env.
#[local] Existing Instance windows_whole.

Definition win_session : session := Session (guest_world win) [].

Lemma win_tables : tables_in_page win win_et.
Proof.
  split; [eexists; reflexivity..|vm_compute; discriminate|vm_compute; discriminate|].
  intros k o Hk Ho. change (number_of_names win_et) with 2 in Hk.
  assert (k = 0 \/ k = 1) as [-> | ->] by lia; vm_compute in Ho; injection Ho as <-; vm_compute; discriminate.
Qed.

Lemma dump_exports_correct_witness :
  exists text, dump_exports win_et win_session = Ret (tt, Session (guest_world win) text) /\
    take 16 text = str "PsInit:0:0x1111" ++ [10].
Proof.
  eexists. split.
  - refine (dump_exports_correct win_et win_session (guest_geometry 2 0) _ _ win_tables).
    + left. discriminate.
    + vm_compute. discriminate.
  - vm_compute. reflexivity.
Defined.

(** The same table with more names than a page holds. *)
Definition long_et : export_table := ExportTable 0 0 0 0 0x440 0 0 1000 0x300 0x310 0x320.

Lemma dump_exports_overrun_witness : dump_exports long_et win_session = Fault.
Proof.
  apply (dump_exports_overrun long_et win_session (guest_geometry 2 0)).
  - left. discriminate.
  - reflexivity.
  - right. vm_compute. reflexivity.
Defined.

Lemma dump_agrees_with_lookup_witness :
  (exists before after, dump_exports win_et win_session =
     Ret (tt, Session (guest_world win) (before ++ export_line (str "PsInit") 0 0x1111 ++ after))) /\
  windows_export_to_rva (str "PsInit") (guest_world win) = Ret (Some 0x1111, guest_world win).
Proof.
  apply (dump_agrees_with_lookup win_et 0 (str "PsInit") 0 0x1111 win_session (guest_geometry 2 0)).
  - left. discriminate.
  - exact win_tables.
  - exact win_export_table.
  - vm_compute. split; [discriminate|reflexivity].
  - vm_compute. reflexivity.
  - lia.
  - exact win_psinit_in_page.
Defined.
