(* ===== verification/BitCount.v ===== *)
(** * Counting bits

    Models [xa_kernel_pd_bitcount] (the HAKMEM count) of xa_memory.c and
    proves that it counts the bits that are set.  The proof is by octal
    digits: the word is a list of eleven digits, each step of the algorithm is
    a map over the list, and taking the remainder by 63 adds the digits of the
    sum in base 64. *)

From S2P Require Import Prelude.

Definition xa_kernel_pd_bitcount (n : Z) : Z :=
  let count := u32 (n - Z.land (Z.shiftr n 1) 0xDB6DB6DB - Z.land (Z.shiftr n 2) 0x49249249) in
  Z.land (u32 (count + Z.shiftr count 3)) 0xC71C71C7 mod 63.

(** The number of bits set among the [k] lowest. *)
Fixpoint popcount (k : nat) (n : Z) : Z :=
  match k with O => 0 | S k' => n mod 2 + popcount k' (n / 2) end.

(** ** Octal digits *)

Fixpoint of_oct (ds : list Z) : Z :=
  match ds with [] => 0 | d :: ds' => d + 8 * of_oct ds' end.

Fixpoint oct_digits (k : nat) (n : Z) : list Z :=
  match k with O => [] | S k' => n mod 8 :: oct_digits k' (n / 8) end.

Definition digit (d : Z) : Prop := 0 <= d < 8.

Lemma of_oct_digits k n : 0 <= n < 8 ^ Z.of_nat k -> of_oct (oct_digits k n) = n.
Proof.
  revert n. induction k as [|k IH]; intros n Hn; cbn [oct_digits of_oct]; [simpl in Hn; lia|].
  rewrite Nat2Z.inj_succ, Z.pow_succ_r in Hn by lia.
  pose proof (Z.div_mod n 8 ltac:(lia)). rewrite IH; [lia|].
  split; [apply Z.div_pos; lia|apply Z.div_lt_upper_bound; lia].
Qed.

Lemma digits_oct k n : Forall digit (oct_digits k n).
Proof. revert n. induction k; intros n; constructor; [apply Z.mod_pos_bound; lia|auto]. Qed.

Lemma of_oct_nonneg ds : Forall digit ds -> 0 <= of_oct ds.
Proof. unfold digit. induction 1; cbn [of_oct]; lia. Qed.

Lemma digit_bits d k : digit d -> 3 <= k -> Z.testbit d k = false.
Proof.
  intros Hd Hk. rewrite <- (Z.mod_small d (2 ^ 3)) by exact Hd. apply Z.mod_pow2_bits_high. lia.
Qed.

Lemma land_digit x d m c :
  digit d -> digit c -> Z.land (d + 8 * x) (c + 8 * m) = Z.land d c + 8 * Z.land x m.
Proof.
  intros Hd Hc. unfold digit in *.
  assert (Hs : forall y e, 0 <= e < 8 -> e + 8 * y = Z.lor (Z.shiftl y 3) e).
  { intros y e He. rewrite Z.shiftl_mul_pow2 by lia. change (2 ^ 3) with 8.
    rewrite (lor_add _ _ 3); [lia|lia|by apply Z.mod_mul|done]. }
  assert (0 <= Z.land d c < 8).
  { split; [apply Z.land_nonneg; lia|].
    change 8 with (2 ^ 3). rewrite <- (Z.mod_small d (2 ^ 3)), <- Z.land_ones by done.
    rewrite <- Z.land_assoc, (Z.land_comm _ c), Z.land_assoc, Z.land_ones by done.
    apply Z.mod_pos_bound. done. }
  rewrite !Hs by done. apply Z.bits_inj'. intros k Hk.
  rewrite Z.land_spec, !Z.lor_spec, !Z.shiftl_spec, !Z.land_spec by done.
  destruct (Z.ltb_spec k 3).
  - rewrite !(Z.testbit_neg_r _ (k - 3)) by lia. done.
  - rewrite (digit_bits d), (digit_bits c) by done.
    by rewrite !orb_false_r.
Qed.

(** The three masks, as lists of digits. *)
Definition threes (k : nat) : list Z := replicate k 3.
Definition ones (k : nat) : list Z := replicate k 1.

(** [(n >> 1) & 0333...] halves every digit. *)
Lemma land_halves ds : Forall digit ds ->
  Z.land (Z.shiftr (of_oct ds) 1) (of_oct (threes (length ds))) = of_oct ((fun d => d / 2) <$> ds).
Proof.
  induction 1 as [|d ds Hd Hds IH]; [done|].
  rewrite Z.shiftr_div_pow2 in * by done. change (2 ^ 1) with 2 in *.
  cbn [of_oct length threes replicate fmap list_fmap]. fold (threes (length ds)).
  set (n := of_oct ds) in *. pose proof (of_oct_nonneg ds Hds) as Hn. fold n in Hn.
  unfold digit in Hd.
  assert ((d + 8 * n) / 2 = (d / 2 + 4 * (n mod 2)) + 8 * (n / 2)) as ->
    by (Z.to_euclidean_division_equations; lia).
  rewrite land_digit, IH; [|unfold digit; Z.to_euclidean_division_equations; lia|unfold digit; lia].
  f_equal. change 3 with (Z.ones 2). rewrite Z.land_ones by done. change (2 ^ 2) with 4.
  Z.to_euclidean_division_equations. lia.
Qed.

(** [(n >> 2) & 0111...] keeps the top bit of every digit. *)
Lemma land_quarters ds : Forall digit ds ->
  Z.land (Z.shiftr (of_oct ds) 2) (of_oct (ones (length ds))) = of_oct ((fun d => d / 4) <$> ds).
Proof.
  induction 1 as [|d ds Hd Hds IH]; [done|].
  rewrite Z.shiftr_div_pow2 in * by done. change (2 ^ 2) with 4 in *.
  cbn [of_oct length ones replicate fmap list_fmap]. fold (ones (length ds)).
  set (n := of_oct ds) in *. pose proof (of_oct_nonneg ds Hds) as Hn. fold n in Hn.
  unfold digit in Hd.
  assert ((d + 8 * n) / 4 = (d / 4 + 2 * (n mod 4)) + 8 * (n / 4)) as ->
    by (Z.to_euclidean_division_equations; lia).
  rewrite land_digit, IH; [|unfold digit; Z.to_euclidean_division_equations; lia|unfold digit; lia].
  f_equal. change 1 with (Z.ones 1). rewrite Z.land_ones by done. change (2 ^ 1) with 2.
  Z.to_euclidean_division_equations. lia.
Qed.

Lemma of_oct_sub (f g h : Z -> Z) (ds : list Z) :
  of_oct ((fun d => f d - g d - h d) <$> ds) =
  of_oct (f <$> ds) - of_oct (g <$> ds) - of_oct (h <$> ds).
Proof. induction ds; cbn [fmap list_fmap of_oct] in *; lia. Qed.

(** The number of bits of a digit. *)
Definition pop (d : Z) : Z := d - d / 2 - d / 4.

Lemma pop_range d : digit d -> 0 <= pop d <= 3.
Proof. unfold digit, pop. intros. Z.to_euclidean_division_equations. lia. Qed.

Lemma popcount_digit k d n : digit d -> popcount (3 + k) (d + 8 * n) = pop d + popcount k n.
Proof.
  intros Hd. unfold digit in Hd. cbn [Nat.add popcount].
  assert ((d + 8 * n) / 2 / 2 / 2 = n) as -> by (Z.to_euclidean_division_equations; lia).
  assert ((d + 8 * n) mod 2 + ((d + 8 * n) / 2 mod 2 + (d + 8 * n) / 2 / 2 mod 2) = pop d); [|lia].
  unfold pop. Z.to_euclidean_division_equations. lia.
Qed.

Lemma popcount_oct ds : Forall digit ds ->
  popcount (3 * length ds) (of_oct ds) = foldr Z.add 0 (pop <$> ds).
Proof.
  induction 1 as [|d ds Hd Hds IH]; [done|].
  replace (3 * length (d :: ds))%nat with (3 + 3 * length ds)%nat by (simpl; lia).
  cbn [of_oct fmap list_fmap foldr]. by rewrite popcount_digit, IH.
Qed.

(** A word has no bits above the thirty-second. *)
Lemma popcount_high n : is_u32 n -> popcount 33 n = popcount 32 n.
Proof.
  intros Hn.
  assert (H : forall k m, 0 <= m < 2 ^ Z.of_nat k -> popcount (S k) m = popcount k m).
  { induction k as [|k IH]; intros m Hm.
    - simpl in Hm. assert (m = 0) as -> by lia. done.
    - rewrite Nat2Z.inj_succ, Z.pow_succ_r in Hm by lia.
      change (m mod 2 + popcount (S k) (m / 2) = m mod 2 + popcount k (m / 2)). f_equal. apply IH.
      split; [apply Z.div_pos; lia|apply Z.div_lt_upper_bound; lia]. }
  apply (H 32%nat). exact Hn.
Qed.

(** ** The algorithm on eleven digits *)

(** Adding the neighbour to the left, which the shift by three does. *)
Fixpoint pair_sums (ps : list Z) : list Z :=
  match ps with
  | [] => []
  | p :: ps' => match ps' with [] => [p] | q :: _ => (p + q) :: pair_sums ps' end
  end.

Definition small (p : Z) : Prop := 0 <= p <= 3.

Lemma shift_add ps : Forall small ps -> of_oct ps + Z.shiftr (of_oct ps) 3 = of_oct (pair_sums ps).
Proof.
  intros Hps. rewrite Z.shiftr_div_pow2 by done. change (2 ^ 3) with 8.
  assert (H : forall p qs, Forall small (p :: qs) ->
    of_oct (p :: qs) + of_oct qs = of_oct (pair_sums (p :: qs))).
  { intros p qs. revert p. induction qs as [|q qs IH]; intros p Hq; [cbn; lia|].
    apply list.Forall_cons in Hq as [Hp Hq].
    change (pair_sums (p :: q :: qs)) with ((p + q) :: pair_sums (q :: qs)).
    specialize (IH q Hq). cbn [of_oct] in *. lia. }
  destruct Hps as [|p qs Hp Hqs]; [done|]. rewrite <- H by by constructor.
  f_equal. cbn [of_oct]. unfold small in Hp.
  Z.to_euclidean_division_equations. lia.
Qed.

Lemma count_digits ds : Forall digit ds -> length ds = 11%nat ->
  of_oct ds - Z.land (Z.shiftr (of_oct ds) 1) 0xDB6DB6DB - Z.land (Z.shiftr (of_oct ds) 2) 0x49249249 =
  of_oct (pop <$> ds).
Proof.
  intros Hd Hl. rewrite (of_oct_sub (fun d => d) (fun d => d / 2) (fun d => d / 4)), list_fmap_id.
  pose proof (land_halves ds Hd) as H1. pose proof (land_quarters ds Hd) as H2. rewrite Hl in *.
  change (of_oct (threes 11)) with 0xDB6DB6DB in H1. change (of_oct (ones 11)) with 0x49249249 in H2.
  by rewrite H1, H2.
Qed.

Lemma land_mask s n b m :
  0 <= s < 8 -> digit b -> b = 7 \/ b = 0 -> Z.land (s + 8 * n) (b + 8 * m) =
  (if b =? 7 then s else 0) + 8 * Z.land n m.
Proof.
  intros Hs Hb [-> | ->]; rewrite land_digit by (unfold digit; lia).
  - change 7 with (Z.ones 3) at 1. rewrite Z.land_ones by done. by rewrite Z.mod_small.
  - by rewrite Z.land_0_r.
Qed.

Lemma masked_sum p0 p1 p2 p3 p4 p5 p6 p7 p8 p9 p10 :
  Forall small [p0; p1; p2; p3; p4; p5; p6; p7; p8; p9] -> 0 <= p10 <= 2 ->
  Z.land (of_oct (pair_sums [p0; p1; p2; p3; p4; p5; p6; p7; p8; p9; p10])) 0xC71C71C7 mod 63 =
  p0 + (p1 + (p2 + (p3 + (p4 + (p5 + (p6 + (p7 + (p8 + (p9 + p10))))))))).
Proof.
  intros Hp H10. unfold small in Hp. repeat apply list.Forall_cons in Hp as [? Hp]. clear Hp.
  change 0xC71C71C7 with (of_oct [7; 0; 7; 0; 7; 0; 7; 0; 7; 0; 3]).
  cbn [pair_sums of_oct]. change (3 + 8 * 0) with 3.
  rewrite 10 land_mask by (unfold digit; first [lia | by left | by right]). cbn [Z.eqb Pos.eqb].
  rewrite Z.mul_0_r, Z.add_0_r. change 3 with (Z.ones 2) at 1. rewrite Z.land_ones, (Z.mod_small p10) by (simpl; lia).
  match goal with |- ?x mod 63 = ?y => replace x with
    (y + ((p2 + p3) + 65 * (p4 + p5) + 4161 * (p6 + p7) + 266305 * (p8 + p9) + 17043521 * p10) * 63) by lia end.
  rewrite Z.mod_add by done. apply Z.mod_small. lia.
Qed.

Lemma bitcount_popcount n : is_u32 n -> xa_kernel_pd_bitcount n = popcount 32 n.
Proof.
  intros Hn. assert (H8 : 0 <= n < 8 ^ Z.of_nat 11) by (simpl; lia).
  rewrite <- popcount_high by done. unfold xa_kernel_pd_bitcount.
  pose proof (digits_oct 11 n) as Hd. pose proof (of_oct_digits 11 n H8) as E.
  assert (length (oct_digits 11 n) = 11%nat) as Hl by done.
  revert Hd E Hl. generalize (oct_digits 11 n). intros ds Hd E Hl. rewrite <- E in *.
  rewrite count_digits by done. change 33%nat with (3 * 11)%nat. rewrite <- Hl, popcount_oct by done.
  clear H8 E n.
  destruct ds as [|d0 [|d1 [|d2 [|d3 [|d4 [|d5 [|d6 [|d7 [|d8 [|d9 [|d10 [|]]]]]]]]]]]]; try done.
  repeat apply list.Forall_cons in Hd as [? Hd]. clear Hd Hl.
  assert (0 <= d10 < 4) as H10 by (unfold digit in *; cbn [of_oct] in Hn; lia).
  assert (0 <= pop d10 <= 2) as Hp10 by (unfold pop; Z.to_euclidean_division_equations; lia).
  assert (Hs : Forall small [pop d0; pop d1; pop d2; pop d3; pop d4; pop d5; pop d6; pop d7; pop d8; pop d9])
    by (repeat constructor; by apply pop_range).
  cbn [fmap list_fmap foldr].
  rewrite (u32_small (of_oct _)), shift_add, u32_small, masked_sum; try done; [lia|..].
  all: unfold small in Hs; repeat apply list.Forall_cons in Hs as [? Hs]; clear Hs.
  - cbn [pair_sums of_oct]. lia.
  - repeat constructor; unfold small; lia.
  - cbn [of_oct]. lia.
Qed.

(** The bit count of the page directory score is the number of bits set,
    for every 32-bit word. *)
Theorem bitcount_correct n : is_u32 n -> xa_kernel_pd_bitcount n = popcount 32 n.
Proof. apply bitcount_popcount. Qed.

Lemma bitcount_correct_witness : is_u32 0xDEADBEEF /\ xa_kernel_pd_bitcount 0xDEADBEEF = popcount 32 0xDEADBEEF.
Proof. split; [lia|]. apply (bitcount_correct 0xDEADBEEF). lia. Defined.
