(* ===== verification/KernelPd.v ===== *)
(** * The search for the kernel page directory

    Models the last part of xa_memory.c: pages are scored by how alike their
    non-zero words are, candidates are kept when another candidate has the
    same words in the kernel's region (and, for Windows, when an entry points
    back at the page), and the lowest one is returned. *)

From S2P Require Import Prelude CStr Dll XaTypes XaMap Guest PageTable XaCache XaAccess ProcList.
From S2P Require Import Linux WindowsPe Windows BitCount.

(** [memory + offset]: a word of the mapped page. *)
Definition word (m : mapping) (off : Z) : M world Z := load32 m off.

Definition xa_kernel_pd_valid_entry (value msize : Z) : bool :=
  (* basic sanity checks *)
  if value =? 0xffffffff then false
  (* 4 MB page entry *)
  else if negb (xa_get_bit value 7 =? 0) then
    negb (msize <? Z.land value 0xFFE00000)
  (* 4 KB page entry *)
  else negb (msize <? Z.land value 0xFFFFF000).

(** The loop variables of [xa_kernel_pd_score]. *)
Record score_state := Score {
  sc_offset : Z; matches0 : Z; matches1 : Z; started : bool; correction : Z }.

(** [~value] of a uint32_t *)
Definition compl (v : Z) : Z := 0xFFFFFFFF - v.

Section Model.
Context {E : XenEnv}.

(** the inner loop: the offset of the next non-zero word from [off] on and its
    value, [None] when the page has no other *)
Definition second_step (m : mapping) (length off : Z) : M world (Z + Z * option Z) :=
  if off <? length then
    value2 ← word m off;
    if negb (value2 =? 0) then mret (inr (off, Some value2)) else mret (inl (off + 4))
  else mret (inr (off, None)).

Definition score_step (m : mapping) (length msize : Z) (st : score_state)
  : M world (score_state + score_state) :=
  let '(Score offset m0 m1 started correction) := st in
  if offset <? length then
    value ← word m offset;
    (* check for valid PD entries *)
    let correction := if negb (xa_kernel_pd_valid_entry value msize) then correction - 1
                      else correction in
    if negb (value =? 0) then
      if negb started then
        (* start by comparing first two non-zero entries *)
        r ← iter (Z.to_nat length) (second_step m length) (offset + 4);
        match r with
        | (off2, Some value2) =>
            mret (inl (Score (off2 + 4) (Z.land (compl value) (compl value2))
                         (Z.land value value2) true correction))
        | (off2, None) => mret (inl (Score (off2 + 4) m0 m1 started correction))
        end
      else
        (* then add each remaining non-zero entry to the comparison *)
        mret (inl (Score (offset + 4) (Z.land m0 (compl value)) (Z.land m1 value) started correction))
    else mret (inl (Score (offset + 4) m0 m1 started correction))
  else mret (inr st).

Definition xa_kernel_pd_score (memory : option mapping) (length msize : Z) : M world Z :=
  match memory with
  | None => mret 0
  | Some m =>
      st ← iter (Z.to_nat length) (score_step m length msize) (Score 0 0 0 false 0);
      (* score by adding the number of matching 0 or 1 bits *)
      mret (xa_kernel_pd_bitcount (matches0 st) + xa_kernel_pd_bitcount (matches1 st) + correction st)
  end.

Definition checksum_start (i : xa_instance) : Z :=
  if page_offset i =? 0x80000000 then page_size i / 2
  else if page_offset i =? 0xc0000000 then u32 (3 * page_size i) / 4
  else 0.

Fixpoint sum_words (m : mapping) (off : Z) (n : nat) (checksum : Z) : M world Z :=
  match n with
  | O => mret checksum
  | S n' => value ← word m off; sum_words m (off + 4) n' (u32 (checksum + value))
  end.

(** create a simple checksum of the first few entries in the kernel region of
    the PD *)
Definition xa_kernel_pd_checksum (memory : option mapping) : M world Z :=
  match memory with
  | None => mret 0
  | Some m => i ← gets inst; sum_words m (checksum_start i) 8 0
  end.

Fixpoint count_selfref (m : mapping) (address off : Z) (n : nat) (selfref : Z) : M world Z :=
  match n with
  | O => mret selfref
  | S n' =>
      value ← word m off;
      count_selfref m address (off + 4) n'
        (if negb (value =? 0) && (Z.land value 0xFFFFF000 =? address) then selfref + 1 else selfref)
  end.

(** returns the number of entries in this page that, if parsed as a PDE, point
    to the same pfn as the current page *)
Definition xa_kernel_pd_selfref (memory : option mapping) (address : Z) : M world Z :=
  match memory with
  | None => mret 0
  | Some m => i ← gets inst; count_selfref m address 0 (Z.to_nat ((page_size i + 3) / 4)) 0
  end.

(** *** [xa_find_kernel_pd]

    The list of candidates ends with a node whose address is 0. *)

Record candidate := Candidate { cd_address : Z; cd_checksum : Z }.

(** A page is mapped, looked at and unmapped if it could be mapped. *)
Definition with_page {A} (a : Z) (f : option mapping -> M world A) : M world A :=
  r ← xa_access_pa a PROT_READ;
  x ← f r.1;
  _ ← (match r.1 with Some _ => munmap | None => mret tt end : M world unit);
  mret x.

(** One turn of the scan; [inr] gives the addresses of the candidates. *)
Definition scan_step (end_ : Z) (st : Z * list Z) : M world (Z * list Z + list Z) :=
  let '(address, l) := st in
  if address <? end_ then
    score ← with_page address (fun memory =>
              i ← gets inst; xa_kernel_pd_score memory (page_size i) end_);
    i ← gets inst;
    mret (inl (u32 (address + page_size i), if 0 <? score then l ++ [address] else l))
  else mret (inr l).

(** The loops over the list stop at the first address that is 0. *)
Fixpoint upto_zero (l : list Z) : list Z :=
  match l with [] => [] | a :: l' => if a =? 0 then [] else a :: upto_zero l' end.

(** create a simple checksum for each page *)
Fixpoint add_checksums (l : list Z) : M world (list candidate) :=
  match l with
  | [] => mret []
  | a :: l' =>
      c ← with_page a xa_kernel_pd_checksum;
      rest ← add_checksums l';
      mret (Candidate a c :: rest)
  end.

(** the number of candidates with the same entries, less one for itself *)
Definition matches_of (l : list candidate) (c : candidate) : Z :=
  foldr (fun c2 n => if (cd_checksum c =? cd_checksum c2) && negb (cd_checksum c =? 0)
                     then n + 1 else n) (-1) l.

(** check for self referencing entries, and keep the candidates that have one *)
Fixpoint keep_selfref (l : list candidate) : M world (list candidate) :=
  match l with
  | [] => mret []
  | c :: l' =>
      selfref ← with_page (cd_address c) (fun memory => xa_kernel_pd_selfref memory (cd_address c));
      rest ← keep_selfref l';
      mret (if selfref <=? 0 then rest else c :: rest)
  end.

(** Without any candidate the first node was never written to. *)
Definition xa_find_kernel_pd (n : nat) : M world Z :=
  i ← gets inst;
  l ← iter n (scan_step (memory_end i)) (0, []);
  _ ← assert_m (negb (length l =? 0)%nat);
  cs ← add_checksums (upto_zero l);
  (* remove the ones that didn't have matches *)
  let cs := filter (fun c => 0 < matches_of cs c) cs in
  i ← gets inst;
  cs ← (if os_type i =? XA_OS_WINDOWS then keep_selfref cs else mret cs : M world (list candidate));
  i ← gets inst;
  (* return the lowest physical address that is still in the list *)
  mret (u32 (match cs with c :: _ => cd_address c | [] => 0 end + page_offset i)).
End Model.

(** ** The score of a page *)

Definition nonzero (ws : list Z) : list Z := filter (fun v => v <> 0) ws.

Definition penalty (msize v : Z) : Z := if xa_kernel_pd_valid_entry v msize then 0 else 1.

Definition penalties (msize : Z) (vs : list Z) : Z := foldr (fun v n => penalty msize v + n) 0 vs.

(** The bits that are one, and the bits that are zero, in every word. *)
Definition all_ones (v : Z) (vs : list Z) : Z := foldl Z.land v vs.
Definition all_zeros (v : Z) (vs : list Z) : Z := foldl (fun m v => Z.land m (compl v)) (compl v) vs.

(** Of the non-zero words every one but the second is checked. *)
Definition score_spec (msize : Z) (ws : list Z) : Z :=
  match nonzero ws with
  | [] => 0
  | [v] => - penalty msize v
  | v :: v2 :: vs =>
      popcount 32 (all_zeros v (v2 :: vs)) + popcount 32 (all_ones v (v2 :: vs))
      - (penalty msize v + penalties msize vs)
  end.

Lemma compl_u32 v : is_u32 v -> is_u32 (compl v).
Proof. unfold compl. lia. Qed.

Lemma land_u32 a b : is_u32 a -> is_u32 b -> is_u32 (Z.land a b).
Proof.
  intros Ha Hb. rewrite <- (Z.mod_small b (2 ^ 32)) by exact Hb.
  rewrite <- Z.land_ones, Z.land_assoc, Z.land_ones by done. apply Z.mod_pos_bound. done.
Qed.

Lemma all_ones_u32 vs : Forall (fun v => is_u32 v) vs -> forall v, is_u32 v -> is_u32 (all_ones v vs).
Proof.
  induction 1 as [|x vs Hx Hvs IH]; intros v Hv; [done|]. apply IH. by apply land_u32.
Qed.

Lemma all_zeros_u32 vs : Forall (fun v => is_u32 v) vs -> forall m, is_u32 m ->
  is_u32 (foldl (fun m v => Z.land m (compl v)) m vs).
Proof.
  induction 1 as [|x vs Hx Hvs IH]; intros v Hv; [done|]. apply IH. apply land_u32; [done|].
  by apply compl_u32.
Qed.

Section Score.
Context {E : XenEnv}.
Variables (m : mapping) (len msize : Z).
Hypothesis Hlen : m_len m = len.
Hypothesis Hsize : 0 <= msize.
Implicit Types (w : world).

Lemma word_eq off w : 0 <= off -> off + 4 <= len -> word m off w = Ret (field m off, w).
Proof.
  intros H1 H2. unfold word, load32, load.
  rewrite Hlen. by rewrite (proj2 (Z.leb_le 0 off)), (proj2 (Z.leb_le _ len)) by lia.
Qed.

Lemma nonzero_cons v ws : nonzero (v :: ws) = if v =? 0 then nonzero ws else v :: nonzero ws.
Proof.
  unfold nonzero. rewrite filter_cons. destruct (Z.eqb_spec v 0) as [->|Hv].
  - by rewrite decide_False by auto.
  - by rewrite decide_True by done.
Qed.

Lemma penalty_zero : penalty msize 0 = 0.
Proof.
  unfold penalty, xa_kernel_pd_valid_entry. change (Z.land 0 0xFFFFF000) with 0.
  change (negb (xa_get_bit 0 7 =? 0)) with false. cbv iota.
  by rewrite (proj2 (Z.ltb_ge msize 0)) by lia.
Qed.

Lemma penalties_nonzero ws : penalties msize (nonzero ws) = penalties msize ws.
Proof.
  induction ws as [|v ws IH]; [done|]. rewrite nonzero_cons.
  destruct (Z.eqb_spec v 0) as [->|]; simpl; rewrite IH; [by rewrite penalty_zero|done].
Qed.

(** The inner loop finds the next non-zero word. *)
Lemma second_eq k : forall n off w,
  0 <= off -> off + 4 * Z.of_nat k = len -> (k < n)%nat ->
  exists o2 r, iter n (second_step m len) off w = Ret ((o2, r), w) /\
    match r with
    | Some v2 => exists k', o2 + 4 + 4 * Z.of_nat k' = len /\ (k' < k)%nat /\ 0 <= o2 /\
        nonzero (words m off k) = v2 :: nonzero (words m (o2 + 4) k')
    | None => o2 = len /\ nonzero (words m off k) = []
    end.
Proof.
  induction k as [|k IH]; intros n off w H0 Hk Hn; (destruct n as [|n]; [lia|]); rewrite iter_S;
    unfold second_step at 2.
  - rewrite (proj2 (Z.ltb_ge off len)) by lia. exists off, None. split; [done|]. split; [lia|done].
  - rewrite (proj2 (Z.ltb_lt off len)) by lia. cbn [words]. rewrite nonzero_cons.
    destruct (field m off =? 0) eqn:Ez.
    + destruct (IH n (off + 4) w) as (o2 & r & Hit & Hr); [lia|lia|lia|]. exists o2, r. split.
      { erewrite bind_eq. 2:{ erewrite bind_eq by (apply word_eq; lia). by rewrite Ez. } exact Hit. }
      destruct r as [v2|]; [|done]. destruct Hr as (k' & ? & ? & ? & ?). exists k'. auto with lia.
    + exists off, (Some (field m off)). split.
      { erewrite bind_eq. 2:{ erewrite bind_eq by (apply word_eq; lia). by rewrite Ez. } done. }
      exists k. split; [lia|]. split; [lia|]. done.
Qed.

Lemma correction_eq v c :
  (if negb (xa_kernel_pd_valid_entry v msize) then c - 1 else c) = c - penalty msize v.
Proof. unfold penalty. destruct (xa_kernel_pd_valid_entry v msize); simpl; lia. Qed.

(** Once two words were compared, the rest of the page is folded in. *)
Lemma started_eq k : forall n off m0 m1 c w,
  0 <= off -> off + 4 * Z.of_nat k = len -> (k < n)%nat ->
  iter n (score_step m len msize) (Score off m0 m1 true c) w =
  Ret (Score len (foldl (fun m v => Z.land m (compl v)) m0 (nonzero (words m off k)))
         (foldl Z.land m1 (nonzero (words m off k))) true
         (c - penalties msize (nonzero (words m off k))), w).
Proof.
  induction k as [|k IH]; intros n off m0 m1 c w H0 Hk Hn; (destruct n as [|n]; [lia|]);
    rewrite iter_S; unfold score_step at 2.
  - rewrite (proj2 (Z.ltb_ge off len)) by lia.
    change (nonzero (words m off 0)) with (@nil Z). cbn [foldl penalties foldr].
    assert (off = len) as -> by lia. by rewrite Z.sub_0_r.
  - rewrite (proj2 (Z.ltb_lt off len)) by lia. cbn [words]. rewrite nonzero_cons.
    set (v := field m off). destruct (Z.eqb_spec v 0) as [Ez|Ez].
    + erewrite bind_eq. 2:{ erewrite bind_eq by (apply word_eq; lia). fold v. rewrite Ez. done. }
      cbv beta iota. rewrite IH by lia. by rewrite correction_eq, penalty_zero, Z.sub_0_r.
    + erewrite bind_eq. 2:{ erewrite bind_eq by (apply word_eq; lia). fold v.
        rewrite (proj2 (Z.eqb_neq _ _)) by done. done. }
      cbv beta iota. rewrite IH by lia. rewrite correction_eq.
      change (penalties msize (v :: nonzero (words m (off + 4) k)))
        with (penalty msize v + penalties msize (nonzero (words m (off + 4) k))).
      by rewrite Z.sub_add_distr.
Qed.

Definition totals (ws : list Z) (c : Z) : Z * Z * Z :=
  match nonzero ws with
  | [] => (0, 0, c)
  | [v] => (0, 0, c - penalty msize v)
  | v :: v2 :: vs => (all_zeros v (v2 :: vs), all_ones v (v2 :: vs),
                      c - (penalty msize v + penalties msize vs))
  end.

Lemma unstarted_eq k : forall n off c w,
  0 <= off -> off + 4 * Z.of_nat k = len -> (k < n)%nat -> 4 * Z.of_nat k <= len ->
  exists st, iter n (score_step m len msize) (Score off 0 0 false c) w = Ret (st, w) /\
    (matches0 st, matches1 st, correction st) = totals (words m off k) c.
Proof.
  induction k as [|k IH]; intros n off c w H0 Hk Hn Hl; (destruct n as [|n]; [lia|]);
    rewrite iter_S; unfold score_step at 2.
  - rewrite (proj2 (Z.ltb_ge off len)) by lia. by eexists.
  - rewrite (proj2 (Z.ltb_lt off len)) by lia. unfold totals. cbn [words]. rewrite nonzero_cons.
    set (v := field m off). destruct (Z.eqb_spec v 0) as [Ez|Ez].
    + destruct (IH n (off + 4) c w) as (st & Hit & Hst); [lia|lia|lia|lia|].
      exists st. split; [|exact Hst]. erewrite bind_eq.
      2:{ erewrite bind_eq by (apply word_eq; lia). fold v. rewrite Ez. done. }
      cbv beta iota. rewrite correction_eq, penalty_zero, Z.sub_0_r. exact Hit.
    + destruct (second_eq k (Z.to_nat len) (off + 4) w) as (o2 & r & Hit & Hr); [lia|lia|lia|].
      destruct r as [v2|].
      * destruct Hr as (k' & Hk' & Hlt & Ho2 & Hnz). rewrite Hnz.
        eexists. split.
        { erewrite bind_eq.
          2:{ erewrite bind_eq by (apply word_eq; lia). fold v.
              rewrite (proj2 (Z.eqb_neq _ _)) by done. cbn [negb].
              erewrite bind_eq by exact Hit. done. }
          cbv beta iota. apply (started_eq k'); lia. }
        cbn [matches0 matches1 correction]. rewrite correction_eq. f_equal. lia.
      * destruct Hr as [-> Hnz]. rewrite Hnz. destruct n as [|n]; [lia|]. eexists. split.
        { erewrite bind_eq.
          2:{ erewrite bind_eq by (apply word_eq; lia). fold v.
              rewrite (proj2 (Z.eqb_neq _ _)) by done. cbn [negb].
              erewrite bind_eq by exact Hit. done. }
          cbv beta iota. rewrite iter_S. unfold score_step.
          rewrite (proj2 (Z.ltb_ge (len + 4) len)) by lia. done. }
        cbn [matches0 matches1 correction]. by rewrite correction_eq.
Qed.

Lemma words_u32 k : forall off, Forall (fun v => is_u32 v) (words m off k).
Proof.
  induction k as [|k IH]; intros off; constructor; [|apply IH].
  apply (le_combine_range (bytes m off 4)), bytes_u8.
Qed.

Lemma score_eq w :
  0 <= len -> len mod 4 = 0 -> 8 <= len ->
  xa_kernel_pd_score (Some m) len msize w =
  Ret (score_spec msize (words m 0 (Z.to_nat (len / 4))), w).
Proof.
  intros H0 H4 H8. unfold xa_kernel_pd_score.
  destruct (unstarted_eq (Z.to_nat (len / 4)) (Z.to_nat len) 0 0 w) as (st & Hit & Hst).
  { lia. }
  all: try (Z.to_euclidean_division_equations; lia).
  erewrite bind_eq by exact Hit. unfold mret, M_ret. do 2 f_equal.
  unfold totals, score_spec in *.
  assert (Hu : Forall (fun v => is_u32 v) (nonzero (words m 0 (Z.to_nat (len / 4))))).
  { apply list.Forall_forall. intros v [_ Hv]%list_elem_of_filter.
    pose proof (words_u32 (Z.to_nat (len / 4)) 0) as Hw. rewrite list.Forall_forall in Hw. auto. }
  assert (Hb : forall x, is_u32 x -> xa_kernel_pd_bitcount x = popcount 32 x) by apply bitcount_popcount.
  destruct (nonzero _) as [|v [|v2 vs]]; injection Hst as -> -> ->.
  - done.
  - change (xa_kernel_pd_bitcount 0) with 0. lia.
  - apply list.Forall_cons in Hu as [Hv Hu]. change (all_ones (Z.land v v2) vs) with (all_ones v (v2 :: vs)).
    rewrite !Hb; [lia| |].
    + by apply all_ones_u32.
    + apply all_zeros_u32; [done|by apply compl_u32].
Qed.
End Score.

(** ** What the search finds *)

(** Filtering with predicates that agree on the list. *)
Lemma filter_ext_in {A} (P Q : A -> Prop) `{!forall a, Decision (P a)} `{!forall a, Decision (Q a)} (l : list A) :
  (forall a, a ∈ l -> P a <-> Q a) -> filter P l = filter Q l.
Proof.
  induction l as [|a l IH]; intros Hpq; [done|]. rewrite !filter_cons, IH.
  2:{ intros b Hb. by apply Hpq, list_elem_of_further. }
  specialize (Hpq a ltac:(apply list_elem_of_here)).
  destruct (decide (P a)), (decide (Q a)); tauto.
Qed.

Lemma filter_fmap {A B} (f : A -> B) (P : B -> Prop) `{!forall b, Decision (P b)} (l : list A) :
  filter P (f <$> l) = f <$> filter (fun a => P (f a)) l.
Proof.
  induction l as [|a l IH]; [done|]. cbn [fmap list_fmap]. rewrite !filter_cons. fold (fmap f l).
  destruct (decide (P (f a))); cbn [fmap list_fmap]; by rewrite IH.
Qed.

Section Find.
Context {E : XenEnv} {W : WholePages}.
Implicit Types (w : world) (l : list Z).
Variable i : xa_instance.
Hypothesis Hgeo : geometry i.
Hypothesis Hphys : hvm i <> 0 \/ mode i = XA_MODE_FILE.
Hypothesis Hoff : page_offset i = 0x80000000 \/ page_offset i = 0xc0000000.
Abbreviation end_ := (memory_end i).
Hypothesis Hend : is_u32 end_.

Definition page (a : Z) : option mapping := frame_of i PROT_READ (a / 4096).

Definition page_score (a : Z) : Z :=
  match page a with Some m => score_spec end_ (words m 0 1024) | None => 0 end.

Definition page_checksum (a : Z) : Z :=
  match page a with
  | Some m => foldl (fun c v => u32 (c + v)) 0 (words m (checksum_start i) 8)
  | None => 0
  end.

(** Entries of the page that point back at it. *)
Definition page_selfref (a : Z) : Z :=
  match page a with
  | Some m => Z.of_nat (length (filter (fun v => v <> 0 /\ Z.land v 0xFFFFF000 = a) (words m 0 1024)))
  | None => 0
  end.

Definition memory_pages : list Z := (fun k => 4096 * k) <$> seqZ 0 ((end_ + 4095) / 4096).

(** The pages that look like page directories, up to the first at address 0. *)
Definition scored : list Z := filter (fun a => 0 < page_score a) memory_pages.
Definition cands : list Z := upto_zero scored.

(** Another candidate has the same entries in the kernel's region; under
    Windows an entry points back at the page. *)
Definition qualifies (a : Z) : Prop :=
  page_checksum a <> 0 /\ Exists (fun b => b <> a /\ page_checksum b = page_checksum a) cands /\
  (os_type i = XA_OS_WINDOWS -> 0 < page_selfref a).

#[local] Instance qualifies_dec a : Decision (qualifies a).
Proof. unfold qualifies. apply _. Defined.

(** Mapping a page, looking at it and unmapping it again. *)
Lemma on_page {A} (f : option mapping -> M world A) (v : A) a w :
  inst w = i -> is_u32 a ->
  (forall w', inst w' = i -> f (page a) w' = Ret (v, w')) ->
  with_page a f w = Ret (v, w).
Proof.
  intros Hi Ha Hf. unfold with_page. erewrite bind_eq by (apply xa_access_pa_eq; rewrite ?Hi; done).
  cbn [fst]. rewrite Hi. fold (page a).
  erewrite bind_eq by (apply Hf; by destruct (page a)).
  destruct (page a); [|done]. unfold mbind, M_bind, munmap, modify, mret, M_ret. simpl.
  by rewrite live_maps_undo.
Qed.

Lemma page_len a m : page a = Some m -> m_len m = 4096.
Proof. by apply frame_whole. Qed.

Lemma page_score_eq a w :
  inst w = i -> xa_kernel_pd_score (page a) 4096 end_ w = Ret (page_score a, w).
Proof.
  intros Hi. unfold page_score. destruct (page a) as [m|] eqn:Em; [|done].
  apply page_len in Em. by rewrite (score_eq m 4096 end_ Em) by (done || lia).
Qed.

Lemma sum_words_eq m k : forall off c w, m_len m = 4096 -> 0 <= off -> off + 4 * Z.of_nat k <= 4096 ->
  sum_words m off k c w = Ret (foldl (fun c v => u32 (c + v)) c (words m off k), w).
Proof.
  induction k as [|k IH]; intros off c w Hm H1 H2; [done|]. cbn [sum_words words foldl].
  erewrite bind_eq by (apply (word_eq m 4096 Hm); lia). apply IH; [done|lia|lia].
Qed.

Lemma page_checksum_eq a w :
  inst w = i -> xa_kernel_pd_checksum (page a) w = Ret (page_checksum a, w).
Proof.
  intros Hi. unfold page_checksum. destruct (page a) as [m|] eqn:Em; [|done].
  unfold xa_kernel_pd_checksum. erewrite bind_eq by done. rewrite Hi.
  assert (0 <= checksum_start i <= 3072) as Hs.
  { unfold checksum_start. destruct Hgeo as [_ ->]. destruct Hoff as [-> | ->]; vm_compute; split; discriminate. }
  apply sum_words_eq; [by eapply page_len|lia|lia].
Qed.

Lemma count_selfref_eq m a k : forall off n w, m_len m = 4096 -> 0 <= off -> off + 4 * Z.of_nat k <= 4096 ->
  count_selfref m a off k n w =
  Ret (n + Z.of_nat (length (filter (fun v => v <> 0 /\ Z.land v 0xFFFFF000 = a) (words m off k))), w).
Proof.
  induction k as [|k IH]; intros off n w Hm H1 H2.
  { cbn [count_selfref words]. rewrite filter_nil. simpl. by rewrite Z.add_0_r. }
  cbn [count_selfref words]. erewrite bind_eq by (apply (word_eq m 4096 Hm); lia).
  rewrite IH by (done || lia). rewrite filter_cons.
  destruct (Z.eqb_spec (field m off) 0), (Z.eqb_spec (Z.land (field m off) 0xFFFFF000) a); cbn [negb andb].
  1-2,4: rewrite decide_False by tauto; done.
  rewrite decide_True by tauto. cbn [length]. do 2 f_equal. lia.
Qed.

Lemma page_selfref_eq a w :
  inst w = i -> xa_kernel_pd_selfref (page a) a w = Ret (page_selfref a, w).
Proof.
  intros Hi. unfold page_selfref. destruct (page a) as [m|] eqn:Em; [|done].
  unfold xa_kernel_pd_selfref. erewrite bind_eq by done. rewrite Hi.
  destruct Hgeo as [_ ->]. change (Z.to_nat ((4096 + 3) / 4)) with 1024%nat.
  rewrite count_selfref_eq; [by rewrite Z.add_0_l|by eapply page_len|lia|lia].
Qed.

(** *** The scan *)

Lemma scan_step_eq k l w :
  inst w = i -> 0 <= k -> 4096 * k < 0x100000000 ->
  scan_step end_ (4096 * k, l) w =
  Ret (if 4096 * k <? end_ then
         inl (u32 (4096 * k + 4096), if 0 <? page_score (4096 * k) then l ++ [4096 * k] else l)
       else inr l, w).
Proof.
  intros Hi Hk Hlt. unfold scan_step. destruct (4096 * k <? end_); [|done].
  assert (page_size i = 4096) as Hps by apply Hgeo.
  erewrite bind_eq.
  2:{ apply (on_page _ (page_score (4096 * k))); [done|lia|]. intros w' Hi'.
      erewrite bind_eq by done. rewrite Hi', Hps. by apply page_score_eq. }
  erewrite bind_eq by done. by rewrite Hi, Hps.
Qed.

(** Number of pages, the last one possibly partial. *)
Definition num_pages : Z := (end_ + 4095) / 4096.

Lemma scan_eq : forall m k l w n,
  inst w = i -> end_ <= 0xFFFFF000 -> 0 <= k -> k + Z.of_nat m = num_pages -> (m < n)%nat ->
  iter n (scan_step end_) (4096 * k, l) w =
  Ret (l ++ filter (fun a => 0 < page_score a) ((fun k => 4096 * k) <$> seqZ k (Z.of_nat m)), w).
Proof.
  unfold num_pages. induction m as [|m IH]; intros k l w n Hi He Hk Hm Hn; (destruct n as [|n]; [lia|]);
    rewrite iter_S.
  - erewrite bind_eq by (apply scan_step_eq; [done|done|Z.to_euclidean_division_equations; lia]).
    rewrite (proj2 (Z.ltb_ge _ _)) by (Z.to_euclidean_division_equations; lia).
    simpl. by rewrite app_nil_r.
  - assert (4096 * k < end_) by (Z.to_euclidean_division_equations; lia).
    erewrite bind_eq by (apply scan_step_eq; [done|done|lia]).
    rewrite (proj2 (Z.ltb_lt _ _)) by done. cbv beta iota.
    rewrite u32_small by lia. replace (4096 * k + 4096) with (4096 * (k + 1)) by lia.
    rewrite IH by (done || lia). rewrite (seqZ_cons k) by lia. cbn [fmap list_fmap].
    replace (Z.pred (Z.of_nat (S m))) with (Z.of_nat m) by lia. replace (Z.succ k) with (k + 1) by lia.
    rewrite filter_cons. destruct (Z.ltb_spec 0 (page_score (4096 * k))).
    + rewrite decide_True by done. by rewrite <- app_assoc.
    + by rewrite decide_False by lia.
Qed.

(** Above 0xFFFFF000 the address wraps before it reaches the end. *)
Lemma scan_diverges : forall n k l w,
  inst w = i -> 0xFFFFF000 < end_ -> 0 <= k < 0x100000 ->
  iter n (scan_step end_) (4096 * k, l) w = Diverge.
Proof.
  induction n as [|n IH]; intros k l w Hi He Hk; [done|]. rewrite iter_S.
  erewrite bind_eq by (apply scan_step_eq; [done|lia|lia]).
  rewrite (proj2 (Z.ltb_lt _ _)) by lia. cbv beta iota.
  assert (exists k', u32 (4096 * k + 4096) = 4096 * k' /\ 0 <= k' < 0x100000) as (k' & -> & Hk').
  { exists ((k + 1) mod 0x100000). split; [|apply Z.mod_pos_bound; lia].
    unfold u32. change 4294967296 with (4096 * 0x100000).
    replace (4096 * k + 4096) with (4096 * (k + 1)) by lia. by rewrite Z.mul_mod_distr_l. }
  by apply IH.
Qed.

(** *** The candidates *)

Definition with_checksum (a : Z) : candidate := Candidate a (page_checksum a).

Lemma add_checksums_eq l w :
  inst w = i -> Forall (fun a => is_u32 a) l -> add_checksums l w = Ret (with_checksum <$> l, w).
Proof.
  intros Hi. induction 1 as [|a l Ha Hl IH]; [done|]. cbn [add_checksums fmap list_fmap].
  erewrite bind_eq.
  2:{ apply (on_page _ (page_checksum a)); [done|done|]. intros w'. apply page_checksum_eq. }
  by erewrite bind_eq by exact IH.
Qed.

Lemma keep_selfref_eq l w :
  inst w = i -> Forall (fun a => is_u32 a) l ->
  keep_selfref (with_checksum <$> l) w =
  Ret (with_checksum <$> filter (fun a => 0 < page_selfref a) l, w).
Proof.
  intros Hi. induction 1 as [|a l Ha Hl IH]; [done|]. cbn [keep_selfref fmap list_fmap].
  erewrite bind_eq.
  2:{ apply (on_page _ (page_selfref a)); [done|done|]. intros w'. apply page_selfref_eq. }
  erewrite bind_eq by exact IH. rewrite filter_cons.
  destruct (Z.leb_spec (page_selfref a) 0).
  - by rewrite decide_False by lia.
  - by rewrite decide_True by lia.
Qed.

(** The counter starts at -1 for the candidate itself: it is positive exactly
    when there is another one. *)
Definition same_checksum (a b : Z) : Prop := page_checksum a = page_checksum b /\ page_checksum a <> 0.

#[local] Instance same_checksum_dec a b : Decision (same_checksum a b).
Proof. unfold same_checksum. apply _. Defined.

Lemma matches_of_eq l a :
  matches_of (with_checksum <$> l) (with_checksum a) =
  Z.of_nat (length (filter (same_checksum a) l)) - 1.
Proof.
  unfold matches_of. induction l as [|b l IH]; [done|]. cbn [fmap list_fmap foldr].
  rewrite IH. cbn [cd_checksum with_checksum]. rewrite filter_cons.
  destruct (Z.eqb_spec (page_checksum a) (page_checksum b)), (Z.eqb_spec (page_checksum a) 0); cbn [negb andb].
  1,3-4: rewrite decide_False by (by intros []); done.
  rewrite decide_True by done. cbn [length]. lia.
Qed.

Lemma matches_positive l a :
  NoDup l -> a ∈ l ->
  0 < matches_of (with_checksum <$> l) (with_checksum a) <->
  page_checksum a <> 0 /\ Exists (fun b => b <> a /\ page_checksum b = page_checksum a) l.
Proof.
  intros Hnd Ha. rewrite matches_of_eq. rewrite list.Exists_exists. split.
  - intros Hlt. destruct (filter (same_checksum a) l) as [|x [|y r]] eqn:Ef; simpl in Hlt; [lia|lia|].
    assert (Hx : x ∈ filter (same_checksum a) l) by (rewrite Ef; apply list_elem_of_here).
    assert (Hy : y ∈ filter (same_checksum a) l) by (rewrite Ef; apply list_elem_of_further, list_elem_of_here).
    apply list_elem_of_filter in Hx as [[Hx Hx0] Hxl]. apply list_elem_of_filter in Hy as [[Hy _] Hyl].
    split; [done|].
    assert (x <> y). { intros ->. apply (list.NoDup_filter (same_checksum a)) in Hnd. rewrite Ef in Hnd.
      apply list.NoDup_cons in Hnd as [Hnd _]. apply Hnd, list_elem_of_here. }
    destruct (decide (x = a)) as [->|]; [exists y|exists x]; (split; [done|]); (split; [congruence|done]).
  - intros (H0 & b & Hb & Hne & Hc).
    assert (Hsub : [a; b] ⊆+ filter (same_checksum a) l).
    { apply NoDup_submseteq.
      - apply list.NoDup_cons. split; [by intros ->%list_elem_of_singleton|apply NoDup_singleton].
      - intros x [-> | ->%list_elem_of_singleton]%elem_of_cons; apply list_elem_of_filter; by repeat split. }
    apply submseteq_length in Hsub. simpl in Hsub. lia.
Qed.

Lemma upto_zero_sub l a : a ∈ upto_zero l -> a ∈ l.
Proof.
  induction l as [|b l IH]; [done|]. cbn [upto_zero]. destruct (b =? 0); [by intros ?%not_elem_of_nil|].
  intros [-> | Hin]%elem_of_cons; [apply list_elem_of_here|by apply list_elem_of_further, IH].
Qed.

Lemma upto_zero_NoDup l : NoDup l -> NoDup (upto_zero l).
Proof.
  induction 1 as [|b l Hb Hl IH]; [constructor|]. cbn [upto_zero].
  destruct (b =? 0); [constructor|]. apply list.NoDup_cons. split; [|done].
  by intros ?%upto_zero_sub.
Qed.

Lemma cands_in a : a ∈ cands -> exists k, a = 4096 * k /\ 0 <= k < num_pages.
Proof.
  intros H%upto_zero_sub%list_elem_of_filter. destruct H as [_ H].
  apply list_elem_of_fmap in H as (k & -> & Hk%elem_of_seqZ). exists k. split; [done|].
  unfold num_pages. lia.
Qed.

Lemma cands_u32 : Forall (fun a => is_u32 a) cands.
Proof.
  apply list.Forall_forall. intros a (k & -> & Hk)%cands_in. unfold num_pages in Hk.
  Z.to_euclidean_division_equations. lia.
Qed.

Lemma cands_NoDup : NoDup cands.
Proof.
  apply upto_zero_NoDup, list.NoDup_filter, NoDup_fmap_2; [intros x y; lia|apply NoDup_seqZ].
Qed.

(** The two rounds of removals keep what qualifies. *)
Lemma removals :
  (if os_type i =? XA_OS_WINDOWS
   then filter (fun a => 0 < page_selfref a)
          (filter (fun a => 0 < matches_of (with_checksum <$> cands) (with_checksum a)) cands)
   else filter (fun a => 0 < matches_of (with_checksum <$> cands) (with_checksum a)) cands) =
  filter qualifies cands.
Proof.
  destruct (Z.eqb_spec (os_type i) XA_OS_WINDOWS) as [Ho|Ho]; [rewrite list_filter_filter|];
    apply filter_ext_in; intros a Ha; rewrite (matches_positive cands a cands_NoDup Ha);
    unfold qualifies; tauto.
Qed.

Lemma find_none n w :
  inst w = i -> end_ <= 0xFFFFF000 -> scored = [] -> num_pages < Z.of_nat n ->
  xa_find_kernel_pd n w = Fault.
Proof.
  intros Hi He Hs Hn. assert (0 <= num_pages) by (unfold num_pages; apply Z.div_pos; lia).
  unfold xa_find_kernel_pd. erewrite bind_eq by done. rewrite Hi.
  pose proof (scan_eq (Z.to_nat num_pages) 0 [] w n Hi He) as Hscan.
  rewrite Z.mul_0_r, Z2Nat.id in Hscan by done. erewrite bind_eq by (apply Hscan; lia).
  change ([] ++ _) with scored. by rewrite Hs.
Qed.

Lemma find_eq n w :
  inst w = i -> end_ <= 0xFFFFF000 -> scored <> [] -> num_pages < Z.of_nat n ->
  xa_find_kernel_pd n w =
  Ret (u32 (match filter qualifies cands with a :: _ => a | [] => 0 end + page_offset i), w).
Proof.
  intros Hi He Hne Hn. assert (0 <= num_pages) by (unfold num_pages; apply Z.div_pos; lia).
  unfold xa_find_kernel_pd. erewrite bind_eq by done. rewrite Hi.
  pose proof (scan_eq (Z.to_nat num_pages) 0 [] w n Hi He) as Hscan.
  rewrite Z.mul_0_r, Z2Nat.id in Hscan by done. erewrite bind_eq by (apply Hscan; lia).
  change ([] ++ _) with scored.
  assert (Hl : negb (length scored =? 0)%nat = true) by by destruct scored.
  unfold assert_m at 1. rewrite Hl. rewrite bind_ret_l.
  erewrite bind_eq by (apply add_checksums_eq; [done|apply cands_u32]). fold cands.
  erewrite bind_eq by done. rewrite Hi, filter_fmap.
  assert (Hf : Forall (fun a => is_u32 a)
    (filter (fun a => 0 < matches_of (with_checksum <$> cands) (with_checksum a)) cands)).
  { apply list.Forall_forall. intros a [_ Ha]%list_elem_of_filter.
    pose proof cands_u32 as Hc. rewrite list.Forall_forall in Hc. auto. }
  pose proof removals as Hrem.
  destruct (os_type i =? XA_OS_WINDOWS).
  - erewrite bind_eq by (apply keep_selfref_eq; [done|exact Hf]). rewrite Hrem.
    erewrite bind_eq by done. rewrite Hi. by destruct (filter qualifies cands).
  - rewrite bind_ret_l, Hrem. erewrite bind_eq by done. rewrite Hi. by destruct (filter qualifies cands).
Qed.
End Find.

(** ** Properties *)

Section Properties.
Context {E : XenEnv} {W : WholePages}.
Implicit Types (w : world).

(** The score of a page is the number of bit positions at which all its
    non-zero words agree, less one for every non-zero word but the second that
    could not be a page directory entry; a page with fewer than two non-zero
    words has no agreeing positions. *)
Theorem pd_score_correct m msize w :
  m_len m = 4096 -> 0 <= msize ->
  xa_kernel_pd_score (Some m) 4096 msize w = Ret (score_spec msize (words m 0 1024), w).
Proof. intros Hm Hs. by apply score_eq. Qed.

(** C18: the search for the kernel page directory ends exactly when the memory
    size is at most 0xFFFFF000.  When some page has a positive score it
    returns the virtual address of the lowest candidate that qualifies (or of
    page 0 when none does) and leaves everything as it was; when none has, it
    reads a list node that was never written. *)
Theorem find_kernel_pd_correct w (i := inst w) :
  geometry i -> hvm i <> 0 \/ mode i = XA_MODE_FILE ->
  page_offset i = 0x80000000 \/ page_offset i = 0xc0000000 -> is_u32 (memory_end i) ->
  (memory_end i <= 0xFFFFF000 -> forall n, num_pages i < Z.of_nat n ->
     xa_find_kernel_pd n w =
     if decide (scored i = []) then Fault
     else Ret (u32 (match filter (qualifies i) (cands i) with a :: _ => a | [] => 0 end + page_offset i), w)) /\
  (0xFFFFF000 < memory_end i -> forall n, xa_find_kernel_pd n w = Diverge).
Proof.
  intros Hg Hp Ho He. split.
  - intros Hle n Hn. destruct (decide (scored i = [])) as [Hs|Hs].
    + by apply (find_none i Hg Hp).
    + by apply (find_eq i Hg Hp Ho).
  - intros Hlt n. unfold xa_find_kernel_pd. erewrite bind_eq by done. fold i.
    unfold mbind, M_bind at 1. by rewrite (scan_diverges i Hg Hp He n 0 [] w) by (done || lia).
Qed.
End Properties.

(** *** Witnesses *)

(** Two pages with the same kernel entries. *)
Definition pd_image : image := [(0x1C00, 0x83); (0x1C04, 0x87); (0x2C00, 0x83); (0x2C04, 0x87)].

Definition pd_inst : xa_instance := set_m_file (FileSource 0x3000) (guest_inst 1 0).

#[local] Instance pd_env : XenEnv := guest_env pd_image.
#[local] Instance pd_whole : WholePages := guest_whole _.

Lemma pd_score_correct_witness :
  xa_kernel_pd_score (page pd_inst 0x1000) 4096 0x3000 (guest_world pd_inst) =
  Ret (31, guest_world pd_inst).
Proof.
  change (page pd_inst 0x1000) with (Some (guest_frame pd_image 0x1000)).
  refine (eq_trans (pd_score_correct (guest_frame pd_image 0x1000) 0x3000 (guest_world pd_inst) _ _) _).
  - reflexivity.
  - lia.
  - assert (score_spec 0x3000 (words (guest_frame pd_image 0x1000) 0 1024) = 31) as ->
      by (vm_compute; reflexivity). reflexivity.
Defined.

Lemma find_kernel_pd_correct_witness :
  xa_find_kernel_pd 4 (guest_world pd_inst) = Ret (0xC0001000, guest_world pd_inst).
Proof.
  refine (eq_trans (proj1 (find_kernel_pd_correct (guest_world pd_inst) _ _ _ _) _ 4%nat _) _).
  - split; reflexivity.
  - by left.
  - by right.
  - change (memory_end (inst (guest_world pd_inst))) with 0x3000. lia.
  - change (memory_end (inst (guest_world pd_inst))) with 0x3000. lia.
  - change (num_pages (inst (guest_world pd_inst))) with 3. lia.
  - assert (scored pd_inst = [0x1000; 0x2000]) as Hs by (vm_compute; reflexivity).
    assert (filter (qualifies pd_inst) (cands pd_inst) = [0x1000; 0x2000]) as Hq
      by (vm_compute; reflexivity).
    change (inst (guest_world pd_inst)) with pd_inst. rewrite Hq.
    rewrite decide_False by (rewrite Hs; discriminate). reflexivity.
Defined.
