(* ===== verification/DiskDir.v ===== *)
(** * Directories of the watched disk

    Models xadisk_parse.c and the directory entry accessors of
    xadisk_linux_ext2.c: a directory block is parsed into a table, the table
    is sorted by name, and two tables are compared by a merge. *)

From Stdlib Require Import String Sorted.
From S2P Require Import Prelude CStr.

Definition DIRMAX : Z := 256.
Definition OPMAX : nat := 256.
Definition MAX_PATH_LEN : nat := 256.

Definition OP_MKDIR : Z := 0.
Definition OP_RMDIR : Z := 1.
Definition OP_MKFILE : Z := 2.
Definition OP_RMFILE : Z := 3.

Record dir_entry := DirEntry { inode : Z; type : Z; path_elem : cstr }.

#[export] Instance dir_entry_eq_dec : EqDecision dir_entry.
Proof. solve_decision. Defined.

(** The used part of a [dir_table]. *)
Abbreviation dir_table := (list dir_entry).

(** An operation; [op] is [None] where the code leaves it unset. *)
Record dir_op := DirOp { op : option Z; op_path : cstr }.

(** ** Parsing a block *)

(** An [n]-byte little-endian load at [pos] of a buffer. *)
Definition rd (block : list Z) (pos : Z) (n : nat) : result Z :=
  if (0 <=? pos) && (pos + Z.of_nat n <=? Z.of_nat (length block))
  then Ret (le_combine (take n (drop (Z.to_nat pos) block))) else Fault.

Definition xa_linux_ext2_dir_getinode (block : list Z) (pos : Z) : result Z := rd block pos 4.
Definition xa_linux_ext2_dir_getreclen (block : list Z) (pos : Z) : result Z := rd block (pos + 4) 2.
Definition xa_linux_ext2_dir_getnamelen (block : list Z) (pos : Z) : result Z := rd block (pos + 6) 1.
Definition xa_linux_ext2_dir_gettype (block : list Z) (pos : Z) : result Z := rd block (pos + 7) 1.

(** [strncpy] of at most [n] bytes, up to the first NUL *)
Fixpoint copy_name (n : nat) (s : list Z) : result cstr :=
  match n with
  | O => Ret []
  | S n' => match s with
            | [] => Fault
            | c :: s' => if c =? 0 then Ret [] else r ← copy_name n' s'; Ret (c :: r)
            end
  end.

Definition parse_name (block : list Z) (pos : Z) : result cstr :=
  len ← xa_linux_ext2_dir_getnamelen block pos;
  copy_name (Z.to_nat len) (drop (Z.to_nat (pos + 8)) block).

(** The loop from table index [i] and position [pos] on. *)
Fixpoint parse_entries (fuel : nat) (block : list Z) (limit pos i : Z) : result dir_table :=
  match fuel with
  | O => Diverge
  | S n =>
      if pos <? limit then
        if i <? DIRMAX then
          ino ← xa_linux_ext2_dir_getinode block pos;
          ty ← xa_linux_ext2_dir_gettype block pos;
          name ← parse_name block pos;
          reclen ← xa_linux_ext2_dir_getreclen block pos;
          rest ← parse_entries n block limit (pos + reclen) (i + 1);
          Ret (DirEntry ino ty name :: rest)
        else Fault (* res->table[i] is outside the table *)
      else Ret []
  end.

(** Parses the in-memory directory structure given the raw block; every turn
    uses up an entry of the table, so [DIRMAX + 1] turns are enough. *)
Definition parse_block_dir (block : list Z) (dir_size : Z) : result dir_table :=
  parse_entries 257 block dir_size 0 0.

(** ** Sorting *)

(** The inner loop: [k] is [j + 1], the position [aux] goes to if the entry
    below it is not greater. *)
Fixpoint sort_inner (k : nat) (aux : dir_entry) (t : dir_table) : dir_table :=
  match k with
  | O => <[0%nat := aux]> t
  | S j =>
      match t !! j with
      | Some e => if strcmp (path_elem aux) (path_elem e) <? 0
                  then sort_inner j aux (<[S j := e]> t)
                  else <[S j := aux]> t
      | None => t
      end
  end.

Definition sort_step (t : dir_table) (i : nat) : dir_table :=
  match t !! i with Some aux => sort_inner i aux t | None => t end.

Definition sort_dir (dir : dir_table) : dir_table :=
  fold_left sort_step (seq 1 (pred (length dir))) dir.

(** ** Comparing *)

Definition rm_op (e : dir_entry) : dir_op :=
  DirOp (if type e =? 1 then Some OP_RMFILE else if type e =? 2 then Some OP_RMDIR else None)
    (path_elem e).

Definition mk_op (e : dir_entry) : dir_op :=
  DirOp (if type e =? 1 then Some OP_MKFILE else if type e =? 2 then Some OP_MKDIR else None)
    (path_elem e).

(** The loop while both tables have entries left; what it appends and what is
    left of the tables. *)
Fixpoint compare_loop (fuel : nat) (old new : dir_table) : list dir_op * dir_table * dir_table :=
  match fuel with
  | O => ([], old, new)
  | S n =>
      match old, new with
      | o :: old', e :: new' =>
          if strcmp (path_elem o) (path_elem e) <? 0 then (* Removed objects *)
            let '(ops, r1, r2) := compare_loop n old' new in (rm_op o :: ops, r1, r2)
          else if strcmp (path_elem e) (path_elem o) <? 0 then (* Created objects *)
            let '(ops, r1, r2) := compare_loop n old new' in (mk_op e :: ops, r1, r2)
          else compare_loop n old' new'
      | _, _ => ([], old, new)
      end
  end.

(** Every operation is written to the next entry of [res->table], its name to
    a buffer of [MAX_PATH_LEN] bytes. *)
Definition store_ops (ops : list dir_op) : result (list dir_op) :=
  if (length ops <=? OPMAX)%nat && forallb (fun o => (length (op_path o) <? MAX_PATH_LEN)%nat) ops
  then Ret ops else Fault.

Definition compare_dirs (dir_old dir_new : dir_table) : result (list dir_op) :=
  let '(ops, old, new) := compare_loop (length dir_old + length dir_new) dir_old dir_new in
  store_ops (ops ++ (rm_op <$> old) ++ (mk_op <$> new)).

(** ** A block as it is written to disk *)

(** An entry with the bytes that fill it up to the next one. *)
Record disk_entry := DiskEntry { d_entry : dir_entry; d_pad : list Z }.

Definition rec_len (d : disk_entry) : Z :=
  8 + Z.of_nat (length (path_elem (d_entry d)) + length (d_pad d)).

Definition print_entry (d : disk_entry) : list Z :=
  le_split 4 (inode (d_entry d)) ++ le_split 2 (rec_len d) ++
  [Z.of_nat (length (path_elem (d_entry d)))] ++ [type (d_entry d)] ++
  path_elem (d_entry d) ++ d_pad d.

Definition print_block (ds : list disk_entry) : list Z := concat (print_entry <$> ds).

Definition entry_ok (d : disk_entry) : Prop :=
  is_u32 (inode (d_entry d)) /\ is_u8 (type (d_entry d)) /\
  Forall (fun c => c <> 0) (path_elem (d_entry d)) /\
  (length (path_elem (d_entry d)) < 256)%nat /\ rec_len d < 65536.

Lemma length_print_entry d : Z.of_nat (length (print_entry d)) = rec_len d.
Proof.
  unfold print_entry, rec_len. rewrite !length_app, !length_le_split. simpl. lia.
Qed.

Lemma rd_app pre x post pos n :
  pos = Z.of_nat (length pre) -> n = length x -> rd (pre ++ x ++ post) pos n = Ret (le_combine x).
Proof.
  intros -> ->. unfold rd. rewrite !length_app.
  rewrite (proj2 (Z.leb_le 0 _)), (proj2 (Z.leb_le _ _)) by lia. cbn [andb].
  rewrite Nat2Z.id, drop_app_length. by rewrite take_app_length.
Qed.

Lemma copy_name_app s post : Forall (fun c => c <> 0) s -> copy_name (length s) (s ++ post) = Ret s.
Proof.
  induction 1 as [|c s Hc Hs IH]; [done|]. cbn [length app copy_name].
  rewrite (proj2 (Z.eqb_neq c 0)) by done. cbn [mbind result_bind]. by rewrite IH.
Qed.

(** The getters at the start of an entry. *)
Section Getters.
Variables (pre post : list Z) (d : disk_entry) (pos : Z).
Hypothesis Hok : entry_ok d.
Hypothesis Hpos : pos = Z.of_nat (length pre).
Abbreviation blk := (pre ++ print_entry d ++ post).

Lemma get_inode : xa_linux_ext2_dir_getinode blk pos = Ret (inode (d_entry d)).
Proof.
  destruct Hok as (Hi & _). unfold xa_linux_ext2_dir_getinode, print_entry.
  rewrite <- app_assoc, (rd_app pre (le_split 4 _)); [|done|by rewrite length_le_split].
  rewrite le_combine_split. by rewrite Z.mod_small.
Qed.

Lemma get_reclen : xa_linux_ext2_dir_getreclen blk pos = Ret (rec_len d).
Proof.
  destruct Hok as (_ & _ & _ & _ & Hr). unfold xa_linux_ext2_dir_getreclen, print_entry.
  rewrite <- !app_assoc, (app_assoc pre), (rd_app _ (le_split 2 _)).
  - rewrite le_combine_split. rewrite Z.mod_small; [done|]. unfold rec_len in *. simpl. lia.
  - rewrite length_app, length_le_split. lia.
  - by rewrite length_le_split.
Qed.

Lemma get_namelen : xa_linux_ext2_dir_getnamelen blk pos = Ret (Z.of_nat (length (path_elem (d_entry d)))).
Proof.
  unfold xa_linux_ext2_dir_getnamelen, print_entry.
  rewrite <- !app_assoc, !(app_assoc pre), (app_assoc (pre ++ _)), (rd_app _ [_]); [|..|done].
  - simpl le_combine. by rewrite Z.add_0_r.
  - rewrite !length_app, !length_le_split. lia.
Qed.

Lemma get_type : xa_linux_ext2_dir_gettype blk pos = Ret (type (d_entry d)).
Proof.
  unfold xa_linux_ext2_dir_gettype, print_entry.
  rewrite <- !app_assoc, (app_assoc pre), (app_assoc (pre ++ _)), (app_assoc ((pre ++ _) ++ _)).
  rewrite (rd_app _ [_]); [|..|done].
  - simpl le_combine. by rewrite Z.add_0_r.
  - rewrite !length_app, !length_le_split. simpl. lia.
Qed.

Lemma get_name : parse_name blk pos = Ret (path_elem (d_entry d)).
Proof.
  destruct Hok as (_ & _ & Hn & _). unfold parse_name. rewrite get_namelen. cbn [mbind result_bind].
  rewrite Nat2Z.id. unfold print_entry. rewrite <- !app_assoc, (app_assoc pre).
  rewrite (app_assoc (pre ++ _)), (app_assoc ((pre ++ _) ++ _)), (app_assoc (((pre ++ _) ++ _) ++ _)).
  match goal with |- copy_name _ (drop ?k (?p ++ _)) = _ => replace k with (length p) end.
  - rewrite drop_app_length. by apply copy_name_app.
  - rewrite !length_app, !length_le_split, Hpos. simpl. lia.
Qed.
End Getters.

Lemma parse_entries_print ds : forall pre fuel i pos limit,
  Forall entry_ok ds -> pos = Z.of_nat (length pre) ->
  limit = pos + Z.of_nat (length (print_block ds)) ->
  0 <= i -> i + Z.of_nat (length ds) <= DIRMAX -> (length ds < fuel)%nat ->
  parse_entries fuel (pre ++ print_block ds) limit pos i = Ret (d_entry <$> ds).
Proof.
  induction ds as [|d ds IH]; intros pre fuel i pos limit Hok Hpos Hlim Hi Hmax Hf;
    (destruct fuel as [|fuel]; [simpl in Hf; lia|]); cbn [parse_entries].
  - rewrite (proj2 (Z.ltb_ge _ _)); [done|]. simpl in Hlim. lia.
  - apply list.Forall_cons in Hok as [Hd Hok]. cbn [length] in *.
    unfold print_block in *. cbn [fmap list_fmap concat] in *. fold (print_block ds) in *.
    rewrite length_app in Hlim. pose proof (length_print_entry d) as Hlen.
    assert (Hr : 0 < rec_len d) by (unfold rec_len; lia).
    rewrite (proj2 (Z.ltb_lt _ _)), (proj2 (Z.ltb_lt i DIRMAX)) by lia.
    rewrite get_inode, get_type, get_name, get_reclen by done. cbn [mbind result_bind].
    rewrite app_assoc, (IH _ fuel (i + 1) (pos + rec_len d) limit).
    + by destruct (d_entry d).
    + done.
    + rewrite length_app. lia.
    + change (concat (print_entry <$> ds)) with (print_block ds) in Hlim. lia.
    + lia.
    + lia.
    + lia.
Qed.

(** An entry of length 0 keeps the loop where it is until the table is full. *)
Lemma parse_stuck fuel block limit pos i :
  pos < limit -> 0 <= pos -> pos + 8 <= Z.of_nat (length block) ->
  xa_linux_ext2_dir_getreclen block pos = Ret 0 ->
  257 <= i + Z.of_nat fuel -> 0 <= i <= 256 ->
  parse_entries fuel block limit pos i = Fault.
Proof.
  intros Hlim H0 Hpos Hr. revert i. induction fuel as [|fuel IH]; intros i Hf Hi; [lia|].
  cbn [parse_entries]. rewrite (proj2 (Z.ltb_lt _ _)) by done.
  destruct (Z.ltb_spec i DIRMAX) as [Hlt|]; [|done]. unfold DIRMAX in Hlt.
  assert (Hrd : forall k n, 0 <= k -> k + Z.of_nat n <= 8 -> exists v, rd block (pos + k) n = Ret v).
  { intros k n H1 H2. unfold rd. rewrite (proj2 (Z.leb_le 0 _)), (proj2 (Z.leb_le _ _)) by lia. by eexists. }
  destruct (Hrd 0 4%nat) as [ino Eino]; [lia|lia|]. rewrite Z.add_0_r in Eino.
  destruct (Hrd 7 1%nat) as [ty Ety]; [lia|lia|].
  unfold xa_linux_ext2_dir_getinode, xa_linux_ext2_dir_gettype. rewrite Eino, Ety.
  cbn [mbind result_bind].
  assert (Hname : forall r : result cstr, r <> Diverge -> r = Fault \/ exists s, r = Ret s).
  { intros [s| |]; [right; by exists s|by left|done]. }
  destruct (Hname (parse_name block pos)) as [-> | [s ->]]; [|done|].
  { unfold parse_name, xa_linux_ext2_dir_getnamelen. destruct (rd block (pos + 6) 1) as [len| |] eqn:El; try done.
    - cbn [mbind result_bind]. generalize (drop (Z.to_nat (pos + 8)) block). generalize (Z.to_nat len).
      induction n as [|n IHn]; intros l; [done|]. destruct l as [|c l]; [done|]. cbn [copy_name].
      destruct (c =? 0); [done|]. specialize (IHn l). cbn [mbind result_bind].
      by destruct (copy_name n l).
    - unfold rd in El. by destruct (_ && _). }
  cbn [mbind result_bind]. rewrite Hr. cbn [mbind result_bind]. rewrite Z.add_0_r. by rewrite IH by lia.
Qed.

(** ** The insertion sort *)

Section Sort.
Implicit Types (t l r : dir_table) (e x aux : dir_entry).

Definition name_le e1 e2 : Prop := str_le (path_elem e1) (path_elem e2).
Definition name_lt e1 e2 : Prop := str_lt (path_elem e1) (path_elem e2).

Lemma name_le_trans : Transitive name_le.
Proof. intros a b c. apply (@transitivity _ str_le _). Qed.

Lemma insert_middle l x r aux : <[length l := aux]> (l ++ x :: r) = l ++ aux :: r.
Proof. rewrite insert_app_r_alt by done. by rewrite Nat.sub_diag. Qed.

Lemma lookup_middle' l x r : (l ++ x :: r) !! length l = Some x.
Proof. by apply list_lookup_middle. Qed.

(** The inner loop on a sorted prefix: the new entry goes after the entries
    that are not greater, the others move up over the old slot of [aux]. *)
Lemma sort_inner_spec l : forall x r aux,
  exists l1 l2, l = l1 ++ l2 /\ sort_inner (length l) aux (l ++ x :: r) = l1 ++ aux :: l2 ++ r /\
    Forall (fun e => name_lt aux e) l2 /\ (forall l1' e, l1 = l1' ++ [e] -> name_le e aux).
Proof.
  induction l as [|e l IH] using rev_ind; intros x r aux.
  { exists [], []. split; [done|]. split; [done|]. split; [done|]. by intros [] e. }
  rewrite length_app. cbn [length]. rewrite Nat.add_1_r. cbn [sort_inner].
  rewrite <- app_assoc. cbn [app]. rewrite lookup_middle'.
  destruct (Z.ltb_spec (strcmp (path_elem aux) (path_elem e)) 0) as [Hlt|Hge].
  - assert (<[S (length l) := e]> (l ++ e :: x :: r) = l ++ e :: e :: r) as ->.
    { rewrite insert_app_r_alt by lia. by replace (S (length l) - length l)%nat with 1%nat by lia. }
    destruct (IH e (e :: r) aux) as (l1 & l2 & -> & -> & Hl2 & Hl1).
    exists l1, (l2 ++ [e]). split; [by rewrite app_assoc|]. split; [by rewrite <- app_assoc|].
    split; [|done]. apply Forall_app. split; [done|]. by constructor.
  - exists (l ++ [e]), []. split; [by rewrite app_nil_r|]. split.
    { rewrite insert_app_r_alt by lia. replace (S (length l) - length l)%nat with 1%nat by lia.
      by rewrite <- app_assoc. }
    split; [done|]. intros l1' e' [_ [= ->]]%app_inj_tail.
    unfold name_le, str_le. rewrite strcmp_antisym. lia.
Qed.

Lemma sorted_last l e x :
  StronglySorted name_le (l ++ [e]) -> x ∈ l -> name_le x e.
Proof.
  induction l as [|y l IH]; [by intros _ ?%not_elem_of_nil|].
  intros [Hs Hf]%StronglySorted_inv [-> | Hx]%elem_of_cons; [|by apply IH].
  apply list.Forall_app in Hf as [_ Hf]. by apply list.Forall_cons in Hf as [? _].
Qed.

Lemma insert_sorted l1 l2 aux :
  StronglySorted name_le (l1 ++ l2) -> Forall (fun e => name_lt aux e) l2 ->
  (forall l1' e, l1 = l1' ++ [e] -> name_le e aux) -> StronglySorted name_le (l1 ++ aux :: l2).
Proof.
  intros Hs Hl2 Hlast.
  assert (Hl1 : Forall (fun e => name_le e aux) l1).
  { destruct l1 as [|e l1 _] using rev_ind; [constructor|].
    specialize (Hlast l1 e eq_refl). apply Forall_app. split; [|by constructor].
    apply list.Forall_forall. intros x Hx. eapply name_le_trans; [|exact Hlast].
    apply (sorted_last l1); [|done].
    clear -Hs. induction l1 as [|y l1 IH]; [repeat constructor|].
    cbn [app] in *. apply StronglySorted_inv in Hs as [Hs Hf]. constructor; [by apply IH|].
    rewrite <- app_assoc in Hf. apply list.Forall_app in Hf as [H1 H2].
    apply list.Forall_app. split; [done|]. apply list.Forall_app in H2 as [H2 _]. done. }
  clear Hlast. induction l1 as [|y l1 IH]; cbn [app] in *.
  - constructor; [done|]. eapply list.Forall_impl; [exact Hl2|]. intros e He. apply str_le_lteq. by left.
  - apply StronglySorted_inv in Hs as [Hs Hf]. apply list.Forall_cons in Hl1 as [Hy Hl1].
    constructor; [by apply IH|]. apply list.Forall_app in Hf as [H1 H2].
    apply list.Forall_app. split; [done|]. by constructor.
Qed.

(** One turn of the outer loop, on a sorted prefix of length [i]. *)
Lemma sort_step_spec l x r :
  StronglySorted name_le l ->
  exists l', sort_step (l ++ x :: r) (length l) = l' ++ r /\ StronglySorted name_le l' /\
    Permutation l' (l ++ [x]).
Proof.
  intros Hs. unfold sort_step. rewrite lookup_middle'.
  destruct (sort_inner_spec l x r x) as (l1 & l2 & -> & -> & Hl2 & Hl1).
  exists (l1 ++ x :: l2). split; [by rewrite <- app_assoc|]. split; [by apply insert_sorted|].
  rewrite <- app_assoc. apply Permutation_app_head. symmetry. apply (Permutation_app_comm l2 [x]).
Qed.

Lemma sort_dir_spec t :
  StronglySorted name_le (sort_dir t) /\ Permutation (sort_dir t) t.
Proof.
  unfold sort_dir. destruct t as [|x t]; [split; constructor|]. cbn [length pred].
  assert (H : forall k i, forall l r, length l = i -> length r = k -> StronglySorted name_le l ->
    StronglySorted name_le (fold_left sort_step (seq i k) (l ++ r)) /\
    Permutation (fold_left sort_step (seq i k) (l ++ r)) (l ++ r)).
  { induction k as [|k IH]; intros i l r Hl Hr Hs.
    - destruct r; [|done]. rewrite app_nil_r. done.
    - destruct r as [|y r]; [done|]. cbn [seq fold_left]. rewrite <- Hl.
      destruct (sort_step_spec l y r Hs) as (l' & -> & Hs' & Hp).
      assert (length l' = S (length l)) as Hl'.
      { apply Permutation_length in Hp. rewrite length_app in Hp. simpl in Hp. lia. }
      destruct (IH (S (length l)) l' r Hl') as [H1 H2]; [by injection Hr|done|].
      split; [done|]. etrans; [exact H2|]. rewrite Hp, <- app_assoc. done. }
  destruct (H (length t) 1%nat [x] t eq_refl eq_refl) as [H1 H2]; [repeat constructor|]. done.
Qed.
End Sort.

(** ** The comparison *)

Section Compare.
Implicit Types (old new : list dir_entry) (e o : dir_entry).

Definition names (t : list dir_entry) : list cstr := path_elem <$> t.

(** Entries of [t] whose name is not in [u]. *)
Definition only_in (t u : list dir_entry) : list dir_entry :=
  filter (fun e => path_elem e ∉ names u) t.

Definition all_ops old new : list dir_op :=
  let '(ops, r1, r2) := compare_loop (length old + length new) old new in
  ops ++ (rm_op <$> r1) ++ (mk_op <$> r2).

Lemma names_cons e t : names (e :: t) = path_elem e :: names t.
Proof. done. Qed.

Lemma only_in_cons e t u :
  only_in (e :: t) u = if decide (path_elem e ∈ names u) then only_in t u else e :: only_in t u.
Proof.
  unfold only_in. rewrite filter_cons. destruct (decide (path_elem e ∈ names u)) as [H|H].
  - by rewrite decide_False by auto.
  - by rewrite decide_True by done.
Qed.

(** A name that no entry of [t] has does not matter. *)
Lemma only_in_skip e t u : path_elem e ∉ names t -> only_in t (e :: u) = only_in t u.
Proof.
  induction t as [|x t IH]; intros H; [done|]. rewrite names_cons in H.
  apply not_elem_of_cons in H as [Hx Ht]. rewrite !only_in_cons, names_cons, IH by done.
  destruct (decide (path_elem x ∈ names u)) as [Hu|Hu].
  - by rewrite decide_True by by apply list_elem_of_further.
  - rewrite decide_False; [done|]. intros [E|E]%elem_of_cons; [by rewrite E in Hx|done].
Qed.

Lemma only_in_nil t : only_in t [] = t.
Proof.
  induction t as [|e t IH]; [done|]. rewrite only_in_cons, IH.
  by rewrite decide_False by apply not_elem_of_nil.
Qed.

Lemma above_not_in s t : Forall (fun e => str_lt s (path_elem e)) t -> s ∉ names t.
Proof.
  intros H [e [-> He]]%list_elem_of_fmap. rewrite list.Forall_forall in H.
  exact (str_lt_irrefl _ (H e He)).
Qed.

Lemma above_trans s e t :
  str_lt s (path_elem e) -> Forall (name_lt e) t -> Forall (fun e => str_lt s (path_elem e)) t.
Proof.
  intros Hs Ht. eapply list.Forall_impl; [exact Ht|]. intros x Hx. by transitivity (path_elem e).
Qed.

(** What the loop and the two copies after it append, in order. *)
Lemma all_ops_spec n : forall old new,
  (length old + length new <= n)%nat ->
  StronglySorted name_lt old -> StronglySorted name_lt new ->
  let '(ops, r1, r2) := compare_loop n old new in
  let l := ops ++ (rm_op <$> r1) ++ (mk_op <$> r2) in
  Permutation l ((rm_op <$> only_in old new) ++ (mk_op <$> only_in new old)) /\
  StronglySorted (fun a b => str_lt (op_path a) (op_path b)) l.
Proof.
  assert (Hmap : forall f : dir_entry -> dir_op, (forall e, op_path (f e) = path_elem e) ->
    forall t, StronglySorted name_lt t ->
    StronglySorted (fun a b => str_lt (op_path a) (op_path b)) (f <$> t)).
  { intros f Hf t. induction 1 as [|e t Ht IH He]; constructor; [done|].
    apply Forall_fmap. eapply list.Forall_impl; [exact He|]. intros x Hx. simpl. by rewrite !Hf. }
  assert (Hin : forall s t u l, Permutation l ((rm_op <$> only_in t u) ++ (mk_op <$> only_in u t)) ->
    Forall (fun e => str_lt s (path_elem e)) t -> Forall (fun e => str_lt s (path_elem e)) u ->
    Forall (fun p : dir_op => str_lt s (op_path p)) l).
  { intros s t u l Hp Ht Hu. rewrite Hp. apply Forall_app. split; apply Forall_fmap, list.Forall_forall;
      intros e [_ He]%list_elem_of_filter; [rewrite list.Forall_forall in Ht|rewrite list.Forall_forall in Hu];
      simpl; auto. }
  induction n as [|n IH]; intros old new Hn Ho Hw.
  { destruct old, new; simpl in Hn; try lia. split; constructor. }
  cbn [compare_loop]. destruct old as [|o old].
  { cbn [app fmap list_fmap]. rewrite only_in_nil. split; [done|by apply Hmap]. }
  destruct new as [|e new].
  { cbv zeta. cbn [app]. change (mk_op <$> []) with (@nil dir_op). rewrite app_nil_r, only_in_nil.
    split; [by rewrite app_nil_r|by apply (Hmap rm_op)]. }
  apply StronglySorted_inv in Ho as [Ho Hof]. apply StronglySorted_inv in Hw as [Hw Hwf].
  cbn [length] in Hn.
  destruct (Z.ltb_spec (strcmp (path_elem o) (path_elem e)) 0) as [Hlt|Hge].
  - specialize (IH old (e :: new)). destruct (compare_loop n old (e :: new)) as [[ops r1] r2].
    destruct IH as [Hp Hs]; [simpl; lia|done|by constructor|].
    assert (Habove : Forall (fun x => str_lt (path_elem o) (path_elem x)) (e :: new)).
    { constructor; [done|]. by apply (above_trans _ e). }
    rewrite only_in_cons, decide_False by by apply above_not_in.
    rewrite (only_in_skip o (e :: new)) by by apply above_not_in.
    cbn [app fmap list_fmap]. split; [by constructor|]. constructor; [done|].
    eapply Hin; [exact Hp|done|done].
  - destruct (Z.ltb_spec (strcmp (path_elem e) (path_elem o)) 0) as [Hlt|Hge'].
    + specialize (IH (o :: old) new). destruct (compare_loop n (o :: old) new) as [[ops r1] r2].
      destruct IH as [Hp Hs]; [simpl; lia|by constructor|done|].
      assert (Habove : Forall (fun x => str_lt (path_elem e) (path_elem x)) (o :: old)).
      { constructor; [done|]. by apply (above_trans _ o). }
      rewrite (only_in_cons e), decide_False by by apply above_not_in.
      rewrite (only_in_skip e (o :: old)) by by apply above_not_in.
      cbn [app fmap list_fmap]. split; [rewrite Hp; apply Permutation_middle|]. constructor; [done|].
      eapply Hin; [exact Hp|done|done].
    + assert (path_elem o = path_elem e) as E.
      { apply strcmp_eq. rewrite strcmp_antisym in Hge'. lia. }
      specialize (IH old new). destruct (compare_loop n old new) as [[ops r1] r2].
      destruct IH as [Hp Hs]; [lia|done|done|].
      rewrite !only_in_cons, !names_cons, E.
      rewrite !decide_True by apply list_elem_of_here.
      rewrite (only_in_skip e old), (only_in_skip o new); [done|..].
      * rewrite E. by apply above_not_in.
      * rewrite <- E. by apply above_not_in.
Qed.
End Compare.

Lemma compare_dirs_spec (old new : list dir_entry) :
  StronglySorted name_lt old -> StronglySorted name_lt new ->
  Forall (fun e => (length (path_elem e) < 256)%nat) (old ++ new) ->
  ((length (only_in old new) + length (only_in new old) <= 256)%nat ->
   exists ops, compare_dirs old new = Ret ops /\
     Permutation ops ((rm_op <$> only_in old new) ++ (mk_op <$> only_in new old)) /\
     StronglySorted (fun a b => str_lt (op_path a) (op_path b)) ops) /\
  ((256 < length (only_in old new) + length (only_in new old))%nat ->
   compare_dirs old new = Fault).
Proof.
  intros Ho Hw Hlen. pose proof (all_ops_spec (length old + length new) old new (le_n _) Ho Hw) as H.
  unfold compare_dirs. destruct (compare_loop _ old new) as [[ops r1] r2]. destruct H as [Hp Hs].
  assert (Hl : length (ops ++ (rm_op <$> r1) ++ (mk_op <$> r2)) =
               (length (only_in old new) + length (only_in new old))%nat).
  { rewrite Hp. by rewrite length_app, !length_fmap. }
  assert (Hnames : forallb (fun p : dir_op => (length (op_path p) <? MAX_PATH_LEN)%nat)
    (ops ++ (rm_op <$> r1) ++ (mk_op <$> r2)) = true).
  { apply forallb_forall. intros p Hin%list_elem_of_In. apply Nat.ltb_lt.
    rewrite Hp in Hin. rewrite list.Forall_forall in Hlen.
    apply elem_of_app in Hin as [Hin|Hin]; apply list_elem_of_fmap in Hin as (e & -> & He);
      apply list_elem_of_filter in He as [_ He]; apply (Hlen e), elem_of_app; auto. }
  unfold store_ops. rewrite Hnames, andb_true_r, Hl. unfold OPMAX. split; intros Hle.
  - rewrite (proj2 (Nat.leb_le _ _)) by done. by eexists.
  - by rewrite (proj2 (Nat.leb_gt _ _)) by done.
Qed.

Lemma parse_block_dir_print (ds : list disk_entry) :
  Forall entry_ok ds -> (length ds <= 256)%nat ->
  parse_block_dir (print_block ds) (Z.of_nat (length (print_block ds))) = Ret (d_entry <$> ds).
Proof.
  intros Hok Hl. apply (parse_entries_print ds []); [done|done|simpl; lia|lia|unfold DIRMAX; lia|lia].
Qed.

(** ** Properties *)

(** Parsing a block gives back the entries it was written from: every
    well-formed block of at most 256 entries, whatever fills the space between
    them. *)
Theorem parse_block_dir_correct (ds : list disk_entry) :
  Forall entry_ok ds -> (length ds <= 256)%nat ->
  parse_block_dir (print_block ds) (Z.of_nat (length (print_block ds))) = Ret (d_entry <$> ds).
Proof. apply parse_block_dir_print. Qed.

(** A block whose first entry has record length 0, such as a block of
    zeros, makes the parser write past the end of its table. *)
Theorem parse_zero_reclen block :
  length block = 4096%nat -> xa_linux_ext2_dir_getreclen block 0 = Ret 0 ->
  parse_block_dir block 4096 = Fault.
Proof. intros Hl Hr. apply parse_stuck; try done; rewrite ?Hl; lia. Qed.

(** [sort_dir] puts the entries in the order of their names and loses or
    invents none. *)
Theorem sort_dir_correct (t : list dir_entry) :
  StronglySorted name_le (sort_dir t) /\ Permutation (sort_dir t) t.
Proof. apply sort_dir_spec. Qed.

(** Comparing two sorted directories of distinct names gives a removal for
    exactly the entries whose name the new one lacks and a creation for
    exactly those whose name the old one lacks, sorted by name; with more than
    256 differences the table of operations overflows. *)
Theorem compare_dirs_correct (old new : list dir_entry) :
  StronglySorted name_lt old -> StronglySorted name_lt new ->
  Forall (fun e => (length (path_elem e) < 256)%nat) (old ++ new) ->
  ((length (only_in old new) + length (only_in new old) <= 256)%nat ->
   exists ops, compare_dirs old new = Ret ops /\
     Permutation ops ((rm_op <$> only_in old new) ++ (mk_op <$> only_in new old)) /\
     StronglySorted (fun a b => str_lt (op_path a) (op_path b)) ops) /\
  ((256 < length (only_in old new) + length (only_in new old))%nat ->
   compare_dirs old new = Fault).
Proof. apply compare_dirs_spec. Qed.

(** *** Witnesses *)

Definition old_dir : list dir_entry :=
  [DirEntry 2 2 (str "."); DirEntry 12 1 (str "a.txt"); DirEntry 13 2 (str "dir")].
Definition new_dir : list dir_entry :=
  [DirEntry 2 2 (str "."); DirEntry 14 1 (str "b.txt"); DirEntry 13 2 (str "dir")].

Definition old_block : list Z := print_block ((fun e => DiskEntry e [0; 7; 0]) <$> old_dir).

Lemma parse_block_dir_correct_witness :
  parse_block_dir old_block (Z.of_nat (length old_block)) = Ret old_dir.
Proof.
  refine (eq_trans (parse_block_dir_correct ((fun e => DiskEntry e [0; 7; 0]) <$> old_dir) _ _) _).
  - repeat constructor; vm_compute; try discriminate; reflexivity.
  - simpl. lia.
  - reflexivity.
Defined.

Lemma parse_zero_reclen_witness : parse_block_dir (replicate 4096 0) 4096 = Fault.
Proof. apply parse_zero_reclen; [apply length_replicate|vm_compute; reflexivity]. Defined.

Lemma compare_dirs_correct_witness :
  exists ops, compare_dirs old_dir new_dir = Ret ops /\
    Permutation ops [DirOp (Some OP_RMFILE) (str "a.txt"); DirOp (Some OP_MKFILE) (str "b.txt")].
Proof.
  destruct (proj1 (compare_dirs_correct old_dir new_dir
    ltac:(repeat constructor) ltac:(repeat constructor)
    ltac:(repeat constructor; simpl; lia)) ltac:(vm_compute; lia)) as (ops & He & Hp & _).
  exists ops. split; [exact He|exact Hp].
Defined.
