(* ===== verification/DiskHash.v ===== *)
(** * The table of watched blocks

    Models xadisk_hash.c: an array of buckets, each a linked list sorted by
    block number with a flag that says whether it has any node.  The buckets
    are the lists of their nodes.  The table is proved to implement, for every
    block number, a stack of nodes. *)

From Stdlib Require Import Sorted.
From S2P Require Import Prelude CStr DiskDir.

Definition HASH_SIZE : Z := 32768.

(** [raw_block] is never used. *)
Record block_node := BlockNode {
  block : Z;
  bn_inode : Z;
  bn_type : Z;
  bn_path : cstr;
  bn_dir : list dir_entry }.

Record hash_entry := HashEntry { active : Z; bucket : list block_node }.

(** The global [ht]. *)
Abbreviation hash_table := (list hash_entry).

Definition hash_block (b : Z) : nat := Z.to_nat (b mod HASH_SIZE).

Definition init_hash : hash_table := replicate (Z.to_nat HASH_SIZE) (HashEntry 0 []).

Definition destroy_hash (ht : hash_table) : hash_table := (fun _ => HashEntry 0 []) <$> ht.

(** Inserts the block structure into the corresponding hash table linked list
    (sorted) *)
Fixpoint insert_list (l : list block_node) (b : block_node) : list block_node :=
  match l with
  | [] => [b]
  | q :: l' => if block q <? block b then q :: insert_list l' b else b :: l
  end.

Definition insert_hash (b : block_node) (ht : hash_table) : hash_table :=
  let i := hash_block (block b) in
  match ht !! i with
  | Some e => <[i := HashEntry (Z.lor (active e) 0xFF) (insert_list (bucket e) b)]> ht
  | None => ht
  end.

Fixpoint remove_list (l : list block_node) (b : Z) : list block_node :=
  match l with
  | [] => []
  | q :: l' => if block q <? b then q :: remove_list l' b
               else if block q =? b then l' else l
  end.

Definition remove_hash (b : Z) (ht : hash_table) : hash_table :=
  let i := hash_block b in
  match ht !! i with
  | Some e =>
      let l := remove_list (bucket e) b in
      <[i := HashEntry (match l with [] => Z.land (active e) 0 | _ => active e end) l]> ht
  | None => ht
  end.

(** Checks for a certain block in the linked list *)
Fixpoint check_list (l : list block_node) (b : Z) : option block_node :=
  match l with
  | [] => None
  | q :: l' => if block q <? b then check_list l' b
               else if block q =? b then Some q else None
  end.

Definition check_hash (b : Z) (ht : hash_table) : option block_node :=
  match ht !! hash_block b with
  | Some e => if active e =? 0 then None else check_list (bucket e) b
  | None => None
  end.

(** [b->dir = t] for the node that [check_hash] points to. *)
Fixpoint set_dir_list (l : list block_node) (b : Z) (t : list dir_entry) : list block_node :=
  match l with
  | [] => []
  | q :: l' =>
      if block q <? b then q :: set_dir_list l' b t
      else if block q =? b then BlockNode (block q) (bn_inode q) (bn_type q) (bn_path q) t :: l' else l
  end.

Definition set_dir (b : Z) (t : list dir_entry) (ht : hash_table) : hash_table :=
  let i := hash_block b in
  match ht !! i with
  | Some e => <[i := HashEntry (active e) (set_dir_list (bucket e) b t)]> ht
  | None => ht
  end.

(** ** What a table stands for *)

Definition le_block (a b : block_node) : Prop := block a <= block b.

Definition entry_wf (i : nat) (e : hash_entry) : Prop :=
  StronglySorted le_block (bucket e) /\ Forall (fun n => hash_block (block n) = i) (bucket e) /\
  (active e = 0 <-> bucket e = []).

Definition table_wf (ht : hash_table) : Prop :=
  length ht = Z.to_nat HASH_SIZE /\ forall i e, ht !! i = Some e -> entry_wf i e.

(** The nodes of a block, the latest first. *)
Definition with_block (b : Z) (l : list block_node) : list block_node :=
  filter (fun n => block n = b) l.

Definition nodes_of (ht : hash_table) (b : Z) : list block_node :=
  match ht !! hash_block b with Some e => with_block b (bucket e) | None => [] end.

Lemma hash_block_lt b : (hash_block b < Z.to_nat HASH_SIZE)%nat.
Proof. unfold hash_block, HASH_SIZE. pose proof (Z.mod_pos_bound b 32768). lia. Qed.

Lemma table_entry ht b : table_wf ht -> exists e, ht !! hash_block b = Some e /\ entry_wf (hash_block b) e.
Proof.
  intros [Hl Hw]. destruct (lookup_lt_is_Some_2 ht (hash_block b)) as [e He].
  - rewrite Hl. apply hash_block_lt.
  - exists e. auto.
Qed.

Lemma with_block_cons b q l :
  with_block b (q :: l) = if block q =? b then q :: with_block b l else with_block b l.
Proof.
  unfold with_block. rewrite filter_cons. destruct (Z.eqb_spec (block q) b).
  - by rewrite decide_True.
  - by rewrite decide_False.
Qed.

(** In a sorted list nothing follows a greater block. *)
Lemma with_block_above b q l : StronglySorted le_block (q :: l) -> b < block q -> with_block b (q :: l) = [].
Proof.
  intros [_ Hf]%StronglySorted_inv Hlt. rewrite with_block_cons.
  rewrite (proj2 (Z.eqb_neq _ _)) by lia.
  induction Hf as [|x l Hx Hl IH]; [done|]. rewrite with_block_cons. unfold le_block in Hx.
  rewrite (proj2 (Z.eqb_neq _ _)) by lia. done.
Qed.

Lemma check_list_head l b : StronglySorted le_block l -> check_list l b = head (with_block b l).
Proof.
  induction l as [|q l IH]; intros Hs; [done|]. cbn [check_list].
  pose proof Hs as [Hs' _]%StronglySorted_inv.
  destruct (Z.ltb_spec (block q) b).
  - rewrite with_block_cons, (proj2 (Z.eqb_neq _ _)) by lia. by apply IH.
  - destruct (Z.eqb_spec (block q) b) as [E|E].
    + by rewrite with_block_cons, (proj2 (Z.eqb_eq _ _)).
    + rewrite with_block_above by (done || lia). done.
Qed.

Lemma insert_list_nodes l n b : StronglySorted le_block l ->
  with_block b (insert_list l n) = if block n =? b then n :: with_block b l else with_block b l.
Proof.
  induction l as [|q l IH]; intros Hs; cbn [insert_list]; [by rewrite with_block_cons|].
  pose proof Hs as [Hs' _]%StronglySorted_inv.
  destruct (Z.ltb_spec (block q) (block n)); [|by rewrite with_block_cons].
  rewrite !(with_block_cons b q), IH by done.
  destruct (Z.eqb_spec (block q) b), (Z.eqb_spec (block n) b); [lia|done..].
Qed.

Lemma insert_list_Forall (P : block_node -> Prop) l n :
  Forall P l -> P n -> Forall P (insert_list l n).
Proof.
  intros Hl Hn. induction Hl as [|q l Hq Hl IH]; cbn [insert_list]; [by repeat constructor|].
  destruct (block q <? block n); constructor; auto.
Qed.

Lemma insert_list_sorted l n : StronglySorted le_block l -> StronglySorted le_block (insert_list l n).
Proof.
  induction 1 as [|q l Hs IH Hf]; cbn [insert_list]; [repeat constructor|].
  destruct (Z.ltb_spec (block q) (block n)).
  - constructor; [done|]. apply insert_list_Forall; [done|]. unfold le_block. lia.
  - constructor; [by constructor|]. constructor; [done|].
    eapply list.Forall_impl; [exact Hf|]. unfold le_block. intros x Hx. lia.
Qed.

Lemma remove_list_nodes l b b' : StronglySorted le_block l ->
  with_block b (remove_list l b') = if b' =? b then list.tail (with_block b l) else with_block b l.
Proof.
  induction l as [|q l IH]; intros Hs; cbn [remove_list]; [by destruct (b' =? b)|].
  pose proof Hs as [Hs' _]%StronglySorted_inv.
  destruct (Z.ltb_spec (block q) b') as [Hlt|Hge].
  - rewrite !with_block_cons, IH by done.
    destruct (Z.eqb_spec (block q) b), (Z.eqb_spec b' b); [lia|done..].
  - destruct (Z.eqb_spec (block q) b') as [Eq|Eq].
    + rewrite with_block_cons, Eq. destruct (Z.eqb_spec b' b); done.
    + destruct (Z.eqb_spec b' b) as [E|]; [|done].
      rewrite with_block_above; [done|done|lia].
Qed.

Lemma remove_list_Forall (P : block_node -> Prop) l b : Forall P l -> Forall P (remove_list l b).
Proof.
  intros Hl. induction Hl as [|q l Hq Hl IH]; cbn [remove_list]; [constructor|].
  destruct (block q <? b); [by constructor|]. destruct (block q =? b); [done|by constructor].
Qed.

Lemma remove_list_sorted l b : StronglySorted le_block l -> StronglySorted le_block (remove_list l b).
Proof.
  induction 1 as [|q l Hs IH Hf]; cbn [remove_list]; [constructor|].
  destruct (block q <? b); [constructor; [done|by apply remove_list_Forall]|].
  destruct (block q =? b); [done|by constructor].
Qed.

Lemma insert_list_cons l n : insert_list l n <> [].
Proof. destruct l as [|q l]; [done|]. cbn [insert_list]. by destruct (block q <? block n). Qed.

(** [active | 0xFF] is never zero. *)
Lemma lor_active a : Z.lor a 0xFF <> 0.
Proof.
  intros E. assert (H : Z.testbit (Z.lor a 0xFF) 0 = true) by (rewrite Z.lor_spec; apply orb_true_r).
  rewrite E in H. by rewrite Z.bits_0 in H.
Qed.

(** Replacing a bucket by a well-formed one. *)
Lemma table_insert_wf ht i e : table_wf ht -> entry_wf i e -> table_wf (<[i := e]> ht).
Proof.
  intros [Hl Hw] He. split; [by rewrite length_insert|]. intros j e' Hj.
  destruct (decide (i = j)) as [<-|Hne].
  - apply list_lookup_insert_Some in Hj as [(_ & <- & _)|[? _]]; [done|done].
  - rewrite list_lookup_insert_ne in Hj by done. auto.
Qed.

Lemma nodes_of_insert ht i e b :
  (i < length ht)%nat -> nodes_of (<[i := e]> ht) b =
  if decide (hash_block b = i) then with_block b (bucket e) else nodes_of ht b.
Proof.
  intros Hi. unfold nodes_of. destruct (decide (hash_block b = i)) as [->|Hne].
  - by rewrite list_lookup_insert_eq.
  - by rewrite list_lookup_insert_ne.
Qed.

Lemma init_wf : table_wf init_hash.
Proof.
  split; [apply length_replicate|]. intros i e [-> _]%lookup_replicate.
  split; [constructor|]. split; [constructor|done].
Qed.

Lemma insert_wf n ht : table_wf ht -> table_wf (insert_hash n ht).
Proof.
  intros Hw. unfold insert_hash. destruct (table_entry ht (block n) Hw) as (e & -> & Hs & Hf & Ha).
  apply table_insert_wf; [done|]. split; [by apply insert_list_sorted|].
  split; [by apply insert_list_Forall|]. cbn [active bucket]. split.
  - by intros ?%lor_active.
  - by intros ?%insert_list_cons.
Qed.

Lemma remove_wf b ht : table_wf ht -> table_wf (remove_hash b ht).
Proof.
  intros Hw. unfold remove_hash. destruct (table_entry ht b Hw) as (e & -> & Hs & Hf & Ha).
  apply table_insert_wf; [done|]. split; [by apply remove_list_sorted|].
  split; [by apply remove_list_Forall|]. cbn [active bucket].
  destruct (remove_list (bucket e) b) as [|q l] eqn:E; [by rewrite Z.land_0_r|].
  split; [|done]. intros H0%Ha. by rewrite H0 in E.
Qed.

Lemma insert_nodes n ht b : table_wf ht ->
  nodes_of (insert_hash n ht) b = if block n =? b then n :: nodes_of ht b else nodes_of ht b.
Proof.
  intros Hw. unfold insert_hash. destruct (table_entry ht (block n) Hw) as (e & Ee & Hs & Hf & Ha).
  rewrite Ee, nodes_of_insert.
  2:{ destruct Hw as [-> _]. apply hash_block_lt. }
  cbn [bucket]. rewrite insert_list_nodes by done.
  destruct (Z.eqb_spec (block n) b) as [<-|Hne].
  - rewrite decide_True by done. unfold nodes_of. by rewrite Ee.
  - destruct (decide (hash_block b = hash_block (block n))) as [E|]; [|done].
    unfold nodes_of. by rewrite E, Ee.
Qed.

Lemma remove_nodes b' ht b : table_wf ht ->
  nodes_of (remove_hash b' ht) b = if b' =? b then list.tail (nodes_of ht b) else nodes_of ht b.
Proof.
  intros Hw. unfold remove_hash. destruct (table_entry ht b' Hw) as (e & Ee & Hs & Hf & Ha).
  rewrite Ee, nodes_of_insert.
  2:{ destruct Hw as [-> _]. apply hash_block_lt. }
  cbn [bucket]. rewrite remove_list_nodes by done.
  destruct (Z.eqb_spec b' b) as [<-|Hne].
  - rewrite decide_True by done. unfold nodes_of. by rewrite Ee.
  - destruct (decide (hash_block b = hash_block b')) as [E|]; [|done].
    unfold nodes_of. by rewrite E, Ee.
Qed.

Lemma check_nodes b ht : table_wf ht -> check_hash b ht = head (nodes_of ht b).
Proof.
  intros Hw. unfold check_hash, nodes_of. destruct (table_entry ht b Hw) as (e & -> & Hs & Hf & Ha).
  destruct (Z.eqb_spec (active e) 0) as [H0|H0]; [|by apply check_list_head].
  apply Ha in H0. by rewrite H0.
Qed.

(** ** Properties *)

Inductive hash_op := Insert (n : block_node) | Remove (b : Z).

Definition run_hash_op (ht : hash_table) (o : hash_op) : hash_table :=
  match o with Insert n => insert_hash n ht | Remove b => remove_hash b ht end.

(** The abstract table: for every block number a stack of nodes. *)
Definition stacks : Type := Z -> list block_node.

Definition spec_hash_op (s : stacks) (o : hash_op) : stacks := fun b =>
  match o with
  | Insert n => if block n =? b then n :: s b else s b
  | Remove b' => if b' =? b then list.tail (s b) else s b
  end.

Lemma run_hash_ops os : forall ht s,
  table_wf ht -> (forall b, nodes_of ht b = s b) ->
  table_wf (fold_left run_hash_op os ht) /\
  forall b, nodes_of (fold_left run_hash_op os ht) b = fold_left spec_hash_op os s b.
Proof.
  induction os as [|o os IH]; intros ht s Hw Hs; [done|]. cbn [fold_left]. apply IH.
  - destruct o; [by apply insert_wf|by apply remove_wf].
  - intros b. destruct o as [n|b']; cbn [run_hash_op spec_hash_op].
    + by rewrite insert_nodes, Hs.
    + by rewrite remove_nodes, Hs.
Qed.

Lemma init_nodes b : nodes_of init_hash b = [].
Proof.
  unfold nodes_of, init_hash. rewrite lookup_replicate_2 by apply hash_block_lt. done.
Qed.

(** C32: after any sequence of insertions and removals on the initial table,
    every bucket is sorted, holds only blocks that hash to it and is flagged
    exactly when it is not empty, and looking a block up gives the latest node
    inserted for it that was not removed: the table is a stack of nodes per
    block number. *)
Theorem hash_refines_stacks (os : list hash_op) (ht := fold_left run_hash_op os init_hash) :
  table_wf ht /\ forall b, check_hash b ht = head (fold_left spec_hash_op os (fun _ => []) b).
Proof.
  destruct (run_hash_ops os init_hash (fun _ => []) init_wf init_nodes) as [Hw Hn].
  split; [done|]. intros b. rewrite check_nodes by done. by rewrite Hn.
Qed.

(** Removing what was just inserted gives back the table as it was, flags
    included. *)
Theorem remove_insert n ht :
  table_wf ht -> Forall (fun e => active e = 0 \/ active e = 0xFF) ht ->
  remove_hash (block n) (insert_hash n ht) = ht.
Proof.
  intros Hw Hact. destruct (table_entry ht (block n) Hw) as (e & Ee & Hs & Hf & Ha).
  assert (Hlt : (hash_block (block n) < length ht)%nat).
  { destruct Hw as [-> _]. apply hash_block_lt. }
  unfold insert_hash. rewrite Ee. unfold remove_hash. rewrite list_lookup_insert_eq by done.
  rewrite list_insert_insert_eq. cbn [active bucket].
  assert (Hrem : remove_list (insert_list (bucket e) n) (block n) = bucket e).
  { clear -Hs. induction (bucket e) as [|q l IH]; cbn [insert_list remove_list].
    - by rewrite Z.ltb_irrefl, Z.eqb_refl.
    - apply StronglySorted_inv in Hs as [Hs _]. destruct (block q <? block n) eqn:E; cbn [remove_list].
      + by rewrite E, IH.
      + by rewrite Z.ltb_irrefl, Z.eqb_refl. }
  rewrite Hrem. apply list_insert_id. rewrite Ee. f_equal. destruct e as [a l]. cbn [active bucket] in *.
  rewrite list.Forall_forall in Hact. specialize (Hact _ (list_elem_of_lookup_2 _ _ _ Ee)).
  cbn [active] in Hact. destruct l as [|q l].
  - rewrite Z.land_0_r. destruct Ha as [_ Ha]. by rewrite Ha.
  - destruct Hact as [-> | ->]; [|done]. destruct Ha as [Ha _]. by specialize (Ha eq_refl).
Qed.

(** *** Witness *)

Definition sample_node (b : Z) : block_node := BlockNode b 2 2 [47] [].

Lemma remove_insert_witness :
  remove_hash 32775 (insert_hash (sample_node 32775) (insert_hash (sample_node 7) init_hash)) =
  insert_hash (sample_node 7) init_hash.
Proof.
  apply (remove_insert (sample_node 32775)).
  - apply insert_wf, init_wf.
  - unfold insert_hash. destruct (init_hash !! hash_block (block (sample_node 7))) as [e|] eqn:E.
    + apply Forall_insert; [|right; apply lookup_replicate in E as [-> _]; reflexivity].
      apply Forall_replicate. by left.
    + apply Forall_replicate. by left.
Defined.
