(* ===== verification/DiskExt2.v ===== *)
(** * The ext2 file system of the watched disk

    Models xadisk_linux_ext2.c: the superblock, the group descriptors, and the
    walk along a path from the root directory to the blocks of the directory
    it names. *)

From Stdlib Require Import String.
From S2P Require Import Prelude CStr DiskDir.

(** [disk_mmap len off]: the bytes of the image that [mmap] maps, [None] for
    MAP_FAILED (which the code does not look for). *)
Class DiskEnv := { disk_mmap : Z -> Z -> option (list Z) }.

Record xa_linux_ext2_sb := Sb {
  blocks_total : Z;
  block_size : Z;
  blocks_per_group : Z;
  inodes_per_group : Z;
  inode_size : Z }.

Definition LINUX_EXT2_ROOT_INODE : Z := 2.
Definition LINUX_EXT2_NBLOCKS : nat := 15.
Definition LINUX_EXT2_GROUPDESC_SIZE : Z := 32.

(** Unsigned division; by zero it is undefined. *)
Definition udiv (a b : Z) : result Z := if b =? 0 then Fault else Ret (a / b).
Definition umod (a b : Z) : result Z := if b =? 0 then Fault else Ret (a mod b).

Section Model.
Context {D : DiskEnv}.

Definition map_disk (len off : Z) : result (list Z) :=
  match disk_mmap len off with Some q => Ret q | None => Fault end.

(** [1024 * (1 << v)] is an int: undefined from [v = 21] on. *)
Definition xa_linux_ext2_read_sb : result xa_linux_ext2_sb :=
  q ← map_disk 4096 0;
  let p := 1024 + 4 in
  blocks_total ← rd q p 4; let p := p + 24 in
  log ← rd q p 4; let p := p + 8 in
  block_size ← (if log <? 21 then Ret (1024 * Z.shiftl 1 log) else Fault);
  blocks_per_group ← rd q p 4; let p := p + 4 in
  inodes_per_group ← rd q p 4; let p := p + 48 in
  inode_size ← rd q p 2;
  Ret (Sb blocks_total block_size blocks_per_group inodes_per_group inode_size).

Fixpoint read_tables (q : list Z) (p : Z) (n : nat) : result (list Z) :=
  match n with
  | O => Ret []
  | S n' => t ← rd q p 4; rest ← read_tables q (p + LINUX_EXT2_GROUPDESC_SIZE) n'; Ret (t :: rest)
  end.

Definition xa_linux_ext2_read_groupdesc (sb : xa_linux_ext2_sb) : result (list Z) :=
  g ← udiv (blocks_total sb) (blocks_per_group sb);
  let ngroups := s32 (u32 (g + 1)) in
  q ← map_disk (u32 (ngroups * LINUX_EXT2_GROUPDESC_SIZE)) 4096;
  read_tables q 8 (Z.to_nat ngroups).

(** A product of [off_t]; past 64 bits it is undefined. *)
Definition mul_off (a b : Z) : result Z :=
  if (-9223372036854775808 <=? a * b) && (a * b <? 9223372036854775808) then Ret (a * b) else Fault.

(** Returns file offset (64 bits) for the block group of an inode *)
Definition xa_linux_ext2_dir_getgroup (sb : xa_linux_ext2_sb) (inode : Z) : result Z :=
  g ← udiv inode (inodes_per_group sb);
  n ← mul_off (s32 g) (blocks_per_group sb);
  mul_off n (block_size sb).

(** [!strncmp(getname(pos), name, name_len)] for a name without NULs that is
    [name_len] bytes long *)
Fixpoint same_name (block : list Z) (name : cstr) {struct name} : result bool :=
  match name with
  | [] => Ret true
  | c :: name' => match block with
                  | [] => Fault
                  | b :: block' => if b =? c then same_name block' name' else Ret false
                  end
  end.

(** The position of a directory entry inside a data block; the fuel bounds the
    entries looked at. *)
Fixpoint find_entry (fuel : nat) (dir_block : list Z) (name : cstr) (limit pos : Z)
  : result (option Z) :=
  match fuel with
  | O => Diverge
  | S n =>
      if pos <? limit then
        len ← xa_linux_ext2_dir_getnamelen dir_block pos;
        found ← (if Z.of_nat (length name) =? len
                 then same_name (drop (Z.to_nat (pos + 8)) dir_block) name else Ret false);
        if (found : bool) then Ret (Some pos)
        else reclen ← xa_linux_ext2_dir_getreclen dir_block pos;
             find_entry n dir_block name limit (pos + reclen)
      else Ret None
  end.

Definition xa_linux_ext2_finddir (fuel : nat) (dir_block : list Z) (name : cstr) (dir_size : Z)
  : result (option Z) := find_entry fuel dir_block name dir_size 0.

(** The offset of an inode in its group, in 32-bit arithmetic *)
Definition xa_linux_ext2_findinode (sb : xa_linux_ext2_sb) (first_inode inode : Z) : result Z :=
  a ← umod first_inode (blocks_per_group sb);
  b ← umod inode (inodes_per_group sb);
  Ret (u32 (a * block_size sb + (b - 1) * inode_size sb)).

Fixpoint read_blocks (group : list Z) (p : Z) (room n : nat) : result (list Z) :=
  match n with
  | O => Ret []
  | S n' =>
      match room with
      | O => Fault (* blocks[15] *)
      | S room' => b ← rd group p 4; rest ← read_blocks group (p + 4) room' n'; Ret (b :: rest)
      end
  end.

(** Given the position of an inode, return data block numbers in a vector *)
Definition xa_linux_ext2_datablocks (group : list Z) (inode : Z) : result (list Z) :=
  i_blocks ← rd group (inode + 28) 4;
  read_blocks group (inode + 40) LINUX_EXT2_NBLOCKS (Z.to_nat (i_blocks / 8)).

(** The data blocks of an inode: its group is mapped and its inode looked up
    there. *)
Definition inode_blocks (sb : xa_linux_ext2_sb) (inode_table : list Z) (curinode : Z)
  : result (list Z) :=
  group ← udiv curinode (inodes_per_group sb);
  group_off ← xa_linux_ext2_dir_getgroup sb curinode;
  group_ptr ← map_disk (u32 (blocks_per_group sb * block_size sb)) group_off;
  first ← match inode_table !! Z.to_nat group with Some t => Ret t | None => Fault end;
  inode_ptr ← xa_linux_ext2_findinode sb first curinode;
  xa_linux_ext2_datablocks group_ptr inode_ptr.

(** Seeks the entry inside each data block: its type and inode number *)
Fixpoint find_in_blocks (fuel : nat) (sb : xa_linux_ext2_sb) (blocks : list Z) (path_elem : cstr)
  : result (option (Z * Z)) :=
  match blocks with
  | [] => Ret None
  | b :: blocks' =>
      block_ptr ← map_disk (block_size sb) (b * block_size sb);
      r ← xa_linux_ext2_finddir fuel block_ptr path_elem (s16 (block_size sb));
      match r with
      | Some pos =>
          ty ← xa_linux_ext2_dir_gettype block_ptr pos;
          ino ← xa_linux_ext2_dir_getinode block_ptr pos;
          Ret (Some (ty, ino))
      | None => find_in_blocks fuel sb blocks' path_elem
      end
  end.

(** Slashes are skipped. *)
Fixpoint skip_slashes (s : cstr) : cstr :=
  match s with c :: s' => if c =? 47 then skip_slashes s' else s | [] => [] end.

(** The next path element, at most [n] bytes, and what is left. *)
Fixpoint take_elem (n : nat) (s : cstr) : cstr * cstr :=
  match n, s with
  | S n', c :: s' => if c =? 47 then ([], s)
                     else let '(e, r) := take_elem n' s' in (c :: e, r)
  | _, _ => ([], s)
  end.

(** [xa_linux_ext2_dir]: the blocks and the inode of a directory, [None] when
    an element of the path is not found ([-1]).  [dfuel] bounds the entries of
    a block, [fuel] the elements of the path. *)
Fixpoint walk (dfuel fuel : nat) (sb : xa_linux_ext2_sb) (inode_table : list Z) (dirpath : cstr)
    (curinode : Z) : result (option (list Z * Z)) :=
  match fuel with
  | O => Diverge
  | S n =>
      blocks ← inode_blocks sb inode_table curinode;
      match skip_slashes dirpath with
      | [] => Ret (Some (blocks, curinode))
      | s =>
          let '(path_elem, dirpath') := take_elem MAX_PATH_LEN s in
          r ← find_in_blocks dfuel sb blocks path_elem;
          match r with
          | None => Ret None (* Invalid path *)
          | Some (ty, ino) =>
              walk dfuel n sb inode_table dirpath' (if ty =? 2 then ino else curinode)
          end
      end
  end.

Definition xa_linux_ext2_dir (dfuel : nat) (sb : xa_linux_ext2_sb) (inode_table : list Z)
    (dirpath : cstr) : result (option (list Z * Z)) :=
  walk dfuel (S (length dirpath)) sb inode_table dirpath LINUX_EXT2_ROOT_INODE.
End Model.

(** ** Paths *)

(** The elements of a path: its maximal runs of bytes other than slashes. *)
Fixpoint elements (acc : cstr) (s : cstr) : list cstr :=
  match s with
  | [] => match acc with [] => [] | _ => [acc] end
  | c :: s' => if c =? 47 then match acc with [] => elements [] s' | _ => acc :: elements [] s' end
               else elements (acc ++ [c]) s'
  end.

Definition path_elements (s : cstr) : list cstr := elements [] s.

Lemma elements_skip s : elements [] (skip_slashes s) = elements [] s.
Proof.
  induction s as [|c s IH]; [done|]. cbn [skip_slashes elements].
  destruct (c =? 47) eqn:E; [exact IH|]. cbn [elements]. by rewrite E.
Qed.

(** The first element, when it is short enough for the buffer. *)
Lemma elements_take n s : forall acc e r,
  take_elem n s = (e, r) -> (length e < n)%nat -> acc ++ e <> [] ->
  elements acc s = (acc ++ e) :: elements [] r.
Proof.
  revert n. induction s as [|c s IH]; intros n acc e r Ht Hl Hne.
  - destruct n as [|n]; [lia|]. injection Ht as <- <-. rewrite app_nil_r in *.
    cbn [elements]. by destruct acc.
  - destruct n as [|n]; [lia|]. cbn [take_elem] in Ht. cbn [elements].
    destruct (c =? 47) eqn:E.
    + injection Ht as <- <-. rewrite app_nil_r in *. cbn [elements]. rewrite E. by destruct acc.
    + destruct (take_elem n s) as [e' r'] eqn:E'. injection Ht as <- <-. simpl in Hl.
      rewrite (IH n (acc ++ [c]) e' r' E').
      * by rewrite <- app_assoc.
      * lia.
      * by destruct acc.
Qed.

Lemma elements_long n s : forall acc e r,
  take_elem n s = (e, r) -> acc ++ e <> [] ->
  exists x l, elements acc s = x :: l /\ (length (acc ++ e) <= length x)%nat.
Proof.
  revert n. induction s as [|c s IH]; intros n acc e r Ht Hne.
  - assert (e = []) as -> by (destruct n; by injection Ht). rewrite app_nil_r in *.
    destruct acc as [|a acc]; [done|]. by exists (a :: acc), [].
  - destruct n as [|n].
    { injection Ht as <- <-. rewrite app_nil_r in *. destruct acc as [|a acc]; [done|].
      cbn [elements]. destruct (c =? 47); [by exists (a :: acc), (elements [] s)|].
      destruct (IH 0%nat ((a :: acc) ++ [c]) [] s) as (x & l & -> & Hx).
      - by destruct s.
      - done.
      - exists x, l. split; [done|]. rewrite app_nil_r, length_app in Hx. simpl in *. lia. }
    cbn [take_elem] in Ht. cbn [elements]. destruct (c =? 47).
    + injection Ht as <- <-. rewrite app_nil_r in *. destruct acc as [|a acc]; [done|].
      by exists (a :: acc), (elements [] s).
    + destruct (take_elem n s) as [e' r'] eqn:E'. injection Ht as <- <-.
      destruct (IH n (acc ++ [c]) e' r' E') as (x & l & -> & Hx); [by destruct acc|].
      exists x, l. split; [done|]. rewrite <- app_assoc in Hx. done.
Qed.

Lemma skip_slashes_head s c s' : skip_slashes s = c :: s' -> (c =? 47) = false.
Proof.
  induction s as [|x s IH]; cbn [skip_slashes]; [done|].
  destruct (x =? 47) eqn:E; [exact IH|]. by intros [= <- <-].
Qed.

Lemma length_skip s : (length (skip_slashes s) <= length s)%nat.
Proof. induction s as [|c s IH]; [done|]. cbn [skip_slashes]. destruct (c =? 47); simpl; lia. Qed.

Lemma length_take_elem n s e r : take_elem n s = (e, r) -> length s = (length e + length r)%nat.
Proof.
  revert n e r. induction s as [|c s IH]; intros [|n] e r; cbn [take_elem]; try by intros [= <- <-].
  destruct (c =? 47); [by intros [= <- <-]|]. destruct (take_elem n s) as [e' r'] eqn:E.
  intros [= <- <-]. simpl. by rewrite (IH _ _ _ E).
Qed.

Lemma take_elem_nonempty n c s e r : (c =? 47) = false -> take_elem (S n) (c :: s) = (e, r) -> e <> [].
Proof. intros Hc. cbn [take_elem]. rewrite Hc. destruct (take_elem n s). by intros [= <- <-]. Qed.

(** ** What the walk computes *)

Section Resolve.
Context {D : DiskEnv}.
Variables (dfuel : nat) (sb : xa_linux_ext2_sb) (inode_table : list Z).

(** Following a list of names from an inode. *)
Fixpoint resolve (cur : Z) (path : list cstr) : result (option (list Z * Z)) :=
  blocks ← inode_blocks sb inode_table cur;
  match path with
  | [] => Ret (Some (blocks, cur))
  | e :: path' =>
      r ← find_in_blocks dfuel sb blocks e;
      match r with
      | None => Ret None
      | Some (ty, ino) => resolve (if ty =? 2 then ino else cur) path'
      end
  end.

Lemma walk_resolve n : forall s cur,
  (length s < n)%nat -> Forall (fun e => (length e < MAX_PATH_LEN)%nat) (path_elements s) ->
  walk dfuel n sb inode_table s cur = resolve cur (path_elements s).
Proof.
  induction n as [|n IH]; intros s cur Hn Hf; [lia|]. cbn [walk].
  unfold path_elements in *. rewrite <- elements_skip in *. pose proof (length_skip s) as Hlen.
  destruct (skip_slashes s) as [|c s'] eqn:Es; [done|]. apply skip_slashes_head in Es as Hc.
  destruct (take_elem MAX_PATH_LEN (c :: s')) as [e r] eqn:Et.
  assert (He : e <> []).
  { by apply (take_elem_nonempty 255 c s' e r). }
  assert (Hel : (length e < MAX_PATH_LEN)%nat -> elements [] (c :: s') = e :: elements [] r).
  { intros Hl. by apply (elements_take MAX_PATH_LEN (c :: s') [] e r Et Hl). }
  destruct (decide (length e < MAX_PATH_LEN)%nat) as [Hl|Hl].
  - rewrite (Hel Hl) in *. apply list.Forall_cons in Hf as [_ Hf]. cbn [resolve].
    pose proof (length_take_elem _ _ _ _ Et) as Hlt. cbn [length] in Hlt, Hlen.
    assert (length e <> 0)%nat by by destruct e.
    destruct (inode_blocks sb inode_table cur) as [blocks| |]; [|done..]. cbn [mbind result_bind].
    destruct (find_in_blocks dfuel sb blocks e) as [[[ty ino]|]| |]; [|done..]. cbn [mbind result_bind].
    apply IH; [lia|done].
  - destruct (elements_long MAX_PATH_LEN (c :: s') [] e r Et He) as (x & l & Ex & Hx).
    rewrite Ex in Hf. apply list.Forall_cons in Hf as [Hf _]. simpl in Hx. lia.
Qed.
End Resolve.

(** ** Directories on the disk *)

(** The first entry with a name. *)
Fixpoint find_named (name : cstr) (ds : list disk_entry) : option dir_entry :=
  match ds with
  | [] => None
  | d :: ds' => if bool_decide (path_elem (d_entry d) = name) then Some (d_entry d)
                else find_named name ds'
  end.

Lemma find_named_app name ds ds' :
  find_named name (ds ++ ds') =
  match find_named name ds with Some e => Some e | None => find_named name ds' end.
Proof. induction ds as [|d ds IH]; [done|]. cbn [app find_named]. by case_bool_decide. Qed.

Lemma same_name_app name s post :
  length name = length s -> same_name (s ++ post) name = Ret (bool_decide (s = name)).
Proof.
  revert s. induction name as [|c name IH]; intros s Hl; destruct s as [|b s]; try done.
  cbn [app same_name]. destruct (Z.eqb_spec b c) as [->|Hne].
  - rewrite IH by by injection Hl. repeat case_bool_decide; congruence.
  - by rewrite bool_decide_false by congruence.
Qed.

Lemma drop_name pre d post pos :
  pos = Z.of_nat (length pre) ->
  drop (Z.to_nat (pos + 8)) (pre ++ print_entry d ++ post) = path_elem (d_entry d) ++ d_pad d ++ post.
Proof.
  intros ->. unfold print_entry. rewrite <- !app_assoc, (app_assoc pre).
  rewrite (app_assoc (pre ++ _)), (app_assoc ((pre ++ _) ++ _)), (app_assoc (((pre ++ _) ++ _) ++ _)).
  match goal with |- drop ?k (?p ++ _) = _ => replace k with (length p) end.
  - by rewrite drop_app_length.
  - rewrite !length_app, !length_le_split. simpl. lia.
Qed.

(** The search in a block finds the first entry with the name. *)
Lemma find_entry_print name ds : forall pre fuel pos limit,
  Forall entry_ok ds -> pos = Z.of_nat (length pre) ->
  limit = pos + Z.of_nat (length (print_block ds)) -> (length ds < fuel)%nat ->
  exists r, find_entry fuel (pre ++ print_block ds) name limit pos = Ret r /\
    match find_named name ds with
    | Some e => exists p, r = Some p /\
        xa_linux_ext2_dir_gettype (pre ++ print_block ds) p = Ret (type e) /\
        xa_linux_ext2_dir_getinode (pre ++ print_block ds) p = Ret (inode e)
    | None => r = None
    end.
Proof.
  induction ds as [|d ds IH]; intros pre fuel pos limit Hok Hpos Hlim Hf;
    (destruct fuel as [|fuel]; [simpl in Hf; lia|]); cbn [find_entry].
  - rewrite (proj2 (Z.ltb_ge _ _)) by (simpl in Hlim; lia). by exists None.
  - apply list.Forall_cons in Hok as [Hd Hok]. cbn [length find_named] in *.
    change (print_block (d :: ds)) with (print_entry d ++ print_block ds) in *.
    rewrite length_app in Hlim. pose proof (length_print_entry d) as Hlen.
    assert (0 < rec_len d) by (unfold rec_len; lia).
    rewrite (proj2 (Z.ltb_lt _ _)) by lia.
    rewrite get_namelen by done. cbn [mbind result_bind].
    assert (Hfound : (if Z.of_nat (length name) =? Z.of_nat (length (path_elem (d_entry d)))
       then same_name (drop (Z.to_nat (pos + 8)) (pre ++ print_entry d ++ print_block ds)) name
       else Ret false) = Ret (bool_decide (path_elem (d_entry d) = name))).
    { destruct (Z.eqb_spec (Z.of_nat (length name)) (Z.of_nat (length (path_elem (d_entry d))))) as [E|E].
      - rewrite drop_name by done. apply same_name_app. lia.
      - rewrite bool_decide_false; [done|]. intros E'. apply E. by rewrite E'. }
    rewrite Hfound. cbn [mbind result_bind].
    case_bool_decide as Hn.
    + eexists. split; [done|]. exists pos. split; [done|]. split; [by apply get_type|by apply get_inode].
    + rewrite get_reclen by done. cbn [mbind result_bind].
      rewrite app_assoc. apply IH; [done| |lia|lia]. rewrite length_app. lia.
Qed.

Section Tree.
Context {D : DiskEnv}.
Variables (dfuel : nat) (sb : xa_linux_ext2_sb) (inode_table : list Z).
(** The directories of the file system: the blocks of each, and the entries
    of each block. *)
Variables (is_dir : Z -> Prop) (blocks_of : Z -> list Z) (entries_of : Z -> list disk_entry).

Record ext2_tree : Prop := {
  tree_size : 0 < block_size sb <= 32767;
  tree_root : is_dir LINUX_EXT2_ROOT_INODE;
  tree_blocks : forall i, is_dir i -> inode_blocks sb inode_table i = Ret (blocks_of i);
  tree_entries : forall i b, is_dir i -> b ∈ blocks_of i ->
    disk_mmap (block_size sb) (b * block_size sb) = Some (print_block (entries_of b)) /\
    Z.of_nat (length (print_block (entries_of b))) = block_size sb /\
    Forall entry_ok (entries_of b) /\ (length (entries_of b) < dfuel)%nat;
  tree_dirs : forall i b d, is_dir i -> b ∈ blocks_of i -> d ∈ entries_of b ->
    type (d_entry d) = 2 -> is_dir (inode (d_entry d)) }.

Definition dir_entries (i : Z) : list disk_entry := concat (entries_of <$> blocks_of i).

(** Following a path: an element that is not a directory is passed over. *)
Fixpoint follow (cur : Z) (path : list cstr) : option Z :=
  match path with
  | [] => Some cur
  | e :: path' =>
      match find_named e (dir_entries cur) with
      | None => None
      | Some d => follow (if type d =? 2 then inode d else cur) path'
      end
  end.

Hypothesis Htree : ext2_tree.

Lemma find_in_blocks_eq e bs :
  (forall b, b ∈ bs ->
    disk_mmap (block_size sb) (b * block_size sb) = Some (print_block (entries_of b)) /\
    Z.of_nat (length (print_block (entries_of b))) = block_size sb /\
    Forall entry_ok (entries_of b) /\ (length (entries_of b) < dfuel)%nat) ->
  find_in_blocks dfuel sb bs e =
  Ret ((fun d => (type d, inode d)) <$> find_named e (concat (entries_of <$> bs))).
Proof.
  induction bs as [|b bs IH]; intros Hbs; [done|]. cbn [find_in_blocks].
  destruct (Hbs b (list_elem_of_here _ _)) as (Hm & Hl & Hok & Hf).
  unfold map_disk. rewrite Hm. cbn [mbind result_bind].
  assert (s16 (block_size sb) = block_size sb) as ->.
  { pose proof (tree_size Htree). unfold s16. rewrite Z.mod_small; lia. }
  destruct (find_entry_print e (entries_of b) [] dfuel 0 (block_size sb)) as (r & Hr & Hcase);
    [done|done|lia|done|].
  unfold xa_linux_ext2_finddir. simpl app in Hr, Hcase. rewrite Hr. cbn [mbind result_bind fmap list_fmap concat].
  rewrite find_named_app. destruct (find_named e (entries_of b)) as [d|].
  - destruct Hcase as (p & -> & Hty & Hino). rewrite Hty, Hino. done.
  - subst r. apply IH. intros b' Hb'. by apply Hbs, list_elem_of_further.
Qed.

Lemma find_named_in e ds d : find_named e ds = Some d -> exists x, x ∈ ds /\ d_entry x = d.
Proof.
  induction ds as [|x ds IH]; cbn [find_named]; [done|]. case_bool_decide.
  - intros [= <-]. exists x. split; [apply list_elem_of_here|done].
  - intros (y & Hy & <-)%IH. exists y. split; [by apply list_elem_of_further|done].
Qed.

Lemma resolve_follow path : forall cur, is_dir cur ->
  resolve dfuel sb inode_table cur path =
  Ret ((fun i => (blocks_of i, i)) <$> follow cur path).
Proof.
  induction path as [|e path IH]; intros cur Hc; cbn [resolve follow];
    rewrite (tree_blocks Htree) by done; cbn [mbind result_bind]; [done|].
  rewrite find_in_blocks_eq by (intros b Hb; by apply (tree_entries Htree cur)).
  cbn [mbind result_bind]. fold (dir_entries cur).
  destruct (find_named e (dir_entries cur)) as [d|] eqn:Ef; [|done]. cbn [fmap option_fmap option_map].
  apply IH. destruct (Z.eqb_spec (type d) 2) as [Ht|]; [|done].
  apply find_named_in in Ef as (x & Hx & <-). unfold dir_entries in Hx.
  apply list_elem_of_In, in_concat in Hx as (l & Hl%list_elem_of_In & Hx%list_elem_of_In). apply list_elem_of_fmap in Hl as (b & -> & Hb).
  by eapply (tree_dirs Htree).
Qed.

(** C28: looking a path up ends and gives the blocks and the inode that are
    reached by following its elements, the maximal runs between slashes, from
    the root through the first entry of each name in all the blocks of each
    directory; an element that names something else than a directory is
    passed over, one that names nothing is an error. *)
Theorem ext2_dir_correct dirpath :
  Forall (fun e => (length e < MAX_PATH_LEN)%nat) (path_elements dirpath) ->
  xa_linux_ext2_dir dfuel sb inode_table dirpath =
  Ret ((fun i => (blocks_of i, i)) <$> follow LINUX_EXT2_ROOT_INODE (path_elements dirpath)).
Proof.
  intros Hf. unfold xa_linux_ext2_dir. rewrite walk_resolve; [|lia|done].
  apply resolve_follow, (tree_root Htree).
Qed.
End Tree.

(** The place of an inode is that of the file system (group [(n-1) / ipg],
    entry [(n-1) mod ipg] of its table) except for the last inode of every
    group, which is looked for in the next group and before its table. *)
Theorem findinode_correct (sb : xa_linux_ext2_sb) first n :
  0 < blocks_per_group sb -> 0 < inodes_per_group sb -> 0 < n ->
  0 <= first mod blocks_per_group sb * block_size sb + inodes_per_group sb * inode_size sb < 4294967296 ->
  0 <= first mod blocks_per_group sb * block_size sb -> 0 < inode_size sb ->
  (n mod inodes_per_group sb <> 0 ->
     udiv n (inodes_per_group sb) = Ret ((n - 1) / inodes_per_group sb) /\
     xa_linux_ext2_findinode sb first n =
     Ret (first mod blocks_per_group sb * block_size sb +
          (n - 1) mod inodes_per_group sb * inode_size sb)) /\
  (n mod inodes_per_group sb = 0 ->
     udiv n (inodes_per_group sb) = Ret ((n - 1) / inodes_per_group sb + 1) /\
     xa_linux_ext2_findinode sb first n =
     Ret (u32 (first mod blocks_per_group sb * block_size sb - inode_size sb))).
Proof.
  intros Hb Hi Hn Hrange H0 Hs. unfold xa_linux_ext2_findinode, udiv, umod.
  rewrite (proj2 (Z.eqb_neq (blocks_per_group sb) 0)), (proj2 (Z.eqb_neq (inodes_per_group sb) 0)) by lia.
  cbn [mbind result_bind]. set (ipg := inodes_per_group sb) in *.
  pose proof (Z.div_mod n ipg ltac:(lia)) as Hd. pose proof (Z.mod_pos_bound n ipg ltac:(lia)) as Hm.
  split; intros Hz.
  - assert ((n - 1) / ipg = n / ipg /\ (n - 1) mod ipg = n mod ipg - 1) as [-> ->].
    { split; symmetry; [apply (Z.div_unique _ _ _ (n mod ipg - 1))|apply (Z.mod_unique _ _ (n / ipg))]; lia. }
    split; [done|]. f_equal. apply u32_small. nia.
  - assert ((n - 1) / ipg = n / ipg - 1) as ->.
    { symmetry. apply (Z.div_unique _ _ _ (ipg - 1)); lia. }
    rewrite Hz. split; [f_equal; lia|]. do 2 f_equal; lia.
Qed.

(** *** Witnesses *)

(** One block group of eight 1 KB blocks: the inode table in block 2, the root
    directory in block 4 and the directory [/etc], inode 5, in block 5. *)
Definition sample_sb : xa_linux_ext2_sb := Sb 8 1024 8 8 128.

Definition put (pos : nat) (bs l : list Z) : list Z := take pos l ++ bs ++ drop (pos + length bs) l.

Definition sample_inodes : list Z :=
  put 2204 (le_split 4 8) (put 2216 (le_split 4 4)
    (put 2588 (le_split 4 8) (put 2600 (le_split 4 5) (replicate (Z.to_nat 8192) 0)))).

Definition sample_entries (b : Z) : list disk_entry :=
  if b =? 4 then [DiskEntry (DirEntry 2 2 (str ".")) [0; 0; 0];
                  DiskEntry (DirEntry 6 1 (str "motd")) [];
                  DiskEntry (DirEntry 5 2 (str "etc")) (replicate 989 0)]
  else [DiskEntry (DirEntry 5 2 (str ".")) (replicate 1015 0)].

Definition sample_blocks_of (i : Z) : list Z := if i =? 2 then [4] else [5].

#[local] Instance sample_disk : DiskEnv := {|
  disk_mmap len off :=
    if off =? 0 then Some sample_inodes else Some (print_block (sample_entries (off / 1024))) |}.

Lemma sample_tree :
  ext2_tree 10 sample_sb [2] (fun i => i = 2 \/ i = 5) sample_blocks_of sample_entries.
Proof.
  split.
  - cbn. lia.
  - by left.
  - intros i [-> | ->]; vm_compute; reflexivity.
  - intros i b [-> | ->] ->%list_elem_of_singleton; (split; [reflexivity|]);
      (split; [vm_compute; reflexivity|]); (split; [|cbn; lia]);
      repeat constructor; vm_compute; try discriminate; reflexivity.
  - intros i b d [-> | ->] ->%list_elem_of_singleton Hd Ht.
    + cbn in Hd. apply elem_of_cons in Hd as [-> | Hd]; [by left|].
      apply elem_of_cons in Hd as [-> | Hd]; [discriminate|].
      apply list_elem_of_singleton in Hd as ->. by right.
    + cbn in Hd. apply list_elem_of_singleton in Hd as ->. by right.
Qed.

Lemma ext2_dir_correct_witness :
  xa_linux_ext2_dir 10 sample_sb [2] (str "//etc/") = Ret (Some ([5], 5)) /\
  xa_linux_ext2_dir 10 sample_sb [2] (str "/usr/bin") = Ret None /\
  xa_linux_ext2_dir 10 sample_sb [2] (str "/motd/etc") = Ret (Some ([5], 5)).
Proof.
  split; [|split];
    (refine (eq_trans (ext2_dir_correct 10 sample_sb [2] _ _ _ sample_tree _ _) _);
     [repeat constructor; simpl; unfold MAX_PATH_LEN; lia|vm_compute; reflexivity]).
Defined.

Lemma findinode_correct_witness :
  xa_linux_ext2_findinode sample_sb 2 5 = Ret 2560 /\ xa_linux_ext2_findinode sample_sb 2 8 = Ret 1920.
Proof.
  split.
  - refine (eq_trans (proj2 (proj1 (findinode_correct sample_sb 2 5 _ _ _ _ _ _) _)) _); cbn; try lia; done.
  - refine (eq_trans (proj2 (proj2 (findinode_correct sample_sb 2 8 _ _ _ _ _ _) _)) _); cbn; try lia; done.
Defined.
