(* ===== verification/DiskList.v ===== *)
(** * Listing a directory block

    Models [xa_linux_ext2_listdirs] of xadisk_linux_ext2.c, which prints the
    entries of a block. *)

From Stdlib Require Import String.
From S2P Require Import Prelude CStr DiskDir XaStore.

(** The bytes from the name of an entry on. *)
Definition xa_linux_ext2_dir_getname (block : list Z) (pos : Z) : list Z := drop (Z.to_nat (pos + 8)) block.

(** [putchar] of [n] bytes *)
Fixpoint put_name (n : nat) (s : list Z) : result cstr :=
  match n, s with
  | O, _ => Ret []
  | S n', c :: s' => r ← put_name n' s'; Ret (c :: r)
  | S _, [] => Fault
  end.

Definition entry_text (name : cstr) (len ino ty reclen : Z) : cstr :=
  str "Name: " ++ name ++ [10] ++ str "Name size: " ++ dec len ++ [10] ++
  str "Entry inode: " ++ dec (s32 ino) ++ [10] ++ str "Entry type: " ++ dec ty ++ [10] ++
  str "Entry size: " ++ dec reclen ++ [10; 10].

(** The loop; the fuel bounds the entries. *)
Fixpoint list_entries (fuel : nat) (block : list Z) (limit pos : Z) : result cstr :=
  match fuel with
  | O => Diverge
  | S n =>
      if pos <? limit then
        len ← xa_linux_ext2_dir_getnamelen block pos;
        name ← put_name (Z.to_nat len) (xa_linux_ext2_dir_getname block pos);
        ino ← xa_linux_ext2_dir_getinode block pos;
        ty ← xa_linux_ext2_dir_gettype block pos;
        reclen ← xa_linux_ext2_dir_getreclen block pos;
        rest ← list_entries n block limit (pos + reclen);
        Ret (entry_text name len ino ty reclen ++ rest)
      else Ret []
  end.

Definition xa_linux_ext2_listdirs (fuel : nat) (dir_block : list Z) (dir_size : Z) : result cstr :=
  list_entries fuel dir_block dir_size 0.

(** ** What is printed *)

Definition text_of (d : disk_entry) : cstr :=
  let e := d_entry d in
  entry_text (path_elem e) (Z.of_nat (length (path_elem e))) (inode e) (type e) (rec_len d).

Lemma put_name_app s post : put_name (length s) (s ++ post) = Ret s.
Proof.
  induction s as [|c s IH]; [by destruct post|]. cbn [length app put_name]. by rewrite IH.
Qed.

Lemma getname_print pre d post pos :
  pos = Z.of_nat (length pre) ->
  xa_linux_ext2_dir_getname (pre ++ print_entry d ++ post) pos = path_elem (d_entry d) ++ d_pad d ++ post.
Proof.
  intros ->. unfold xa_linux_ext2_dir_getname, print_entry. rewrite <- !app_assoc, (app_assoc pre).
  rewrite (app_assoc (pre ++ _)), (app_assoc ((pre ++ _) ++ _)), (app_assoc (((pre ++ _) ++ _) ++ _)).
  match goal with |- drop ?k (?p ++ _) = _ => replace k with (length p) end.
  - by rewrite drop_app_length.
  - rewrite !length_app, !length_le_split. simpl. lia.
Qed.

Lemma list_entries_print ds : forall pre fuel pos limit,
  Forall entry_ok ds -> pos = Z.of_nat (length pre) ->
  limit = pos + Z.of_nat (length (print_block ds)) -> (length ds < fuel)%nat ->
  list_entries fuel (pre ++ print_block ds) limit pos = Ret (concat (text_of <$> ds)).
Proof.
  induction ds as [|d ds IH]; intros pre fuel pos limit Hok Hpos Hlim Hf;
    (destruct fuel as [|fuel]; [simpl in Hf; lia|]); cbn [list_entries].
  - rewrite (proj2 (Z.ltb_ge _ _)); [done|]. simpl in Hlim. lia.
  - apply list.Forall_cons in Hok as [Hd Hok]. cbn [length] in *.
    change (print_block (d :: ds)) with (print_entry d ++ print_block ds) in *.
    rewrite length_app in Hlim. pose proof (length_print_entry d) as Hlen.
    assert (Hr : 0 < rec_len d) by (unfold rec_len; lia).
    rewrite (proj2 (Z.ltb_lt _ _)) by lia. rewrite get_namelen by done. cbn [mbind result_bind].
    rewrite Nat2Z.id, getname_print, put_name_app by done. cbn [mbind result_bind].
    rewrite get_inode, get_type, get_reclen by done. cbn [mbind result_bind].
    rewrite app_assoc, (IH _ fuel); [done|done| |lia|lia]. rewrite length_app. lia.
Qed.

(** Every entry of a directory block is printed, in order, with its whole name
    and its fields; there is no limit on the entries. *)
Theorem listdirs_correct (ds : list disk_entry) fuel :
  Forall entry_ok ds -> (length ds < fuel)%nat ->
  xa_linux_ext2_listdirs fuel (print_block ds) (Z.of_nat (length (print_block ds))) =
  Ret (concat (text_of <$> ds)).
Proof. intros Hok Hf. by apply (list_entries_print ds []). Qed.

(** An entry of length 0, which a block that is not a directory may have, is
    printed for ever: no number of turns is enough. *)
Theorem listdirs_diverges block limit fuel len name :
  0 < limit -> 8 <= Z.of_nat (length block) ->
  xa_linux_ext2_dir_getreclen block 0 = Ret 0 -> xa_linux_ext2_dir_getnamelen block 0 = Ret len ->
  put_name (Z.to_nat len) (xa_linux_ext2_dir_getname block 0) = Ret name ->
  xa_linux_ext2_listdirs fuel block limit = Diverge.
Proof.
  intros Hlim Hb Hr Hlen Hname. unfold xa_linux_ext2_listdirs. induction fuel as [|fuel IH]; [done|].
  cbn [list_entries]. rewrite (proj2 (Z.ltb_lt _ _)) by done. rewrite Hlen. cbn [mbind result_bind].
  rewrite Hname. cbn [mbind result_bind].
  assert (Hrd : forall k n, 0 <= k -> k + Z.of_nat n <= 8 -> exists v, rd block (0 + k) n = Ret v).
  { intros k n H0 H8. unfold rd. rewrite (proj2 (Z.leb_le _ _)), (proj2 (Z.leb_le _ _)) by lia. by eexists. }
  destruct (Hrd 0 4%nat) as [i Hi]; [lia..|]. change (0 + 0) with 0 in Hi. destruct (Hrd 7 1%nat) as [t Ht]; [lia..|].
  unfold xa_linux_ext2_dir_getinode, xa_linux_ext2_dir_gettype. rewrite Hi, Ht. cbn [mbind result_bind].
  rewrite Hr. cbn [mbind result_bind]. change (0 + 0) with 0. by rewrite IH.
Qed.

Lemma listdirs_correct_witness :
  xa_linux_ext2_listdirs 5 (print_block [DiskEntry (DirEntry 13 2 (str "dir")) [0]]) 12 =
  Ret (str "Name: dir" ++ [10] ++ str "Name size: 3" ++ [10] ++ str "Entry inode: 13" ++ [10] ++
       str "Entry type: 2" ++ [10] ++ str "Entry size: 12" ++ [10; 10]).
Proof.
  refine (eq_trans (listdirs_correct [DiskEntry (DirEntry 13 2 (str "dir")) [0]] 5 _ _) _).
  - repeat constructor; vm_compute; try discriminate; reflexivity.
  - cbn. lia.
  - vm_compute. reflexivity.
Defined.

Lemma listdirs_diverges_witness : xa_linux_ext2_listdirs 1000 (replicate 4096 0) 4096 = Diverge.
Proof.
  apply (listdirs_diverges _ _ _ 0 []).
  - lia.
  - rewrite length_replicate. lia.
  - reflexivity.
  - reflexivity.
  - reflexivity.
Defined.
