(* ===== verification/DiskCore.v ===== *)
(** * Watching directories on a guest's disk

    Models xadisk_core.c: a watch puts the blocks of a directory with their
    parsed contents in the table of watched blocks; the FIFO thread takes
    every block that is written, and for a watched one prints how the
    directory changed. *)

From Stdlib Require Import String Sorted.
From S2P Require Import Prelude CStr DiskDir DiskHash DiskExt2.

(** - [image_read off]: what 4096 bytes read at [off] leave in the buffer;
    - [malloc_op]: what [malloc] leaves in the [op] field of an operation. *)
Class ReadEnv := { image_read : Z -> list Z; malloc_op : Z }.

Record block_op := BlockOp { b_op : Z; sector : Z; nb_sectors : Z; data : list Z }.

Definition BUFSIZE : nat := Z.to_nat 5009.

Definition parse_op (buf : list Z) : result block_op :=
  o ← rd buf 0 1;
  sector ← rd buf 1 8;
  nb ← rd buf 9 4;
  if (Z.to_nat 4109 <=? length buf)%nat
  then Ret (BlockOp o sector (s32 nb) (take (Z.to_nat 4096) (drop 13 buf))) else Fault.

Record xadisk := Xadisk { x_sb : xa_linux_ext2_sb; i_tables : list Z }.

(** What [xadisk_set_watch] returns. *)
Record xadisk_obj := Obj { o_path : cstr; o_inode : Z; o_blocks : list Z }.

Section Model.
Context {D : DiskEnv} {R : ReadEnv}.

(** [xadisk_init], the part that is not file handling *)
Definition xadisk_init : result (xadisk * hash_table) :=
  sb ← xa_linux_ext2_read_sb;
  gd ← xa_linux_ext2_read_groupdesc sb;
  Ret (Xadisk sb gd, init_hash).

(** The loop over the blocks of the directory. *)
Fixpoint watch_blocks (path : cstr) (inode : Z) (blocks : list Z) (ht : hash_table) : result hash_table :=
  match blocks with
  | [] => Ret ht
  | b :: blocks' =>
      dir ← parse_block_dir (image_read (b * 4096)) 4096;
      watch_blocks path inode blocks' (insert_hash (BlockNode b inode 2 path (sort_dir dir)) ht)
  end.

Definition xadisk_set_watch (dfuel : nat) (x : xadisk) (path : cstr) (ht : hash_table)
  : result (option xadisk_obj * hash_table) :=
  r ← xa_linux_ext2_dir dfuel (x_sb x) (i_tables x) path;
  match r with
  | None => Ret (None, ht) (* Directory not found! *)
  | Some (blocks, inode) =>
      ht' ← watch_blocks path inode blocks ht;
      Ret (Some (Obj path inode blocks), ht')
  end.

(** Removes blocks in obj->blocks[i] from hash table *)
Definition xadisk_unset_watch (obj : xadisk_obj) (ht : hash_table) : hash_table :=
  fold_left (fun ht b => remove_hash b ht) (o_blocks obj) ht.

Definition op_name (o : Z) : cstr :=
  if o =? OP_MKDIR then str "MKDIR: "
  else if o =? OP_RMDIR then str "RMDIR: "
  else if o =? OP_MKFILE then str "MKFILE: "
  else if o =? OP_RMFILE then str "RMFILE: "
  else [].

Definition op_line (path : cstr) (o : dir_op) : cstr :=
  op_name (default malloc_op (op o)) ++ path ++ str "/" ++ op_path o ++ [10].

(** One turn of the loop of [xadisk_core]: the table and what is printed. *)
Definition core_step (ht : hash_table) (buf : list Z) : result (hash_table * list cstr) :=
  o ← parse_op buf;
  let block := u32 (sector o / 8) in
  match check_hash block ht with
  | None => Ret (ht, [])
  | Some b =>
      t ← parse_block_dir (data o) 4096;
      let t := sort_dir t in
      diff ← compare_dirs (bn_dir b) t;
      if (0 <? length diff)%nat then Ret (set_dir block t ht, op_line (bn_path b) <$> diff)
      else Ret (ht, [])
  end.

(** The loop over what is read from the FIFO until its end. *)
Fixpoint xadisk_core (ht : hash_table) (bufs : list (list Z)) : result (hash_table * list cstr) :=
  match bufs with
  | [] => Ret (ht, [])
  | buf :: bufs' =>
      r ← core_step ht buf;
      let '(ht', out) := r in
      r' ← xadisk_core ht' bufs';
      let '(ht'', out') := r' in
      Ret (ht'', out ++ out')
  end.
End Model.

(** ** Operations as they come out of the FIFO *)

Definition print_op (o : block_op) (rest : list Z) : list Z :=
  [b_op o] ++ le_split 8 (sector o) ++ le_split 4 (nb_sectors o) ++ data o ++ rest.

Definition op_ok (o : block_op) : Prop :=
  is_u8 (b_op o) /\ is_u64 (sector o) /\ -2147483648 <= nb_sectors o < 2147483648 /\
  length (data o) = Z.to_nat 4096.

Lemma parse_print_op o rest : op_ok o -> parse_op (print_op o rest) = Ret o.
Proof.
  intros (Ho & Hs & Hn & Hd). unfold parse_op, print_op.
  assert (rd ([b_op o] ++ le_split 8 (sector o) ++ le_split 4 (nb_sectors o) ++ data o ++ rest) 0 1 =
          Ret (le_combine [b_op o])) as -> by by apply (rd_app [] [b_op o]).
  cbn [mbind result_bind].
  rewrite (rd_app [b_op o] (le_split 8 _) _ 1 8) by (rewrite ?length_le_split; done). cbn [mbind result_bind].
  rewrite (app_assoc [b_op o]).
  rewrite (rd_app _ (le_split 4 _) _ 9 4) by (rewrite ?length_app, ?length_le_split; done).
  cbn [mbind result_bind].
  rewrite !length_app, !length_le_split, Hd. rewrite (proj2 (Nat.leb_le _ _)) by (simpl length; lia).
  rewrite !le_combine_split. rewrite (app_assoc _ (le_split 4 _)).
  match goal with |- context [drop 13 (?p ++ _)] => replace 13%nat with (length p) end.
  2:{ by rewrite !length_app, !length_le_split. }
  rewrite drop_app_length. rewrite <- Hd, take_app_length.
  destruct o as [a b c d]. cbn [b_op sector nb_sectors data le_combine] in *. f_equal.
  rewrite Z.add_0_r, Z.mod_small by lia. f_equal.
  unfold s32. change (256 ^ Z.of_nat 4) with 4294967296.
  rewrite Z.add_mod_idemp_l, Z.mod_small by lia. lia.
Qed.

(** ** Changing the directory of a node *)

Lemma set_dir_list_sorted l b t : StronglySorted le_block l -> StronglySorted le_block (set_dir_list l b t).
Proof.
  assert (Hf : forall (P : Z -> Prop) l, Forall (fun n => P (DiskHash.block n)) l ->
    Forall (fun n => P (DiskHash.block n)) (set_dir_list l b t)).
  { intros P l'. induction 1 as [|q l' Hq Hl IH]; cbn [set_dir_list]; [constructor|].
    destruct (DiskHash.block q <? b); [by constructor|].
    destruct (DiskHash.block q =? b); by constructor. }
  induction 1 as [|q l Hs IH Hq]; cbn [set_dir_list]; [constructor|].
  destruct (DiskHash.block q <? b).
  - constructor; [done|]. by apply (Hf (fun z => DiskHash.block q <= z)).
  - destruct (DiskHash.block q =? b); by constructor.
Qed.

Lemma set_dir_list_Forall (P : Z -> Prop) l b t :
  Forall (fun n => P (DiskHash.block n)) l -> Forall (fun n => P (DiskHash.block n)) (set_dir_list l b t).
Proof.
  induction 1 as [|q l Hq Hl IH]; cbn [set_dir_list]; [constructor|].
  destruct (DiskHash.block q <? b); [by constructor|].
  destruct (DiskHash.block q =? b); by constructor.
Qed.

Definition with_dir (t : list dir_entry) (n : block_node) : block_node :=
  BlockNode (DiskHash.block n) (bn_inode n) (bn_type n) (bn_path n) t.

Lemma set_dir_list_nodes l b t b' : StronglySorted le_block l ->
  with_block b' (set_dir_list l b t) =
  if b =? b' then match with_block b' l with n :: ns => with_dir t n :: ns | [] => [] end
  else with_block b' l.
Proof.
  induction l as [|q l IH]; intros Hs; cbn [set_dir_list]; [by destruct (b =? b')|].
  pose proof Hs as [Hs' _]%StronglySorted_inv.
  destruct (Z.ltb_spec (DiskHash.block q) b) as [Hlt|Hge].
  - rewrite !with_block_cons, IH by done.
    destruct (Z.eqb_spec (DiskHash.block q) b'), (Z.eqb_spec b b'); [lia|reflexivity..].
  - destruct (Z.eqb_spec (DiskHash.block q) b) as [Eq|Eq].
    + rewrite !with_block_cons. cbn [DiskHash.block]. rewrite Eq.
      destruct (Z.eqb_spec b b'); [|done]. unfold with_dir. by rewrite Eq.
    + destruct (Z.eqb_spec b b') as [E|]; [|done].
      rewrite with_block_above; [done|done|lia].
Qed.

Lemma set_dir_wf b t ht : table_wf ht -> table_wf (set_dir b t ht).
Proof.
  intros Hw. unfold set_dir. destruct (table_entry ht b Hw) as (e & -> & Hs & Hf & Ha).
  apply table_insert_wf; [done|]. split; [by apply set_dir_list_sorted|].
  split; [by apply (set_dir_list_Forall (fun z => hash_block z = hash_block b))|].
  cbn [active bucket]. rewrite Ha. destruct (bucket e) as [|q l]; [done|]. cbn [set_dir_list].
  destruct (DiskHash.block q <? b); [done|]. by destruct (DiskHash.block q =? b).
Qed.

Lemma set_dir_nodes b t ht b' : table_wf ht ->
  nodes_of (set_dir b t ht) b' =
  if b =? b' then match nodes_of ht b' with n :: ns => with_dir t n :: ns | [] => [] end
  else nodes_of ht b'.
Proof.
  intros Hw. unfold set_dir. destruct (table_entry ht b Hw) as (e & Ee & Hs & Hf & Ha).
  rewrite Ee, nodes_of_insert.
  2:{ destruct Hw as [-> _]. apply hash_block_lt. }
  cbn [bucket]. rewrite set_dir_list_nodes by done.
  destruct (Z.eqb_spec b b') as [<-|Hne].
  - rewrite decide_True by done. unfold nodes_of. by rewrite Ee.
  - destruct (decide (hash_block b' = hash_block b)) as [E|]; [|done].
    unfold nodes_of. by rewrite E, Ee.
Qed.

(** ** Writes to the disk and what they are reported as *)

(** A directory in a table entry: as many names as the table has room for. *)
Definition dir_ok (t : list dir_entry) : Prop :=
  StronglySorted name_lt t /\ (length t <= Z.to_nat DIRMAX)%nat /\
  Forall (fun e => (length (path_elem e) < 256)%nat) t.

Definition dirs_ok (ht : hash_table) : Prop :=
  forall b n, check_hash b ht = Some n -> dir_ok (bn_dir n).

(** Two directories that differ in no more names than the table of operations
    has room for. *)
Definition near (t u : list dir_entry) : Prop :=
  (length (only_in t u) + length (only_in u t) <= OPMAX)%nat.

(** A write of a directory block: the operation that carries it, the bytes of
    the FIFO buffer after it, the entries in it. *)
Record dir_write := DirWrite { w_op : block_op; w_rest : list Z; w_entries : list disk_entry }.

Definition w_buf (w : dir_write) : list Z := print_op (w_op w) (w_rest w).
Definition w_block (w : dir_write) : Z := u32 (sector (w_op w) / 8).
Definition w_dir (w : dir_write) : list dir_entry := d_entry <$> w_entries w.

Definition write_ok (w : dir_write) : Prop :=
  op_ok (w_op w) /\ data (w_op w) = print_block (w_entries w) /\ Forall entry_ok (w_entries w) /\
  (length (w_entries w) <= Z.to_nat DIRMAX)%nat /\ NoDup (names (w_dir w)).

(** A removed name is reported once, so is a created one, nothing else is, and
    the reports are in the order of the names. *)
Definition changes (old new : list dir_entry) (ops : list dir_op) : Prop :=
  Permutation ops ((rm_op <$> only_in old new) ++ (mk_op <$> only_in new old)) /\
  StronglySorted (fun a b => str_lt (op_path a) (op_path b)) ops.

Lemma sorted_strict t : StronglySorted name_le t -> NoDup (names t) -> StronglySorted name_lt t.
Proof.
  induction 1 as [|e t Hs IH Hf]; intros Hn; [constructor|].
  rewrite names_cons in Hn. apply list.NoDup_cons in Hn as [He Hn]. constructor; [by apply IH|].
  rewrite list.Forall_forall in *. intros x Hx. destruct (proj1 (str_le_lteq _ _) (Hf x Hx)) as [|E]; [done|].
  destruct He. rewrite E. by apply list_elem_of_fmap_2.
Qed.

Lemma sort_dir_ok ds :
  Forall entry_ok ds -> (length ds <= Z.to_nat DIRMAX)%nat -> NoDup (names (d_entry <$> ds)) ->
  dir_ok (sort_dir (d_entry <$> ds)).
Proof.
  intros Hok Hl Hn. destruct (sort_dir_spec (d_entry <$> ds)) as [Hs Hp]. split; [|split].
  - apply sorted_strict; [done|]. unfold names. by rewrite Hp.
  - by rewrite Hp, length_fmap.
  - rewrite Hp. apply Forall_fmap. eapply list.Forall_impl; [exact Hok|].
    by intros d (_ & _ & _ & H & _).
Qed.

(** Without differences the two directories have the same names. *)
Lemma only_in_nil_names t u : only_in t u = [] -> forall s, s ∈ names t -> s ∈ names u.
Proof.
  intros H s (e & -> & He)%list_elem_of_fmap.
  destruct (decide (path_elem e ∈ names u)) as [|Hn]; [done|].
  assert (Hin : e ∈ only_in t u) by by apply list_elem_of_filter.
  rewrite H in Hin. by apply not_elem_of_nil in Hin.
Qed.

Lemma dir_ok_NoDup t : dir_ok t -> NoDup (names t).
Proof.
  intros (Hs & _ & _). induction Hs as [|e t Hs IH Hf]; [constructor|].
  rewrite names_cons. apply list.NoDup_cons. split; [|done]. by apply above_not_in.
Qed.

Lemma only_in_perm_l t t' u : Permutation t t' -> Permutation (only_in t u) (only_in t' u).
Proof. intros H. unfold only_in. by rewrite H. Qed.

Lemma only_in_perm_r t u u' : Permutation u u' -> only_in t u = only_in t u'.
Proof.
  intros H. induction t as [|e t IH]; [done|]. rewrite !only_in_cons, IH.
  assert (Hiff : path_elem e ∈ names u <-> path_elem e ∈ names u') by (unfold names; by rewrite H).
  destruct (decide (path_elem e ∈ names u)), (decide (path_elem e ∈ names u')); tauto.
Qed.

(** Directories of half as many names are always near. *)
Lemma near_small t u : (length t <= 128)%nat -> (length u <= 128)%nat -> near t u.
Proof.
  intros Ht Hu. unfold near, OPMAX, only_in.
  pose proof (length_filter (fun e => path_elem e ∉ names u) t).
  pose proof (length_filter (fun e => path_elem e ∉ names t) u). lia.
Qed.

Lemma near_perm t t' u u' : Permutation t t' -> Permutation u u' -> near t' u' -> near t u.
Proof.
  intros Ht Hu. unfold near. rewrite (only_in_perm_l _ _ u Ht), (only_in_perm_l _ _ t Hu).
  by rewrite (only_in_perm_r t' _ _ Hu), (only_in_perm_r u' _ _ Ht).
Qed.

Lemma changes_perm old new new' ops : Permutation new' new -> changes old new' ops -> changes old new ops.
Proof.
  intros H [Hp Hs]. split; [|done]. rewrite Hp, (only_in_perm_r old _ _ H).
  by rewrite (only_in_perm_l _ _ _ H).
Qed.

Lemma changes_nil old new :
  dir_ok old -> NoDup (names new) -> changes old new [] -> Permutation (names old) (names new).
Proof.
  intros Ho Hn [Hp _]. apply Permutation_nil, app_eq_nil in Hp as [Hr Hm].
  apply fmap_nil_inv in Hr, Hm. apply NoDup_Permutation; [by apply dir_ok_NoDup|done|].
  intros s. split; by apply only_in_nil_names.
Qed.

(** The directory that is kept for a block after a write. *)
Definition kept (old new : list dir_entry) (ops : list dir_op) : list dir_entry :=
  match ops with [] => old | _ => sort_dir new end.

Section Core.
Context {R : ReadEnv}.

Lemma core_step_unwatched w ht :
  op_ok (w_op w) -> check_hash (w_block w) ht = None -> core_step ht (w_buf w) = Ret (ht, []).
Proof.
  intros Ho Hn. unfold core_step, w_buf. rewrite parse_print_op by done. cbn [mbind result_bind].
  fold (w_block w). by rewrite Hn.
Qed.

Lemma core_step_watched w ht n :
  write_ok w -> check_hash (w_block w) ht = Some n -> dir_ok (bn_dir n) -> near (bn_dir n) (w_dir w) ->
  exists ops, changes (bn_dir n) (w_dir w) ops /\
    dir_ok (kept (bn_dir n) (w_dir w) ops) /\
    core_step ht (w_buf w) =
      Ret (match ops with [] => ht | _ => set_dir (w_block w) (sort_dir (w_dir w)) ht end,
           op_line (bn_path n) <$> ops).
Proof.
  intros (Ho & Hd & Hok & Hl & Hn) Hc Hdir Hnear. unfold core_step, w_buf. rewrite parse_print_op by done.
  cbn [mbind result_bind]. fold (w_block w). rewrite Hc, Hd.
  assert (4096 = Z.of_nat (length (print_block (w_entries w)))) as ->.
  { destruct Ho as (_ & _ & _ & Ho). rewrite <- Hd, Ho. done. }
  rewrite parse_block_dir_print by done. cbn [mbind result_bind]. fold (w_dir w).
  pose proof (sort_dir_ok _ Hok Hl Hn) as Hs. fold (w_dir w) in Hs.
  destruct (compare_dirs_spec (bn_dir n) (sort_dir (w_dir w))) as [Hcmp _];
    [apply Hdir|apply Hs|apply Forall_app; split; [apply Hdir|apply Hs]|].
  destruct Hcmp as (ops & He & Hch).
  { eapply (near_perm _ (bn_dir n) _ (w_dir w)); [done|apply sort_dir_spec|done]. }
  rewrite He. cbn [mbind result_bind]. exists ops.
  split; [eapply changes_perm; [apply sort_dir_spec|done]|].
  split; [by destruct ops|]. by destruct ops.
Qed.

(** The watched blocks: the path and the directory kept for each. *)
Definition watched (ht : hash_table) (b : Z) : option (cstr * list dir_entry) :=
  (fun n => (bn_path n, bn_dir n)) <$> check_hash b ht.

Lemma watched_set_dir ht b t b' : table_wf ht ->
  watched (set_dir b t ht) b' =
  if b =? b' then (fun p => (p.1, t)) <$> watched ht b' else watched ht b'.
Proof.
  intros Hw. unfold watched. rewrite !check_nodes by (try apply set_dir_wf; done).
  rewrite set_dir_nodes by done. destruct (b =? b'); [|done]. by destruct (nodes_of ht b').
Qed.

(** What the loop does to the watched blocks and what it prints. *)
Inductive reported : (Z -> option (cstr * list dir_entry)) -> list dir_write -> list cstr ->
    (Z -> option (cstr * list dir_entry)) -> Prop :=
| reported_nil s s' : (forall b, s' b = s b) -> reported s [] [] s'
| reported_unwatched s w ws out s' :
    s (w_block w) = None -> reported s ws out s' -> reported s (w :: ws) out s'
| reported_watched s w ws out s1 s' path old ops :
    s (w_block w) = Some (path, old) -> changes old (w_dir w) ops ->
    (forall b, s1 b = if w_block w =? b then Some (path, kept old (w_dir w) ops) else s b) ->
    reported s1 ws out s' ->
    reported s (w :: ws) ((op_line path <$> ops) ++ out) s'.

Lemma reported_ext s s1 ws out s' : (forall b, s1 b = s b) -> reported s ws out s' -> reported s1 ws out s'.
Proof.
  intros Hs Hr. revert s1 Hs. induction Hr as [s s' H|s w ws out s' Hn Hr IH|s w ws out s2 s' path old ops Hp Hch Hk Hr IH];
    intros s1 Hs.
  - constructor. intros b. by rewrite Hs.
  - constructor; [by rewrite Hs|auto].
  - eapply reported_watched; [by rewrite Hs|done| |exact Hr]. intros b. by rewrite Hk, Hs.
Qed.

Definition last_write (b : Z) (ws : list dir_write) : option dir_write :=
  list.last (filter (fun w => w_block w = b) ws).

Lemma last_write_cons b w ws :
  last_write b (w :: ws) =
  match last_write b ws with Some w' => Some w' | None => if w_block w =? b then Some w else None end.
Proof.
  unfold last_write. rewrite filter_cons. destruct (Z.eqb_spec (w_block w) b) as [E|E].
  - rewrite decide_True, list.last_cons by done. by destruct (list.last _).
  - rewrite decide_False by done. by destruct (list.last _).
Qed.

(** What is asked of a write: only the writes to watched blocks need to be of
    directory blocks. *)
Definition write_fits (ht : hash_table) (w : dir_write) : Prop :=
  op_ok (w_op w) /\ (is_Some (check_hash (w_block w) ht) -> write_ok w).

(** Only writes to a block change what is kept for it; after them the names
    are those of the last one. *)
Definition up_to_date (s : Z -> option (cstr * list dir_entry)) (ws : list dir_write)
    (s' : Z -> option (cstr * list dir_entry)) : Prop :=
  forall b, match last_write b ws with
            | None => s' b = s b
            | Some w => forall path t, s' b = Some (path, t) -> Permutation (names t) (names (w_dir w))
            end.

Lemma kept_names old new ops :
  dir_ok old -> NoDup (names new) -> changes old new ops ->
  Permutation (names (kept old new ops)) (names new).
Proof.
  intros Ho Hn Hch. destruct ops as [|o ops]; [by apply changes_nil|].
  unfold names. by rewrite (proj2 (sort_dir_spec new)).
Qed.

Lemma dirs_ok_set_dir ht b t : table_wf ht -> dirs_ok ht -> dir_ok t -> dirs_ok (set_dir b t ht).
Proof.
  intros Hw Hd Ht b' n Hc. assert (Hwa : watched (set_dir b t ht) b' = Some (bn_path n, bn_dir n)).
  { unfold watched. by rewrite Hc. }
  rewrite watched_set_dir in Hwa by done. unfold watched in Hwa.
  destruct (check_hash b' ht) as [n'|] eqn:E; [|by destruct (b =? b')].
  destruct (b =? b'); injection Hwa as Hp Hn; [by rewrite <- Hn|]. rewrite <- Hn. by apply (Hd b').
Qed.

(** One turn, on the watched blocks. *)
Lemma core_step_watched' w ht n :
  table_wf ht -> dirs_ok ht -> write_ok w -> check_hash (w_block w) ht = Some n -> near (bn_dir n) (w_dir w) ->
  exists ops ht', core_step ht (w_buf w) = Ret (ht', op_line (bn_path n) <$> ops) /\
    changes (bn_dir n) (w_dir w) ops /\ table_wf ht' /\ dirs_ok ht' /\
    forall b, watched ht' b =
      if w_block w =? b then Some (bn_path n, kept (bn_dir n) (w_dir w) ops) else watched ht b.
Proof.
  intros Hw Hd Hok Hc Hnear. destruct (core_step_watched w ht n Hok Hc (Hd _ _ Hc) Hnear) as (ops & Hch & Hk & Hs).
  exists ops. eexists. split; [exact Hs|]. split; [done|].
  destruct ops as [|o ops]; cbn [kept] in Hk |- *.
  - split; [done|]. split; [done|]. intros b. destruct (Z.eqb_spec (w_block w) b) as [<-|]; [|done].
    unfold watched. by rewrite Hc.
  - split; [by apply set_dir_wf|]. split; [by apply dirs_ok_set_dir|]. intros b.
    rewrite watched_set_dir by done. destruct (Z.eqb_spec (w_block w) b) as [<-|]; [|done].
    unfold watched. by rewrite Hc.
Qed.

Lemma write_fits_watched ht ht' w :
  (forall b, is_Some (watched ht' b) <-> is_Some (watched ht b)) -> write_fits ht w -> write_fits ht' w.
Proof.
  intros Hb [Ho Hw]. split; [done|]. intros Hs. apply Hw.
  specialize (Hb (w_block w)). unfold watched in Hb. rewrite !fmap_is_Some in Hb. by apply Hb.
Qed.

(** [held]: the directories that a block may hold in the course of a run; any
    two of one block differ in no more names than [OPMAX]. *)
Section Held.
Variable held : Z -> list dir_entry -> Prop.
Hypothesis held_near : forall b t u, held b t -> held b u -> near t u.

(** The watched blocks hold such directories, in some order. *)
Definition dirs_held (ht : hash_table) : Prop :=
  forall b n, check_hash b ht = Some n -> exists t, Permutation (bn_dir n) t /\ held b t.

Definition write_held (ht : hash_table) (w : dir_write) : Prop :=
  is_Some (check_hash (w_block w) ht) -> held (w_block w) (w_dir w).

Lemma held_step ht w n :
  dirs_held ht -> check_hash (w_block w) ht = Some n -> held (w_block w) (w_dir w) -> near (bn_dir n) (w_dir w).
Proof.
  intros Hh Hc Hw. destruct (Hh _ _ Hc) as (t & Hp & Ht).
  eapply near_perm; [exact Hp|done|]. by eapply held_near.
Qed.

Lemma dirs_held_kept ht ht' w n ops :
  dirs_held ht -> check_hash (w_block w) ht = Some n -> held (w_block w) (w_dir w) ->
  (forall b, watched ht' b = if w_block w =? b then Some (bn_path n, kept (bn_dir n) (w_dir w) ops) else watched ht b) ->
  dirs_held ht'.
Proof.
  intros Hh Hc Hw Hwa b n' Hc'. specialize (Hwa b). unfold watched in Hwa. rewrite Hc' in Hwa. cbn in Hwa.
  destruct (Z.eqb_spec (w_block w) b) as [<-|_].
  - injection Hwa as _ ->. destruct ops; [by apply (Hh _ n)|]. exists (w_dir w). split; [apply sort_dir_spec|done].
  - destruct (check_hash b ht) as [n0|] eqn:E; [|done]. injection Hwa as _ ->. by apply (Hh b).
Qed.

Lemma core_run ws : forall ht, table_wf ht -> dirs_ok ht -> dirs_held ht ->
  Forall (write_fits ht) ws -> Forall (write_held ht) ws ->
  exists ht' out, xadisk_core ht (w_buf <$> ws) = Ret (ht', out) /\ table_wf ht' /\ dirs_ok ht' /\
    reported (watched ht) ws out (watched ht') /\ up_to_date (watched ht) ws (watched ht').
Proof.
  induction ws as [|w ws IH]; intros ht Hw Hd Hh Hws Hwh.
  { exists ht, []. do 3 (split; [done|]). split; [by constructor|by intros b]. }
  apply list.Forall_cons in Hws as [Hok Hws], Hwh as [Hwh1 Hwh]. cbn [fmap list_fmap xadisk_core].
  destruct (check_hash (w_block w) ht) as [n|] eqn:Hc.
  - assert (Hwok : write_ok w) by (by apply Hok; rewrite Hc).
    assert (Hheld : held (w_block w) (w_dir w)) by (apply Hwh1; by rewrite Hc).
    destruct (core_step_watched' w ht n Hw Hd Hwok Hc (held_step _ _ _ Hh Hc Hheld))
      as (ops & ht1 & Hs & Hch & Hw1 & Hd1 & Hwa).
    assert (Hsame : forall b, is_Some (watched ht1 b) <-> is_Some (watched ht b)).
    { intros b. rewrite Hwa. destruct (Z.eqb_spec (w_block w) b) as [<-|]; [|done].
      unfold watched. rewrite Hc. split; by eexists. }
    assert (Hws1 : Forall (write_fits ht1) ws).
    { eapply list.Forall_impl; [exact Hws|]. intros w'. by apply write_fits_watched. }
    assert (Hwh1' : Forall (write_held ht1) ws).
    { eapply list.Forall_impl; [exact Hwh|]. intros w' Hw' Hi. apply Hw'. specialize (Hsame (w_block w')).
      unfold watched in Hsame. rewrite !fmap_is_Some in Hsame. by apply Hsame. }
    destruct (IH ht1 Hw1 Hd1 (dirs_held_kept _ _ _ _ _ Hh Hc Hheld Hwa) Hws1 Hwh1') as (ht' & out & Hr & Hw' & Hd' & Hrep & Hup).
    exists ht', ((op_line (bn_path n) <$> ops) ++ out). rewrite Hs. cbn [mbind result_bind].
    unfold w_buf in Hr |- *. rewrite Hr. split; [done|]. split; [done|]. split; [done|]. split.
    + eapply reported_watched; [|done|exact Hwa|done]. unfold watched. by rewrite Hc.
    + intros b. specialize (Hup b). rewrite last_write_cons.
      destruct (last_write b ws) as [w'|]; [done|]. rewrite Hwa in Hup.
      destruct (w_block w =? b); [|done]. rewrite Hup. intros path t [= _ <-].
      apply kept_names; [by apply (Hd _ _ Hc)|apply Hwok|done].
  - destruct (IH ht Hw Hd Hh Hws Hwh) as (ht' & out & Hr & Hw' & Hd' & Hrep & Hup). exists ht', out.
    rewrite core_step_unwatched by (done || exact (proj1 Hok)). cbn [mbind result_bind].
    unfold w_buf in Hr |- *. rewrite Hr. split; [done|]. split; [done|]. split; [done|]. split.
    + apply reported_unwatched; [|done]. unfold watched. by rewrite Hc.
    + intros b. specialize (Hup b). rewrite last_write_cons.
      destruct (last_write b ws) as [w'|]; [done|]. destruct (Z.eqb_spec (w_block w) b) as [<-|]; [|done].
      intros path t Ht. rewrite Hup in Ht. unfold watched in Ht. by rewrite Hc in Ht.
Qed.

End Held.

(** The directories that the watched block [b] holds in the course of the
    writes: the one that was read when it was watched, and those written. *)
Definition listed (ht : hash_table) (ws : list dir_write) (b : Z) (t : list dir_entry) : Prop :=
  exists n, check_hash b ht = Some n /\
    (t = bn_dir n \/ exists w, w ∈ ws /\ w_block w = b /\ t = w_dir w).

Lemma listed_held ht ws : dirs_held (listed ht ws) ht /\ Forall (write_held (listed ht ws) ht) ws.
Proof.
  split.
  - intros b n Hc. exists (bn_dir n). split; [done|]. exists n. auto.
  - apply list.Forall_forall. intros w Hw [n Hn]. exists n. split; [done|]. right. by exists w.
Qed.

(** C5: over any sequence of whole records, those for watched blocks being of
    well-formed directory blocks of at most 256 distinct names ([DIRMAX]) of
    which any two of one block differ in at most 256 names ([OPMAX]), the
    thread never fails, prints for every write to a watched block exactly one
    line per removed and per created name, in the order of the names, and
    nothing for other blocks, and keeps for every watched block a directory
    with the names of the last write to it.  (The tables of the code have no
    room for more: [parse_zero_reclen] and [compare_dirs_correct] say what
    happens then.) *)
Theorem xadisk_core_correct ws ht :
  table_wf ht -> dirs_ok ht -> Forall (write_fits ht) ws ->
  (forall b t u, listed ht ws b t -> listed ht ws b u -> near t u) ->
  exists ht' out, xadisk_core ht (w_buf <$> ws) = Ret (ht', out) /\ table_wf ht' /\ dirs_ok ht' /\
    reported (watched ht) ws out (watched ht') /\ up_to_date (watched ht) ws (watched ht').
Proof.
  intros Hw Hd Hws Hnear. destruct (listed_held ht ws) as [Hh Hwh]. by apply (core_run (listed ht ws)).
Qed.
End Core.

(** ** Setting and removing a watch *)

Section Watch.
Context {D : DiskEnv} {R : ReadEnv}.
Variables (entries_of : Z -> list disk_entry).

(** Reading a block of the directory gives its entries. *)
Definition block_readable (b : Z) : Prop :=
  image_read (b * 4096) = print_block (entries_of b) /\
  length (print_block (entries_of b)) = Z.to_nat 4096 /\
  Forall entry_ok (entries_of b) /\ (length (entries_of b) <= 256)%nat.

Definition watch_node (path : cstr) (inode : Z) (b : Z) : block_node :=
  BlockNode b inode 2 path (sort_dir (d_entry <$> entries_of b)).

Definition insert_all (path : cstr) (inode : Z) (bs : list Z) (ht : hash_table) : hash_table :=
  fold_left (fun ht b => insert_hash (watch_node path inode b) ht) bs ht.

Lemma watch_blocks_insert path inode bs : forall ht,
  Forall block_readable bs -> watch_blocks path inode bs ht = Ret (insert_all path inode bs ht).
Proof.
  induction bs as [|b bs IH]; intros ht Hbs; [done|].
  apply list.Forall_cons in Hbs as [(Hr & Hl & Hok & Hn) Hbs]. cbn [watch_blocks]. rewrite Hr.
  assert (4096 = Z.of_nat (length (print_block (entries_of b)))) as -> by by rewrite Hl.
  rewrite parse_block_dir_print by done. cbn [mbind result_bind]. by rewrite IH.
Qed.

Lemma insert_all_wf path inode bs : forall ht, table_wf ht -> table_wf (insert_all path inode bs ht).
Proof. induction bs as [|b bs IH]; intros ht Hw; [done|]. by apply IH, insert_wf. Qed.

Lemma remove_all_wf bs : forall ht, table_wf ht ->
  table_wf (fold_left (fun ht b => remove_hash b ht) bs ht).
Proof. induction bs as [|b bs IH]; intros ht Hw; [done|]. by apply IH, remove_wf. Qed.

Lemma insert_all_nodes path inode bs : forall ht b, table_wf ht ->
  nodes_of (insert_all path inode bs ht) b =
  replicate (length (filter (fun x => x = b) bs)) (watch_node path inode b) ++ nodes_of ht b.
Proof.
  induction bs as [|x bs IH]; intros ht b Hw; [done|].
  change (insert_all path inode (x :: bs) ht)
    with (insert_all path inode bs (insert_hash (watch_node path inode x) ht)).
  rewrite IH by by apply insert_wf. rewrite insert_nodes by done. cbn [DiskHash.block watch_node].
  rewrite filter_cons. destruct (Z.eqb_spec x b) as [->|Hne].
  - rewrite decide_True by done. cbn [length replicate].
    generalize (length (filter (fun x => x = b) bs)). intros k.
    by rewrite replicate_cons_app, <- app_assoc.
  - by rewrite decide_False.
Qed.

Lemma watched_insert_all path inode bs ht b : table_wf ht ->
  watched (insert_all path inode bs ht) b =
  if bool_decide (b ∈ bs) then Some (path, sort_dir (d_entry <$> entries_of b)) else watched ht b.
Proof.
  intros Hw. unfold watched. rewrite !check_nodes, insert_all_nodes by (try apply insert_all_wf; done).
  case_bool_decide as Hb.
  - destruct (filter (fun x => x = b) bs) as [|y l] eqn:Ef; [|done].
    assert (Hin : b ∈ filter (fun x => x = b) bs) by by apply list_elem_of_filter.
    rewrite Ef in Hin. by apply not_elem_of_nil in Hin.
  - destruct (filter (fun x => x = b) bs) as [|y l] eqn:Ef; [done|].
    assert (Hin : y ∈ filter (fun x => x = b) bs) by (rewrite Ef; apply list_elem_of_here).
    by apply list_elem_of_filter in Hin as [-> ?].
Qed.

Lemma remove_all_nodes bs : forall ht b, table_wf ht ->
  nodes_of (fold_left (fun ht b => remove_hash b ht) bs ht) b =
  drop (length (filter (fun x => x = b) bs)) (nodes_of ht b).
Proof.
  induction bs as [|x bs IH]; intros ht b Hw; [done|]. cbn [fold_left].
  rewrite IH, remove_nodes by (try apply remove_wf; done). rewrite filter_cons.
  destruct (Z.eqb_spec x b) as [->|Hne].
  - rewrite decide_True by done. cbn [length]. destruct (nodes_of ht b); cbn [list.tail]; [by rewrite !drop_nil|done].
  - by rewrite decide_False.
Qed.

(** A watch on a directory makes exactly the directory's blocks watched,
    each with its path and its sorted contents, and removing the watch gives
    every block the nodes it had before. *)
Theorem set_watch_correct dfuel x path ht blocks inode :
  table_wf ht -> xa_linux_ext2_dir dfuel (x_sb x) (i_tables x) path = Ret (Some (blocks, inode)) ->
  Forall block_readable blocks ->
  exists ht', xadisk_set_watch dfuel x path ht = Ret (Some (Obj path inode blocks), ht') /\
    table_wf ht' /\
    (forall b, watched ht' b = if bool_decide (b ∈ blocks)
                               then Some (path, sort_dir (d_entry <$> entries_of b)) else watched ht b) /\
    table_wf (xadisk_unset_watch (Obj path inode blocks) ht') /\
    forall b, nodes_of (xadisk_unset_watch (Obj path inode blocks) ht') b = nodes_of ht b.
Proof.
  intros Hw Hdir Hbs. exists (insert_all path inode blocks ht).
  pose proof (insert_all_wf path inode blocks ht Hw) as Hw'.
  unfold xadisk_set_watch. rewrite Hdir. cbn [mbind result_bind].
  rewrite watch_blocks_insert by done. split; [done|]. split; [done|]. split; [|split].
  - intros b. by apply watched_insert_all.
  - by apply remove_all_wf.
  - intros b. unfold xadisk_unset_watch. cbn [o_blocks]. rewrite remove_all_nodes by done.
    rewrite insert_all_nodes by done. rewrite (drop_app_length' (replicate _ _)); [done|by rewrite length_replicate].
Qed.
End Watch.

(** An operation is read from the FIFO as it was written there. *)
Theorem parse_op_correct o rest : op_ok o -> parse_op (print_op o rest) = Ret o.
Proof. apply parse_print_op. Qed.

(** *** Witnesses *)

(** The entries of a block of 4096 bytes. *)
Definition full_block (name : cstr) (n : Z) : list disk_entry :=
  [DiskEntry (DirEntry 13 2 (str "dir")) [0];
   DiskEntry (DirEntry 2 2 (str ".")) [0; 0; 0];
   DiskEntry (DirEntry n 1 name) (replicate (Z.to_nat 4059) 0)].

Definition sample_watched : hash_table :=
  insert_hash (BlockNode 5 2 2 (str "/d") old_dir) init_hash.

Definition write_at (s : Z) (ds : list disk_entry) : dir_write :=
  DirWrite (BlockOp 1 s 8 (print_block ds)) (replicate (Z.to_nat 900) 0) ds.

Definition sample_writes : list dir_write :=
  [write_at 80 (full_block (str "c.txt") 15); write_at 40 (full_block (str "b.txt") 14)].

#[local] Instance sample_read : ReadEnv := {| image_read _ := print_block (full_block (str "a.txt") 12);
  malloc_op := 190 |}.

Lemma sample_writes_ok : Forall write_ok sample_writes.
Proof.
  assert (H : forall s ds, is_u64 s -> length (print_block ds) = Z.to_nat 4096 -> Forall entry_ok ds ->
    (length ds <= Z.to_nat DIRMAX)%nat -> bool_decide (NoDup (names (d_entry <$> ds))) = true -> write_ok (write_at s ds)).
  { intros s ds Hs Hl Hok Hn Hd%bool_decide_eq_true. repeat split; try done; try apply Hs; cbn; lia. }
  (constructor; [|constructor; [|constructor]]); (apply H; [done|vm_compute; reflexivity| |unfold full_block, DIRMAX; cbn [length]; lia|vm_compute; reflexivity]);
    repeat constructor; vm_compute; try discriminate; reflexivity.
Qed.

Lemma sample_watched_ok : table_wf sample_watched /\ dirs_ok sample_watched.
Proof.
  split; [apply insert_wf, init_wf|]. intros b n Hc. unfold sample_watched in Hc.
  rewrite check_nodes in Hc by apply insert_wf, init_wf. rewrite insert_nodes in Hc by apply init_wf.
  rewrite init_nodes in Hc. destruct (_ =? b); [|done]. injection Hc as <-.
  split; [repeat constructor|]. split; [unfold old_dir, DIRMAX; cbn [length bn_dir]; lia|]. repeat constructor; cbn; lia.
Qed.

Lemma sample_writes_fit : Forall (write_fits sample_watched) sample_writes.
Proof. eapply list.Forall_impl; [exact sample_writes_ok|]. intros w Hw. split; [apply Hw|done]. Qed.

Lemma sample_listed b t : listed sample_watched sample_writes b t -> (length t <= 128)%nat.
Proof.
  intros (n & Hc & [-> | (w & Hw & _ & ->)]).
  - unfold sample_watched in Hc.
    rewrite check_nodes in Hc by apply insert_wf, init_wf. rewrite insert_nodes in Hc by apply init_wf.
    rewrite init_nodes in Hc. destruct (_ =? b); [|done]. injection Hc as <-. cbn. lia.
  - apply elem_of_cons in Hw as [-> | [-> | []%not_elem_of_nil]%elem_of_cons]; cbn; lia.
Qed.

Lemma xadisk_core_correct_witness : exists ht',
  xadisk_core sample_watched (w_buf <$> sample_writes) =
    Ret (ht', [op_line (str "/d") (DirOp (Some OP_RMFILE) (str "a.txt"));
               op_line (str "/d") (DirOp (Some OP_MKFILE) (str "b.txt"))]) /\
  reported (watched sample_watched) sample_writes
    [op_line (str "/d") (DirOp (Some OP_RMFILE) (str "a.txt"));
     op_line (str "/d") (DirOp (Some OP_MKFILE) (str "b.txt"))] (watched ht').
Proof.
  destruct (xadisk_core_correct sample_writes sample_watched (proj1 sample_watched_ok)
    (proj2 sample_watched_ok) sample_writes_fit
    (fun b t u Ht Hu => near_small t u (sample_listed b t Ht) (sample_listed b u Hu))) as (ht' & out & Hr & _ & _ & Hrep & _).
  exists ht'.
  assert (Hout : ((fun r => r.2) <$> match xadisk_core sample_watched (w_buf <$> sample_writes) with
                                     | Ret r => Some r | _ => None end) =
    Some [op_line (str "/d") (DirOp (Some OP_RMFILE) (str "a.txt"));
          op_line (str "/d") (DirOp (Some OP_MKFILE) (str "b.txt"))]) by (vm_compute; reflexivity).
  rewrite Hr in Hout. injection Hout as <-. split; [exact Hr|exact Hrep].
Defined.

Lemma set_watch_correct_witness : exists ht',
  xadisk_set_watch (D := sample_disk) 10 (Xadisk sample_sb [2]) (str "/etc") init_hash =
    Ret (Some (Obj (str "/etc") 5 [5]), ht') /\
  watched ht' 5 = Some (str "/etc", sort_dir (d_entry <$> full_block (str "a.txt") 12)).
Proof.
  destruct (set_watch_correct (D := sample_disk) (fun _ => full_block (str "a.txt") 12) 10
    (Xadisk sample_sb [2]) (str "/etc") init_hash [5] 5) as (ht' & Hr & _ & Hw & _).
  - apply init_wf.
  - vm_compute. reflexivity.
  - constructor; [|constructor]. split; [reflexivity|]. split; [vm_compute; reflexivity|].
    split; [|cbn; lia]. repeat constructor; vm_compute; try discriminate; reflexivity.
  - exists ht'. split; [exact Hr|exact (Hw 5)].
Defined.

Lemma parse_op_correct_witness :
  parse_op (print_op (BlockOp 1 40 8 (replicate (Z.to_nat 4096) 7)) [1; 2]) =
  Ret (BlockOp 1 40 8 (replicate (Z.to_nat 4096) 7)).
Proof.
  apply parse_op_correct. unfold op_ok. cbn [b_op sector nb_sectors data].
  split; [done|]. split; [done|]. split; [lia|apply length_replicate].
Defined.
