(* ===== verification/DiskDriver.v ===== *)
(** * The logging disk drivers and the FIFO to the watcher

    Models libxadisk/xen: the drivers tapdisk_log_aio and tapdisk_log_sync wrap
    a driver of the tap disk daemon and copy every write to a FIFO, and
    tapdisk.h lists the drivers.  The driver, the FIFO, which takes a
    record whole, in part or not at all, and the thread of xadisk_core.c are
    put together as a step relation. *)

From Stdlib Require Import String.
From stdpp Require Import relations.
From S2P Require Import Prelude CStr XaStore DiskDir DiskHash DiskExt2 DiskCore.

(** ** The interface of a disk driver

    [struct tap_disk]: the functions of a driver with the state [S]; a request
    is a sector, a number of sectors, a buffer and an identifier, to which the
    callback belongs. *)
Record tap_disk (S : Type) := TapDisk {
  disk_type : cstr;
  td_open : cstr -> M S Z;
  td_queue_read : Z -> Z -> list Z -> Z -> M S Z;
  td_queue_write : Z -> Z -> list Z -> Z -> M S Z;
  td_submit : M S Z;
  td_get_fd : M S (list Z);
  td_close : M S Z;
  td_do_callbacks : Z -> M S Z }.
Arguments TapDisk {S}.
Arguments disk_type {S}.
Arguments td_open {S}.
Arguments td_queue_read {S}.
Arguments td_queue_write {S}.
Arguments td_submit {S}.
Arguments td_get_fd {S}.
Arguments td_close {S}.
Arguments td_do_callbacks {S}.

(** The calls the drivers make of the system:
    - [mkfifo_ok], [unlink_ok]: whether they succeed;
    - [open_fifo]: the descriptor, or -1;
    - [fifo_accepts k fifo n]: what the [k]-th [write] to the FIFO answers when
      it is given [n] bytes and the FIFO holds [fifo]: how many it takes, [None]
      for -1.  The descriptor does not block, so all three can happen: the
      record is taken whole, cut, or refused;
    - [stack n]: what is on the stack where the buffer of [n] bytes is;
    - [blkif_minor]: the minor number in [s->blkif]. *)
Class FifoEnv := {
  mkfifo_ok : bool;
  unlink_ok : bool;
  open_fifo : Z;
  fifo_accepts : nat -> list Z -> nat -> option nat;
  stack : nat -> list Z;
  stack_length n : length (stack n) = n;
  blkif_minor : Z }.

(** The globals [fifo_fd] and [fifo_path]; whether the descriptor is open; the
    bytes in the FIFO, how many writes were made to it, and the messages of
    [perror]. *)
Record log_state := LogState {
  fifo_fd : Z;
  fifo_path : cstr;
  fifo_open : bool;
  fifo : list Z;
  sent : nat;
  messages : list cstr }.

Definition FIFO_DIR : cstr := str "/dev/xen".
Definition FIFO_NAME : cstr := str "tapfifo".

(** ** The drivers *)

Definition perror (msg : string) : M log_state unit :=
  modify (fun l => LogState (fifo_fd l) (fifo_path l) (fifo_open l) (fifo l) (sent l) (messages l ++ [str msg])).

Section Send.
Context {F : FifoEnv}.

(** Marshalling the data: the first 4096 bytes of the buffer are copied. *)
Definition marshal (sector nb_sectors : Z) (buf : list Z) : result (list Z) :=
  if (Z.to_nat 4096 <=? length buf)%nat
  then Ret ([1] (* Write operation *) ++ le_split 8 sector ++ le_split 4 nb_sectors ++
            take (Z.to_nat 4096) buf ++ drop (Z.to_nat 4109) (stack BUFSIZE))
  else Fault.

(** What [write(fifo_fd, data, BUFSIZE)] answers. *)
Definition answer (l : log_state) : option nat :=
  if fifo_open l then fifo_accepts (sent l) (fifo l) BUFSIZE else None.

(** Send it through the FIFO; a short count is not looked at. *)
Definition write_fifo (data : list Z) : M log_state unit :=
  n ← gets answer;
  _ ← modify (fun l => LogState (fifo_fd l) (fifo_path l) (fifo_open l) (fifo l ++ take (default 0%nat n) data)
        (S (sent l)) (messages l));
  match n with
  | Some _ => mret tt
  | None => perror "Error writing to FIFO:"
  end.

(** The part of [tdlogaio_queue_write] before the driver below is called. *)
Definition send_record (sector nb_sectors : Z) (buf : list Z) : M log_state unit :=
  data ← of_option (match marshal sector nb_sectors buf with Ret d => Some d | _ => None end);
  write_fifo data.
End Send.

Section Log.
Context {S : Type} {F : FifoEnv}.
Implicit Types (base : tap_disk S).

Definition on_base {A} (m : M S A) : M (S * log_state) A :=
  zoom fst (fun s w => (s, w.2)) m.

Definition on_log {A} (m : M log_state A) : M (S * log_state) A :=
  zoom snd (fun l w => (w.1, l)) m.

Definition log_open base (name : cstr) : M (S * log_state) Z :=
  _ ← on_log (modify (fun l => LogState (fifo_fd l)
        (FIFO_DIR ++ str "/" ++ FIFO_NAME ++ dec blkif_minor) (fifo_open l) (fifo l) (sent l) (messages l)));
  _ ← (if negb mkfifo_ok then on_log (perror "Error creating FIFO:") else mret tt : M _ unit);
  _ ← on_log (modify (fun l => LogState open_fifo (fifo_path l) (0 <=? open_fifo) (fifo l) (sent l) (messages l)));
  _ ← (if negb (open_fifo =? 0) then on_log (perror "Error opening FIFO:") else mret tt : M _ unit);
  on_base (td_open base name).

Definition log_close base : M (S * log_state) Z :=
  _ ← on_log (modify (fun l => LogState (fifo_fd l) (fifo_path l) false (fifo l) (sent l) (messages l)));
  _ ← (if negb unlink_ok then on_log (perror "Error removing FIFO:") else mret tt : M _ unit);
  on_base (td_close base).

Definition log_queue_write base (sector nb_sectors : Z) (buf : list Z) (id : Z)
  : M (S * log_state) Z :=
  _ ← on_log (send_record sector nb_sectors buf);
  on_base (td_queue_write base sector nb_sectors buf id).

Definition log_queue_read base (sector nb_sectors : Z) (buf : list Z) (id : Z)
  : M (S * log_state) Z :=
  on_base (td_queue_read base sector nb_sectors buf id).

(** block-logaio.c and block-logsync.c have the same functions on top of
    different drivers. *)
Definition tdlogaio_open := log_open.
Definition tdlogaio_close := log_close.
Definition tdlogaio_queue_write := log_queue_write.
Definition tdlogaio_queue_read := log_queue_read.

Definition tapdisk_log_aio (tdaio : tap_disk S) : tap_disk (S * log_state) := {|
  disk_type := str "tapdisk_log_aio";
  td_open := tdlogaio_open tdaio; (* Opening the FIFO *)
  td_queue_read := tdlogaio_queue_read tdaio;
  td_queue_write := tdlogaio_queue_write tdaio; (* Logging block writes *)
  td_submit := on_base (td_submit tdaio);
  td_get_fd := on_base (td_get_fd tdaio);
  td_close := tdlogaio_close tdaio; (* Closing the FIFO *)
  td_do_callbacks sid := on_base (td_do_callbacks tdaio sid) |}.

Definition tdlogsync_open := log_open.
Definition tdlogsync_close := log_close.
Definition tdlogsync_queue_write := log_queue_write.
Definition tdlogsync_queue_read := log_queue_read.

Definition tapdisk_log_sync (tdsync : tap_disk S) : tap_disk (S * log_state) := {|
  disk_type := str "tapdisk_log_sync";
  td_open := tdlogsync_open tdsync;
  td_queue_read := tdlogsync_queue_read tdsync;
  td_queue_write := tdlogsync_queue_write tdsync;
  td_submit := on_base (td_submit tdsync);
  td_get_fd := on_base (td_get_fd tdsync);
  td_close := tdlogsync_close tdsync;
  td_do_callbacks sid := on_base (td_do_callbacks tdsync sid) |}.
End Log.

(** ** The list of drivers in tapdisk.h *)

Definition MAX_DISK_TYPES : nat := 20.

Definition DISK_TYPE_AIO : Z := 0.
Definition DISK_TYPE_SYNC : Z := 1.
Definition DISK_TYPE_VMDK : Z := 2.
Definition DISK_TYPE_RAM : Z := 3.
Definition DISK_TYPE_QCOW : Z := 4.
Definition DISK_TYPE_LOG_SYNC : Z := 5.
Definition DISK_TYPE_LOG_AIO : Z := 6.

(** [drv] is the name of the structure the entry points to. *)
Record disk_info := DiskInfo {
  idnum : Z; di_name : cstr; handle : cstr; single_handler : Z; drv : string }.

Definition aio_disk : disk_info :=
  DiskInfo DISK_TYPE_AIO (str "raw image (aio)") (str "aio") 0 "tapdisk_aio".
Definition log_sync_disk : disk_info :=
  DiskInfo DISK_TYPE_LOG_SYNC (str "raw image (log-sync)") (str "log-sync") 0 "tapdisk_log_sync".
Definition log_aio_disk : disk_info :=
  DiskInfo DISK_TYPE_LOG_AIO (str "raw image (log-aio)") (str "log-aio") 0 "tapdisk_log_aio".
Definition sync_disk : disk_info :=
  DiskInfo DISK_TYPE_SYNC (str "raw image (sync)") (str "sync") 0 "tapdisk_sync".
Definition vmdk_disk : disk_info :=
  DiskInfo DISK_TYPE_VMDK (str "vmware image (vmdk)") (str "vmdk") 1 "tapdisk_vmdk".
Definition ram_disk : disk_info :=
  DiskInfo DISK_TYPE_RAM (str "ramdisk image (ram)") (str "ram") 1 "tapdisk_ram".
Definition qcow_disk : disk_info :=
  DiskInfo DISK_TYPE_QCOW (str "qcow disk (qcow)") (str "qcow") 0 "tapdisk_qcow".

(** Main disk info array *)
Definition dtypes : list disk_info :=
  [aio_disk; sync_disk; vmdk_disk; ram_disk; qcow_disk; log_sync_disk; log_aio_disk].

(** ** The driver, the FIFO and the watcher together *)

(** A request of the guest to write; [r_dir] is what is said of the directory
    in it when it is for a block of a watched directory. *)
Record request := Request { r_sector : Z; r_nb : Z; r_buf : list Z; r_dir : list disk_entry }.

Definition r_block (q : request) : Z := u32 (r_sector q / 8).

(** The values of a request have their C types, the page that is copied is in
    the buffer, and a request for a block where [is_dir] says so has a
    well-formed directory block in that page. *)
Definition request_ok (is_dir : Z -> Prop) (q : request) : Prop :=
  is_u64 (r_sector q) /\ -2147483648 <= r_nb q < 2147483648 /\ (Z.to_nat 4096 <= length (r_buf q))%nat /\
  (is_dir (r_block q) ->
     take (Z.to_nat 4096) (r_buf q) = print_block (r_dir q) /\ Forall entry_ok (r_dir q) /\
     (length (r_dir q) <= Z.to_nat DIRMAX)%nat /\ NoDup (names (d_entry <$> r_dir q))).

(** The state of the driver, the buffer of [xadisk_core], the table of watched
    blocks and what was printed. *)
Record sys := Sys { driver : log_state; rbuf : list Z; table : hash_table; printed : list cstr }.

Lemma record_nonempty w : length (w_buf w) = BUFSIZE -> w_buf w <> [].
Proof. intros Hl E. rewrite E in Hl. unfold BUFSIZE in Hl. simpl in Hl. lia. Qed.

Lemma core_snoc {R : ReadEnv} ht bufs buf ht1 out1 ht2 out2 :
  xadisk_core ht bufs = Ret (ht1, out1) -> core_step ht1 buf = Ret (ht2, out2) ->
  xadisk_core ht (bufs ++ [buf]) = Ret (ht2, out1 ++ out2).
Proof.
  revert ht ht1 out1. induction bufs as [|b bufs IH]; intros ht ht1 out1; cbn [xadisk_core app].
  - intros [= <- <-] ->. cbn [mbind result_bind]. by rewrite app_nil_r.
  - destruct (core_step ht b) as [[ht' o]| |]; cbn [mbind result_bind]; try done.
    destruct (xadisk_core ht' bufs) as [[ht'' o']| |] eqn:E; cbn [mbind result_bind]; try done.
    intros [= <- <-] Hs. rewrite (IH ht' ht'' o' E Hs). cbn [mbind result_bind]. by rewrite app_assoc.
Qed.

(** A run over a prefix of the records is a prefix of the run. *)
Lemma core_prefix {R : ReadEnv} bufs buf ht r :
  xadisk_core ht (bufs ++ [buf]) = Ret r ->
  exists ht1 out1 ht2 out2, xadisk_core ht bufs = Ret (ht1, out1) /\ core_step ht1 buf = Ret (ht2, out2) /\
    r = (ht2, out1 ++ out2).
Proof.
  revert ht r. induction bufs as [|b bufs IH]; intros ht r; cbn [xadisk_core app].
  - destruct (core_step ht buf) as [[ht2 o2]| |] eqn:E; cbn [mbind result_bind]; try done.
    rewrite app_nil_r. intros [= <-]. by exists ht, [], ht2, o2.
  - destruct (core_step ht b) as [[ht1 o1]| |]; cbn [mbind result_bind]; try done.
    destruct (xadisk_core ht1 (bufs ++ [buf])) as [r'| |] eqn:E; cbn [mbind result_bind]; try done.
    destruct (IH ht1 r' E) as (h1 & out1 & h2 & out2 & -> & Hs & ->). intros [= <-].
    cbn [mbind result_bind]. exists h1, (o1 ++ out1), h2, out2. by rewrite app_assoc.
Qed.

Section System.
Context {F : FifoEnv} {R : ReadEnv}.

(** What the driver makes of a request to write. *)
Definition logged (q : request) : dir_write :=
  DirWrite (BlockOp 1 (r_sector q) (r_nb q) (take (Z.to_nat 4096) (r_buf q)))
    (drop (Z.to_nat 4109) (stack BUFSIZE)) (r_dir q).

(** The FIFO takes a record whole or not at all. *)
Definition never_cuts : Prop := forall k f n, fifo_accepts k f BUFSIZE = Some n -> n = BUFSIZE.

(** [read(x->tapfifo_fd, buf, BUFSIZE)] and the turn of the loop it starts. *)
Definition receive (s : sys) : result sys :=
  let l := driver s in
  let n := Nat.min BUFSIZE (length (fifo l)) in
  let buf := take n (fifo l) ++ drop n (rbuf s) in
  r ← core_step (table s) buf;
  let '(ht, out) := r in
  Ret (Sys (LogState (fifo_fd l) (fifo_path l) (fifo_open l) (drop n (fifo l)) (sent l) (messages l))
         buf ht (printed s ++ out)).

Inductive read_step (s : sys) : sys -> Prop :=
| read_step_intro s' : fifo (driver s) <> [] -> receive s = Ret s' -> read_step s s'.

(** The runs of the system, with the requests made so far: requests, whatever
    the FIFO makes of them, and turns of the watcher in any order. *)
Inductive sys_run (s0 : sys) : list request -> sys -> Prop :=
| run_start : sys_run s0 [] s0
| run_write qs s q l :
    sys_run s0 qs s -> send_record (r_sector q) (r_nb q) (r_buf q) (driver s) = Ret (tt, l) ->
    sys_run s0 (qs ++ [q]) (Sys l (rbuf s) (table s) (printed s))
| run_read qs s s' : sys_run s0 qs s -> read_step s s' -> sys_run s0 qs s'.

(** The record of a request, byte by byte and as the watcher reads it. *)
Lemma logged_record is_dir q : request_ok is_dir q ->
  marshal (r_sector q) (r_nb q) (r_buf q) = Ret (w_buf (logged q)) /\ length (w_buf (logged q)) = BUFSIZE /\
  DiskCore.op_ok (w_op (logged q)).
Proof.
  intros (Hs & Hn & Hl & _). split; [|split].
  - unfold marshal. by rewrite (proj2 (Nat.leb_le _ _) Hl).
  - unfold w_buf, print_op, logged. cbn [w_op w_rest b_op DiskCore.sector nb_sectors DiskCore.data].
    rewrite !length_app, !length_le_split, length_take, length_drop, stack_length.
    unfold BUFSIZE. cbn [length]. lia.
  - split; [done|]. split; [done|]. split; [done|]. cbn. rewrite length_take. lia.
Qed.

Lemma logged_fits (is_dir : Z -> Prop) ht q :
  request_ok is_dir q -> (forall b, is_Some (check_hash b ht) -> is_dir b) -> write_fits ht (logged q).
Proof.
  intros Hq Hd. destruct (logged_record _ _ Hq) as (_ & _ & Ho). split; [done|].
  intros Hb%Hd. destruct Hq as (_ & _ & _ & H). destruct (H Hb) as (? & ? & ? & ?). done.
Qed.

(** What the FIFO and the messages are after a request: the record is in the
    FIFO and nothing is said, or it is not and the failure is reported. *)
Lemma send_record_whole is_dir q l l' :
  never_cuts -> request_ok is_dir q -> send_record (r_sector q) (r_nb q) (r_buf q) l = Ret (tt, l') ->
  (fifo l' = fifo l ++ w_buf (logged q) /\ messages l' = messages l) \/
  (fifo l' = fifo l /\ messages l' = messages l ++ [str "Error writing to FIFO:"]).
Proof.
  intros Hcut Hq. destruct (logged_record _ _ Hq) as (Hm & Hlen & _). unfold send_record. rewrite Hm.
  erewrite bind_eq by reflexivity. unfold write_fifo. erewrite bind_eq by reflexivity.
  erewrite bind_eq by reflexivity. destruct (answer l) as [n|] eqn:E; intros [= <-]; [left|right].
  - unfold answer in E. destruct (fifo_open l); [|done]. apply Hcut in E as ->.
    cbn [fifo messages default from_option]. by rewrite take_ge by lia.
  - cbn [fifo messages default from_option]. by rewrite app_nil_r.
Qed.

Section Sync.
Context (held : Z -> list dir_entry -> Prop).
Hypothesis held_near : forall b t u, held b t -> held b u -> near t u.
Hypothesis Hcut : never_cuts.

(** A record that the watcher can work on. *)
Definition record_ok (ht : hash_table) (w : dir_write) : Prop :=
  length (w_buf w) = BUFSIZE /\ write_fits ht w /\ write_held held ht w.

(** What is in the FIFO is the records that it took and that were not read
    yet, the watcher did with the others what [xadisk_core] does, and for
    every record that was not taken there is a message. *)
Definition in_sync (s0 : sys) (qs : list request) (s : sys) : Prop :=
  exists seen todo out, seen ++ todo `sublist_of` (logged <$> qs) /\
    (length qs + length (messages (driver s0)) = length (seen ++ todo) + length (messages (driver s)))%nat /\
    fifo (driver s) = concat (w_buf <$> todo) /\
    Forall (record_ok (table s0)) (seen ++ todo) /\
    xadisk_core (table s0) (w_buf <$> seen) = Ret (table s, out) /\ printed s = printed s0 ++ out.

(** A read takes one whole record. *)
Lemma receive_record s w todo :
  fifo (driver s) = w_buf w ++ concat (w_buf <$> todo) -> length (w_buf w) = BUFSIZE ->
  length (rbuf s) = BUFSIZE ->
  receive s = (r ← core_step (table s) (w_buf w);
               let '(ht, out) := r in
               Ret (Sys (LogState (fifo_fd (driver s)) (fifo_path (driver s)) (fifo_open (driver s))
                           (concat (w_buf <$> todo)) (sent (driver s)) (messages (driver s)))
                      (w_buf w) ht (printed s ++ out))).
Proof.
  intros Hp Hl Hb. unfold receive.
  assert (Nat.min BUFSIZE (length (fifo (driver s))) = BUFSIZE) as ->.
  { rewrite Hp, length_app. lia. }
  rewrite Hp, <- Hl, take_app_length, drop_app_length, (drop_ge (rbuf s)) by lia. by rewrite app_nil_r.
Qed.

Context (s0 : sys).
Hypothesis Hwf : table_wf (table s0).
Hypothesis Hdirs : dirs_ok (table s0).
Hypothesis Hheld : dirs_held held (table s0).
Hypothesis Hbuf : length (rbuf s0) = BUFSIZE.
Hypothesis Hempty : fifo (driver s0) = [].

(** The next record can always be processed. *)
Lemma core_next seen w todo ht out :
  Forall (record_ok (table s0)) (seen ++ w :: todo) ->
  xadisk_core (table s0) (w_buf <$> seen) = Ret (ht, out) ->
  exists ht' out', core_step ht (w_buf w) = Ret (ht', out').
Proof.
  intros Hf Hc. assert (Hf' : Forall (record_ok (table s0)) (seen ++ [w])).
  { apply list.Forall_app in Hf as [Hf1 [Hf2 _]%list.Forall_cons]. apply Forall_app. split; [done|]. by constructor. }
  destruct (core_run held held_near (seen ++ [w]) (table s0) Hwf Hdirs Hheld) as (ht' & o & Hr & _).
  - eapply list.Forall_impl; [exact Hf'|]. by intros ? (_ & ? & _).
  - eapply list.Forall_impl; [exact Hf'|]. by intros ? (_ & _ & ?).
  - rewrite fmap_app in Hr. apply core_prefix in Hr as (ht1 & out1 & ht2 & out2 & Hc1 & Hs & _).
    rewrite Hc in Hc1. injection Hc1 as <- <-. by exists ht2, out2.
Qed.

(** A turn of the watcher on a FIFO that is not empty. *)
Lemma read_in_sync qs s :
  in_sync s0 qs s -> length (rbuf s) = BUFSIZE -> fifo (driver s) <> [] ->
  exists s', receive s = Ret s' /\ in_sync s0 qs s' /\ length (rbuf s') = BUFSIZE /\
    (length (fifo (driver s')) < length (fifo (driver s)))%nat.
Proof.
  intros (seen & todo & out & Hsub & Hlen & Hp & Hf & Hc & Ho) Hb Hne.
  destruct todo as [|w todo]; [by rewrite Hp in Hne|]. cbn [fmap list_fmap concat] in Hp.
  destruct (core_next seen w todo (table s) out Hf Hc) as (ht' & out' & Hs).
  pose proof Hf as [_ [[Hl _] _]%list.Forall_cons]%list.Forall_app.
  rewrite (receive_record s w todo Hp Hl Hb), Hs. cbn [mbind result_bind].
  eexists. split; [reflexivity|]. split; [|split; [done|]].
  - exists (seen ++ [w]), todo, (out ++ out'). rewrite <- app_assoc. cbn [app].
    do 4 (split; [done|]). cbn [table printed]. split; [|by rewrite Ho, app_assoc].
    rewrite fmap_app. by apply (core_snoc _ _ _ (table s)).
  - rewrite Hp, length_app, Hl. cbn [driver fifo]. unfold BUFSIZE. lia.
Qed.

Lemma run_in_sync is_dir qs s :
  (forall b, is_Some (check_hash b (table s0)) -> is_dir b) ->
  Forall (request_ok is_dir) qs -> Forall (write_held held (table s0)) (logged <$> qs) ->
  sys_run s0 qs s -> in_sync s0 qs s /\ length (rbuf s) = BUFSIZE.
Proof.
  intros His Hqs Hh Hrun. revert Hqs Hh.
  induction Hrun as [|qs s q l Hrun IH Hsend|qs s s' Hrun IH [s1 Hne Hr]]; intros Hqs Hh.
  - split; [|done]. exists [], [], []. split; [constructor|]. split; [done|]. split; [done|]. split; [constructor|].
    split; [done|by rewrite app_nil_r].
  - rewrite fmap_app in Hh. apply list.Forall_app in Hqs as [Hqs [Hq _]%list.Forall_cons],
      Hh as [Hh [Hh1 _]%list.Forall_cons].
    destruct (IH Hqs Hh) as [(seen & todo & out & Hsub & Hlen & Hp & Hf & Hc & Ho) Hb]. split; [|done].
    unfold in_sync. cbn [driver table printed]. rewrite fmap_app, length_app. cbn [length].
    destruct (send_record_whole is_dir q _ _ Hcut Hq Hsend) as [[Ef Em]|[Ef Em]].
    + exists seen, (todo ++ [logged q]), out. rewrite app_assoc.
      split; [by apply sublist_app|]. split; [rewrite Em, (length_app (seen ++ todo)); cbn [length]; lia|].
      split; [by rewrite Ef, Hp, fmap_app, concat_app; cbn [fmap list_fmap concat]; rewrite app_nil_r|].
      split; [|done]. apply Forall_app. split; [done|]. constructor; [|constructor].
      destruct (logged_record _ _ Hq) as (_ & Hl & _). split; [done|]. split; [by eapply logged_fits|done].
    + exists seen, todo, out. split; [by apply sublist_inserts_r|].
      split; [rewrite Em, (length_app (messages _)); cbn [length]; lia|]. by rewrite Ef.
  - destruct (IH Hqs Hh) as [Hs Hb]. destruct (read_in_sync qs s Hs Hb Hne) as (s2 & Hr2 & Hs2 & Hb2 & _).
    rewrite Hr in Hr2. by injection Hr2 as ->.
Qed.

(** Reading until the FIFO is empty. *)
Lemma drain n : forall qs s, in_sync s0 qs s -> length (rbuf s) = BUFSIZE ->
  (length (fifo (driver s)) <= n)%nat ->
  exists k s', nsteps read_step k s s' /\ fifo (driver s') = [] /\ in_sync s0 qs s'.
Proof.
  induction n as [|n IH]; intros qs s Hs Hb Hn.
  - exists 0%nat, s. split; [constructor|]. split; [|done]. by destruct (fifo (driver s)); [|simpl in Hn; lia].
  - destruct (decide (fifo (driver s) = [])) as [E|Hne]; [exists 0%nat, s; split; [constructor|done]|].
    destruct (read_in_sync qs s Hs Hb Hne) as (s1 & Hr & Hs1 & Hb1 & Hlt).
    destruct (IH qs s1 Hs1 Hb1) as (k & s' & Hk & He & Hs'); [lia|].
    exists (S k), s'. split; [|done]. eapply nsteps_l; [|exact Hk]. by constructor.
Qed.
End Sync.
End System.

(** ** The drivers are transparent *)

Inductive td_call :=
| CallOpen (name : cstr)
| CallRead (sector nb : Z) (buf : list Z) (id : Z)
| CallWrite (sector nb : Z) (buf : list Z) (id : Z)
| CallSubmit
| CallGetFd
| CallClose
| CallDoCallbacks (sid : Z).

(** The calls that return a number are given as lists of one. *)
Definition one {S} (m : M S Z) : M S (list Z) := r ← m; mret [r].

Definition run_call {S} (d : tap_disk S) (c : td_call) : M S (list Z) :=
  match c with
  | CallOpen name => one (td_open d name)
  | CallRead sector nb buf id => one (td_queue_read d sector nb buf id)
  | CallWrite sector nb buf id => one (td_queue_write d sector nb buf id)
  | CallSubmit => one (td_submit d)
  | CallGetFd => td_get_fd d
  | CallClose => one (td_close d)
  | CallDoCallbacks sid => one (td_do_callbacks d sid)
  end.

Fixpoint run_calls {S} (d : tap_disk S) (cs : list td_call) : M S (list (list Z)) :=
  match cs with
  | [] => mret []
  | c :: cs' => r ← run_call d c; rs ← run_calls d cs'; mret (r :: rs)
  end.

(** The arguments of a write have their C types, and the buffer has the page
    that is logged. *)
Definition call_ok (c : td_call) : Prop :=
  match c with
  | CallWrite sector nb buf _ =>
      is_u64 sector /\ -2147483648 <= nb < 2147483648 /\ (Z.to_nat 4096 <= length buf)%nat
  | _ => True
  end.

Section Transparent.
Context {S : Type} {F : FifoEnv}.
Variable base : tap_disk S.

(** A record as the other end of the FIFO takes it: [BUFSIZE] bytes in which
    [parse_op] finds a write operation, the sector, the number of sectors and
    the first 4096 bytes of the data. *)
Definition is_record (sector nb : Z) (buf r : list Z) : Prop :=
  length r = BUFSIZE /\ parse_op r = Ret (BlockOp 1 sector nb (take (Z.to_nat 4096) buf)).

(** What a call does to the log: a write puts as much of its record into the
    FIFO as the FIFO takes, and only a refusal is reported. *)
Inductive log_call (l : log_state) : td_call -> log_state -> Prop :=
| log_of_open name l' :
    fifo l' = fifo l -> sent l' = sent l -> fifo_open l' = (0 <=? open_fifo) -> log_call l (CallOpen name) l'
| log_of_write sector nb buf id r l' :
    is_record sector nb buf r -> fifo l' = fifo l ++ take (default 0%nat (answer l)) r ->
    messages l' = messages l ++ (if answer l is Some _ then [] else [str "Error writing to FIFO:"]) ->
    sent l' = Datatypes.S (sent l) -> fifo_open l' = fifo_open l -> log_call l (CallWrite sector nb buf id) l'
| log_of_close l' :
    fifo l' = fifo l -> sent l' = sent l -> fifo_open l' = false -> log_call l CallClose l'
| log_of_other c :
    match c with CallOpen _ | CallWrite _ _ _ _ | CallClose => False | _ => True end -> log_call l c l.

Inductive log_calls : log_state -> list td_call -> log_state -> Prop :=
| log_none l : log_calls l [] l
| log_cons l c l1 cs l2 : log_call l c l1 -> log_calls l1 cs l2 -> log_calls l (c :: cs) l2.

(** The calls of [m] do to the base driver what [b] does, and to the log what
    [Q] says. *)
Definition lifts {A} (m : M (S * log_state) A) (b : M S A) (Q : log_state -> log_state -> Prop) : Prop :=
  forall s l, match b s with
              | Ret (a, s') => exists l', m (s, l) = Ret (a, (s', l')) /\ Q l l'
              | Fault => m (s, l) = Fault
              | Diverge => m (s, l) = Diverge
              end.

Lemma lifts_base {A} (b : M S A) : lifts (on_base b) b eq.
Proof.
  intros s l. unfold on_base, zoom. cbn [fst snd]. destruct (b s) as [[a s']| |]; [|done..].
  by exists l.
Qed.

Lemma lifts_mono {A} m (b : M S A) (P Q : log_state -> log_state -> Prop) :
  lifts m b P -> (forall l l', P l l' -> Q l l') -> lifts m b Q.
Proof.
  intros Hm HPQ s l. specialize (Hm s l). destruct (b s) as [[a s']| |]; [|exact Hm..].
  destruct Hm as (l' & Hm & HP). exists l'. auto.
Qed.

(** A step of the log first. *)
Lemma lifts_log {A} (g : M log_state unit) (f : log_state -> log_state) (m : M (S * log_state) A) b Q :
  (forall l, g l = Ret (tt, f l)) -> lifts m b Q ->
  lifts (_ ← on_log g; m) b (fun l l' => Q (f l) l').
Proof.
  intros Hg Hm s l. specialize (Hm s (f l)).
  assert (E : (_ ← on_log g; m) (s, l) = m (s, f l)) 
    by (erewrite bind_eq; [reflexivity|]; unfold on_log, zoom; cbn [snd]; by rewrite Hg).
  rewrite E. exact Hm.
Qed.

Lemma lifts_perror {A} (c : bool) msg (m : M (S * log_state) A) b (Q : log_state -> log_state -> Prop) :
  (forall l l' msgs, Q (LogState (fifo_fd l) (fifo_path l) (fifo_open l) (fifo l) (sent l) msgs) l' -> Q l l') ->
  lifts m b Q -> lifts (_ ← (if c then on_log (perror msg) else mret tt : M _ unit); m) b Q.
Proof.
  intros HQ Hm. destruct c; [|exact Hm]. eapply lifts_mono; [by eapply lifts_log|]. intros l l'. apply HQ.
Qed.

Lemma lifts_one m b Q : lifts m b Q -> lifts (one m) (one b) Q.
Proof.
  intros Hm s l. specialize (Hm s l). unfold one, mbind, M_bind. destruct (b s) as [[a s']| |]; [|by rewrite Hm..].
  destruct Hm as (l' & -> & HQ). by exists l'.
Qed.

(** What a write leaves of the log. *)
Definition written (data : list Z) (l : log_state) : log_state :=
  LogState (fifo_fd l) (fifo_path l) (fifo_open l) (fifo l ++ take (default 0%nat (answer l)) data)
    (Datatypes.S (sent l)) (messages l ++ (if answer l is Some _ then [] else [str "Error writing to FIFO:"])).

Lemma write_fifo_eq data l : write_fifo data l = Ret (tt, written data l).
Proof.
  unfold write_fifo, written. erewrite bind_eq by reflexivity. erewrite bind_eq by reflexivity.
  destruct (answer l); [|done]. by rewrite app_nil_r.
Qed.

Lemma send_record_eq sector nb buf id :
  call_ok (CallWrite sector nb buf id) ->
  exists r, is_record sector nb buf r /\ forall l, send_record sector nb buf l = Ret (tt, written r l).
Proof.
  intros (Hs & Hn & Hl). assert (Hq : request_ok (fun _ => False) (Request sector nb buf [])) by done.
  destruct (logged_record _ _ Hq) as (Hm & Hlen & Ho). exists (w_buf (logged (Request sector nb buf []))).
  split; [split; [done|by apply parse_print_op]|]. intros l'. unfold send_record. cbn [r_sector r_nb r_buf] in Hm.
  rewrite Hm. erewrite bind_eq by reflexivity. apply write_fifo_eq.
Qed.

Lemma run_call_lifts d c : d = tapdisk_log_aio base \/ d = tapdisk_log_sync base -> call_ok c ->
  lifts (run_call d c) (run_call base c) (fun l l' => log_call l c l').
Proof.
  intros Hd Hok. destruct c as [name|sector nb buf id|sector nb buf id| | | |sid]; cbn [run_call].
  - assert (td_open d name = log_open base name) as -> by by destruct Hd as [-> | ->].
    apply lifts_one. unfold log_open. eapply lifts_mono.
    + eapply lifts_log; [intros l; reflexivity|]. eapply (lifts_perror _ _ _ _ (fun l l' =>
        fifo l' = fifo l /\ sent l' = sent l /\ fifo_open l' = (0 <=? open_fifo))); [by intros ??? H|].
      eapply lifts_mono; [eapply lifts_log; [intros l; reflexivity|]; eapply (lifts_perror _ _ _ _ (fun l l' =>
        fifo l' = fifo l /\ sent l' = sent l /\ fifo_open l' = fifo_open l)); [by intros ??? H|]|].
      * eapply lifts_mono; [apply lifts_base|]. by intros l ? <-.
      * intros l l' H. exact H.
    + intros l l' (Hf & Hs & Ho). by constructor.
  - assert (td_queue_read d sector nb buf id = on_base (td_queue_read base sector nb buf id)) as ->
      by by destruct Hd as [-> | ->].
    apply lifts_one. eapply lifts_mono; [apply lifts_base|]. intros l ? <-. by constructor.
  - assert (td_queue_write d sector nb buf id = log_queue_write base sector nb buf id) as ->
      by by destruct Hd as [-> | ->].
    apply lifts_one. unfold log_queue_write. destruct (send_record_eq sector nb buf id Hok)
      as (r & Hr & Hsend).
    eapply lifts_mono; [eapply lifts_log; [exact Hsend|apply lifts_base]|]. intros l ? <-.
    by eapply log_of_write.
  - assert (td_submit d = on_base (td_submit base)) as -> by by destruct Hd as [-> | ->].
    apply lifts_one. eapply lifts_mono; [apply lifts_base|]. intros l ? <-. by constructor.
  - assert (td_get_fd d = on_base (td_get_fd base)) as -> by by destruct Hd as [-> | ->].
    eapply lifts_mono; [apply lifts_base|]. intros l ? <-. by constructor.
  - assert (td_close d = log_close base) as -> by by destruct Hd as [-> | ->].
    apply lifts_one. unfold log_close. eapply lifts_mono.
    + eapply lifts_log; [intros l; reflexivity|]. eapply (lifts_perror _ _ _ _ (fun l l' =>
        fifo l' = fifo l /\ sent l' = sent l /\ fifo_open l' = fifo_open l)); [by intros ??? H|].
      eapply lifts_mono; [apply lifts_base|]. by intros l ? <-.
    + intros l l' (Hf & Hs & Ho). by constructor.
  - assert (td_do_callbacks d sid = on_base (td_do_callbacks base sid)) as -> by by destruct Hd as [-> | ->].
    apply lifts_one. eapply lifts_mono; [apply lifts_base|]. intros l ? <-. by constructor.
Qed.

Lemma run_calls_lifts d cs : d = tapdisk_log_aio base \/ d = tapdisk_log_sync base -> Forall call_ok cs ->
  lifts (run_calls d cs) (run_calls base cs) (fun l l' => log_calls l cs l').
Proof.
  intros Hd. induction 1 as [|c cs Hc Hcs IH]; intros s l; [exists l; split; [done|constructor]|].
  cbn [run_calls]. pose proof (run_call_lifts d c Hd Hc s l) as H. unfold mbind, M_bind.
  destruct (run_call base c s) as [[r s1]| |]; [|by rewrite H..].
  destruct H as (l1 & -> & Hf). specialize (IH s1 l1). unfold mbind, M_bind in *.
  destruct (run_calls base cs s1) as [[rs s2]| |]; [|by rewrite IH..].
  destruct IH as (l2 & -> & Hf2). exists l2. split; [done|]. by econstructor.
Qed.
End Transparent.

(** ** Properties *)

(** C34: the logging drivers are transparent: whatever the driver they wrap does
    with a sequence of calls, they return the same results, leave its state
    the same and fail only when it fails.  Of every write they make a record
    of [BUFSIZE] bytes in which the watcher's [parse_op] finds the write, its
    sector, its number of sectors and the first 4096 bytes of its data, and put
    into the FIFO as much of the record as the FIFO takes: all, a part, which
    is not noticed, or nothing, which is reported. *)
Theorem tapdisk_log_transparent {S : Type} {F : FifoEnv} (d : tap_disk S -> tap_disk (S * log_state))
    (b : tap_disk S) (cs : list td_call) (s : S) (l : log_state) :
  d = tapdisk_log_aio \/ d = tapdisk_log_sync -> Forall call_ok cs ->
  match run_calls b cs s with
  | Ret (rs, s') => exists l', run_calls (d b) cs (s, l) = Ret (rs, (s', l')) /\ log_calls l cs l'
  | Fault => run_calls (d b) cs (s, l) = Fault
  | Diverge => run_calls (d b) cs (s, l) = Diverge
  end.
Proof.
  intros Hd Hcs. apply (run_calls_lifts b (d b) cs); [|done].
  destruct Hd as [-> | ->]; [by left|by right].
Qed.

Section Live.
Context {F : FifoEnv} {R : ReadEnv}.

Definition started (s0 : sys) : Prop :=
  table_wf (table s0) /\ dirs_ok (table s0) /\ length (rbuf s0) = BUFSIZE /\ fifo (driver s0) = [].

(** The requests for watched blocks are of well-formed directory blocks, any
    two of one block no further apart than the tables have room for. *)
Definition requests_fit (ht : hash_table) (qs : list request) : Prop :=
  Forall (request_ok (fun b => is_Some (check_hash b ht))) qs /\
  forall b t u, listed ht (logged <$> qs) b t -> listed ht (logged <$> qs) b u -> near t u.

(** C21: every write that the FIFO takes is eventually reported.  Requests and
    turns of the watcher come in any order, and the FIFO may refuse any record,
    as long as it takes those it takes whole.  From every reachable state some
    number of turns of the watcher, none of which fails, empties the FIFO, and
    then it has printed exactly the changes that the records taken, in their
    order, made to the watched directories; of the others there is one message
    each.  The requests for watched blocks are of directory blocks of at most
    256 names ([requests_fit]); of each request the first 4096 bytes count. *)
Theorem every_write_reported s0 qs s :
  started s0 -> requests_fit (table s0) qs -> never_cuts -> sys_run s0 qs s ->
  exists n s' taken out, nsteps read_step n s s' /\ fifo (driver s') = [] /\
    taken `sublist_of` (logged <$> qs) /\
    (length qs + length (messages (driver s0)) = length taken + length (messages (driver s')))%nat /\
    printed s' = printed s0 ++ out /\
    reported (watched (table s0)) taken out (watched (table s')).
Proof.
  intros (Hwf & Hd & Hb & He) [Hqs Hnear] Hcut Hr.
  destruct (listed_held (table s0) (logged <$> qs)) as [Hh Hwh].
  destruct (run_in_sync _ Hnear Hcut s0 Hwf Hd Hh Hb He _ qs s (fun _ H => H) Hqs Hwh Hr) as [Hs Hbs].
  destruct (drain _ Hnear s0 Hwf Hd Hh Hb (length (fifo (driver s))) qs s Hs Hbs (le_n _)) as (n & s' & Hn & Hpe & Hs').
  destruct Hs' as (seen & todo & out & Hsub & Hlen & Hp & Hf & Hc & Ho).
  assert (todo = []) as ->.
  { destruct todo as [|w todo]; [done|]. rewrite Hpe in Hp. cbn [fmap list_fmap concat] in Hp.
    symmetry in Hp. apply app_eq_nil in Hp as [Hw _].
    apply list.Forall_app in Hf as [_ [[Hl _] _]%list.Forall_cons]. by apply record_nonempty in Hl. }
  rewrite app_nil_r in *. exists n, s', seen, out. do 5 (split; [done|]).
  destruct (core_run _ Hnear seen (table s0) Hwf Hd Hh) as (ht' & o & Hrun & _ & _ & Hrep & _).
  - eapply list.Forall_impl; [exact Hf|]. by intros w (_ & ? & _).
  - eapply list.Forall_impl; [exact Hf|]. by intros w (_ & _ & ?).
  - rewrite Hc in Hrun. by injection Hrun as <- <-.
Qed.
End Live.

(** *** Witnesses *)

(** A pipe of 64 KB that takes records whole; a driver that counts its
    requests. *)
#[local] Instance sample_fifo : FifoEnv := {|
  mkfifo_ok := true; unlink_ok := true; open_fifo := 5;
  fifo_accepts _ f n := if (length f + n <=? Z.to_nat 65536)%nat then Some n else None;
  stack n := replicate n 0; stack_length n := length_replicate n 0; blkif_minor := 0 |}.

Definition counter : tap_disk Z := {|
  disk_type := str "counter";
  td_open _ := _ ← modify (fun _ => 0); mret 0;
  td_queue_read _ _ _ _ := _ ← modify (fun n => n + 1); gets (fun n => n);
  td_queue_write _ _ _ _ := _ ← modify (fun n => n + 1); gets (fun n => n);
  td_submit := mret 0;
  td_get_fd := mret [7; 8];
  td_close := mret 0;
  td_do_callbacks _ := gets (fun n => n) |}.

Definition sample_calls : list td_call :=
  [CallOpen (str "disk.img"); CallGetFd; CallRead 0 8 [] 1; CallWrite 40 8 (replicate (Z.to_nat 4096) 7) 2; CallClose].

Lemma tapdisk_log_transparent_witness : exists l',
  run_calls (tapdisk_log_aio counter) sample_calls (9, LogState 0 [] false [] 0 []) =
    Ret ([[0]; [7; 8]; [1]; [2]; [0]], (2, l')) /\
  log_calls (LogState 0 [] false [] 0 []) sample_calls l'.
Proof.
  assert (Hok : Forall call_ok sample_calls).
  { repeat constructor; cbn [call_ok]; rewrite ?length_replicate; done. }
  exact (tapdisk_log_transparent tapdisk_log_aio counter sample_calls 9 (LogState 0 [] false [] 0 [])
    (or_introl eq_refl) Hok).
Defined.

Definition sample_log : log_state := LogState 5 (str "/dev/xen/tapfifo0") true [] 0 [].
Definition sample_start : sys := Sys sample_log (replicate BUFSIZE 0) sample_watched [].

#[local] Existing Instance sample_read.

Lemma sample_started : started sample_start.
Proof.
  split; [apply sample_watched_ok|]. split; [apply sample_watched_ok|].
  split; [apply length_replicate|done].
Qed.

Definition sample_request : request :=
  Request 40 8 (print_block (full_block (str "b.txt") 14)) (full_block (str "b.txt") 14).

Lemma sample_request_ok is_dir : request_ok is_dir sample_request.
Proof.
  pose proof sample_writes_ok as H. apply list.Forall_cons in H as [_ H]. apply list.Forall_cons in H as [H _].
  destruct H as ((H1 & H2 & H3 & H4) & H5 & H6 & H7 & H8). cbn [write_at w_op data w_entries] in *.
  split; [cbn; lia|]. split; [cbn; lia|]. split; [exact (Nat.eq_le_incl _ _ (eq_sym H4))|].
  intros _. split; [exact (take_ge _ _ (Nat.eq_le_incl _ _ H4))|]. split; [exact H6|]. split; [exact H7|exact H8].
Qed.

Lemma sample_never_cuts : never_cuts.
Proof.
  intros k f n. cbn [fifo_accepts sample_fifo]. destruct (_ <=? _)%nat; [|done]. by intros [= <-].
Qed.

Lemma sample_requests_fit : requests_fit sample_watched [sample_request].
Proof.
  split; [constructor; [apply sample_request_ok|constructor]|].
  assert (H : forall b t, listed sample_watched (logged <$> [sample_request]) b t -> (length t <= 128)%nat).
  { intros b t (n & Hc & [-> | (w & Hw & _ & ->)]).
    - apply (sample_listed b). exists n. auto.
    - apply list_elem_of_singleton in Hw as ->. cbn. lia. }
  intros b t u Ht Hu. apply near_small; by eapply H.
Qed.

Lemma sample_run : exists l,
  sys_run sample_start ([] ++ [sample_request]) (Sys l (replicate BUFSIZE 0) sample_watched []).
Proof.
  destruct (logged_record _ _ (sample_request_ok (fun _ => True))) as (Hm & _).
  exists (written (w_buf (logged sample_request)) sample_log). apply (run_write _ [] sample_start); [constructor|].
  unfold send_record. rewrite Hm. erewrite bind_eq by reflexivity. apply write_fifo_eq.
Qed.

Lemma every_write_reported_witness : exists l n s' taken out,
  nsteps read_step n (Sys l (replicate BUFSIZE 0) sample_watched []) s' /\ fifo (driver s') = [] /\
  taken `sublist_of` [logged sample_request] /\
  (1 + 0 = length taken + length (messages (driver s')))%nat /\ printed s' = [] ++ out /\
  reported (watched sample_watched) taken out (watched (table s')).
Proof.
  destruct sample_run as [l Hr]. exists l.
  exact (every_write_reported _ _ _ sample_started sample_requests_fit sample_never_cuts Hr).
Defined.
