(* ===== verification/DiskLife.v ===== *)
(** * The life of a disk watcher

    Models the rest of xadisk_core.c, opening and closing a watcher and
    starting and stopping its thread, and monitor.c.  The thread of the calling
    program, the FIFO thread and the driver at the other end of the FIFO take
    their turns in any order; memory that was freed stays known as such. *)

From Stdlib Require Import String Sorted.
From stdpp Require Import relations.
From S2P Require Import Prelude CStr DiskDir DiskHash DiskExt2 DiskCore XaStore DiskDriver.

(** What the system answers:
    - [image_opens], [appfifo_opens], [tapfifo_opens]: whether the calls of
      [open] give a descriptor;
    - [thread_starts]: whether [pthread_create] succeeds;
    - [cancel_ended]: whether [pthread_cancel] succeeds for a thread that has
      ended and was not joined;
    - [stack_buf]: what is in [buf] when [xadisk_core] is entered. *)
Class LifeEnv := {
  image_opens : bool;
  appfifo_opens : bool;
  tapfifo_opens : bool;
  thread_starts : bool;
  cancel_ended : bool;
  stack_buf : list Z }.

(** Where a descriptor for writing leads. *)
Inductive sink := AppFifo | Stdout.

(** [None] and [false] stand for the descriptor -1 or one that was closed.  The
    field [thread] is the state of the thread it names, in [process]. *)
Record xadisk_t := XadiskT {
  domid : Z;
  image_path : cstr;
  x_fifo_path : cstr;
  x_fifo_fd : option sink;
  tapfifo_fd : bool;
  image_fd : bool;
  x_fs : xadisk }.

(** Where the thread is in [xadisk_core].  [Holding op (Some d)]: it has the
    pointer [check_hash] gave, to the node that [d] newer nodes of its block
    precede by now; [Holding op None]: that node was freed. *)
Inductive thread :=
| NotStarted
| Starting
| LoopHead
| InRead
| Parsing
| Holding (op : block_op) (b : option nat)
| Ended
| Joined.

(** The calls of a program that uses the library.  [Dup2] is
    [dup2(1, x->fifo_fd)]. *)
Inductive lib_call :=
| SetWatch (path : cstr)
| UnsetWatch
| Activate
| Dup2
| Deactivate
| Join
| Destroy.

(** - [heap]: the object [x] points to, [None] when it was freed;
    - [watch]: the variable [obj], [None] when it is NULL or dangling;
    - [calls]: the calls still to make;
    - [cancelled], [stream]: a pending [pthread_cancel], and whether [tapf] is
      not NULL;
    - [logger]: the driver at the other end of the FIFO, with what is in it;
    - [feed]: the requests of the guest that the driver still serves before it
      closes the FIFO;
    - [report]: what was printed to [tapf]. *)
Record process := Process {
  heap : option xadisk_t;
  watch : option xadisk_obj;
  calls : list lib_call;
  msgs : list cstr;
  pc : thread;
  cancelled : bool;
  stream : bool;
  tbuf : list Z;
  blocks_table : hash_table;
  logger : log_state;
  feed : list request;
  report : list cstr }.

(** The bytes in the FIFO. *)
Definition tapfifo (s : process) : list Z := fifo (logger s).

(** The parts of a process that a step changes. *)
Definition with_main (x : option xadisk_t) (o : option xadisk_obj) (ms : list cstr) (s : process) : process :=
  Process x o (calls s) ms (pc s) (cancelled s) (stream s) (tbuf s) (blocks_table s) (logger s) (feed s) (report s).
Definition with_calls (cs : list lib_call) (s : process) : process :=
  Process (heap s) (watch s) cs (msgs s) (pc s) (cancelled s) (stream s) (tbuf s) (blocks_table s) (logger s)
    (feed s) (report s).
Definition with_pc (t : thread) (s : process) : process :=
  Process (heap s) (watch s) (calls s) (msgs s) t (cancelled s) (stream s) (tbuf s) (blocks_table s) (logger s)
    (feed s) (report s).
Definition with_cancel (c : bool) (s : process) : process :=
  Process (heap s) (watch s) (calls s) (msgs s) (pc s) c (stream s) (tbuf s) (blocks_table s) (logger s)
    (feed s) (report s).
Definition with_stream (f : bool) (buf : list Z) (s : process) : process :=
  Process (heap s) (watch s) (calls s) (msgs s) (pc s) (cancelled s) f buf (blocks_table s) (logger s)
    (feed s) (report s).
Definition with_table (ht : hash_table) (s : process) : process :=
  Process (heap s) (watch s) (calls s) (msgs s) (pc s) (cancelled s) (stream s) (tbuf s) ht (logger s)
    (feed s) (report s).
Definition with_logger (l : log_state) (fd : list request) (s : process) : process :=
  Process (heap s) (watch s) (calls s) (msgs s) (pc s) (cancelled s) (stream s) (tbuf s) (blocks_table s) l fd (report s).
(** The thread has read into its buffer; [p] is left in the FIFO. *)
Definition with_read (buf p : list Z) (s : process) : process :=
  let l := logger s in
  Process (heap s) (watch s) (calls s) (msgs s) (pc s) (cancelled s) (stream s) buf (blocks_table s)
    (LogState (fifo_fd l) (fifo_path l) (fifo_open l) p (sent l) (messages l)) (feed s) (report s).
Definition with_report (out : list cstr) (s : process) : process :=
  Process (heap s) (watch s) (calls s) (msgs s) (pc s) (cancelled s) (stream s) (tbuf s) (blocks_table s) (logger s)
    (feed s) out.

Definition complain (msg : string) (s : process) : process :=
  with_main (heap s) (watch s) (msgs s ++ [str msg]) s.

(** [b->dir = t] for the [d]-th node of a block. *)
Fixpoint set_dir_at (d : nat) (l : list block_node) (b : Z) (t : list dir_entry) : list block_node :=
  match l with
  | [] => []
  | q :: l' =>
      if DiskHash.block q =? b
      then match d with O => with_dir t q :: l' | S d' => q :: set_dir_at d' l' b t end
      else q :: set_dir_at d l' b t
  end.

Definition set_dir_nth (d : nat) (b : Z) (t : list dir_entry) (ht : hash_table) : hash_table :=
  match ht !! hash_block b with
  | Some e => <[hash_block b := HashEntry (active e) (set_dir_at d (bucket e) b t)]> ht
  | None => ht
  end.

(** How many of the blocks of a watch are the block [b]. *)
Definition occurrences (b : Z) (o : xadisk_obj) : nat :=
  length (filter (fun b' => b' = b) (o_blocks o)).

(** What becomes of the node the thread holds when nodes are put in front of
    it, and when as many are freed. *)
Definition shift_held (o : xadisk_obj) (t : thread) : thread :=
  match t with
  | Holding op (Some d) => Holding op (Some (occurrences (u32 (sector op / 8)) o + d)%nat)
  | _ => t
  end.

Definition drop_held (o : xadisk_obj) (t : thread) : thread :=
  match t with
  | Holding op (Some d) =>
      let k := occurrences (u32 (sector op / 8)) o in
      Holding op (if (d <? k)%nat then None else Some (d - k)%nat)
  | _ => t
  end.

Definition free_held (t : thread) : thread :=
  match t with Holding op _ => Holding op None | _ => t end.

Section Model.
Context {D : DiskEnv} {R : ReadEnv} {L : LifeEnv} {F : FifoEnv}.
Variable dfuel : nat.

(** [mmap] of the image through a descriptor. *)
Definition fd_disk (opened : bool) : DiskEnv :=
  if opened then D else {| disk_mmap _ _ := None |}.

Definition APP_FIFO_NAME : cstr := str "appfifo".

(** [xadisk_init], all of it: the object, the table, and the messages. *)
Definition xadisk_init_t (domid : Z) (path : cstr) : result (xadisk_t * hash_table * list cstr) :=
  r ← @xadisk_init (fd_disk image_opens);
  let '(fs, ht) := r in
  Ret (XadiskT domid path (str "/tmp/" ++ APP_FIFO_NAME ++ dec domid)
         (if appfifo_opens then Some AppFifo else None) false image_opens fs,
       ht, if appfifo_opens then [] else [str "Error opening application FIFO:"]).

(** The driver when it has opened the FIFO. *)
Definition open_log : log_state :=
  LogState open_fifo (FIFO_DIR ++ str "/" ++ FIFO_NAME ++ dec blkif_minor) true [] 0 [].

(** A process after [xadisk_init], with the calls it goes on with. *)
Definition start (domid : Z) (path : cstr) (cs : list lib_call) (fd : list request) : result process :=
  r ← xadisk_init_t domid path;
  let '(x, ht, ms) := r in
  Ret (Process (Some x) None cs ms NotStarted false false [] ht open_log fd []).

(** ** The FIFO thread: [xadisk_core] from one access of shared memory to the
    next.  [None]: it is blocked or not running. *)
Definition got_block (s : process) : result process :=
  op ← parse_op (tbuf s);
  match check_hash (u32 (sector op / 8)) (blocks_table s) with
  | None => Ret (with_pc LoopHead s)
  | Some _ => Ret (with_pc (Holding op (Some 0%nat)) s)
  end.

Definition report_changes (op : block_op) (d : nat) (s : process) : result process :=
  let block := u32 (sector op / 8) in
  match nodes_of (blocks_table s) block !! d with
  | None => Fault
  | Some b =>
      t ← parse_block_dir (data op) 4096;
      let t := sort_dir t in
      diff ← compare_dirs (bn_dir b) t;
      if (0 <? length diff)%nat then
        if stream s then
          Ret (with_pc LoopHead (with_report (report s ++ (op_line (bn_path b) <$> diff))
                 (with_table (set_dir_nth d block t (blocks_table s)) s)))
        else Fault (* fprintf(NULL, ...) *)
      else Ret (with_pc LoopHead s)
  end.

Definition thread_move (s : process) : option (result process) :=
  match pc s with
  | NotStarted | Ended | Joined => None
  | Starting =>
      Some match heap s with
           | Some x => Ret (with_pc LoopHead (with_stream (match x_fifo_fd x with Some _ => true | None => false end) stack_buf s))
           | None => Fault
           end
  | LoopHead =>
      Some match heap s with
           | None => Fault
           | Some x => Ret (with_pc (if cancelled s then Ended
                                     else if tapfifo_fd x then InRead else Parsing (* read gives -1 *)) s)
           end
  | InRead =>
      match tapfifo s, feed s with
      | [], [] => Some (Ret (with_pc Ended s)) (* end of file: pthread_exit *)
      | [], _ :: _ => None
      | p, _ =>
          let n := Nat.min BUFSIZE (length p) in
          Some (Ret (with_pc Parsing (with_read (take n p ++ drop n (tbuf s)) (drop n p) s)))
      end
  | Parsing => Some (got_block s)
  | Holding op (Some d) => Some (report_changes op d s)
  | Holding _ None => Some Fault
  end.

(** What has been printed when the thread is cancelled in one of the calls of
    [fprintf] for the changes [diff]: some of the lines, and of the next one
    perhaps the name of the operation. *)
Definition cut_reports (path : cstr) (diff : list dir_op) : list (list cstr) :=
  o ← imap pair diff;
  [op_line path <$> take o.1 diff; (op_line path <$> take o.1 diff) ++ [op_name (default malloc_op (op o.2))]].

(** The changes that the thread is about to print. *)
Definition changes_at (op : block_op) (d : nat) (s : process) : result (cstr * list dir_op) :=
  match nodes_of (blocks_table s) (u32 (sector op / 8)) !! d with
  | None => Fault
  | Some b =>
      t ← parse_block_dir (data op) 4096;
      diff ← compare_dirs (bn_dir b) (sort_dir t);
      Ret (bn_path b, diff)
  end.

(** A pending cancellation acts on a thread that waits in [read], and on one
    that prints: the directory of the block is then not replaced. *)
Definition cancel_moves (s : process) : list process :=
  if cancelled s then
    match pc s with
    | InRead => [with_pc Ended s]
    | Holding op (Some d) =>
        if stream s then
          match changes_at op d s with
          | Ret (path, diff) => (fun out => with_pc Ended (with_report (report s ++ out) s)) <$> cut_reports path diff
          | _ => []
          end
        else []
    | _ => []
    end
  else [].

(** The driver serves the next request: it sends the record, and the FIFO
    takes all of it, a part or nothing. *)
Definition driver_move (s : process) : option (result process) :=
  match feed s with
  | [] => None
  | q :: fd =>
      Some (r ← send_record (r_sector q) (r_nb q) (r_buf q) (logger s);
            Ret (with_logger (snd r) fd s))
  end.

(** ** The calls, with what they return *)

Definition set_watch (path : cstr) (s : process) : result process :=
  match heap s with
  | None => Fault
  | Some x =>
      r ← @xadisk_set_watch (fd_disk (image_fd x)) R dfuel (x_fs x) path (blocks_table s);
      let '(o, ht) := r in
      Ret (match o with
           | None => complain "Directory not found!" (with_main (heap s) None (msgs s) s)
           | Some o' => with_pc (shift_held o' (pc s)) (with_table ht (with_main (heap s) o (msgs s) s))
           end)
  end.

Definition unset_watch (s : process) : result (Z * process) :=
  match watch s with
  | None => Fault
  | Some o =>
      Ret (0, with_pc (drop_held o (pc s))
                (with_table (xadisk_unset_watch o (blocks_table s)) (with_main (heap s) None (msgs s) s)))
  end.

Definition set_tapfifo (fd : bool) (x : xadisk_t) : xadisk_t :=
  XadiskT (domid x) (image_path x) (x_fifo_path x) (x_fifo_fd x) fd (image_fd x) (x_fs x).

Definition xadisk_activate (s : process) : result (Z * process) :=
  match heap s with
  | None => Fault
  | Some x =>
      Ret (if negb tapfifo_opens then
             (1, complain "Error opening TAP FIFO:" (with_main (Some (set_tapfifo false x)) (watch s) (msgs s) s))
           else
             let s := with_main (Some (set_tapfifo true x)) (watch s) (msgs s) s in
             if negb thread_starts then (-1, complain "Error creating FIFO thread:" (with_pc NotStarted s))
             else (0, with_pc Starting (with_cancel false s)))
  end.

(** [pthread_cancel] of a handle that was never set or is no longer valid is
    undefined. *)
Definition xadisk_deactivate (s : process) : result (Z * process) :=
  match heap s with
  | None => Fault
  | Some x =>
      let closed s := with_main (Some (set_tapfifo false x)) (watch s) (msgs s) s in
      match pc s with
      | NotStarted | Joined => Fault
      | Ended => Ret (if cancel_ended then (0, closed s)
                      else (-1, complain "Error destroying FIFO thread:" s))
      | _ => Ret (0, closed (with_cancel true s))
      end
  end.

Definition xadisk_destroy (s : process) : result (Z * process) :=
  match heap s with
  | None => Fault
  | Some x =>
      Ret (0, with_pc (free_held (pc s))
                (with_table (destroy_hash (blocks_table s)) (with_main None (watch s) (msgs s) s)))
  end.

Definition set_fifo_fd (fd : option sink) (x : xadisk_t) : xadisk_t :=
  XadiskT (domid x) (image_path x) (x_fifo_path x) fd (tapfifo_fd x) (image_fd x) (x_fs x).

(** A thread that was started and not joined: a second one beside it is not
    modelled. *)
Definition has_thread (t : thread) : bool :=
  match t with NotStarted | Joined => false | _ => true end.

(** What a call returns is not looked at. *)
Definition ignore (r : result (Z * process)) : result process := p ← r; Ret (snd p).

Definition make_call (c : lib_call) (s : process) : option (result process) :=
  match c with
  | SetWatch path => Some (set_watch path s)
  | UnsetWatch => Some (ignore (unset_watch s))
  | Activate => if has_thread (pc s) then None else Some (ignore (xadisk_activate s))
  | Dup2 =>
      Some match heap s with
           | None => Fault
           | Some x => Ret (with_main (Some (set_fifo_fd (match x_fifo_fd x with Some _ => Some Stdout | None => None end) x))
                              (watch s) (msgs s) s)
           end
  | Deactivate => Some (ignore (xadisk_deactivate s))
  | Join =>
      match heap s, pc s with
      | None, _ | _, NotStarted | _, Joined => Some Fault
      | _, Ended => Some (Ret (with_pc Joined s))
      | _, _ => None
      end
  | Destroy => Some (ignore (xadisk_destroy s))
  end.

Definition main_move (s : process) : option (result process) :=
  match calls s with
  | [] => None
  | c :: cs => make_call c (with_calls cs s)
  end.

(** What can happen next. *)
Definition moves (s : process) : list (result process) :=
  omap id [main_move s; thread_move s; driver_move s] ++ (Ret <$> cancel_moves s).

Definition step (s s' : process) : Prop := Ret s' ∈ moves s.

(** Some party's next move is undefined behaviour. *)
Definition crashes (s : process) : Prop := exists m, m ∈ moves s /\ forall s', m <> Ret s'.

(** ** The program monitor.c *)

Definition monitor_image : cstr := str "/opt/xen_images/fedora-pv/fedora.img".

Definition monitor_calls (dir : cstr) : list lib_call :=
  [SetWatch dir; Activate; Dup2; Join; UnsetWatch; Destroy].

Definition monitor (argv1 : cstr) (fd : list request) : result process :=
  start 1 monitor_image (monitor_calls argv1) fd.
End Model.

(** ** The calls a program may make when

    [Idle]: no thread runs; [Active]: one may run; [Stopping]: it was
    cancelled; [Gone]: the object was freed. *)

Inductive phase := Idle | Active | Stopping | Gone.

(** The phase after a call, and whether [obj] then points to a watch; [None]
    when the call must not be made. *)
Definition next (ph : phase) (w : bool) (c : lib_call) : option (phase * bool) :=
  match ph, c with
  | Idle, SetWatch _ => Some (Idle, true)
  | Idle, UnsetWatch | Gone, UnsetWatch => if w then Some (ph, false) else None
  | Idle, Activate => Some (Active, w)
  | Idle, Destroy => Some (Gone, w)
  | Idle, Dup2 | Active, Dup2 | Stopping, Dup2 => Some (ph, w)
  | Active, Deactivate => Some (Stopping, w)
  | Active, Join | Stopping, Join => Some (Idle, w)
  | _, _ => None
  end.

Fixpoint phases (ph : phase) (w : bool) (cs : list lib_call) : option phase :=
  match cs with
  | [] => Some ph
  | c :: cs' => match next ph w c with Some (ph', w') => phases ph' w' cs' | None => None end
  end.

(** Every call is allowed and every thread is joined. *)
Definition disciplined (cs : list lib_call) : bool :=
  match phases Idle false cs with Some Idle | Some Gone => true | _ => false end.

(** ** What a program does, one call after the other

    The records of the driver are taken all at once by [Join]: those that the
    FIFO took of all of them, or some first ones when the thread was cancelled,
    and then perhaps a part of what is to be printed of the next. *)
Record abs := Abs {
  a_table : hash_table;
  a_watch : option xadisk_obj;
  a_todo : list dir_write;
  a_lost : nat;
  a_out : list cstr }.

Definition stopped (ph : phase) : bool := match ph with Stopping => true | _ => false end.

Definition has_watch (a : abs) : bool := match a_watch a with Some _ => true | None => false end.

Section Spec.
Context {D : DiskEnv} {R : ReadEnv}.
Variables (dfuel : nat) (fs : xadisk).

(** Of [out] the first lines and perhaps the start of the next. *)
Definition part_of (part out : list cstr) : Prop :=
  exists pre line post, out = pre ++ line :: post /\
    (part = pre \/ exists piece, piece `prefix_of` line /\ part = pre ++ [piece]).

(** What is left to report of [todo] and what was printed in part: nothing,
    or the first record when the thread was [stopped] in it. *)
Inductive cut_short (stopped : bool) (ht : hash_table) : list dir_write -> list dir_write -> list cstr -> Prop :=
| not_cut todo : cut_short stopped ht todo todo []
| cut_first w todo ht' out part :
    stopped = true -> core_step ht (w_buf w) = Ret (ht', out) -> part_of part out ->
    cut_short stopped ht (w :: todo) todo part.

Inductive spec_call : phase -> abs -> lib_call -> abs -> Prop :=
| spec_set_watch a path o ht :
    xadisk_set_watch dfuel fs path (a_table a) = Ret (Some o, ht) ->
    spec_call Idle a (SetWatch path) (Abs ht (Some o) (a_todo a) (a_lost a) (a_out a))
| spec_unset_watch ph a o :
    a_watch a = Some o ->
    spec_call ph a UnsetWatch (Abs (xadisk_unset_watch o (a_table a)) None (a_todo a) (a_lost a) (a_out a))
| spec_activate a : spec_call Idle a Activate a
| spec_dup2 ph a : spec_call ph a Dup2 a
| spec_deactivate a : spec_call Active a Deactivate a
| spec_join ph a seen todo rest ht out part :
    seen ++ todo `sublist_of` a_todo a -> (ph = Active -> rest = []) ->
    xadisk_core (a_table a) (w_buf <$> seen) = Ret (ht, out) ->
    cut_short (stopped ph) ht todo rest part ->
    spec_call ph a Join (Abs ht (a_watch a) rest (a_lost a + (length (a_todo a) - length (seen ++ todo)))
                           (a_out a ++ out ++ part))
| spec_destroy a :
    spec_call Idle a Destroy (Abs (destroy_hash (a_table a)) (a_watch a) (a_todo a) (a_lost a) (a_out a)).

Inductive spec_run : phase -> abs -> list lib_call -> phase -> abs -> Prop :=
| spec_done ph a : spec_run ph a [] ph a
| spec_cons ph a c ph1 w a1 cs ph2 a2 :
    next ph (has_watch a) c = Some (ph1, w) -> spec_call ph a c a1 ->
    spec_run ph1 a1 cs ph2 a2 -> spec_run ph a (c :: cs) ph2 a2.
End Spec.
