(* ===== verification/DiskSim.v ===== *)
(** * A disk watcher against the sequential program

    The simulation between a process of DiskLife.v and the calls made one
    after the other: what holds of the thread between two calls, and that every
    call of a disciplined program does what the sequential one does. *)

From Stdlib Require Import String Sorted.
From stdpp Require Import relations.
From S2P Require Import Prelude CStr DiskDir DiskHash DiskExt2 DiskCore XaStore DiskDriver DiskLife.

(** ** Tables whose nodes all hold directories *)

Lemma set_dir_at_0 l b t : StronglySorted le_block l -> set_dir_at 0 l b t = set_dir_list l b t.
Proof.
  induction 1 as [|q l Hs IH Hq]; [done|]. cbn [set_dir_at set_dir_list].
  destruct (Z.eqb_spec (DiskHash.block q) b) as [E|Hne].
  - rewrite (proj2 (Z.ltb_ge _ _)) by lia. done.
  - destruct (Z.ltb_spec (DiskHash.block q) b); [by rewrite IH|]. f_equal.
    clear IH Hs. induction Hq as [|x l Hx Hl IH]; [done|]. cbn [set_dir_at].
    unfold le_block in Hx. rewrite (proj2 (Z.eqb_neq _ _)) by lia. by rewrite IH.
Qed.

Lemma set_dir_nth_0 b t ht : table_wf ht -> set_dir_nth 0 b t ht = set_dir b t ht.
Proof.
  intros Hw. unfold set_dir_nth, set_dir. destruct (table_entry ht b Hw) as (e & -> & Hs & _).
  by rewrite set_dir_at_0.
Qed.

Lemma destroy_wf ht : table_wf ht -> table_wf (destroy_hash ht).
Proof.
  intros [Hl _]. split; [by unfold destroy_hash; rewrite length_fmap|].
  intros i e He. unfold destroy_hash in He. apply list_lookup_fmap_Some in He as (? & -> & _).
  split; [constructor|]. split; [constructor|done].
Qed.

Lemma destroy_nodes ht b : nodes_of (destroy_hash ht) b = [].
Proof. unfold nodes_of, destroy_hash. rewrite list_lookup_fmap. by destruct (ht !! hash_block b). Qed.

Section Good.
Context {R : ReadEnv}.
Variable entries_of : Z -> list disk_entry.

(** The block of the image is a directory block that the watcher can hold. *)
Definition dir_block (b : Z) : Prop :=
  block_readable entries_of b /\ dir_ok (sort_dir (d_entry <$> entries_of b)).

(** [held]: the directories a block may hold, as in DiskCore.v. *)
Variable held : Z -> list dir_entry -> Prop.
Hypothesis held_near : forall b t u, held b t -> held b u -> near t u.
Hypothesis held_image : forall b, dir_block b -> held b (d_entry <$> entries_of b).

Definition node_good (b : Z) (n : block_node) : Prop :=
  dir_ok (bn_dir n) /\ dir_block b /\ exists t, Permutation (bn_dir n) t /\ held b t.

Definition table_good (ht : hash_table) : Prop :=
  table_wf ht /\ forall b n, n ∈ nodes_of ht b -> node_good b n.

(** A record of the driver; a write to a directory block is of a directory. *)
Definition write_good (w : dir_write) : Prop :=
  length (w_buf w) = BUFSIZE /\ op_ok (w_op w) /\
  (dir_block (w_block w) -> write_ok w /\ held (w_block w) (w_dir w)).

Lemma good_check ht b n : table_good ht -> check_hash b ht = Some n -> node_good b n.
Proof.
  intros [Hw Hg] Hc. rewrite check_nodes in Hc by done. apply (Hg b). destruct (nodes_of ht b); [done|].
  injection Hc as ->. apply list_elem_of_here.
Qed.

Lemma good_dirs ht : table_good ht -> dirs_ok ht /\ dirs_held held ht.
Proof. intros Hg. split; intros b n Hc; by apply (good_check ht b n). Qed.

Lemma good_fits ht w : table_good ht -> write_good w -> write_fits ht w /\ write_held held ht w.
Proof.
  intros Hg (_ & Ho & Hw). split; [split; [done|]|]; intros [n Hn]; by apply Hw, (good_check ht _ n).
Qed.

Lemma init_good : table_good init_hash.
Proof. split; [apply init_wf|]. intros b n Hn. rewrite init_nodes in Hn. by apply not_elem_of_nil in Hn. Qed.

Lemma destroy_good ht : table_good ht -> table_good (destroy_hash ht).
Proof.
  intros [Hw _]. split; [by apply destroy_wf|]. intros b n Hn. rewrite destroy_nodes in Hn.
  by apply not_elem_of_nil in Hn.
Qed.

Lemma unset_good o ht : table_good ht -> table_good (xadisk_unset_watch o ht).
Proof.
  intros [Hw Hg]. unfold xadisk_unset_watch. split; [by apply remove_all_wf|]. intros b n Hn.
  apply Hg. rewrite remove_all_nodes in Hn by done.
  match type of Hn with _ ∈ drop ?k _ => rewrite <- (take_drop k (nodes_of ht b)) end.
  apply elem_of_app. by right.
Qed.

Lemma insert_all_good path inode bs ht :
  Forall dir_block bs -> table_good ht -> table_good (insert_all entries_of path inode bs ht).
Proof.
  intros Hbs [Hw Hg]. split; [by apply insert_all_wf|]. intros b n Hn.
  rewrite insert_all_nodes in Hn by done. apply elem_of_app in Hn as [Hn|Hn]; [|by apply Hg].
  apply elem_of_replicate in Hn as [-> Hne].
  assert (Hb : dir_block b).
  2:{ split; [apply Hb|]. split; [done|]. exists (d_entry <$> entries_of b). split; [apply sort_dir_spec|auto]. }
  destruct (filter (fun x => x = b) bs) as [|y l] eqn:Ef; [done|].
  assert (Hin : y ∈ filter (fun x => x = b) bs) by (rewrite Ef; apply list_elem_of_here).
  apply list_elem_of_filter in Hin as [-> Hin]. by eapply list.Forall_forall in Hbs.
Qed.

Lemma set_dir_good b t u ht :
  table_good ht -> dir_ok t -> Permutation t u -> held b u -> table_good (set_dir b t ht).
Proof.
  intros [Hw Hg] Ht Hp Hu. split; [by apply set_dir_wf|]. intros b' n Hn.
  rewrite set_dir_nodes in Hn by done. destruct (Z.eqb_spec b b') as [<-|]; [|by apply Hg].
  destruct (nodes_of ht b) as [|q l] eqn:E; [by apply not_elem_of_nil in Hn|].
  assert (Hq : dir_block b) by (apply (Hg b q); rewrite E; apply list_elem_of_here).
  apply elem_of_cons in Hn as [-> |Hn]; [split; [done|]; split; [done|]; by exists u|].
  apply (Hg b). rewrite E. by apply list_elem_of_further.
Qed.

(** A turn of the loop works and keeps the table good. *)
Lemma core_step_good w ht : table_good ht -> write_good w ->
  exists ht' out, core_step ht (w_buf w) = Ret (ht', out) /\ table_good ht'.
Proof.
  intros Hg (Hl & Ho & Hw). destruct (check_hash (w_block w) ht) as [n|] eqn:Hc.
  - destruct (good_check _ _ _ Hg Hc) as (Hd & Hb & _). destruct (Hw Hb) as [Hok Hh].
    destruct (core_step_watched w ht n Hok Hc Hd) as (ops & Hch & Hk & Hs).
    { by apply (held_step held held_near ht); [apply good_dirs|..]. }
    do 2 eexists. split; [exact Hs|]. destruct ops; [done|].
    apply (set_dir_good _ _ (w_dir w)); [done|done|apply sort_dir_spec|done].
  - exists ht, []. split; [by apply core_step_unwatched|done].
Qed.
End Good.

(** ** The thread between two calls *)

Lemma Forall_sublist {A} (P : A -> Prop) l k : l `sublist_of` k -> Forall P k -> Forall P l.
Proof. induction 1; intros Hk; [done|..]; apply list.Forall_cons in Hk as [? ?]; auto. Qed.

Section Serve.
Context {D : DiskEnv} {R : ReadEnv} {L : LifeEnv} {F : FifoEnv}.
Variables (entries_of : Z -> list disk_entry) (fs : xadisk) (held : Z -> list dir_entry -> Prop).
Hypothesis held_near : forall b t u, held b t -> held b u -> near t u.
Hypothesis held_image : forall b, dir_block entries_of b -> held b (d_entry <$> entries_of b).
Hypothesis Hcut : never_cuts.

#[local] Abbreviation write_good := (write_good entries_of held).
#[local] Abbreviation table_good := (table_good entries_of held).

(** The bytes in the FIFO and the requests still to come are the records of
    [todo]. *)
Definition encoded (todo : list dir_write) (s : process) : Prop :=
  Forall (request_ok (dir_block entries_of)) (feed s) /\
  exists p, todo = p ++ (logged <$> feed s) /\ tapfifo s = concat (w_buf <$> p).

(** Of the records the sequential program has to take at [a], those of [l] were
    not refused by the FIFO so far. *)
Definition pending (a : abs) (l : list dir_write) (s : process) : Prop :=
  l `sublist_of` a_todo a /\
  length (messages (logger s)) = (a_lost a + (length (a_todo a) - length l))%nat.

(** Where the thread may be, with the writes [todo] not reported yet; [stop]:
    it may have been cancelled. *)
Definition at_pc (stop : bool) (todo : list dir_write) (s : process) : Prop :=
  match pc s with
  | Starting => encoded todo s
  | LoopHead | InRead => stream s = true /\ length (tbuf s) = BUFSIZE /\ encoded todo s
  | Parsing => stream s = true /\ exists w todo', todo = w :: todo' /\ tbuf s = w_buf w /\ encoded todo' s
  | Holding op d =>
      stream s = true /\ d = Some 0%nat /\ length (tbuf s) = BUFSIZE /\
      exists w todo', todo = w :: todo' /\ op = w_op w /\
        is_Some (check_hash (w_block w) (blocks_table s)) /\ encoded todo' s
  | Ended => encoded todo s /\ (stop = false -> todo = [])
  | NotStarted | Joined => False
  end.

(** The object while it is not freed. *)
Definition obj_ok (s : process) : Prop :=
  exists x, heap s = Some x /\ x_fs x = fs /\ image_fd x = true /\ is_Some (x_fifo_fd x) /\
    (has_thread (pc s) = true -> pc s <> Ended -> tapfifo_fd x = true \/ cancelled s = true).

(** Since [Activate], at [a], the thread has done what [xadisk_core] does with
    the first records that the FIFO took, and when it was stopped while it
    printed, a part of that for one more. *)
Definition serving (stop : bool) (a : abs) (s : process) : Prop :=
  exists seen todo rest out part, pending a (seen ++ todo) s /\
    xadisk_core (a_table a) (w_buf <$> seen) = Ret (blocks_table s, out) /\
    report s = a_out a ++ out ++ part /\ table_good (blocks_table s) /\
    (cancelled s = true -> stop = true) /\
    cut_short stop (blocks_table s) todo rest part /\
    (pc s <> Ended -> part = [] /\ rest = todo) /\ at_pc stop rest s.

Definition resting (a : abs) (s : process) : Prop :=
  has_thread (pc s) = false /\ blocks_table s = a_table a /\ table_good (blocks_table s) /\
  report s = a_out a /\ exists todo, pending a todo s /\ encoded todo s.

(** The process [s] is where the sequential program is at [a]. *)
Definition sim (ph : phase) (a : abs) (s : process) : Prop :=
  watch s = a_watch a /\ Forall write_good (a_todo a) /\
  match ph with
  | Idle => obj_ok s /\ resting a s
  | Active => obj_ok s /\ serving false a s
  | Stopping => obj_ok s /\ serving true a s
  | Gone => heap s = None /\ resting a s
  end.

Lemma got_block_eq w s :
  op_ok (w_op w) -> tbuf s = w_buf w ->
  got_block s = Ret (match check_hash (w_block w) (blocks_table s) with
                     | None => with_pc LoopHead s
                     | Some _ => with_pc (Holding (w_op w) (Some 0%nat)) s
                     end).
Proof.
  intros Ho Hb. unfold got_block. rewrite Hb. unfold w_buf. rewrite parse_print_op by done.
  cbn [mbind result_bind]. fold (w_block w). by destruct (check_hash (w_block w) (blocks_table s)).
Qed.

(** What the thread does with the node it holds is the rest of [core_step]. *)
Lemma report_changes_eq w s n ht out :
  table_wf (blocks_table s) -> op_ok (w_op w) -> stream s = true ->
  check_hash (w_block w) (blocks_table s) = Some n ->
  core_step (blocks_table s) (w_buf w) = Ret (ht, out) ->
  report_changes (w_op w) 0 s =
    Ret (with_pc LoopHead (with_report (report s ++ out) (with_table ht s))).
Proof.
  intros Hw Ho Hst Hc. unfold core_step, report_changes, w_buf. rewrite parse_print_op by done.
  cbn [mbind result_bind]. fold (w_block w). rewrite Hc, Hst. rewrite check_nodes in Hc by done.
  destruct (nodes_of (blocks_table s) (w_block w)) as [|n' l]; [done|]. injection Hc as ->. cbn [lookup list_lookup].
  destruct (parse_block_dir (data (w_op w)) 4096) as [t| |]; cbn [mbind result_bind]; try done.
  destruct (compare_dirs (bn_dir n) (sort_dir t)) as [diff| |]; cbn [mbind result_bind]; try done.
  destruct (0 <? length diff)%nat; intros [= <- <-]; [by rewrite set_dir_nth_0|].
  rewrite app_nil_r. by destruct s.
Qed.

Lemma thread_move_read s (n := Nat.min BUFSIZE (length (tapfifo s))) :
  pc s = InRead -> tapfifo s <> [] ->
  thread_move s = Some (Ret (with_pc Parsing
    (with_read (take n (tapfifo s) ++ drop n (tbuf s)) (drop n (tapfifo s)) s))).
Proof. unfold thread_move, n. intros ->. by destruct (tapfifo s). Qed.

(** A read takes one whole record. *)
Lemma read_record todo s (n := Nat.min BUFSIZE (length (tapfifo s))) :
  encoded todo s -> tapfifo s <> [] -> length (tbuf s) = BUFSIZE -> Forall write_good todo ->
  exists w todo', todo = w :: todo' /\ take n (tapfifo s) ++ drop n (tbuf s) = w_buf w /\
    encoded todo' (with_read (w_buf w) (drop n (tapfifo s)) s).
Proof.
  intros (Hq & p & -> & Hp) Hne Hb Hg. destruct p as [|w p]; [by rewrite Hp in Hne|].
  cbn [app] in Hg. apply list.Forall_cons in Hg as [(Hl & _) _]. cbn [fmap list_fmap concat] in Hp.
  exists w, (p ++ (logged <$> feed s)). split; [done|].
  assert (n = length (w_buf w)) as ->.
  { unfold n. rewrite Hp, length_app. lia. }
  rewrite Hp, take_app_length, drop_app_length, drop_ge, app_nil_r by lia. split; [done|].
  split; [done|]. by exists p.
Qed.

Lemma encoded_ext todo s s' : tapfifo s' = tapfifo s -> feed s' = feed s -> encoded todo s -> encoded todo s'.
Proof. intros Hp Hf (Hq & p & ?). unfold encoded. rewrite Hp, Hf. split; [done|]. by exists p. Qed.

(** The FIFO is at its end exactly when nothing is left to report. *)
Lemma encoded_end todo s :
  encoded todo s -> tapfifo s = [] -> feed s = [] -> Forall write_good todo -> todo = [].
Proof.
  intros (_ & p & -> & Hp) Hp0 Hf0 Hg. rewrite Hf0 in *. destruct p as [|w p]; [done|]. cbn [app] in Hg. apply list.Forall_cons in Hg as [(Hl & _) _].
  rewrite Hp0 in Hp. cbn [fmap list_fmap concat] in Hp. symmetry in Hp. apply app_eq_nil in Hp as [Hp _].
  by destruct (record_nonempty w Hl).
Qed.

Definition same_main (s s' : process) : Prop :=
  heap s' = heap s /\ watch s' = watch s /\ calls s' = calls s /\ msgs s' = msgs s /\ cancelled s' = cancelled s.

Hypothesis Hbuf : length stack_buf = BUFSIZE.

(** Serving while nothing was cut short. *)
Lemma serving_intro stop a s s' seen todo out :
  pending a (seen ++ todo) s -> xadisk_core (a_table a) (w_buf <$> seen) = Ret (blocks_table s', out) ->
  report s' = a_out a ++ out -> table_good (blocks_table s') -> logger s' = logger s \/ messages (logger s') = messages (logger s) ->
  cancelled s' = cancelled s -> (cancelled s = true -> stop = true) -> at_pc stop todo s' -> serving stop a s'.
Proof.
  intros [Hs Hm] ? ? ? Hl E ? ?. exists seen, todo, todo, out, []. rewrite E, app_nil_r.
  split; [split; [done|]; destruct Hl as [-> | ->]; done|]. repeat (split; [done|]). split; [constructor|]. done.
Qed.

Lemma serving_live stop a s :
  serving stop a s -> pc s <> Ended -> exists seen todo out, pending a (seen ++ todo) s /\
    xadisk_core (a_table a) (w_buf <$> seen) = Ret (blocks_table s, out) /\ report s = a_out a ++ out /\
    table_good (blocks_table s) /\ (cancelled s = true -> stop = true) /\ at_pc stop todo s.
Proof.
  intros (seen & todo & rest & out & part & Hp & Hc & Hr & Hg & Hcan & _ & Hlive & Hpc) Hne.
  destruct (Hlive Hne) as [-> ->]. exists seen, todo, out. by rewrite app_nil_r in Hr.
Qed.

Lemma pending_good a l s : Forall write_good (a_todo a) -> pending a l s -> Forall write_good l.
Proof. intros Hg [Hs _]. by eapply Forall_sublist. Qed.

(** The object is the same and the thread is not past [Starting] or [read]. *)
Lemma obj_ok_move s s' :
  same_main s s' -> pc s <> Ended -> has_thread (pc s) = true -> obj_ok s -> obj_ok s'.
Proof.
  intros (Hh & _ & _ & _ & Hc) Hp Ht (x & Hx & Hfs & Hi & Hk & Htf). exists x.
  rewrite Hh, Hc. repeat (split; [done|]). auto.
Qed.

(** The two moves between which the thread holds a node are [core_step]. *)
Lemma holding_serves stop a s op d r :
  Forall write_good (a_todo a) ->
  serving stop a s -> pc s = Holding op d -> thread_move s = Some r ->
  exists s', r = Ret s' /\ same_main s s' /\ serving stop a s'.
Proof.
  intros Hgood Hserv Epc. assert (Hne : pc s <> Ended) by by rewrite Epc.
  destruct (serving_live _ _ _ Hserv Hne) as (seen & todo & out & Hp & Hc & Hr & Hg & Hcan & Hpc).
  unfold thread_move, at_pc in *. rewrite Epc in *.
  destruct Hpc as (Hst & -> & Hb & w & todo' & -> & -> & [n Hn] & He). intros [= <-].
  pose proof (pending_good _ _ _ Hgood Hp) as [_ [Hw _]%list.Forall_cons]%list.Forall_app.
  destruct (core_step_good entries_of held held_near w _ Hg Hw) as (ht' & out' & Hs & Hg').
  pose proof Hw as (_ & Ho & _).
  rewrite (report_changes_eq w s n ht' out' (proj1 Hg) Ho Hst Hn Hs).
  eexists. split; [reflexivity|]. split; [done|].
  apply (serving_intro stop a s _ (seen ++ [w]) todo' (out ++ out')); try done; [by rewrite <- app_assoc|..].
  - rewrite fmap_app. by apply (core_snoc _ _ _ (blocks_table s)).
  - cbn [with_pc with_report with_table report]. by rewrite Hr, app_assoc.
  - by left.
Qed.

(** The moves of the thread never fail and keep it on its way. *)
Lemma thread_serves stop a s r :
  Forall write_good (a_todo a) -> obj_ok s -> serving stop a s -> thread_move s = Some r ->
  exists s', r = Ret s' /\ same_main s s' /\ obj_ok s' /\ serving stop a s'.
Proof.
  intros Hgood Hobj Hserv Hm.
  assert (Hlive : pc s <> Ended /\ has_thread (pc s) = true).
  { unfold thread_move in Hm. by destruct (pc s). }
  enough (exists s', r = Ret s' /\ same_main s s' /\ serving stop a s') as (s' & ? & ? & ?).
  { exists s'. repeat (split; [done|]). split; [|done]. destruct Hlive. by apply (obj_ok_move s). }
  pose proof (serving_live _ _ _ Hserv (proj1 Hlive)) as (seen & todo & out & Hp & Hc & Hr & Hg & Hcan & Hpc).
  pose proof (pending_good _ _ _ Hgood Hp) as [_ Hgt]%list.Forall_app.
  destruct (pc s) as [| | | | |op d| |] eqn:Epc;
    try (destruct Hlive as [H1 H2]; first [discriminate H2|destruct (H1 eq_refl)]);
    try (eapply holding_serves; eassumption);
    destruct Hobj as (x & Hx & Hfs & Himg & [k Hk] & Htf);
    pose proof Hm as Hread; unfold thread_move in Hm; unfold at_pc in Hpc; rewrite Epc in Hm, Hpc.
  - rewrite Hx, Hk in Hm. injection Hm as <-. eexists. split; [reflexivity|]. split; [done|].
    eapply serving_intro; try done. by left.
  - rewrite Hx in Hm. injection Hm as <-. eexists. split; [reflexivity|]. split; [done|].
    destruct Hpc as (Hst & Hb & He). eapply serving_intro; try done; [by left|].
    destruct (cancelled s) eqn:Ec; unfold at_pc; cbn [with_pc pc].
    + split; [done|]. by rewrite Hcan.
    + rewrite Epc in Htf. by destruct (Htf eq_refl) as [-> | ?].
  - destruct Hpc as (Hst & Hb & He). destruct (tapfifo s) as [|z p] eqn:Ep.
    + destruct (feed s) eqn:Ef; [|done]. injection Hm as <-. eexists. split; [reflexivity|]. split; [done|].
      eapply serving_intro; try done; [by left|]. split; [done|]. intros _. by eapply encoded_end.
    + rewrite thread_move_read in Hread by (done || by rewrite Ep). apply (inj Some) in Hread as <-.
      eexists. split; [reflexivity|]. split; [done|].
      destruct (read_record todo s He) as (w & todo' & -> & Hw & He'); [by rewrite Ep|done|done|].
      rewrite Hw. eapply serving_intro; try done; [by right|].
      unfold at_pc. cbn [with_pc pc]. split; [done|]. by exists w, todo'.
  - destruct Hpc as (Hst & w & todo' & -> & Hb & He). injection Hm as <-.
    pose proof Hgt as [(Hl & Ho & _) _]%list.Forall_cons. rewrite (got_block_eq w s Ho Hb).
    destruct (check_hash (w_block w) (blocks_table s)) as [n|] eqn:Hn.
    + eexists. split; [reflexivity|]. split; [done|]. eapply serving_intro; try done; [by left|].
      unfold at_pc. cbn [with_pc pc]. do 2 (split; [done|]). cbn [tbuf with_pc]. rewrite Hb. split; [done|].
      exists w, todo'. do 2 (split; [done|]). cbn [blocks_table with_pc]. rewrite Hn. by split.
    + eexists. split; [reflexivity|]. split; [done|]. apply (serving_intro stop a s _ (seen ++ [w]) todo' out); try done.
      * by rewrite <- app_assoc.
      * rewrite fmap_app. rewrite <- (app_nil_r out). apply (core_snoc _ _ _ (blocks_table s)); [done|].
        by apply core_step_unwatched.
      * by left.
      * unfold at_pc. cbn [with_pc pc stream tbuf]. rewrite Hb. done.
Qed.

(** What a thread cancelled while it prints has printed is a part of what it
    would have. *)
Lemma cut_reports_part path diff out :
  out ∈ cut_reports path diff -> part_of out (op_line path <$> diff).
Proof.
  unfold cut_reports. intros (o & Hin & (k & o' & -> & Ho)%elem_of_lookup_imap)%list_elem_of_bind.
  cbn [fst snd] in Hin. apply list_elem_of_split_length in Ho as (pre & post & -> & ->).
  rewrite take_app_length in Hin. exists (op_line path <$> pre), (op_line path o'), (op_line path <$> post).
  split; [by rewrite fmap_app|]. apply elem_of_cons in Hin as [-> |Hin]; [by left|].
  apply list_elem_of_singleton in Hin as ->. right. eexists. split; [|reflexivity].
  unfold op_line. by eexists.
Qed.

Lemma changes_at_step w s n path diff :
  table_wf (blocks_table s) -> op_ok (w_op w) -> check_hash (w_block w) (blocks_table s) = Some n ->
  changes_at (w_op w) 0 s = Ret (path, diff) -> diff <> [] ->
  exists ht', core_step (blocks_table s) (w_buf w) = Ret (ht', op_line path <$> diff).
Proof.
  intros Hw Ho Hc Hch Hne. unfold changes_at in Hch. fold (w_block w) in Hch.
  unfold core_step, w_buf. rewrite parse_print_op by done. cbn [mbind result_bind]. fold (w_block w). rewrite Hc.
  rewrite check_nodes in Hc by done. destruct (nodes_of (blocks_table s) (w_block w)) as [|n' l]; [done|].
  injection Hc as ->. cbn [lookup list_lookup] in Hch.
  destruct (parse_block_dir (data (w_op w)) 4096) as [t| |]; cbn [mbind result_bind] in *; try done.
  destruct (compare_dirs (bn_dir n) (sort_dir t)) as [d| |]; cbn [mbind result_bind] in *; try done.
  injection Hch as <- <-. destruct d as [|o d]; [done|]. by eexists.
Qed.

(** The two places where a cancelled thread can end. *)
Lemma cancel_moves_cases s s' : s' ∈ cancel_moves s ->
  cancelled s = true /\
  ((pc s = InRead /\ s' = with_pc Ended s) \/
   exists op d path diff out, pc s = Holding op (Some d) /\ stream s = true /\
     changes_at op d s = Ret (path, diff) /\ out ∈ cut_reports path diff /\
     s' = with_pc Ended (with_report (report s ++ out) s)).
Proof.
  unfold cancel_moves. destruct (cancelled s); [|by intros ?%not_elem_of_nil]. intros H. split; [done|].
  destruct (pc s) as [| | | | |op [d|]| |]; try by apply not_elem_of_nil in H.
  - left. by apply list_elem_of_singleton in H.
  - right. destruct (stream s); [|by apply not_elem_of_nil in H].
    destruct (changes_at op d s) as [[path diff]| |] eqn:E; try by apply not_elem_of_nil in H.
    apply list_elem_of_fmap in H as (out & -> & Hout). by exists op, d, path, diff, out.
Qed.

Lemma cancel_serves stop a s s' :
  Forall write_good (a_todo a) -> serving stop a s -> s' ∈ cancel_moves s -> serving stop a s'.
Proof.
  intros Hgood Hserv [Hc0 [[Epc ->]|(op & d & path & diff & out' & Epc & Hst & Hch & Hin & ->)]]%cancel_moves_cases;
    (assert (Hne : pc s <> Ended) by by rewrite Epc);
    destruct (serving_live _ _ _ Hserv Hne) as (seen & todo & out & Hp & Hc & Hr & Hg & Hcan & Hpc);
    unfold at_pc in Hpc; rewrite Epc in Hpc.
  - eapply serving_intro; try done; [by left|]. unfold at_pc. cbn [with_pc pc].
    split; [by destruct Hpc as (_ & _ & ?)|]. by rewrite Hcan.
  - destruct Hpc as (_ & [= ->] & Hb & w & todo' & -> & -> & [n Hn] & He).
    pose proof (pending_good _ _ _ Hgood Hp) as [_ [(_ & Ho & _) _]%list.Forall_cons]%list.Forall_app.
    destruct (changes_at_step w s n path diff (proj1 Hg) Ho Hn Hch) as [ht' Hstep].
    { intros ->. by apply not_elem_of_nil in Hin. }
    exists seen, (w :: todo'), todo', out, out'. split; [done|].
    cbn [with_pc with_report blocks_table report cancelled pc]. split; [done|].
    split; [by rewrite Hr, app_assoc|]. split; [done|]. split; [done|]. split.
    { eapply cut_first; [by apply Hcan|exact Hstep|by apply cut_reports_part]. }
    split; [done|]. split; [done|]. rewrite (Hcan Hc0). done.
Qed.

(** The driver moves a request from [feed] to the FIFO, or loses it. *)
Lemma driver_pending a seen todo s m :
  encoded todo s -> driver_move s = Some m ->
  exists s', m = Ret s' /\ (exists l q fd, feed s = q :: fd /\ s' = with_logger l fd s) /\
    exists todo', encoded todo' s' /\ (pending a (seen ++ todo) s -> pending a (seen ++ todo') s').
Proof.
  intros (Hq & p & -> & Hp) Hm. unfold driver_move in Hm.
  destruct (feed s) as [|q fd] eqn:Ef; [discriminate Hm|]. apply (inj Some) in Hm as <-.
  apply list.Forall_cons in Hq as [Hq1 Hq].
  destruct (send_record_eq (r_sector q) (r_nb q) (r_buf q) 0) as (r & _ & Hsend); [by destruct Hq1 as (? & ? & ? & _)|].
  pose proof (Hsend (logger s)) as Hs. rewrite Hs. cbn [mbind result_bind snd]. eexists. split; [reflexivity|].
  split; [by eexists _, q, fd|].
  destruct (send_record_whole _ q _ _ Hcut Hq1 Hs) as [[Hf Hmsg]|[Hf Hmsg]].
  - exists (p ++ (logged <$> q :: fd)). split.
    + split; [done|]. exists (p ++ [logged q]). cbn [with_logger feed]. unfold tapfifo in *. cbn [with_logger logger].
      rewrite Hf, Hp, fmap_app, concat_app, <- app_assoc. cbn [fmap list_fmap concat app]. by rewrite app_nil_r.
    + intros [Hsub Hlen]. split; [done|]. cbn [with_logger logger]. by rewrite Hmsg.
  - exists (p ++ (logged <$> fd)). split.
    + split; [done|]. exists p. split; [done|]. unfold tapfifo in *. cbn [with_logger logger]. by rewrite Hf.
    + intros [Hsub Hlen].
      assert (Hsub' : seen ++ (p ++ (logged <$> fd)) `sublist_of` seen ++ (p ++ (logged <$> q :: fd))).
      { do 2 (apply sublist_app; [done|]). cbn [fmap list_fmap]. by constructor. }
      split; [by etrans|]. cbn [with_logger logger]. rewrite Hmsg, length_app, Hlen.
      pose proof (sublist_length _ _ Hsub) as H1. revert H1.
      rewrite !length_app, !length_fmap. cbn [length]. lia.
Qed.

Lemma at_pc_ext stop stop' todo s s' :
  pc s' = pc s -> stream s' = stream s -> tbuf s' = tbuf s -> blocks_table s' = blocks_table s ->
  (stop' = false -> stop = false) -> (forall t, encoded t s -> encoded t s') ->
  at_pc stop todo s -> at_pc stop' todo s'.
Proof.
  intros E1 E2 E3 E4 Hst He. unfold at_pc. rewrite E1, E2, E3, E4. destruct (pc s) as [| | | | |op d| |]; try done.
  - apply He.
  - intros (? & ? & ?). auto.
  - intros (? & ? & ?). auto.
  - intros (? & w & t & ? & ? & ?). split; [done|]. exists w, t. auto.
  - intros (? & ? & ? & w & t & ? & ? & ? & ?). repeat (split; [done|]). exists w, t. auto.
  - intros [? ?]. auto.
Qed.

(** The records in the FIFO and to come, wherever the thread is. *)
Lemma at_pc_encoded stop todo s : at_pc stop todo s ->
  exists pre rest, todo = pre ++ rest /\ encoded rest s /\
    forall rest' s', encoded rest' s' -> pc s' = pc s -> stream s' = stream s -> tbuf s' = tbuf s ->
      blocks_table s' = blocks_table s -> (pc s = Ended -> stop = false -> rest' = []) -> at_pc stop (pre ++ rest') s'.
Proof.
  unfold at_pc. destruct (pc s) as [| | | | |op d| |] eqn:Epc; try done.
  - intros He. exists [], todo. do 2 (split; [done|]). by intros rest' s' ? -> *.
  - intros (? & ? & He). exists [], todo. do 2 (split; [done|]). by intros rest' s' ? -> -> -> *.
  - intros (? & ? & He). exists [], todo. do 2 (split; [done|]). by intros rest' s' ? -> -> -> *.
  - intros (? & w & t & -> & ? & He). exists [w], t. do 2 (split; [done|]). intros rest' s' ? -> -> -> *.
    split; [done|]. by exists w, rest'.
  - intros (? & ? & ? & w & t & -> & ? & ? & He). exists [w], t. do 2 (split; [done|]).
    intros rest' s' ? -> -> -> -> *. do 3 (split; [done|]). by exists w, rest'.
  - intros [He Hst]. exists [], todo. do 2 (split; [done|]). intros rest' s' ? -> *. auto.
Qed.

Lemma cut_short_rest stop ht todo rest part : cut_short stop ht todo rest part ->
  exists pre, todo = pre ++ rest /\ forall rest', cut_short stop ht (pre ++ rest') rest' part.
Proof.
  intros [t|w t ht' out p Hs Hc Hp]; [exists []|exists [w]]; (split; [done|]); intros rest'; [constructor|].
  by eapply cut_first.
Qed.

Lemma driver_serves stop a s m : serving stop a s -> driver_move s = Some m ->
  exists s', m = Ret s' /\ (exists l q fd, feed s = q :: fd /\ s' = with_logger l fd s) /\ serving stop a s'.
Proof.
  intros (seen & todo & rest & out & part & Hp & Hc & Hr & Hg & Hcan & Hcs & Hlive & Hpc) Hm.
  destruct (at_pc_encoded _ _ _ Hpc) as (pre & t & -> & He & Hback).
  destruct (cut_short_rest _ _ _ _ _ Hcs) as (pre' & -> & Hcs').
  destruct (driver_pending a (seen ++ pre' ++ pre) t s m He Hm) as (s' & -> & (l & q & fd & Ef & ->) & t' & He' & Hpend).
  eexists. split; [reflexivity|]. split; [by exists l, q, fd|].
  exists seen, (pre' ++ pre ++ t'), (pre ++ t'), out, part. split.
  { rewrite !app_assoc in *. auto. }
  do 4 (split; [done|]). split; [apply Hcs'|]. split.
  { intros Hne. destruct (Hlive Hne) as [-> E]. split; [done|]. apply (f_equal length) in E.
    rewrite !length_app in E. destruct pre'; [done|]. cbn [length] in E. lia. }
  apply Hback; try done. intros Epc Hst. exfalso. unfold at_pc in Hpc. rewrite Epc in Hpc. destruct Hpc as [_ Hn].
  apply Hn, app_eq_nil in Hst as [_ ->]. destruct He as (_ & p & E & _). symmetry in E. apply app_eq_nil in E as [_ E].
  by rewrite Ef in E.
Qed.

Lemma driver_rests a s m : resting a s -> driver_move s = Some m ->
  exists s', m = Ret s' /\ (exists l q fd, feed s = q :: fd /\ s' = with_logger l fd s) /\ resting a s'.
Proof.
  intros (Hpc & Ht & Hg & Hr & todo & Hp & He) Hm.
  destruct (driver_pending a [] todo s m He Hm) as (s' & -> & (l & q & fd & Ef & ->) & t' & He' & Hpend).
  eexists. split; [reflexivity|]. split; [by exists l, q, fd|]. repeat (split; [done|]). exists t'. auto.
Qed.

(** ** The calls of a disciplined program *)

(** A path whose directory can be watched. *)
Definition watch_ok (dfuel : nat) (c : lib_call) : Prop :=
  match c with
  | SetWatch path => exists blocks inode,
      xa_linux_ext2_dir dfuel (x_sb fs) (i_tables fs) path = Ret (Some (blocks, inode)) /\
      Forall (dir_block entries_of) blocks
  | _ => True
  end.

Hypothesis Henv : tapfifo_opens = true /\ thread_starts = true.

Lemma set_watch_insert dfuel path ht :
  watch_ok dfuel (SetWatch path) -> exists o,
  xadisk_set_watch dfuel fs path ht =
    Ret (Some o, insert_all entries_of (o_path o) (o_inode o) (o_blocks o) ht) /\
  Forall (dir_block entries_of) (o_blocks o).
Proof.
  intros (blocks & inode & Hd & Hb). exists (Obj path inode blocks). split; [|done].
  unfold xadisk_set_watch. rewrite Hd. cbn [mbind result_bind]. rewrite (watch_blocks_insert entries_of); [done|].
  eapply list.Forall_impl; [exact Hb|]. by intros b [? _].
Qed.

(** The same process, up to the calls, the variable [obj] and the messages. *)
Lemma resting_ext a a' s s' :
  resting a s -> pc s' = pc s -> logger s' = logger s -> feed s' = feed s -> report s' = report s ->
  a_todo a' = a_todo a -> a_lost a' = a_lost a -> a_out a' = a_out a -> blocks_table s' = a_table a' ->
  table_good (a_table a') -> resting a' s'.
Proof.
  intros (Hpc & Ht & Hg & Hr & todo & Hp & He) E1 E2 E3 E4 E5 E5' E6 E7 Hg'. unfold resting. rewrite E1, E4, E6, E7.
  repeat (split; [done|]). exists todo. unfold pending. rewrite E2, E5, E5'. split; [done|].
  eapply encoded_ext; [|done|exact He]. unfold tapfifo. by rewrite E2.
Qed.

Lemma resting_pc a s f : resting a s -> (forall op b, pc s <> Holding op b -> f (pc s) = pc s) -> f (pc s) = pc s.
Proof. intros (Hpc & _) Hf. apply (Hf (BlockOp 0 0 0 []) None). by intros E; rewrite E in Hpc. Qed.

Lemma held_resting a s : resting a s ->
  (forall o, shift_held o (pc s) = pc s) /\ (forall o, drop_held o (pc s) = pc s) /\ free_held (pc s) = pc s.
Proof. intros (Hpc & _). by destruct (pc s). Qed.

Lemma set_watch_sim dfuel path a s :
  sim Idle a s -> watch_ok dfuel (SetWatch path) ->
  exists s' a', set_watch dfuel path s = Ret s' /\ spec_call dfuel fs Idle a (SetWatch path) a' /\
    sim Idle a' s' /\ has_watch a' = true.
Proof.
  intros (Hw & Hf & (x & Hx & Hfs & Himg & Hk & Htf) & Hrest) Hok.
  destruct (set_watch_insert dfuel path (blocks_table s) Hok) as (o & Ho & Hgood).
  destruct (held_resting a s Hrest) as (Hh & _).
  unfold set_watch. rewrite Hx, Hfs, Himg. cbn [fd_disk]. rewrite Ho. cbn [mbind result_bind].
  pose proof Hrest as (Hpc & Ht & Hg & _). rewrite Ht in Ho. do 2 eexists.
  split; [reflexivity|]. split; [by apply spec_set_watch|]. rewrite Hh. split; [|done].
  split; [done|]. split; [done|]. split; [by exists x|].
  eapply resting_ext; [exact Hrest|done..| |]; cbn; rewrite <- Ht; [done|]. by apply insert_all_good.
Qed.

Lemma unset_watch_sim dfuel ph a s w' :
  sim ph a s -> next ph (has_watch a) UnsetWatch = Some (ph, w') ->
  exists s' a', make_call dfuel UnsetWatch s = Some (Ret s') /\ spec_call dfuel fs ph a UnsetWatch a' /\
    sim ph a' s' /\ has_watch a' = w'.
Proof.
  intros (Hw & Hf & Hs) Hn. destruct (a_watch a) as [o|] eqn:Ho.
  2:{ unfold has_watch in Hn. rewrite Ho in Hn. by destruct ph. }
  cbn [make_call]. unfold unset_watch. rewrite Hw. cbn [ignore mbind result_bind snd].
  assert (Hrest : resting a s) by (destruct ph; try discriminate Hn; by destruct Hs).
  destruct (held_resting a s Hrest) as (_ & Hh & _). rewrite Hh.
  pose proof Hrest as (_ & Ht & Hg & _). do 2 eexists.
  split; [reflexivity|]. split; [by apply spec_unset_watch|].
  assert (w' = false) as -> by (unfold has_watch in Hn; rewrite Ho in Hn; destruct ph; cbn in Hn; congruence).
  split; [|done]. split; [done|]. split; [done|].
  assert (resting (Abs (xadisk_unset_watch o (a_table a)) None (a_todo a) (a_lost a) (a_out a))
    (with_pc (pc s) (with_table (xadisk_unset_watch o (blocks_table s)) (with_main (heap s) None (msgs s) s)))).
  { eapply resting_ext; [exact Hrest|done..| |]; cbn; rewrite <- Ht; [done|]. by apply unset_good. }
  destruct ph; try done; by destruct Hs.
Qed.

(** A thread that was started. *)
Lemma activate_sim dfuel a s :
  sim Idle a s ->
  exists s', make_call dfuel Activate s = Some (Ret s') /\ sim Active a s'.
Proof.
  intros (Hw & Hf & (x & Hx & Hfs & Himg & Hk & Htf) & Hrest).
  pose proof Hrest as (Hpc & Ht & Hg & Hr & todo & Hp & He).
  cbn [make_call]. rewrite Hpc. unfold xadisk_activate. rewrite Hx. destruct Henv as [-> ->].
  cbn [negb ignore mbind result_bind snd]. eexists. split; [reflexivity|].
  split; [done|]. split; [done|]. split; [eexists; repeat (split; [done|]); by left|].
  exists [], todo, todo, [], []. split; [done|]. cbn [fmap list_fmap xadisk_core app]. rewrite app_nil_r.
  split; [by rewrite <- Ht|]. repeat (split; [done|]). split; [constructor|]. done.
Qed.

Lemma dup2_sim dfuel ph a s w' :
  sim ph a s -> next ph (has_watch a) Dup2 = Some (ph, w') ->
  exists s', make_call dfuel Dup2 s = Some (Ret s') /\ sim ph a s'.
Proof.
  intros (Hw & Hf & Hs) Hn. cbn [make_call].
  assert (Hobj : obj_ok s) by (destruct ph; [by destruct Hs..|discriminate Hn]).
  destruct Hobj as (x & Hx & Hfs & Himg & [k Hk] & Htf). rewrite Hx. eexists. split; [reflexivity|].
  split; [done|]. split; [done|].
  assert (Ho : obj_ok (with_main (Some (set_fifo_fd (match x_fifo_fd x with Some _ => Some Stdout | None => None end) x))
    (watch s) (msgs s) s)).
  { eexists. repeat (split; [done|]). rewrite Hk. split; [done|]. exact Htf. }
  destruct ph; [by destruct Hs..|discriminate Hn].
Qed.

(** Cancelling the thread, wherever it is. *)
Lemma deactivate_sim dfuel a s :
  sim Active a s ->
  exists s', make_call dfuel Deactivate s = Some (Ret s') /\ sim Stopping a s'.
Proof.
  intros (Hw & Hf & (x & Hx & Hfs & Himg & Hk & Htf) & Hserv).
  pose proof Hserv as (seen & todo & rest & out & part & Hp & Hc & Hr & Hg & Hcan & Hcs & Hlive & Hpc).
  assert (Hs : forall s', pc s' = pc s -> stream s' = stream s -> tbuf s' = tbuf s -> logger s' = logger s ->
    feed s' = feed s -> blocks_table s' = blocks_table s -> report s' = report s -> serving true a s').
  { intros s' E1 E2 E3 E4 E5 E6 E7. exists seen, todo, rest, out, part. unfold pending. rewrite E1, E4, E6, E7.
    do 5 (split; [done|]). split; [|split; [done|]].
    - destruct Hcs as [t|w t ht' o p [=]]. constructor.
    - eapply at_pc_ext; [done..| |exact Hpc]. intros t. apply encoded_ext; [|done]. unfold tapfifo. by rewrite E4. }
  cbn [make_call]. unfold xadisk_deactivate. rewrite Hx.
  destruct (pc s) eqn:Epc; try (unfold at_pc in Hpc; rewrite Epc in Hpc; by destruct Hpc);
    [..|destruct cancel_ended]; eexists; (split; [reflexivity|]);
    (split; [done|]); (split; [done|]); (split; [eexists; repeat (split; [done|]); by right|by apply Hs]).
Qed.

(** [Join] waits for the thread, and then the writes it took are reported. *)
Lemma join_sim dfuel ph (stop : bool) a s :
  ph = (if stop then Stopping else Active) -> sim ph a s ->
  (has_thread (pc s) = true /\ pc s <> Ended) \/
  exists s' a', make_call dfuel Join s = Some (Ret s') /\ spec_call dfuel fs ph a Join a' /\ sim Idle a' s' /\
    has_watch a' = has_watch a.
Proof.
  intros Hph (Hw & Hf & Hs).
  assert (Ho : obj_ok s /\ serving stop a s) by (subst ph; by destruct stop). clear Hs.
  destruct Ho as [(x & Hx & Hfs & Himg & Hk & Htf)
    (seen & todo & rest & out & part & Hp & Hc & Hr & Hg & Hcan & Hcs & Hlive & Hpc)].
  assert (pc s = Ended \/ pc s <> Ended) as [Epc|Hne] by (destruct (pc s); auto).
  2:{ left. split; [|done]. unfold at_pc in Hpc. by destruct (pc s). }
  right. cbn [make_call]. rewrite Hx, Epc. unfold at_pc in Hpc. rewrite Epc in Hpc. destruct Hpc as [He Hend].
  do 2 eexists. split; [reflexivity|]. split.
  { apply (spec_join dfuel fs ph a seen todo rest (blocks_table s) out part); [apply Hp| |exact Hc|].
    - intros ->. apply Hend. by destruct stop.
    - subst ph. by destruct stop. }
  split; [|done]. split; [done|]. split.
  { cbn [a_todo]. apply (pending_good _ _ _ Hf) in Hp. apply list.Forall_app in Hp as [_ Hp].
    destruct (cut_short_rest _ _ _ _ _ Hcs) as (pre & -> & _). by apply list.Forall_app in Hp as [_ ?]. }
  split; [by exists x|]. repeat (split; [done|]). exists rest. split; [|done].
  split; [done|]. cbn [a_lost a_todo with_pc logger]. destruct Hp as [_ ->]. lia.
Qed.

Lemma destroy_sim dfuel a s :
  sim Idle a s ->
  exists s' a', make_call dfuel Destroy s = Some (Ret s') /\ spec_call dfuel fs Idle a Destroy a' /\
    sim Gone a' s' /\ has_watch a' = has_watch a.
Proof.
  intros (Hw & Hf & (x & Hx & Hfs & Himg & Hk & Htf) & Hrest).
  destruct (held_resting a s Hrest) as (_ & _ & Hh). pose proof Hrest as (_ & Ht & Hg & _).
  cbn [make_call]. unfold xadisk_destroy. rewrite Hx, Hh. do 2 eexists. split; [reflexivity|].
  split; [apply spec_destroy|]. split; [|done]. split; [done|]. split; [done|]. split; [done|].
  eapply resting_ext; [exact Hrest|done..| |]; cbn; rewrite <- Ht; [done|]. by apply destroy_good.
Qed.

(** A call of the program in its phase does what the sequential program does;
    only [Join] can be made to wait. *)
Lemma call_sim dfuel ph a s c ph' w' :
  sim ph a s -> next ph (has_watch a) c = Some (ph', w') -> watch_ok dfuel c ->
  (c = Join /\ has_thread (pc s) = true /\ pc s <> Ended) \/
  exists s' a', make_call dfuel c s = Some (Ret s') /\ spec_call dfuel fs ph a c a' /\ sim ph' a' s' /\
    has_watch a' = w'.
Proof.
  intros Hs Hn Hok.
  assert (Hun : c = UnsetWatch -> ph' = ph) by (intros ->; destruct ph; cbn in Hn; destruct (has_watch a); congruence).
  assert (Hdu : c = Dup2 -> ph' = ph /\ w' = has_watch a) by (intros ->; destruct ph; cbn in Hn; split; congruence).
  destruct c as [path| | | | | |].
  - destruct ph; try discriminate Hn. injection Hn as <- <-. right.
    destruct (set_watch_sim dfuel path a s Hs Hok) as (s' & a' & Hr & ?). exists s', a'.
    cbn [make_call]. by rewrite Hr.
  - right. rewrite (Hun eq_refl) in *. by apply unset_watch_sim.
  - destruct ph; try discriminate Hn. injection Hn as <- <-. right.
    destruct (activate_sim dfuel a s Hs) as (s' & Hr & Hs'). exists s', a. split; [done|].
    split; [apply spec_activate|done].
  - right. destruct (Hdu eq_refl) as [-> ->]. destruct (dup2_sim dfuel ph a s _ Hs Hn) as (s' & Hr & Hs').
    exists s', a. split; [done|]. split; [apply spec_dup2|done].
  - destruct ph; try discriminate Hn. injection Hn as <- <-. right.
    destruct (deactivate_sim dfuel a s Hs) as (s' & Hr & Hs'). exists s', a. split; [done|].
    split; [apply spec_deactivate|done].
  - destruct ph; try discriminate Hn; injection Hn as <- <-;
      [destruct (join_sim dfuel _ false a s eq_refl Hs)|destruct (join_sim dfuel _ true a s eq_refl Hs)]; auto.
  - destruct ph; try discriminate Hn. injection Hn as <- <-. right. by apply destroy_sim.
Qed.
End Serve.
