(* ===== verification/DiskRuns.v ===== *)
(** * The runs of a disk watcher

    Every run of a disciplined program is safe and finite and ends as the
    sequential program does; monitor.c is one; and programs that are not
    disciplined can crash. *)

From Stdlib Require Import String Sorted.
From stdpp Require Import relations.
From S2P Require Import Prelude CStr DiskDir DiskHash DiskExt2 DiskCore XaStore DiskDriver DiskLife DiskSim.

Section Serve.
Context {D : DiskEnv} {R : ReadEnv} {L : LifeEnv} {F : FifoEnv}.
Variables (entries_of : Z -> list disk_entry) (fs : xadisk) (held : Z -> list dir_entry -> Prop).
Hypothesis held_near : forall b t u, held b t -> held b u -> near t u.
Hypothesis held_image : forall b, dir_block entries_of b -> held b (d_entry <$> entries_of b).
Hypothesis Hcut : never_cuts.

#[local] Abbreviation sim := (sim entries_of fs held).
#[local] Abbreviation obj_ok := (obj_ok fs).
#[local] Abbreviation resting := (resting entries_of held).
#[local] Abbreviation watch_ok := (watch_ok entries_of fs).

Hypothesis Hbuf : length stack_buf = BUFSIZE.
Hypothesis Henv : tapfifo_opens = true /\ thread_starts = true.

(** ** Every run of a disciplined program *)

Lemma spec_run_snoc dfuel ph a cs ph1 a1 c ph2 w a2 :
  spec_run dfuel fs ph a cs ph1 a1 -> next ph1 (has_watch a1) c = Some (ph2, w) ->
  spec_call dfuel fs ph1 a1 c a2 -> spec_run dfuel fs ph a (cs ++ [c]) ph2 a2.
Proof.
  induction 1 as [ph a|ph a c' ph' w' a' cs ph3 a3 Hn Hc Hr IH]; intros Hn2 Hc2.
  - eapply spec_cons; [done..|constructor].
  - cbn [app]. eapply spec_cons; [exact Hn|exact Hc|auto].
Qed.

Lemma run_call_calls dfuel c s s' : make_call dfuel c s = Some (Ret s') ->
  calls s' = calls s /\ logger s' = logger s /\ feed s' = feed s.
Proof.
  destruct c as [path| | | | | |]; cbn [make_call].
  - unfold set_watch. destruct (heap s) as [x|]; [|done].
    destruct (xadisk_set_watch _ _ _ _) as [[[o|] ht]| |]; try done; by intros [= <-].
  - unfold unset_watch. destruct (watch s); [|done]. by intros [= <-].
  - destruct (has_thread (pc s)); [done|]. unfold xadisk_activate. destruct (heap s); [|done].
    destruct tapfifo_opens, thread_starts; by intros [= <-].
  - destruct (heap s); [|done]. by intros [= <-].
  - unfold xadisk_deactivate. destruct (heap s); [|done]. destruct (pc s), cancel_ended; try done; by intros [= <-].
  - destruct (heap s), (pc s); try done; by intros [= <-].
  - unfold xadisk_destroy. destruct (heap s); [|done]. by intros [= <-].
Qed.

Section Runs.
Variables (dfuel : nat) (cs0 : list lib_call) (a0 : abs).

(** The process has made some of the calls [cs0], as the sequential program
    does from [a0], and may make the others. *)
Definition follows (s : process) : Prop :=
  exists past ph a, spec_run dfuel fs Idle a0 past ph a /\ sim ph a s /\
    cs0 = past ++ calls s /\ Forall (watch_ok dfuel) (calls s) /\
    match phases ph (has_watch a) (calls s) with Some Idle | Some Gone => True | _ => False end.

Lemma main_follows s m : follows s -> main_move dfuel s = Some m -> exists s', m = Ret s' /\ follows s'.
Proof.
  intros (past & ph & a & Hrun & Hsim & Hcs & Hok & Hph) Hm. unfold main_move in Hm.
  destruct (calls s) as [|c cs] eqn:Ecs; [discriminate Hm|]. apply list.Forall_cons in Hok as [Hokc Hok].
  cbn [phases] in Hph. destruct (next ph (has_watch a) c) as [[ph' w']|] eqn:Hn; [|done].
  assert (Hsim' : sim ph a (with_calls cs s)) by exact Hsim.
  destruct (call_sim entries_of fs held held_image Hbuf Henv dfuel ph a (with_calls cs s) c ph' w' Hsim' Hn Hokc) as [(-> & Hp & Hne)|(s' & a' & Hr & Hsp & Hs' & Hw')].
  - exfalso. cbn [make_call with_calls pc heap] in *. destruct Hsim as (_ & _ & Hs).
    destruct ph; try discriminate Hn; destruct Hs as [(x & Hx & _) _]; rewrite Hx in Hm; by destruct (pc s).
  - rewrite Hr in Hm. apply (inj Some) in Hm as <-. exists s'. split; [done|].
    destruct (run_call_calls _ _ _ _ Hr) as (Hc' & _ & _). cbn [with_calls calls] in Hc'.
    exists (past ++ [c]), ph', a'. rewrite Hc', Hw'. split; [by eapply spec_run_snoc|]. split; [done|].
    split; [by rewrite <- app_assoc|]. done.
Qed.

(** The other parties do not go on with the program. *)
Lemma other_follows s s' :
  calls s' = calls s -> (forall ph a, sim ph a s -> sim ph a s') -> follows s -> follows s'.
Proof.
  intros Hc Hs (past & ph & a & Hrun & Hsim & Hcs & Hok & Hph). exists past, ph, a. rewrite Hc. auto.
Qed.

Lemma thread_sim ph a s m : sim ph a s -> thread_move s = Some m -> exists s', m = Ret s' /\ same_main s s' /\ sim ph a s'.
Proof.
  intros (Hw & Hf & Hs) Hm.
  assert (Hrest : resting a s -> False).
  { intros (Hpc & _). unfold thread_move in Hm. by destruct (pc s). }
  destruct ph; destruct Hs as [Hobj Hs]; try (by destruct (Hrest Hs));
    destruct (thread_serves entries_of fs held held_near Hbuf _ a s m Hf Hobj Hs Hm) as (s' & -> & Hsm & Hobj' & Hs');
    exists s'; (split; [done|]); (split; [done|]); (split; [|done]); by destruct Hsm as (_ & -> & _).
Qed.

Lemma cancel_sim ph a s s' : sim ph a s -> s' ∈ cancel_moves s -> calls s' = calls s /\ sim ph a s'.
Proof.
  intros (Hw & Hf & Hs) Hm.
  assert (He : exists out, (has_thread (pc s) = true /\ pc s <> Ended) /\ s' = with_pc Ended (with_report out s)).
  { apply cancel_moves_cases in Hm as [_ [[Epc ->]|(op & d & path & diff & out & Epc & _ & _ & _ & ->)]].
    - exists (report s). rewrite Epc. split; [done|]. by destruct s.
    - eexists. rewrite Epc. split; [|reflexivity]. done. }
  destruct He as (out & [Ht Hne] & E). rewrite E in Hm |- *. split; [done|]. split; [done|]. split; [done|].
  destruct ph; destruct Hs as [Hobj Hs]; try (destruct Hs as [Hs _]; by rewrite Hs in Ht);
    (split; [|by eapply cancel_serves]);
    destruct Hobj as (x & Hx & Hfs & Hi & Hk & _); exists x; repeat (split; [done|]); intros _ []; done.
Qed.

Lemma driver_sim ph a s m : sim ph a s -> driver_move s = Some m ->
  exists s', m = Ret s' /\ (exists l q fd, feed s = q :: fd /\ s' = with_logger l fd s) /\ sim ph a s'.
Proof.
  intros (Hw & Hf & Hs) Hm. destruct ph; destruct Hs as [Hobj Hs];
    first [destruct (driver_rests entries_of held Hcut Hbuf _ _ _ Hs Hm) as (s' & -> & (l & q & fd & Ef & ->) & Hs')
          |destruct (driver_serves entries_of held Hcut Hbuf _ _ _ _ Hs Hm) as (s' & -> & (l & q & fd & Ef & ->) & Hs')];
    (eexists; split; [reflexivity|]; split; [by exists l, q, fd|]; done).
Qed.

Lemma moves_iff s m : m ∈ moves dfuel s <->
  main_move dfuel s = Some m \/ thread_move s = Some m \/
  (exists s', s' ∈ cancel_moves s /\ m = Ret s') \/ driver_move s = Some m.
Proof.
  assert (Hin : forall (l : list (option (result process))), m ∈ omap id l <-> Some m ∈ l).
  { intros l. rewrite list_elem_of_omap. split; [intros (y & Hy & <-)|exists (Some m)]; done. }
  unfold moves. rewrite elem_of_app, Hin, !elem_of_cons, list_elem_of_fmap. split.
  - intros [[H|[H|[H|H]]]|(s' & -> & H)]; [auto|auto|auto| |eauto 6]. by apply not_elem_of_nil in H.
  - intros [H|[H|[(s' & H & ->)|H]]]; [rewrite H; auto 6|rewrite H; auto 6|right; by exists s'|rewrite H; auto 6].
Qed.

(** No move of a process that follows the program fails. *)
Lemma moves_follow s m : follows s -> m ∈ moves dfuel s -> exists s', m = Ret s' /\ follows s'.
Proof.
  intros Hf [Hm|[Hm|[(s' & Hm & ->)|Hm]]]%moves_iff.
  - by apply (main_follows s).
  - pose proof Hf as (past & ph & a & _ & Hsim & _).
    destruct (thread_sim ph a s m Hsim Hm) as (s' & -> & (_ & _ & Hc & _) & _). exists s'. split; [done|].
    apply (other_follows s); [done| |done]. intros ph1 a1 H1.
    destruct (thread_sim ph1 a1 s _ H1 Hm) as (s1 & [= <-] & _ & ?). done.
  - exists s'. split; [done|]. pose proof Hf as (past & ph & a & _ & Hsim & _).
    apply (other_follows s); [by apply (cancel_sim ph a s)| |done]. intros ph1 a1 H1. by apply (cancel_sim ph1 a1 s).
  - pose proof Hf as (past & ph & a & _ & Hsim & _).
    destruct (driver_sim ph a s m Hsim Hm) as (s' & -> & (l & q & fd & _ & E) & _). exists s'. split; [done|].
    apply (other_follows s); [by rewrite E| |done]. intros ph1 a1 H1.
    destruct (driver_sim ph1 a1 s _ H1 Hm) as (s1 & [= <-] & _ & ?). done.
Qed.

(** A process that cannot move has made all its calls. *)
Lemma follows_stuck s : follows s -> (forall s', ~ step dfuel s s') ->
  exists ph a, spec_run dfuel fs Idle a0 cs0 ph a /\ calls s = [] /\ sim ph a s /\ resting a s /\
    (ph = Idle \/ ph = Gone).
Proof.
  intros Hf Hstuck. assert (Hnone : forall m, ~ m ∈ moves dfuel s).
  { intros m Hm. destruct (moves_follow s m Hf Hm) as (s' & -> & _). by apply (Hstuck s'). }
  pose proof Hf as (past & ph & a & Hrun & Hsim & Hcs & Hok & Hph).
  assert (Hno : main_move dfuel s = None /\ thread_move s = None /\ driver_move s = None).
  { split; [|split].
    - destruct (main_move dfuel s) as [m|] eqn:E; [|done]. destruct (Hnone m). apply moves_iff. auto.
    - destruct (thread_move s) as [m|] eqn:E; [|done]. destruct (Hnone m). apply moves_iff. auto.
    - destruct (driver_move s) as [m|] eqn:E; [|done]. destruct (Hnone m). apply moves_iff. eauto 6. }
  destruct Hno as (Hm & Ht & Hd).
  assert (Hth : has_thread (pc s) = true -> pc s = Ended).
  { unfold thread_move in Ht. unfold driver_move in Hd. destruct (feed s); [|discriminate Hd].
    destruct (pc s) as [| | | | |op [d|]| |]; try discriminate Ht; try done. by destruct (tapfifo s). }
  destruct (calls s) as [|c cs] eqn:Ecs.
  - cbn [phases] in Hph. exists ph, a. rewrite app_nil_r in Hcs. rewrite Hcs.
    destruct Hsim as (Hw & Hg & Hs). destruct ph; try done; destruct Hs as [Ho Hs]; repeat (split; [done|]); auto.
  - exfalso. apply list.Forall_cons in Hok as [Hokc Hok]. cbn [phases] in Hph.
    destruct (next ph (has_watch a) c) as [[ph' w']|] eqn:Hn; [|done].
    unfold main_move in Hm. rewrite Ecs in Hm.
    destruct (call_sim entries_of fs held held_image Hbuf Henv dfuel ph a (with_calls cs s) c ph' w' Hsim Hn Hokc) as [(-> & Hp & Hne)|(s' & a' & Hr & _)].
    + by apply Hne, Hth.
    + by rewrite Hr in Hm.
Qed.

(** ** Runs are finite *)

(** A request adds no more than a record to the FIFO. *)
Lemma send_record_grows sector nb buf l r :
  send_record sector nb buf l = Ret r -> (length (fifo r.2) <= length (fifo l) + BUFSIZE)%nat.
Proof.
  unfold send_record. destruct (marshal sector nb buf) as [d| |] eqn:E; try done.
  erewrite bind_eq by reflexivity. rewrite write_fifo_eq. intros [= <-]. cbn [snd written fifo].
  enough (length d = BUFSIZE) by (rewrite length_app, length_take; lia).
  unfold marshal in E. destruct (Nat.leb_spec (Z.to_nat 4096) (length buf)); [|done].
  assert (d = [1] ++ le_split 8 sector ++ le_split 4 nb ++ take (Z.to_nat 4096) buf ++
    drop (Z.to_nat 4109) (stack BUFSIZE)) as -> by congruence.
  rewrite !length_app, !length_le_split, length_take, length_drop, stack_length. unfold BUFSIZE. cbn [length]. lia.
Qed.

(** What is left to read. *)
Definition left_over (s : process) : nat :=
  (length (tapfifo s) + length (feed s) * S BUFSIZE)%nat.

Definition thread_weight (n : nat) (t : thread) : nat :=
  match t with
  | Starting => 6 * n + 3
  | LoopHead => 6 * n + 2
  | InRead => 6 * n + 1
  | Parsing => 6 * n + 5
  | Holding _ _ => 6 * n + 4
  | NotStarted | Ended | Joined => 0
  end.

(** A bound on the steps from a process on. *)
Definition weight (s : process) : nat :=
  (length (calls s) * (6 * left_over s + 10) + thread_weight (left_over s) (pc s) + left_over s)%nat.

Lemma weight_call c cs s s' :
  calls s = c :: cs -> make_call dfuel c (with_calls cs s) = Some (Ret s') -> (weight s' < weight s)%nat.
Proof.
  intros Hc Hr. destruct (run_call_calls _ _ _ _ Hr) as (H1 & H2 & H3). cbn [with_calls calls logger feed] in *.
  assert (Hl : left_over s' = left_over s) by (unfold left_over, tapfifo; by rewrite H2, H3).
  assert (Hp : (thread_weight (left_over s) (pc s') <= thread_weight (left_over s) (pc s) + 6 * left_over s + 3)%nat).
  { generalize (left_over s). intros n.
    enough (thread_weight n (pc s') = thread_weight n (pc s) \/ pc s' = Starting \/ thread_weight n (pc s') = 0%nat)
      as [-> |[-> | ->]] by (cbn [thread_weight]; lia).
    clear -Hr. destruct c as [path| | | | | |]; cbn [make_call with_calls heap watch pc blocks_table] in Hr.
    - unfold set_watch in Hr. cbn [with_calls heap] in Hr. destruct (heap s) as [x|]; [|done].
      destruct (xadisk_set_watch _ _ _ _) as [[[o|] ht]| |]; try done; injection Hr as <-; left; [|done].
      cbn. by destruct (pc s) as [| | | | |op [d|]| |].
    - unfold unset_watch in Hr. cbn [with_calls watch] in Hr. destruct (watch s); [|done]. injection Hr as <-. left.
      cbn. by destruct (pc s) as [| | | | |op [d|]| |].
    - destruct (has_thread (pc s)); [done|]. unfold xadisk_activate in Hr. cbn [with_calls heap] in Hr.
      destruct (heap s); [|done]. destruct tapfifo_opens, thread_starts; injection Hr as <-; auto.
    - destruct (heap s); [|done]. injection Hr as <-. by left.
    - unfold xadisk_deactivate in Hr. cbn [with_calls heap pc] in Hr. destruct (heap s); [|done].
      destruct (pc s) eqn:Epc, cancel_ended; try done; injection Hr as <-; left; cbn; by rewrite Epc.
    - destruct (heap s), (pc s); try done; injection Hr as <-; auto.
    - unfold xadisk_destroy in Hr. cbn [with_calls heap] in Hr. destruct (heap s); [|done]. injection Hr as <-. left.
      cbn. by destruct (pc s). }
  unfold weight. rewrite Hl, H1, Hc. cbn [length]. lia.
Qed.

Lemma got_block_pc s s' : got_block s = Ret s' ->
  calls s' = calls s /\ left_over s' = left_over s /\ (pc s' = LoopHead \/ exists op b, pc s' = Holding op b).
Proof.
  unfold got_block. destruct (parse_op (tbuf s)) as [op| |]; cbn [mbind result_bind]; try done.
  destruct (check_hash _ _); intros [= <-]; eauto 6.
Qed.

Lemma report_changes_pc op d s s' : report_changes op d s = Ret s' ->
  calls s' = calls s /\ left_over s' = left_over s /\ pc s' = LoopHead.
Proof.
  unfold report_changes. destruct (nodes_of _ _ !! d) as [b|]; [|done].
  destruct (parse_block_dir _ _) as [t| |]; cbn [mbind result_bind]; try done.
  destruct (compare_dirs _ _) as [diff| |]; cbn [mbind result_bind]; try done.
  destruct (0 <? length diff)%nat; [|by intros [= <-]]. destruct (stream s); [|done]. by intros [= <-].
Qed.

Ltac weigh s :=
  unfold left_over, tapfifo; cbn [with_pc with_stream logger feed pc]; fold (tapfifo s); fold (left_over s);
  cbn [thread_weight]; lia.

Lemma weight_thread s s' : obj_ok s -> thread_move s = Some (Ret s') -> (weight s' < weight s)%nat.
Proof.
  intros (x & Hx & _ & _ & _ & Htf) Hm.
  enough (H : calls s' = calls s /\ (left_over s' <= left_over s)%nat /\
    (thread_weight (left_over s') (pc s') < thread_weight (left_over s) (pc s))%nat).
  { unfold weight. destruct H as (-> & Hl & Ht). nia. }
  unfold thread_move in Hm. destruct (pc s) as [| | | | |op [d|]| |] eqn:Epc; try discriminate Hm.
  - rewrite Hx in Hm. injection Hm as <-. split; [done|]. split; [done|]. weigh s.
  - rewrite Hx in Hm. injection Hm as <-. split; [done|]. split; [done|].
    destruct (cancelled s); [weigh s|]. destruct (Htf eq_refl) as [-> |?]; [done|weigh s|done].
  - destruct (tapfifo s) as [|z p] eqn:Ep.
    + destruct (feed s); [|discriminate Hm]. injection Hm as <-. split; [done|]. split; [done|]. weigh s.
    + rewrite <- Ep in Hm.
      assert (Hr : thread_move s = Some (Ret s')) by (unfold thread_move; rewrite Epc, Ep; by rewrite Ep in Hm).
      rewrite thread_move_read in Hr by (done || by rewrite Ep). apply (inj Some) in Hr.
      assert (s' = _) as -> by by injection Hr. split; [done|].
      assert (Hlt : (left_over (with_pc Parsing (with_read
        (take (Nat.min BUFSIZE (length (tapfifo s))) (tapfifo s) ++ drop (Nat.min BUFSIZE (length (tapfifo s))) (tbuf s))
        (drop (Nat.min BUFSIZE (length (tapfifo s))) (tapfifo s)) s)) < left_over s)%nat).
      { unfold left_over at 1. cbn [with_pc with_read feed]. unfold tapfifo at 1.
        cbn [with_pc with_read logger fifo]. unfold left_over. rewrite length_drop, Ep.
        generalize (length (feed s) * S BUFSIZE)%nat. intros k. unfold BUFSIZE. cbn [length]. lia. }
      split; [by apply Nat.lt_le_incl|]. revert Hlt. generalize (left_over s). intros n Hlt.
      cbn [with_pc pc thread_weight]. match goal with |- (6 * ?k + _ < _)%nat => assert (k < n)%nat by exact Hlt end. lia.
  - apply (inj Some) in Hm. destruct (got_block_pc s s' Hm) as (-> & -> & [-> |(op & b & ->)]); (split; [done|]); cbn [thread_weight]; lia.
  - apply (inj Some) in Hm. destruct (report_changes_pc op d s s' Hm) as (-> & -> & ->). split; [done|]. cbn [thread_weight]; lia.
Qed.

Lemma weight_step s s' : follows s -> step dfuel s s' -> (weight s' < weight s)%nat.
Proof.
  intros (past & ph & a & _ & (Hw & Hg & Hs) & _) [Hm|[Hm|[(s1 & Hm & [= <-])|Hm]]]%moves_iff.
  - unfold main_move in Hm. destruct (calls s) as [|c cs] eqn:Ec; [discriminate Hm|]. by apply (weight_call c cs).
  - apply weight_thread; [|done]. destruct ph; try by destruct Hs.
    destruct Hs as [_ (Hp & _)]. unfold thread_move in Hm. by destruct (pc s).
  - apply cancel_moves_cases in Hm as [_ [[Epc ->]|(op & d & path & diff & out & Epc & _ & _ & _ & ->)]];
      unfold weight; rewrite Epc;
      [change (left_over (with_pc Ended s)) with (left_over s)
      |change (left_over (with_pc Ended (with_report (report s ++ out) s))) with (left_over s)];
      cbn [with_pc with_report pc calls thread_weight]; lia.
  - destruct (driver_sim ph a s _ (conj Hw (conj Hg Hs)) Hm) as (s1 & [= <-] & (l & q & fd & Ef & ->) & _).
    assert (Hl : (left_over (with_logger l fd s) < left_over s)%nat).
    { unfold driver_move in Hm. rewrite Ef in Hm. unfold left_over. cbn [with_logger feed]. rewrite Ef. cbn [length].
      unfold tapfifo. cbn [with_logger logger].
      assert (Hsend : exists r, send_record (r_sector q) (r_nb q) (r_buf q) (logger s) = Ret r /\ l = r.2).
      { destruct (send_record _ _ _ (logger s)) as [r| |]; cbn [mbind result_bind] in Hm; try done. exists r.
        split; [done|]. apply (f_equal (fun m => match m with Some (Ret s1) => logger s1 | _ => l end)) in Hm.
        by symmetry. }
      destruct Hsend as (r & Hr & ->). apply send_record_grows in Hr. nia. }
    unfold weight. cbn [with_logger pc calls]. revert Hl.
    generalize (left_over (with_logger l fd s)), (left_over s). intros n n' Hl.
    destruct (pc s); cbn [thread_weight]; nia.
Qed.

Lemma weight_steps n : forall s s', follows s -> nsteps (step dfuel) n s s' -> (n <= weight s)%nat.
Proof.
  induction n as [|n IH]; intros s s' Hf Hn; [lia|]. inversion Hn as [|? ? s1 ? H1 H2]; subst.
  destruct (moves_follow s (Ret s1) Hf H1) as (s2 & [= <-] & Hf1).
  pose proof (weight_step s s1 Hf H1). specialize (IH s1 s' Hf1 H2). lia.
Qed.

Lemma follows_run s s' : follows s -> rtc (step dfuel) s s' -> follows s'.
Proof.
  intros Hf Hr. induction Hr as [s|s s1 s2 H1 Hr IH]; [done|]. apply IH.
  by destruct (moves_follow s (Ret s1) Hf H1) as (s3 & [= <-] & ?).
Qed.
End Runs.
End Serve.

(** ** Properties *)

Section Properties.
Context {D : DiskEnv} {R : ReadEnv} {L : LifeEnv} {F : FifoEnv}.
Variables (entries_of : Z -> list disk_entry) (dfuel : nat).

(** The image, the FIFOs and the thread can be had. *)
Definition life_ok (fs : xadisk) : Prop :=
  image_opens = true /\ appfifo_opens = true /\ tapfifo_opens = true /\ thread_starts = true /\
  length stack_buf = BUFSIZE /\ xadisk_init = Ret (fs, init_hash).

(** The directories that a directory block of the image holds in the course of
    the requests. *)
Definition listing (qs : list request) (b : Z) (t : list dir_entry) : Prop :=
  dir_block entries_of b /\
  (t = d_entry <$> entries_of b \/ exists q, q ∈ qs /\ r_block q = b /\ t = d_entry <$> r_dir q).

(** The requests for directory blocks of the image are of well-formed directory
    blocks of at most 256 names, and any two directories of one block differ in
    at most 256 names. *)
Definition requests_good (qs : list request) : Prop :=
  Forall (request_ok (dir_block entries_of)) qs /\
  forall b t u, listing qs b t -> listing qs b u -> near t u.

Lemma listing_image qs b : dir_block entries_of b -> listing qs b (d_entry <$> entries_of b).
Proof. intros Hb. split; [done|]. by left. Qed.

Lemma requests_write_good qs : requests_good qs -> Forall (write_good entries_of (listing qs)) (logged <$> qs).
Proof.
  intros [Hqs _]. apply Forall_fmap, list.Forall_forall. intros q Hq. cbn.
  rewrite list.Forall_forall in Hqs. specialize (Hqs q Hq).
  destruct (logged_record _ _ Hqs) as (_ & Hl & Ho). split; [done|]. split; [done|].
  intros Hb. destruct Hqs as (_ & _ & _ & Hd). destruct (Hd Hb) as (? & ? & ? & ?).
  split; [done|]. split; [done|]. right. by exists q.
Qed.

Definition before (qs : list request) : abs := Abs init_hash None (logged <$> qs) 0 [].

Lemma start_follows fs domid path cs qs :
  life_ok fs -> disciplined cs = true -> Forall (watch_ok entries_of fs dfuel) cs -> requests_good qs ->
  exists s0, start domid path cs qs = Ret s0 /\
    follows entries_of fs (listing qs) dfuel cs (before qs) s0.
Proof.
  intros (Hi & Ha & Ht & Hth & Hb & Hinit) Hd Hok Hqs. unfold start, xadisk_init_t. rewrite Hi, Ha. cbn [fd_disk].
  rewrite Hinit. cbn [mbind result_bind]. eexists. split; [reflexivity|].
  exists [], Idle, (before qs). split; [constructor|]. split.
  - split; [done|]. split; [by apply requests_write_good|]. split.
    + eexists. split; [reflexivity|]. repeat (split; [done|]). done.
    + split; [done|]. split; [done|]. split; [apply init_good|]. split; [done|]. exists (logged <$> qs).
      split; [split; [done|]; cbn; lia|]. split; [apply Hqs|]. by exists [].
  - split; [done|]. split; [done|]. unfold disciplined in Hd. cbn [calls has_watch a_watch before].
    by destruct (phases Idle false cs) as [[| | |]|].
Qed.

(** C6: a program that keeps to the order of the calls (no watch is set or
    removed while a thread runs, every thread is joined, and that before the
    object is destroyed) is safe and behaves sequentially, whatever the order
    in which the calling thread, the FIFO thread and the driver take their
    turns, whichever records the FIFO refuses, and wherever a cancelled thread
    ends, in [read] or while it prints: no reachable state is about to access
    freed memory or to do anything else undefined, every run ends after at most
    [weight] steps, and when it does all calls were made, and the table, the
    watch and the reports are those of the calls made one after the other, with
    every [Join] taking the records at once.  The FIFO must not cut a record in
    two ([never_cuts]; [short_write_crashes] says what happens otherwise), and
    the requests for blocks of directories must be of directory blocks that the
    tables of the code have room for ([requests_good]). *)
Theorem disciplined_safe fs domid path cs qs :
  life_ok fs -> disciplined cs = true -> Forall (watch_ok entries_of fs dfuel) cs ->
  requests_good qs -> never_cuts ->
  exists s0, start domid path cs qs = Ret s0 /\
  forall s, rtc (step dfuel) s0 s ->
    ~ crashes dfuel s /\
    (forall n s', nsteps (step dfuel) n s s' -> (n <= weight s)%nat) /\
    ((forall s', ~ step dfuel s s') -> exists ph a,
       calls s = [] /\ spec_run dfuel fs Idle (before qs) cs ph a /\
       blocks_table s = a_table a /\ watch s = a_watch a /\ report s = a_out a).
Proof.
  intros Hl Hd Hok Hqs Hcut. pose proof Hl as (_ & _ & Ht & Hth & Hb & _). pose proof (proj2 Hqs) as Hnear.
  pose proof (listing_image qs) as Himg.
  destruct (start_follows fs domid path cs qs Hl Hd Hok Hqs) as (s0 & Hs0 & Hf0). exists s0. split; [done|].
  intros s Hr. pose proof (follows_run entries_of fs _ Hnear Himg Hcut Hb (conj Ht Hth) dfuel cs _ s0 s Hf0 Hr) as Hf.
  split; [|split].
  - intros (m & Hm & Hno).
    destruct (moves_follow entries_of fs _ Hnear Himg Hcut Hb (conj Ht Hth) _ _ _ s m Hf Hm) as (s' & -> & _).
    by apply (Hno s').
  - intros n s' Hn. by apply (weight_steps entries_of fs _ Hnear Himg Hcut Hb (conj Ht Hth) dfuel cs (before qs) n s s').
  - intros Hstuck. destruct (follows_stuck entries_of fs _ Hnear Himg Hcut Hb (conj Ht Hth) _ _ _ s Hf Hstuck)
      as (ph & a & Hrun & Hc & (Hw & _) & (_ & Htb & _ & Hrep & _) & _).
    exists ph, a. auto.
Qed.

(** The sequential run of monitor.c. *)
Lemma monitor_spec fs dir blocks inode qs ph a :
  xa_linux_ext2_dir dfuel (x_sb fs) (i_tables fs) dir = Ret (Some (blocks, inode)) ->
  Forall (dir_block entries_of) blocks ->
  spec_run dfuel fs Idle (before qs) (monitor_calls dir) ph a ->
  ph = Gone /\ exists ht seen, seen `sublist_of` (logged <$> qs) /\ a_todo a = [] /\
    a_lost a = (length qs - length seen)%nat /\
    xadisk_core (insert_all entries_of dir inode blocks init_hash) (w_buf <$> seen) = Ret (ht, a_out a) /\
    a_table a = destroy_hash (xadisk_unset_watch (Obj dir inode blocks) ht).
Proof.
  intros Hdir Hb Hr. unfold monitor_calls in Hr.
  inversion Hr as [|? ? ? ? ? a1 ? ? ? Hn1 Hc1 Hr1]; subst. injection Hn1 as <- <-.
  inversion Hc1 as [? ? o ht1 Hset| | | | | |]; subst. cbn [a_table a_todo a_out a_lost before] in *.
  unfold xadisk_set_watch in Hset. rewrite Hdir in Hset. cbn [mbind result_bind] in Hset.
  rewrite (watch_blocks_insert entries_of) in Hset
    by (eapply list.Forall_impl; [exact Hb|]; by intros x [? _]).
  injection Hset as <- <-.
  inversion Hr1 as [|? ? ? ? ? a2 ? ? ? Hn2 Hc2 Hr2]; subst. injection Hn2 as <- <-. inversion Hc2; subst.
  inversion Hr2 as [|? ? ? ? ? a3 ? ? ? Hn3 Hc3 Hr3]; subst. injection Hn3 as <- <-. inversion Hc3; subst.
  inversion Hr3 as [|? ? ? ? ? a4 ? ? ? Hn4 Hc4 Hr4]; subst. injection Hn4 as <- <-.
  inversion Hc4 as [| | | | |? ? seen todo rest ht2 out part Hsub Hall Hcore Hcs|]; subst.
  cbn [a_table a_watch a_todo a_out a_lost stopped] in *.
  rewrite (Hall eq_refl) in *. inversion Hcs; subst; [|done]. rewrite !app_nil_r in *.
  inversion Hr4 as [|? ? ? ? ? a5 ? ? ? Hn5 Hc5 Hr5]; subst. injection Hn5 as <- <-.
  inversion Hc5 as [|? ? o Ho| | | | |]; subst. injection Ho as <-. cbn [a_table a_watch a_todo a_out a_lost] in *.
  inversion Hr5 as [|? ? ? ? ? a6 ? ? ? Hn6 Hc6 Hr6]; subst. injection Hn6 as <- <-. inversion Hc6; subst.
  inversion Hr6; subst. split; [done|]. exists ht2, seen. split; [done|]. split; [done|].
  cbn [a_table a_out a_lost]. by rewrite length_fmap.
Qed.

(** C7: from the guest's disk to what is printed: for the writes a guest makes
    through a logging driver, with a FIFO that may refuse records but does not
    cut them, monitor.c, under every interleaving, does nothing undefined and
    ends, and then it has printed exactly how the writes whose record the FIFO
    took change the names in the directory; of each of the others there is a
    message of the driver.  Of each write the first 4096 bytes count; those for
    blocks of directories must be of directory blocks of at most 256 names, any
    two of one block differing in at most 256 ([requests_good]). *)
Theorem guest_writes_reported fs dir blocks inode qs :
  life_ok fs -> xa_linux_ext2_dir dfuel (x_sb fs) (i_tables fs) dir = Ret (Some (blocks, inode)) ->
  Forall (dir_block entries_of) blocks -> requests_good qs -> never_cuts ->
  exists s0, monitor dir qs = Ret s0 /\
  (forall n s, nsteps (step dfuel) n s0 s -> (n <= weight s0)%nat) /\
  forall s, rtc (step dfuel) s0 s -> ~ crashes dfuel s /\
    ((forall s', ~ step dfuel s s') ->
       calls s = [] /\ heap s = None /\ (forall b, check_hash b (blocks_table s) = None) /\
       exists taken last, taken `sublist_of` (logged <$> qs) /\
         length qs = (length taken + length (messages (logger s)))%nat /\
         reported (fun b => if bool_decide (b ∈ blocks)
                     then Some (dir, sort_dir (d_entry <$> entries_of b)) else None)
           taken (report s) last).
Proof.
  intros Hl Hdir Hb Hqs Hcut. pose proof Hl as (_ & _ & Ht & Hth & Hbuf & _).
  pose proof (proj2 Hqs) as Hnear. pose proof (listing_image qs) as Himg.
  assert (Hok : Forall (watch_ok entries_of fs dfuel) (monitor_calls dir)).
  { repeat (constructor; [done || by exists blocks, inode|]). constructor. }
  destruct (start_follows fs 1 monitor_image (monitor_calls dir) qs Hl eq_refl Hok Hqs) as (s0 & Hs0 & Hf0).
  exists s0. split; [done|]. split.
  { intros n s Hn. by apply (weight_steps entries_of fs _ Hnear Himg Hcut Hbuf (conj Ht Hth) dfuel
      (monitor_calls dir) (before qs) n s0 s). }
  intros s Hr. pose proof (follows_run entries_of fs _ Hnear Himg Hcut Hbuf (conj Ht Hth) dfuel _ _ s0 s Hf0 Hr) as Hf.
  split.
  { intros (m & Hm & Hno).
    destruct (moves_follow entries_of fs _ Hnear Himg Hcut Hbuf (conj Ht Hth) _ _ _ s m Hf Hm) as (s' & -> & _).
    by apply (Hno s'). }
  intros Hstuck. destruct (follows_stuck entries_of fs _ Hnear Himg Hcut Hbuf (conj Ht Hth) _ _ _ s Hf Hstuck)
    as (ph & a & Hrun & Hc & (_ & _ & Hs) & (_ & Htb & Hg & Hrep & todo & [Hsub Hmsg] & _) & _).
  destruct (monitor_spec fs dir blocks inode qs ph a Hdir Hb Hrun) as (-> & ht & seen & Hseen & Htodo & Hlost & Hcore & Ha).
  rewrite Htodo in Hsub, Hmsg. cbn [length] in Hmsg.
  split; [done|]. split; [by destruct Hs|]. split.
  { intros b. rewrite check_nodes by by apply Hg. by rewrite Htb, Ha, destroy_nodes. }
  assert (Hgood : table_good entries_of (listing qs) (insert_all entries_of dir inode blocks init_hash))
    by (by apply (insert_all_good entries_of _ Himg); [|apply init_good]).
  destruct (good_dirs _ _ _ Hgood) as [Hd Hh].
  destruct (core_run (listing qs) Hnear seen _ (proj1 Hgood) Hd Hh) as (ht' & out & Hrun' & _ & _ & Hrp & _).
  - eapply list.Forall_impl; [by eapply Forall_sublist, requests_write_good|]. intros w Hw. by eapply good_fits.
  - eapply list.Forall_impl; [by eapply Forall_sublist, requests_write_good|]. intros w Hw. by eapply good_fits.
  - rewrite Hcore in Hrun'. injection Hrun' as <- <-. exists seen, (watched ht). split; [done|]. split.
    { rewrite Hmsg, Hlost. pose proof (sublist_length _ _ Hseen) as Hle. rewrite length_fmap in Hle. lia. }
    rewrite Hrep. eapply reported_ext; [|exact Hrp]. intros b. rewrite watched_insert_all by apply init_wf.
    case_bool_decide; [done|]. unfold watched. rewrite check_nodes by apply init_wf. by rewrite init_nodes.
Qed.

(** ** Programs that do not keep to the order *)

Lemma step_main s s' : main_move dfuel s = Some (Ret s') -> step dfuel s s'.
Proof. intros H. apply moves_iff. by left. Qed.

Lemma step_thread s s' : thread_move s = Some (Ret s') -> step dfuel s s'.
Proof. intros H. apply moves_iff. by right; left. Qed.

Lemma step_call c cs s s' :
  calls s = c :: cs -> make_call dfuel c (with_calls cs s) = Some (Ret s') -> step dfuel s s'.
Proof. intros Hc Hr. apply step_main. unfold main_move. by rewrite Hc. Qed.

(** The steps of the main thread on a process with an object. *)
Lemma step_activate x cs s :
  tapfifo_opens = true -> thread_starts = true -> heap s = Some x -> calls s = Activate :: cs ->
  has_thread (pc s) = false ->
  step dfuel s (with_calls cs (with_pc Starting (with_cancel false
    (with_main (Some (set_tapfifo true x)) (watch s) (msgs s) s)))).
Proof.
  intros Ht Hth Hx Hc Hp. apply (step_call Activate cs); [done|]. cbn [make_call with_calls pc]. rewrite Hp.
  unfold xadisk_activate. cbn [with_calls heap]. by rewrite Hx, Ht, Hth.
Qed.

Lemma step_deactivate x cs s :
  heap s = Some x -> calls s = Deactivate :: cs -> has_thread (pc s) = true -> pc s <> Ended ->
  step dfuel s (with_calls cs (with_main (Some (set_tapfifo false x)) (watch s) (msgs s) (with_cancel true s))).
Proof.
  intros Hx Hc Hp Hne. apply (step_call Deactivate cs); [done|]. cbn [make_call].
  unfold xadisk_deactivate. cbn [with_calls heap pc]. rewrite Hx. by destruct (pc s).
Qed.

Lemma step_destroy x cs s :
  heap s = Some x -> calls s = Destroy :: cs ->
  step dfuel s (with_calls cs (with_pc (free_held (pc s))
    (with_table (destroy_hash (blocks_table s)) (with_main None (watch s) (msgs s) s)))).
Proof.
  intros Hx Hc. apply (step_call Destroy cs); [done|]. cbn [make_call].
  unfold xadisk_destroy. cbn [with_calls heap pc]. by rewrite Hx.
Qed.

Lemma step_starting x k s :
  heap s = Some x -> x_fifo_fd x = Some k -> pc s = Starting ->
  step dfuel s (with_pc LoopHead (with_stream true stack_buf s)).
Proof. intros Hx Hk Hp. apply step_thread. unfold thread_move. by rewrite Hp, Hx, Hk. Qed.

(** Pthread_cancel does not wait: a program that stops the thread with
    xadisk_deactivate and then frees the object with xadisk_destroy, without
    joining, can reach a state in which the thread accesses the freed object. *)
Theorem destroy_races fs domid path qs :
  life_ok fs -> exists s0 s, start domid path [Activate; Deactivate; Destroy] qs = Ret s0 /\
    rtc (step dfuel) s0 s /\ crashes dfuel s /\ heap s = None /\ pc s = LoopHead.
Proof.
  intros (Hi & Ha & Ht & Hth & Hb & Hinit). revert Hinit. generalize init_hash. intros ht0 Hinit. unfold start, xadisk_init_t. rewrite Hi, Ha. cbn [fd_disk].
  rewrite Hinit. cbn [mbind result_bind]. do 2 eexists. split; [reflexivity|]. split.
  { eapply rtc_l; [by eapply step_activate|]. eapply rtc_l; [by eapply step_starting|].
    eapply rtc_l; [by eapply step_deactivate|]. eapply rtc_l; [by eapply step_destroy|]. apply rtc_refl. }
  split; [|done]. exists Fault. split; [|done]. apply moves_iff. right. by left.
Qed.

Lemma step_set_watch_none x path cs s :
  heap s = Some x -> calls s = SetWatch path :: cs -> image_fd x = true ->
  xa_linux_ext2_dir dfuel (x_sb (x_fs x)) (i_tables (x_fs x)) path = Ret None ->
  step dfuel s (with_calls cs (complain "Directory not found!" (with_main (heap s) None (msgs s) s))).
Proof.
  intros Hx Hc Hi Hd. apply (step_call (SetWatch path) cs); [done|]. cbn [make_call]. unfold set_watch.
  cbn [with_calls heap blocks_table]. rewrite Hx, Hi. cbn [fd_disk]. unfold xadisk_set_watch. by rewrite Hd.
Qed.

Lemma step_dup2 x k cs s :
  heap s = Some x -> calls s = Dup2 :: cs -> x_fifo_fd x = Some k ->
  step dfuel s (with_calls cs (with_main (Some (set_fifo_fd (Some Stdout) x)) (watch s) (msgs s) s)).
Proof.
  intros Hx Hc Hk. apply (step_call Dup2 cs); [done|]. cbn [make_call with_calls heap]. by rewrite Hx, Hk.
Qed.

Lemma step_join x cs s :
  heap s = Some x -> calls s = Join :: cs -> pc s = Ended -> step dfuel s (with_calls cs (with_pc Joined s)).
Proof.
  intros Hx Hc Hp. apply (step_call Join cs); [done|]. cbn [make_call with_calls heap pc]. by rewrite Hx, Hp.
Qed.

Lemma step_loop x s :
  heap s = Some x -> pc s = LoopHead -> cancelled s = false -> tapfifo_fd x = true ->
  step dfuel s (with_pc InRead s).
Proof. intros Hx Hp Hc Ht. apply step_thread. unfold thread_move. by rewrite Hp, Hx, Hc, Ht. Qed.

Lemma step_eof s : pc s = InRead -> tapfifo s = [] -> feed s = [] -> step dfuel s (with_pc Ended s).
Proof. intros Hp Ht Hf. apply step_thread. unfold thread_move. by rewrite Hp, Ht, Hf. Qed.

(** The result of xadisk_set_watch is not looked at by monitor.c: for a
    path that is not on the image it runs until the driver closes the FIFO
    and then passes NULL to xadisk_unset_watch, which dereferences it. *)
Theorem monitor_missing_directory fs dir :
  life_ok fs -> xa_linux_ext2_dir dfuel (x_sb fs) (i_tables fs) dir = Ret None ->
  exists s0 s, monitor dir [] = Ret s0 /\ rtc (step dfuel) s0 s /\ crashes dfuel s /\
    calls s = [UnsetWatch; Destroy] /\ watch s = None.
Proof.
  intros (Hi & Ha & Ht & Hth & Hb & Hinit) Hdir. revert Hinit. generalize init_hash. intros ht0 Hinit. unfold monitor, start, xadisk_init_t. rewrite Hi, Ha. cbn [fd_disk].
  rewrite Hinit. cbn [mbind result_bind]. do 2 eexists. split; [reflexivity|]. split.
  { eapply rtc_l; [by eapply step_set_watch_none|]. eapply rtc_l; [by eapply step_activate|].
    eapply rtc_l; [by eapply step_dup2|]. eapply rtc_l; [by eapply step_starting|].
    eapply rtc_l; [by eapply step_loop|]. eapply rtc_l; [by eapply step_eof|].
    eapply rtc_l; [by eapply step_join|]. apply rtc_refl. }
  split; [|done]. exists Fault. split; [|done]. apply moves_iff. by left.
Qed.

Lemma step_set_watch_some x path o cs ht s :
  heap s = Some x -> calls s = SetWatch path :: cs -> image_fd x = true -> has_thread (pc s) = false ->
  xadisk_set_watch dfuel (x_fs x) path (blocks_table s) = Ret (Some o, ht) ->
  step dfuel s (with_calls cs (with_table ht (with_main (heap s) (Some o) (msgs s) s))).
Proof.
  intros Hx Hc Hi Hp Hd. apply (step_call (SetWatch path) cs); [done|]. cbn [make_call]. unfold set_watch.
  cbn [with_calls heap blocks_table]. rewrite Hx, Hi. cbn [fd_disk]. rewrite Hd. cbn [mbind result_bind].
  assert (shift_held o (pc (with_calls cs s)) = pc s) as -> by (cbn [with_calls pc]; by destruct (pc s)).
  by destruct s.
Qed.

Lemma step_driver q f r s :
  feed s = q :: f -> is_record (r_sector q) (r_nb q) (r_buf q) r ->
  (forall l, send_record (r_sector q) (r_nb q) (r_buf q) l = Ret (tt, written r l)) ->
  step dfuel s (with_logger (written r (logger s)) f s).
Proof.
  intros Hf _ Hr. apply moves_iff. do 3 right. unfold driver_move. by rewrite Hf, Hr.
Qed.

(** What the thread reads when the FIFO holds no more than a record. *)
Lemma step_read_one p s :
  pc s = InRead -> tapfifo s = p -> p <> [] -> (length p <= BUFSIZE)%nat ->
  step dfuel s (with_pc Parsing (with_read (p ++ drop (length p) (tbuf s)) [] s)).
Proof.
  intros Hp <- Hne Hl. apply step_thread. rewrite thread_move_read by done.
  rewrite Nat.min_r by done. rewrite take_ge by lia. by rewrite (drop_ge (tapfifo s)) by lia.
Qed.

Lemma step_unset o cs s :
  calls s = UnsetWatch :: cs -> watch s = Some o ->
  step dfuel s (with_calls cs (with_pc (drop_held o (pc s))
    (with_table (xadisk_unset_watch o (blocks_table s)) (with_main (heap s) None (msgs s) s)))).
Proof.
  intros Hc Ho. apply (step_call UnsetWatch cs); [done|]. cbn [make_call]. unfold unset_watch.
  cbn [with_calls watch]. by rewrite Ho.
Qed.

(** The record of a request is parsed as the request. *)
Lemma step_found_record op s n :
  pc s = Parsing -> parse_op (tbuf s) = Ret op -> check_hash (u32 (sector op / 8)) (blocks_table s) = Some n ->
  step dfuel s (with_pc (Holding op (Some 0%nat)) s).
Proof.
  intros Hp Hb Hn. apply step_thread. unfold thread_move, got_block. rewrite Hp, Hb. cbn [mbind result_bind].
  by rewrite Hn.
Qed.

(** A watch on a directory of the image, set up from the empty table. *)
Lemma watch_from_start fs path blocks inode b :
  xa_linux_ext2_dir dfuel (x_sb fs) (i_tables fs) path = Ret (Some (blocks, inode)) ->
  Forall (dir_block entries_of) blocks -> b ∈ blocks ->
  exists ht n, xadisk_set_watch dfuel fs path init_hash = Ret (Some (Obj path inode blocks), ht) /\
    check_hash b ht = Some n /\ n ∈ nodes_of ht b.
Proof.
  intros Hdir Hblocks Hin. set (ht := insert_all entries_of path inode blocks init_hash).
  assert (Hw : table_wf ht) by apply insert_all_wf, init_wf.
  pose proof (watched_insert_all entries_of path inode blocks init_hash b init_wf) as H.
  rewrite bool_decide_true in H by done. unfold watched in H. fold ht in H.
  destruct (check_hash b ht) as [n|] eqn:Hn; [|done]. exists ht, n. split; [|split; [done|]].
  - unfold xadisk_set_watch. rewrite Hdir. cbn [mbind result_bind]. rewrite (watch_blocks_insert entries_of); [done|].
    eapply list.Forall_impl; [exact Hblocks|]. by intros x [? _].
  - rewrite check_nodes in Hn by done. destruct (nodes_of ht b); [done|]. injection Hn as ->. apply list_elem_of_here.
Qed.

(** The first steps of a program that watches a directory and starts the
    thread: it waits for the driver's first record. *)
Lemma run_to_read fs domid image path cs blocks inode qs ht :
  life_ok fs -> xadisk_set_watch dfuel fs path init_hash = Ret (Some (Obj path inode blocks), ht) ->
  exists s0 s, start domid image (SetWatch path :: Activate :: cs) qs = Ret s0 /\ rtc (step dfuel) s0 s /\
    calls s = cs /\ pc s = InRead /\ stream s = true /\ tbuf s = stack_buf /\ blocks_table s = ht /\
    logger s = open_log /\ feed s = qs /\ watch s = Some (Obj path inode blocks).
Proof.
  intros (Hi & Ha & Ht & Hth & Hb & Hinit). revert Hinit. generalize init_hash. intros ht0 Hinit Hset.
  unfold start, xadisk_init_t. rewrite Hi, Ha. cbn [fd_disk]. rewrite Hinit. cbn [mbind result_bind].
  do 2 eexists. split; [reflexivity|]. split.
  { eapply rtc_l; [by eapply step_set_watch_some|]. eapply rtc_l; [by eapply step_activate|].
    eapply rtc_l; [by eapply step_starting|]. eapply rtc_l; [by eapply step_loop|]. apply rtc_refl. }
  done.
Qed.

(** C33: the lock of the table of watched blocks is commented out: a program
    that removes a watch while the thread runs can free the block the thread
    has just looked up, and the thread then reads the freed block.  (The FIFO
    takes the record of the one request.) *)
Theorem unset_watch_races fs domid image path blocks inode q :
  life_ok fs -> xa_linux_ext2_dir dfuel (x_sb fs) (i_tables fs) path = Ret (Some (blocks, inode)) ->
  Forall (dir_block entries_of) blocks -> r_block q ∈ blocks -> request_ok (fun _ => False) q ->
  fifo_accepts 0 [] BUFSIZE = Some BUFSIZE ->
  exists s0 s op, start domid image [SetWatch path; Activate; UnsetWatch] [q] = Ret s0 /\
    rtc (step dfuel) s0 s /\ crashes dfuel s /\ pc s = Holding op None /\ u32 (sector op / 8) = r_block q.
Proof.
  intros Hl Hdir Hblocks Hin Hq Hacc.
  destruct (watch_from_start fs path blocks inode _ Hdir Hblocks Hin) as (ht & n & Hset & Hn & _).
  destruct (run_to_read fs domid image path [UnsetWatch] blocks inode [q] ht Hl Hset)
    as (s0 & s & Hs0 & Hrun & Hcalls & Hpc & Hst & Htb & Htab & Hlog & Hfeed & Hwatch).
  destruct (send_record_eq (r_sector q) (r_nb q) (r_buf q) 0) as (r & Hr & Hsend); [by destruct Hq as (? & ? & ? & _)|].
  pose proof Hr as [Hlen Hparse]. destruct Hl as (_ & _ & _ & _ & Hbuf & _).
  assert (Hwr : fifo (written r open_log) = r).
  { unfold written, answer. cbn [open_log fifo fifo_open sent]. rewrite Hacc. cbn [default from_option app].
    rewrite take_ge; [done|by rewrite Hlen]. }
  set (op := BlockOp 1 (r_sector q) (r_nb q) (take (Z.to_nat 4096) (r_buf q))) in *.
  assert (Hocc : (0 < occurrences (r_block q) (Obj path inode blocks))%nat).
  { unfold occurrences. cbn [o_blocks]. destruct (filter (fun b' => b' = r_block q) blocks) eqn:E; [|cbn; lia].
    assert (H : r_block q ∈ filter (fun b' => b' = r_block q) blocks) by by apply list_elem_of_filter.
    rewrite E in H. by apply not_elem_of_nil in H. }
  assert (Hd : drop_held (Obj path inode blocks) (Holding op (Some 0%nat)) = Holding op None).
  { cbn [drop_held]. change (u32 (sector op / 8)) with (r_block q). by rewrite (proj2 (Nat.ltb_lt _ _) Hocc). }
  do 2 eexists. exists op. split; [exact Hs0|]. split.
  { etrans; [exact Hrun|]. eapply rtc_l; [by eapply (step_driver q [] r)|].
    eapply rtc_l; [apply (step_read_one r); [done|by unfold tapfifo; cbn [with_logger logger]; rewrite Hlog| |by rewrite Hlen]|].
    { intros E. rewrite E in Hlen. unfold BUFSIZE in Hlen. cbn [length] in Hlen. lia. }
    eapply rtc_l; [eapply (step_found_record op); [done| |]|].
    { cbn [with_pc with_read tbuf with_logger]. rewrite Htb, Hlen, drop_ge, app_nil_r by lia. exact Hparse. }
    { cbn [with_pc with_read blocks_table with_logger]. by rewrite Htab. }
    eapply rtc_l; [by eapply step_unset|]. apply rtc_refl. }
  split; [|split; [exact Hd|done]]. exists Fault. split; [|done]. apply moves_iff. right. left. unfold thread_move.
  cbn [with_calls pc with_pc]. by rewrite Hd.
Qed.

(** What is read before the cut is not changed by it. *)
Lemma rd_cut r n post pos k :
  length r = (n + length post)%nat -> 0 <= pos -> pos + Z.of_nat k <= Z.of_nat n ->
  rd (take n r ++ post) pos k = rd r pos k.
Proof.
  intros Hl Hp Hk. unfold rd. rewrite length_app, length_take, Nat.min_l, <- Hl by lia.
  rewrite (drop_app_le (take n r)), take_app_le by (rewrite ?length_drop, length_take; lia).
  by rewrite skipn_firstn_comm, take_take, Nat.min_l by lia.
Qed.

(** A record cut after at most four bytes of the directory, in a buffer of
    zeros: the header is that of the request, the directory is zero where the
    length of the first entry is. *)
Lemma cut_record_parses r n sector nb buf :
  is_record sector nb buf r -> (13 <= n <= 17)%nat ->
  exists d, parse_op (take n r ++ drop n (replicate BUFSIZE 0)) = Ret (BlockOp 1 sector nb d) /\
    length d = Z.to_nat 4096 /\ xa_linux_ext2_dir_getreclen d 0 = Ret 0.
Proof.
  intros [Hlen Hr] Hn. rewrite drop_replicate. set (z := replicate (BUFSIZE - n) 0).
  assert (Hl : length r = (n + length z)%nat) by (unfold z; rewrite length_replicate, Hlen; unfold BUFSIZE; lia).
  assert (Hd : length (take (Z.to_nat 4096) (drop 13 (take n r ++ z))) = Z.to_nat 4096).
  { assert (Hb : length (take n r ++ z) = BUFSIZE) by (rewrite length_app, length_take, Nat.min_l by lia; lia).
    rewrite length_take, length_drop, Hb. unfold BUFSIZE. lia. }
  exists (take (Z.to_nat 4096) (drop 13 (take n r ++ z))). split; [|split; [exact Hd|]].
  - unfold parse_op in *. rewrite !(rd_cut r n z) by (done || lia).
    rewrite length_app, length_take, Nat.min_l, <- Hl by lia.
    destruct (rd r 0 1) as [o| |]; cbn [mbind result_bind] in *; try done.
    destruct (rd r 1 8) as [se| |]; cbn [mbind result_bind] in *; try done.
    destruct (rd r 9 4) as [nb'| |]; cbn [mbind result_bind] in *; try done.
    destruct (_ <=? _)%nat; [|done]. by injection Hr as -> -> -> _.
  - unfold xa_linux_ext2_dir_getreclen, rd.
    rewrite Hd, (proj2 (Z.leb_le 0 _)), (proj2 (Z.leb_le _ _)) by lia. cbn [andb].
    assert (drop 4 (drop 13 (take n r ++ z)) = replicate (Z.to_nat 4992) 0) as E.
    { rewrite drop_drop, drop_app_ge by (rewrite length_take; lia). unfold z. rewrite drop_replicate. f_equal.
      rewrite length_take. unfold BUFSIZE. lia. }
    change (Z.to_nat (0 + 4)) with 4%nat. rewrite skipn_firstn_comm, E, take_take.
    change 2%nat with (S (S O)). by rewrite Nat.min_l, take_replicate, Nat.min_l by lia.
Qed.

(** The answer of [write] is compared with -1 only.  POSIX lets a FIFO that
    does not block take a part of a record, which is longer than PIPE_BUF.
    When the first record for a watched block is cut after its header, the thread
    takes what was on its stack for the directory, and if that is zero, as on a
    fresh stack, runs off the table it parses the directory into.  So the
    program of [disciplined_safe], and monitor.c, is safe only with a FIFO that
    takes records whole or not at all. *)
Theorem short_write_crashes fs dir blocks inode q n :
  life_ok fs -> xa_linux_ext2_dir dfuel (x_sb fs) (i_tables fs) dir = Ret (Some (blocks, inode)) ->
  Forall (dir_block entries_of) blocks -> r_block q ∈ blocks -> request_ok (fun _ => False) q ->
  stack_buf = replicate BUFSIZE 0 -> (13 <= n <= 17)%nat -> fifo_accepts 0 [] BUFSIZE = Some n ->
  exists s0 s, monitor dir [q] = Ret s0 /\ rtc (step dfuel) s0 s /\ crashes dfuel s /\ messages (logger s) = [].
Proof.
  intros Hl Hdir Hblocks Hin Hq Hstk Hn13 Hacc.
  destruct (watch_from_start fs dir blocks inode _ Hdir Hblocks Hin) as (ht & b & Hset & Hb & Hnode).
  destruct (run_to_read fs 1 monitor_image dir [Dup2; Join; UnsetWatch; Destroy] blocks inode [q] ht Hl Hset)
    as (s0 & s & Hs0 & Hrun & Hcalls & Hpc & Hst & Htb & Htab & Hlog & Hfeed & Hwatch).
  destruct (send_record_eq (r_sector q) (r_nb q) (r_buf q) 0) as (r & Hr & Hsend); [by destruct Hq as (? & ? & ? & _)|].
  destruct (cut_record_parses r n _ _ _ Hr Hn13) as (d & Hparse & Hd & Hz). destruct Hr as [Hlen Hr].
  assert (Hwr : fifo (written r open_log) = take n r).
  { unfold written, answer. cbn [open_log fifo fifo_open sent]. by rewrite Hacc. }
  assert (Hnl : length (take n r) = n) by (rewrite length_take, Hlen; unfold BUFSIZE; lia).
  set (op := BlockOp 1 (r_sector q) (r_nb q) d) in *.
  do 2 eexists. split; [exact Hs0|]. split.
  { etrans; [exact Hrun|]. eapply rtc_l; [by eapply (step_driver q [] r)|].
    eapply rtc_l; [apply (step_read_one (take n r)); [done|by unfold tapfifo; cbn [with_logger logger]; rewrite Hlog| |]|].
    { intros E. rewrite E in Hnl. cbn [length] in Hnl. lia. }
    { rewrite Hnl. unfold BUFSIZE. lia. }
    eapply rtc_l; [eapply (step_found_record op); [done| |]|].
    { cbn [with_pc with_read tbuf with_logger]. rewrite Htb, Hnl, Hstk. exact Hparse. }
    { cbn [with_pc with_read blocks_table with_logger]. rewrite Htab. exact Hb. }
    apply rtc_refl. }
  split.
  - exists Fault. split; [|done]. apply moves_iff. right. left. unfold thread_move. cbn [pc with_pc]. f_equal.
    unfold report_changes. cbn [with_pc with_read blocks_table with_logger]. rewrite Htab.
    change (u32 (sector op / 8)) with (r_block q).
    assert (exists b', nodes_of ht (r_block q) !! 0%nat = Some b') as [b' ->].
    { destruct (nodes_of ht (r_block q)) as [|b' l] eqn:E; [|by exists b']. by apply not_elem_of_nil in Hnode. }
    cbn [op data]. by rewrite parse_zero_reclen by done.
  - cbn [with_pc with_read logger with_logger messages]. rewrite Hlog. unfold written, answer.
    cbn [open_log fifo fifo_open sent messages]. by rewrite Hacc.
Qed.
End Properties.

(** *** Witnesses *)

(** An image of 4096-byte blocks: the superblock, the group descriptors, the
    inodes in block 2, the root directory in block 4 and /etc in block 5. *)
Definition life_root : list disk_entry :=
  [DiskEntry (DirEntry 2 2 (str ".")) [0; 0; 0];
   DiskEntry (DirEntry 6 1 (str "motd")) [];
   DiskEntry (DirEntry 5 2 (str "etc")) (replicate (Z.to_nat 4061) 0)].

Definition life_etc : list disk_entry := full_block (str "a.txt") 12.

Definition life_image : list Z :=
  put 1028 (le_split 4 8) (put 1052 (le_split 4 2) (put 1060 (le_split 4 8) (put 1064 (le_split 4 8)
    (put 1112 (le_split 2 128) (put 4104 (le_split 4 2) (put 4136 (le_split 4 2)
      (put (Z.to_nat 8348) (le_split 4 8) (put (Z.to_nat 8360) (le_split 4 4)
        (put (Z.to_nat 8732) (le_split 4 8) (put (Z.to_nat 8744) (le_split 4 5)
          (replicate (Z.to_nat 16384) 0))))))))))) ++
  print_block life_root ++ print_block life_etc ++ replicate (Z.to_nat 8192) 0.

Definition image_bytes (len off : Z) : list Z := take (Z.to_nat len) (drop (Z.to_nat off) life_image).

#[local] Instance life_disk : DiskEnv := {| disk_mmap len off := Some (image_bytes len off) |}.
#[local] Instance life_read : ReadEnv := {| image_read off := image_bytes 4096 off; malloc_op := 190 |}.
#[local] Instance life_env : LifeEnv := {|
  image_opens := true; appfifo_opens := true; tapfifo_opens := true; thread_starts := true;
  cancel_ended := true; stack_buf := replicate BUFSIZE 0 |}.

Definition life_fs : xadisk := Xadisk (Sb 8 4096 8 8 128) [2; 2].
Definition life_entries (b : Z) : list disk_entry := if b =? 4 then life_root else life_etc.

Lemma life_sample_ok : life_ok life_fs.
Proof.
  do 4 (split; [reflexivity|]). split; [apply length_replicate|].
  unfold xadisk_init.
  assert (xa_linux_ext2_read_sb = Ret (x_sb life_fs)) as -> by (vm_compute; reflexivity).
  cbn [mbind result_bind].
  assert (xa_linux_ext2_read_groupdesc (x_sb life_fs) = Ret (i_tables life_fs)) as -> by (vm_compute; reflexivity).
  reflexivity.
Qed.

Lemma life_dir : xa_linux_ext2_dir 10 (x_sb life_fs) (i_tables life_fs) (str "/etc") = Ret (Some ([5], 5)).
Proof. vm_compute. reflexivity. Qed.

Lemma life_no_dir : xa_linux_ext2_dir 10 (x_sb life_fs) (i_tables life_fs) (str "/var") = Ret None.
Proof. vm_compute. reflexivity. Qed.

Lemma life_block : dir_block life_entries 5.
Proof.
  assert (Hok : Forall entry_ok life_etc) by (repeat constructor; vm_compute; try discriminate; reflexivity).
  split.
  - split; [vm_compute; reflexivity|]. split; [vm_compute; reflexivity|]. split; [exact Hok|].
    apply Nat.leb_le. vm_compute. reflexivity.
  - apply sort_dir_ok; [exact Hok|apply Nat.leb_le; vm_compute; reflexivity|]. apply (bool_decide_eq_true_1 _). vm_compute. reflexivity.
Qed.

(** A FIFO that refuses every third record, and one that cuts the first. *)
Definition life_accepts (k : nat) (f : list Z) (n : nat) : option nat :=
  if (k mod 3 =? 2)%nat then None else Some n.
Definition cut_accepts (k : nat) (f : list Z) (n : nat) : option nat :=
  if (k =? 0)%nat then Some 15%nat else Some n.

Definition life_fifo (accepts : nat -> list Z -> nat -> option nat) : FifoEnv := {|
  mkfifo_ok := true; unlink_ok := true; open_fifo := 5; fifo_accepts := accepts;
  stack n := replicate n 0; stack_length n := length_replicate n 0; blkif_minor := 0 |}.

#[local] Instance life_whole : FifoEnv := life_fifo life_accepts.

Definition life_request : request :=
  Request 40 8 (print_block (full_block (str "b.txt") 14)) (full_block (str "b.txt") 14).

Lemma life_request_ok is_dir : request_ok is_dir life_request.
Proof. exact (sample_request_ok is_dir). Qed.

Lemma life_never_cuts : never_cuts.
Proof. intros k f n. cbn [fifo_accepts life_whole life_fifo]. unfold life_accepts. destruct (_ =? _)%nat; [done|]. by intros [= <-]. Qed.

Lemma life_requests_good : requests_good life_entries [life_request; life_request; life_request].
Proof.
  split; [repeat (constructor; [apply life_request_ok|]); constructor|].
  assert (H : forall b t, listing life_entries [life_request; life_request; life_request] b t -> (length t <= 128)%nat).
  { intros b t [_ [-> | (q & Hq & _ & ->)]].
    - rewrite length_fmap. unfold life_entries. destruct (b =? 4); cbn; lia.
    - assert (q = life_request) as ->; [|cbn; lia]. rewrite !elem_of_cons in Hq. by destruct Hq as [|[|[|?%not_elem_of_nil]]]. }
  intros b t u Ht Hu. apply near_small; by eapply H.
Qed.

Lemma disciplined_safe_witness : exists s0,
  start 1 monitor_image [SetWatch (str "/etc"); Activate; Deactivate; Join; Destroy; UnsetWatch]
    [life_request; life_request; life_request] = Ret s0 /\
  forall s, rtc (step 10) s0 s -> ~ crashes 10 s.
Proof.
  destruct (disciplined_safe life_entries 10 life_fs 1 monitor_image
    [SetWatch (str "/etc"); Activate; Deactivate; Join; Destroy; UnsetWatch] [life_request; life_request; life_request]
    life_sample_ok eq_refl) as (s0 & Hs & Hr).
  - repeat (constructor; [done || (exists [5], 5; split; [exact life_dir|constructor; [exact life_block|constructor]])|]).
    constructor.
  - exact life_requests_good.
  - exact life_never_cuts.
  - exists s0. split; [exact Hs|]. intros s Hrt. exact (proj1 (Hr s Hrt)).
Defined.

Lemma guest_writes_reported_witness : exists s0,
  monitor (str "/etc") [life_request; life_request; life_request] = Ret s0 /\
  forall s, rtc (step 10) s0 s -> (forall s', ~ step 10 s s') -> exists taken,
    taken `sublist_of` (logged <$> [life_request; life_request; life_request]) /\
    3%nat = (length taken + length (messages (logger s)))%nat.
Proof.
  destruct (guest_writes_reported life_entries 10 life_fs (str "/etc") [5] 5 [life_request; life_request; life_request]
    life_sample_ok life_dir) as (s0 & Hs & _ & Hr).
  - constructor; [exact life_block|constructor].
  - exact life_requests_good.
  - exact life_never_cuts.
  - exists s0. split; [exact Hs|]. intros s Hrt Hst.
    destruct (proj2 (Hr s Hrt) Hst) as (_ & _ & _ & taken & last & Hsub & Hlen & _). exists taken. exact (conj Hsub Hlen).
Defined.

Lemma destroy_races_witness : exists s0 s,
  start 1 monitor_image [Activate; Deactivate; Destroy] [life_request] = Ret s0 /\
  rtc (step 10) s0 s /\ crashes 10 s.
Proof.
  destruct (destroy_races 10 life_fs 1 monitor_image [life_request] life_sample_ok) as (s0 & s & H1 & H2 & H3 & _).
  exists s0, s. split; [exact H1|]. split; [exact H2|exact H3].
Defined.

Lemma monitor_missing_directory_witness : exists s0 s,
  monitor (str "/var") [] = Ret s0 /\ rtc (step 10) s0 s /\ crashes 10 s.
Proof.
  destruct (monitor_missing_directory 10 life_fs (str "/var") life_sample_ok life_no_dir)
    as (s0 & s & H1 & H2 & H3 & _).
  exists s0, s. split; [exact H1|]. split; [exact H2|exact H3].
Defined.

Lemma unset_watch_races_witness : exists s0 s,
  start 1 monitor_image [SetWatch (str "/etc"); Activate; UnsetWatch] [life_request] = Ret s0 /\
  rtc (step 10) s0 s /\ crashes 10 s.
Proof.
  destruct (unset_watch_races life_entries 10 life_fs 1 monitor_image (str "/etc") [5] 5 life_request
    life_sample_ok life_dir) as (s0 & s & op & H1 & H2 & H3 & _).
  - constructor; [exact life_block|constructor].
  - apply list_elem_of_here.
  - exact (life_request_ok _).
  - reflexivity.
  - exists s0, s. split; [exact H1|]. split; [exact H2|exact H3].
Defined.

Lemma short_write_crashes_witness : exists s0 s,
  monitor (F := life_fifo cut_accepts) (str "/etc") [life_request] = Ret s0 /\
  rtc (step (F := life_fifo cut_accepts) 10) s0 s /\ crashes (F := life_fifo cut_accepts) 10 s.
Proof.
  destruct (short_write_crashes (F := life_fifo cut_accepts) life_entries 10 life_fs (str "/etc") [5] 5 life_request 15
    life_sample_ok life_dir) as (s0 & s & H1 & H2 & H3 & _).
  - constructor; [exact life_block|constructor].
  - apply list_elem_of_here.
  - exact (life_request_ok _).
  - reflexivity.
  - split; apply Nat.leb_le; reflexivity.
  - reflexivity.
  - exists s0, s. split; [exact H1|]. split; [exact H2|exact H3].
Defined.
